(* ===== verification/_CoqProject ===== *)
-Q . S2P
Prelude.v
PyStr.v
PyRe.v
PyReFacts.v
LintCache.v
DbApi.v
ErrorCodes.v
PyPath.v
Coverage.v
PySetup.v
LintData.v
LintState.v
LintLines.v
LintInclude.v
LintExpr.v
LintChecks.v
LintNesting.v
LintModules.v
LintSpacing.v
LintRValue.v
LintBraces.v
LintLanguage.v
PyGetopt.v
LintMain.v
LintReports.v
LintConfig.v
LintSuppress.v
LintTermination.v
PyUtf8.v
HsTypes.v
HsColumns.v
HsClient.v
HsExt.v
HsDemo.v
HsExtFacts.v
HsExtObjects.v
HsPrint.v
