(* ===== verification/Prelude.v ===== *)
(** * hs2client: a verification development

    hs2client is a client library for HiveServer2 and Impala. Paths below are relative to
    the root of the repository.

    ** The program's parts

    - src/hs2client: a C++ core over Thrift, [Service], [Session], [Operation] and columns.
    - python/hs2client: the Cython binding ext.pyx over the core, the conversion of columns
      to numpy arrays in converters.h, helpers (compat.py), and the base of a DB API layer,
      dbapi.py with error.py, which binds parameters into statements as text.
    - thrift/generate_error_codes.py: generates the error codes of the Thrift interface.
    - build-support/cpplint.py: the style checker of the build, the largest program here.

    A Python program calls ext.pyx; that calls the C++ methods, each of which is one RPC to
    the server; fetched columns go through converters.h to pandas. The scripts stand alone.

    ** The files

    Shared.
    - Prelude: literals, [res] (value or exception), the state and exception monad [M],
      Python indexing, [returns] and [halts] (partial correctness, and coming back).
    - PyStr, PyRe, PyReFacts, PyPath, PyUtf8: what the sources use of Python's [str],
      [re], [os.path] and codecs. PyRe has the syntax, parser and backtracking matcher of
      regular expressions; PyReFacts proves the matcher sound and complete for a
      denotation, which the components use to take a match apart.

    The client. C++ is modelled with release semantics: a DCHECK does nothing.
    - HsTypes: status.h/.cc, types.h/.cc, thrift-internal.cc: statuses, enumerations,
      column types and their conversion from the wire.
    - HsColumns: columnar-row-set.h/.cc and converters.h: null bitmaps, typed columns, the
      conversion loops, with IEEE numbers. Reading behind a bitmap or behind the columns is
      the outcome [Undefined].
    - HsClient: service.cc, session.cc, operation.cc over a type class [Thrift] with an
      operation for each RPC. The class is the interface to the network and the server,
      about which nothing is assumed: an answer is any status and any data, or a failure.
    - HsPrint: util.cc, the table that [PrintResults] writes for the sample program.
    - HsExt: ext.pyx over a store of Python objects, method by method.
    - HsDemo: an instance of [Thrift] that follows a script.
    - HsExtFacts: fetching and waiting. HsExtObjects: the store, closing, executing, the
      schema, the data frame.

    The DB API layer and the scripts.
    - DbApi: error.py ([Errors]) and dbapi.py ([Objects], [Binding]).
    - ErrorCodes: generate_error_codes.py, with its table.
    - Coverage: collect_coverage.py over a type class for the file system. PySetup: setup.py.
    - LintData, LintState, LintLines, LintInclude, LintExpr, LintChecks, LintNesting: the
      first part of cpplint.py: its tables; filters, NOLINT suppressions and error reports;
      the cleansing of comments and strings; include order, function length and file names;
      matching brackets; checks of a file or a line; the nesting of blocks with
      preprocessor conditionals. Blocks are shared objects in a heap.
    - LintSpacing, LintRValue, LintBraces, LintModules, LintLanguage: the second part, the
      style checks: spaces; rvalue references; braces, CHECK macros and the style of a
      line; include lines and missing includes; casts, globals, formats and the other
      rules of the language.
    - LintMain, with PyGetopt for the option parser of Python: [ProcessLine] to [main]. The
      type class [Environment] stands for what the process sees: the files and their text,
      the working directory, the order of dictionaries, the depth of the stack.
      LintReports, LintConfig, LintSuppress and LintTermination are the theorems about that
      whole: what a run may report, which options a file gets, what a NOLINT marker silences,
      and that linting comes back.
    - LintCache: the cache of compiled patterns; the other files use the patterns themselves,
      which is the same ([cache_transparent]).

    ** What the theorems show

    - The client is memory safe at the Python level: in every reachable store every object
      has its C++ object and a living parent on the same connection, and no call meets a
      null pointer or an unset output ([objects_safe]). A close sends one RPC, does nothing
      after it has succeeded and can be repeated after it has failed
      ([operation_close_once]); a failed [execute] leaves nothing ([execute_outcome]).
    - Results are complete: the batches of the server, all and in order, or the first
      failure ([fetchall_batches]); the schema, once; types of the right
      class ([schema_columns]); columns that hold the cells sent ([convert_integer_cells],
      [convert_roundtrip]) and end up under their names ([fetchall_pandas_frame]).
    - Waiting follows its schedule of pauses ([wait_outcome]), and ends when there is a limit
      ([wait_bounded]).
    - The table of a result has one line for each row, aligned, for every batch
      ([print_results_spec]).
    - Faults of the client that the model shows: integers beside a null are rounded
      ([null_rounds_integers]), BINARY values are lost ([binary_values_lost]), waiting for
      an operation that failed does not end ([wait_outcome]), a bound value that looks like
      a marker is substituted into ([qmark_value_is_rescanned]), a result of doubles is not
      printed ([unrecognized_undefined]) and one before other columns shifts them
      ([shifted_titles], [shifted_types]).
    - Parameter binding: each style on every branch, string literals that read back as the
      value. Error codes: the script writes the file exactly for a valid table.
    - cpplint, its parts: suppression and filtering of reports, cleansing against a
      reference definition, include order as sortedness, bracket matching and its
      inverse, file names, an invariant of the heap of blocks, the effect of #if, #else
      and #endif and of lines inside bodies on the stack of blocks, the word or the
      operator a rule of the language reports ([parenthesis_error_spec]).
    - cpplint as a whole: linting a file comes back on every text
      ([process_file_halts]); all a check does to the state is to report and to read
      suppressions, so a file gets reports of its own lines only
      ([process_file_data_reports]); a file leaves the filters as it found them
      ([process_file_restores]); from its turn on a line with a NOLINT marker gets no report of
      that category from any check ([nolint_silences]); the exit code says whether anything was reported
      ([main_exit_code]); and the CPPLINT.cfg files of the directories above a file add
      up to the options stated by [options_for] ([config_overrides_spec]).
    - Where cpplint differs from what it says: the outer line length wins, and leaks into the
      next file ([outer_line_length_wins], [line_length_leaks]); a usage example of the
      text it prints is refused ([usage_example_rejected]); a report made before the turn of its
      line comes through in spite of a marker there ([marker_read_too_late]).

    ** Bounds and fuel

    Loops that are not structural take fuel and end in [Diverges] without it. The
    theorems say how much is enough: [fetchall_batches] the number of batches or calls,
    [wait_bounded] the logarithm of the limit; the loops of cpplint get the length of
    what they consume, and theorems with [halts] show that it does not run out. The
    recursion of cpplint's rvalue check is bounded by the depth of Python's stack
    ([recursion_limit]) and raises there, as Python does.
    [wait_outcome] shows a loop for which no fuel is enough.

    Time in [wait] is counted in twentieths of a second, in integers, and limits are whole
    seconds: the pauses add up to an odd number of twentieths, so the comparison with the
    limit is never close enough for the rounding of the source's floats to matter.
    C integers that come from Python are range checked ([c_int]), bytes are below 256,
    columns carry the numbers of the wire.

    ** Not modelled

    - Tests, samples and logging; the aliases of library functions in compat.py.
    - Thrift itself, pandas, [decimal] and the file system, which are parameters.
    - Case mapping and word characters outside ASCII, allocation failures, the interning of
      equal strings and concurrent calls on an object (the classes are not thread safe). *)

From Stdlib Require Export ZArith NArith Lia Ascii String.
From stdpp Require Export base option list gmap strings.

(** ** Characters and strings

    A Python text string is a list of code points. [raw "..."] is the Python
    literal [r'...'], [py "..."] the literal ['...'] with its escapes
    ([\n], [\r], [\t], [\\], [\'], [\0] and [\xHH]) decoded; the double quote
    is always written [\x22]. *)
Abbreviation char := N.
Abbreviation str := (list N).

Definition ch (a : ascii) : char := N_of_ascii a.

Fixpoint raw (s : string) : str :=
  match s with
  | EmptyString => []
  | String a s => ch a :: raw s
  end.

Definition hex_val (a : ascii) : N :=
  let n := N_of_ascii a in
  if decide (48 ≤ n ∧ n ≤ 57)%N then (n - 48)%N
  else if decide (97 ≤ n ∧ n ≤ 102)%N then (n - 87)%N
  else (n - 55)%N.

Fixpoint py (s : string) : str :=
  match s with
  | EmptyString => []
  | String "\" (String "n" s) => 10%N :: py s
  | String "\" (String "r" s) => 13%N :: py s
  | String "\" (String "t" s) => 9%N :: py s
  | String "\" (String "0" s) => 0%N :: py s
  | String "\" (String "\" s) => 92%N :: py s
  | String "\" (String "'" s) => 39%N :: py s
  | String "\" (String "x" (String h (String l s))) =>
      (16 * hex_val h + hex_val l)%N :: py s
  | String a s => ch a :: py s
  end.

(** Decimal rendering of an integer, Python's [str(n)] and ['%d' % n]. *)
From Stdlib Require DecimalString.
Definition str_of_Z (z : Z) : str :=
  raw (DecimalString.NilZero.string_of_int (Z.to_int z)).

(** ** Errors and effects

    [res E A] is a computation that returns or raises; [M W E A] threads a
    mutable world [W] and keeps the mutations made before an exception, as
    Python does. *)
Inductive res (E A : Type) : Type :=
| Ok (a : A)
| Raise (e : E).
Arguments Ok {E A} a.
Arguments Raise {E A} e.

#[export] Instance res_ret {E} : MRet (res E) := fun A a => Ok a.
#[export] Instance res_bind {E} : MBind (res E) := fun A B f m =>
  match m with Ok a => f a | Raise e => Raise e end.

Definition is_ok {E A} (r : res E A) : bool :=
  match r with Ok _ => true | Raise _ => false end.

Definition M (W E A : Type) : Type := W → res E A * W.

#[export] Instance M_ret {W E} : MRet (M W E) := fun A a w => (Ok a, w).
#[export] Instance M_bind {W E} : MBind (M W E) := fun A B f m w =>
  match m w with
  | (Ok a, w') => f a w'
  | (Raise e, w') => (Raise e, w')
  end.

Definition raiseM {W E A} (e : E) : M W E A := fun w => (Raise e, w).
Definition getM {W E} : M W E W := fun w => (Ok w, w).
Definition modifyM {W E} (f : W → W) : M W E unit := fun w => (Ok (), f w).
Definition liftM {W E A} (r : res E A) : M W E A := fun w => (r, w).
Definition whenM {W E} (b : bool) (m : M W E unit) : M W E unit :=
  if b then m else mret ().

(** [for x in l: body x], left to right. *)
Fixpoint forM {W E A} (l : list A) (body : A → M W E unit) : M W E unit :=
  match l with
  | [] => mret ()
  | x :: l => body x ;; forM l body
  end.

Lemma bind_run {W E A B} (m : M W E A) w1 (f : A → M W E B) (a : A) w :
  m w = (Ok a, w1) → (m ≫= f) w = f a w1.
Proof. intros E0. unfold mbind, M_bind. by rewrite E0. Qed.

Lemma M_bind_ret {W E A B} (a : A) (f : A → M W E B) w :
  (mret a ≫= f) w = f a w.
Proof. reflexivity. Qed.

Lemma M_bind_ok {W E A B} (a : A) (f : A → M W E B) w :
  ((λ w, (Ok a, w)) ≫= f) w = f a w.
Proof. reflexivity. Qed.

Lemma M_bind_assoc {W E A B C} (m : M W E A) (f : A → M W E B) (g : B → M W E C) w :
  ((m ≫= f) ≫= g) w = (m ≫= (λ a, f a ≫= g)) w.
Proof. unfold mbind, M_bind. destruct (m w) as [[a|e] w']; reflexivity. Qed.

(** [returns Q m]: whenever [m] returns, its value satisfies [Q]. *)
Definition returns {W E A} (Q : A → Prop) (m : M W E A) : Prop :=
  ∀ w a w', m w = (Ok a, w') → Q a.

Lemma returns_ret {W E A} (Q : A → Prop) (a : A) : Q a → returns Q (mret a : M W E A).
Proof. by intros Ha w a' w' [= <- <-]. Qed.

Lemma returns_bind {W E A B} (P : A → Prop) (Q : B → Prop) (m : M W E A) (f : A → M W E B) :
  returns P m → (∀ a, P a → returns Q (f a)) → returns Q (m ≫= f).
Proof.
  intros Hm Hf w b w'. unfold mbind, M_bind. destruct (m w) as [[a|e] w1] eqn:E1; [|done].
  intros E2. by apply (Hf a (Hm _ _ _ E1) w1 b w').
Qed.

Lemma returns_any {W E A} (m : M W E A) : returns (λ _, True) m.
Proof. done. Qed.

Lemma returns_lift {W E A} (Q : A → Prop) (r : res E A) :
  (∀ a, r = Ok a → Q a) → returns Q (liftM r : M W E A).
Proof. by intros Hr w a w' [= -> <-]; apply Hr. Qed.

Lemma res_bind_ok {E A B} (m : res E A) (f : A → res E B) b :
  m ≫= f = Ok b ↔ ∃ a, m = Ok a ∧ f a = Ok b.
Proof. destruct m; cbn; split; [eauto|intros (?&[=->]&?); done|done|intros (?&?&?); done]. Qed.

(** ** Python's indices: a negative index counts from the end. *)
Definition norm_index (len i : Z) : Z := if decide (i < 0)%Z then (i + len)%Z else i.

Definition py_index {A} (l : list A) (i : Z) : option A :=
  let j := norm_index (Z.of_nat (length l)) i in
  if decide (j < 0)%Z then None else l !! Z.to_nat j.

Definition clamp_index (len i : Z) : nat :=
  Z.to_nat (Z.min len (Z.max 0 (norm_index len i))).

(** [l[i:j]]. *)
Definition py_slice {A} (l : list A) (i j : Z) : list A :=
  let n := Z.of_nat (length l) in
  let a := clamp_index n i in
  let b := clamp_index n j in
  take (b - a) (drop a l).
Definition slice_from {A} (l : list A) (i : Z) : list A :=
  drop (clamp_index (Z.of_nat (length l)) i) l.
Definition slice_to {A} (l : list A) (j : Z) : list A :=
  take (clamp_index (Z.of_nat (length l)) j) l.

(** Exceptions the Python sources raise or let through. *)
Inductive pyexn : Type :=
| IndexError
| KeyError (k : str)
| ValueError (msg : str)
| TypeError
| AssertionError
| NotImplementedError
| ReError
| AttributeError
| SystemExit (code : Z)
| OverflowError
| UserException (cls : string) (msg : str)
(** Not exceptions: the call does not return; the C++ side has undefined behaviour. *)
| Diverges
| Undefined.

#[export] Instance pyexn_eq_dec : EqDecision pyexn.
Proof. solve_decision. Defined.

(** [halts m]: the call comes back, with a value or an exception. *)
Definition halts {W A} (m : M W pyexn A) : Prop := ∀ w, (m w).1 ≠ Raise Diverges.

Lemma halts_ret {W A} (a : A) : halts (mret a : M W pyexn A).
Proof. done. Qed.
Lemma halts_raise {W A} e : e ≠ Diverges → halts (raiseM e : M W pyexn A).
Proof. intros He w. cbn. congruence. Qed.
Lemma halts_lift {W A} (r : res pyexn A) : r ≠ Raise Diverges → halts (liftM r : M W pyexn A).
Proof. by intros Hr w. Qed.
Lemma halts_when {W} b (m : M W pyexn unit) : halts m → halts (whenM b m).
Proof. destruct b; [done|]. intros _. apply halts_ret. Qed.

Lemma halts_bind {W A B} (Q : A → Prop) (m : M W pyexn A) (f : A → M W pyexn B) :
  halts m → returns Q m → (∀ a, Q a → halts (f a)) → halts (m ≫= f).
Proof.
  intros Hm HQ Hf w. unfold mbind, M_bind. specialize (Hm w).
  destruct (m w) as [[a|e] w'] eqn:E; [|cbn in *; congruence]. by eapply Hf, HQ.
Qed.

Lemma halts_seq {W A B} (m : M W pyexn A) (f : A → M W pyexn B) :
  halts m → (∀ a, halts (f a)) → halts (m ≫= f).
Proof. intros Hm Hf. eapply halts_bind; [done|apply returns_any|auto]. Qed.

Lemma halts_for {W A} (l : list A) (f : A → M W pyexn unit) :
  (∀ a, halts (f a)) → halts (forM l f).
Proof.
  intros Hf. induction l as [|a l IH]; [apply halts_ret|]. by apply halts_seq.
Qed.

Create HintDb halts.
#[export] Hint Resolve halts_ret halts_when halts_lift halts_for : halts.

(** [yields Q m]: from every state the call returns a value, which satisfies [Q]. *)
Definition yields {W E A} (Q : A → Prop) (m : M W E A) : Prop :=
  ∀ w, ∃ a w', m w = (Ok a, w') ∧ Q a.

Lemma yields_ret {W E A} (Q : A → Prop) (a : A) : Q a → yields Q (mret a : M W E A).
Proof. intros Ha w. by exists a, w. Qed.
Lemma yields_done {W E} (u : unit) : yields (λ _, True) (mret u : M W E unit).
Proof. by apply yields_ret. Qed.
Lemma yields_lift {W E A} (Q : A → Prop) (r : res E A) a :
  r = Ok a → Q a → yields Q (liftM r : M W E A).
Proof. intros -> Ha w. by exists a, w. Qed.
Lemma yields_get {W E} : yields (λ _, True) (getM : M W E W).
Proof. intros w. by exists w, w. Qed.
Lemma yields_when {W E} b (m : M W E unit) :
  yields (λ _, True) m → yields (λ _, True) (whenM b m).
Proof. destruct b; [done|]. intros _. by apply yields_ret. Qed.
Lemma yields_weaken {W E A} (P Q : A → Prop) (m : M W E A) :
  yields P m → (∀ a, P a → Q a) → yields Q m.
Proof. intros Hm H w. destruct (Hm w) as (a&w'&E1&Ha). eauto. Qed.

Lemma yields_bind {W E A B} (P : A → Prop) (Q : B → Prop) (m : M W E A) (f : A → M W E B) :
  yields P m → (∀ a, P a → yields Q (f a)) → yields Q (m ≫= f).
Proof.
  intros Hm Hf w. destruct (Hm w) as (a&w1&E1&Ha). destruct (Hf a Ha w1) as (b&w2&E2&Hb).
  exists b, w2. split; [|done]. unfold mbind, M_bind. by rewrite E1.
Qed.

Lemma yields_seq {W E A B} (Q : B → Prop) (m : M W E A) (f : A → M W E B) :
  yields (λ _, True) m → (∀ a, yields Q (f a)) → yields Q (m ≫= f).
Proof. intros Hm Hf. eapply yields_bind; [done|auto]. Qed.

Lemma yields_for {W E A} (l : list A) (body : A → M W E unit) :
  (∀ x, x ∈ l → yields (λ _, True) (body x)) → yields (λ _, True) (forM l body).
Proof.
  induction l as [|x l IH]; intros H; [apply yields_done|]. cbn [forM].
  apply yields_seq; [apply H; by left|]. intros _. apply IH. intros y Hy. apply H. by right.
Qed.

Lemma yields_halts {W A} (Q : A → Prop) (m : M W pyexn A) : yields Q m → halts m.
Proof. intros Hm w. by destruct (Hm w) as (a&w'&->&_). Qed.

Create HintDb yields.
#[export] Hint Resolve yields_done yields_when : yields.

(** Goes through the binds and the branches; [base] solves the calls of the leaves. *)
Ltac yields_go base :=
  repeat first
    [ progress intros | apply yields_done | solve [base] | apply yields_when
    | apply yields_seq | case_match ];
  try solve [by apply yields_ret].

(** An equation at concrete data as an instance of the equation [t] proves. *)
Ltac instance_of t :=
  refine (eq_trans (eq_trans _ t) _); vm_compute; reflexivity.
(** A decidable fact about concrete data. *)
Ltac by_decision := apply (bool_decide_unpack _); vm_compute; exact I.

(** Concatenations to the right, without empty pieces. *)
Ltac norm_app :=
  repeat first [rewrite <- app_assoc | rewrite app_nil_r | progress cbn [app]].
