(* ===== verification/PyStr.v ===== *)
(** * Python's string methods

    The methods of [str]/[unicode] that the modelled sources call, as
    executable functions on lists of code points, with the lemmas the
    components share. White space is Python 2.7's [unicode.isspace]; case
    mapping is the ASCII part of [lower]/[upper]. *)

From S2P Require Import Prelude.

(** ** Tests *)
Fixpoint starts_with (p s : str) : bool :=
  match p, s with
  | [], _ => true
  | _ :: _, [] => false
  | a :: p, b :: s => (a =? b)%N && starts_with p s
  end.

Definition ends_with (p s : str) : bool := starts_with (reverse p) (reverse s).

Definition str_eqb (s t : str) : bool := bool_decide (s = t).

Definition mem_str (s : str) (l : list str) : bool := existsb (str_eqb s) l.

Definition is_space (c : char) : bool :=
  (((9 <=? c) && (c <=? 13)) || ((28 <=? c) && (c <=? 32)) || (c =? 133) || (c =? 160)
  || (c =? 5760) || (c =? 6158) || ((8192 <=? c) && (c <=? 8202))
  || (c =? 8232) || (c =? 8233) || (c =? 8239) || (c =? 8287) || (c =? 12288))%N.

(** ** Searching *)

(** First position at which [sub] occurs, [s.find(sub)]. *)
Fixpoint find_nat (sub s : str) : option nat :=
  if starts_with sub s then Some 0
  else match s with
       | [] => None
       | _ :: s => S <$> find_nat sub s
       end.

Definition find (sub s : str) : Z :=
  match find_nat sub s with Some i => Z.of_nat i | None => -1 end.

(** [s.find(sub, start)] for [0 <= start]. *)
Definition find_at (sub s : str) (start : nat) : Z :=
  match find_nat sub (drop start s) with
  | Some i => if decide (start ≤ length s) then Z.of_nat (start + i) else -1
  | None => -1
  end.

(** [s.rfind(sub)]: the last occurrence. *)
Fixpoint rfind_nat (sub s : str) : option nat :=
  match s with
  | [] => if starts_with sub s then Some 0 else None
  | _ :: s' => match rfind_nat sub s' with
               | Some i => Some (S i)
               | None => if starts_with sub s then Some 0 else None
               end
  end.
Definition rfind (sub s : str) : Z :=
  match rfind_nat sub s with Some i => Z.of_nat i | None => (-1)%Z end.

Definition contains (sub s : str) : bool := bool_decide (is_Some (find_nat sub s)).

(** The scans below share one scheme: [skip] counts the code points still to
    be passed over because they belong to an occurrence already handled. *)

(** [s.count(sub)], non-overlapping, for a non-empty [sub]. *)
Fixpoint count_go (sub : str) (skip : nat) (s : str) : nat :=
  match s with
  | [] => 0
  | _ :: s' =>
      match skip with
      | S k => count_go sub k s'
      | 0 => if starts_with sub s then S (count_go sub (length sub - 1) s')
             else count_go sub 0 s'
      end
  end.
Definition count (sub s : str) : Z := Z.of_nat (count_go sub 0 s).

(** [s.replace(old, new, n)] for a non-empty [old]: the first [n] occurrences. *)
Fixpoint replace_go (old new : str) (n skip : nat) (s : str) : str :=
  match s with
  | [] => []
  | c :: s' =>
      match skip with
      | S k => replace_go old new n k s'
      | 0 => match n with
             | 0 => s
             | S n' => if starts_with old s
                       then new ++ replace_go old new n' (length old - 1) s'
                       else c :: replace_go old new n 0 s'
             end
      end
  end.
Definition replace_n (n : nat) (old new s : str) : str := replace_go old new n 0 s.
Definition replace (old new s : str) : str := replace_go old new (length s) 0 s.

(** [s.split(sep)] for a non-empty [sep]; [acc] is the current piece reversed. *)
Fixpoint split_go (sep : str) (acc : str) (skip : nat) (s : str) : list str :=
  match s with
  | [] => [reverse acc]
  | c :: s' =>
      match skip with
      | S k => split_go sep acc k s'
      | 0 => if starts_with sep s then reverse acc :: split_go sep [] (length sep - 1) s'
             else split_go sep (c :: acc) 0 s'
      end
  end.
Definition split (sep s : str) : list str := split_go sep [] 0 s.

(** [s.split()]: maximal runs of characters that are not white space. *)
Fixpoint split_ws_go (acc : str) (s : str) : list str :=
  match s with
  | [] => match acc with [] => [] | _ => [reverse acc] end
  | c :: s =>
      if is_space c
      then match acc with [] => split_ws_go [] s | _ => reverse acc :: split_ws_go [] s end
      else split_ws_go (c :: acc) s
  end.
Definition split_ws (s : str) : list str := split_ws_go [] s.

(** [sep.join(l)]. *)
Fixpoint join (sep : str) (l : list str) : str :=
  match l with
  | [] => []
  | [s] => s
  | s :: l => s ++ sep ++ join sep l
  end.

(** ** Stripping and case *)
Fixpoint lstrip (s : str) : str :=
  match s with
  | [] => []
  | c :: s' => if is_space c then lstrip s' else s
  end.
Definition rstrip (s : str) : str := reverse (lstrip (reverse s)).
Definition strip (s : str) : str := rstrip (lstrip s).

Definition lower_char (c : char) : char :=
  if ((65 <=? c) && (c <=? 90))%N then (c + 32)%N else c.
Definition upper_char (c : char) : char :=
  if ((97 <=? c) && (c <=? 122))%N then (c - 32)%N else c.
Definition lower (s : str) : str := lower_char <$> s.
Definition upper (s : str) : str := upper_char <$> s.

(** Python 2's order on strings, by code point. *)
Fixpoint str_ltb (s t : str) : bool :=
  match s, t with
  | _, [] => false
  | [], _ :: _ => true
  | a :: s, b :: t => if (a =? b)%N then str_ltb s t else (a <? b)%N
  end.

(** ** Facts *)
Lemma starts_with_spec p s : starts_with p s = true ↔ p `prefix_of` s.
Proof.
  revert s; induction p as [|a p IH]; intros [|b s]; cbn.
  - split; [intros _; apply prefix_nil|done].
  - split; [intros _; apply prefix_nil|done].
  - split; [done|intros H; by apply prefix_nil_not in H].
  - rewrite andb_true_iff, IH, N.eqb_eq. split.
    + intros [-> H]. by apply prefix_cons.
    + intros H. split; [by apply prefix_cons_inv_1 in H|by apply prefix_cons_inv_2 in H].
Qed.

Lemma starts_with_app p s : starts_with p (p ++ s) = true.
Proof. apply starts_with_spec, prefix_app_r, reflexivity. Qed.

Lemma starts_with_head a b p s : a ≠ b → starts_with (a :: p) (b :: s) = false.
Proof. intros Hab. cbn. by rewrite (proj2 (N.eqb_neq _ _)). Qed.

Lemma starts_with_refl p : starts_with p p = true.
Proof. apply starts_with_spec. reflexivity. Qed.

Lemma ends_with_spec p s : ends_with p s = true ↔ p `suffix_of` s.
Proof. unfold ends_with. rewrite starts_with_spec. symmetry. apply suffix_prefix_reverse. Qed.

Lemma str_eqb_eq s t : str_eqb s t = true ↔ s = t.
Proof. unfold str_eqb. apply bool_decide_eq_true. Qed.

Lemma mem_str_spec s l : mem_str s l = true ↔ s ∈ l.
Proof.
  unfold mem_str. rewrite existsb_exists. setoid_rewrite <- list_elem_of_In.
  setoid_rewrite str_eqb_eq. split; [by intros (?&?&->)|by exists s].
Qed.

Lemma find_nat_Some sub s i :
  find_nat sub s = Some i ↔
  sub `prefix_of` drop i s ∧ i ≤ length s ∧ ∀ j, j < i → ¬ sub `prefix_of` drop j s.
Proof.
  revert i; induction s as [|c s IH]; intros i; cbn [find_nat].
  - destruct (starts_with sub []) eqn:E.
    + apply starts_with_spec in E. split; [intros [= <-]|].
      * repeat split; [done|cbn; lia|intros; lia].
      * intros (_&Hi&_). cbn in Hi. f_equal; lia.
    + split; [done|]. intros (H&Hi&_). cbn in Hi. replace i with 0 in H by lia.
      apply starts_with_spec in H. cbn [drop] in H. congruence.
  - destruct (starts_with sub (c :: s)) eqn:E.
    + apply starts_with_spec in E. split; [intros [= <-]|].
      * repeat split; [done|cbn; lia|intros; lia].
      * intros (_&_&H). destruct i; [done|]. exfalso. apply (H 0); [lia|done].
    + assert (E' : ¬ sub `prefix_of` c :: s).
      { rewrite <- starts_with_spec. congruence. }
      rewrite fmap_Some. split.
      * intros (i'&Hi&->). apply IH in Hi as (H1&H2&H3).
        repeat split; [done|cbn; lia|]. intros [|j] Hj; [done|]. apply H3. lia.
      * intros (H1&H2&H3). destruct i as [|i]; [done|]. exists i. split; [|done].
        apply IH. repeat split; [done|cbn in H2; lia|]. intros j Hj. apply (H3 (S j)). lia.
Qed.

Lemma find_nat_None sub s :
  find_nat sub s = None ↔ ∀ j, ¬ sub `prefix_of` drop j s.
Proof.
  induction s as [|c s IH]; cbn [find_nat].
  - destruct (starts_with sub []) eqn:E.
    + apply starts_with_spec in E. split; [done|]. intros H. by destruct (H 0).
    + split; [|done]. intros _ j H. rewrite drop_nil in H.
      apply starts_with_spec in H. congruence.
  - destruct (starts_with sub (c :: s)) eqn:E.
    + apply starts_with_spec in E. split; [done|]. intros H. by destruct (H 0).
    + rewrite fmap_None, IH. split; intros H.
      * intros [|j] Hp; [|by apply (H j)]. apply starts_with_spec in Hp. cbn [drop] in Hp. congruence.
      * intros j. apply (H (S j)).
Qed.

Lemma find_nat_bound sub s i : find_nat sub s = Some i → i + length sub ≤ length s.
Proof.
  intros (Hp&Hi&_)%find_nat_Some. apply prefix_length in Hp. rewrite length_drop in Hp. lia.
Qed.

(** An occurrence splits the string. *)
Lemma find_nat_split sub s i :
  find_nat sub s = Some i → s = take i s ++ sub ++ drop (i + length sub) s.
Proof.
  intros (Hp&Hi&_)%find_nat_Some. destruct Hp as [t Ht].
  rewrite <- drop_drop, Ht, drop_app_length, <- Ht. by rewrite take_drop.
Qed.

Lemma contains_spec sub s : contains sub s = true ↔ ∃ a b, s = a ++ sub ++ b.
Proof.
  unfold contains. rewrite bool_decide_eq_true. split.
  - intros [i Hi]. eexists _, _. by apply find_nat_split.
  - intros (a&b&->). destruct (find_nat sub (a ++ sub ++ b)) as [i|] eqn:E; [by eexists|].
    exfalso. apply (proj1 (find_nat_None _ _) E (length a)). rewrite drop_app_length.
    by apply prefix_app_r.
Qed.

Lemma contains_false sub s : contains sub s = false ↔ find_nat sub s = None.
Proof.
  unfold contains. rewrite bool_decide_eq_false. destruct (find_nat sub s); split;
    [intros []; by eexists|done|done|by intros _ []].
Qed.

Lemma find_neg sub s : (find sub s = -1)%Z ↔ find_nat sub s = None.
Proof. unfold find. destruct (find_nat sub s); split; intros; [lia|done|done|done]. Qed.

Lemma lstrip_spec s :
  ∃ w, s = w ++ lstrip s ∧ Forall (λ c, is_space c = true) w
     ∧ (∀ c t, lstrip s = c :: t → is_space c = false).
Proof.
  induction s as [|c s (w&Hs&Hw&Hh)]; cbn.
  - exists []. repeat split; [constructor|done].
  - destruct (is_space c) eqn:E.
    + exists (c :: w). cbn. rewrite <- Hs. repeat split; [|by eauto]. by constructor.
    + exists []. repeat split; [constructor|]. by intros ?? [= -> ->].
Qed.

Lemma length_lstrip s : length (lstrip s) ≤ length s.
Proof. destruct (lstrip_spec s) as (w&Hs&_). rewrite Hs at 2. rewrite length_app. lia. Qed.

Lemma rstrip_prefix s : rstrip s `prefix_of` s.
Proof.
  unfold rstrip. destruct (lstrip_spec (reverse s)) as (w&Hs&_).
  exists (reverse w). rewrite <- reverse_app, <- Hs. by rewrite reverse_involutive.
Qed.

Lemma join_cons sep s l : l ≠ [] → join sep (s :: l) = s ++ sep ++ join sep l.
Proof. by destruct l. Qed.

(** *** Replacing *)

(** Replacing a one-character pattern is a substitution. *)
Lemma replace_go_char a new n s :
  length s ≤ n → replace_go [a] new n 0 s = s ≫= λ c, if (c =? a)%N then new else [c].
Proof.
  revert n; induction s as [|c s IH]; intros n Hn; [by destruct n|].
  destruct n as [|n]; cbn in Hn; [lia|]. cbn [replace_go starts_with].
  rewrite andb_true_r. rewrite N.eqb_sym. destruct (c =? a)%N eqn:E; csimpl; rewrite E.
  - cbn. by rewrite IH by lia.
  - by rewrite IH by lia.
Qed.

Lemma replace_char a new s :
  replace [a] new s = s ≫= λ c, if (c =? a)%N then new else [c].
Proof. by apply replace_go_char. Qed.

Lemma replace_go_skip old new n k s :
  k ≤ length s → replace_go old new n k s = replace_go old new n 0 (drop k s).
Proof.
  revert s; induction k as [|k IH]; intros s Hk; [by rewrite drop_0|].
  destruct s as [|c s]; cbn in Hk; [lia|]. cbn [replace_go drop]. apply IH. lia.
Qed.

(** [s.replace(old, new, 1)] rewrites the first occurrence. *)
Lemma replace_first old new s i :
  old ≠ [] → find_nat old s = Some i →
  replace_n 1 old new s = take i s ++ new ++ drop (i + length old) s.
Proof.
  intros Hold. unfold replace_n. revert i; induction s as [|c s IH]; intros i; cbn [find_nat].
  - destruct (starts_with old []) eqn:E; [|done]. by destruct old.
  - cbn [replace_go]. destruct (starts_with old (c :: s)) eqn:E.
    + intros [= <-]. cbn [take app Nat.add]. f_equal.
      apply starts_with_spec in E as [t Ht].
      assert (Hl : length old - 1 ≤ length s).
      { apply (f_equal length) in Ht. rewrite length_app in Ht. cbn in Ht. lia. }
      rewrite replace_go_skip by done.
      destruct old as [|o old]; [done|]. cbn in Hl |- *. rewrite Nat.sub_0_r in *.
      by destruct (drop (length old) s).
    + intros (j&Hj&->)%fmap_Some. cbn [take app Nat.add drop]. f_equal. by apply IH.
Qed.

(** Text without the pattern's first character is copied. *)
Lemma replace_go_copy a old new n u s :
  a ∉ u → replace_go (a :: old) new n 0 (u ++ s) = u ++ replace_go (a :: old) new n 0 s.
Proof.
  induction u as [|c u IH]; intros Hu; [done|].
  apply not_elem_of_cons in Hu as [Hc Hu]. destruct n as [|n]; [by destruct s|].
  cbn [app replace_go starts_with].
  rewrite (proj2 (N.eqb_neq a c)) by done. cbn [andb]. by rewrite IH.
Qed.

(** Any bound of at least the length means every occurrence. *)
Lemma replace_go_bound old new n m k s :
  length s ≤ n → length s ≤ m → replace_go old new n k s = replace_go old new m k s.
Proof.
  revert n m k; induction s as [|c s IH]; intros n m k Hn Hm; [done|].
  cbn in Hn, Hm. destruct n as [|n]; [lia|]. destruct m as [|m]; [lia|].
  cbn [replace_go]. destruct k as [|k]; [|apply IH; lia].
  destruct (starts_with old (c :: s)); f_equal; apply IH; lia.
Qed.

(** *** Searching in concatenations *)
Lemma find_nat_prefix_free a sub u s :
  a ∉ u → find_nat (a :: sub) (u ++ s) = Nat.add (length u) <$> find_nat (a :: sub) s.
Proof.
  induction u as [|c u IH]; intros Hu.
  - cbn [app length]. by destruct (find_nat (a :: sub) s).
  - apply not_elem_of_cons in Hu as [Hc Hu]. cbn [app find_nat starts_with].
    rewrite (proj2 (N.eqb_neq a c)) by done. cbn [andb]. rewrite IH by done.
    by destruct (find_nat (a :: sub) s).
Qed.

Lemma contains_app_false sub s t :
  contains sub (s ++ t) = false → contains sub s = false.
Proof.
  intros H. apply not_true_iff_false. intros (a&b&->)%contains_spec.
  apply not_true_iff_false in H. apply H, contains_spec.
  exists a, (b ++ t). by rewrite <- !app_assoc.
Qed.

Lemma contains_char a s : contains [a] s = false ↔ a ∉ s.
Proof.
  rewrite <- not_true_iff_false, contains_spec. split; intros H.
  - intros (l1&l2&->)%list_elem_of_split. apply H. by exists l1, l2.
  - intros (l1&l2&->). apply H. set_solver.
Qed.

(** A pattern of two different characters cannot overlap itself. *)
Lemma find_nat_pair a b u s :
  a ≠ b → contains [a; b] u = false →
  find_nat [a; b] (u ++ [a; b] ++ s) = Some (length u).
Proof.
  intros Hab. induction u as [|c u IH]; intros Hu.
  - cbn. by rewrite !N.eqb_refl.
  - cbn [app find_nat].
    assert (Hh : starts_with [a; b] (c :: u ++ [a; b] ++ s) = false).
    { apply not_true_iff_false. intros Hp. destruct u as [|d u].
      - cbn in Hp. rewrite !andb_true_iff, !N.eqb_eq in Hp. by destruct Hp as (->&->&_).
      - apply not_true_iff_false in Hu. apply Hu, contains_spec. exists [], u.
        cbn in Hp |- *. rewrite !andb_true_iff, !N.eqb_eq in Hp. by destruct Hp as (->&->&_). }
    cbn [app] in Hh. rewrite Hh. cbn [app] in IH. rewrite IH; [done|].
    apply not_true_iff_false. intros (x&y&->)%contains_spec.
    apply not_true_iff_false in Hu. apply Hu, contains_spec. by exists (c :: x), y.
Qed.

Lemma contains_cons sub c s : contains sub (c :: s) = starts_with sub (c :: s) || contains sub s.
Proof.
  unfold contains. cbn [find_nat]. destruct (starts_with sub (c :: s)); cbn [orb].
  - apply bool_decide_eq_true. by eexists.
  - apply bool_decide_ext. apply fmap_is_Some.
Qed.

Lemma contains_pair_sep a b c u w :
  c ≠ a → c ≠ b → contains [a; b] u = false → contains [a; b] w = false →
  contains [a; b] (u ++ c :: w) = false.
Proof.
  intros Ha Hb Hu Hw. induction u as [|d u IH]; cbn [app]; rewrite contains_cons, orb_false_iff.
  - split; [|done]. cbn. by rewrite (proj2 (N.eqb_neq a c)) by done.
  - rewrite contains_cons, orb_false_iff in Hu. destruct Hu as [Hh Hu]. split; [|by apply IH].
    destruct u as [|e u]; cbn in Hh |- *; [|done].
    rewrite (proj2 (N.eqb_neq b c)) by done. cbn. apply andb_false_r.
Qed.

Lemma find_nat_single a u s : a ∉ u → find_nat [a] (u ++ [a] ++ s) = Some (length u).
Proof.
  intros Hu. rewrite find_nat_prefix_free by done. cbn. rewrite N.eqb_refl. cbn. f_equal. lia.
Qed.

(** *** Decimal numerals *)
From Stdlib Require DecimalString DecimalPos.

(** The number a string of digits denotes, read behind the digits of [acc]. *)
Fixpoint dec_val (acc : N) (s : str) : N :=
  match s with
  | [] => acc
  | c :: s => dec_val (10 * acc + (c - 48))%N s
  end.

Definition digit (c : char) : bool := ((48 <=? c) && (c <=? 57))%N.

Lemma dec_val_uint_acc d p :
  dec_val (N.pos p) (raw (DecimalString.NilEmpty.string_of_uint d)) = N.pos (Pos.of_uint_acc d p).
Proof.
  revert p; induction d; intros p; cbn [DecimalString.NilEmpty.string_of_uint raw dec_val Pos.of_uint_acc];
    [done|..]; rewrite <- IHd; f_equal; cbn; lia.
Qed.

Lemma dec_val_uint d :
  dec_val 0 (raw (DecimalString.NilEmpty.string_of_uint d)) = Pos.of_uint d.
Proof.
  induction d; cbn [DecimalString.NilEmpty.string_of_uint raw dec_val Pos.of_uint]; [done|done|..];
    rewrite <- dec_val_uint_acc; f_equal.
Qed.

Lemma uint_digits d :
  Forall (λ c, digit c = true) (raw (DecimalString.NilEmpty.string_of_uint d)).
Proof. induction d; cbn; constructor; done. Qed.

Lemma str_of_Z_pos p :
  str_of_Z (Z.pos p) = raw (DecimalString.NilEmpty.string_of_uint (Pos.to_uint p)).
Proof.
  unfold str_of_Z. cbn [Z.to_int DecimalString.NilZero.string_of_int].
  pose proof (DecimalPos.Unsigned.of_to p) as H.
  unfold DecimalString.NilZero.string_of_uint. by destruct (Pos.to_uint p).
Qed.

Lemma dec_val_str_of_Z z : (0 ≤ z)%Z → Z.of_N (dec_val 0 (str_of_Z z)) = z.
Proof.
  destruct z as [|p|p]; [done| |done]. intros _.
  by rewrite str_of_Z_pos, dec_val_uint, DecimalPos.Unsigned.of_to.
Qed.

Lemma str_of_Z_digits z : (0 ≤ z)%Z → Forall (λ c, digit c = true) (str_of_Z z).
Proof.
  destruct z as [|p|p]; [|intros _; rewrite str_of_Z_pos; apply uint_digits|done].
  intros _. by repeat constructor.
Qed.

Lemma dec_val_bounds s : Forall (λ c, digit c = true) s → ∀ acc,
  (acc * 10 ^ N.of_nat (length s) ≤ dec_val acc s < (acc + 1) * 10 ^ N.of_nat (length s))%N.
Proof.
  unfold digit. induction 1 as [|c s Hc _ IH]; intros acc; [cbn; lia|]. cbn [dec_val length].
  specialize (IH (10 * acc + (c - 48))%N). rewrite Nat2N.inj_succ, N.pow_succ_r'.
  apply andb_true_iff in Hc as [Hl%N.leb_le Hu%N.leb_le].
  assert (c - 48 ≤ 9)%N as Hd by lia. revert IH. generalize (c - 48)%N Hd.
  generalize (10 ^ N.of_nat (length s))%N (dec_val (10 * acc + (c - 48)) s). nia.
Qed.

(** No numeral of a positive number begins with a zero. *)
Lemma str_of_Z_head p : ∃ c s, str_of_Z (Z.pos p) = c :: s ∧ (49 ≤ c ≤ 57)%N.
Proof.
  rewrite str_of_Z_pos. destruct (Pos.to_uint p) as [|d| | | | | | | | |] eqn:E;
    try (eexists _, _; split; [reflexivity|cbn; lia]).
  - by apply DecimalPos.Unsigned.to_uint_nonnil in E.
  - exfalso. pose proof (DecimalPos.Unsigned.to_of (Pos.to_uint p)) as Hn.
    pose proof (DecimalPos.Unsigned.of_to p) as Ho. rewrite Ho in Hn. cbn in Hn.
    rewrite E in Hn. unfold Decimal.unorm in Hn. cbn [Decimal.nzhead] in Hn.
    destruct (Decimal.nzhead d) as [|d'| | | | | | | | |] eqn:Ed; try discriminate.
    + injection Hn as ->. by rewrite E in Ho.
    + clear -Ed. induction d; cbn in Ed; try discriminate. by apply IHd.
Qed.

(** The length of a numeral is the number of digits. *)
Lemma str_of_Z_length p :
  (10 ^ (Z.of_nat (length (str_of_Z (Z.pos p))) - 1) ≤ Z.pos p
   < 10 ^ Z.of_nat (length (str_of_Z (Z.pos p))))%Z.
Proof.
  pose proof (dec_val_str_of_Z (Z.pos p) ltac:(lia)) as Hv.
  pose proof (str_of_Z_digits (Z.pos p) ltac:(lia)) as Hd.
  destruct (str_of_Z_head p) as (c&s&E&Hc). rewrite E in *.
  apply Forall_cons in Hd as [_ Hd]. cbn [dec_val length] in *.
  pose proof (dec_val_bounds s Hd (10 * 0 + (c - 48))%N) as Hb.
  apply (f_equal Z.to_N) in Hv. rewrite N2Z.id in Hv. rewrite Hv in Hb.
  replace (Z.of_nat (S (length s)) - 1)%Z with (Z.of_nat (length s)) by lia.
  rewrite Nat2Z.inj_succ, Z.pow_succ_r by lia.
  assert (Ep : (10 ^ Z.of_nat (length s))%Z = Z.of_N (10 ^ N.of_nat (length s))%N)
    by (by rewrite N2Z.inj_pow, nat_N_Z).
  rewrite Ep. nia.
Qed.

Lemma dec_val_app acc s t : dec_val acc (s ++ t) = dec_val (dec_val acc s) t.
Proof. revert acc; induction s; intros; cbn; auto. Qed.

Lemma dec_val_grows acc s : (acc ≤ dec_val acc s)%N.
Proof. revert acc; induction s as [|c s IH]; intros acc; cbn; [lia|]. pose proof (IH (10 * acc + (c - 48))%N). lia. Qed.

(** Only a larger number's numeral extends a numeral: the reason why numbered
    markers are substituted from the largest down. *)
Lemma numeral_prefix i k t :
  (0 < k)%Z → (k ≤ i)%Z → (∀ c u, t = c :: u → digit c = false) →
  str_of_Z i `prefix_of` str_of_Z k ++ t → i = k.
Proof.
  intros Hk Hi Ht Hp.
  assert (Hpk : str_of_Z i `prefix_of` str_of_Z k).
  { destruct Hp as [r Hr]. apply app_eq_inv in Hr as [(w&Hw&_)|(w&Hw&Hr)]; [by exists w|].
    destruct w as [|c u]; [exists []; by rewrite Hw, !app_nil_r|]. exfalso.
    pose proof (str_of_Z_digits i ltac:(lia)) as Hd.
    rewrite Hw, Forall_app, Forall_cons in Hd. destruct Hd as (_&Hc&_).
    by rewrite (Ht c (u ++ r)) in Hc. }
  destruct Hpk as [w Hw].
  pose proof (dec_val_str_of_Z i ltac:(lia)) as Vi.
  pose proof (dec_val_str_of_Z k ltac:(lia)) as Vk.
  rewrite Hw, dec_val_app in Vk. destruct w as [|c w]; [cbn in Vk; lia|].
  pose proof (dec_val_grows (10 * dec_val 0 (str_of_Z i) + (c - 48))%N w) as Hg. cbn in Vk. lia.
Qed.

(** *** Splitting what [join] has joined *)
Lemma split_go_skip a sep acc u s :
  a ∉ u → split_go (a :: sep) acc 0 (u ++ s) = split_go (a :: sep) (reverse u ++ acc) 0 s.
Proof.
  revert acc; induction u as [|c u IH]; intros acc Hu; [done|].
  apply not_elem_of_cons in Hu as [Hc Hu]. cbn [app split_go starts_with].
  rewrite (proj2 (N.eqb_neq a c)) by done. cbn [andb]. rewrite IH by done.
  by rewrite reverse_cons, <- app_assoc.
Qed.

Lemma split_join_pair a b l :
  a ≠ b → l ≠ [] → Forall (λ u, a ∉ u) l → split [a; b] (join [a; b] l) = l.
Proof.
  intros Hab Hne Hl. unfold split. induction Hl as [|u l Hu Hl IH]; [done|].
  destruct l as [|v l].
  - cbn [join]. rewrite <- (app_nil_r u) at 1. rewrite split_go_skip by done. cbn.
    by rewrite app_nil_r, reverse_involutive.
  - rewrite join_cons, split_go_skip by done.
    change (([a; b] ++ ?x)) with (a :: b :: x). cbn [split_go starts_with].
    rewrite !N.eqb_refl. cbn [andb split_go length Nat.sub]. rewrite IH by done.
    by rewrite app_nil_r, reverse_involutive.
Qed.

Lemma split_go_ne sep acc k s : split_go sep acc k s ≠ [].
Proof.
  revert acc k; induction s as [|c s IH]; intros acc [|k]; cbn [split_go]; try done.
  by destruct (starts_with _ _).
Qed.

Lemma split_go_join a acc s : join [a] (split_go [a] acc 0 s) = reverse acc ++ s.
Proof.
  revert acc; induction s as [|c s IH]; intros acc; [cbn; by rewrite app_nil_r|].
  cbn [split_go starts_with length Nat.sub]. rewrite andb_true_r.
  destruct (N.eqb_spec a c) as [->|_].
  - by rewrite join_cons, IH by apply split_go_ne.
  - rewrite IH. by rewrite reverse_cons, <- app_assoc.
Qed.

Lemma join_split a s : join [a] (split [a] s) = s.
Proof. apply split_go_join. Qed.

(** *** The last occurrence of a character *)
Lemma rfind_nat_char a s :
  match rfind_nat [a] s with
  | Some i => ∃ u t, s = u ++ a :: t ∧ length u = i ∧ a ∉ t
  | None => a ∉ s
  end.
Proof.
  induction s as [|c s IH]; [apply not_elem_of_nil|]. cbn [rfind_nat starts_with].
  destruct (rfind_nat [a] s) as [i|].
  - destruct IH as (u&t&->&<-&Ht). by exists (c :: u), t.
  - rewrite andb_true_r. destruct (N.eqb_spec a c) as [<-|Hc].
    + by exists [], s.
    + apply not_elem_of_cons. done.
Qed.

(** *** The last line of a text *)
Lemma split_go_last a acc s :
  last (split_go [a] acc 0 s) =
  Some (match rfind_nat [a] s with
        | Some i => drop (S i) s
        | None => reverse acc ++ s
        end).
Proof.
  revert acc; induction s as [|c s IH]; intros acc; [cbn; by rewrite app_nil_r|].
  cbn [split_go starts_with rfind_nat length Nat.sub]. rewrite andb_true_r.
  destruct (N.eqb_spec a c) as [->|Hac].
  - rewrite last_cons, IH. by destruct (rfind_nat [c] s).
  - rewrite IH. destruct (rfind_nat [a] s) as [i|]; [done|].
    by rewrite reverse_cons, <- app_assoc.
Qed.

Lemma last_split_nil a s :
  last (split [a] s) = Some [] ↔ s = [] ∨ last s = Some a.
Proof.
  unfold split. rewrite split_go_last. pose proof (rfind_nat_char a s) as H.
  destruct (rfind_nat [a] s) as [i|].
  - destruct H as (u&t&->&<-&Ht). rewrite drop_app_ge by lia.
    replace (S (length u) - length u) with 1 by lia. cbn [drop].
    rewrite last_app_cons, last_cons. rewrite drop_0. split.
    + intros [= ->]. by right.
    + intros [Hn|Hl]; [by destruct u|]. destruct (last t) as [b|] eqn:El.
      * injection Hl as ->. apply last_Some in El as [l ->]. set_solver.
      * by apply last_None in El as ->.
  - cbn. split; [intros [= ->]; by left|]. intros [->|Hl]; [done|].
    apply last_Some in Hl as [l ->]. set_solver.
Qed.
