(* ===== verification/PyRe.v ===== *)
(** * Python's [re]

    Regular expressions as the sources use them: a parser from the pattern
    text to an abstract syntax, the backtracking matcher of [sre] (ordered
    alternation, greedy and lazy repetition, capture groups, look-ahead, back
    references, the zero-width guard of repetitions) and [match], [search] and
    [sub] on top of it. Character classes are those of a pattern compiled
    without the UNICODE flag. Look-behind and named groups do not occur in the sources and are refused by the parser. *)

From S2P Require Import Prelude PyStr.

Local Open Scope N_scope.

(** ** Abstract syntax *)
Inductive cclass := CDigit | CNDigit | CWord | CNWord | CSpace | CNSpace.

Inductive citem :=
| IChar (c : char)
| IRange (a b : char)
| IClass (k : cclass).

Inductive regex :=
| REps
| RChar (c : char)
| RAny
| RSet (neg : bool) (items : list citem)
| RCat (r1 r2 : regex)
| RAlt (r1 r2 : regex)
| RStar (greedy : bool) (r : regex)
| ROpt (greedy : bool) (r : regex)
| RGroup (n : nat) (r : regex)
| RBol
| REol
| RWordB (neg : bool)
| RLook (neg : bool) (r : regex)
| RBackref (n : nat).

Definition RPlus (greedy : bool) (r : regex) : regex := RCat r (RStar greedy r).

(** ** Character classes *)
Definition is_digit (c : char) : bool := (48 <=? c) && (c <=? 57).
Definition is_word (c : char) : bool :=
  is_digit c || ((65 <=? c) && (c <=? 90)) || ((97 <=? c) && (c <=? 122)) || (c =? 95).
Definition is_re_space (c : char) : bool := ((9 <=? c) && (c <=? 13)) || (c =? 32).

Definition in_class (k : cclass) (c : char) : bool :=
  match k with
  | CDigit => is_digit c
  | CNDigit => negb (is_digit c)
  | CWord => is_word c
  | CNWord => negb (is_word c)
  | CSpace => is_re_space c
  | CNSpace => negb (is_re_space c)
  end.

Definition in_item (c : char) (i : citem) : bool :=
  match i with
  | IChar d => c =? d
  | IRange a b => (a <=? c) && (c <=? b)
  | IClass k => in_class k c
  end.

Definition in_set (neg : bool) (items : list citem) (c : char) : bool :=
  xorb neg (existsb (in_item c) items).

(** ** Parser *)

(** What [\c] means: a class, an assertion, a back reference or a literal. *)
Definition class_escape (c : char) : option cclass :=
  match c with
  | 100 => Some CDigit | 68 => Some CNDigit
  | 119 => Some CWord | 87 => Some CNWord
  | 115 => Some CSpace | 83 => Some CNSpace
  | _ => None
  end.

Definition hex_digit (c : char) : option N :=
  if is_digit c then Some (c - 48)
  else if (97 <=? c) && (c <=? 102) then Some (c - 87)
  else if (65 <=? c) && (c <=? 70) then Some (c - 55)
  else None.

(** A literal escape: the code point it denotes and the rest of the pattern. *)
Definition literal_escape (c : char) (s : str) : option (char * str) :=
  match c with
  | 110 => Some (10, s) | 114 => Some (13, s) | 116 => Some (9, s)
  | 102 => Some (12, s) | 118 => Some (11, s) | 97 => Some (7, s)
  | 120 => match s with
           | h :: l :: s => a ← hex_digit h; b ← hex_digit l; Some (16 * a + b, s)
           | _ => None
           end
  | _ => if is_digit c then None else Some (c, s)
  end.

(** One element of a bracket expression, before a possible range. *)
Definition set_elem (s : str) : option (citem * str) :=
  match s with
  | [] => None
  | 92 :: c :: s =>
      match class_escape c with
      | Some k => Some (IClass k, s)
      | None => '(d, s) ← literal_escape c s; Some (IChar d, s)
      end
  | 92 :: [] => None
  | c :: s => Some (IChar c, s)
  end.

(** The items up to the closing bracket; [first]: a [ ] ] is still literal. *)
Fixpoint parse_set (fuel : nat) (first : bool) (s : str) : option (list citem * str) :=
  match fuel with
  | O => None
  | S fuel =>
      match s with
      | 93 :: s' => if first then
                      '(l, s) ← parse_set fuel false s'; Some (IChar 93 :: l, s)
                    else Some ([], s')
      | _ =>
          '(i, s) ← set_elem s;
          match i, s with
          | IChar a, 45 :: b :: s' =>
              if b =? 93 then '(l, s) ← parse_set fuel false s; Some (i :: l, s)
              else '(j, s) ← set_elem (b :: s');
                   match j with
                   | IChar b => if a <=? b
                                then '(l, s) ← parse_set fuel false s; Some (IRange a b :: l, s)
                                else None
                   | _ => None
                   end
          | _, _ => '(l, s) ← parse_set fuel false s; Some (i :: l, s)
          end
      end
  end.

(** [{m}], [{m,}] and [{m,n}], unfolded into the other repetitions. *)
Fixpoint repeat_min (m : nat) (r : regex) (rest : regex) : regex :=
  match m with O => rest | S m => RCat r (repeat_min m r rest) end.
Fixpoint repeat_opt (n : nat) (greedy : bool) (r : regex) : regex :=
  match n with O => REps | S n => ROpt greedy (RCat r (repeat_opt n greedy r)) end.

Fixpoint parse_nat (acc : option nat) (s : str) : option nat * str :=
  match s with
  | c :: s' => if is_digit c
               then parse_nat (Some (10 * default 0 acc + N.to_nat (c - 48)))%nat s'
               else (acc, s)
  | [] => (acc, s)
  end.

(** The bounds of a repetition, [s] being what follows the brace. *)
Definition parse_bounds (s : str) : option (nat * option nat * str) :=
  let '(lo, s) := parse_nat None s in
  match s with
  | 125 :: s => m ← lo; Some (m, Some m, s)
  | 44 :: s => let '(hi, s) := parse_nat None s in
               match s with
               | 125 :: s => Some (default 0%nat lo, hi, s)
               | _ => None
               end
  | _ => None
  end.

Definition repeat_re (greedy : bool) (r : regex) (m : nat) (n : option nat) : regex :=
  repeat_min m r (match n with
                  | Some n => repeat_opt (n - m) greedy r
                  | None => RStar greedy r
                  end).

(** A quantifier after an atom. *)
Definition parse_quant (r : regex) (s : str) : regex * str :=
  match s with
  | 42 :: 63 :: s => (RStar false r, s)
  | 42 :: s => (RStar true r, s)
  | 43 :: 63 :: s => (RPlus false r, s)
  | 43 :: s => (RPlus true r, s)
  | 63 :: 63 :: s => (ROpt false r, s)
  | 63 :: s => (ROpt true r, s)
  | 123 :: t =>
      match parse_bounds t with
      | Some (m, n, 63 :: t) => (repeat_re false r m n, t)
      | Some (m, n, t) => (repeat_re true r m n, t)
      | None => (r, s)
      end
  | _ => (r, s)
  end.

(** [g] is the number of the next capture group. *)
Fixpoint parse_alt (fuel : nat) (g : nat) (s : str) : option (regex * nat * str) :=
  match fuel with
  | O => None
  | S fuel =>
      '(r, g, s) ← parse_cat fuel g s;
      match s with
      | 124 :: s => '(r', g, s) ← parse_alt fuel g s; Some (RAlt r r', g, s)
      | _ => Some (r, g, s)
      end
  end
with parse_cat (fuel : nat) (g : nat) (s : str) : option (regex * nat * str) :=
  match fuel with
  | O => None
  | S fuel =>
      match s with
      | [] | 41 :: _ | 124 :: _ => Some (REps, g, s)
      | _ =>
          '(a, g, s) ← parse_atom fuel g s;
          let '(a, s) := parse_quant a s in
          '(r, g, s) ← parse_cat fuel g s;
          Some (match r with REps => a | _ => RCat a r end, g, s)
      end
  end
with parse_atom (fuel : nat) (g : nat) (s : str) : option (regex * nat * str) :=
  match fuel with
  | O => None
  | S fuel =>
      let close (wrap : regex → regex) (g : nat) (s : str) :=
        '(r, g, s) ← parse_alt fuel g s;
        match s with 41 :: s => Some (wrap r, g, s) | _ => None end in
      match s with
      | 40 :: 63 :: 58 :: s => close (λ r, r) g s
      | 40 :: 63 :: 61 :: s => close (RLook false) g s
      | 40 :: 63 :: 33 :: s => close (RLook true) g s
      | 40 :: 63 :: _ => None
      | 40 :: s => close (RGroup g) (S g) s
      | 91 :: 94 :: s => '(l, s) ← parse_set fuel true s; Some (RSet true l, g, s)
      | 91 :: s => '(l, s) ← parse_set fuel true s; Some (RSet false l, g, s)
      | 94 :: s => Some (RBol, g, s)
      | 36 :: s => Some (REol, g, s)
      | 46 :: s => Some (RAny, g, s)
      | 92 :: 98 :: s => Some (RWordB false, g, s)
      | 92 :: 66 :: s => Some (RWordB true, g, s)
      | 92 :: c :: s =>
          match class_escape c with
          | Some k => Some (RSet false [IClass k], g, s)
          | None => if (49 <=? c) && (c <=? 57) then
                      let n := N.to_nat (c - 48) in
                      match s with
                      | d :: _ => if is_digit d then None
                                  else if (n <? g)%nat then Some (RBackref n, g, s) else None
                      | [] => if (n <? g)%nat then Some (RBackref n, g, s) else None
                      end
                    else '(d, s) ← literal_escape c s; Some (RChar d, g, s)
          end
      | 92 :: [] => None
      | 42 :: _ | 43 :: _ | 63 :: _ | [] => None
      | 123 :: t => match parse_bounds t with
                    | Some _ => None
                    | None => Some (RChar 123, g, t)
                    end
      | c :: s => Some (RChar c, g, s)
      end
  end.

(** [re.compile(p)]; [None] is [re.error]. Every recursive call either
    consumes a code point or goes one of three levels down, so four times the
    pattern's length is fuel enough. *)
Definition compile (p : str) : option regex :=
  match parse_alt (4 * length p + 4) 1 p with
  | Some (r, _, []) => Some r
  | _ => None
  end.

(** A pattern literal of the source, compiled when the module is loaded.
    [RSet false []] matches nothing. *)
Definition rx (p : string) : regex :=
  match compile (raw p) with Some r => r | None => RSet false [] end.

(** The same for a pattern with quotes, written as an escaped literal. *)
Definition pyrx (p : string) : regex := default REps (compile (py p)).
Definition compiles (p : string) : bool :=
  match compile (raw p) with Some _ => true | None => false end.

(** ** Matching *)

(** A position in the subject: the code point before it, the index, the rest. *)
Record cur := Cur { c_prev : option char; c_pos : nat; c_rest : str }.

Definition start_cur (s : str) : cur := Cur None 0 s.

(** The cursor after the code point [a], with [t] left. *)
Definition step_cur (c : cur) (a : char) (t : str) : cur := Cur (Some a) (S (c_pos c)) t.

(** Capture groups, the latest assignment first. *)
Abbreviation caps := (list (nat * (nat * nat))).

Fixpoint get_cap (n : nat) (g : caps) : option (nat * nat) :=
  match g with
  | [] => None
  | (k, p) :: g => if decide (k = n) then Some p else get_cap n g
  end.

Record flags := Flags { f_icase : bool; f_multi : bool }.
Definition noflags : flags := Flags false false.
Definition IGNORECASE : flags := Flags true false.
Definition MULTILINE : flags := Flags false true.

Definition char_eq (fl : flags) (a b : char) : bool :=
  if f_icase fl then lower_char a =? lower_char b else a =? b.

Definition set_ok (fl : flags) (neg : bool) (l : list citem) (c : char) : bool :=
  if f_icase fl
  then xorb neg (existsb (in_item (lower_char c)) l || existsb (in_item (upper_char c)) l)
  else in_set neg l c.

Definition word_at (o : option char) : bool :=
  match o with Some c => is_word c | None => false end.

Definition at_word_boundary (c : cur) : bool :=
  xorb (word_at (c_prev c)) (word_at (head (c_rest c))).

Definition at_bol (fl : flags) (c : cur) : bool :=
  match c_prev c with
  | None => true
  | Some a => f_multi fl && (a =? 10)
  end.

Definition at_eol (fl : flags) (c : cur) : bool :=
  match c_rest c with
  | [] => true
  | [a] => a =? 10
  | a :: _ => f_multi fl && (a =? 10)
  end.

(** Move past the text [w], when the subject goes on with it. *)
Fixpoint skip_text (fl : flags) (w : str) (c : cur) : option cur :=
  match w with
  | [] => Some c
  | a :: w =>
      match c_rest c with
      | b :: t => if char_eq fl a b then skip_text fl w (step_cur c b t) else None
      | [] => None
      end
  end.

Section matcher.
Context (fl : flags) (subject : str).

(** The backtracking matcher in continuation-passing style: [k] is what
    remains to be matched. A repetition that matched the empty text goes on
    with [k] instead of looping, as [sre] does. *)
Fixpoint rmatch {A : Type} (r : regex) (c : cur) (g : caps)
    (k : cur → caps → option A) {struct r} : option A :=
  match r with
  | REps => k c g
  | RChar a => match c_rest c with
               | b :: t => if char_eq fl a b then k (step_cur c b t) g else None
               | [] => None
               end
  | RAny => match c_rest c with
            | b :: t => if b =? 10 then None else k (step_cur c b t) g
            | [] => None
            end
  | RSet neg l => match c_rest c with
                  | b :: t => if set_ok fl neg l b then k (step_cur c b t) g else None
                  | [] => None
                  end
  | RCat r1 r2 => rmatch r1 c g (λ c g, rmatch r2 c g k)
  | RAlt r1 r2 => match rmatch r1 c g k with
                  | Some x => Some x
                  | None => rmatch r2 c g k
                  end
  | ROpt true r => match rmatch r c g k with
                   | Some x => Some x
                   | None => k c g
                   end
  | ROpt false r => match k c g with
                    | Some x => Some x
                    | None => rmatch r c g k
                    end
  | RStar greedy r =>
      (fix star (n : nat) (c : cur) (g : caps) : option A :=
         match n with
         | O => k c g
         | S n =>
             let again (_ : unit) :=
               rmatch r c g (λ c' g', if decide (c_pos c' = c_pos c)
                                      then (if greedy then k c' g' else None)
                                      else star n c' g') in
             if greedy
             then match again () with Some x => Some x | None => k c g end
             else match k c g with Some x => Some x | None => again () end
         end) (S (length (c_rest c))) c g
  | RGroup n r => rmatch r c g (λ c' g', k c' ((n, (c_pos c, c_pos c')) :: g'))
  | RBol => if at_bol fl c then k c g else None
  | REol => if at_eol fl c then k c g else None
  | RWordB neg => if xorb neg (at_word_boundary c) then k c g else None
  | RLook false r => match rmatch r c g (λ _ g', Some g') with
                     | Some g' => k c g'
                     | None => None
                     end
  | RLook true r => match rmatch r c g (λ _ g', Some g') with
                    | Some _ => None
                    | None => k c g
                    end
  | RBackref n => match get_cap n g with
                  | Some (i, j) =>
                      match skip_text fl (take (j - i) (drop i subject)) c with
                      | Some c' => k c' g
                      | None => None
                      end
                  | None => None
                  end
  end.
End matcher.

(** A match object: its span and the captures. *)
Record mobj := Mobj { mo_subject : str; mo_start : nat; mo_end : nat; mo_caps : caps }.

Definition match_at (fl : flags) (r : regex) (s : str) (c : cur) : option mobj :=
  rmatch fl s r c [] (λ c' g, Some (Mobj s (c_pos c) (c_pos c') g)).

(** [pattern.match(s)]. *)
Definition re_match_fl (fl : flags) (r : regex) (s : str) : option mobj :=
  match_at fl r s (start_cur s).
Definition re_match : regex → str → option mobj := re_match_fl noflags.

(** The first match starting at the cursor or later: [rest] is [c_rest c]. *)
Fixpoint search_from (fl : flags) (r : regex) (s : str) (prev : option char) (pos : nat)
    (rest : str) : option mobj :=
  match match_at fl r s (Cur prev pos rest) with
  | Some m => Some m
  | None => match rest with
            | [] => None
            | a :: rest => search_from fl r s (Some a) (S pos) rest
            end
  end.

(** [pattern.search(s)]. *)
Definition re_search_fl (fl : flags) (r : regex) (s : str) : option mobj :=
  search_from fl r s None 0 s.
Definition re_search : regex → str → option mobj := re_search_fl noflags.

Definition span_text (s : str) (p : nat * nat) : str := take (p.2 - p.1) (drop p.1 s).

(** [m.group(n)]: [None] for a group that did not take part in the match. *)
Definition group (m : mobj) (n : nat) : option str :=
  match n with
  | O => Some (span_text (mo_subject m) (mo_start m, mo_end m))
  | _ => span_text (mo_subject m) <$> get_cap n (mo_caps m)
  end.

(** [m.group(n)] where the group always takes part. *)
Definition group_ (m : mobj) (n : nat) : str := default [] (group m n).

(** [pattern.sub(repl, s)], Python 2.7: the scan restarts at the end of the
    previous match, an empty match right behind the previous one is skipped. *)
Fixpoint sub_go (fl : flags) (r : regex) (repl : mobj → str) (s : str)
    (fuel : nat) (copied : nat) (any : bool) (start : nat) : str :=
  match fuel with
  | O => drop copied s
  | S fuel =>
      let prev := match start with O => None | S i => s !! i end in
      if (length s <? start)%nat then drop copied s else
      match search_from fl r s prev start (drop start s) with
      | None => drop copied s
      | Some m =>
          let b := mo_start m in
          let e := mo_end m in
          let next := if decide (e = b) then S e else e in
          if andb (andb (copied =? b)%nat (copied =? e)%nat) any
          then sub_go fl r repl s fuel copied any next
          else span_text s (copied, b) ++ repl m ++ sub_go fl r repl s fuel e true next
      end
  end.

Definition re_sub (r : regex) (repl : mobj → str) (s : str) : str :=
  sub_go noflags r repl s (S (S (length s))) 0 false 0.

(** The matches [r.finditer(s)] goes through. *)
Fixpoint finditer_go (fl : flags) (r : regex) (s : str) (fuel start : nat) : list mobj :=
  match fuel with
  | O => []
  | S fuel =>
      let prev := match start with O => None | S i => s !! i end in
      if (length s <? start)%nat then [] else
      match search_from fl r s prev start (drop start s) with
      | None => []
      | Some m =>
          let next := if decide (mo_end m = mo_start m) then S (mo_end m) else mo_end m in
          m :: finditer_go fl r s fuel next
      end
  end.

Definition re_finditer (r : regex) (s : str) : list mobj :=
  finditer_go noflags r s (S (S (length s))) 0.

(** [re.split] by a pattern without groups that matches no empty text. *)
Fixpoint split_at (s : str) (from : nat) (ms : list mobj) : list str :=
  match ms with
  | [] => [drop from s]
  | m :: ms => span_text s (from, mo_start m) :: split_at s (mo_end m) ms
  end.
Definition re_split (r : regex) (s : str) : list str := split_at s 0 (re_finditer r s).

(** [re.findall] with a pattern of one group. *)
Definition re_findall (r : regex) (s : str) : list str := (λ m, group_ m 1) <$> re_finditer r s.

(** [re.escape]. *)
Definition re_escape (s : str) : str :=
  s ≫= λ c, if is_digit c || ((65 <=? c) && (c <=? 90)) || ((97 <=? c) && (c <=? 122))
            then [c]
            else if c =? 0 then raw "\000" else [92; c].

(** Whether a [match]/[search] succeeded. *)
Definition matched (m : option mobj) : bool :=
  match m with Some _ => true | None => false end.

