(* ===== verification/PyReFacts.v ===== *)
(** * What the matcher decides

    A denotation of regular expressions as relations between cursors, and the
    theorem that the backtracking matcher is sound and complete for it
    (captures aside, for expressions without back references). The components
    use it to turn a successful [match] or [search] into a decomposition of
    the subject. *)

From S2P Require Import Prelude PyStr PyRe.

(** Iteration of a relation, the empty iterations included. *)
Inductive iter (R : cur → cur → Prop) : cur → cur → Prop :=
| iter_refl c : iter R c c
| iter_step c c1 c2 : R c c1 → iter R c1 c2 → iter R c c2.

(** Iteration by steps that consume something. *)
Inductive iter_ne (R : cur → cur → Prop) : cur → cur → Prop :=
| iter_ne_refl c : iter_ne R c c
| iter_ne_step c c1 c2 : R c c1 → c_pos c1 ≠ c_pos c → iter_ne R c1 c2 → iter_ne R c c2.

Section denotation.
Context (fl : flags).

Definition reads (P : char → Prop) (c c' : cur) : Prop :=
  ∃ a t, c_rest c = a :: t ∧ P a ∧ c' = step_cur c a t.

(** [den r c c']: [r] matches the text between [c] and [c']. *)
Fixpoint den (r : regex) (c c' : cur) : Prop :=
  match r with
  | REps => c' = c
  | RChar a => reads (λ b, char_eq fl a b = true) c c'
  | RAny => reads (λ b, b ≠ 10%N) c c'
  | RSet neg l => reads (λ b, set_ok fl neg l b = true) c c'
  | RCat r1 r2 => ∃ c1, den r1 c c1 ∧ den r2 c1 c'
  | RAlt r1 r2 => den r1 c c' ∨ den r2 c c'
  | ROpt _ r => den r c c' ∨ c' = c
  | RStar _ r => iter (den r) c c'
  | RGroup _ r => den r c c'
  | RBol => at_bol fl c = true ∧ c' = c
  | REol => at_eol fl c = true ∧ c' = c
  | RWordB neg => xorb neg (at_word_boundary c) = true ∧ c' = c
  | RLook false r => c' = c ∧ ∃ c1, den r c c1
  | RLook true r => c' = c ∧ ¬ ∃ c1, den r c c1
  | RBackref _ => False
  end.

Fixpoint no_backref (r : regex) : bool :=
  match r with
  | RCat r1 r2 | RAlt r1 r2 => no_backref r1 && no_backref r2
  | RStar _ r | ROpt _ r | RGroup _ r | RLook _ r => no_backref r
  | RBackref _ => false
  | _ => true
  end.

(** The group [n] is somewhere in [r]. *)
Fixpoint has_group (n : nat) (r : regex) : bool :=
  match r with
  | RCat r1 r2 | RAlt r1 r2 => has_group n r1 || has_group n r2
  | RStar _ r | ROpt _ r | RLook _ r => has_group n r
  | RGroup m r => bool_decide (m = n) || has_group n r
  | _ => false
  end.

(** *** A match reads a prefix of the rest. *)
Definition reads_prefix (c c' : cur) : Prop :=
  ∃ w, c_rest c = w ++ c_rest c' ∧ c_pos c' = c_pos c + length w
     ∧ c_prev c' = from_option Some (c_prev c) (last w).

Lemma reads_prefix_refl c : reads_prefix c c.
Proof. exists []. cbn. split_and!; [done|lia|done]. Qed.

Lemma reads_prefix_trans c1 c2 c3 :
  reads_prefix c1 c2 → reads_prefix c2 c3 → reads_prefix c1 c3.
Proof.
  intros (w1&H1&P1&L1) (w2&H2&P2&L2). exists (w1 ++ w2).
  rewrite H1, H2, <- app_assoc, length_app. split_and!; [done|lia|].
  rewrite last_app, L2. by destruct (last w2).
Qed.

Lemma reads_reads_prefix P c c' : reads P c c' → reads_prefix c c'.
Proof. intros (a&t&H&_&->). exists [a]. cbn. split_and!; [done|lia|done]. Qed.

Lemma iter_reads_prefix R c c' :
  (∀ c c', R c c' → reads_prefix c c') → iter R c c' → reads_prefix c c'.
Proof.
  intros HR. induction 1; [apply reads_prefix_refl|]. eauto using reads_prefix_trans.
Qed.

Lemma den_reads_prefix r c c' : den r c c' → reads_prefix c c'.
Proof.
  revert c c'; induction r as
    [|a| |ng l|r1 IH1 r2 IH2|r1 IH1 r2 IH2|gr r IH|gr r IH|n r IH| | |neg|neg r IH|n];
    intros c c'; cbn.
  - intros ->. apply reads_prefix_refl.
  - apply reads_reads_prefix.
  - apply reads_reads_prefix.
  - apply reads_reads_prefix.
  - intros (c1&H1&H2). eauto using reads_prefix_trans.
  - intros []; auto.
  - by apply iter_reads_prefix.
  - intros [H| ->]; [auto|apply reads_prefix_refl].
  - auto.
  - intros [_ ->]. apply reads_prefix_refl.
  - intros [_ ->]. apply reads_prefix_refl.
  - intros [_ ->]. apply reads_prefix_refl.
  - destruct neg; intros [-> _]; apply reads_prefix_refl.
  - done.
Qed.

Lemma reads_prefix_stay c c' : reads_prefix c c' → c_pos c' = c_pos c → c' = c.
Proof.
  intros (w&H&P&L) E. destruct w; [|cbn in P; lia]. cbn in *.
  destruct c, c'; cbn in *. by f_equal.
Qed.

Lemma iter_iter_ne R c c' :
  (∀ c c', R c c' → reads_prefix c c') → iter R c c' → iter_ne R c c'.
Proof.
  intros HR. induction 1 as [|c c1 c2 H _ IH]; [constructor|].
  destruct (decide (c_pos c1 = c_pos c)) as [E|E]; [|by econstructor].
  apply reads_prefix_stay in E as ->; auto.
Qed.

Lemma iter_ne_iter R c c' : iter_ne R c c' → iter R c c'.
Proof. induction 1; econstructor; eauto. Qed.

Lemma reads_prefix_rest c c' :
  reads_prefix c c' → c_pos c' ≠ c_pos c → length (c_rest c') < length (c_rest c).
Proof.
  intros (w&H&P&_) E. rewrite H, length_app.
  destruct w; cbn in *; lia.
Qed.
End denotation.

(** ** Soundness and completeness of the matcher *)
Section adequacy.
Context (fl : flags) (s : str).

(** The loop of a repetition, as a definition of its own. *)
Definition star_go {A : Type} (greedy : bool) (r : regex) (k : cur → caps → option A) :=
  fix star (n : nat) (c : cur) (g : caps) : option A :=
    match n with
    | O => k c g
    | S n =>
        let again (_ : unit) :=
          rmatch fl s r c g (λ c' g', if decide (c_pos c' = c_pos c)
                                      then (if greedy then k c' g' else None)
                                      else star n c' g') in
        if greedy
        then match again () with Some x => Some x | None => k c g end
        else match k c g with Some x => Some x | None => again () end
    end.

Lemma rmatch_star {A : Type} gr r c g (k : cur → caps → option A) :
  rmatch fl s (RStar gr r) c g k = star_go gr r k (S (length (c_rest c))) c g.
Proof. reflexivity. Qed.

(** Matching [r] leaves the captures of the groups it does not have alone. *)
Definition keeps (r : regex) (g g' : caps) : Prop :=
  ∀ n, has_group n r = false → get_cap n g' = get_cap n g.

Lemma keeps_trans r g1 g2 g3 : keeps r g1 g2 → keeps r g2 g3 → keeps r g1 g3.
Proof. intros H1 H2 n Hn. by rewrite H2, H1. Qed.

Definition sound (r : regex) : Prop :=
  ∀ (A : Type) c g (k : cur → caps → option A) x,
    rmatch fl s r c g k = Some x →
    ∃ c' g', (den fl r c c' ∧ keeps r g g') ∧ k c' g' = Some x.

Definition complete (r : regex) : Prop :=
  ∀ (A : Type) c c' g (k : cur → caps → option A),
    den fl r c c' → (∀ g', is_Some (k c' g')) → is_Some (rmatch fl s r c g k).

Lemma star_go_sound {A : Type} gr r (k : cur → caps → option A) n c g x :
  sound r → star_go gr r k n c g = Some x →
  ∃ c' g', (iter (den fl r) c c' ∧ keeps r g g') ∧ k c' g' = Some x.
Proof.
  intros Hr. revert c g. induction n as [|n IH]; intros c g; cbn [star_go].
  { intros H. exists c, g. split; [split; [constructor|done]|done]. }
  assert (Hagain : rmatch fl s r c g (λ c' g', if decide (c_pos c' = c_pos c)
       then (if gr then k c' g' else None) else star_go gr r k n c' g') = Some x →
     ∃ c' g', (iter (den fl r) c c' ∧ keeps r g g') ∧ k c' g' = Some x).
  { intros (c1&g1&[H1 K1]&H2)%Hr. case_decide as E.
    - destruct gr; [|done]. exists c1, g1. split; [split; [|done]|done].
      eapply iter_step; [done|constructor].
    - apply IH in H2 as (c2&g2&[H2 K2]&Hk). exists c2, g2. split; [split|done].
      + by eapply iter_step.
      + by eapply keeps_trans. }
  destruct gr.
  - destruct (rmatch _ _ _ _ _ _) eqn:E; intros [= ->] || intros H; [by apply Hagain|].
    exists c, g. split; [split; [constructor|done]|done].
  - destruct (k c g) eqn:E;
      [intros [= ->]; exists c, g; split; [split; [constructor|done]|done]|].
    apply Hagain.
Qed.

Lemma star_go_complete {A : Type} gr r (k : cur → caps → option A) n c c' g :
  complete r → iter_ne (den fl r) c c' → length (c_rest c) < n →
  (∀ g', is_Some (k c' g')) → is_Some (star_go gr r k n c g).
Proof.
  intros Hr H. revert n g. induction H as [c|c c1 c2 H1 Hne H2 IH]; intros n g Hn Hk.
  - destruct n as [|n]; [lia|]. cbn [star_go]. destruct gr.
    + destruct (rmatch _ _ _ _ _ _); [by eexists|apply Hk].
    + destruct (Hk g) as [x ->]. by eexists.
  - destruct n as [|n]; [lia|]. cbn [star_go].
    assert (Hs : ∀ g, is_Some (rmatch fl s r c g (λ c' g', if decide (c_pos c' = c_pos c)
       then (if gr then k c' g' else None) else star_go gr r k n c' g'))).
    { intros g'. eapply Hr; [done|]. intros g2. rewrite decide_False by done. apply IH; [|done].
      apply den_reads_prefix, reads_prefix_rest in H1; [lia|done]. }
    destruct gr; [by destruct (Hs g) as [x ->]; eexists|].
    destruct (k c g); [by eexists|apply Hs].
Qed.

Local Ltac solve_reads_sound :=
  intros A c g k x; cbn [rmatch]; destruct (c_rest c) as [|b t] eqn:E; [done|];
  case_match eqn:E'; intros H; try done;
  eexists _, _; split; [split; [|done]|exact H]; eexists _, _; split_and!; eauto;
  intros ->; done.

Local Ltac solve_reads_complete :=
  intros A c c' g k (b&t&E&Hp&->) Hk; cbn [rmatch]; rewrite E;
  first [rewrite Hp; apply Hk
        |destruct (N.eqb_spec b 10); [done|apply Hk]].

Local Ltac solve_assert_sound :=
  intros A c g k x; cbn [rmatch]; case_match eqn:E; [|done]; intros H; by exists c, g.

Local Ltac solve_assert_complete :=
  intros A c c' g k [E ->] Hk; cbn [rmatch]; rewrite E; apply Hk.

Lemma sound_complete r : no_backref r = true → sound r ∧ complete r.
Proof.
  induction r as
    [|a| |ng l|r1 IH1 r2 IH2|r1 IH1 r2 IH2|gr r IH|gr r IH|n r IH| | |neg|neg r IH|n];
    cbn [no_backref]; rewrite ?andb_true_iff; intros Hb;
    try destruct (IH1 (proj1 Hb)) as [S1 C1]; try destruct (IH2 (proj2 Hb)) as [S2 C2];
    try destruct (IH Hb) as [HS HC]; split.
  - intros A c g k x H. by exists c, g.
  - intros A c c' g k -> Hk. apply Hk.
  - solve_reads_sound.
  - solve_reads_complete.
  - solve_reads_sound.
  - solve_reads_complete.
  - solve_reads_sound.
  - solve_reads_complete.
  - intros A c g k x (c1&g1&[H1 K1]&(c2&g2&[H2 K2]&Hk)%S2)%S1. exists c2, g2.
    split; [split|done]; [by eexists|]. intros n [Hn1 Hn2]%orb_false_iff. by rewrite K2, K1.
  - intros A c c' g k (c1&H1&H2) Hk. cbn. eapply C1; [done|]. intros g1. by eapply C2.
  - intros A c g k x. cbn. destruct (rmatch _ _ r1 _ _ _) eqn:E.
    + intros [= ->]. apply S1 in E as (c1&g1&[H1 K1]&Hk). exists c1, g1.
      split; [split; [by left|]|done]. intros n [Hn _]%orb_false_iff. by apply K1.
    + intros (c1&g1&[H1 K1]&Hk)%S2. exists c1, g1.
      split; [split; [by right|]|done]. intros n [_ Hn]%orb_false_iff. by apply K1.
  - intros A c c' g k [H|H] Hk; cbn.
    + by destruct (C1 _ _ _ g k H Hk) as [x ->].
    + destruct (rmatch _ _ r1 _ _ _); [done|]. by eapply C2.
  - intros A c g k x. rewrite rmatch_star. intros H.
    by apply (star_go_sound gr r) in H.
  - intros A c c' g k H Hk. rewrite rmatch_star. eapply star_go_complete; [done| |lia|done].
    apply iter_iter_ne; [apply den_reads_prefix|done].
  - intros A c g k x. destruct gr; cbn.
    + destruct (rmatch _ _ r _ _ _) eqn:E.
      * intros [= ->]. apply HS in E as (c1&g1&[H1 K1]&Hk). exists c1, g1.
        split; [split; [by left|done]|done].
      * intros H. exists c, g. split; [split; [by right|done]|done].
    + destruct (k c g) eqn:E.
      * intros [= ->]. exists c, g. split; [split; [by right|done]|done].
      * intros (c1&g1&[H1 K1]&Hk)%HS. exists c1, g1. split; [split; [by left|done]|done].
  - intros A c c' g k H Hk. destruct gr; cbn.
    + destruct (rmatch _ _ r _ _ _) eqn:E; [done|]. destruct H as [H| ->]; [|apply Hk].
      destruct (HC _ _ _ g k H Hk) as [x Hx]. congruence.
    + destruct (k c g) eqn:E; [done|]. destruct H as [H| ->]; [by eapply HC|].
      destruct (Hk g) as [x Hx]. congruence.
  - intros A c g k x (c1&g1&[H1 K1]&Hk)%HS. eexists c1, _. split; [split; [exact H1|]|exact Hk].
    intros m [Hm%bool_decide_eq_false Hr]%orb_false_iff. cbn [get_cap].
    rewrite decide_False by done. by apply K1.
  - intros A c c' g k H Hk. cbn. eapply HC; [done|]. intros g'. apply Hk.
  - solve_assert_sound.
  - solve_assert_complete.
  - solve_assert_sound.
  - solve_assert_complete.
  - solve_assert_sound.
  - solve_assert_complete.
  - intros A c g k x. cbn. destruct neg.
    + destruct (rmatch _ _ r _ _ _) eqn:E; [done|]. intros H. exists c, g.
      split; [split; [|done]|done]. split; [done|]. intros (c1&H1). destruct (HC _ _ _ g (λ _ g', Some g') H1) as [y Hy];
        [by eexists|congruence].
    + destruct (rmatch _ _ r _ _ _) eqn:E; [|done]. intros H.
      apply HS in E as (c1&g1&[H1 K1]&[= <-]).
      exists c, g1. split; [split; [split; [done|by eexists]|exact K1]|exact H].
  - intros A c c' g k. cbn. destruct neg; intros [-> H] Hk.
    + destruct (rmatch _ _ r _ _ _) eqn:E; [|apply Hk].
      apply HS in E as (c1&_&[H1 _]&_). destruct H; by eexists.
    + destruct H as [c1 H1]. destruct (HC _ _ _ g (λ _ g', Some g') H1) as [y ->];
        [by eexists|apply Hk].
  - done.
  - done.
Qed.
End adequacy.

(** ** Equations for the patterns of the sources *)

(** The cursor behind the text [w]. *)
Definition adv (w : str) (c : cur) : cur :=
  Cur (from_option Some (c_prev c) (last w)) (c_pos c + length w) (drop (length w) (c_rest c)).

Lemma adv_nil c : adv [] c = c.
Proof. destruct c. unfold adv. cbn. by rewrite Nat.add_0_r, drop_0. Qed.

Lemma adv_cons a w c t :
  c_rest c = a :: t → adv (a :: w) c = adv w (step_cur c a t).
Proof.
  intros E. unfold adv. rewrite E. cbn. f_equal; [|lia].
  destruct w as [|b w]; [done|]. cbn [last]. by destruct (last (b :: w)) eqn:El; [|apply last_None in El].
Qed.

Lemma adv_app u w c : adv (u ++ w) c = adv w (adv u c).
Proof.
  unfold adv. cbn [c_prev c_pos c_rest]. rewrite last_app, drop_drop, length_app.
  f_equal; [by destruct (last w)|lia].
Qed.

Lemma step_cur_adv a t c : c_rest c = a :: t → step_cur c a t = adv [a] c.
Proof. intros E. rewrite (adv_cons _ _ _ t) by done. by rewrite adv_nil. Qed.

Lemma adv_rest w t c : c_rest c = w ++ t → c_rest (adv w c) = t.
Proof. intros E. cbn. by rewrite E, drop_app_length. Qed.

(** A greedy run over a character set stops behind the longest run, if what
    follows accepts that. *)
Lemma star_set_greedy {A : Type} fl s neg l w t c g (k : cur → caps → option A) x :
  c_rest c = w ++ t →
  Forall (λ b, set_ok fl neg l b = true) w →
  (∀ b u, t = b :: u → set_ok fl neg l b = false) →
  k (adv w c) g = Some x →
  rmatch fl s (RStar true (RSet neg l)) c g k = Some x.
Proof.
  intros E Hw Ht Hk. rewrite rmatch_star.
  assert (Hn : length w < S (length (c_rest c))) by (rewrite E, length_app; lia).
  revert Hn. generalize (S (length (c_rest c))) as n.
  revert c E Hk. induction w as [|a w IH]; intros c E Hk [|n] Hn; cbn [length] in Hn; try lia.
  - rewrite adv_nil in Hk. cbn [star_go rmatch]. cbn [app] in E.
    destruct (c_rest c) as [|b u] eqn:Er; [done|]. by rewrite (Ht b u).
  - apply Forall_cons in Hw as [Ha Hw]. cbn [star_go rmatch]. cbn [app] in E.
    rewrite E, Ha. rewrite decide_False by (cbn; lia).
    rewrite (IH Hw (step_cur c a (w ++ t))); [done|done| |lia].
    by rewrite <- (adv_cons a w c (w ++ t)).
Qed.

(** A search passes over a text at none of whose positions there is a match. *)
Lemma search_from_skip fl r s prev pos u v :
  (∀ p n a w, a ∈ u → match_at fl r s (Cur p n (a :: w)) = None) →
  search_from fl r s prev pos (u ++ v)
  = search_from fl r s (from_option Some prev (last u)) (pos + length u) v.
Proof.
  revert prev pos; induction u as [|a u IH]; intros prev pos Hu.
  - cbn. by rewrite Nat.add_0_r.
  - cbn [app search_from length]. rewrite (Hu prev pos a (u ++ v)) by (left; done).
    rewrite IH by (intros; apply Hu; by right).
    rewrite Nat.add_succ_r. f_equal.
    destruct u as [|b u]; [done|]. cbn [last]. by destruct (last (b :: u)) eqn:El; [|apply last_None in El].
Qed.

(** The cursor at index [i] of a subject. *)
Definition cur_at (s : str) (i : nat) : cur :=
  Cur (match i with O => None | S j => s !! j end) i (drop i s).

(** [rmatch] only looks at the cursor through its fields, so a match at the start
    is a match at the cursor [cur_at s 0]. *)
Lemma start_cur_at s : start_cur s = cur_at s 0.
Proof. reflexivity. Qed.

Lemma matched_iff fl r s c :
  no_backref r = true →
  is_Some (match_at fl r s c) ↔ ∃ c', den fl r c c'.
Proof.
  intros Hr. destruct (sound_complete fl s r Hr) as [HS HC]. unfold match_at. split.
  - intros [m Hm]. apply HS in Hm as (c'&_&[Hd _]&_). by eexists.
  - intros [c' Hd]. eapply HC; [done|]. by eexists.
Qed.

Lemma match_at_span fl r s c m :
  no_backref r = true → match_at fl r s c = Some m →
  ∃ c', den fl r c c' ∧ mo_subject m = s ∧ mo_start m = c_pos c ∧ mo_end m = c_pos c'.
Proof.
  intros Hr Hm. destruct (sound_complete fl s r Hr) as [HS _].
  apply HS in Hm as (c'&g'&[Hd _]&[= <-]). eauto.
Qed.

(** [pattern.search] finds a match iff there is one at some position. *)
Lemma search_from_iff fl r s prev pos rest :
  no_backref r = true →
  is_Some (search_from fl r s prev pos rest) ↔
  ∃ u v c', rest = u ++ v
          ∧ den fl r (Cur (from_option Some prev (last u)) (pos + length u) v) c'.
Proof.
  intros Hr. revert prev pos; induction rest as [|a rest IH]; intros prev pos; cbn [search_from].
  - destruct (match_at fl r s (Cur prev pos [])) as [m|] eqn:E.
    + split; [|by eexists]. intros _.
      destruct (proj1 (matched_iff fl r s _ Hr) ltac:(eexists; exact E)) as [c' Hd].
      exists [], [], c'. cbn. by rewrite Nat.add_0_r.
    + split; [by intros []|]. intros (u&v&c'&Hu&Hd). symmetry in Hu.
      apply app_eq_nil in Hu as [-> ->]. cbn in Hd. rewrite Nat.add_0_r in Hd.
      destruct (proj2 (matched_iff fl r s _ Hr) ltac:(eexists; exact Hd)) as [m Hm]. congruence.
  - destruct (match_at fl r s (Cur prev pos (a :: rest))) as [m|] eqn:E.
    + split; [|by eexists]. intros _.
      destruct (proj1 (matched_iff fl r s _ Hr) ltac:(eexists; exact E)) as [c' Hd].
      exists [], (a :: rest), c'. cbn. by rewrite Nat.add_0_r.
    + rewrite IH. split; intros (u&v&c'&Hu&Hd).
      * exists (a :: u), v, c'. cbn [app length]. rewrite Hu. split; [done|].
        rewrite Nat.add_succ_r. revert Hd. destruct u as [|b u]; [done|].
        cbn [last]. by destruct (last (b :: u)) eqn:El; [|apply last_None in El].
      * destruct u as [|b u].
        { cbn in Hu. subst v. cbn in Hd. rewrite Nat.add_0_r in Hd.
          destruct (proj2 (matched_iff fl r s _ Hr) ltac:(eexists; exact Hd)) as [m Hm]. congruence. }
        cbn [app] in Hu. injection Hu as -> ->. exists u, v, c'. split; [done|].
        cbn [length] in Hd. rewrite Nat.add_succ_r in Hd. revert Hd.
        destruct u as [|d u]; [done|].
        cbn [last]. by destruct (last (d :: u)) eqn:El; [|apply last_None in El].
Qed.

(** The matcher's equations, as rewrite rules that leave repetitions alone. *)
Section equations.
Context {A : Type} (fl : flags) (s : str).
Implicit Types (c : cur) (g : caps) (k : cur → caps → option A).

Lemma rmatch_eps c g k : rmatch fl s REps c g k = k c g.
Proof. reflexivity. Qed.
Lemma rmatch_cat r1 r2 c g k :
  rmatch fl s (RCat r1 r2) c g k = rmatch fl s r1 c g (λ c g, rmatch fl s r2 c g k).
Proof. reflexivity. Qed.
Lemma rmatch_alt r1 r2 c g k :
  rmatch fl s (RAlt r1 r2) c g k
  = match rmatch fl s r1 c g k with Some x => Some x | None => rmatch fl s r2 c g k end.
Proof. reflexivity. Qed.
Lemma rmatch_group n r c g k :
  rmatch fl s (RGroup n r) c g k
  = rmatch fl s r c g (λ c' g', k c' ((n, (c_pos c, c_pos c')) :: g')).
Proof. reflexivity. Qed.
Lemma rmatch_char_cons a b t c g k :
  c_rest c = b :: t →
  rmatch fl s (RChar a) c g k = if char_eq fl a b then k (step_cur c b t) g else None.
Proof. intros E. cbn. by rewrite E. Qed.
Lemma rmatch_char_nil a c g k : c_rest c = [] → rmatch fl s (RChar a) c g k = None.
Proof. intros E. cbn. by rewrite E. Qed.
Lemma rmatch_set_cons neg l b t c g k :
  c_rest c = b :: t →
  rmatch fl s (RSet neg l) c g k = if set_ok fl neg l b then k (step_cur c b t) g else None.
Proof. intros E. cbn. by rewrite E. Qed.
Lemma rmatch_set_nil neg l c g k : c_rest c = [] → rmatch fl s (RSet neg l) c g k = None.
Proof. intros E. cbn. by rewrite E. Qed.
Lemma rmatch_any_cons b t c g k :
  c_rest c = b :: t →
  rmatch fl s RAny c g k = if (b =? 10)%N then None else k (step_cur c b t) g.
Proof. intros E. cbn [rmatch]. by rewrite E. Qed.
Lemma rmatch_bol c g k :
  rmatch fl s RBol c g k = if at_bol fl c then k c g else None.
Proof. reflexivity. Qed.
Lemma rmatch_eol c g k :
  rmatch fl s REol c g k = if at_eol fl c then k c g else None.
Proof. reflexivity. Qed.
Lemma rmatch_wordb neg c g k :
  rmatch fl s (RWordB neg) c g k = if xorb neg (at_word_boundary c) then k c g else None.
Proof. reflexivity. Qed.
End equations.

Lemma search_from_here fl r s prev pos rest m :
  match_at fl r s (Cur prev pos rest) = Some m → search_from fl r s prev pos rest = Some m.
Proof. intros H. destruct rest; cbn [search_from]; by rewrite H. Qed.

Lemma span_text_app a b c i j :
  length a = i → length a + length b = j → span_text (a ++ b ++ c) (i, j) = b.
Proof.
  intros <- <-. unfold span_text. cbn [fst snd]. rewrite drop_app_length, Nat.add_comm.
  rewrite Nat.add_sub. by rewrite take_app_length.
Qed.

(** A literal text in front of a pattern. *)
Fixpoint rlit (w : str) (r : regex) : regex :=
  match w with
  | [] => r
  | a :: w => RCat (RChar a) (rlit w r)
  end.

Lemma rmatch_rlit {A : Type} s w r t c g (k : cur → caps → option A) :
  c_rest c = w ++ t → rmatch noflags s (rlit w r) c g k = rmatch noflags s r (adv w c) g k.
Proof.
  revert c; induction w as [|a w IH]; intros c E; cbn [rlit]; [by rewrite adv_nil|].
  rewrite rmatch_cat. erewrite rmatch_char_cons by exact E.
  cbn [char_eq noflags f_icase]. rewrite N.eqb_refl, (adv_cons _ _ _ (w ++ t)) by done.
  by apply IH.
Qed.

Lemma rmatch_rlit_no {A : Type} s w r c g (k : cur → caps → option A) :
  starts_with w (c_rest c) = false → rmatch noflags s (rlit w r) c g k = None.
Proof.
  revert c; induction w as [|a w IH]; intros c E; [done|]. cbn [rlit]. rewrite rmatch_cat.
  destruct (c_rest c) as [|b t] eqn:Er; [by apply rmatch_char_nil|].
  erewrite rmatch_char_cons by exact Er. cbn [char_eq noflags f_icase starts_with] in *.
  destruct (N.eqb_spec a b) as [->|]; [|done]. by apply IH.
Qed.

(** One or more characters of a set, greedily. *)
Lemma plus_set_greedy {A : Type} fl s neg l w t c g (k : cur → caps → option A) x :
  w ≠ [] → c_rest c = w ++ t →
  Forall (λ b, set_ok fl neg l b = true) w →
  (∀ b u, t = b :: u → set_ok fl neg l b = false) →
  k (adv w c) g = Some x →
  rmatch fl s (RCat (RSet neg l) (RStar true (RSet neg l))) c g k = Some x.
Proof.
  intros Hne E Hw Ht Hk. destruct w as [|a w]; [done|]. apply Forall_cons in Hw as [Ha Hw].
  rewrite rmatch_cat. erewrite rmatch_set_cons by exact E. rewrite Ha.
  eapply (star_set_greedy _ _ _ _ w t); [done|done|done|].
  by rewrite <- (adv_cons _ _ _ (w ++ t)) by exact E.
Qed.

Lemma rmatch_opt_some {A : Type} fl s r c g (k : cur → caps → option A) x :
  rmatch fl s r c g k = Some x → rmatch fl s (ROpt true r) c g k = Some x.
Proof. intros H. cbn [rmatch]. by rewrite H. Qed.
Lemma rmatch_opt_none {A : Type} fl s r c g (k : cur → caps → option A) :
  rmatch fl s r c g k = None → rmatch fl s (ROpt true r) c g k = k c g.
Proof. intros H. cbn [rmatch]. by rewrite H. Qed.

(** *** Taking a successful match apart

    [read w c c']: the match went from [c] to [c'] over the text [w]. The lemmas
    invert one construct each and keep the captures seen so far. *)
Definition read (w : str) (c c' : cur) : Prop := c_rest c = w ++ c_rest c' ∧ c' = adv w c.

Lemma reads_prefix_read c c' : reads_prefix c c' → ∃ w, read w c c'.
Proof.
  intros (w&Hr&Hp&Hl). exists w. split; [done|]. destruct c' as [p' n' r'].
  unfold adv. cbn in *. rewrite Hr, drop_app_length, Hp, Hl.
  done.
Qed.

Section inversion.
Context {A : Type} (fl : flags) (s : str).
Implicit Types (c : cur) (g : caps) (k : cur → caps → option A) (x : A).

Lemma rmatch_plain_inv r c g k x :
  no_backref r = true → rmatch fl s r c g k = Some x →
  ∃ w c' g', read w c c' ∧ den fl r c c' ∧ keeps r g g' ∧ k c' g' = Some x.
Proof.
  intros Hr H. apply (sound_complete fl s r Hr) in H as (c'&g'&[Hd Hk]&H).
  destruct (reads_prefix_read c c') as [w Hw]; [by eapply den_reads_prefix|].
  exists w, c', g'. done.
Qed.

Lemma rmatch_group_inv n r c g k x :
  no_backref r = true → rmatch fl s (RGroup n r) c g k = Some x →
  ∃ w c' g', read w c c' ∧ den fl r c c' ∧ keeps r g g' ∧
    k c' ((n, (c_pos c, c_pos c + length w)) :: g') = Some x.
Proof.
  intros Hr H. rewrite rmatch_group in H.
  apply rmatch_plain_inv in H as (w&c'&g'&Hw&Hd&Hg&H); [|done].
  exists w, c', g'. destruct Hw as [Hw Ha]. rewrite Ha in H. split_and!; try done.
  by rewrite Ha.
Qed.

Lemma rmatch_char_inv a c g k x :
  rmatch noflags s (RChar a) c g k = Some x →
  ∃ c', read [a] c c' ∧ k c' g = Some x.
Proof.
  destruct (c_rest c) as [|b t] eqn:E; [by rewrite rmatch_char_nil|].
  erewrite rmatch_char_cons by exact E. cbn [char_eq noflags f_icase].
  destruct (N.eqb_spec a b) as [->|]; [|done]. intros H. exists (step_cur c b t).
  split; [|done]. split; [done|]. by apply step_cur_adv.
Qed.
End inversion.

(** A cursor of the subject [s]. *)
Definition within (s : str) (c : cur) : Prop :=
  c_rest c = drop (c_pos c) s ∧ c_pos c ≤ length s.

Lemma within_start s : within s (start_cur s).
Proof. split; [done|cbn; lia]. Qed.

Lemma read_within s w c c' : within s c → read w c c' → within s c'.
Proof.
  intros [Hr Hp] [Hw ->]. unfold within. cbn. rewrite Hr, drop_drop. split; [done|].
  apply (f_equal length) in Hw. rewrite Hr, length_app, length_drop in Hw. lia.
Qed.

(** The text of a capture. *)
Lemma span_of_read s c w c' :
  within s c → read w c c' → span_text s (c_pos c, c_pos c + length w) = w.
Proof.
  intros [Hr Hp] [Hw _]. rewrite Hr in Hw. rewrite <- (take_drop (c_pos c) s) at 1. rewrite Hw.
  apply span_text_app; rewrite length_take; lia.
Qed.

Lemma read_rest w c c' : read w c c' → c_rest c = w ++ c_rest c'.
Proof. by intros []. Qed.

(** *** Patterns that are a sequence of parts, some of them captured *)
Inductive part := Plain (r : regex) | Cap (n : nat) (r : regex).

Definition part_body (p : part) : regex := match p with Plain r | Cap _ r => r end.
Definition part_re (p : part) : regex := match p with Plain r => r | Cap n r => RGroup n r end.

Fixpoint parts_re (ps : list part) : regex :=
  match ps with
  | [] => REps
  | [p] => part_re p
  | p :: ps => RCat (part_re p) (parts_re ps)
  end.

(** No back references; the group of a part is in no later part. *)
Fixpoint parts_ok (ps : list part) : bool :=
  match ps with
  | [] => true
  | p :: ps =>
      no_backref (part_body p) &&
      match p with
      | Plain _ => true
      | Cap n _ => forallb (λ q, negb (has_group n (part_re q))) ps
      end && parts_ok ps
  end.

(** The parts match the texts [ws] one after the other from [c] to [c']. *)
Fixpoint parts_den (fl : flags) (ps : list part) (c : cur) (ws : list str) (c' : cur) : Prop :=
  match ps, ws with
  | [], [] => c' = c
  | p :: ps, w :: ws =>
      ∃ c1, read w c c1 ∧ den fl (part_body p) c c1 ∧ parts_den fl ps c1 ws c'
  | _, _ => False
  end.

Lemma read_nil c : read [] c c.
Proof. split; [done|by rewrite adv_nil]. Qed.

Lemma parts_den_read fl ps c ws c' : parts_den fl ps c ws c' → read (concat ws) c c'.
Proof.
  revert c ws; induction ps as [|p ps IH]; intros c [|w ws]; cbn; try done.
  - intros ->. apply read_nil.
  - intros (c1&[H1 ->]&_&[H2 ->]%IH). split.
    + by rewrite H1, H2, <- app_assoc.
    + by rewrite adv_app.
Qed.

Lemma parts_den_cons fl p ps c ws c' :
  parts_den fl (p :: ps) c ws c' →
  ∃ w ws' c1, ws = w :: ws' ∧ read w c c1 ∧ den fl (part_body p) c c1 ∧
    parts_den fl ps c1 ws' c'.
Proof. destruct ws as [|w ws]; [intros []|]. intros (c1&?&?&?). by exists w, ws, c1. Qed.

Lemma parts_den_nil fl c ws c' : parts_den fl [] c ws c' → ws = [] ∧ c' = c.
Proof. destruct ws; [done|intros []]. Qed.

(** Turns [parts_den] of a pattern into the texts of its parts. *)
Ltac read_parts H :=
  lazymatch type of H with
  | parts_den _ [] _ _ _ =>
      let E := fresh "E" in apply parts_den_nil in H as [-> E]
  | parts_den _ (_ :: _) _ _ _ =>
      let w := fresh "w" in let ws' := fresh "ws" in let c := fresh "c" in
      let Hr := fresh "Hr" in let Hd := fresh "Hd" in
      apply parts_den_cons in H as (w & ws' & c & -> & Hr & Hd & H);
      cbn [part_body] in Hd; read_parts H
  end.

(** What is known of the captures behind the parts. *)
Definition captured (s : str) (ps : list part) (ws : list str) (g g' : caps) : Prop :=
  (∀ n, forallb (λ q, negb (has_group n (part_re q))) ps = true → get_cap n g' = get_cap n g) ∧
  ∀ i n r w, ps !! i = Some (Cap n r) → ws !! i = Some w →
    span_text s <$> get_cap n g' = Some w.

Lemma part_inv {A : Type} fl s p c g (k : cur → caps → option A) x :
  no_backref (part_body p) = true → within s c →
  rmatch fl s (part_re p) c g k = Some x →
  ∃ w c1 g1, read w c c1 ∧ den fl (part_body p) c c1 ∧ captured s [p] [w] g g1 ∧
    k c1 g1 = Some x.
Proof.
  intros Hb Hw H. destruct p as [r|n r]; cbn [part_re part_body] in *.
  - apply rmatch_plain_inv in H as (w&c1&g1&Hr&Hd&Hk&H); [|done]. exists w, c1, g1.
    split_and!; [done|done| |done]. split.
    + intros n Hn. apply Hk. cbn in Hn. by destruct (has_group n r).
    + by intros [|[|i]] ? ? ? ?.
  - apply rmatch_group_inv in H as (w&c1&g1&Hr&Hd&Hk&H); [|done]. exists w, c1.
    eexists. split_and!; [done|done| |exact H]. split.
    + intros m Hm. cbn in Hm. rewrite andb_true_r in Hm.
      apply negb_true_iff, orb_false_iff in Hm as [Hm%bool_decide_eq_false Hm2].
      cbn [get_cap]. rewrite decide_False by done. by apply Hk.
    + intros [|[|i]] ? ? ? [=] [=]. subst. cbn [get_cap]. rewrite decide_True by done.
      cbn. f_equal. by eapply span_of_read.
Qed.

Lemma captured_cons s p ps w ws g g1 g2 :
  parts_ok (p :: ps) = true →
  captured s [p] [w] g g1 → captured s ps ws g1 g2 → captured s (p :: ps) (w :: ws) g g2.
Proof.
  intros Hok [K1 C1] [K2 C2]. cbn in Hok. apply andb_true_iff in Hok as [Hok _].
  apply andb_true_iff in Hok as [_ Hok]. split.
  - intros n Hn. cbn in Hn. apply andb_true_iff in Hn as [Hn1 Hn2]. rewrite K2 by done.
    apply K1. cbn. by rewrite Hn1.
  - intros [|i] n r v Hp Hv; [|by eapply C2]. injection Hp as ->. rewrite K2 by done.
    by apply (C1 0 n r v).
Qed.

Lemma parts_inv {A : Type} fl s ps c g (k : cur → caps → option A) x :
  parts_ok ps = true → within s c →
  rmatch fl s (parts_re ps) c g k = Some x →
  ∃ ws c' g', parts_den fl ps c ws c' ∧ captured s ps ws g g' ∧ k c' g' = Some x.
Proof.
  revert c g; induction ps as [|p ps IH]; intros c g Hok Hw H.
  { exists [], c, g. split; [done|]. split; [split; [done|by intros ? ? ? ? ?]|done]. }
  assert (H' : rmatch fl s (part_re p) c g (λ c g, rmatch fl s (parts_re ps) c g k) = Some x)
    by (destruct ps; exact H).
  clear H. pose proof Hok as Hok'. cbn in Hok'.
  apply andb_true_iff in Hok' as [Hok1 Hok2]. apply andb_true_iff in Hok1 as [Hb _].
  apply part_inv in H' as (w&c1&g1&Hr&Hd&Hc&H); [|done|done].
  apply IH in H as (ws&c'&g'&Hds&Hcs&H); [|done|by eapply read_within].
  exists (w :: ws), c', g'. split_and!; [by exists c1|by eapply captured_cons|done].
Qed.

(** A successful [match]: the subject in pieces, the captures among them. *)
Lemma re_match_parts_all r s ps m :
  r = parts_re ps → parts_ok ps = true → re_match r s = Some m →
  ∃ ws c', s = concat ws ++ c_rest c' ∧ parts_den noflags ps (start_cur s) ws c' ∧
    group m 0 = Some (concat ws) ∧
    ∀ i n r w, ps !! i = Some (Cap (S n) r) → ws !! i = Some w → group m (S n) = Some w.
Proof.
  intros -> Hok H. apply parts_inv in H as (ws&c'&g'&Hd&[_ Hc]&[= <-]);
    [|done|apply within_start].
  exists ws, c'. apply parts_den_read in Hd as Hw.
  split_and!; [by destruct Hw|done| |].
  - cbn [group mo_subject mo_start mo_end]. f_equal. destruct Hw as [Hr ->].
    eapply (span_of_read s (start_cur s)); [apply within_start|by split].
  - intros i n r w Hp Hi. cbn [group mo_caps mo_subject]. by eapply Hc.
Qed.

Lemma re_match_parts r s ps m :
  r = parts_re ps → parts_ok ps = true → re_match r s = Some m →
  ∃ ws c', s = concat ws ++ c_rest c' ∧ parts_den noflags ps (start_cur s) ws c' ∧
    ∀ i n r w, ps !! i = Some (Cap (S n) r) → ws !! i = Some w → group m (S n) = Some w.
Proof.
  intros Hr Hok H. destruct (re_match_parts_all _ _ _ _ Hr Hok H) as (ws&c'&?&?&_&?). eauto.
Qed.

Lemma parts_den_length fl ps c ws c' : parts_den fl ps c ws c' → length ws = length ps.
Proof.
  revert c ws; induction ps as [|p ps IH]; intros c [|w ws]; cbn; try done.
  intros (c1&_&_&H). f_equal. by eapply IH.
Qed.

(** A captured text is part of the subject. *)
Lemma group_le r s ps m i n q :
  r = parts_re ps → parts_ok ps = true → ps !! i = Some (Cap (S n) q) → re_match r s = Some m →
  length (group_ m (S n)) ≤ length s.
Proof.
  intros Hr Hok Hi H. destruct (re_match_parts _ _ _ _ Hr Hok H) as (ws&c'&Es&Hd&Hg).
  destruct (lookup_lt_is_Some_2 ws i) as [w Hw].
  { rewrite (parts_den_length _ _ _ _ _ Hd). by eapply lookup_lt_Some. }
  unfold group_. rewrite (Hg _ _ _ _ Hi Hw). cbn [default from_option]. unfold id.
  rewrite Es, length_app. apply list_elem_of_lookup_2, list_elem_of_split in Hw as (l1&l2&->).
  rewrite concat_app. cbn [concat]. rewrite !length_app. lia.
Qed.

(** *** Where a search finds its match *)
Lemma search_from_inv r s prev pos rest m :
  within s (Cur prev pos rest) → search_from noflags r s prev pos rest = Some m →
  ∃ c, within s c ∧ match_at noflags r s c = Some m.
Proof.
  revert prev pos; induction rest as [|a rest IH]; intros prev pos Hw; cbn [search_from].
  - destruct (match_at _ _ _ _) eqn:E; [|done]. intros [= <-]. eauto.
  - destruct (match_at _ _ _ _) eqn:E; [intros [= <-]; eauto|]. apply IH.
    destruct Hw as [Hr Hp]. cbn in *. unfold within. cbn.
    assert (Hlt : pos < length s).
    { apply (f_equal length) in Hr. rewrite length_drop in Hr. cbn in Hr. lia. }
    split; [|lia]. replace (S pos) with (pos + 1) by lia. by rewrite <- drop_drop, <- Hr.
Qed.

Lemma re_search_inv r s m :
  re_search r s = Some m → ∃ c, within s c ∧ match_at noflags r s c = Some m.
Proof. apply search_from_inv. apply within_start. Qed.

Lemma finditer_inv r s m :
  m ∈ re_finditer r s → ∃ c, within s c ∧ match_at noflags r s c = Some m.
Proof.
  unfold re_finditer. generalize (S (S (length s))) 0.
  intros fuel. induction fuel as [|fuel IH]; intros start; cbn [finditer_go].
  { intros []%elem_of_nil. }
  destruct (length s <? start)%nat eqn:El; [intros []%elem_of_nil|].
  apply Nat.ltb_ge in El. cbv zeta.
  destruct (search_from noflags r s _ start (drop start s)) as [m'|] eqn:E;
    [|intros []%elem_of_nil].
  intros [->|H]%elem_of_cons; [|by eapply IH]. eapply search_from_inv; [|exact E]. by split.
Qed.

(** A match anywhere: the pieces and the captures. *)
Lemma match_at_parts r s ps c m :
  r = parts_re ps → parts_ok ps = true → within s c → match_at noflags r s c = Some m →
  ∃ ws c', parts_den noflags ps c ws c' ∧ mo_end m = c_pos c' ∧
    ∀ i n r w, ps !! i = Some (Cap (S n) r) → ws !! i = Some w → group m (S n) = Some w.
Proof.
  intros -> Hok Hw H. apply parts_inv in H as (ws&c'&g'&Hd&[_ Hc]&[= <-]); [|done|done].
  exists ws, c'. split_and!; [done|done|]. intros i n r w Hp Hi.
  cbn [group mo_caps mo_subject]. by eapply Hc.
Qed.

(** The texts of the simplest parts. *)
Lemma read_length w c c' : read w c c' → c_pos c' = c_pos c + length w.
Proof. by intros [_ ->]. Qed.

Lemma read_stay w c : read w c c → w = [].
Proof. intros H%read_length. destruct w; [done|cbn in H; lia]. Qed.

Lemma read_step w c a t : c_rest c = a :: t → read w c (step_cur c a t) → w = [a].
Proof.
  intros E [Hr Hp]. rewrite E in Hr. assert (length w = 1).
  { apply (f_equal c_pos) in Hp. cbn in Hp. lia. }
  destruct w as [|b [|]]; try done. by injection Hr as ->.
Qed.

Lemma den_char_read a w c c' : den noflags (RChar a) c c' → read w c c' → w = [a].
Proof.
  intros (b&t&E&Hb&->) H. cbn in Hb. apply N.eqb_eq in Hb as ->. by eapply read_step.
Qed.

Lemma den_set_read fl neg l w c c' :
  den fl (RSet neg l) c c' → read w c c' → ∃ a, w = [a] ∧ set_ok fl neg l a = true.
Proof. intros (b&t&E&Hb&->) H. exists b. split; [|done]. by eapply read_step. Qed.

Lemma den_bol_read fl w c c' : den fl RBol c c' → read w c c' → w = [].
Proof. intros [_ ->]. apply read_stay. Qed.

(** The end of a subject without newlines. *)
Lemma den_eol_read w c c' :
  den noflags REol c c' → read w c c' → 10%N ∉ c_rest c → w = [] ∧ c_rest c' = [].
Proof.
  intros [He ->] Hr%read_stay Hnl. split; [done|]. cbn in He. unfold at_eol in He.
  destruct (c_rest c) as [|b [|b' t]]; [done| |by cbn in He].
  apply N.eqb_eq in He as ->. set_solver.
Qed.

Lemma parts_den_app fl ps qs c ws c' :
  parts_den fl (ps ++ qs) c ws c' →
  ∃ ws1 ws2 c1, ws = ws1 ++ ws2 ∧ parts_den fl ps c ws1 c1 ∧ parts_den fl qs c1 ws2 c'.
Proof.
  revert c ws; induction ps as [|p ps IH]; intros c ws.
  - intros H. by exists [], ws, c.
  - destruct ws as [|w ws]; [intros []|]. intros (c1&Hr&Hd&H).
    destruct (IH _ _ H) as (ws1&ws2&c2&->&H1&H2). exists (w :: ws1), ws2, c2.
    split_and!; [done| |done]. by exists c1.
Qed.

(** A pattern up to the end, on a line: the parts are the whole line. *)
Lemma re_match_line r s ps m :
  r = parts_re (ps ++ [Plain REol]) → parts_ok (ps ++ [Plain REol]) = true →
  10%N ∉ s → re_match r s = Some m →
  ∃ ws c', s = concat ws ∧ parts_den noflags ps (start_cur s) ws c' ∧
    ∀ i n r w, ps !! i = Some (Cap (S n) r) → ws !! i = Some w → group m (S n) = Some w.
Proof.
  intros Hr Hok Hnl H. destruct (re_match_parts _ _ _ _ Hr Hok H) as (ws&c'&Es&Hd&Hg).
  apply parts_den_app in Hd as (ws1&ws2&c1&->&Hd1&Hd2).
  apply parts_den_cons in Hd2 as (w&ws'&c2&->&Hw&He&Hn). apply parts_den_nil in Hn as [-> ->].
  assert (Hc1 : c_rest c1 = w ++ c_rest c2) by (by destruct Hw).
  destruct (den_eol_read _ _ _ He Hw) as [-> Hend].
  { rewrite Hc1. intros Hin. apply Hnl. rewrite Es, concat_app. cbn [concat].
    rewrite app_nil_r, <- app_assoc. apply elem_of_app. by right. }
  exists ws1, c1. split_and!; [|done|].
  - rewrite Es, Hend, concat_app. cbn [concat]. by norm_app.
  - intros i n q u Hp Hu. eapply Hg; [by apply lookup_app_l_Some|by apply lookup_app_l_Some].
Qed.

Lemma den_rlit w r c c' : den noflags (rlit w r) c c' → den noflags r (adv w c) c'.
Proof.
  revert c; induction w as [|a w IH]; intros c; cbn [rlit]; [by rewrite adv_nil|].
  intros (c1&(b&t&E&Hb&->)&H). cbn in Hb. apply N.eqb_eq in Hb as ->.
  rewrite (adv_cons _ _ _ t) by done. by apply IH.
Qed.

Lemma den_star_set_read fl gr neg l w c c' :
  den fl (RStar gr (RSet neg l)) c c' → read w c c' →
  Forall (λ a, set_ok fl neg l a = true) w.
Proof.
  cbn. intros H. revert w; induction H as [c|c c1 c2 H _ IH]; intros w Hw.
  { by apply read_stay in Hw as ->. }
  destruct H as (b&t&E&Hb&->). destruct Hw as [Hw1 Hw2]. rewrite E in Hw1.
  destruct w as [|a w].
  - rewrite adv_nil in Hw2. assert (c2 = c) as -> by done. cbn in Hw1.
    constructor.
  - injection Hw1 as -> Hw1. constructor; [done|]. apply IH. split; [done|].
    by rewrite <- (adv_cons a w c t).
Qed.

(** A run of at least one character of a set. *)
Lemma den_plus_set_read fl gr neg l w c c' :
  den fl (RPlus gr (RSet neg l)) c c' → read w c c' →
  ∃ a v, w = a :: v ∧ Forall (λ a, set_ok fl neg l a = true) w.
Proof.
  intros (c1&H1&H2) Hr.
  destruct (reads_prefix_read _ _ (den_reads_prefix _ _ _ _ H1)) as [u Hu].
  destruct (reads_prefix_read _ _ (den_reads_prefix _ _ _ _ H2)) as [v Hv]. destruct (den_set_read _ _ _ _ _ _ H1 Hu) as (a&->&Ha).
  pose proof (den_star_set_read _ _ _ _ _ _ _ H2 Hv) as Hf. exists a, v.
  assert (w = a :: v) as ->; [|split; [done|by constructor]].
  destruct Hu as [Eu ->], Hv as [Ev ->], Hr as [Ew Ec].
  assert (Hlen : length w = S (length v)).
  { apply (f_equal c_pos) in Ec. cbn in Ec. lia. }
  rewrite Ev in Eu. cbn [app] in Eu. rewrite Eu in Ew.
  apply (f_equal (take (S (length v)))) in Ew. rewrite <- Hlen in Ew at 2.
  rewrite take_app_length in Ew. rewrite <- Ew. cbn [take]. f_equal.
  by rewrite take_app_length.
Qed.

Lemma den_star_any_read fl gr w c c' :
  den fl (RStar gr RAny) c c' → read w c c' → 10%N ∉ w.
Proof.
  cbn. intros H. revert w; induction H as [c|c c1 c2 H _ IH]; intros w Hw.
  { apply read_stay in Hw as ->. apply not_elem_of_nil. }
  destruct H as (b&t&E&Hb&->). destruct Hw as [Hw1 Hw2]. rewrite E in Hw1.
  destruct w as [|a w].
  - apply not_elem_of_nil.
  - injection Hw1 as -> Hw1. apply not_elem_of_cons. split; [done|]. apply IH. split; [done|].
    by rewrite <- (adv_cons a w c t).
Qed.

(** *** Alternatives between words *)
Fixpoint lit (w : str) : regex :=
  match w with
  | [] => REps
  | [a] => RChar a
  | a :: w => RCat (RChar a) (lit w)
  end.

Fixpoint alts (ws : list str) : regex :=
  match ws with
  | [] => REps
  | [w] => lit w
  | w :: ws => RAlt (lit w) (alts ws)
  end.

Lemma den_lit_read w c c' : den noflags (lit w) c c' → c' = adv w c ∧ read w c c'.
Proof.
  revert c; induction w as [|a w IH]; intros c.
  { intros ->. split; [by rewrite adv_nil|apply read_nil]. }
  assert (Hstep : ∀ c1, den noflags (RChar a) c c1 → ∃ t, c_rest c = a :: t ∧ c1 = step_cur c a t).
  { intros c1 (b&t&E&Hb&->). cbn in Hb. apply N.eqb_eq in Hb as ->. eauto. }
  destruct w as [|b w].
  - intros (t&E&->)%Hstep. rewrite (step_cur_adv a t c E). split; [done|]. split; [|done].
    by rewrite (adv_rest [a] t c E).
  - change (lit (a :: b :: w)) with (RCat (RChar a) (lit (b :: w))).
    intros (c1&(t&E&->)%Hstep&[Hc' Hr]%IH). rewrite (adv_cons a (b :: w) c t E).
    split; [done|]. destruct Hr as [Hr Hc]. split; [|by rewrite (adv_cons a (b :: w) c t E)].
    rewrite E. cbn [c_rest step_cur] in Hr. by rewrite Hr.
Qed.

Lemma read_unique w1 w2 c c' : read w1 c c' → read w2 c c' → w1 = w2.
Proof.
  intros H1 H2. pose proof (read_length _ _ _ H1) as L1. pose proof (read_length _ _ _ H2) as L2.
  destruct H1 as [E1 _], H2 as [E2 _]. rewrite E1 in E2.
  apply app_inj_1 in E2 as [-> _]; [done|lia].
Qed.

Lemma den_alts_read ws w c c' :
  ws ≠ [] → den noflags (alts ws) c c' → read w c c' → w ∈ ws.
Proof.
  intros Hne Hd Hr. induction ws as [|v ws IH]; [done|]. destruct ws as [|u ws].
  - apply den_lit_read in Hd as [_ Hv]. rewrite (read_unique _ _ _ _ Hr Hv). by left.
  - destruct Hd as [Hd|Hd].
    + apply den_lit_read in Hd as [_ Hv]. rewrite (read_unique _ _ _ _ Hr Hv). by left.
    + right. by apply IH.
Qed.

(** *** Substituting single characters *)
Section sub_set.
Context (neg : bool) (l : list citem) (repl : mobj → str) (rep : str).
Hypothesis repl_const : ∀ m, repl m = rep.
Abbreviation ok := (set_ok noflags neg l).

Lemma match_set_yes s p n a w :
  ok a = true → match_at noflags (RSet neg l) s (Cur p n (a :: w)) = Some (Mobj s n (S n) []).
Proof. intros Ha. unfold match_at. erewrite rmatch_set_cons by done. by rewrite Ha. Qed.

Lemma match_set_no s p n a w :
  ok a = false → match_at noflags (RSet neg l) s (Cur p n (a :: w)) = None.
Proof. intros Ha. unfold match_at. erewrite rmatch_set_cons by done. by rewrite Ha. Qed.

Lemma search_set_none s prev n u :
  Forall (λ a, ok a = false) u → search_from noflags (RSet neg l) s prev n u = None.
Proof.
  intros Hu. revert prev n; induction Hu as [|a u Ha _ IH]; intros prev n; [done|].
  cbn [search_from]. by rewrite match_set_no.
Qed.

Lemma search_set_some s prev n u a v :
  Forall (λ a, ok a = false) u → ok a = true →
  search_from noflags (RSet neg l) s prev n (u ++ a :: v)
  = Some (Mobj s (n + length u) (S (n + length u)) []).
Proof.
  intros Hu Ha. revert prev n; induction Hu as [|b u Hb _ IH]; intros prev n.
  - cbn [app search_from length]. by rewrite match_set_yes, Nat.add_0_r.
  - cbn [app search_from length]. rewrite match_set_no by done. rewrite IH.
    by rewrite Nat.add_succ_r.
Qed.

Definition sub_char (a : char) : str := if ok a then rep else [a].

Lemma sub_char_none u : Forall (λ a, ok a = false) u → u ≫= sub_char = u.
Proof.
  induction 1 as [|a u Ha _ IH]; [done|]. csimpl. rewrite IH. unfold sub_char. by rewrite Ha.
Qed.

Lemma split_set u :
  Forall (λ a, ok a = false) u ∨
  ∃ v a w, u = v ++ a :: w ∧ Forall (λ a, ok a = false) v ∧ ok a = true.
Proof.
  induction u as [|b u IH]; [by left; constructor|]. destruct (ok b) eqn:Eb.
  - right. by exists [], b, u.
  - destruct IH as [IH|(v&a&w&->&Hv&Ha)]; [left; by constructor|right].
    exists (b :: v), a, w. split_and!; [done|by constructor|done].
Qed.

Lemma sub_go_set s fuel p any :
  p ≤ length s → length s - p < fuel →
  sub_go noflags (RSet neg l) repl s fuel p any p = drop p s ≫= sub_char.
Proof.
  revert p any; induction fuel as [|fuel IH]; intros p any Hp Hf; [lia|].
  cbn [sub_go]. rewrite (proj2 (Nat.ltb_ge _ _)) by done.
  destruct (split_set (drop p s)) as [Hn|(v&a&w&E&Hv&Ha)].
  { rewrite search_set_none by done. by rewrite sub_char_none. }
  rewrite E, search_set_some by done. cbn [mo_start mo_end].
  assert (Hlen : length s = p + (length v + S (length w))).
  { apply (f_equal length) in E. rewrite length_drop, length_app in E. cbn in E. lia. }
  rewrite decide_False by lia.
  replace (p =? S (p + length v))%nat with false by (symmetry; apply Nat.eqb_neq; lia).
  rewrite andb_false_r. cbn [andb]. rewrite repl_const, IH by lia.
  replace (span_text s (p, p + length v)) with v.
  - rewrite bind_app. csimpl. rewrite (sub_char_none v Hv).
    assert (sub_char a = rep) as -> by (unfold sub_char; by rewrite Ha).
    do 3 f_equal. replace (S (p + length v)) with (p + (length v + 1)) by lia.
    rewrite <- drop_drop, E, <- drop_drop, drop_app_length. done.
  - unfold span_text. cbn [fst snd]. rewrite E.
    replace (p + length v - p) with (length v) by lia. by rewrite take_app_length.
Qed.

Lemma re_sub_set s : re_sub (RSet neg l) repl s = s ≫= sub_char.
Proof. unfold re_sub. rewrite sub_go_set by lia. done. Qed.
End sub_set.

Create Rewrite HintDb rmatch.
#[export] Hint Rewrite @rmatch_eps @rmatch_cat @rmatch_alt @rmatch_group @rmatch_bol @rmatch_eol
  @rmatch_wordb : rmatch.

#[global] Arguments rmatch : simpl never.
