(* ===== verification/LintCache.v ===== *)
(** * cpplint.py: the cache of compiled patterns

    [Match], [Search] and [ReplaceAll] keep the patterns they have compiled. The rest of the
    development uses the patterns without a cache; the theorem here is the reason why it can. *)

From S2P Require Import Prelude PyStr PyRe.

Abbreviation regexp_cache := (gmap str regex).
Abbreviation caching := (M regexp_cache pyexn).

(** The lines the three functions share: the entry of the pattern, made if there is none. *)
Definition cached (pattern : str) : caching regex :=
  cache ← getM;
  whenM (bool_decide (cache !! pattern = None))
    match compile pattern with
    | Some r => modifyM (λ cache, <[pattern := r]> cache)
    | None => raiseM ReError
    end ;;
  cache ← getM;
  match cache !! pattern with Some r => mret r | None => raiseM (KeyError pattern) end.

Definition Match (pattern s : str) : caching (option mobj) :=
  r ← cached pattern; mret (re_match r s).
(** The replacement text is one without backslashes. *)
Definition ReplaceAll (pattern rep s : str) : caching str :=
  r ← cached pattern; mret (re_sub r (λ _, rep) s).
Definition Search (pattern s : str) : caching (option mobj) :=
  r ← cached pattern; mret (re_search r s).

(** * Theorems *)

(** An entry is its pattern, compiled. *)
Definition cache_ok (cache : regexp_cache) : Prop :=
  map_Forall (λ p r, compile p = Some r) cache.

(** The cache after a call. *)
Definition remembers (pattern : str) (cache : regexp_cache) : regexp_cache :=
  match compile pattern with Some r => <[pattern := r]> cache | None => cache end.

Lemma remembers_ok pattern cache : cache_ok cache → cache_ok (remembers pattern cache).
Proof.
  intros Hc. unfold remembers. destruct (compile pattern) as [r|] eqn:E; [|done].
  by apply map_Forall_insert_2.
Qed.

Lemma cached_spec pattern cache :
  cache_ok cache →
  cached pattern cache
  = (match compile pattern with Some r => Ok r | None => Raise ReError end, remembers pattern cache).
Proof.
  intros Hc. unfold cached, remembers, mbind, M_bind, getM.
  destruct (cache !! pattern) as [r|] eqn:E.
  - rewrite (Hc _ _ E). cbv iota beta. rewrite insert_id by done.
    rewrite bool_decide_eq_false_2 by done. cbn [whenM mret M_ret]. by rewrite E.
  - rewrite bool_decide_eq_true_2 by done. cbn [whenM].
    destruct (compile pattern) as [r|]; [|done]. unfold modifyM. by rewrite lookup_insert_eq.
Qed.

(** Whatever has been called before, the three functions do what they would do without a
    cache: they raise for a pattern that cannot be compiled and use the compiled pattern
    otherwise; and each entry of the cache stays the compiled form of its key. *)
Inductive reachable : regexp_cache → Prop :=
| reachable_empty : reachable ∅
| reachable_match p s cache : reachable cache → reachable (Match p s cache).2
| reachable_search p s cache : reachable cache → reachable (Search p s cache).2
| reachable_replace p rep s cache : reachable cache → reachable (ReplaceAll p rep s cache).2.

Definition direct {A} (f : regex → A) (pattern : str) : res pyexn A :=
  match compile pattern with Some r => Ok (f r) | None => Raise ReError end.

Lemma through_cache {A} (f : regex → A) pattern cache :
  cache_ok cache →
  (r ← cached pattern; mret (f r)) cache = (direct f pattern, remembers pattern cache).
Proof.
  intros Hc. unfold mbind, M_bind. rewrite (cached_spec _ _ Hc). unfold direct.
  by destruct (compile pattern).
Qed.

Lemma reachable_ok cache : reachable cache → cache_ok cache.
Proof.
  induction 1; [apply map_Forall_empty|..];
    (unfold Match, Search, ReplaceAll; rewrite through_cache by done; by apply remembers_ok).
Qed.

Theorem cache_transparent cache pattern rep s :
  reachable cache →
  (Match pattern s cache).1 = direct (λ r, re_match r s) pattern ∧
  (Search pattern s cache).1 = direct (λ r, re_search r s) pattern ∧
  (ReplaceAll pattern rep s cache).1 = direct (λ r, re_sub r (λ _, rep) s) pattern ∧
  map_Forall (λ p r, compile p = Some r) cache.
Proof.
  intros Hr%reachable_ok. unfold Match, Search, ReplaceAll. by rewrite !through_cache by done.
Qed.
