(* ===== verification/DbApi.v ===== *)
(** * dbapi.py and error.py: parameter binding of the DB API layer

    [Errors] is the exception hierarchy of error.py; [Objects] the abstract
    [Connection] and [Cursor] classes as method tables; [Binding] the functions
    that put parameters into a statement. *)

From S2P Require Import Prelude PyStr PyRe PyReFacts.

(** ** error.py *)
Module Errors.
Inductive exc_class : Type :=
| Exception
| Error
| Warning
| InterfaceError
| DatabaseError
| InternalError
| OperationalError
| ProgrammingError
| IntegrityError
| DataError
| NotSupportedError.

#[export] Instance exc_class_eq_dec : EqDecision exc_class.
Proof. solve_decision. Defined.

(** The class statement's base, [None] at the root. *)
Definition base (c : exc_class) : option exc_class :=
  match c with
  | Exception => None
  | Error => Some Exception
  | Warning => Some Exception
  | InterfaceError => Some Error
  | DatabaseError => Some Error
  | InternalError => Some DatabaseError
  | OperationalError => Some DatabaseError
  | ProgrammingError => Some DatabaseError
  | IntegrityError => Some DatabaseError
  | DataError => Some DatabaseError
  | NotSupportedError => Some DatabaseError
  end.

(** [issubclass(c, d)]: the chain of bases has at most four classes. *)
Fixpoint issubclass_n (n : nat) (c d : exc_class) : bool :=
  bool_decide (c = d) ||
  match n, base c with
  | S n, Some b => issubclass_n n b d
  | _, _ => false
  end.
Definition issubclass (c d : exc_class) : bool := issubclass_n 4 c d.

Inductive extends : exc_class → exc_class → Prop :=
| extends_refl c : extends c c
| extends_base c b d : base c = Some b → extends b d → extends c d.
End Errors.

(** ** Connection and Cursor *)
Module Objects.
(** The globals of the module. *)
Definition AUTH_MECHANISMS : list str := [py "NOSASL"; py "PLAIN"; py "GSSAPI"; py "LDAP"].
Definition apilevel : str := py "2.0".
Definition threadsafety : Z := 1.
Definition paramstyle : str := py "pyformat".

(** The exception classes that are attributes of [Connection]. *)
Definition error_attributes : list (str * Errors.exc_class) :=
  [(py "Error", Errors.Error); (py "Warning", Errors.Warning);
   (py "InterfaceError", Errors.InterfaceError); (py "DatabaseError", Errors.DatabaseError);
   (py "InternalError", Errors.InternalError); (py "OperationalError", Errors.OperationalError);
   (py "ProgrammingError", Errors.ProgrammingError); (py "IntegrityError", Errors.IntegrityError);
   (py "DataError", Errors.DataError); (py "NotSupportedError", Errors.NotSupportedError)].

(** [self.service._iprot.trans], which a subclass supplies: one of thrift_sasl, with its
    mechanism, or another one. *)
Inductive transport :=
| TSaslClientTransport (mechanism : str)
| OtherTransport.
(** [importable]: whether thrift_sasl can be imported. *)
Definition kerberized (importable : bool) (trans : option transport) : res pyexn bool :=
  if negb importable then Raise (UserException "ImportError" (py "thrift_sasl")) else
  match trans with
  | None => Raise AttributeError
  | Some (TSaslClientTransport mechanism) =>
      if str_eqb mechanism (py "GSSAPI") then Ok true else Ok false
  | Some OtherTransport => Ok false
  end.

Section objects.
(** [W]: the state the methods of a subclass work on. *)
Context {W : Type}.

Abbreviation method := (M W pyexn unit).

Definition not_implemented {A} : M W pyexn A := raiseM NotImplementedError.

(** The methods of [Connection] a subclass has to supply. *)
Record Connection := {
  conn_close : method;
  conn_commit : method;
  conn_rollback : method;
  conn_cursor : method;
  conn_reconnect : method }.

Definition base_Connection : Connection := {|
  conn_close := not_implemented;
  conn_commit := not_implemented;
  conn_rollback := not_implemented;
  conn_cursor := not_implemented;
  conn_reconnect := not_implemented |}.

Record Cursor := {
  cur_description : method;
  cur_rowcount : method;
  cur_query_string : method;
  cur_get_arraysize : method;
  cur_set_arraysize : Z → method;
  cur_buffersize : method;
  cur_has_result_set : method;
  cur_close : method;
  cur_close_operation : method;
  cur_execute : str → method;
  cur_execute_sync : method;
  cur_reset_state : method;
  cur_wait_to_finish : method;
  cur_executemany : str → method;
  cur_fetchone : method;
  cur_fetchmany : option Z → method;
  cur_fetchall : method;
  cur_setinputsizes : method;
  cur_setoutputsize : method;
  cur_iter : method;
  cur_next : method;
  cur_ping : method;
  cur_get_log : method;
  cur_get_profile : method;
  cur_get_summary : method;
  cur_build_summary_table : method }.

Definition base_Cursor : Cursor := {|
  cur_description := not_implemented;
  cur_rowcount := not_implemented;
  cur_query_string := not_implemented;
  cur_get_arraysize := not_implemented;
  cur_set_arraysize _ := not_implemented;
  cur_buffersize := not_implemented;
  cur_has_result_set := not_implemented;
  cur_close := not_implemented;
  cur_close_operation := not_implemented;
  cur_execute _ := not_implemented;
  cur_execute_sync := not_implemented;
  cur_reset_state := not_implemented;
  cur_wait_to_finish := not_implemented;
  cur_executemany _ := not_implemented;
  cur_fetchone := not_implemented;
  cur_fetchmany _ := not_implemented;
  cur_fetchall := not_implemented;
  cur_setinputsizes := not_implemented;
  cur_setoutputsize := not_implemented;
  cur_iter := not_implemented;
  cur_next := not_implemented;
  cur_ping := not_implemented;
  cur_get_log := not_implemented;
  cur_get_profile := not_implemented;
  cur_get_summary := not_implemented;
  cur_build_summary_table := not_implemented |}.

(** Python 2's [next] forwards to [__next__]. *)
Definition cursor_next (self : Cursor) : method := cur_next self.

(** [__exit__]: close, then re-raise the exception the block ended with. *)
Definition exit_with (close : method) (exc : option pyexn) : method :=
  close ;;
  match exc with
  | Some e => raiseM e
  | None => mret ()
  end.
Definition connection_exit (self : Connection) := exit_with (conn_close self).
Definition cursor_exit (self : Cursor) := exit_with (cur_close self).

(** [with self: body], [__enter__] being the identity: the body's result
    or exception goes through [__exit__]. *)
Definition with_statement (exit : option pyexn → method) (body : method) : method := λ w,
  match body w with
  | (Ok _, w) => exit None w
  | (Raise e, w) => exit (Some e) w
  end.
End objects.
Arguments Connection : clear implicits.
Arguments Cursor : clear implicits.
End Objects.

(** ** Binding of parameters *)
Module Binding.
Abbreviation result := (res pyexn).

(** A parameter value. [PObject] stands for any other object, by the text
    [str(value)] gives. *)
Inductive pvalue : Type :=
| PNone
| PString (s : str)
| PInt (z : Z)
| PObject (shown : str).

Inductive params : Type :=
| PList (l : list pvalue)
| PTuple (l : list pvalue)
| PDict (d : gmap str pvalue)
| POther.

Definition _escape (s : str) : str :=
  let e := s in
  let e := replace (py "\\") (py "\\\\") e in
  let e := replace (py "\n") (py "\\n") e in
  let e := replace (py "\r") (py "\\r") e in
  let e := replace (py "\'") (py "\\\'") e in
  let e := replace (py "\x22") (py "\\\x22") e in
  e.

(** What both binders make of a value. *)
Definition string_parameter (v : pvalue) : str :=
  match v with
  | PNone => py "NULL"
  | PString s => py "\'" ++ _escape s ++ py "\'"
  | PInt z => str_of_Z z
  | PObject s => s
  end.

Definition ProgrammingError (msg : str) : pyexn := UserException "ProgrammingError" msg.

Definition bindings_error (marker_index param_count : nat) : pyexn :=
  ProgrammingError
    (py "Incorrect number of bindings supplied. The current statement uses "
     ++ str_of_Z (Z.of_nat marker_index + 1) ++ py " or more, and there are "
     ++ str_of_Z (Z.of_nat param_count) ++ py " supplied.").

(** The [while] loop of [replace_markers]; [rest] is [parameters] from
    [marker_index] on, so the loop ends when it is used up. *)
Fixpoint replace_markers_loop (marker : str) (param_count marker_index : nat)
    (rest : list str) (op : str) : result (nat * str) :=
  if decide (find marker op > -1)%Z then
    match rest with
    | p :: rest =>
        replace_markers_loop marker param_count (S marker_index) rest
          (replace_n 1 marker p op)
    | [] => Raise (bindings_error marker_index param_count)
    end
  else Ok (marker_index, op).

Definition replace_markers (marker op : str) (parameters : list str) : result str :=
  let param_count := length parameters in
  '(marker_index, op) ← replace_markers_loop marker param_count 0 parameters op;
  if decide (marker_index ≠ 0 ∧ marker_index ≠ param_count)
  then Raise (bindings_error marker_index param_count)
  else Ok op.

(** [for index in range(len(string_parameters), 0, -1)]: [l] is the list
    reversed, so its head belongs to index [length l]. *)
Fixpoint replace_numbered (l : list str) (operation : str) : str :=
  match l with
  | [] => operation
  | p :: l =>
      replace_numbered l
        (replace (py ":" ++ str_of_Z (Z.of_nat (S (length l)))) p operation)
  end.

Definition _replace_numeric_markers (operation : str) (string_parameters : list str)
    : result str :=
  operation ← replace_markers (py "?") operation string_parameters;
  operation ← replace_markers (raw "%s") operation string_parameters;
  Ok (replace_numbered (reverse string_parameters) operation).

Definition _bind_parameters_list (operation : str) (parameters : list pvalue) : result str :=
  let string_parameters := string_parameter <$> parameters in
  _replace_numeric_markers operation string_parameters.

(** *** [format % mapping]

    Python's formatting operator (CPython 3's [unicode_format]) with a
    dictionary of strings on the right. [str_of_dict] and [repr] stand for
    [str(mapping)] and [repr(s)]. *)
Section percent.
Local Open Scope N_scope.
Context (str_of_dict : gmap str str → str) (repr : str → str).

(** The object the next conversion takes. *)
Inductive farg := FDict | FStr (s : str) | FUsed.

Record fspec := FSpec { fs_left : bool; fs_width : nat; fs_prec : option nat; fs_type : char }.

(** The parenthesised key, nested parentheses counted. *)
Fixpoint format_key (depth : nat) (s : str) : option (str * str) :=
  match s with
  | [] => None
  | c :: s =>
      if c =? 41 then
        match depth with
        | O => Some ([], s)
        | S d => '(k, s) ← format_key d s; Some (c :: k, s)
        end
      else '(k, s) ← format_key (if c =? 40 then S depth else depth) s;
           Some (c :: k, s)
  end.

Fixpoint format_flags (lft : bool) (s : str) : bool * str :=
  match s with
  | c :: s' => if c =? 45 then format_flags true s'
               else if (c =? 43) || (c =? 32) || (c =? 35) || (c =? 48)
                    then format_flags lft s' else (lft, s)
  | [] => (lft, s)
  end.

(** Width, precision and length modifier, then the conversion character.
    [None]: a [*], which would need an integer argument. *)
Definition format_spec (s : str) : option (option fspec * str) :=
  let '(lft, s) := format_flags false s in
  if bool_decide (head s = Some 42) then None else
  let '(w, s) := parse_nat None s in
  let after_prec (p : option nat) (s : str) :=
    let s := match s with c :: s' => if (c =? 104) || (c =? 108) || (c =? 76)
                                     then s' else s
                        | [] => s end in
    match s with
    | c :: s => Some (Some (FSpec lft (default 0%nat w) p c), s)
    | [] => Some (None, s)
    end in
  match s with
  | 46 :: s => if bool_decide (head s = Some 42) then None
               else let '(p, s) := parse_nat None s in after_prec (Some (default 0%nat p)) s
  | _ => after_prec None s
  end.

Definition pad (f : fspec) (s : str) : str :=
  let s := match fs_prec f with Some p => take p s | None => s end in
  let fill := repeat 32 (fs_width f - length s) in
  if fs_left f then s ++ fill else fill ++ s.

Definition convert (d : gmap str str) (f : fspec) (a : farg) : result str :=
  let c := fs_type f in
  let numeric := existsb (N.eqb c) (raw "diuoxXeEfFgG") in
  let bad := Raise (ValueError (py "unsupported format character")) in
  match a with
  | FUsed => Raise TypeError
  | FDict =>
      if (c =? 115) || (c =? 114) || (c =? 97) then Ok (pad f (str_of_dict d))
      else if numeric || (c =? 99) then Raise TypeError else bad
  | FStr s =>
      if c =? 115 then Ok (pad f s)
      else if (c =? 114) || (c =? 97) then Ok (pad f (repr s))
      else if c =? 99 then
        match s with
        | [_] => Ok (pad (FSpec (fs_left f) (fs_width f) None c) s)
        | _ => Raise TypeError
        end
      else if numeric then Raise TypeError else bad
  end.

(** One step of the scan: [s] follows a percent sign. The result is the
    text produced, the argument left for a bare conversion and the rest. *)
Definition format_one (d : gmap str str) (a : farg) (s : str)
    : result (str * farg * str) :=
  '(a, s) ← match s with
            | 40 :: t =>
                match format_key 0 t with
                | None => Raise (ValueError (py "incomplete format key"))
                | Some (k, t) => match d !! k with
                                 | Some v => Ok (FStr v, t)
                                 | None => Raise (KeyError k)
                                 end
                end
            | _ => Ok (a, s)
            end;
  match format_spec s with
  | None => Raise TypeError
  | Some (None, _) => Raise (ValueError (py "incomplete format"))
  | Some (Some f, s) =>
      if fs_type f =? 37 then Ok ([37], a, s)
      else t ← convert d f a; Ok (t, FUsed, s)
  end.

Fixpoint format_go (fuel : nat) (d : gmap str str) (a : farg) (s : str) : result str :=
  match fuel with
  | O => Ok []
  | S fuel =>
      match s with
      | [] => Ok []
      | c :: s =>
          if c =? 37 then
            '(t, a, s) ← format_one d a s;
            u ← format_go fuel d a s;
            Ok (t ++ u)
          else u ← format_go fuel d a s; Ok (c :: u)
      end
  end.

(** [format % d]: every step consumes, so the length is fuel enough. *)
Definition format_mapping (format : str) (d : gmap str str) : result str :=
  format_go (length format) d FDict format.

Definition _bind_parameters_dict (operation : str) (parameters : gmap str pvalue)
    : result str :=
  let string_parameters := string_parameter <$> parameters in
  let operation := re_sub (rx ":([^\d\W]\w*)") (λ m, py "%(" ++ group_ m 1 ++ py ")s")
                     operation in
  format_mapping operation string_parameters.

Definition _bind_parameters (operation : str) (parameters : params) : result str :=
  match parameters with
  | PList l | PTuple l => _bind_parameters_list operation l
  | PDict d => _bind_parameters_dict operation d
  | POther => Raise (ProgrammingError
      (py "Query parameters argument should be a list, tuple, or dict object"))
  end.
End percent.
End Binding.

(** * Theorems *)

Module ErrorsFacts.
Import Errors.

Lemma issubclass_n_sound n c d : issubclass_n n c d = true → extends c d.
Proof.
  revert c; induction n as [|n IH]; intros c; cbn [issubclass_n];
    rewrite orb_true_iff, bool_decide_eq_true; intros [->|H]; try constructor; [done|].
  destruct (base c) eqn:E; [|done]. eapply extends_base; eauto.
Qed.

(** [issubclass] computes the reflexive transitive closure of the [class]
    statements of error.py. *)
Lemma issubclass_iff_extends c d : issubclass c d = true ↔ extends c d.
Proof.
  split; [apply issubclass_n_sound|].
  induction 1 as [c|c b d Hb _ IH]; [by destruct c|].
  by destruct c, b, d.
Qed.
End ErrorsFacts.

Module BindingFacts.
Import Binding.

(** *** Escaping *)

Definition esc_char (c : char) : str :=
  if (c =? 92)%N then [92; 92]%N
  else if (c =? 10)%N then [92; 110]%N
  else if (c =? 13)%N then [92; 114]%N
  else if (c =? 39)%N then [92; 39]%N
  else if (c =? 34)%N then [92; 34]%N
  else [c].

(** The five passes amount to one substitution. *)
Lemma _escape_bind s : _escape s = s ≫= esc_char.
Proof.
  unfold _escape. change (py "\\") with [92%N]. change (py "\n") with [10%N].
  change (py "\r") with [13%N]. change (py "\'") with [39%N]. change (py "\x22") with [34%N].
  rewrite !replace_char. induction s as [|c s IH]; [done|].
  rewrite (bind_cons esc_char), <- IH. csimpl. rewrite !bind_app. f_equal.
  unfold esc_char.
  destruct (N.eqb_spec c 92) as [->|H1]; [done|].
  destruct (N.eqb_spec c 10) as [->|H2]; [done|].
  destruct (N.eqb_spec c 13) as [->|H3]; [done|].
  destruct (N.eqb_spec c 39) as [->|H4]; [done|].
  destruct (N.eqb_spec c 34) as [->|H5]; csimpl;
    repeat (rewrite (proj2 (N.eqb_neq _ _)) by done; csimpl); done.
Qed.

(** A reader of SQL string literals in the dialect of Impala and Hive: from
    behind the opening quote to the closing one, backslash escapes resolved. *)
Definition unescape_char (c : char) : char :=
  if (c =? 110)%N then 10%N else if (c =? 114)%N then 13%N else c.

Fixpoint read_literal (s : str) : option (str * str) :=
  match s with
  | [] => None
  | 39%N :: t => Some ([], t)
  | 92%N :: c :: t => '(r, t) ← read_literal t; Some (unescape_char c :: r, t)
  | 92%N :: [] => None
  | c :: t => '(r, t) ← read_literal t; Some (c :: r, t)
  end.

Lemma read_literal_esc_char c t r u :
  read_literal t = Some (r, u) → read_literal (esc_char c ++ t) = Some (c :: r, u).
Proof.
  intros Ht. unfold esc_char.
  destruct (N.eqb_spec c 92) as [->|H1]; [by cbn; rewrite Ht|].
  destruct (N.eqb_spec c 10) as [->|H2]; [by cbn; rewrite Ht|].
  destruct (N.eqb_spec c 13) as [->|H3]; [by cbn; rewrite Ht|].
  destruct (N.eqb_spec c 39) as [->|H4]; [by cbn; rewrite Ht|].
  destruct (N.eqb_spec c 34) as [->|H5]; [by cbn; rewrite Ht|].
  cbn [app read_literal]. rewrite Ht. repeat case_match; subst; try done; congruence.
Qed.

(** C6: A string parameter is rendered as one SQL literal: reading it back from
    behind its opening quote gives the value again and leaves exactly the text
    that followed the parameter, whatever the value and that text are. *)
Theorem string_parameter_literal s rest :
  ∃ body, string_parameter (PString s) ++ rest = 39%N :: body
        ∧ read_literal body = Some (s, rest).
Proof.
  exists (_escape s ++ 39%N :: rest). split.
  { cbn. by rewrite <- app_assoc. }
  rewrite _escape_bind. induction s as [|c s IH]; [done|].
  csimpl. rewrite <- app_assoc. by apply read_literal_esc_char.
Qed.

(** *** Positional markers *)

(** The pieces of a statement with the values put between them. *)
Fixpoint interleave (pieces values : list str) : str :=
  match pieces, values with
  | [], _ => []
  | [p], _ => p
  | p :: ps, v :: vs => p ++ v ++ interleave ps vs
  | p :: _, [] => p
  end.

(** The two markers [replace_markers] is called with. *)
Definition is_marker (m : str) : Prop := m = py "?" ∨ m = raw "%s".

Lemma is_marker_cons m : is_marker m → m ≠ [].
Proof. by intros [->| ->]. Qed.

Lemma find_marker m u t :
  is_marker m → contains m u = false → find_nat m (u ++ m ++ t) = Some (length u).
Proof.
  intros [->| ->] Hu.
  - apply find_nat_single. by apply contains_char in Hu.
  - by apply find_nat_pair.
Qed.

Lemma find_gt sub s : (find sub s > -1)%Z ↔ is_Some (find_nat sub s).
Proof.
  unfold find. destruct (find_nat sub s) as [i|].
  - split; [by eexists|lia].
  - split; [lia|by intros []].
Qed.

Lemma replace_n_marker m u v t :
  is_marker m → contains m u = false → replace_n 1 m v (u ++ m ++ t) = u ++ v ++ t.
Proof.
  intros Hm Hu. rewrite (replace_first _ _ _ (length u));
    [|by apply is_marker_cons|by apply find_marker].
  rewrite take_app_length. do 2 f_equal.
  by rewrite <- drop_drop, drop_app_length, drop_app_length.
Qed.

Lemma replace_markers_loop_spec m n i u piece pieces values :
  is_marker m →
  contains m (u ++ interleave (piece :: pieces) values) = false →
  replace_markers_loop m n i values (u ++ join m (piece :: pieces)) =
    if decide (length pieces ≤ length values)
    then Ok (i + length pieces, u ++ interleave (piece :: pieces) values)
    else Raise (bindings_error (i + length values) n).
Proof.
  intros Hm. revert i u piece values.
  induction pieces as [|p ps IH]; intros i u piece values Hc.
  - rewrite decide_True by (cbn; lia). cbn [join length interleave] in *.
    rewrite Nat.add_0_r.
    assert (Hnf : ¬ (find m (u ++ piece) > -1)%Z).
    { rewrite find_gt. rewrite contains_false in Hc. rewrite Hc. by intros []. }
    destruct values; cbn [replace_markers_loop]; by rewrite decide_False.
  - rewrite join_cons, app_assoc by done.
    assert (Hu : contains m (u ++ piece) = false).
    { destruct values as [|v vs]; cbn [interleave] in Hc; [done|].
      rewrite app_assoc in Hc. by apply contains_app_false in Hc. }
    destruct values as [|v vs]; cbn [replace_markers_loop].
    + rewrite decide_True by (apply find_gt; rewrite find_marker by done; by eexists).
      rewrite decide_False by (cbn; lia). by rewrite Nat.add_0_r.
    + rewrite decide_True by (apply find_gt; rewrite find_marker by done; by eexists).
      rewrite replace_n_marker by done.
      replace ((u ++ piece) ++ v ++ join m (p :: ps))
        with ((u ++ piece ++ v) ++ join m (p :: ps)) by (by rewrite <- !app_assoc).
      rewrite IH.
      * cbn [length]. destruct (decide (length ps ≤ length vs)) as [Hl|Hl].
        -- rewrite decide_True by lia. do 2 f_equal; [lia|].
           cbn [interleave]. by rewrite <- !app_assoc.
        -- rewrite decide_False by lia. do 2 f_equal. lia.
      * cbn [interleave] in Hc. by rewrite <- !app_assoc in *.
Qed.

(** Positional binding, every branch: for a statement cut into pieces at its
    markers and values that bring no marker in, [replace_markers] puts the
    values between the pieces when their number is right, leaves a statement
    without marker alone, and raises [ProgrammingError] on too few or too many
    values. *)
Lemma replace_markers_pieces m pieces values :
  is_marker m → pieces ≠ [] →
  contains m (interleave pieces values) = false →
  replace_markers m (join m pieces) values =
    let markers := length pieces - 1 in
    if decide (markers = 0 ∨ length values = markers)
    then Ok (interleave pieces values)
    else Raise (bindings_error (length values `min` markers) (length values)).
Proof.
  intros Hm Hp Hc. destruct pieces as [|piece pieces]; [done|].
  unfold replace_markers. cbn [length]. rewrite Nat.sub_succ, Nat.sub_0_r. cbn zeta.
  pose proof (replace_markers_loop_spec m (length values) 0 [] piece pieces values Hm Hc)
    as Hloop. cbn [app Nat.add] in Hloop. rewrite Hloop.
  destruct (decide (length pieces ≤ length values)) as [Hl|Hl]; cbn.
  - rewrite Nat.min_r by done. repeat case_decide; done || (exfalso; lia).
  - rewrite decide_False by lia. by rewrite Nat.min_l by lia.
Qed.

(** *** Numbered markers *)
Section numbered.
Context (values : list str).

(** A statement as the text before the first marker and, for each marker, its
    number and the text behind it. *)
Abbreviation tokens := (list (nat * str)).

Definition value (k : nat) : str := default [] (values !! (k - 1)).

(** The statement when the markers above [i] have been substituted. *)
Definition show_token (i : nat) (tok : nat * str) : str :=
  (if decide (i < tok.1) then value tok.1 else py ":" ++ str_of_Z (Z.of_nat tok.1)) ++ tok.2.
Definition show (i : nat) (head : str) (toks : tokens) : str :=
  head ++ concat (show_token i <$> toks).

Definition no_colon (t : str) : Prop := 58%N ∉ t.
Definition no_digit (t : str) : Prop := ∀ c u, t = c :: u → digit c = false.

(** Every marker is within range and no text behind a marker continues its
    number; only the last text may be empty. *)
Fixpoint well_formed (toks : tokens) : Prop :=
  match toks with
  | [] => True
  | (k, t) :: toks =>
      0 < k ≤ length values ∧ no_colon t ∧ no_digit t ∧ (t = [] → toks = [])
      ∧ well_formed toks
  end.

Hypothesis values_no_colon : Forall no_colon values.

Lemma value_no_colon k : no_colon (value k).
Proof.
  unfold value. destruct (values !! (k - 1)) as [v|] eqn:E; cbn.
  - by eapply Forall_lookup_1 in E.
  - intros H%elem_of_nil. done.
Qed.

Lemma numeral_no_colon k : no_colon (str_of_Z (Z.of_nat k)).
Proof.
  intros Hin. pose proof (str_of_Z_digits (Z.of_nat k) ltac:(lia)) as Hd.
  by eapply Forall_forall in Hd; [|exact Hin].
Qed.

Lemma replace_tokens i toks n :
  well_formed toks → length (concat (show_token i <$> toks)) ≤ n → 0 < i →
  replace_go (py ":" ++ str_of_Z (Z.of_nat i)) (value i) n 0 (concat (show_token i <$> toks))
  = concat (show_token (i - 1) <$> toks).
Proof.
  intros Hwf Hn Hi. change (py ":" ++ ?x) with (58%N :: x) in *.
  revert n Hwf Hn; induction toks as [|[k t] toks IH]; intros n Hwf Hn; [done|].
  cbn [well_formed] in Hwf. destruct Hwf as (Hk&Htc&Htd&Hlast&Hwf).
  assert (Hrest : no_digit (t ++ concat (show_token i <$> toks))).
  { destruct t; [by rewrite Hlast|]. intros c u [= <- <-]. by eapply Htd. }
  csimpl. csimpl in Hn. unfold show_token at 1 3. unfold show_token at 1 in Hn. cbn [fst snd] in *.
  rewrite <- !app_assoc.
  destruct (decide (i < k)) as [Hik|Hik]; rewrite !length_app in Hn.
  - rewrite decide_True by lia. rewrite replace_go_copy by apply value_no_colon.
    rewrite replace_go_copy by done. by rewrite IH by (done || lia).
  - change (py ":") with [58%N] in *. cbn [app length] in *.
    destruct n as [|n]; [lia|]. cbn [replace_go starts_with].
    rewrite N.eqb_refl. cbn [andb].
    destruct (decide (i = k)) as [->|Hne].
    + rewrite decide_True by lia. rewrite starts_with_app. f_equal.
      rewrite replace_go_skip by (cbn; rewrite !length_app; lia).
      cbn [length]. rewrite Nat.sub_succ, Nat.sub_0_r, drop_app_length.
      rewrite replace_go_copy by done. by rewrite IH by (done || lia).
    + rewrite decide_False by lia.
      assert (Hs : starts_with (str_of_Z (Z.of_nat i))
                     (str_of_Z (Z.of_nat k) ++ t ++ concat (show_token i <$> toks)) = false).
      { apply not_true_iff_false. intros Hp%starts_with_spec.
        apply numeral_prefix in Hp; [lia|lia|lia|done]. }
      rewrite Hs. cbn [app]. f_equal.
      rewrite replace_go_copy by apply numeral_no_colon.
      rewrite replace_go_copy by done. by rewrite IH by (done || lia).
Qed.

Lemma replace_numbered_steps i head toks l :
  no_colon head → well_formed toks → values = reverse l ++ drop i values → length l = i →
  replace_numbered l (show i head toks) = show 0 head toks.
Proof.
  intros Hh Hwf. revert i. induction l as [|v l IH]; intros i Hv Hl; [by cbn in Hl; subst|].
  cbn [length] in Hl. cbn [replace_numbered]. rewrite Hl.
  assert (Hvi : value i = v).
  { unfold value. rewrite Hv, reverse_cons, <- app_assoc.
    rewrite lookup_app_r by (rewrite length_reverse; lia).
    rewrite length_reverse. by replace (i - 1 - length l) with 0 by lia. }
  rewrite <- Hvi. unfold replace.
  change (show i head toks) with (head ++ concat (show_token i <$> toks)). change (py ":" ++ ?x) with (58%N :: x).
  rewrite replace_go_copy by done.
  change (58%N :: ?x) with (py ":" ++ x).
  rewrite replace_tokens by (done || lia || (rewrite length_app; lia)).
  apply (IH (i - 1)); [|lia].
  rewrite Hv at 1. rewrite reverse_cons, <- app_assoc. f_equal.
  replace i with (S (i - 1)) at 1 by lia. symmetry. apply drop_S.
  rewrite Hv, reverse_cons, <- app_assoc, lookup_app_r by (rewrite length_reverse; lia).
  rewrite length_reverse. by replace (i - 1 - length l) with 0 by lia.
Qed.

(** Numbered binding: for values without a colon, the descending loop is
    the simultaneous substitution of every [:k] by the [k]-th value; in
    particular [:1] never eats the front of [:10]. *)
Lemma replace_numbered_show head toks :
  no_colon head → well_formed toks →
  replace_numbered (reverse values) (show (length values) head toks)
  = head ++ concat ((λ tok : nat * str, value tok.1 ++ tok.2) <$> toks).
Proof.
  intros Hh Hwf. rewrite replace_numbered_steps; [|done|done| |by rewrite length_reverse].
  - unfold show. do 2 f_equal. clear Hh. induction toks as [|[k t] toks IH]; [done|].
    cbn [well_formed] in Hwf. csimpl. rewrite IH by apply Hwf. f_equal.
    unfold show_token. by rewrite decide_True by (cbn; lia).
  - by rewrite reverse_involutive, drop_all, app_nil_r.
Qed.
End numbered.

(** *** The list binder *)
Local Ltac not_elem :=
  rewrite ?not_elem_of_app, ?not_elem_of_cons, ?not_elem_of_app, ?not_elem_of_cons;
  split_and?; try apply not_elem_of_nil.

Lemma replace_numbered_no_colon l op : no_colon op → replace_numbered l op = op.
Proof.
  intros Hop. induction l as [|v l IH]; [done|]. cbn [replace_numbered].
  unfold replace. change (py ":" ++ ?x) with (58%N :: x).
  rewrite <- (app_nil_r op) at 2. rewrite replace_go_copy by done. by rewrite app_nil_r.
Qed.

Lemma replace_markers_none m op values :
  is_marker m → contains m op = false → replace_markers m op values = Ok op.
Proof.
  intros Hm Hop. pose proof (replace_markers_pieces m [op] values Hm ltac:(done) Hop) as H.
  cbn in H. by rewrite H.
Qed.

(** Text in which no pass of the list binder finds anything. *)
Definition inert (t : str) : Prop :=
  contains (py "?") t = false ∧ contains (raw "%s") t = false ∧ no_colon t.

(** C7: Question-mark binding end to end, every branch: when the statement with
    the rendered values at its markers contains no marker of any style, that
    text is the result if there are as many values as markers, or if there is
    no marker; any other number of values is a [ProgrammingError]. *)
Theorem bind_qmark_list pieces values :
  pieces ≠ [] →
  inert (interleave pieces (string_parameter <$> values)) →
  _bind_parameters_list (join (py "?") pieces) values =
    let markers := length pieces - 1 in
    if decide (markers = 0 ∨ length values = markers)
    then Ok (interleave pieces (string_parameter <$> values))
    else Raise (bindings_error (length values `min` markers) (length values)).
Proof.
  intros Hl (Hq&Hs&Hc). unfold _bind_parameters_list, _replace_numeric_markers.
  rewrite replace_markers_pieces; [|by left|done|done].
  rewrite length_fmap. cbn zeta. case_decide; [|done]. cbn.
  rewrite (replace_markers_none (raw "%s")) by (done || by right). cbn.
  by rewrite replace_numbered_no_colon.
Qed.

Lemma bind_qmark_list_witness :
  _bind_parameters_list (py "a=? AND b=?") [PString (py "it\'s"); PNone]
  = Ok (py "a=\'it\\\'s\' AND b=NULL").
Proof.
  assert (H : inert (interleave [py "a="; py " AND b="; []]
                       (string_parameter <$> [PString (py "it\'s"); PNone])))
    by (split_and!; [by vm_compute..|by_decision]).
  instance_of (bind_qmark_list [py "a="; py " AND b="; []] _ ltac:(done) H).
Defined.



(** C10: What is excluded by [bind_qmark_list] is real: the scan starts over in the text already
    substituted, so a question mark inside the first value swallows the second
    value, which ends up outside the quotes of the literal. *)
Theorem qmark_value_is_rescanned s :
  inert (string_parameter (PString s)) →
  _bind_parameters_list (py "a=?") [PString (py "?"); PString s]
  = Ok (py "a=\'" ++ string_parameter (PString s) ++ py "\'").
Proof.
  intros (Hq&Hp&Hc). set (v := string_parameter (PString s)) in *.
  set (op := py "a=\'" ++ v ++ py "\'").
  assert (Hop : inert op).
  { change op with ([97; 61]%N ++ 39%N :: v ++ 39%N :: []). split_and!.
    - apply contains_char in Hq. apply contains_char. by not_elem.
    - apply contains_pair_sep; [done|done|done|]. by apply contains_pair_sep.
    - unfold no_colon in *. by not_elem. }
  destruct Hop as (Hoq&Hop&Hoc).
  assert (Hm : replace_markers (py "?") (py "a=?") [py "\'?\'"; v] = Ok op).
  { unfold replace_markers. cbn [length replace_markers_loop].
    rewrite decide_True by (vm_compute; done).
    change (replace_n 1 (py "?") (py "\'?\'") (py "a=?")) with (py "a=\'" ++ py "?" ++ py "\'").
    rewrite decide_True by (vm_compute; done).
    rewrite replace_n_marker by (done || by left).
    rewrite decide_False; [done|]. fold op. rewrite find_gt.
    rewrite contains_false in Hoq. rewrite Hoq. by intros []. }
  unfold _bind_parameters_list, _replace_numeric_markers.
  change (string_parameter <$> [PString (py "?"); PString s]) with [py "\'?\'"; v].
  rewrite Hm. cbn [mbind res_bind].
  rewrite (replace_markers_none (raw "%s")) by (done || by right). cbn [mbind res_bind].
  f_equal. by apply (replace_numbered_no_colon [v; py "\'?\'"]).
Qed.

Lemma qmark_value_is_rescanned_witness :
  _bind_parameters_list (py "a=?") [PString (py "?"); PString (py " OR 1=1 -- ")]
  = Ok (py "a='' OR 1=1 -- ''").
Proof.
  assert (H : inert (string_parameter (PString (py " OR 1=1 -- "))))
    by (split_and!; [by vm_compute..|by_decision]).
  instance_of (qmark_value_is_rescanned _ H).
Defined.

(** *** The dictionary binder *)

(** A statement with named markers: the text before the first one and, for each
    marker, its name and the text behind it. *)
Definition named (sigil : str * str) (head : str) (toks : list (str * str)) : str :=
  head ++ concat ((λ tok : str * str, (sigil.1 ++ tok.1 ++ sigil.2 ++ tok.2)) <$> toks).
Definition colon_style : str * str := (py ":", []).
Definition pyformat_style : str * str := (py "%(", py ")s").

Definition is_name (k : str) : Prop :=
  ∃ a w, k = a :: w ∧ is_word a = true ∧ is_digit a = false ∧ Forall (λ c, is_word c = true) w.

(** Text no part of a marker of either style. *)
Definition plain (t : str) : Prop := (58%N ∉ t) ∧ (37%N ∉ t).

Definition named_ok (tok : str * str) : Prop :=
  is_name tok.1 ∧ plain tok.2 ∧ (∀ c u, tok.2 = c :: u → is_word c = false).

Abbreviation marker_re := (rx ":([^\d\W]\w*)").

Lemma marker_re_eq :
  marker_re = RCat (RChar 58) (RGroup 1 (RCat (RSet true [IClass CDigit; IClass CNWord])
                                               (RStar true (RSet false [IClass CWord])))).
Proof. vm_compute. reflexivity. Qed.

Lemma word_set c : set_ok noflags false [IClass CWord] c = is_word c.
Proof. unfold set_ok, in_set. cbn. by destruct (is_word c). Qed.

Lemma name_start_set c :
  set_ok noflags true [IClass CDigit; IClass CNWord] c = negb (is_digit c) && is_word c.
Proof. unfold set_ok, in_set. cbn. by destruct (is_digit c), (is_word c). Qed.

Lemma marker_match s c k t :
  is_name k → (∀ b u, t = b :: u → is_word b = false) →
  c_rest c = 58%N :: k ++ t →
  match_at noflags marker_re s c
  = Some (Mobj s (c_pos c) (c_pos c + S (length k))
            [(1, (S (c_pos c), c_pos c + S (length k)))]).
Proof.
  intros (a&w&->&Ha&Hd&Hw) Ht E. rewrite marker_re_eq. unfold match_at.
  autorewrite with rmatch. erewrite rmatch_char_cons by exact E.
  cbn [char_eq noflags f_icase]. rewrite N.eqb_refl.
  autorewrite with rmatch. erewrite rmatch_set_cons by reflexivity. rewrite name_start_set, Ha, Hd. cbn [negb andb].
  eapply (star_set_greedy _ _ _ _ w t); [done| | |].
  - eapply Forall_impl; [exact Hw|]. intros b Hb. by rewrite word_set.
  - intros b u Hb. rewrite word_set. by eapply Ht.
  - replace (c_pos c + S (length (a :: w))) with (S (S (c_pos c)) + length w)
      by (cbn; lia). done.
Qed.

Lemma marker_no_match s p n a w :
  a ≠ 58%N → match_at noflags marker_re s (Cur p n (a :: w)) = None.
Proof.
  intros Ha. rewrite marker_re_eq. unfold match_at.
  rewrite rmatch_cat. erewrite rmatch_char_cons by reflexivity. cbn [char_eq noflags f_icase].
  by rewrite (proj2 (N.eqb_neq 58 a)).
Qed.

Lemma search_marker_none s prev pos u :
  58%N ∉ u → search_from noflags marker_re s prev pos u = None.
Proof.
  intros Hu. rewrite <- (app_nil_r u), search_from_skip.
  - cbn [search_from]. by rewrite marker_re_eq.
  - intros p n a w Ha. apply marker_no_match. by intros ->.
Qed.

Lemma colon_tokens_no_word toks :
  Forall named_ok toks → ∀ c u, named colon_style [] toks = c :: u → is_word c = false.
Proof.
  intros _. unfold named. destruct toks as [|[k t] toks]; [done|].
  intros c u [= <- _]. done.
Qed.

(** The [re.sub] turns every [:name] into [%(name)s] and copies the rest. *)
Lemma sub_markers s head toks p any fuel :
  Forall named_ok toks → plain head →
  p ≤ length s → drop p s = named colon_style head toks → length s - p < fuel →
  sub_go noflags marker_re (λ m, py "%(" ++ group_ m 1 ++ py ")s") s fuel p any p
  = named pyformat_style head toks.
Proof.
  intros Htoks. revert head p any fuel.
  induction Htoks as [|[k t] toks (Hk&Ht&Htw) Htoks IH]; intros head p any fuel Hh Hp Hd Hf;
    (destruct fuel as [|fuel]; [lia|]); cbn [sub_go];
    rewrite (proj2 (Nat.ltb_ge _ _)) by done; rewrite Hd.
  { unfold named. csimpl. rewrite !app_nil_r. by rewrite search_marker_none by apply Hh. }
  cbn [fst snd] in *.
  set (rest := named colon_style [] toks).
  assert (Ed : named colon_style head ((k, t) :: toks) = head ++ 58%N :: k ++ t ++ rest).
  { unfold rest, named. csimpl. by rewrite <- !app_assoc. }
  assert (El : length s = p + (length head + S (length k + (length t + length rest)))).
  { apply (f_equal length) in Hd. rewrite Ed in Hd. rewrite length_drop in Hd.
    rewrite !length_app in Hd. cbn [length] in Hd. rewrite !length_app in Hd. lia. }
  rewrite Ed, search_from_skip by (intros * Ha; apply marker_no_match; intros ->; exact (proj1 Hh Ha)).
  cbn [search_from]. erewrite marker_match; [|done| |reflexivity].
  2: { intros b u Hb. destruct t as [|c t]; cbn in Hb.
       - eapply colon_tokens_no_word; [exact Htoks|exact Hb].
       - injection Hb as -> _. by eapply Htw. }
  cbn [mo_start mo_end c_pos].
  rewrite decide_False by lia.
  replace ((p =? p + length head + S (length k))%nat) with false
    by (symmetry; apply Nat.eqb_neq; lia).
  rewrite andb_false_r. cbn [andb].
  assert (Hhead : span_text s (p, p + length head) = head).
  { unfold span_text. cbn [fst snd]. rewrite Hd, Ed.
    replace (p + length head - p) with (length head) by lia. apply take_app_length. }
  assert (Hd' : drop (p + length head + S (length k)) s = t ++ rest).
  { rewrite <- Nat.add_assoc, <- drop_drop, Hd, Ed, <- drop_drop, drop_app_length.
    cbn [drop]. apply drop_app_length. }
  assert (Hg : group_ (Mobj s (p + length head) (p + length head + S (length k))
                 [(1, (S (p + length head), p + length head + S (length k)))]) 1 = k).
  { unfold group_, group. cbn [get_cap mo_caps mo_subject]. rewrite decide_True by done. cbn [fmap option_fmap option_map default from_option].
    unfold span_text. cbn [fst snd].
    replace (S (p + length head)) with (p + (length head + 1)) by lia.
    rewrite <- drop_drop, Hd, Ed, <- drop_drop, drop_app_length. cbn [drop].
    replace (p + length head + S (length k) - (p + (length head + 1))) with (length k) by lia.
    apply take_app_length. }
  rewrite Hg, Hhead.
  rewrite (IH t) by (done || lia || (rewrite Hd'; unfold rest, named; csimpl; done)).
  unfold named. csimpl. by rewrite <- !app_assoc.
Qed.

Section formatting.
Context (str_of_dict : gmap str str → str) (repr : str → str).
Abbreviation go := (format_go str_of_dict repr).

Lemma format_go_plain d a t s n :
  37%N ∉ t → go (length t + n) d a (t ++ s) = u ← go n d a s; Ok (t ++ u).
Proof.
  induction t as [|c t IH]; intros Ht; [by cbn; destruct (go n d a s)|].
  apply not_elem_of_cons in Ht as [Hc Ht].
  cbn [length Nat.add app format_go]. rewrite (proj2 (N.eqb_neq c 37)) by done.
  rewrite IH by done. by destruct (go n d a s).
Qed.

Lemma format_key_name k t :
  Forall (λ c, is_word c = true) k → format_key 0 (k ++ 41%N :: t) = Some (k, t).
Proof.
  induction 1 as [|c k Hc _ IH]; [done|]. cbn [app format_key].
  destruct (N.eqb_spec c 41) as [->|_]; [done|].
  destruct (N.eqb_spec c 40) as [->|_]; [done|]. by rewrite IH.
Qed.

Lemma is_name_word k : is_name k → Forall (λ c, is_word c = true) k.
Proof. intros (a&w&->&?&?&?). by constructor. Qed.

(** One named conversion: the value under the key, or a [KeyError]. *)
Lemma format_one_named d a k t :
  is_name k →
  format_one str_of_dict repr d a (40%N :: k ++ 41%N :: 115%N :: t)
  = match d !! k with Some v => Ok (v, FUsed, t) | None => Raise (KeyError k) end.
Proof.
  intros Hk. unfold format_one.
  rewrite format_key_name by by apply is_name_word.
  by destruct (d !! k).
Qed.

(** The result of filling in the names: the first one that is missing is
    the error raised. *)
Fixpoint fill (d : gmap str str) (head : str) (toks : list (str * str)) : result str :=
  match toks with
  | [] => Ok head
  | (k, t) :: toks =>
      match d !! k with
      | Some v => u ← fill d t toks; Ok (head ++ v ++ u)
      | None => Raise (KeyError k)
      end
  end.

Lemma format_go_named d toks : ∀ head a fuel,
  Forall named_ok toks → plain head →
  length (named pyformat_style head toks) ≤ fuel →
  go fuel d a (named pyformat_style head toks) = fill d head toks.
Proof.
  induction toks as [|[k t] toks IH]; intros head a fuel Htoks Hh Hf.
  - unfold named in *. csimpl in *. rewrite app_nil_r in *.
    replace fuel with (length head + (fuel - length head)) by lia.
    rewrite <- (app_nil_r head) at 3. rewrite format_go_plain by apply Hh.
    destruct (fuel - length head); cbn; by rewrite app_nil_r.
  - apply Forall_cons in Htoks as [(Hk&Ht&_) Htoks]. cbn [fst snd] in *.
    assert (E : named pyformat_style head ((k, t) :: toks)
      = head ++ 37%N :: 40%N :: k ++ 41%N :: 115%N :: named pyformat_style t toks).
    { unfold named. csimpl. by rewrite <- !app_assoc. }
    rewrite E in *. rewrite length_app in Hf. cbn [length] in Hf.
    rewrite length_app in Hf. cbn [length] in Hf.
    replace fuel with (length head + S (fuel - length head - 1)) by lia.
    rewrite format_go_plain by apply Hh. cbn [format_go N.eqb Pos.eqb].
    rewrite format_one_named by done. cbn [fill].
    destruct (d !! k) as [v|]; [|done]. cbn [mbind res_bind].
    rewrite IH by (done || lia). by destruct (fill d t toks).
Qed.

(** C9: The dictionary binder replaces every [:name] marker by the rendered
    value of that name and leaves the rest of the statement as it is; a name
    the dictionary does not have raises [KeyError], the first such one. *)
Theorem bind_dict_named head toks parameters :
  Forall named_ok toks → plain head →
  _bind_parameters_dict str_of_dict repr (named colon_style head toks) parameters
  = fill (string_parameter <$> parameters) head toks.
Proof.
  intros Htoks Hh. unfold _bind_parameters_dict, format_mapping, re_sub.
  rewrite (sub_markers _ head toks) by (done || lia). by apply format_go_named.
Qed.
End formatting.

Lemma bind_dict_named_witness :
  _bind_parameters_dict (λ _, []) id (py "a=:x AND b=:y_1")
    {[ py "x" := PInt 3; py "y_1" := PString (py "q") ]}
  = Ok (py "a=3 AND b='q'") ∧
  _bind_parameters_dict (λ _, []) id (py "a=:x AND b=:y_1") {[ py "x" := PInt 3 ]}
  = Raise (KeyError (py "y_1")).
Proof.
  assert (H : Forall named_ok [(py "x", py " AND b="); (py "y_1", [])]).
  { repeat constructor; try done.
    - exists 120%N, []. by repeat constructor.
    - by_decision.
    - by_decision.
    - by intros ? ? [= <- <-].
    - exists 121%N, (py "_1"). by repeat constructor.
    - by intros ?%elem_of_nil.
    - by intros ?%elem_of_nil. }
  assert (Hp : plain (py "a=")) by (split; by_decision).
  split.
  - instance_of (bind_dict_named (λ _, []) id _ _
      {[ py "x" := PInt 3; py "y_1" := PString (py "q") ]} H Hp).
  - instance_of (bind_dict_named (λ _, []) id _ _ {[ py "x" := PInt 3 ]} H Hp).
Defined.
End BindingFacts.

Module ObjectsFacts.
Import Objects.

(** A [with] block closes its object exactly once, whether the block ends
    normally or with an exception: the state is the one [close] leaves, the
    block's exception is raised again, and one raised by [close] itself takes
    its place. Both object classes do so. *)
Theorem with_closes {W} (self : Connection W) (cur : Cursor W) (body : M W pyexn unit) w :
  let outcome (close : M W pyexn unit) :=
    let '(r, w1) := body w in
    let '(c, w2) := close w1 in
    (match c with Ok _ => r | Raise e => Raise e end, w2) in
  with_statement (connection_exit self) body w = outcome (conn_close self) ∧
  with_statement (cursor_exit cur) body w = outcome (cur_close cur).
Proof.
  unfold with_statement, connection_exit, cursor_exit, exit_with. cbn zeta.
  cbv [mbind M_bind mret M_ret raiseM].
  destruct (body w) as [[[]|e] w1];
    destruct (conn_close self w1) as [[[]|?] ?], (cur_close cur w1) as [[[]|?] ?]; done.
Qed.
End ObjectsFacts.
