(* ===== verification/ErrorCodes.v ===== *)
(** * generate_error_codes.py: the table of error codes and its Thrift rendering

    [error_codes] is the table, [check_duplicates] its validation, [main] the
    script: validate, then write ErrorCodes.thrift. *)

From S2P Require Import Prelude PyStr.

(** Enum name, numeric code, format of the message. *)
Definition row : Type := str * Z * str.

Definition error_codes_low : list row := [
  (py "OK", 0%Z,
   py "");
  (py "UNUSED", 1%Z,
   py "<UNUSED>");
  (py "GENERAL", 2%Z,
   py "$0");
  (py "CANCELLED", 3%Z,
   py "$0");
  (py "ANALYSIS_ERROR", 4%Z,
   py "$0");
  (py "NOT_IMPLEMENTED_ERROR", 5%Z,
   py "$0");
  (py "RUNTIME_ERROR", 6%Z,
   py "$0");
  (py "MEM_LIMIT_EXCEEDED", 7%Z,
   py "$0");
  (py "INTERNAL_ERROR", 8%Z,
   py "$0");
  (py "RECOVERABLE_ERROR", 9%Z,
   py "$0");
  (py "PARQUET_MULTIPLE_BLOCKS", 10%Z,
   py "Parquet files should not be split into multiple "
   ++ py "hdfs-blocks. file=$0");
  (py "PARQUET_COLUMN_METADATA_INVALID", 11%Z,
   py "Column metadata states there are $0 values, but read $1 "
   ++ py "values from column $2. file=$3");
  (py "PARQUET_HEADER_PAGE_SIZE_EXCEEDED", 12%Z,
   py "(unused)");
  (py "PARQUET_HEADER_EOF", 13%Z,
   py "ParquetScanner: reached EOF while deserializing data page "
   ++ py "header. file=$0");
  (py "PARQUET_GROUP_ROW_COUNT_ERROR", 14%Z,
   py "Metadata states that in group $0($1) there are $2 rows, "
   ++ py "but $3 rows were read.");
  (py "PARQUET_GROUP_ROW_COUNT_OVERFLOW", 15%Z,
   py "(unused)");
  (py "PARQUET_MISSING_PRECISION", 16%Z,
   py "File '$0' column '$1' does not have the decimal precision "
   ++ py "set.");
  (py "PARQUET_WRONG_PRECISION", 17%Z,
   py "File '$0' column '$1' has a precision that does not match "
   ++ py "the table metadata  precision. File metadata precision: "
   ++ py "$2, table metadata precision: $3.");
  (py "PARQUET_BAD_CONVERTED_TYPE", 18%Z,
   py "File '$0' column '$1' does not have converted type set to "
   ++ py "DECIMAL");
  (py "PARQUET_INCOMPATIBLE_DECIMAL", 19%Z,
   py "File '$0' column '$1' contains decimal data but the table "
   ++ py "metadata has type $2");
  (py "SEQUENCE_SCANNER_PARSE_ERROR", 20%Z,
   py "Problem parsing file $0 at $1$2");
  (py "SNAPPY_DECOMPRESS_INVALID_BLOCK_SIZE", 21%Z,
   py "Decompressor: block size is too big.  Data is likely "
   ++ py "corrupt. Size: $0");
  (py "SNAPPY_DECOMPRESS_INVALID_COMPRESSED_LENGTH", 22%Z,
   py "Decompressor: invalid compressed length.  Data is likely "
   ++ py "corrupt.");
  (py "SNAPPY_DECOMPRESS_UNCOMPRESSED_LENGTH_FAILED", 23%Z,
   py "Snappy: GetUncompressedLength failed");
  (py "SNAPPY_DECOMPRESS_RAW_UNCOMPRESS_FAILED", 24%Z,
   py "SnappyBlock: RawUncompress failed");
  (py "SNAPPY_DECOMPRESS_DECOMPRESS_SIZE_INCORRECT", 25%Z,
   py "Snappy: Decompressed size is not correct.");
  (py "HDFS_SCAN_NODE_UNKNOWN_DISK", 26%Z,
   py "Unknown disk id.  This will negatively affect "
   ++ py "performance. Check your hdfs settings to enable block "
   ++ py "location metadata.");
  (py "FRAGMENT_EXECUTOR", 27%Z,
   py "Reserved resource size ($0) is larger than query mem "
   ++ py "limit ($1), and will be restricted to $1. Configure the "
   ++ py "reservation size by setting RM_INITIAL_MEM.");
  (py "PARTITIONED_HASH_JOIN_MAX_PARTITION_DEPTH", 28%Z,
   py "Cannot perform join at hash join node with id $0. The "
   ++ py "input data was partitioned the maximum number of $1 "
   ++ py "times. This could mean there is significant skew in the "
   ++ py "data or the memory limit is set too low.");
  (py "PARTITIONED_AGG_MAX_PARTITION_DEPTH", 29%Z,
   py "Cannot perform aggregation at hash aggregation node with "
   ++ py "id $0. The input data was partitioned the maximum number "
   ++ py "of $1 times. This could mean there is significant skew in "
   ++ py "the data or the memory limit is set too low.");
  (py "MISSING_BUILTIN", 30%Z,
   py "Builtin '$0' with symbol '$1' does not exist. Verify that "
   ++ py "all your impalads are the same version.");
  (py "RPC_GENERAL_ERROR", 31%Z,
   py "RPC Error: $0");
  (py "RPC_TIMEOUT", 32%Z,
   py "RPC timed out")
].

Definition error_codes_high : list row := [
  (py "UDF_VERIFY_FAILED", 33%Z,
   py "Failed to verify function $0 from LLVM module $1, see log "
   ++ py "for more details.");
  (py "PARQUET_CORRUPT_VALUE", 34%Z,
   py "File $0 corrupt. RLE level data bytes = $1");
  (py "AVRO_DECIMAL_RESOLUTION_ERROR", 35%Z,
   py "Column '$0' has conflicting Avro decimal types. Table "
   ++ py "schema $1: $2, file schema $1: $3");
  (py "AVRO_DECIMAL_METADATA_MISMATCH", 36%Z,
   py "Column '$0' has conflicting Avro decimal types. Declared "
   ++ py "$1: $2, $1 in table's Avro schema: $3");
  (py "AVRO_SCHEMA_RESOLUTION_ERROR", 37%Z,
   py "Unresolvable types for column '$0': table type: $1, file "
   ++ py "type: $2");
  (py "AVRO_SCHEMA_METADATA_MISMATCH", 38%Z,
   py "Unresolvable types for column '$0': declared column type: "
   ++ py "$1, table's Avro schema type: $2");
  (py "AVRO_UNSUPPORTED_DEFAULT_VALUE", 39%Z,
   py "Field $0 is missing from file and default values of type "
   ++ py "$1 are not yet supported.");
  (py "AVRO_MISSING_FIELD", 40%Z,
   py "Inconsistent table metadata. Mismatch between column "
   ++ py "definition and Avro schema: cannot read field $0 because "
   ++ py "there are only $1 fields.");
  (py "AVRO_MISSING_DEFAULT", 41%Z,
   py "Field $0 is missing from file and does not have a default "
   ++ py "value.");
  (py "AVRO_NULLABILITY_MISMATCH", 42%Z,
   py "Field $0 is nullable in the file schema but not the table "
   ++ py "schema.");
  (py "AVRO_NOT_A_RECORD", 43%Z,
   py "Inconsistent table metadata. Field $0 is not a record in "
   ++ py "the Avro schema.");
  (py "PARQUET_DEF_LEVEL_ERROR", 44%Z,
   py "Could not read definition level, even though metadata "
   ++ py "states there are $0 values remaining in data page. "
   ++ py "file=$1");
  (py "PARQUET_NUM_COL_VALS_ERROR", 45%Z,
   py "Mismatched number of values in column index $0 ($1 vs. "
   ++ py "$2). file=$3");
  (py "PARQUET_DICT_DECODE_FAILURE", 46%Z,
   py "Failed to decode dictionary-encoded value. file=$0");
  (py "SSL_PASSWORD_CMD_FAILED", 47%Z,
   py "SSL private-key password command ('$0') failed with "
   ++ py "error: $1");
  (py "SSL_CERTIFICATE_PATH_BLANK", 48%Z,
   py "The SSL certificate path is blank");
  (py "SSL_PRIVATE_KEY_PATH_BLANK", 49%Z,
   py "The SSL private key path is blank");
  (py "SSL_CERTIFICATE_NOT_FOUND", 50%Z,
   py "The SSL certificate file does not exist at path $0");
  (py "SSL_PRIVATE_KEY_NOT_FOUND", 51%Z,
   py "The SSL private key file does not exist at path $0");
  (py "SSL_SOCKET_CREATION_FAILED", 52%Z,
   py "SSL socket creation failed: $0");
  (py "MEM_ALLOC_FAILED", 53%Z,
   py "Memory allocation of $0 bytes failed");
  (py "PARQUET_REP_LEVEL_ERROR", 54%Z,
   py "Could not read repetition level, even though metadata "
   ++ py "states there are $0 values remaining in data page. "
   ++ py "file=$1");
  (py "PARQUET_UNRECOGNIZED_SCHEMA", 55%Z,
   py "File '$0' has an incompatible Parquet schema for column "
   ++ py "'$1'. Column type: $2, Parquet schema:\\n$3");
  (py "COLLECTION_ALLOC_FAILED", 56%Z,
   py "Failed to allocate buffer for collection '$0'.");
  (py "TMP_DEVICE_BLACKLISTED", 57%Z,
   py "Temporary device for directory $0 is blacklisted from a "
   ++ py "previous error and cannot be used.");
  (py "TMP_FILE_BLACKLISTED", 58%Z,
   py "Temporary file $0 is blacklisted from a previous error "
   ++ py "and cannot be expanded.");
  (py "RPC_CLIENT_CONNECT_FAILURE", 59%Z,
   py "RPC client failed to connect: $0");
  (py "STALE_METADATA_FILE_TOO_SHORT", 60%Z,
   py "Metadata for file '$0' appears stale. Try running "
   ++ py "\\\x22refresh $1\\\x22 to reload the file metadata.");
  (py "PARQUET_BAD_VERSION_NUMBER", 61%Z,
   py "File '$0' has an invalid version number: $1\\nThis could "
   ++ py "be due to stale metadata. Try running \\\x22refresh $2\\\x22.");
  (py "SCANNER_INCOMPLETE_READ", 62%Z,
   py "Tried to read $0 bytes but could only read $1 bytes. This "
   ++ py "may indicate data file corruption. (file $2, byte offset: "
   ++ py "$3)");
  (py "SCANNER_INVALID_READ", 63%Z,
   py "Invalid read of $0 bytes. This may indicate data file "
   ++ py "corruption. (file $1, byte offset: $2)");
  (py "AVRO_BAD_VERSION_HEADER", 64%Z,
   py "File '$0' has an invalid version header: $1\\nMake sure "
   ++ py "the file is an Avro data file.");
  (py "UDF_MEM_LIMIT_EXCEEDED", 65%Z,
   py "$0's allocations exceeded memory limits.");
  (py "BTS_BLOCK_OVERFLOW", 66%Z,
   py "Cannot process row that is bigger than the IO size "
   ++ py "(row_size=$0, null_indicators_size=$1). To run this "
   ++ py "query, increase the IO size (--read_size option).");
  (py "COMPRESSED_FILE_MULTIPLE_BLOCKS", 67%Z,
   py "For better performance, snappy-, gzip-, and "
   ++ py "bzip-compressed files should not be split into multiple "
   ++ py "HDFS blocks. file=$0 offset $1");
  (py "COMPRESSED_FILE_BLOCK_CORRUPTED", 68%Z,
   py "$0 Data error, likely data corrupted in this block.");
  (py "COMPRESSED_FILE_DECOMPRESSOR_ERROR", 69%Z,
   py "$0 Decompressor error at $1, code=$2");
  (py "COMPRESSED_FILE_DECOMPRESSOR_NO_PROGRESS", 70%Z,
   py "Decompression failed to make progress, but end of input "
   ++ py "is not reached. File appears corrupted. file=$0");
  (py "COMPRESSED_FILE_TRUNCATED", 71%Z,
   py "Unexpected end of compressed file. File may be truncated. "
   ++ py "file=$0")
].

Definition preamble : str :=
  py "\n"
  ++ py "// Copyright 2015 Cloudera Inc.\n"
  ++ py "//\n"
  ++ py "// Licensed under the Apache License, Version 2.0 (the \x22License\x22);\n"
  ++ py "// you may not use this file except in compliance with the License.\n"
  ++ py "// You may obtain a copy of the License at\n"
  ++ py "//\n"
  ++ py "// http://www.apache.org/licenses/LICENSE-2.0\n"
  ++ py "//\n"
  ++ py "// Unless required by applicable law or agreed to in writing, software\n"
  ++ py "// distributed under the License is distributed on an \x22AS IS\x22 BASIS,\n"
  ++ py "// WITHOUT WARRANTIES OR CONDITIONS OF ANY KIND, either express or implied.\n"
  ++ py "// See the License for the specific language governing permissions and\n"
  ++ py "// limitations under the License.\n"
  ++ py "//\n"
  ++ py "//\n"
  ++ py "// THIS FILE IS AUTO GENERATED BY generated_error_codes.py DO NOT MODIFY\n"
  ++ py "// IT BY HAND.\n"
  ++ py "//\n"
  ++ py "\n"
  ++ py "namespace cpp impala\n"
  ++ py "namespace java com.cloudera.impala.thrift\n"
  ++ py "\n".
Definition error_codes : list row := error_codes_low ++ error_codes_high.

(** The files on disk and the lines printed. *)
Record world := World { w_files : gmap str str; w_stdout : list str }.
Abbreviation script := (M world pyexn).

Definition print (s : str) : script unit :=
  modifyM (λ w, World (w_files w) (w_stdout w ++ [s])).

Definition name_of (x : row) : str := x.1.1.
Definition code_of (x : row) : Z := x.1.2.
Definition message_of (x : row) : str := x.2.

(** The loop over [codes], with [constants] and [next_num_code]. *)
Fixpoint check_rows (codes : list row) (constants : gmap str str) (next_num_code : Z)
    : script unit :=
  match codes with
  | [] => mret ()
  | (name, code, msg) :: codes =>
      match constants !! name with
      | Some old =>
          print (py "Constant " ++ name ++ py " already used, please check definition of \'"
                 ++ old ++ py "\'!") ;;
          raiseM (SystemExit 1)
      | None =>
          if decide (code ≠ next_num_code) then
            print (py "Numeric error codes must start from 0, be in order, and not have any gaps: "
                   ++ py "got " ++ str_of_Z code ++ py ", expected " ++ str_of_Z next_num_code) ;;
            raiseM (SystemExit 1)
          else check_rows codes (<[ name := msg ]> constants) (next_num_code + 1)
      end
  end.

Definition check_duplicates (codes : list row) : script unit := check_rows codes ∅ 0.

Definition target_file : str := py "ErrorCodes.thrift".

(** [open(target_file, "w+")] and [fid.write]. *)
Definition open_truncate (f : str) : script unit :=
  modifyM (λ w, World (<[ f := [] ]> (w_files w)) (w_stdout w)).
Definition fid_write (f : str) (text : str) : script unit :=
  modifyM (λ w, World (alter (.++ text) f (w_files w)) (w_stdout w)).

Definition enum_entry (x : row) : str :=
  py "  " ++ name_of x ++ py " = " ++ str_of_Z (code_of x).
Definition message_entry (x : row) : str :=
  py "  // " ++ name_of x ++ py "\n  \x22" ++ message_of x ++ py "\x22".

Definition enum_body (codes : list row) : str := join (py ",\n") (enum_entry <$> codes).
Definition message_body (codes : list row) : str := join (py ",\n") (message_entry <$> codes).

Definition write_file (codes : list row) : script unit :=
  open_truncate target_file ;;
  fid_write target_file preamble ;;
  fid_write target_file (py "\nenum TErrorCode {\n") ;;
  fid_write target_file (enum_body codes) ;;
  fid_write target_file (py "\n}") ;;
  fid_write target_file (py "\n") ;;
  fid_write target_file (py "const list<string> TErrorMessage = [\n") ;;
  fid_write target_file (message_body codes) ;;
  fid_write target_file (py "\n]").

Definition main (codes : list row) : script unit :=
  check_duplicates codes ;;
  write_file codes ;;
  print (target_file ++ py " created.").

(** * Theorems *)

(** What the comment above [check_duplicates] asks of the table. *)
Definition valid (codes : list row) : Prop :=
  NoDup (name_of <$> codes) ∧ code_of <$> codes = seqZ 0 (Z.of_nat (length codes)).

#[export] Instance valid_dec codes : Decision (valid codes).
Proof. unfold valid. apply _. Defined.

Definition file_text (codes : list row) : str :=
  preamble ++ py "\nenum TErrorCode {\n" ++ enum_body codes ++ py "\n}" ++ py "\n"
  ++ py "const list<string> TErrorMessage = [\n" ++ message_body codes ++ py "\n]".

(** The loop invariant: [constants] holds the names already seen. *)
Lemma check_rows_spec codes : ∀ constants n w,
  (NoDup (name_of <$> codes) ∧ (∀ x, x ∈ codes → constants !! name_of x = None) ∧
   code_of <$> codes = seqZ n (Z.of_nat (length codes)) ∧
   check_rows codes constants n w = (Ok (), w)) ∨
  (¬ (NoDup (name_of <$> codes) ∧ (∀ x, x ∈ codes → constants !! name_of x = None) ∧
      code_of <$> codes = seqZ n (Z.of_nat (length codes))) ∧
   ∃ line, check_rows codes constants n w
           = (Raise (SystemExit 1), World (w_files w) (w_stdout w ++ [line]))).
Proof.
  induction codes as [|[[name code] msg] codes IH]; intros constants n w.
  { left. split_and!; [constructor|by intros x ?%elem_of_nil|done|done]. }
  cbn [check_rows].
  destruct (constants !! name) as [old|] eqn:Eold.
  { right. split; [|by eexists]. intros (_&H&_).
    specialize (H (name, code, msg) ltac:(left)). by cbn in H; rewrite Eold in H. }
  destruct (decide (code ≠ n)) as [Hcode|Hcode%dec_stable].
  { right. split; [|by eexists]. intros (_&_&H). cbn [length] in H.
    rewrite Nat2Z.inj_succ, seqZ_cons in H by lia. by injection H. }
  subst code.
  assert (Hiff : (NoDup (name_of <$> codes) ∧
                  (∀ x, x ∈ codes → <[name := msg]> constants !! name_of x = None) ∧
                  code_of <$> codes = seqZ (n + 1) (Z.of_nat (length codes))) ↔
                 (NoDup (name_of <$> (name, n, msg) :: codes) ∧
                  (∀ x, x ∈ (name, n, msg) :: codes → constants !! name_of x = None) ∧
                  code_of <$> (name, n, msg) :: codes
                  = seqZ n (Z.of_nat (length ((name, n, msg) :: codes))))).
  { cbn [fmap list_fmap length name_of code_of fst snd].
    rewrite Nat2Z.inj_succ, (seqZ_cons n) by lia. rewrite NoDup_cons.
    rewrite Z.pred_succ. unfold Z.succ. split.
    - intros (Hnd&Hin&->). split_and!; [|done| |done].
      + rewrite list_elem_of_fmap. intros (x&Hx&Hxin). specialize (Hin x Hxin).
        by rewrite <- Hx, lookup_insert_eq in Hin.
      + intros x [->|Hx]%elem_of_cons; [done|]. by apply Hin, lookup_insert_None in Hx as [??].
    - intros ((Hni&Hnd)&Hin&[= ->]). split_and!; [done| |done].
      intros x Hx. apply lookup_insert_None. split; [apply Hin; by right|].
      intros ->. apply Hni. rewrite list_elem_of_fmap. by exists x. }
  destruct (IH (<[name := msg]> constants) (n + 1)%Z w) as [(?&?&?&Hr)|(Hn&Hr)].
  - left. rewrite Hr. split_and!; tauto.
  - right. split; [tauto|done].
Qed.

Lemma check_duplicates_spec codes w :
  (valid codes ∧ check_duplicates codes w = (Ok (), w)) ∨
  (¬ valid codes ∧ ∃ line, check_duplicates codes w
     = (Raise (SystemExit 1), World (w_files w) (w_stdout w ++ [line]))).
Proof.
  unfold valid, check_duplicates.
  destruct (check_rows_spec codes ∅ 0 w) as [(?&?&?&?)|(Hn&?)]; [by left|right].
  split; [|done]. intros [??]. apply Hn. split_and!; done.
Qed.

Lemma write_file_spec codes w :
  write_file codes w = (Ok (), World (<[target_file := file_text codes]> (w_files w)) (w_stdout w)).
Proof.
  unfold write_file, file_text.
  cbv [mbind M_bind fid_write open_truncate modifyM w_files w_stdout].
  rewrite !alter_insert_eq. destruct w as [files out]. cbn [w_files w_stdout].
  do 3 f_equal. by rewrite <- !app_assoc.
Qed.

(** C32: The script as a whole: on a table whose names are distinct and whose codes
    count up from 0 it writes the Thrift file, whatever the file held before, and
    says so; on any other table it exits with status 1 after one message and has
    touched no file. *)
Theorem main_spec codes w :
  (valid codes →
   main codes w = (Ok (), World (<[target_file := file_text codes]> (w_files w))
                            (w_stdout w ++ [py "ErrorCodes.thrift created."]))) ∧
  (¬ valid codes →
   ∃ line, main codes w = (Raise (SystemExit 1), World (w_files w) (w_stdout w ++ [line]))).
Proof.
  unfold main, mbind, M_bind.
  destruct (check_duplicates_spec codes w) as [(Hv&->)|(Hv&line&->)]; split; try done.
  - intros _. by rewrite write_file_spec.
  - intros _. by exists line.
Qed.

Lemma main_spec_witness :
  is_ok (main error_codes (World ∅ [])).1 = true ∧
  (main (error_codes ++ [(py "OK", 129%Z, [])]) (World ∅ [])).1 = Raise (SystemExit 1).
Proof.
  split.
  - rewrite (proj1 (main_spec error_codes (World ∅ []))); [done|by_decision].
  - destruct (proj2 (main_spec (error_codes ++ [(py "OK", 129%Z, [])]) (World ∅ [])))
      as [line ->]; [by_decision|done].
Defined.

(** Reading the enumerators back: cut at the separators, then at the equals sign. *)
Definition read_entry (e : str) : option (str * Z) :=
  let e := drop 2 e in
  i ← find_nat (py " = ") e;
  Some (take i e, Z.of_N (dec_val 0 (drop (i + 3) e))).
Definition read_enum (body : str) : list (option (str * Z)) := read_entry <$> split (py ",\n") body.

Definition identifier (s : str) : Prop := (32%N ∉ s) ∧ (44%N ∉ s).

Lemma read_entry_enum_entry x :
  identifier (name_of x) → (0 ≤ code_of x)%Z →
  read_entry (enum_entry x) = Some (name_of x, code_of x).
Proof.
  intros [Hs _] Hc. unfold read_entry, enum_entry.
  change (py "  " ++ ?s) with (32%N :: (32%N :: s)). cbn [drop]. rewrite drop_0.
  change (py " = ") with ([32; 61; 32]%N). rewrite find_nat_prefix_free by done.
  cbn [find_nat starts_with app N.eqb Pos.eqb andb fmap option_fmap option_map mbind option_bind].
  rewrite Nat.add_0_r, take_app_length, <- drop_drop, drop_app_length.
  cbn [drop]. by rewrite drop_0, dec_val_str_of_Z.
Qed.

Lemma enum_entry_no_comma x :
  identifier (name_of x) → (0 ≤ code_of x)%Z → 44%N ∉ enum_entry x.
Proof.
  intros [_ Hn] Hc. unfold enum_entry. rewrite !elem_of_app. intros [H|[H|[H|H]]]; [| done| |].
  - revert H. by_decision.
  - revert H. by_decision.
  - pose proof (str_of_Z_digits _ Hc) as Hd. rewrite Forall_forall in Hd. by apply Hd in H.
Qed.

(** C33: Round trip: the enumerators of the file the script writes for a valid
    table of identifiers, read back, are the names and codes of the table. *)
Theorem enum_roundtrip codes :
  valid codes → codes ≠ [] → Forall identifier (name_of <$> codes) →
  read_enum (enum_body codes) = (λ x, Some (name_of x, code_of x)) <$> codes.
Proof.
  intros [_ Hcodes] Hne Hid.
  assert (Hpos : Forall (λ x, identifier (name_of x) ∧ (0 ≤ code_of x)%Z) codes).
  { apply Forall_forall. intros x Hx. split.
    - rewrite Forall_forall in Hid. apply Hid, list_elem_of_fmap. by exists x.
    - assert (Hin : code_of x ∈ seqZ 0 (Z.of_nat (length codes))).
      { rewrite <- Hcodes. apply list_elem_of_fmap. by exists x. }
      apply elem_of_seqZ in Hin. lia. }
  unfold read_enum, enum_body. change (py ",\n") with [44; 10]%N. rewrite split_join_pair.
  - rewrite <- list_fmap_compose. apply list_fmap_ext. intros i x Hx.
    eapply Forall_lookup_1 in Hpos as [??]; [|exact Hx]. by apply read_entry_enum_entry.
  - done.
  - by destruct codes.
  - apply Forall_fmap. eapply Forall_impl; [exact Hpos|]. intros x [??].
    by apply enum_entry_no_comma.
Qed.

Lemma enum_roundtrip_witness :
  valid error_codes ∧
  last (read_enum (enum_body error_codes)) = Some (Some (py "COMPRESSED_FILE_TRUNCATED", 71%Z)).
Proof.
  assert (Hv : valid error_codes) by by_decision.
  split; [done|]. rewrite (enum_roundtrip error_codes Hv); [by vm_compute|done|by_decision].
Defined.
