(* ===== verification/PyPath.v ===== *)
(** * os.path on a POSIX system

    The path functions of CPython 2.7's posixpath and genericpath that the
    sources call. The current directory and the files that exist belong to the
    environment: [cwd] and [exists] are arguments. *)

From S2P Require Import Prelude PyStr.

Definition slash : char := 47%N.
Definition dot : char := 46%N.

(** [os.path.join(a, b)] *)
Definition path_join (a b : str) : str :=
  if starts_with (py "/") b then b
  else if bool_decide (a = []) || ends_with (py "/") a then a ++ b
  else a ++ py "/" ++ b.

(** The components [normpath] keeps, last one first. *)
Fixpoint norm_comps (rooted : bool) (new_comps comps : list str) : list str :=
  match comps with
  | [] => new_comps
  | comp :: comps =>
      if bool_decide (comp = []) || bool_decide (comp = py ".") then
        norm_comps rooted new_comps comps
      else if negb (bool_decide (comp = py ".."))
              || (negb rooted && bool_decide (new_comps = []))
              || bool_decide (head new_comps = Some (py "..")) then
        norm_comps rooted (comp :: new_comps) comps
      else norm_comps rooted (tail new_comps) comps
  end.

Definition initial_slashes (path : str) : nat :=
  if starts_with (py "/") path then
    if starts_with (py "//") path && negb (starts_with (py "///") path) then 2 else 1
  else 0.

(** [os.path.normpath(path)] *)
Definition normpath (path : str) : str :=
  if bool_decide (path = []) then py "." else
  let n := initial_slashes path in
  let comps := reverse (norm_comps (0 <? n)%nat [] (split (py "/") path)) in
  let path := repeat slash n ++ join (py "/") comps in
  if bool_decide (path = []) then py "." else path.

(** [os.path.abspath(path)] *)
Definition abspath (cwd path : str) : str :=
  normpath (if starts_with (py "/") path then path else path_join cwd path).

Fixpoint lstrip_char (a : char) (s : str) : str :=
  match s with
  | c :: t => if (c =? a)%N then lstrip_char a t else s
  | [] => []
  end.
Definition rstrip_char (a : char) (s : str) : str := reverse (lstrip_char a (reverse s)).

(** [os.path.split(p)] *)
Definition path_split (p : str) : str * str :=
  let i := match rfind_nat [slash] p with Some i => S i | None => 0 end in
  let hd := take i p in
  let tl := drop i p in
  (if forallb (N.eqb slash) hd then hd else rstrip_char slash hd, tl).
Definition dirname (p : str) : str := (path_split p).1.
Definition basename (p : str) : str := (path_split p).2.

(** [os.path.splitext(p)]: a file name that is nothing but dots up to its last
    dot has no extension. *)
Definition splitext (p : str) : str * str :=
  let sep := rfind [slash] p in
  match rfind_nat [dot] p with
  | Some i =>
      if (sep <? Z.of_nat i)%Z &&
         existsb (λ c, negb (c =? dot)%N) (py_slice p (sep + 1) (Z.of_nat i))
      then (take i p, drop i p) else (p, [])
  | None => (p, [])
  end.

(** [os.path.commonprefix([a, b])], character by character. *)
Fixpoint commonprefix (a b : str) : str :=
  match a, b with
  | c :: a, d :: b => if (c =? d)%N then c :: commonprefix a b else []
  | _, _ => []
  end.

(** * Lemmas *)

Lemma lstrip_char_length a s : length (lstrip_char a s) ≤ length s.
Proof. induction s as [|c s IH]; cbn; [done|]. destruct (c =? a)%N; cbn; lia. Qed.

Lemma rstrip_char_prefix a s : rstrip_char a s `prefix_of` s.
Proof.
  unfold rstrip_char. assert (H : lstrip_char a (reverse s) `suffix_of` reverse s).
  { generalize (reverse s) as t. induction t as [|c t IH]; cbn; [done|].
    destruct (c =? a)%N; [by apply suffix_cons_r|done]. }
  destruct H as [k Hk].
  exists (reverse k). apply (f_equal reverse) in Hk.
  by rewrite reverse_involutive, reverse_app in Hk.
Qed.

Lemma dirname_prefix p : dirname p `prefix_of` p.
Proof.
  unfold dirname, path_split. cbn [fst].
  assert (H : ∀ n, take n p `prefix_of` p) by (intros n; by apply prefix_take).
  destruct (forallb _ _); [apply H|]. etransitivity; [apply rstrip_char_prefix|apply H].
Qed.

(** [dirname] shortens a path until it reaches its fixed point. *)
Lemma dirname_shorter p : dirname p ≠ p → length (dirname p) < length p.
Proof.
  intros Hne. pose proof (dirname_prefix p) as H. pose proof (prefix_length _ _ H).
  destruct (decide (length (dirname p) = length p)) as [He|]; [|lia].
  destruct Hne. by apply prefix_length_eq in H; [|lia].
Qed.

Lemma commonprefix_prefix a b : commonprefix a b `prefix_of` a ∧ commonprefix a b `prefix_of` b.
Proof.
  revert b; induction a as [|c a IH]; intros [|d b]; cbn; try (split; apply prefix_nil).
  destruct (N.eqb_spec c d) as [->|]; [|split; apply prefix_nil].
  destruct (IH b). split; by apply prefix_cons.
Qed.

Lemma commonprefix_of_prefix a b : a `prefix_of` b → commonprefix a b = a.
Proof.
  intros [k ->]. induction a as [|c a IH]; [done|]. cbn. by rewrite N.eqb_refl, IH.
Qed.

(** Root and extension put together are the path; the extension is empty or a dot
    followed by neither a dot nor a slash. *)
Lemma splitext_spec p :
  (splitext p).1 ++ (splitext p).2 = p ∧
  ((splitext p).2 = [] ∨ ∃ e, (splitext p).2 = dot :: e ∧ (dot ∉ e) ∧ (slash ∉ e)).
Proof.
  unfold splitext. pose proof (rfind_nat_char dot p) as Hd.
  destruct (rfind_nat [dot] p) as [i|]; [|split; [apply app_nil_r|by left]].
  destruct (_ && _) eqn:E; cbn [fst snd].
  - split; [apply take_drop|right]. destruct Hd as (u&t&Hp&Hu&Ht).
    exists t. apply andb_true_iff in E as [E%Z.ltb_lt _]. split_and!.
    + by rewrite Hp, <- Hu, drop_app_length.
    + done.
    + unfold rfind in E. pose proof (rfind_nat_char slash p) as Hs.
      destruct (rfind_nat [slash] p) as [j|].
      * destruct Hs as (u'&t'&Hp'&Hu'&Ht'). intros Hin.
        apply list_elem_of_split in Hin as (t1&t2&->).
        rewrite Hp' in Hp. assert (length u' < length u) by lia.
        apply app_eq_inv in Hp as [(k&Hk&Hk2)|(k&Hk&Hk2)];
          [apply (f_equal length) in Hk; rewrite length_app in Hk; lia|].
        destruct k as [|x k]; [rewrite app_nil_r in Hk; subst u; lia|].
        injection Hk2 as <- ->. apply Ht'.
        rewrite elem_of_app, elem_of_cons, elem_of_app, elem_of_cons.
        do 3 right. by left.
      * subst p. intros Hin. apply Hs. rewrite elem_of_app, elem_of_cons. by auto 6.
  - split; [apply app_nil_r|by left].
Qed.

(** Stripping takes off a run of the character and nothing else. *)
Lemma lstrip_char_spec a s :
  ∃ n, s = repeat a n ++ lstrip_char a s ∧ head (lstrip_char a s) ≠ Some a.
Proof.
  induction s as [|c s (n&Hn&Hh)]; [by exists 0|]. cbn.
  destruct (N.eqb_spec c a) as [->|Hc].
  - exists (S n). split; [cbn; by f_equal|done].
  - exists 0. split; [done|]. by intros [= ->].
Qed.

Lemma rstrip_char_spec a s :
  ∃ n, s = rstrip_char a s ++ repeat a n ∧ last (rstrip_char a s) ≠ Some a.
Proof.
  unfold rstrip_char. destruct (lstrip_char_spec a (reverse s)) as (n&Hn&Hh).
  exists n. split.
  - apply (f_equal reverse) in Hn. rewrite reverse_involutive, reverse_app in Hn.
    rewrite Hn at 1. f_equal. clear. induction n as [|n IH]; [done|].
    cbn [repeat]. rewrite reverse_cons, IH. symmetry. apply repeat_cons.
  - by rewrite last_reverse.
Qed.

(** The parent of a path, unless it is the root: the path is the parent, a slash and
    the rest. *)
Lemma dirname_slash p :
  forallb (N.eqb slash) (dirname p) = false → ∃ t, p = dirname p ++ slash :: t.
Proof.
  unfold dirname, path_split. cbn [fst]. pose proof (rfind_nat_char slash p) as H.
  destruct (rfind_nat [slash] p) as [i|]; [|done].
  destruct H as (u&t&->&<-&_).
  replace (take (S (length u)) (u ++ slash :: t)) with (u ++ [slash])
    by (rewrite take_app_ge by lia; by replace (S (length u) - length u) with 1 by lia).
  destruct (forallb (N.eqb slash) (u ++ [slash])) eqn:Ef; [by rewrite Ef|]. intros _.
  destruct (rstrip_char_spec slash (u ++ [slash])) as (n&Hn&Hl).
  destruct n as [|n].
  { cbn in Hn. rewrite app_nil_r in Hn. rewrite <- Hn, last_snoc in Hl. done. }
  exists (repeat slash n ++ t). transitivity ((u ++ [slash]) ++ t); [by rewrite <- app_assoc|].
  rewrite Hn at 1. by rewrite <- app_assoc.
Qed.

(** Going up any number of times. *)
Lemma dirname_iter_slash n p :
  forallb (N.eqb slash) (Nat.iter (S n) dirname p) = false →
  ∃ t, p = Nat.iter (S n) dirname p ++ slash :: t.
Proof.
  induction n as [|n IH]; [apply dirname_slash|]. intros H.
  destruct (dirname_slash (Nat.iter (S n) dirname p) H) as [t Ht].
  destruct IH as [t' Ht'].
  - apply not_true_is_false. intros Hall. rewrite Ht, forallb_app in Hall.
    apply andb_true_iff in Hall as [Hall _]. change (dirname _) with (Nat.iter (S (S n)) dirname p) in Hall.
    by rewrite H in Hall.
  - exists (t ++ slash :: t'). rewrite Ht' at 1. rewrite Ht at 1. by rewrite <- app_assoc.
Qed.

(** After as many steps as the path has characters, its fixed point is reached. *)
Lemma dirname_iter_fixed n p :
  length p ≤ n → dirname (Nat.iter n dirname p) = Nat.iter n dirname p.
Proof.
  revert p; induction n as [|n IH]; intros p Hn.
  { destruct p; [done|cbn in Hn; lia]. }
  destruct (decide (dirname p = p)) as [E|E].
  - assert (Hi : ∀ k, Nat.iter k dirname p = p).
    { intros k. induction k as [|k IHk]; [done|]. rewrite Nat.iter_succ, IHk. done. }
    by rewrite Hi.
  - rewrite Nat.iter_succ_r. apply IH. pose proof (dirname_shorter p E). lia.
Qed.
