(* ===== verification/Coverage.v ===== *)
(** * collect_coverage.py: collecting coverage files

    The script copies the coverage files below a directory into one directory, under names
    made of their paths. The file system is a type class; [os.walk] is modelled, lazily: it
    looks at a directory when the loop comes to it, after the copies made before. *)

From S2P Require Import Prelude PyStr PyPath.

(** What the script uses of the file system. A directory that cannot be read has no listing;
    an entry is a name and whether it is a directory. *)
Class FileSystem := {
  fs : Type;
  scandir : str → fs → option (list (str * bool));
  islink : str → fs → bool;
  shutil_copy : str → str → M fs pyexn unit }.

Definition is_coverage_file (path : str) : bool :=
  ends_with (py "gcno") path || ends_with (py "gcda") path.

(** [root.replace(path, '')]; nothing is replaced if [path] is empty. *)
Definition without (path root : str) : str :=
  if bool_decide (path = []) then root else replace path [] root.
Definition dstpath (path root fname : str) : str :=
  join (py "_") [replace (py "/") (py "_") (without path root); fname].

Definition dirs_of (entries : list (str * bool)) : list str :=
  (filter (λ e, e.2 = true) entries).*1.
Definition files_of (entries : list (str * bool)) : list str :=
  (filter (λ e, e.2 = false) entries).*1.

Section script.
Context `{FileSystem}.

(** [for root, dirs, files in os.walk(top): body], top down, without following links; the
    fuel is the depth of the directories. *)
Fixpoint walk (fuel : nat) (top : str) (body : str → list str → list str → M fs pyexn unit)
    : M fs pyexn unit :=
  match fuel with
  | O => raiseM Diverges
  | S fuel =>
      w ← getM;
      match scandir top w with
      | None => mret ()
      | Some entries =>
          body top (dirs_of entries) (files_of entries) ;;
          forM (dirs_of entries) (λ d,
            let new_path := path_join top d in
            w ← getM;
            if islink new_path w then mret () else walk fuel new_path body)
      end
  end.

Definition copy_file (path outpath root fname : str) : M fs pyexn unit :=
  if negb (is_coverage_file fname) then mret ()
  else
    let relpath := path_join root fname in
    shutil_copy relpath (path_join outpath (dstpath path root fname)).

Definition copy_files (fuel : nat) (path outpath : str) : M fs pyexn unit :=
  walk fuel path (λ root dirs files, forM files (copy_file path outpath root)).

(** The script, with its arguments. *)
Definition main (fuel : nat) (argv : list str) : M fs pyexn unit :=
  match argv !! 1, argv !! 2 with
  | Some path, Some outpath => copy_files fuel path outpath
  | _, _ => raiseM IndexError
  end.
End script.

(** * Theorems *)
Section facts.
Context `{FileSystem} (path outpath : str).

(** The directories below [top] as they are, with their files: [None] if they are deeper than
    the fuel. *)
Fixpoint visit (fuel : nat) (w : fs) (top : str) : option (list (str * list str)) :=
  match fuel with
  | O => None
  | S fuel =>
      match scandir top w with
      | None => Some []
      | Some entries =>
          below ← mapM (λ d, let p := path_join top d in
            if islink p w then Some [] else visit fuel w p) (dirs_of entries);
          Some ((top, files_of entries) :: concat below)
      end
  end.

Definition same_view (w w' : fs) : Prop :=
  ∀ p, starts_with path p = true → scandir p w' = scandir p w ∧ islink p w' = islink p w.

Lemma same_view_refl w : same_view w w.
Proof. done. Qed.
Lemma same_view_trans w1 w2 w3 : same_view w1 w2 → same_view w2 w3 → same_view w1 w3.
Proof.
  intros H1 H2 p Hp. destruct (H1 p Hp), (H2 p Hp). split; by etransitivity.
Qed.

(** What is copied into [outpath] is not seen below [path], and a name in a listing is not a
    path from the root. *)
Hypothesis elsewhere : ∀ src name w,
  starts_with (py "/") name = false →
  same_view w (shutil_copy src (path_join outpath name) w).2.
Hypothesis names : ∀ p w entries,
  scandir p w = Some entries → Forall (λ e, starts_with (py "/") e.1 = false) entries.

(** A computation that leaves the directories below [path] as they are. *)
Definition keeps {A} (m : M fs pyexn A) : Prop := ∀ w, same_view w (m w).2.

Lemma keeps_for {A} (l : list A) f : (∀ x, keeps (f x)) → keeps (forM l f).
Proof.
  intros Hf. induction l as [|x l IH]; intros w; [done|]. cbn [forM]. unfold mbind, M_bind.
  pose proof (Hf x w) as Hx. destruct (f x w) as [[[]|e] w1]; [|done].
  eapply same_view_trans; [exact Hx|apply IH].
Qed.

Lemma dstpath_relative root fname : starts_with (py "/") (dstpath path root fname) = false.
Proof.
  unfold dstpath. cbn [join]. generalize (without path root) as s. intros [|c s]; [done|].
  unfold replace. cbn [length replace_go]. destruct (starts_with (py "/") (c :: s)) eqn:E; [done|].
  cbn in E |- *. by rewrite andb_true_r in E |- *.
Qed.

Lemma copy_file_keeps root fname : keeps (copy_file path outpath root fname).
Proof.
  intros w. unfold copy_file. destruct (negb _); [done|]. apply elsewhere, dstpath_relative.
Qed.

Lemma starts_with_longer (p s t : str) : starts_with p s = true → starts_with p (s ++ t) = true.
Proof.
  revert s. induction p as [|c p IH]; intros [|d s]; cbn; try done.
  rewrite !andb_true_iff. intros [-> Hs]. split; [done|by apply IH].
Qed.

Lemma path_join_below top d :
  starts_with path top = true → starts_with (py "/") d = false →
  starts_with path (path_join top d) = true.
Proof.
  intros Ht Hd. unfold path_join. rewrite Hd. by destruct (_ || _); apply starts_with_longer.
Qed.

Lemma dirs_of_names p w entries :
  scandir p w = Some entries → Forall (λ d, starts_with (py "/") d = false) (dirs_of entries).
Proof.
  intros E. apply names in E. unfold dirs_of. apply Forall_fmap.
  apply Forall_forall. intros e [_ He]%list_elem_of_filter. by eapply Forall_forall in E.
Qed.

Lemma forM_app {A} (l l' : list A) (f : A → M fs pyexn unit) w :
  forM (l ++ l') f w = (forM l f ;; forM l' f) w.
Proof.
  revert w. induction l as [|x l IH]; intros w; [done|]. cbn [app forM]. unfold mbind, M_bind in *.
  destruct (f x w) as [[[]|e] w1]; [|done]. by rewrite IH.
Qed.

Lemma bind_get {A} (f : fs → M fs pyexn A) w : (getM ≫= f) w = f w w.
Proof. done. Qed.
Lemma bind_same {A B} (m m' : M fs pyexn A) (f : A → M fs pyexn B) w :
  m w = m' w → (m ≫= f) w = (m' ≫= f) w.
Proof. intros E. unfold mbind, M_bind. by rewrite E. Qed.

Lemma bind_after (m k k' : M fs pyexn unit) w :
  keeps m → (∀ w', same_view w w' → k w' = k' w') → (m ;; k) w = (m ;; k') w.
Proof.
  intros Hm Hk. unfold mbind, M_bind. specialize (Hm w).
  destruct (m w) as [[[]|e] w1]; [by apply Hk|done].
Qed.

(** The walk visits the directories as they were at the beginning. *)
Lemma walk_visits fuel : ∀ top w0 w l,
  starts_with path top = true → same_view w0 w → visit fuel w0 top = Some l →
  walk fuel top (λ root dirs files, forM files (copy_file path outpath root)) w
  = forM l (λ '(root, files), forM files (copy_file path outpath root)) w.
Proof.
  induction fuel as [|fuel IH]; intros top w0 w l Ht Hv Hl; [done|]. cbn [visit walk] in *.
  rewrite bind_get, (proj1 (Hv top Ht)).
  destruct (scandir top w0) as [entries|] eqn:Es; [|by injection Hl as <-].
  destruct (mapM _ (dirs_of entries)) as [below|] eqn:Eb; [|done]. injection Hl as <-.
  cbn [forM]. apply bind_after; [apply keeps_for, copy_file_keeps|]. intros w1 Hk.
  pose proof (same_view_trans _ _ _ Hv Hk) as Hv1. clear Hv Hk w.
  pose proof (dirs_of_names _ _ _ Es) as Hd. clear Es. revert below Eb w1 Hv1.
  induction Hd as [|d ds Hd _ IHd]; intros below Eb w1 Hv1; [by injection Eb as <-|].
  cbn [mapM] in Eb. pose proof (path_join_below top d Ht Hd) as Hp. cbn [forM].
  erewrite bind_same; [|rewrite bind_get, (proj2 (Hv1 _ Hp)); reflexivity].
  destruct (islink (path_join top d) w0) eqn:El.
  - rewrite M_bind_ret. cbn in Eb. destruct (mapM _ ds) as [rest|] eqn:Er; [|done]. injection Eb as <-.
    cbn [concat app]. by apply IHd.
  - destruct (visit fuel w0 (path_join top d)) as [l|] eqn:Ev; [|done]. cbn in Eb.
    destruct (mapM _ ds) as [rest|] eqn:Er; [|done]. injection Eb as <-.
    cbn [concat]. rewrite forM_app, (bind_same _ _ _ _ (IH _ _ _ _ Hp Hv1 Ev)).
    apply bind_after; [apply keeps_for; intros [root files]; apply keeps_for, copy_file_keeps|].
    intros w2 Hk. by apply IHd, (same_view_trans _ _ _ Hv1 Hk).
Qed.

(** The copies of a list of directories. *)
Definition copies (d : str * list str) : list (str * str) :=
  (λ f, (path_join d.1 f, path_join outpath (dstpath path d.1 f)))
    <$> filter (λ f, is_coverage_file f = true) d.2.
Definition plan (l : list (str * list str)) : list (str * str) := concat (copies <$> l).

Lemma copy_files_of root files w :
  forM files (copy_file path outpath root) w
  = forM (copies (root, files)) (λ '(src, dst), shutil_copy src dst) w.
Proof.
  revert w. induction files as [|f files IH]; intros w; [done|].
  unfold copies in *. cbn [fst snd] in *. rewrite filter_cons.
  assert (copy_file path outpath root f
    = if is_coverage_file f
      then shutil_copy (path_join root f) (path_join outpath (dstpath path root f))
      else mret ()) as Ef by (unfold copy_file; by destruct (is_coverage_file f)).
  cbn [forM]. rewrite Ef. destruct (is_coverage_file f) eqn:E.
  - rewrite decide_True by done. rewrite fmap_cons. cbn [forM]. unfold mbind, M_bind.
    destruct (shutil_copy _ _ w) as [[[]|e] w1]; [apply IH|done].
  - rewrite decide_False, M_bind_ret by congruence. apply IH.
Qed.

(** The script makes one copy of each coverage file below [path], directory by directory, until
    a copy fails, and nothing else, provided that it does not copy into [path] itself. *)
Theorem copy_files_spec fuel w l :
  visit fuel w path = Some l →
  copy_files fuel path outpath w = forM (plan l) (λ '(src, dst), shutil_copy src dst) w.
Proof.
  intros Hl. unfold copy_files. rewrite (walk_visits fuel path w w l);
    [|apply starts_with_refl|done|done].
  clear Hl. unfold plan. revert w. induction l as [|[root files] l IH]; intros w; [done|].
  rewrite fmap_cons. cbn [forM concat]. rewrite forM_app. unfold mbind, M_bind.
  rewrite copy_files_of. destruct (forM _ _ w) as [[[]|e] w1]; [apply IH|done].
Qed.
End facts.

(** Two files of one name in the end: the later copy replaces the earlier one. *)
Example same_destination :
  dstpath (py "build") (py "build/a") (py "b_c.gcno") = py "_a_b_c.gcno" ∧
  dstpath (py "build") (py "build/a/b") (py "c.gcno") = py "_a_b_c.gcno".
Proof. by vm_compute. Qed.

(** Every occurrence of [path] goes, not only the first: with the default of a build in the
    current directory the dots of the names go, too. *)
Example path_inside :
  dstpath (py ".") (py "./v1.2") (py "c.gcno") = py "_v12_c.gcno".
Proof. by vm_compute. Qed.
