(* ===== verification/PySetup.v ===== *)
(** * python/setup.py: the build of the Python package

    The script with its call of setuptools: the version file, the search for the C++
    library, and the description of the extension module. Cython, numpy and setuptools
    are a type class, as is what the script asks the system; writing a file is taken to
    succeed. *)

From S2P Require Import Prelude PyStr PyPath.

Record Extension := {
  ext_name : str;
  sources : list str;
  libraries : list str;
  include_dirs : list str;
  library_dirs : list str;
  extra_compile_args : list str;
  runtime_library_dirs : list str }.

(** The arguments of [setup]; [cmdclass] by its names. *)
Record distribution := {
  name : str;
  packages : list str;
  version : str;
  package_data : list (str * list str);
  ext_modules : list Extension;
  cmdclass : list str;
  install_requires : list str;
  description : str;
  long_description : str;
  license : str;
  classifiers : list str;
  maintainer : str;
  maintainer_email : str;
  url : str;
  test_suite : str }.

(** The files by their paths, and what has been written to standard error. *)
Record build := { files : gmap str str; stderr : str }.

Class Tools := {
  cython_version : str;
  numpy_include : str;
  platform_system : str;
  environ : gmap str str;
  isdir : str → bool;
  (** [os.path.abspath(os.path.dirname(__file__))] *)
  setup_dir : str;
  cythonize : list Extension → M build pyexn (list Extension);
  (** setuptools. *)
  setup : distribution → M build pyexn unit;
  (** The base class of [clean]. *)
  distutils_clean : M build pyexn unit }.

Definition MAJOR : Z := 0.
Definition MINOR : Z := 1.
Definition MICRO : Z := 0.
Definition VERSION : str :=
  str_of_Z MAJOR ++ py "." ++ str_of_Z MINOR ++ py "." ++ str_of_Z MICRO.
Definition ISRELEASED : bool := false.
Definition str_of_bool (b : bool) : str := if b then py "True" else py "False".

Section script.
Context `{Tools}.

Definition write_stderr (s : str) : M build pyexn unit :=
  modifyM (λ w, {| files := files w; stderr := stderr w ++ s |}).
Definition write_file (filename content : str) : M build pyexn unit :=
  modifyM (λ w, {| files := <[filename := content]> (files w); stderr := stderr w |}).

Definition version_py : str := path_join setup_dir (py "hs2client/version.py").

(** [version], with its suffix, is computed and not used. *)
Definition write_version_py (filename : str) : M build pyexn unit :=
  let version := VERSION ++ (if negb ISRELEASED then py ".dev" else []) in
  let file_content := join (py "\n")
    [[]; py "# THIS FILE IS GENERATED FROM SETUP.PY";
     py "version = '" ++ VERSION ++ py "'";
     py "isrelease = '" ++ str_of_bool ISRELEASED ++ py "'"] in
  write_file filename file_content.

(** [clean.run]: the loop over one file; an [OSError] is ignored. *)
Definition clean_run : M build pyexn unit :=
  distutils_clean ;;
  forM [py "hs2client/ext.cpp"] (λ x,
    modifyM (λ w, {| files := delete x (files w); stderr := stderr w |})).

(** [os.environ['HS2CLIENT_HOME']], checked. *)
Definition hs2client_home : M build pyexn str :=
  match environ !! py "HS2CLIENT_HOME" with
  | Some home =>
      write_stderr (py "Using HS2CLIENT_HOME directory: " ++ home ++ py "\n") ;;
      if negb (isdir home) then
        write_stderr (home ++ py " is not a valid HS2CLIENT_HOME directory") ;;
        raiseM (SystemExit 1)
      else mret home
  | None => raiseM (KeyError (py "HS2CLIENT_HOME"))
  end.

Definition EXTRA_COMPILE_ARGS : list str :=
  if negb (str_eqb platform_system (py "Windows")) then [py "-std=c++11"] else [].

Definition extension (home submodule_name : str) : Extension := {|
  ext_name := py "hs2client." ++ submodule_name;
  sources := [py "hs2client/" ++ submodule_name ++ py ".pyx"];
  libraries := [py "hs2client"];
  include_dirs := [path_join home (py "src"); path_join home (py "include"); numpy_include];
  library_dirs := [path_join home (py "lib")];
  extra_compile_args := EXTRA_COMPILE_ARGS;
  runtime_library_dirs := [path_join home (py "lib")] |}.

(** [open(...).read()] *)
Definition read_file (filename : str) : M build pyexn str :=
  w ← getM;
  match files w !! filename with
  | Some s => mret s
  | None => raiseM (UserException "IOError" filename)
  end.

Definition check_cython : M build pyexn unit :=
  whenM (str_ltb cython_version (py "0.19.1"))
    (raiseM (UserException "Exception" (py "Please upgrade to Cython 0.19.1 or newer"))).

Definition DESCRIPTION : str := py "Python interface to hs2client HiveServer 2 library".
Definition CLASSIFIERS : list str :=
  [py "Development Status :: 3 - Alpha"; py "Environment :: Console";
   py "Programming Language :: Python"; py "Programming Language :: Python :: 2";
   py "Programming Language :: Python :: 3"; py "Programming Language :: Python :: 2.7";
   py "Programming Language :: Python :: 3.4"; py "Programming Language :: Python :: 3.5";
   py "Programming Language :: Cython"].
Definition URL : str := py "http://github.com/cloudera/hs2client".

Definition setup_arguments (extensions : list Extension) (LONG_DESCRIPTION : str) : distribution := {|
  name := py "hs2client";
  packages := [py "hs2client"; py "hs2client.tests"];
  version := VERSION;
  package_data := [(py "hs2client", [py "*.pxd"; py "*.pyx"])];
  ext_modules := extensions;
  cmdclass := [py "clean"; py "build_ext"];
  install_requires := [py "cython >= 0.21"];
  description := DESCRIPTION;
  long_description := LONG_DESCRIPTION;
  license := py "Apache License, Version 2.0";
  classifiers := CLASSIFIERS;
  maintainer := py "Wes McKinney";
  maintainer_email := py "wesm@apache.org";
  url := URL;
  test_suite := py "hs2client.tests" |}.

Definition main : M build pyexn unit :=
  check_cython ;;
  home ← hs2client_home;
  extensions ← cythonize (extension home <$> [py "ext"]);
  write_version_py version_py ;;
  LONG_DESCRIPTION ← read_file (path_join setup_dir (py "README.md"));
  setup (setup_arguments extensions LONG_DESCRIPTION).
End script.

(** * Theorems *)
Section facts.
Context `{Tools} (recent : str_ltb cython_version (py "0.19.1") = false).

(** Without a library nothing is built: no file is written and setuptools is not called. *)
Theorem no_library w :
  match environ !! py "HS2CLIENT_HOME" with
  | None => main w = (Raise (KeyError (py "HS2CLIENT_HOME")), w)
  | Some home =>
      isdir home = false →
      main w = (Raise (SystemExit 1), {| files := files w;
        stderr := stderr w ++ py "Using HS2CLIENT_HOME directory: " ++ home ++ py "\n" ++
                  home ++ py " is not a valid HS2CLIENT_HOME directory" |})
  end.
Proof.
  unfold main, check_cython. rewrite recent. cbn [whenM]. rewrite M_bind_ret.
  unfold hs2client_home. destruct (environ !! py "HS2CLIENT_HOME") as [home|]; [|done]. intros ->. cbn -[py].
  unfold write_stderr, modifyM, mbind, M_bind. cbn -[py]. by rewrite <- !app_assoc.
Qed.

(** With one, setuptools gets the extension as Cython leaves it, built against the library,
    and the version, which is also what is in the version file. *)
Theorem library_built w home exts w1 readme :
  environ !! py "HS2CLIENT_HOME" = Some home → isdir home = true →
  cythonize [extension home (py "ext")]
    {| files := files w;
       stderr := stderr w ++ py "Using HS2CLIENT_HOME directory: " ++ home ++ py "\n" |}
  = (Ok exts, w1) →
  files w1 !! path_join setup_dir (py "README.md") = Some readme →
  version (setup_arguments exts readme) = py "0.1.0" ∧
  main w = setup (setup_arguments exts readme)
    {| files := <[version_py :=
         py "\n# THIS FILE IS GENERATED FROM SETUP.PY\nversion = '0.1.0'\nisrelease = 'False'"]>
         (files w1); stderr := stderr w1 |}.
Proof.
  intros Eh Hd Ec Er. split; [done|]. unfold main, check_cython. rewrite recent. cbn [whenM].
  rewrite M_bind_ret. unfold hs2client_home. rewrite Eh, Hd.
  cbn [negb]. rewrite M_bind_assoc. erewrite bind_run by reflexivity.
  rewrite M_bind_ret. erewrite bind_run by exact Ec. erewrite bind_run by reflexivity.
  unfold read_file. erewrite bind_run; [reflexivity|]. unfold mbind, M_bind, getM. cbn -[py path_join version_py].
  rewrite lookup_insert_ne, Er; [done|]. unfold version_py, path_join.
  destruct (_ || _); intros E%app_inv_head; vm_compute in E; discriminate.
Qed.
End facts.

(** Versions are compared as texts: an older Cython whose second number begins with a digit
    above 1 passes. *)
Example old_cython : str_ltb (py "0.9.8") (py "0.19.1") = false.
Proof. reflexivity. Qed.
