(* ===== verification/LintData.v ===== *)
(** * cpplint.py: tables and constants

    The error categories, the header names, the assertion macros and their
    replacements, the alternative tokens, and the type and state constants. *)

From S2P Require Import Prelude PyStr PyRe.

Definition _ERROR_CATEGORIES : list str := [
  py "build/class"; py "build/c++11"; py "build/deprecated"; py "build/endif_comment";
  py "build/explicit_make_pair"; py "build/forward_decl"; py "build/header_guard";
  py "build/include"; py "build/include_alpha"; py "build/include_order";
  py "build/include_what_you_use"; py "build/namespaces"; py "build/printf_format";
  py "build/storage_class"; py "legal/copyright"; py "readability/alt_tokens";
  py "readability/braces"; py "readability/casting"; py "readability/check";
  py "readability/constructors"; py "readability/fn_size"; py "readability/function";
  py "readability/inheritance"; py "readability/multiline_comment";
  py "readability/multiline_string"; py "readability/namespace"; py "readability/nolint";
  py "readability/nul"; py "readability/strings"; py "readability/todo";
  py "readability/utf8"; py "runtime/arrays"; py "runtime/casting"; py "runtime/explicit";
  py "runtime/int"; py "runtime/init"; py "runtime/invalid_increment";
  py "runtime/member_string_references"; py "runtime/memset";
  py "runtime/indentation_namespace"; py "runtime/operator"; py "runtime/printf";
  py "runtime/printf_format"; py "runtime/references"; py "runtime/string";
  py "runtime/threadsafe_fn"; py "runtime/vlog"; py "whitespace/blank_line";
  py "whitespace/braces"; py "whitespace/comma"; py "whitespace/comments";
  py "whitespace/empty_conditional_body"; py "whitespace/empty_loop_body";
  py "whitespace/end_of_line"; py "whitespace/ending_newline"; py "whitespace/forcolon";
  py "whitespace/indent"; py "whitespace/line_length"; py "whitespace/newline";
  py "whitespace/operators"; py "whitespace/parens"; py "whitespace/semicolon";
  py "whitespace/tab"; py "whitespace/todo" ].

Definition _LEGACY_ERROR_CATEGORIES : list str := [
  py "readability/streams" ].

Definition _DEFAULT_FILTERS : list str := [
  py "-build/include_alpha" ].

Definition legacy_headers : list str := [
  py "algobase.h"; py "algo.h"; py "alloc.h"; py "builtinbuf.h"; py "bvector.h";
  py "complex.h"; py "defalloc.h"; py "deque.h"; py "editbuf.h"; py "fstream.h";
  py "function.h"; py "hash_map"; py "hash_map.h"; py "hash_set"; py "hash_set.h";
  py "hashtable.h"; py "heap.h"; py "indstream.h"; py "iomanip.h"; py "iostream.h";
  py "istream.h"; py "iterator.h"; py "list.h"; py "map.h"; py "multimap.h";
  py "multiset.h"; py "ostream.h"; py "pair.h"; py "parsestream.h"; py "pfstream.h";
  py "procbuf.h"; py "pthread_alloc"; py "pthread_alloc.h"; py "rope"; py "rope.h";
  py "ropeimpl.h"; py "set.h"; py "slist"; py "slist.h"; py "stack.h"; py "stdiostream.h";
  py "stl_alloc.h"; py "stl_relops.h"; py "streambuf.h"; py "stream.h"; py "strfile.h";
  py "strstream.h"; py "tempbuf.h"; py "tree.h"; py "type_traits.h"; py "vector.h" ].

Definition library_headers : list str := [
  py "algorithm"; py "array"; py "atomic"; py "bitset"; py "chrono"; py "codecvt";
  py "complex"; py "condition_variable"; py "deque"; py "exception"; py "forward_list";
  py "fstream"; py "functional"; py "future"; py "initializer_list"; py "iomanip";
  py "ios"; py "iosfwd"; py "iostream"; py "istream"; py "iterator"; py "limits";
  py "list"; py "locale"; py "map"; py "memory"; py "mutex"; py "new"; py "numeric";
  py "ostream"; py "queue"; py "random"; py "ratio"; py "regex"; py "set"; py "sstream";
  py "stack"; py "stdexcept"; py "streambuf"; py "string"; py "strstream";
  py "system_error"; py "thread"; py "tuple"; py "typeindex"; py "typeinfo";
  py "type_traits"; py "unordered_map"; py "unordered_set"; py "utility"; py "valarray";
  py "vector" ].

Definition c_library_headers : list str := [
  py "cassert"; py "ccomplex"; py "cctype"; py "cerrno"; py "cfenv"; py "cfloat";
  py "cinttypes"; py "ciso646"; py "climits"; py "clocale"; py "cmath"; py "csetjmp";
  py "csignal"; py "cstdalign"; py "cstdarg"; py "cstdbool"; py "cstddef"; py "cstdint";
  py "cstdio"; py "cstdlib"; py "cstring"; py "ctgmath"; py "ctime"; py "cuchar";
  py "cwchar"; py "cwctype" ].

Definition _CPP_HEADERS : gset str :=
  list_to_set (legacy_headers ++ library_headers ++ c_library_headers).

Definition _THIRD_PARTY_HEADERS_PATTERN : regex :=
  rx "^(?:[^/]*[A-Z][^/]*\.h|lua\.h|lauxlib\.h|lualib\.h)$".

(** ** Assertion macros *)
Definition _CHECK_MACROS : list str := [
  py "DCHECK"; py "CHECK"; py "EXPECT_TRUE_M"; py "EXPECT_TRUE"; py "ASSERT_TRUE_M";
  py "ASSERT_TRUE"; py "EXPECT_FALSE_M"; py "EXPECT_FALSE"; py "ASSERT_FALSE_M";
  py "ASSERT_FALSE" ].

(** [_CHECK_REPLACEMENT[m][op] = r] *)
Definition set_replacement (m op r : str) (d : gmap str (gmap str str))
    : gmap str (gmap str str) := alter <[ op := r ]> m d.

Definition replacements : list (str * str) :=
  [(py "==", py "EQ"); (py "!=", py "NE"); (py ">=", py "GE"); (py ">", py "GT");
   (py "<=", py "LE"); (py "<", py "LT")].
Definition inv_replacements : list (str * str) :=
  [(py "==", py "NE"); (py "!=", py "EQ"); (py ">=", py "LT"); (py ">", py "LE");
   (py "<=", py "GT"); (py "<", py "GE")].

Definition _CHECK_REPLACEMENT : gmap str (gmap str str) :=
  let d := list_to_map ((λ m, (m, ∅)) <$> _CHECK_MACROS) in
  let d := foldl (λ d '(op, replacement),
    let d := set_replacement (py "DCHECK") op (py "DCHECK_" ++ replacement) d in
    let d := set_replacement (py "CHECK") op (py "CHECK_" ++ replacement) d in
    let d := set_replacement (py "EXPECT_TRUE") op (py "EXPECT_" ++ replacement) d in
    let d := set_replacement (py "ASSERT_TRUE") op (py "ASSERT_" ++ replacement) d in
    let d := set_replacement (py "EXPECT_TRUE_M") op (py "EXPECT_" ++ replacement ++ py "_M") d in
    let d := set_replacement (py "ASSERT_TRUE_M") op (py "ASSERT_" ++ replacement ++ py "_M") d in
    d) d replacements in
  foldl (λ d '(op, inv_replacement),
    let d := set_replacement (py "EXPECT_FALSE") op (py "EXPECT_" ++ inv_replacement) d in
    let d := set_replacement (py "ASSERT_FALSE") op (py "ASSERT_" ++ inv_replacement) d in
    let d := set_replacement (py "EXPECT_FALSE_M") op (py "EXPECT_" ++ inv_replacement ++ py "_M") d in
    let d := set_replacement (py "ASSERT_FALSE_M") op (py "ASSERT_" ++ inv_replacement ++ py "_M") d in
    d) d inv_replacements.

(** ** Alternative tokens *)
Definition _ALT_TOKEN_REPLACEMENT : list (str * str) :=
  [(py "and", py "&&"); (py "bitor", py "|"); (py "or", py "||"); (py "xor", py "^");
   (py "compl", py "~"); (py "bitand", py "&"); (py "and_eq", py "&="); (py "or_eq", py "|=");
   (py "xor_eq", py "^="); (py "not", py "!"); (py "not_eq", py "!=")].

Definition _ALT_TOKEN_REPLACEMENT_PATTERN : option regex :=
  compile (raw "[ =()](" ++ join (py "|") (_ALT_TOKEN_REPLACEMENT.*1) ++ raw ")(?=[ (]|$)").

(** ** Constants *)

(** Types of headers. *)
Definition _C_SYS_HEADER : Z := 1.
Definition _CPP_SYS_HEADER : Z := 2.
Definition _LIKELY_MY_HEADER : Z := 3.
Definition _POSSIBLE_MY_HEADER : Z := 4.
Definition _OTHER_HEADER : Z := 5.

(** States of the inline assembly tracking. *)
Inductive asm_state : Type :=
| _NO_ASM
| _INSIDE_ASM
| _END_ASM
| _BLOCK_ASM.

#[export] Instance asm_state_eq_dec : EqDecision asm_state.
Proof. solve_decision. Defined.

Definition _MATCH_ASM : regex :=
  rx "^\s*(?:asm|_asm|__asm|__asm__)(?:\s+(volatile|__volatile__))?\s*[{(]".

Definition default_extensions : list str := [py "cc"; py "h"; py "cpp"; py "cu"; py "cuh"].

(** * Theorems *)

Definition operators : list str := replacements.*1.

(** The comparison that holds exactly when the given one does not. *)
Definition negated (r : str) : option str :=
  list_to_map (M := gmap str str)
    [(py "EQ", py "NE"); (py "NE", py "EQ"); (py "GE", py "LT"); (py "LT", py "GE");
     (py "GT", py "LE"); (py "LE", py "GT")] !! r.

Definition replacement_of (m op : str) : option str := d ← _CHECK_REPLACEMENT !! m; d !! op.

(** Each row of [replacements] against both flavours of a macro. *)
Definition row_ok (prefix : string) (suffix : str) (row : str * str) : bool :=
  let '(op, r) := row in
  let truth := py prefix ++ py "_TRUE" ++ suffix in
  let falsity := py prefix ++ py "_FALSE" ++ suffix in
  let entry (r : str) := Some (py prefix ++ py "_" ++ r ++ suffix) in
  bool_decide (replacement_of truth op = entry r) &&
  match negated r with
  | Some r' => bool_decide (replacement_of falsity op = entry r')
  | None => false
  end.

Lemma rows_ok :
  forallb (λ p, forallb (λ suffix, forallb (row_ok p suffix) replacements) [[]; py "_M"])
    ["EXPECT"%string; "ASSERT"%string] = true.
Proof. vm_compute. reflexivity. Qed.

Lemma check_replacement_dom :
  dom _CHECK_REPLACEMENT = list_to_set _CHECK_MACROS ∧
  map_Forall (λ _ d, dom d = (list_to_set operators : gset str)) _CHECK_REPLACEMENT.
Proof. by_decision. Qed.

(** Every assertion macro has a replacement for each of the six comparison
    operators and nothing else has one; the macros that assert falsity get the
    negation of the comparison the macros that assert truth get. *)
Theorem check_replacement_table :
  (∀ m op, is_Some (replacement_of m op) ↔ m ∈ _CHECK_MACROS ∧ op ∈ operators) ∧
  (∀ prefix suffix op r,
     prefix ∈ ["EXPECT"%string; "ASSERT"%string] → suffix ∈ [[]; py "_M"] →
     (op, r) ∈ replacements →
     replacement_of (py prefix ++ py "_TRUE" ++ suffix) op
       = Some (py prefix ++ py "_" ++ r ++ suffix) ∧
     ∃ r', negated r = Some r' ∧
       replacement_of (py prefix ++ py "_FALSE" ++ suffix) op
       = Some (py prefix ++ py "_" ++ r' ++ suffix)).
Proof.
  destruct check_replacement_dom as [Hd Hf]. split.
  - intros m op. unfold replacement_of.
    assert (Hm : m ∈ dom _CHECK_REPLACEMENT ↔ m ∈ _CHECK_MACROS)
      by (rewrite Hd; apply elem_of_list_to_set).
    rewrite elem_of_dom in Hm.
    destruct (_CHECK_REPLACEMENT !! m) as [d|] eqn:E.
    + change (is_Some (d !! op) ↔ m ∈ _CHECK_MACROS ∧ op ∈ operators).
      specialize (Hf m d E). cbn beta in Hf.
      rewrite <- elem_of_dom, Hf, elem_of_list_to_set. split; [|tauto]. intros ?. split; [|done].
      apply Hm. by eexists.
    + split; [intros [? [=]]|]. intros [Hin _]. apply Hm in Hin as [? [=]].
  - intros prefix suffix op r Hp Hs Hr. pose proof rows_ok as H.
    rewrite forallb_forall in H. specialize (H _ (proj1 (list_elem_of_In _ _) Hp)).
    rewrite forallb_forall in H. specialize (H _ (proj1 (list_elem_of_In _ _) Hs)).
    rewrite forallb_forall in H. specialize (H _ (proj1 (list_elem_of_In _ _) Hr)).
    cbn [row_ok] in H. apply andb_true_iff in H as [H1 H2].
    split; [exact (proj1 (bool_decide_eq_true _) H1)|].
    destruct (negated r) as [r'|]; [|discriminate].
    exists r'. split; [reflexivity|]. exact (proj1 (bool_decide_eq_true _) H2).
Qed.

Lemma check_replacement_table_witness :
  replacement_of (py "ASSERT_FALSE_M") (py "<") = Some (py "ASSERT_GE_M").
Proof.
  destruct (proj2 check_replacement_table "ASSERT"%string (py "_M") (py "<") (py "LT"))
    as (_&r'&[= <-]&H); [by_decision..|exact H].
Defined.
