(* ===== verification/LintState.v ===== *)
(** * cpplint.py: NOLINT suppressions, the module state and error reports

    [world] holds the globals of the module: [_error_suppressions],
    [_cpplint_state], [_root], [_line_length], [_valid_extensions], what was written to
    standard error and what is left of standard input ([None]: reading it fails). The checks take the [error] callback the source
    passes around; [Error] is the one the program uses. *)

From S2P Require Import Prelude PyStr PyRe PyReFacts LintData.

(** ** [_CppLintState] *)
Module CppLintState.
Record t := make {
  verbose_level : Z;
  error_count : Z;
  filters : list str;
  _filters_backup : list str;
  counting : str;
  errors_by_category : gmap str Z;
  output_format : str }.

Abbreviation method := (M t pyexn).

Definition __init__ : t := {|
  verbose_level := 1;
  error_count := 0;
  filters := _DEFAULT_FILTERS;
  _filters_backup := _DEFAULT_FILTERS;
  counting := py "total";
  errors_by_category := ∅;
  output_format := py "emacs" |}.

Definition SetOutputFormat (f : str) : method unit := modifyM (λ s,
  make (verbose_level s) (error_count s) (filters s) (_filters_backup s) (counting s)
       (errors_by_category s) f).

Definition SetVerboseLevel (level : Z) : method Z := λ s,
  (Ok (verbose_level s),
   make level (error_count s) (filters s) (_filters_backup s) (counting s)
        (errors_by_category s) (output_format s)).

Definition SetCountingStyle (c : str) : method unit := modifyM (λ s,
  make (verbose_level s) (error_count s) (filters s) (_filters_backup s) c
       (errors_by_category s) (output_format s)).

Definition set_filters (f : list str) (s : t) : t :=
  make (verbose_level s) (error_count s) f (_filters_backup s) (counting s)
       (errors_by_category s) (output_format s).

Definition bad_filter (filt : str) : pyexn :=
  ValueError (py "Every filter in --filters must start with + or - (" ++ filt
              ++ py " does not)").

Definition AddFilters (arg : str) : method unit :=
  forM (split (py ",") arg) (λ filt,
    let clean_filt := strip filt in
    whenM (negb (bool_decide (clean_filt = [])))
      (modifyM (λ s, set_filters (filters s ++ [clean_filt]) s))) ;;
  s ← getM;
  forM (filters s) (λ filt,
    whenM (negb (starts_with (py "+") filt || starts_with (py "-") filt))
      (raiseM (bad_filter filt))).

Definition SetFilters (arg : str) : method unit :=
  modifyM (set_filters _DEFAULT_FILTERS) ;;
  AddFilters arg.

Definition BackupFilters : method unit := modifyM (λ s,
  make (verbose_level s) (error_count s) (filters s) (filters s) (counting s)
       (errors_by_category s) (output_format s)).

Definition RestoreFilters : method unit := modifyM (λ s, set_filters (_filters_backup s) s).

Definition set_counts (n : Z) (d : gmap str Z) (s : t) : t :=
  make (verbose_level s) n (filters s) (_filters_backup s) (counting s) d (output_format s).

Definition ResetErrorCounts : method unit := modifyM (set_counts 0 ∅).

(** The key [IncrementErrorCount] counts a category under. *)
Definition count_key (style category : str) : str :=
  if bool_decide (style ≠ py "detailed") then default [] (head (split (py "/") category))
  else category.

Definition IncrementErrorCount (category : str) : method unit := modifyM (λ s,
  let s := set_counts (error_count s + 1) (errors_by_category s) s in
  if mem_str (counting s) [py "toplevel"; py "detailed"] then
    let category := count_key (counting s) category in
    let d := errors_by_category s in
    let d := match d !! category with None => <[ category := 0%Z ]> d | Some _ => d end in
    set_counts (error_count s) (alter (λ n, n + 1)%Z category d) s
  else s).

(** The lines written; [items] is the dictionary in its iteration order. *)
Definition PrintErrorCounts (items : list (str * Z)) (s : t) : str :=
  concat ((λ '(category, count),
             py "Category \'" ++ category ++ py "\' errors found: " ++ str_of_Z count ++ py "\n")
          <$> items)
  ++ py "Total errors found: " ++ str_of_Z (error_count s) ++ py "\n".
End CppLintState.

(** ** The globals *)
Record world := World {
  _error_suppressions : gmap (option str) (gset Z);
  _cpplint_state : CppLintState.t;
  _root : option str;
  _line_length : Z;
  _valid_extensions : list str;
  stderr : str;
  stdin : option str }.

Definition initial_world : world :=
  World ∅ CppLintState.__init__ None 80 default_extensions [] (Some []).

Abbreviation lint := (M world pyexn).

Definition with_suppressions (d : gmap (option str) (gset Z)) (w : world) : world :=
  World d (_cpplint_state w) (_root w) (_line_length w) (_valid_extensions w) (stderr w) (stdin w).
Definition with_state (s : CppLintState.t) (w : world) : world :=
  World (_error_suppressions w) s (_root w) (_line_length w) (_valid_extensions w) (stderr w) (stdin w).
Definition write_stderr (text : str) : lint unit := modifyM (λ w,
  World (_error_suppressions w) (_cpplint_state w) (_root w) (_line_length w)
        (_valid_extensions w) (stderr w ++ text) (stdin w)).

(** A method of [_cpplint_state]. *)
Definition on_state {A} (m : CppLintState.method A) : lint A := λ w,
  let '(r, s) := m (_cpplint_state w) in (r, with_state s w).

Definition _OutputFormat : lint str :=
  w ← getM; mret (CppLintState.output_format (_cpplint_state w)).
Definition _SetOutputFormat (f : str) : lint unit := on_state (CppLintState.SetOutputFormat f).
Definition _VerboseLevel : lint Z :=
  w ← getM; mret (CppLintState.verbose_level (_cpplint_state w)).
Definition _SetVerboseLevel (level : Z) : lint Z := on_state (CppLintState.SetVerboseLevel level).
Definition _SetCountingStyle (c : str) : lint unit := on_state (CppLintState.SetCountingStyle c).
Definition _Filters : lint (list str) :=
  w ← getM; mret (CppLintState.filters (_cpplint_state w)).
Definition _SetFilters (f : str) : lint unit := on_state (CppLintState.SetFilters f).
Definition _AddFilters (f : str) : lint unit := on_state (CppLintState.AddFilters f).
Definition _BackupFilters : lint unit := on_state CppLintState.BackupFilters.
Definition _RestoreFilters : lint unit := on_state CppLintState.RestoreFilters.

(** The callback every check reports through: file, line, category, confidence,
    message. *)
Abbreviation error_fn := (str → Z → str → Z → str → lint unit).

(** ** NOLINT *)

(** [_error_suppressions.setdefault(category, set()).add(line)] *)
Definition suppress (category : option str) (line : Z) : lint unit := modifyM (λ w,
  let d := _error_suppressions w in
  with_suppressions (<[ category := {[ line ]} ∪ default ∅ (d !! category) ]> d) w).

Definition nolint_re : regex := rx "\bNOLINT(NEXTLINE)?\b(\([^)]+\))?".

Definition ParseNolintSuppressions (filename raw_line : str) (linenum : Z) (error : error_fn)
    : lint unit :=
  match re_search nolint_re raw_line with
  | None => mret ()
  | Some m =>
      let suppressed_line :=
        match group m 1 with Some _ => (linenum + 1)%Z | None => linenum end in
      match group m 2 with
      | None => suppress None suppressed_line
      | Some category =>
          if bool_decide (category = py "(*)") then suppress None suppressed_line
          else if starts_with (py "(") category && ends_with (py ")") category then
            let category := py_slice category 1 (-1) in
            if mem_str category _ERROR_CATEGORIES then
              suppress (Some category) suppressed_line
            else if negb (mem_str category _LEGACY_ERROR_CATEGORIES) then
              error filename linenum (py "readability/nolint") 5%Z
                (py "Unknown NOLINT error category: " ++ category)
            else mret ()
          else mret ()
      end
  end.

Definition ResetNolintSuppressions : lint unit := modifyM (with_suppressions ∅).

Definition suppressed_at (w : world) (category : option str) (linenum : Z) : bool :=
  bool_decide (linenum ∈ default ∅ (_error_suppressions w !! category)).

Definition IsErrorSuppressedByNolint (category : str) (linenum : Z) (w : world) : bool :=
  suppressed_at w (Some category) linenum || suppressed_at w None linenum.

(** ** Error reports *)

(** The loop over the filters of [_ShouldPrintError]. *)
Fixpoint filter_loop (category : str) (filters : list str) (is_filtered : bool)
    : res pyexn bool :=
  match filters with
  | [] => Ok is_filtered
  | one_filter :: filters =>
      if starts_with (py "-") one_filter then
        filter_loop category filters
          (if starts_with (slice_from one_filter 1) category then true else is_filtered)
      else if starts_with (py "+") one_filter then
        filter_loop category filters
          (if starts_with (slice_from one_filter 1) category then false else is_filtered)
      else Raise AssertionError
  end.

Definition _ShouldPrintError (category : str) (confidence linenum : Z) : lint bool :=
  w ← getM;
  if IsErrorSuppressedByNolint category linenum w then mret false
  else if (confidence <? CppLintState.verbose_level (_cpplint_state w))%Z then mret false
  else
    is_filtered ← liftM (filter_loop category
                           (CppLintState.filters (_cpplint_state w)) false);
    mret (negb is_filtered).

Definition report (output_format filename : str) (linenum : Z) (category : str)
    (confidence : Z) (message : str) : str :=
  let tail := message ++ py "  [" ++ category ++ py "] [" ++ str_of_Z confidence ++ py "]\n" in
  if bool_decide (output_format = py "vs7") then
    filename ++ py "(" ++ str_of_Z linenum ++ py "):  " ++ tail
  else if bool_decide (output_format = py "eclipse") then
    filename ++ py ":" ++ str_of_Z linenum ++ py ": warning: " ++ tail
  else filename ++ py ":" ++ str_of_Z linenum ++ py ":  " ++ tail.

Definition Error (filename : str) (linenum : Z) (category : str) (confidence : Z)
    (message : str) : lint unit :=
  b ← _ShouldPrintError category confidence linenum;
  whenM b (
    on_state (CppLintState.IncrementErrorCount category) ;;
    output_format ← _OutputFormat;
    write_stderr (report output_format filename linenum category confidence message)).

(** * Theorems *)

(** ** NOLINT *)

(** A line with a NOLINT marker: text before it, the NEXTLINE form or not, the
    category in parentheses or none, text behind it. *)
Definition nolint_line (u : str) (next : bool) (cat : option str) (v : str) : str :=
  u ++ py "NOLINT" ++ (if next then py "NEXTLINE" else [])
  ++ from_option (λ c, py "(" ++ c ++ py ")") [] cat ++ v.

(** The marker is the first one of the line and is not part of a longer word. *)
Definition nolint_ok (u : str) (cat : option str) (v : str) : Prop :=
  (78%N ∉ u) ∧ from_option is_word false (last u) = false ∧
  match cat with
  | Some c => c ≠ [] ∧ (41%N ∉ c)
  | None => ∀ b t, v = b :: t → is_word b = false ∧ b ≠ 40%N
  end.

Lemma nolint_re_eq :
  nolint_re =
    RCat (RWordB false) (rlit (py "NOLINT")
      (RCat (ROpt true (RGroup 1 (rlit (py "NEXTLIN") (RChar 69))))
        (RCat (RWordB false)
          (ROpt true (RGroup 2 (RCat (RChar 40)
             (RCat (RCat (RSet true [IChar 41]) (RStar true (RSet true [IChar 41])))
                   (RChar 41)))))))).
Proof. vm_compute. reflexivity. Qed.

Lemma nolint_no_match s p n a w :
  a ≠ 78%N → match_at noflags nolint_re s (Cur p n (a :: w)) = None.
Proof.
  intros Ha. rewrite nolint_re_eq. unfold match_at. rewrite rmatch_cat, rmatch_wordb.
  destruct (xorb _ _); [|done]. apply rmatch_rlit_no. cbn.
  by rewrite (proj2 (N.eqb_neq _ _)) by done.
Qed.

Lemma set_not_41 c : set_ok noflags true [IChar 41] c = negb (c =? 41)%N.
Proof. unfold set_ok, in_set. cbn. by rewrite orb_false_r, N.eqb_sym. Qed.

Definition cat_text (cat : option str) : str :=
  from_option (λ c, py "(" ++ c ++ py ")") [] cat.
Abbreviation cat_re := (ROpt true (RGroup 2 (RCat (RChar 40)
  (RCat (RCat (RSet true [IChar 41]) (RStar true (RSet true [IChar 41]))) (RChar 41))))).
Definition cat_caps (c : cur) (cat : option str) : caps :=
  match cat with None => [] | Some t => [(2, (c_pos c, c_pos c + length (cat_text cat)))] end.

(** The end of the marker and the optional category. *)
Lemma nolint_tail {A : Type} s c cat v b g (k : cur → caps → option A) x :
  c_prev c = Some b → is_word b = true → c_rest c = cat_text cat ++ v →
  match cat with
  | Some c => c ≠ [] ∧ (41%N ∉ c)
  | None => ∀ b t, v = b :: t → is_word b = false ∧ b ≠ 40%N
  end →
  k (adv (cat_text cat) c) (cat_caps c cat ++ g) = Some x →
  rmatch noflags s (RCat (RWordB false) cat_re) c g k = Some x.
Proof.
  intros Hb Hw E Hcat Hk. rewrite rmatch_cat, rmatch_wordb.
  assert (Hwb : at_word_boundary c = true).
  { unfold at_word_boundary. rewrite E, Hb. cbn [word_at]. rewrite Hw.
    destruct cat as [t|]; cbn; [done|]. destruct v as [|a v]; [done|].
    cbn. by destruct (Hcat a v eq_refl) as [-> _]. }
  rewrite Hwb. cbn [xorb]. destruct cat as [t|].
  - destruct Hcat as [Hne Ht]. apply rmatch_opt_some. rewrite rmatch_group, rmatch_cat.
    cbn [cat_text from_option] in *.
    change (py "(" ++ ?t) with (40%N :: t) in *. rewrite <- ?app_comm_cons in E.
    erewrite rmatch_char_cons by exact E. cbn [char_eq noflags f_icase N.eqb Pos.eqb].
    rewrite rmatch_cat. eapply (plus_set_greedy _ _ _ _ t (41%N :: v)); [done| | | |].
    + cbn. by rewrite <- app_assoc.
    + apply Forall_forall. intros y Hy. rewrite set_not_41. apply negb_true_iff, N.eqb_neq.
      by intros ->.
    + intros y w [= <- <-]. done.
    + assert (Er : c_rest (adv t (step_cur c 40 ((t ++ py ")") ++ v))) = 41%N :: v)
        by (apply adv_rest; cbn; by rewrite <- app_assoc).
      erewrite rmatch_char_cons by exact Er. cbn [char_eq noflags f_icase N.eqb Pos.eqb].
      rewrite step_cur_adv by exact Er. rewrite (step_cur_adv 40 _ c E), <- !adv_app.
      cbn [cat_caps app] in Hk. rewrite <- Hk. f_equal.
  - rewrite rmatch_opt_none; [|].
    + unfold cat_text in Hk. cbn in Hk. by rewrite adv_nil in Hk.
    + rewrite rmatch_group, rmatch_cat. cbn in E.
      destruct v as [|a v]; [by apply rmatch_char_nil|].
      erewrite rmatch_char_cons by exact E. cbn [char_eq noflags f_icase].
      rewrite (proj2 (N.eqb_neq _ _)); [done|]. destruct (Hcat a v eq_refl). done.
Qed.

Lemma nolint_search u next cat v :
  nolint_ok u cat v →
  ∃ m, re_search nolint_re (nolint_line u next cat v) = Some m ∧
       group m 1 = (if next then Some (py "NEXTLINE") else None) ∧
       group m 2 = (λ c, py "(" ++ c ++ py ")") <$> cat.
Proof.
  intros (Hu&Hlast&Hcat). set (s := nolint_line u next cat v).
  set (word := py "NOLINT" ++ (if next then py "NEXTLINE" else [])).
  assert (Es : s = u ++ word ++ cat_text cat ++ v)
    by (unfold s, nolint_line, word; by rewrite <- !app_assoc).
  set (c0 := Cur (last u) (length u) (word ++ cat_text cat ++ v)).
  set (g1 := (if next then [(1, (length u + 6, length u + 14))] else []) : caps).
  set (cw := adv word c0).
  set (m := Mobj s (length u) (c_pos (adv (cat_text cat) cw)) (cat_caps cw cat ++ g1)).
  exists m. split.
  - unfold re_search, re_search_fl. rewrite Es at 2. rewrite search_from_skip.
    2: { intros * Ha. apply nolint_no_match. by intros ->. }
    assert (Hm : match_at noflags nolint_re s c0 = Some m).
    { rewrite nolint_re_eq. unfold match_at. rewrite rmatch_cat, rmatch_wordb.
      assert (Hwb : at_word_boundary c0 = true).
      { unfold at_word_boundary, c0. cbn.
        destruct (last u) as [b|]; cbn in *; [by rewrite Hlast|done]. }
      rewrite Hwb. cbn [xorb].
      rewrite (rmatch_rlit _ _ _ ((if next then py "NEXTLINE" else []) ++ cat_text cat ++ v))
        by (unfold c0, word; cbn [c_rest]; by rewrite <- !app_assoc).
      rewrite rmatch_cat. unfold m, cw, word, g1. destruct next.
      - apply rmatch_opt_some. rewrite rmatch_group.
        rewrite (rmatch_rlit _ _ _ (69%N :: cat_text cat ++ v)) by done.
        erewrite rmatch_char_cons by done. cbn [char_eq noflags f_icase N.eqb Pos.eqb].
        assert (Ec : step_cur (adv (py "NEXTLIN") (adv (py "NOLINT") c0)) (ch "E"%char)
                       (cat_text cat ++ v) = adv (py "NOLINT" ++ py "NEXTLINE") c0)
          by (unfold adv, step_cur; cbn; f_equal; lia).
        rewrite Ec. eapply (nolint_tail _ _ cat v 69); [done..|].
        cbn [c_pos adv c0]. do 4 f_equal.
      - rewrite rmatch_opt_none.
        + rewrite app_nil_r. by eapply (nolint_tail _ _ cat v 84).
        + rewrite rmatch_group. apply rmatch_rlit_no.
          rewrite (adv_rest _ (cat_text cat ++ v)) by (unfold c0; cbn [c_rest app]; done).
          destruct cat as [t|]; [done|]. destruct v as [|b v]; [done|].
          apply (starts_with_head 78). intros <-. by destruct (Hcat _ v eq_refl). }
    rewrite Nat.add_0_l. replace (from_option Some None (last u)) with (last u)
      by (by destruct (last u)).
    by apply search_from_here.
  - assert (Hpos : c_pos cw = length u + length word) by done. split.
    + unfold m, g1. destruct next.
      * assert (Hs : span_text s (length u + 6, length u + 14) = py "NEXTLINE").
        { rewrite Es. unfold word. rewrite <- app_assoc, app_assoc.
          apply span_text_app; rewrite length_app; cbn; lia. }
        transitivity (Some (span_text s (length u + 6, length u + 14)));
          [by destruct cat|by rewrite Hs].
      * by destruct cat.
    + unfold m, g1. destruct cat as [t|]; [|by destruct next].
      transitivity (Some (span_text s (c_pos cw, c_pos cw + length (cat_text (Some t)))));
        [done|].
      cbn [fmap option_fmap option_map]. f_equal. rewrite Es, app_assoc. apply span_text_app; rewrite length_app; [done|].
      by rewrite Hpos.
Qed.

Lemma paren_category c : c ≠ [] → (41%N ∉ c) →
  starts_with (py "(") (py "(" ++ c ++ py ")") && ends_with (py ")") (py "(" ++ c ++ py ")") = true
  ∧ py_slice (py "(" ++ c ++ py ")") 1 (-1) = c.
Proof.
  intros Hne Hc. split.
  - rewrite starts_with_app. apply ends_with_spec. exists (py "(" ++ c). by rewrite <- app_assoc.
  - change (py "(" ++ c ++ py ")") with (40%N :: c ++ [41%N]).
    unfold py_slice, clamp_index, norm_index. cbn [length]. rewrite length_app. cbn [length].
    rewrite decide_True, decide_False by lia.
    replace (Z.to_nat _) with (S (length c)) by lia.
    replace (Z.to_nat _) with 1 by lia.
    cbn [drop Nat.sub]. by rewrite drop_0, Nat.sub_0_r, take_app_length.
Qed.

Definition nolint_target (linenum : Z) (next : bool) : Z :=
  if next then (linenum + 1)%Z else linenum.

Lemma parse_nolint f u next cat v linenum error :
  nolint_ok u cat v →
  ParseNolintSuppressions f (nolint_line u next cat v) linenum error =
  match cat with
  | None => suppress None (nolint_target linenum next)
  | Some c =>
      if bool_decide (c = py "*") then suppress None (nolint_target linenum next)
      else if mem_str c _ERROR_CATEGORIES then suppress (Some c) (nolint_target linenum next)
      else if mem_str c _LEGACY_ERROR_CATEGORIES then mret ()
      else error f linenum (py "readability/nolint") 5%Z (py "Unknown NOLINT error category: " ++ c)
  end.
Proof.
  intros Hok. destruct (nolint_search u next cat v Hok) as (m&Hm&H1&H2).
  unfold ParseNolintSuppressions. rewrite Hm, H1, H2. destruct cat as [c|]; cbn [fmap option_fmap option_map].
  2: { by destruct next. }
  destruct Hok as (_&_&Hne&Hc). destruct (paren_category c Hne Hc) as [-> ->].
  assert (He : py "(" ++ c ++ py ")" = py "(*)" ↔ c = py "*").
  { change (py "(*)") with (py "(" ++ py "*" ++ py ")"). split; [|by intros ->].
    intros H%app_inv_head. by apply app_inv_tail in H. }
  rewrite (bool_decide_ext _ _ He).
  destruct (bool_decide (c = py "*")); [by destruct next|].
  destruct (mem_str c _ERROR_CATEGORIES); [by destruct next|].
  by destruct (mem_str c _LEGACY_ERROR_CATEGORIES).
Qed.

Lemma suppress_spec cat line w c l :
  let w' := (suppress cat line w).2 in
  IsErrorSuppressedByNolint c l w' =
  IsErrorSuppressedByNolint c l w
  || (bool_decide (l = line) && bool_decide (cat = None ∨ cat = Some c)).
Proof.
  cbn. unfold IsErrorSuppressedByNolint, suppressed_at. cbn [_error_suppressions with_suppressions].
  rewrite <- !bool_decide_or, <- !bool_decide_and, <- !bool_decide_or. apply bool_decide_ext.
  destruct cat as [c'|].
  - rewrite (lookup_insert_ne _ (Some c') None) by done. destruct (decide (c' = c)) as [->|Hne].
    + rewrite lookup_insert_eq. cbn. rewrite elem_of_union, elem_of_singleton. intuition congruence.
    + rewrite lookup_insert_ne by congruence. intuition congruence.
  - rewrite lookup_insert_eq, (lookup_insert_ne _ None (Some c)) by done. cbn.
    rewrite elem_of_union, elem_of_singleton. intuition congruence.
Qed.



(** ** Filters *)

Definition signed (filt : str) : bool := starts_with (py "+") filt || starts_with (py "-") filt.

(** The filters that speak about a category, and what the last of them says. *)
Definition applies (category filt : str) : Prop := starts_with (slice_from filt 1) category = true.
#[export] Instance applies_dec category filt : Decision (applies category filt).
Proof. unfold applies. apply _. Defined.
Definition filtered (filters : list str) (category : str) (default : bool) : bool :=
  match last (filter (applies category) filters) with
  | Some filt => starts_with (py "-") filt
  | None => default
  end.

Lemma filter_loop_spec category filters b :
  Forall (λ f, signed f = true) filters →
  filter_loop category filters b = Ok (filtered filters category b).
Proof.
  intros Hs. revert b; induction Hs as [|f fs Hf _ IH]; intros b; [done|].
  cbn [filter_loop]. unfold filtered. rewrite filter_cons. unfold applies at 1.
  assert (Hlast : ∀ b', match last (f :: filter (applies category) fs) with
                  | Some f => starts_with (py "-") f | None => b' end
                  = filtered fs category (starts_with (py "-") f)).
  { intros b'. unfold filtered. rewrite last_cons.
    by destruct (last (filter (applies category) fs)). }
  unfold signed in Hf. destruct (starts_with (py "-") f) eqn:Em.
  - rewrite IH. case_decide as Ha; [|by rewrite (not_true_is_false _ Ha)].
    by rewrite Ha, Hlast.
  - rewrite orb_false_r in Hf. rewrite Hf, IH.
    case_decide as Ha; [|by rewrite (not_true_is_false _ Ha)]. by rewrite Ha, Hlast.
Qed.

Definition hidden (w : world) (category : str) (confidence linenum : Z) : bool :=
  IsErrorSuppressedByNolint category linenum w
  || (confidence <? CppLintState.verbose_level (_cpplint_state w))%Z
  || filtered (CppLintState.filters (_cpplint_state w)) category false.

Lemma should_print_spec category confidence linenum w :
  Forall (λ f, signed f = true) (CppLintState.filters (_cpplint_state w)) →
  _ShouldPrintError category confidence linenum w
  = (Ok (negb (hidden w category confidence linenum)), w).
Proof.
  intros Hs. unfold _ShouldPrintError, hidden. cbv [mbind M_bind getM].
  destruct (IsErrorSuppressedByNolint category linenum w); [done|].
  destruct (confidence <? _)%Z; [done|]. cbn [orb].
  by rewrite filter_loop_spec.
Qed.

Lemma increment_format category s :
  CppLintState.output_format (CppLintState.IncrementErrorCount category s).2
  = CppLintState.output_format s.
Proof.
  unfold CppLintState.IncrementErrorCount. cbn -[mem_str py].
  by destruct (mem_str (CppLintState.counting s) [py "toplevel"; py "detailed"]).
Qed.

(** C34: What [Error] does with a report: nothing at all if the line suppresses the
    category, the confidence is below the verbosity level or the last filter that
    names a prefix of the category starts with a minus; otherwise one line on
    standard error in the chosen format and one more error counted. *)
Theorem error_reports filename linenum category confidence message w :
  Forall (λ f, signed f = true) (CppLintState.filters (_cpplint_state w)) →
  Error filename linenum category confidence message w =
  if hidden w category confidence linenum then (Ok (), w)
  else
    let s' := (CppLintState.IncrementErrorCount category (_cpplint_state w)).2 in
    (Ok (), World (_error_suppressions w) s' (_root w) (_line_length w) (_valid_extensions w)
       (stderr w ++ report (CppLintState.output_format (_cpplint_state w))
                      filename linenum category confidence message) (stdin w)).
Proof.
  intros Hs. unfold Error. unfold mbind at 1, M_bind at 1. rewrite should_print_spec by done.
  destruct (hidden w category confidence linenum); [done|].
  cbn -[CppLintState.IncrementErrorCount].
  rewrite <- (increment_format category (_cpplint_state w)).
  assert (H : (CppLintState.IncrementErrorCount category (_cpplint_state w)).1 = Ok ()) by done.
  unfold mbind, M_bind, on_state. cbn -[CppLintState.IncrementErrorCount].
  destruct (CppLintState.IncrementErrorCount category (_cpplint_state w)) as [r s'].
  cbn in H. by subst r.
Qed.

Lemma error_reports_witness :
  (Error (py "a.cc") 3 (py "build/include_alpha") 5 (py "m") initial_world) = (Ok (), initial_world)
  ∧ stderr (Error (py "a.cc") 3 (py "runtime/int") 5 (py "m") initial_world).2
    = py "a.cc:3:  m  [runtime/int] [5]\n".
Proof.
  assert (H : Forall (λ f, signed f = true)
                (CppLintState.filters (_cpplint_state initial_world))) by by repeat constructor.
  split; rewrite (error_reports _ _ _ _ _ _ H); by vm_compute.
Defined.

(** The pieces of a [--filter] argument that are appended. *)
Definition clean_filters (arg : str) : list str :=
  filter (λ f, f ≠ []) (strip <$> split (py ",") arg).

Lemma append_filters l s :
  forM (E := pyexn) l (λ filt,
    let clean_filt := strip filt in
    whenM (negb (bool_decide (clean_filt = [])))
      (modifyM (λ s, CppLintState.set_filters (CppLintState.filters s ++ [clean_filt]) s))) s
  = (Ok (), CppLintState.set_filters
              (CppLintState.filters s ++ filter (λ f, f ≠ []) (strip <$> l)) s).
Proof.
  revert s; induction l as [|f l IH]; intros s; cbn [forM fmap list_fmap].
  - rewrite filter_nil, app_nil_r. by destruct s.
  - cbv [mbind M_bind]. rewrite filter_cons. cbn zeta.
    case_bool_decide as Hf; cbn [negb whenM].
    + rewrite decide_False by auto. apply IH.
    + rewrite decide_True by done. cbn [modifyM]. rewrite IH.
      cbn. by rewrite <- app_assoc.
Qed.

Lemma check_filters fs (s : CppLintState.t) :
  forM fs (λ filt, whenM (negb (starts_with (py "+") filt || starts_with (py "-") filt))
             (raiseM (CppLintState.bad_filter filt))) s
  = (match list_find (λ f, signed f = false) fs with
     | None => Ok ()
     | Some (_, f) => Raise (CppLintState.bad_filter f)
     end, s).
Proof.
  induction fs as [|f fs IH]; [done|]. cbn [forM list_find]. cbv [mbind M_bind].
  fold (signed f). destruct (signed f) eqn:E; cbn [negb whenM].
  - rewrite decide_False by done. cbv [mret M_ret]. rewrite IH.
    by destruct (list_find _ fs) as [[]|].
  - by rewrite decide_True.
Qed.

(** [SetFilters] makes the filter list the defaults followed by the comma
    separated pieces, blanks around them and empty pieces dropped; it raises
    [ValueError], naming the first offender, exactly if one of them starts with
    neither sign. *)
Theorem set_filters_spec arg s :
  let fs := _DEFAULT_FILTERS ++ clean_filters arg in
  CppLintState.SetFilters arg s =
    (match list_find (λ f, signed f = false) fs with
     | None => Ok ()
     | Some (_, f) => Raise (CppLintState.bad_filter f)
     end, CppLintState.set_filters fs s).
Proof.
  unfold CppLintState.SetFilters, CppLintState.AddFilters. cbv [mbind M_bind getM modifyM].
  rewrite append_filters. cbn [CppLintState.filters CppLintState.set_filters].
  rewrite check_filters. done.
Qed.

(** ** Counting *)

Definition tally (style : str) (cats : list str) (k : str) : Z :=
  Z.of_nat (length (filter (λ c, CppLintState.count_key style c = k) cats)).

Lemma increment_fields category s :
  let s' := (CppLintState.IncrementErrorCount category s).2 in
  CppLintState.error_count s' = (CppLintState.error_count s + 1)%Z ∧
  CppLintState.counting s' = CppLintState.counting s ∧
  (mem_str (CppLintState.counting s) [py "toplevel"; py "detailed"] = true →
   ∀ k, default 0%Z (CppLintState.errors_by_category s' !! k) =
     (default 0%Z (CppLintState.errors_by_category s !! k)
      + tally (CppLintState.counting s) [category] k)%Z).
Proof.
  unfold CppLintState.IncrementErrorCount, tally. cbn -[mem_str filter py].
  destruct (mem_str (CppLintState.counting s) [py "toplevel"; py "detailed"]) eqn:E;
    cbn -[mem_str filter py]; rewrite ?E; split_and!; try done.
  intros _ k. rewrite filter_cons, filter_nil.
  set (key := CppLintState.count_key (CppLintState.counting s) category).
  set (d := CppLintState.errors_by_category s).
  destruct (decide (key = k)) as [<-|Hne].
  - rewrite lookup_alter_eq. destruct (d !! key) as [n|] eqn:Ed; [by rewrite Ed|].
    by rewrite lookup_insert_eq.
  - rewrite lookup_alter_ne by done.
    destruct (d !! key) as [n|] eqn:Ed; [cbn; lia|]. rewrite lookup_insert_ne by done. cbn. lia.
Qed.

(** Counting from a reset on: after any sequence of reports the error count is
    their number, and in the styles that count by category every category (or its
    part before the slash) has the number of its reports. *)
Theorem counts_tally cats s :
  let '(_, s0) := CppLintState.ResetErrorCounts s in
  let '(r, s') := forM cats CppLintState.IncrementErrorCount s0 in
  r = Ok () ∧ CppLintState.error_count s' = Z.of_nat (length cats) ∧
  (mem_str (CppLintState.counting s) [py "toplevel"; py "detailed"] = true →
   ∀ k, default 0%Z (CppLintState.errors_by_category s' !! k)
        = tally (CppLintState.counting s) cats k).
Proof.
  cbn. set (s0 := CppLintState.set_counts 0 ∅ s).
  assert (Hgen : ∀ n (f : str → Z) s1,
    CppLintState.error_count s1 = n →
    let '(r, s') := forM cats CppLintState.IncrementErrorCount s1 in
    r = Ok () ∧ CppLintState.error_count s' = (n + Z.of_nat (length cats))%Z ∧
    (mem_str (CppLintState.counting s1) [py "toplevel"; py "detailed"] = true →
     ∀ k, default 0%Z (CppLintState.errors_by_category s' !! k) =
       (default 0%Z (CppLintState.errors_by_category s1 !! k)
        + tally (CppLintState.counting s1) cats k)%Z)).
  { induction cats as [|c cats IH]; intros n f s1 Hn; cbn [forM].
    - cbn. split_and!; [done|lia|]. intros _ k. unfold tally. cbn. lia.
    - cbv [mbind M_bind]. pose proof (increment_fields c s1) as (He&Hc&Hd).
      destruct (CppLintState.IncrementErrorCount c s1) as [r1 s2] eqn:Er.
      assert (r1 = Ok ()) as -> by by injection Er as <-. cbn [snd] in *.
      specialize (IH (n + 1)%Z f s2 ltac:(lia)).
      destruct (forM cats _ s2) as [r' s']. destruct IH as (->&->&IH).
      split_and!; [done|cbn [length]; lia|]. rewrite Hc in IH. intros Hm k.
      rewrite IH, Hd by done. unfold tally.
      rewrite !filter_cons. case_decide; cbn [length]; rewrite ?filter_nil; cbn [length]; lia. }
  specialize (Hgen 0%Z (λ _, 0%Z) s0 eq_refl).
  destruct (forM cats _ s0) as [r s']. destruct Hgen as (->&->&Hk).
  split_and!; [done|lia|]. intros Hm k. rewrite Hk by done. cbn. by rewrite lookup_empty.
Qed.

(** ** The state machine of the filters *)

(** The states the methods lead to from the initial one while none raises. *)
Inductive reachable : CppLintState.t → Prop :=
| reach_init : reachable CppLintState.__init__
| reach_set s s' arg :
    reachable s → CppLintState.SetFilters arg s = (Ok (), s') → reachable s'
| reach_add s s' arg :
    reachable s → CppLintState.AddFilters arg s = (Ok (), s') → reachable s'
| reach_backup s : reachable s → reachable (CppLintState.BackupFilters s).2
| reach_restore s : reachable s → reachable (CppLintState.RestoreFilters s).2
| reach_verbose s level : reachable s → reachable (CppLintState.SetVerboseLevel level s).2
| reach_counting s style : reachable s → reachable (CppLintState.SetCountingStyle style s).2
| reach_format s f : reachable s → reachable (CppLintState.SetOutputFormat f s).2
| reach_reset s : reachable s → reachable (CppLintState.ResetErrorCounts s).2
| reach_increment s c : reachable s → reachable (CppLintState.IncrementErrorCount c s).2.

Definition signed_state (s : CppLintState.t) : Prop :=
  Forall (λ f, signed f = true) (CppLintState.filters s) ∧
  Forall (λ f, signed f = true) (CppLintState._filters_backup s).

Lemma list_find_signed fs : list_find (λ f, signed f = false) fs = None →
  Forall (λ f, signed f = true) fs.
Proof.
  intros H%list_find_None. eapply Forall_impl; [exact H|]. intros f Hf.
  cbn in Hf. by apply not_false_is_true in Hf.
Qed.

Lemma add_filters_signed arg s s' :
  CppLintState.AddFilters arg s = (Ok (), s') →
  Forall (λ f, signed f = true) (CppLintState.filters s') ∧
  CppLintState._filters_backup s' = CppLintState._filters_backup s.
Proof.
  unfold CppLintState.AddFilters. cbv [mbind M_bind getM].
  rewrite append_filters, check_filters. intros [= H <-]. split; [|done].
  apply list_find_signed. by destruct (list_find _ _) as [[]|].
Qed.

Lemma reachable_signed s : reachable s → signed_state s.
Proof.
  unfold signed_state.
  induction 1 as [|s s' arg _ [IH1 IH2] H|s s' arg _ [IH1 IH2] H|s _ [IH1 IH2]
                 |s _ [IH1 IH2]|s l _ IH|s c _ IH|s f _ IH|s _ IH|s c _ IH]; try done.
  - split; by repeat constructor.
  - unfold CppLintState.SetFilters in H. cbv [mbind M_bind modifyM] in H.
    by apply add_filters_signed in H as [? ->].
  - by apply add_filters_signed in H as [? ->].
  - unfold CppLintState.IncrementErrorCount. cbn -[mem_str py].
    by destruct (mem_str (CppLintState.counting s) [py "toplevel"; py "detailed"]).
Qed.

(** The assertion in [_ShouldPrintError] cannot fail: in every state the filter
    methods reach without raising, each filter starts with a sign, so the decision
    about a report is always made and changes nothing. *)
Theorem should_print_total category confidence linenum w :
  reachable (_cpplint_state w) →
  ∃ b, _ShouldPrintError category confidence linenum w = (Ok b, w).
Proof.
  intros [Hs _]%reachable_signed. eexists. by apply should_print_spec.
Qed.

Lemma should_print_total_witness :
  ∃ b, _ShouldPrintError (py "runtime/int") 5 3
         (with_state (CppLintState.SetFilters (py "-,+runtime") CppLintState.__init__).2
            initial_world)
       = (Ok b, with_state (CppLintState.SetFilters (py "-,+runtime") CppLintState.__init__).2
            initial_world).
Proof.
  apply should_print_total.
  apply (reach_set CppLintState.__init__ _ (py "-,+runtime") reach_init).
  vm_compute. reflexivity.
Defined.

(** Whatever [_AddFilters] does between them, and even if it raises,
    [_BackupFilters] and [_RestoreFilters] bracket the filters of one file. *)
Theorem backup_restore args w :
  let add_all : lint unit := forM args _AddFilters in
  let w1 := (add_all (_BackupFilters w).2).2 in
  let w2 := (_RestoreFilters w1).2 in
  CppLintState.filters (_cpplint_state w2) = CppLintState.filters (_cpplint_state w).
Proof.
  cbn. set (w0 := with_state _ w).
  change (CppLintState.filters (_cpplint_state w))
    with (CppLintState._filters_backup (_cpplint_state w0)).
  clearbody w0. clear w. revert w0; induction args as [|a args IH]; intros w0; [done|].
  cbn [forM]. cbv [mbind M_bind].
  assert (H : CppLintState._filters_backup (_cpplint_state (_AddFilters a w0).2)
              = CppLintState._filters_backup (_cpplint_state w0)).
  { unfold _AddFilters, on_state, CppLintState.AddFilters. cbv [mbind M_bind getM].
    by rewrite append_filters, check_filters. }
  destruct (_AddFilters a w0) as [[[]|e] w1]; cbn [snd] in *; rewrite <- H; [apply IH|done].
Qed.
