(* ===== verification/LintLines.v ===== *)
(** * cpplint.py: raw strings, comments and string constants

    The functions that take a file's lines to the four copies the checks read,
    [CleansedLines]. *)

From S2P Require Import Prelude PyStr PyRe PyReFacts LintData LintState.

(** A double and a single quote. *)
Definition dquote : char := 34%N.
Definition squote : char := 39%N.

Definition _RE_PATTERN_CLEANSE_LINE_ESCAPES : regex :=
  pyrx "\\\\([abfnrtv?\x22\\\\\\\']|\\d+|x[0-9a-fA-F]+)".

Definition _RE_PATTERN_C_COMMENTS : str := raw "/\*(?:[^*]|\*(?!/))*\*/".

Definition _RE_PATTERN_CLEANSE_LINE_C_COMMENTS : regex :=
  default REps (compile (
    raw "(\s*" ++ _RE_PATTERN_C_COMMENTS ++ raw "\s*$|" ++
    _RE_PATTERN_C_COMMENTS ++ raw "\s+|" ++
    raw "\s+" ++ _RE_PATTERN_C_COMMENTS ++ raw "(?=\W)|" ++
    _RE_PATTERN_C_COMMENTS ++ raw ")")).

Definition _RE_PATTERN_INCLUDE : regex :=
  pyrx "^\\s*#\\s*include\\s*([<\x22])([^>\x22]*)[>\x22].*$".

Definition IsCppString (line : str) : bool :=
  let line := replace (raw "\\") (py "XX") line in
  (Z.land (count (py "\x22") line - count (py "\\\x22") line - count (py "\'\x22\'") line) 1 =? 1)%Z.

(** ** Raw strings *)

Definition raw_string_re : regex :=
  pyrx "^(.*)\\b(?:R|u8R|uR|UR|LR)\x22([^\\s\\\\()]*)\\((.*)$".

(** The [while delimiter is None] loop: the line and the delimiter it leaves. *)
Fixpoint raw_string_starts (fuel : nat) (line : str) : res pyexn (str * option str) :=
  match fuel with
  | O => Raise Diverges
  | S fuel =>
      match re_match raw_string_re line with
      | None => Ok (line, None)
      | Some matched =>
          let delimiter := py ")" ++ group_ matched 2 ++ py "\x22" in
          let rest := group_ matched 3 in
          match find_nat delimiter rest with
          | Some e =>
              raw_string_starts fuel
                (group_ matched 1 ++ py "\x22\x22" ++ drop (e + length delimiter) rest)
          | None => Ok (group_ matched 1 ++ py "\x22\x22", Some delimiter)
          end
      end
  end.

(** One round of the [for] loop: [delimiter] before, the line appended and
    [delimiter] after. Every iteration of the inner loop shortens the line. *)
Definition cleanse_raw_line (delimiter : option str) (line : str)
    : res pyexn (str * option str) :=
  '(line, delimiter) ←
    match delimiter with
    | Some d =>
        match find_nat d line with
        | Some e =>
            match re_match (rx "^(\s*)\S") line with
            | Some leading_space =>
                Ok (group_ leading_space 1 ++ py "\x22\x22" ++ drop (e + length d) line, None)
            | None => Raise AttributeError
            end
        | None => Ok (py "\x22\x22", Some d)
        end
    | None => Ok (line, None)
    end;
  match delimiter with
  | None => raw_string_starts (S (length line)) line
  | Some d => Ok (line, Some d)
  end.

Fixpoint cleanse_raw_lines (delimiter : option str) (raw_lines : list str)
    : res pyexn (list str) :=
  match raw_lines with
  | [] => Ok []
  | line :: raw_lines =>
      '(line, delimiter) ← cleanse_raw_line delimiter line;
      lines ← cleanse_raw_lines delimiter raw_lines;
      Ok (line :: lines)
  end.

Definition CleanseRawStrings (raw_lines : list str) : res pyexn (list str) :=
  cleanse_raw_lines None raw_lines.

(** ** Multi-line comments *)

(** The [while] loops count [lineix] up to [len(lines)]; [rest] is [lines[lineix:]]. *)
Fixpoint find_comment_start (rest : list str) (lineix : nat) : nat :=
  match rest with
  | [] => lineix
  | line :: rest =>
      if starts_with (py "/*") (strip line) && (find_at (py "*/") (strip line) 2 <? 0)%Z
      then lineix else find_comment_start rest (S lineix)
  end.
Definition FindNextMultiLineCommentStart (lines : list str) (lineix : nat) : nat :=
  find_comment_start (drop lineix lines) lineix.

Fixpoint find_comment_end (rest : list str) (lineix : nat) : nat :=
  match rest with
  | [] => lineix
  | line :: rest =>
      if ends_with (py "*/") (strip line) then lineix else find_comment_end rest (S lineix)
  end.
Definition FindNextMultiLineCommentEnd (lines : list str) (lineix : nat) : nat :=
  find_comment_end (drop lineix lines) lineix.

(** The assignments [lines[i] = '/**/'], in place. *)
Definition RemoveMultiLineCommentsFromRange (lines : list str) (b e : nat) : list str :=
  foldl (λ lines i, <[ i := py "/**/" ]> lines) lines (seq b (e - b)).

(** The lines after the call (the source changes them in place). *)
Fixpoint remove_comments (fuel : nat) (filename : str) (error : error_fn)
    (lines : list str) (lineix : nat) : lint (list str) :=
  match fuel with
  | O => raiseM Diverges
  | S fuel =>
      if (length lines <=? lineix)%nat then mret lines else
      let lineix_begin := FindNextMultiLineCommentStart lines lineix in
      if (length lines <=? lineix_begin)%nat then mret lines else
      let lineix_end := FindNextMultiLineCommentEnd lines lineix_begin in
      if (length lines <=? lineix_end)%nat then
        error filename (Z.of_nat lineix_begin + 1)%Z (py "readability/multiline_comment") 5%Z
          (py "Could not find end of multi-line comment") ;;
        mret lines
      else
        remove_comments fuel filename error
          (RemoveMultiLineCommentsFromRange lines lineix_begin (S lineix_end)) (S lineix_end)
  end.
Definition RemoveMultiLineComments (filename : str) (lines : list str) (error : error_fn)
    : lint (list str) :=
  remove_comments (S (length lines)) filename error lines 0.

Definition CleanseComments (line : str) : str :=
  let line :=
    match find_nat (py "//") line with
    | Some commentpos =>
        if negb (IsCppString (take commentpos line)) then rstrip (take commentpos line) else line
    | None => line
    end in
  re_sub _RE_PATTERN_CLEANSE_LINE_C_COMMENTS (λ _, []) line.

(** ** String and character constants *)

Definition first_quote_re : regex := pyrx "^([^\'\x22]*)([\'\x22])(.*)$".
Definition number_re : regex := rx "\b(?:0[bBxX]?|[1-9])[0-9a-fA-F]*$".
Definition digits_re : regex := rx "^((?:'?[0-9a-zA-Z_])*)(.*)$".

(** The [while True] loop; the result is [collapsed] at its end. *)
Fixpoint collapse_loop (fuel : nat) (collapsed elided : str) : res pyexn str :=
  match fuel with
  | O => Raise Diverges
  | S fuel =>
      match re_match first_quote_re elided with
      | None => Ok (collapsed ++ elided)
      | Some m =>
          let head := group_ m 1 in
          let quote := group_ m 2 in
          let tail := group_ m 3 in
          if bool_decide (quote = [dquote]) then
            match find_nat [dquote] tail with
            | Some second_quote =>
                collapse_loop fuel (collapsed ++ head ++ py "\x22\x22") (drop (S second_quote) tail)
            | None => Ok (collapsed ++ elided)
            end
          else if matched (re_search number_re head) then
            match re_match digits_re (squote :: tail) with
            | Some match_literal =>
                collapse_loop fuel
                  (collapsed ++ head ++ replace [squote] [] (group_ match_literal 1))
                  (group_ match_literal 2)
            | None => Raise AttributeError
            end
          else
            match find_nat [squote] tail with
            | Some second_quote =>
                collapse_loop fuel (collapsed ++ head ++ py "\'\'") (drop (S second_quote) tail)
            | None => Ok (collapsed ++ elided)
            end
      end
  end.

Definition _CollapseStrings (elided : str) : res pyexn str :=
  if matched (re_match _RE_PATTERN_INCLUDE elided) then Ok elided
  else
    let elided := re_sub _RE_PATTERN_CLEANSE_LINE_ESCAPES (λ _, []) elided in
    collapse_loop (S (length elided)) [] elided.

(** ** [CleansedLines] *)
Record CleansedLines := {
  elided : list str;
  lines : list str;
  raw_lines : list str;
  num_lines : Z;
  lines_without_raw_strings : list str }.

Fixpoint map_res {E A B} (f : A → res E B) (l : list A) : res E (list B) :=
  match l with
  | [] => Ok []
  | a :: l => b ← f a; bs ← map_res f l; Ok (b :: bs)
  end.

Definition cleanse (raw : list str) : res pyexn CleansedLines :=
  without ← CleanseRawStrings raw;
  collapsed ← map_res _CollapseStrings without;
  Ok {| elided := CleanseComments <$> collapsed;
        lines := CleanseComments <$> without;
        raw_lines := raw;
        num_lines := Z.of_nat (length raw);
        lines_without_raw_strings := without |}.

Definition NumLines (self : CleansedLines) : Z := num_lines self.

(** * Theorems *)

(** ** Raw strings *)

Definition raw_parts : list part :=
  [Plain RBol; Cap 1 (RStar true RAny); Plain (RWordB false);
   Plain (RAlt (RChar 82)
     (RAlt (RCat (RChar 117) (RCat (RChar 56) (RChar 82)))
       (RAlt (RCat (RChar 117) (RChar 82))
         (RAlt (RCat (RChar 85) (RChar 82)) (RCat (RChar 76) (RChar 82))))));
   Plain (RChar 34);
   Cap 2 (RStar true (RSet true [IClass CSpace; IChar 92; IChar 40; IChar 41]));
   Plain (RChar 40); Cap 3 (RStar true RAny); Plain REol].

Lemma raw_string_re_parts : raw_string_re = parts_re raw_parts.
Proof. vm_compute. reflexivity. Qed.

(** A raw string start: prefix, delimiter and the text behind the parenthesis. *)
Lemma raw_string_match line m :
  re_match raw_string_re line = Some m →
  ∃ a p d b t, line = a ++ p ++ [34%N] ++ d ++ [40%N] ++ b ++ t ∧
    group_ m 1 = a ∧ group_ m 2 = d ∧ group_ m 3 = b.
Proof.
  intros H. destruct (re_match_parts _ _ _ _ raw_string_re_parts eq_refl H)
    as (ws&c'&Hs&Hd&Hg).
  unfold raw_parts in Hd. read_parts Hd.
  assert (w = []) as -> by (destruct Hd0 as [_ ->]; by eapply read_stay).
  assert (w1 = []) as -> by (destruct Hd2 as [_ ->]; by eapply read_stay).
  assert (w3 = [34%N]) as -> by by eapply den_char_read.
  assert (w5 = [40%N]) as -> by by eapply den_char_read.
  exists w0, w2, w4, w6, (w7 ++ c_rest c'). split.
  - clear -Hs. rewrite Hs. cbn [concat]. by norm_app.
  - clear -Hg. unfold group_. split_and!.
    + by rewrite (Hg 1 _ _ _ eq_refl eq_refl).
    + by rewrite (Hg 5 _ _ _ eq_refl eq_refl).
    + by rewrite (Hg 7 _ _ _ eq_refl eq_refl).
Qed.

Lemma raw_string_starts_total fuel line :
  length line < fuel → ∃ r, raw_string_starts fuel line = Ok r.
Proof.
  revert line; induction fuel as [|fuel IH]; intros line Hf; [lia|]. cbn [raw_string_starts].
  destruct (re_match raw_string_re line) as [m|] eqn:E; [|by eexists].
  apply raw_string_match in E as (a&p&d&b&t&Hl&->&->&->).
  destruct (find_nat _ b) as [e|] eqn:Ee; [|by eexists]. apply IH.
  rewrite Hl in Hf. apply find_nat_Some in Ee as [Ee _]. apply prefix_length in Ee.
  rewrite length_drop in Ee. rewrite !length_app in *. cbn [length] in *.
  rewrite length_drop. cbn in *. lia.
Qed.

(** The delimiters the loop waits for start with a parenthesis. *)
Definition delimiter_ok (d : option str) : Prop := ∀ t, d = Some t → ∃ u, t = 41%N :: u.

Lemma raw_string_starts_delimiter fuel line r :
  raw_string_starts fuel line = Ok r → delimiter_ok r.2.
Proof.
  revert line; induction fuel as [|fuel IH]; intros line; cbn [raw_string_starts]; [done|].
  destruct (re_match raw_string_re line) as [m|]; [|intros [= <-]; by intros ?].
  destruct (find_nat _ _); [apply IH|]. intros [= <-] t [= <-]. by eexists.
Qed.

Lemma leading_space_re_eq :
  rx "^(\s*)\S" = RCat RBol (RCat (RGroup 1 (RStar true (RSet false [IClass CSpace])))
                              (RSet false [IClass CNSpace])).
Proof. vm_compute. reflexivity. Qed.

Lemma leading_space_match c line :
  c ∈ line → is_re_space c = false → is_Some (re_match (rx "^(\s*)\S") line).
Proof.
  intros Hin Hc.
  assert (Hs : ∃ sp a t, line = sp ++ a :: t ∧ Forall (λ b, is_re_space b = true) sp ∧
                         is_re_space a = false).
  { induction line as [|b line IH]; [by apply elem_of_nil in Hin|].
    destruct (is_re_space b) eqn:Eb.
    - destruct IH as (sp&a&t&->&Hsp&Ha).
      { apply elem_of_cons in Hin as [->|]; [congruence|done]. }
      exists (b :: sp), a, t. split_and!; [done|by constructor|done].
    - exists [], b, line. by split_and!. }
  destruct Hs as (sp&a&t&->&Hsp&Ha).
  unfold re_match, re_match_fl, match_at. rewrite leading_space_re_eq.
  rewrite rmatch_cat, rmatch_bol. cbn [at_bol start_cur c_prev noflags f_multi].
  rewrite rmatch_cat, rmatch_group. eexists.
  eapply (star_set_greedy _ _ _ _ sp (a :: t)); [done| | |].
  - eapply Forall_impl; [exact Hsp|]. intros b Hb. unfold set_ok, in_set. cbn.
    by rewrite Hb.
  - intros b u [= <- <-]. unfold set_ok, in_set. cbn. by rewrite Ha.
  - erewrite rmatch_set_cons by by apply adv_rest.
    assert (set_ok noflags false [IClass CNSpace] a = true) as ->
      by (unfold set_ok, in_set; cbn; by rewrite Ha).
    reflexivity.
Qed.

Lemma cleanse_raw_line_total d line :
  delimiter_ok d → ∃ r, cleanse_raw_line d line = Ok r ∧ delimiter_ok r.2.
Proof.
  intros Hd. unfold cleanse_raw_line.
  assert (Hnone : ∀ l, ∃ r, raw_string_starts (S (length l)) l = Ok r ∧ delimiter_ok r.2).
  { intros l. destruct (raw_string_starts_total (S (length l)) l) as [r Hr]; [lia|].
    exists r. split; [done|]. by eapply raw_string_starts_delimiter. }
  destruct d as [t|]; [|apply Hnone]. destruct (Hd t eq_refl) as [u ->].
  destruct (find_nat _ line) as [e|] eqn:Ee; [|by eexists].
  destruct (leading_space_match 41%N line) as [m ->]; [|done|apply Hnone].
  rewrite (find_nat_split _ _ _ Ee), !elem_of_app. right. left. left.
Qed.

Lemma cleanse_raw_lines_total d raw :
  delimiter_ok d → ∃ r, cleanse_raw_lines d raw = Ok r ∧ length r = length raw.
Proof.
  revert d; induction raw as [|line raw IH]; intros d Hd; [by exists []|].
  cbn [cleanse_raw_lines]. destruct (cleanse_raw_line_total d line Hd) as ([l d']&->&Hd').
  cbn [mbind res_bind]. destruct (IH d' Hd') as (r&->&Hr).
  exists (l :: r). split; [done|cbn; by rewrite Hr].
Qed.

(** ** Multi-line comments *)

(** A line that opens a comment it does not close, and one that closes one. *)
Definition opens (line : str) : bool :=
  starts_with (py "/*") (strip line) && (find_at (py "*/") (strip line) 2 <? 0)%Z.
Definition closes (line : str) : bool := ends_with (py "*/") (strip line).

Lemma find_comment_start_spec rest ix :
  (Forall (λ l, opens l = false) rest ∧ find_comment_start rest ix = ix + length rest) ∨
  (∃ u l v, rest = u ++ l :: v ∧ Forall (λ l, opens l = false) u ∧ opens l = true ∧
            find_comment_start rest ix = ix + length u).
Proof.
  revert ix; induction rest as [|l rest IH]; intros ix; cbn [find_comment_start].
  { left. split; [constructor|cbn; lia]. }
  fold (opens l). destruct (opens l) eqn:E.
  { right. exists [], l, rest. split_and!; [done|constructor|done|cbn; lia]. }
  destruct (IH (S ix)) as [[Hf ->]|(u&l'&v&->&Hu&Hl&->)].
  - left. split; [by constructor|cbn; lia].
  - right. exists (l :: u), l', v. split_and!; [done|by constructor|done|cbn; lia].
Qed.

Lemma find_comment_end_spec rest ix :
  (Forall (λ l, closes l = false) rest ∧ find_comment_end rest ix = ix + length rest) ∨
  (∃ u l v, rest = u ++ l :: v ∧ Forall (λ l, closes l = false) u ∧ closes l = true ∧
            find_comment_end rest ix = ix + length u).
Proof.
  revert ix; induction rest as [|l rest IH]; intros ix; cbn [find_comment_end].
  { left. split; [constructor|cbn; lia]. }
  fold (closes l). destruct (closes l) eqn:E.
  { right. exists [], l, rest. split_and!; [done|constructor|done|cbn; lia]. }
  destruct (IH (S ix)) as [[Hf ->]|(u&l'&v&->&Hu&Hl&->)].
  - left. split; [by constructor|cbn; lia].
  - right. exists (l :: u), l', v. split_and!; [done|by constructor|done|cbn; lia].
Qed.

Lemma remove_range a b c :
  RemoveMultiLineCommentsFromRange (a ++ b ++ c) (length a) (length a + length b)
  = a ++ repeat (py "/**/") (length b) ++ c.
Proof.
  unfold RemoveMultiLineCommentsFromRange. replace (_ - length a) with (length b) by lia.
  revert a; induction b as [|x b IH]; intros a; [done|]. cbn [length seq foldl app].
  replace (length a) with (length a + 0) at 1 by lia. rewrite insert_app_r. cbn [insert list_insert].
  replace (a ++ py "/**/" :: b ++ c) with ((a ++ [py "/**/"]) ++ b ++ c)
    by (by rewrite <- app_assoc).
  replace (S (length a)) with (length (a ++ [py "/**/"])) by (rewrite length_app; cbn; lia).
  rewrite IH. by rewrite <- app_assoc.
Qed.

(** A comment: from a line that opens it to the first line, that one included, that
    closes it. *)
Definition comment (c : list str) : Prop :=
  ∃ u l, c = u ++ [l] ∧ Forall (λ l, closes l = false) u ∧ closes l = true ∧
         from_option opens false (head c) = true.

(** The specification: the comments are blanked out line by line, the lines outside
    stay. *)
Inductive stripped : list str → list str → Prop :=
| stripped_nil : stripped [] []
| stripped_copy l ls ls' : opens l = false → stripped ls ls' → stripped (l :: ls) (l :: ls')
| stripped_comment c ls ls' :
    comment c → stripped ls ls' →
    stripped (c ++ ls) (repeat (py "/**/") (length c) ++ ls').

Lemma stripped_copies u ls ls' :
  Forall (λ l, opens l = false) u → stripped ls ls' → stripped (u ++ ls) (u ++ ls').
Proof. induction 1; intros; [done|]. cbn. by constructor; [|auto]. Qed.

Lemma stripped_app a a' b b' : stripped a a' → stripped b b' → stripped (a ++ b) (a' ++ b').
Proof.
  induction 1; intros Hb; [done| |].
  - cbn. by constructor; [|auto].
  - rewrite <- !app_assoc. apply stripped_comment; auto.
Qed.

(** What the loop makes of the rest of the file: comments blanked to the end, or up to
    one that is never closed, which is reported. *)
Lemma remove_comments_spec fuel f (error : error_fn) don rest w :
  length rest < fuel →
  (∃ rest', stripped rest rest' ∧
     remove_comments fuel f error (don ++ rest) (length don) w = (Ok (don ++ rest'), w)) ∨
  (∃ p p' l s, rest = p ++ l :: s ∧ stripped p p' ∧ opens l = true ∧
     Forall (λ l, closes l = false) (l :: s) ∧
     remove_comments fuel f error (don ++ rest) (length don) w
     = (error f (Z.of_nat (length (don ++ p)) + 1)%Z (py "readability/multiline_comment") 5%Z
          (py "Could not find end of multi-line comment") ;;
        mret (don ++ p' ++ l :: s)) w).
Proof.
  revert don rest; induction fuel as [|fuel IH]; intros don rest Hf; [lia|].
  cbn [remove_comments]. unfold FindNextMultiLineCommentStart. rewrite drop_app_length.
  destruct (Nat.leb_spec (length (don ++ rest)) (length don)) as [Hle|_].
  { left. rewrite length_app in Hle. destruct rest; [|cbn in Hle; lia].
    exists []. split; [constructor|done]. }
  destruct (find_comment_start_spec rest (length don)) as [[Hn ->]|(u&l&v&->&Hu&Hl&->)].
  { left. exists rest. rewrite length_app, Nat.leb_refl. split; [|done].
    rewrite <- (app_nil_r rest). apply stripped_copies; [done|constructor]. }
  rewrite (proj2 (Nat.leb_gt _ _)) by (rewrite !length_app; cbn; lia).
  unfold FindNextMultiLineCommentEnd.
  replace (drop _ (don ++ u ++ l :: v)) with (l :: v)
    by (by rewrite app_assoc, <- length_app, drop_app_length).
  destruct (find_comment_end_spec (l :: v) (length don + length u))
    as [[Hn ->]|(cu&cl&rest'&Hc&Hcu&Hcl&->)].
  { right. rewrite (proj2 (Nat.leb_le _ _)) by (rewrite !length_app; lia).
    exists u, u, l, v. split_and!; try done.
    - rewrite <- (app_nil_r u). apply stripped_copies; [done|constructor].
    - by rewrite length_app. }
  assert (Hlen : length (l :: v) = length cu + S (length rest')) by (by rewrite Hc, length_app).
  rewrite (proj2 (Nat.leb_gt _ _)) by (rewrite !length_app, Hlen; lia).
  set (c := cu ++ [cl]).
  assert (Elv : l :: v = c ++ rest') by (unfold c; by rewrite <- app_assoc).
  assert (Hcom : comment c).
  { exists cu, cl. split_and!; try done. unfold c in *. by destruct cu; injection Elv as <- _. }
  assert (Hlc : length c = S (length cu)) by (unfold c; rewrite length_app; cbn; lia).
  rewrite Elv. replace (don ++ u ++ c ++ rest') with ((don ++ u) ++ c ++ rest')
    by (by rewrite <- app_assoc).
  replace (length don + length u) with (length (don ++ u)) by apply length_app.
  replace (S (length (don ++ u) + length cu)) with (length (don ++ u) + length c) by lia.
  rewrite remove_range.
  set (blank := repeat (py "/**/") (length c)).
  assert (Hb : length blank = length c) by apply repeat_length.
  replace ((don ++ u) ++ blank ++ rest') with ((don ++ u ++ blank) ++ rest')
    by (by rewrite <- !app_assoc).
  replace (length (don ++ u) + length c) with (length (don ++ u ++ blank))
    by (rewrite !length_app; lia).
  assert (Hs : ∀ a a', stripped a a' → stripped (u ++ c ++ a) (u ++ blank ++ a')).
  { intros a a' Ha. apply stripped_copies; [done|]. by apply stripped_comment. }
  destruct (IH (don ++ u ++ blank) rest') as [(r&Hr&->)|(p&p'&l'&s&->&Hp&Hl'&Hs'&->)].
  { rewrite length_app in Hf. lia. }
  - left. exists (u ++ blank ++ r). split; [by apply Hs|]. by rewrite <- !app_assoc.
  - right. exists (u ++ c ++ p), (u ++ blank ++ p'), l', s. split_and!; try done.
    + by rewrite <- !app_assoc.
    + by apply Hs.
    + rewrite <- !app_assoc. rewrite !length_app. rewrite Hb. done.
Qed.

(** C38: [RemoveMultiLineComments] terminates and does one of two things: every comment
    of the file is blanked line by line and nothing else changes, silently; or this
    happens up to a comment that is never closed, which is reported at its first line
    and left in place with everything behind it. *)
Theorem remove_multi_line_comments f lns (error : error_fn) w :
  (∃ lns', stripped lns lns' ∧ RemoveMultiLineComments f lns error w = (Ok lns', w)) ∨
  (∃ p p' l s, lns = p ++ l :: s ∧ stripped p p' ∧ opens l = true ∧
     Forall (λ l, closes l = false) (l :: s) ∧
     RemoveMultiLineComments f lns error w
     = (error f (Z.of_nat (length p) + 1)%Z (py "readability/multiline_comment") 5%Z
          (py "Could not find end of multi-line comment") ;;
        mret (p' ++ l :: s)) w).
Proof. apply (remove_comments_spec _ f error []). lia. Qed.

(** ** String and character constants *)

Definition quote_parts : list part :=
  [Plain RBol; Cap 1 (RStar true (RSet true [IChar 39; IChar 34]));
   Cap 2 (RSet false [IChar 39; IChar 34]); Cap 3 (RStar true RAny); Plain REol].

Lemma first_quote_re_parts : first_quote_re = parts_re quote_parts.
Proof. vm_compute. reflexivity. Qed.

Lemma quote_set_ok neg a :
  set_ok noflags neg [IChar 39; IChar 34] a = xorb neg ((a =? 39)%N || (a =? 34)%N).
Proof.
  unfold set_ok, in_set. cbn. by rewrite orb_false_r, (N.eqb_sym a 39), (N.eqb_sym a 34).
Qed.

(** The first quote of a line, what is before it and what is behind it. *)
Lemma first_quote_match s m :
  re_match first_quote_re s = Some m →
  ∃ h q tl t, s = h ++ q :: tl ++ t ∧ (q = 39%N ∨ q = 34%N) ∧
    (dquote ∉ h) ∧ (squote ∉ h) ∧ (10%N ∉ tl) ∧
    group_ m 1 = h ∧ group_ m 2 = [q] ∧ group_ m 3 = tl.
Proof.
  intros H. destruct (re_match_parts _ _ _ _ first_quote_re_parts eq_refl H)
    as (ws&c'&Hs&Hd&Hg).
  unfold quote_parts in Hd. read_parts Hd.
  assert (w = []) as -> by (destruct Hd0 as [_ ->]; by eapply read_stay).
  destruct (den_set_read _ _ _ _ _ _ Hd2 Hr1) as (q&->&Hq).
  pose proof (den_star_set_read _ _ _ _ _ _ _ Hd1 Hr0) as Hh.
  pose proof (den_star_any_read _ _ _ _ _ Hd3 Hr2) as Htl.
  clear Hd0 Hd1 Hd2 Hd3 Hd4 Hr Hr0 Hr2 Hr3 H.
  rewrite quote_set_ok in Hq. cbn in Hq. apply orb_true_iff in Hq.
  rewrite !N.eqb_eq in Hq.
  assert (Hno : ∀ a, (a = 39%N ∨ a = 34%N) → a ∉ w0).
  { intros a Ha Hin. rewrite Forall_forall in Hh. apply Hh in Hin.
    rewrite quote_set_ok in Hin. by destruct Ha as [-> | ->]; cbn in Hin. }
  exists w0, q, w2, (w3 ++ c_rest c'). split_and!; try done.
  - rewrite Hs. cbn [concat]. by norm_app.
  - apply Hno. by right.
  - apply Hno. by left.
  - unfold group_. by rewrite (Hg 1 _ _ _ eq_refl eq_refl).
  - unfold group_. by rewrite (Hg 2 _ _ _ eq_refl eq_refl).
  - unfold group_. by rewrite (Hg 3 _ _ _ eq_refl eq_refl).
Qed.

Definition digits_parts : list part :=
  [Plain RBol;
   Cap 1 (RStar true (RCat (ROpt true (RChar 39))
     (RSet false [IRange 48 57; IRange 97 122; IRange 65 90; IChar 95])));
   Cap 2 (RStar true RAny); Plain REol].

Lemma digits_re_parts : digits_re = parts_re digits_parts.
Proof. vm_compute. reflexivity. Qed.

Lemma iter_any w t c :
  (10%N ∉ w) → c_rest c = w ++ t → iter (den noflags RAny) c (adv w c).
Proof.
  revert c; induction w as [|a w IH]; intros c Hw E; [rewrite adv_nil; constructor|].
  apply not_elem_of_cons in Hw as [Ha Hw]. eapply iter_step.
  - exists a, (w ++ t). split_and!; [done|by intros ->|done].
  - rewrite (adv_cons _ _ _ (w ++ t)) by done. by apply IH.
Qed.

Lemma digits_match s :
  (10%N ∉ s) →
  ∃ m b, re_match digits_re s = Some m ∧ group_ m 2 = b ∧ length b ≤ length s.
Proof.
  intros Hs. assert (Hm : is_Some (re_match digits_re s)).
  { apply matched_iff; [done|]. rewrite digits_re_parts. exists (adv s (start_cur s)).
    exists (start_cur s). split; [done|]. exists (start_cur s). split; [apply iter_refl|].
    exists (adv s (start_cur s)). split.
    - apply (iter_any s []); [done|]. by rewrite app_nil_r.
    - split; [|done]. unfold at_eol. cbn. by rewrite drop_all. }
  destruct Hm as [m Hm]. exists m, (group_ m 2). split_and!; [done|done|].
  destruct (re_match_parts _ _ _ _ digits_re_parts eq_refl Hm) as (ws&c'&E&Hd&Hg).
  unfold digits_parts in Hd. read_parts Hd. clear Hd0 Hd1 Hd2 Hd3.
  unfold group_. rewrite (Hg 2 _ _ _ eq_refl eq_refl). cbn [default from_option].
  unfold id. apply (f_equal length) in E. cbn [concat] in E. rewrite !length_app in E. lia.
Qed.

Lemma number_re_nil : matched (re_search number_re []) = false.
Proof. vm_compute. reflexivity. Qed.

Lemma collapse_loop_total fuel collapsed s :
  length s < fuel → ∃ r, collapse_loop fuel collapsed s = Ok r.
Proof.
  revert collapsed s; induction fuel as [|fuel IH]; intros collapsed s Hf; [lia|].
  cbn [collapse_loop]. destruct (re_match first_quote_re s) as [m|] eqn:E; [|by eexists].
  apply first_quote_match in E as (h&q&tl&t&Es&_&_&_&Hnl&->&->&->).
  assert (Hlen : length h + S (length tl) ≤ length s)
    by (rewrite Es; rewrite !length_app; cbn; rewrite length_app; lia).
  case_bool_decide.
  - destruct (find_nat [dquote] tl); [|by eexists]. apply IH. rewrite length_drop. lia.
  - destruct (matched (re_search number_re h)) eqn:En.
    + assert (h ≠ []) by (intros ->; by rewrite number_re_nil in En).
      destruct (digits_match (squote :: tl)) as (m'&b&->&->&Hb).
      { apply not_elem_of_cons. done. }
      apply IH. cbn in Hb. destruct h; [done|]. cbn in Hlen. lia.
    + destruct (find_nat [squote] tl); [|by eexists]. apply IH. rewrite length_drop. lia.
Qed.

Lemma collapse_total s : ∃ r, _CollapseStrings s = Ok r.
Proof.
  unfold _CollapseStrings. destruct (matched _); [by eexists|]. apply collapse_loop_total. lia.
Qed.

Lemma map_res_total {A B} (f : A → res pyexn B) l :
  (∀ a, ∃ b, f a = Ok b) → ∃ r, map_res f l = Ok r ∧ length r = length l.
Proof.
  intros Hf. induction l as [|a l (r&Hr&Hl)]; [by exists []|]. cbn [map_res].
  destruct (Hf a) as [b ->]. cbn [mbind res_bind]. rewrite Hr. cbn [mbind res_bind].
  exists (b :: r). split; [done|cbn; by rewrite Hl].
Qed.

(** What holds of the lines of a file: one entry per line everywhere, no line break inside
    a line. *)
Record aligned (cl : CleansedLines) : Prop := {
  al_raw : length (raw_lines cl) = length (elided cl);
  al_lines : length (lines cl) = length (elided cl);
  al_without : length (lines_without_raw_strings cl) = length (elided cl);
  al_num : NumLines cl = Z.of_nat (length (elided cl));
  al_break : Forall (λ l, 10%N ∉ l) (elided cl) }.

(** Building [CleansedLines] always succeeds - the loops over raw strings and over
    string constants terminate and no match they rely on can be missing - and its four
    lists have one entry per line of the file. *)
Theorem cleanse_total raw :
  ∃ cl, cleanse raw = Ok cl ∧ raw_lines cl = raw ∧
    length (elided cl) = length raw ∧ length (lines cl) = length raw ∧
    length (lines_without_raw_strings cl) = length raw ∧ NumLines cl = Z.of_nat (length raw).
Proof.
  unfold cleanse, CleanseRawStrings.
  destruct (cleanse_raw_lines_total None raw) as (without&->&Hw); [by intros ?|].
  cbn [mbind res_bind].
  destruct (map_res_total _CollapseStrings without collapse_total) as (col&->&Hc).
  cbn [mbind res_bind]. eexists. split; [done|]. cbn. rewrite !length_fmap. split_and!; lia || done.
Qed.
