(* ===== verification/LintInclude.v ===== *)
(** * cpplint.py: include order, function length and file names

    [_IncludeState], [_FunctionState] and [FileInfo]. *)

From S2P Require Import Prelude PyStr PyRe PyReFacts PyPath LintData LintState LintLines.

(** ** [_IncludeState] *)
Module IncludeState.
Definition _INITIAL_SECTION : Z := 0.
Definition _MY_H_SECTION : Z := 1.
Definition _C_SECTION : Z := 2.
Definition _CPP_SECTION : Z := 3.
Definition _OTHER_H_SECTION : Z := 4.

Definition _TYPE_NAMES (header_type : Z) : res pyexn str :=
  if decide (header_type = _C_SYS_HEADER) then Ok (py "C system header")
  else if decide (header_type = _CPP_SYS_HEADER) then Ok (py "C++ system header")
  else if decide (header_type = _LIKELY_MY_HEADER) then Ok (py "header this file implements")
  else if decide (header_type = _POSSIBLE_MY_HEADER) then Ok (py "header this file may implement")
  else if decide (header_type = _OTHER_HEADER) then Ok (py "other header")
  else Raise (KeyError (str_of_Z header_type)).

Definition _SECTION_NAMES (section : Z) : res pyexn str :=
  if decide (section = _INITIAL_SECTION) then Ok (py "... nothing. (This can\'t be an error.)")
  else if decide (section = _MY_H_SECTION) then Ok (py "a header this file implements")
  else if decide (section = _C_SECTION) then Ok (py "C system header")
  else if decide (section = _CPP_SECTION) then Ok (py "C++ system header")
  else if decide (section = _OTHER_H_SECTION) then Ok (py "other header")
  else Raise (KeyError (str_of_Z section)).

(** [include_list]: lists of (header, line number). *)
Record t := make {
  include_list : list (list (str * Z));
  _section : Z;
  _last_header : str }.

(** The part of [ResetSection] on [include_list]. *)
Definition reset_include_list (directive : str) (l : list (list (str * Z)))
    : res pyexn (list (list (str * Z))) :=
  if mem_str directive [py "if"; py "ifdef"; py "ifndef"] then Ok (l ++ [[]])
  else if mem_str directive [py "else"; py "elif"] then
    match l with
    | [] => Raise IndexError
    | _ => Ok (take (length l - 1) l ++ [[]])
    end
  else Ok l.

Definition ResetSection (directive : str) (s : t) : res pyexn t :=
  l ← reset_include_list directive (include_list s);
  Ok (make l _INITIAL_SECTION []).

Definition __init__ : t := make [[]] _INITIAL_SECTION [].

Fixpoint find_in_section (header : str) (section_list : list (str * Z)) : option Z :=
  match section_list with
  | [] => None
  | f :: section_list =>
      if str_eqb f.1 header then Some f.2 else find_in_section header section_list
  end.

Fixpoint find_in_list (header : str) (l : list (list (str * Z))) : Z :=
  match l with
  | [] => -1
  | section_list :: l =>
      match find_in_section header section_list with
      | Some n => n
      | None => find_in_list header l
      end
  end.

Definition FindHeader (header : str) (s : t) : Z := find_in_list header (include_list s).

Definition SetLastHeader (header_path : str) (s : t) : t :=
  make (include_list s) (_section s) header_path.

Definition CanonicalizeAlphabeticalOrder (header_path : str) : str :=
  lower (replace (py "-") (py "_") (replace (py "-inl.h") (py ".h") header_path)).

Definition IsInAlphabeticalOrder (clean_lines : CleansedLines) (linenum : Z)
    (header_path : str) (s : t) : res pyexn bool :=
  if str_ltb header_path (_last_header s) then
    match py_index (elided clean_lines) (linenum - 1) with
    | Some line => Ok (negb (matched (re_match (rx "^\s*#\s*include\b") line)))
    | None => Raise IndexError
    end
  else Ok true.

Definition CheckNextIncludeOrder (header_type : Z) (s : t) : res pyexn (str * t) :=
  type_name ← _TYPE_NAMES header_type;
  section_name ← _SECTION_NAMES (_section s);
  let error_message := py "Found " ++ type_name ++ py " after " ++ section_name in
  let last_section := _section s in
  let enter (section : Z) :=
    Ok ([], make (include_list s) section
              (if decide (last_section ≠ section) then [] else _last_header s)) in
  let fail_ := Ok (error_message, make (include_list s) (_section s) []) in
  if decide (header_type = _C_SYS_HEADER) then
    if (_section s <=? _C_SECTION)%Z then enter _C_SECTION else fail_
  else if decide (header_type = _CPP_SYS_HEADER) then
    if (_section s <=? _CPP_SECTION)%Z then enter _CPP_SECTION else fail_
  else if decide (header_type = _LIKELY_MY_HEADER) then
    if (_section s <=? _MY_H_SECTION)%Z then enter _MY_H_SECTION else enter _OTHER_H_SECTION
  else if decide (header_type = _POSSIBLE_MY_HEADER) then
    if (_section s <=? _MY_H_SECTION)%Z then enter _MY_H_SECTION else enter _OTHER_H_SECTION
  else if decide (header_type = _OTHER_HEADER) then enter _OTHER_H_SECTION
  else Raise AssertionError.
End IncludeState.

(** ** [_FunctionState] *)
Module FunctionState.
Definition _NORMAL_TRIGGER : Z := 250.
Definition _TEST_TRIGGER : Z := 400.

Record t := make {
  in_a_function : bool;
  lines_in_function : Z;
  current_function : str }.

Definition __init__ : t := make false 0 [].
Definition Begin (function_name : str) (s : t) : t := make true 0 function_name.
Definition Count (s : t) : t :=
  if in_a_function s
  then make (in_a_function s) (lines_in_function s + 1) (current_function s) else s.
Definition End_ (s : t) : t := make false (lines_in_function s) (current_function s).

(** [trigger = base_trigger * 2**level]. For a negative level the power is a float and
    so is the trigger; the comparison is then scaled by the power. *)
Definition exceeds (lines base level : Z) : bool :=
  if (0 <=? level)%Z then (base * 2 ^ level <? lines)%Z else (base <? lines * 2 ^ (- level))%Z.
(** What [%d] makes of the trigger. *)
Definition shown_trigger (base level : Z) : Z :=
  if (0 <=? level)%Z then (base * 2 ^ level)%Z else (base / 2 ^ (- level))%Z.

(** [int(math.log(n, 2))] capped at 5: the float logarithm is exact at the powers of
    two below 64. [math.log] of zero is a [ValueError]. *)
Definition level_of (n : Z) : res pyexn Z :=
  if (n <=? 0)%Z then Raise (ValueError (py "math domain error"))
  else Ok (Z.min 5 (Z.log2 n)).

Definition Check_ (s : t) (error : error_fn) (filename : str) (linenum : Z) : lint unit :=
  let base_trigger :=
    if matched (re_match (rx "T(EST|est)") (current_function s))
    then _TEST_TRIGGER else _NORMAL_TRIGGER in
  level ← _VerboseLevel;
  whenM (exceeds (lines_in_function s) base_trigger level) (
    error_level ← liftM (level_of (lines_in_function s / base_trigger));
    error filename linenum (py "readability/fn_size") error_level
      (py "Small and focused functions are preferred: " ++ current_function s ++ py " has "
       ++ str_of_Z (lines_in_function s) ++ py " non-comment lines (error triggered by exceeding "
       ++ str_of_Z (shown_trigger base_trigger level) ++ py " lines).")).
End FunctionState.

(** ** [FileInfo] *)
Module FileInfo.
Section fileinfo.
(** The working directory and the paths that exist. *)
Context (cwd : str) (exists_ : str → bool).

Definition FullName (_filename : str) : str :=
  replace (py "\\") (py "/") (abspath cwd _filename).

(** [while os.path.exists(os.path.join(one_up_dir, ".svn"))] *)
Fixpoint svn_root (fuel : nat) (root_dir one_up_dir : str) : res pyexn str :=
  match fuel with
  | O => Raise Diverges
  | S fuel =>
      if exists_ (path_join one_up_dir (py ".svn"))
      then svn_root fuel (dirname root_dir) (dirname one_up_dir)
      else Ok root_dir
  end.

Definition has_vcs (dir : str) : bool :=
  exists_ (path_join dir (py ".git")) || exists_ (path_join dir (py ".hg"))
  || exists_ (path_join dir (py ".svn")).

(** [while root_dir != os.path.dirname(root_dir) and not ...] *)
Fixpoint vcs_root (fuel : nat) (root_dir : str) : str :=
  match fuel with
  | O => root_dir
  | S fuel =>
      if negb (str_eqb root_dir (dirname root_dir)) && negb (has_vcs root_dir)
      then vcs_root fuel (dirname root_dir) else root_dir
  end.

(** Both loops go up at most once per character of the path. *)
Definition RepositoryName (_filename : str) : res pyexn str :=
  let fullname := FullName _filename in
  if exists_ fullname then
    let project_dir := dirname fullname in
    if exists_ (path_join project_dir (py ".svn")) then
      root_dir ← svn_root (S (length project_dir)) project_dir (dirname project_dir);
      let prefix := commonprefix root_dir project_dir in
      Ok (drop (length prefix + 1) fullname)
    else
      let root_dir := vcs_root (S (length fullname)) (dirname fullname) in
      if has_vcs root_dir then
        let prefix := commonprefix root_dir project_dir in
        Ok (drop (length prefix + 1) fullname)
      else Ok fullname
  else Ok fullname.

Definition Split (_filename : str) : res pyexn (str * str * str) :=
  googlename ← RepositoryName _filename;
  let '(project, rest) := path_split googlename in
  let '(root, ext) := splitext rest in
  Ok (project, root, ext).

Definition BaseName (_filename : str) : res pyexn str :=
  '(_, b, _) ← Split _filename; Ok b.
Definition Extension (_filename : str) : res pyexn str :=
  '(_, _, e) ← Split _filename; Ok e.
Definition NoExtension (_filename : str) : res pyexn str :=
  '(d, b, _) ← Split _filename; Ok (d ++ py "/" ++ b).
Definition IsSource (_filename : str) : res pyexn bool :=
  e ← Extension _filename;
  Ok (mem_str (drop 1 e) [py "c"; py "cc"; py "cpp"; py "cxx"]).
End fileinfo.
End FileInfo.

(** * Theorems *)

Module IncludeStateFacts.
Import IncludeState.

(** The type constants and the sections. *)
Definition header_types : list Z :=
  [_C_SYS_HEADER; _CPP_SYS_HEADER; _LIKELY_MY_HEADER; _POSSIBLE_MY_HEADER; _OTHER_HEADER].
Definition well_formed (s : t) : Prop :=
  include_list s ≠ [] ∧ (_INITIAL_SECTION ≤ _section s ≤ _OTHER_H_SECTION)%Z.

(** The section a header of a type belongs to, coming from a section. *)
Definition target (header_type section : Z) : Z :=
  if decide (header_type = _C_SYS_HEADER) then _C_SECTION
  else if decide (header_type = _CPP_SYS_HEADER) then _CPP_SECTION
  else if decide (header_type = _OTHER_HEADER) then _OTHER_H_SECTION
  else if (section <=? _MY_H_SECTION)%Z then _MY_H_SECTION else _OTHER_H_SECTION.

Lemma target_range ty section :
  (_INITIAL_SECTION ≤ target ty section ≤ _OTHER_H_SECTION)%Z.
Proof.
  unfold target, _INITIAL_SECTION, _MY_H_SECTION, _C_SECTION, _CPP_SECTION, _OTHER_H_SECTION.
  repeat case_match; lia.
Qed.

Local Ltac solve_check :=
  eexists _, _; split; [reflexivity|]; split; [done|];
  cbn [_section _last_header]; split_and!; try done; repeat case_decide; congruence.

Lemma check_next header_type s :
  header_type ∈ header_types → well_formed s →
  ∃ msg s', CheckNextIncludeOrder header_type s = Ok (msg, s') ∧
    include_list s' = include_list s ∧
    if (_section s <=? target header_type (_section s))%Z
    then msg = [] ∧ _section s' = target header_type (_section s) ∧
         _last_header s' = (if decide (_section s = _section s') then _last_header s else [])
    else msg ≠ [] ∧ _section s' = _section s ∧ _last_header s' = [].
Proof.
  intros Ht [_ Hs].
  assert (Hother : (_section s <=? _OTHER_H_SECTION)%Z = true) by (apply Z.leb_le; lia).
  unfold _INITIAL_SECTION, _OTHER_H_SECTION in Hs.
  assert (Hn : ∃ n, _SECTION_NAMES (_section s) = Ok n).
  { unfold _SECTION_NAMES. repeat case_decide; try by eexists.
    unfold _INITIAL_SECTION, _MY_H_SECTION, _C_SECTION, _CPP_SECTION, _OTHER_H_SECTION in *. lia. }
  destruct Hn as [n Hn]. unfold CheckNextIncludeOrder. rewrite Hn.
  assert (Hty : ∃ m, _TYPE_NAMES header_type = Ok m).
  { unfold _TYPE_NAMES. repeat case_decide; try by eexists.
    exfalso. revert Ht. unfold header_types. rewrite !elem_of_cons, elem_of_nil. tauto. }
  destruct Hty as [m ->]. cbn [mbind res_bind]. clear Hn.
  unfold header_types in Ht. rewrite !elem_of_cons, elem_of_nil in Ht.
  destruct Ht as [->|[->|[->|[->|[->|[]]]]]];
    repeat (rewrite decide_False by done); rewrite ?decide_True by done; cbn zeta.
  - change (target _C_SYS_HEADER (_section s)) with _C_SECTION.
    destruct (_section s <=? _C_SECTION)%Z; solve_check.
  - change (target _CPP_SYS_HEADER (_section s)) with _CPP_SECTION.
    destruct (_section s <=? _CPP_SECTION)%Z; solve_check.
  - change (target _LIKELY_MY_HEADER (_section s))
      with (if (_section s <=? _MY_H_SECTION)%Z then _MY_H_SECTION else _OTHER_H_SECTION).
    destruct (_section s <=? _MY_H_SECTION)%Z eqn:E; rewrite ?E, ?Hother; solve_check.
  - change (target _POSSIBLE_MY_HEADER (_section s))
      with (if (_section s <=? _MY_H_SECTION)%Z then _MY_H_SECTION else _OTHER_H_SECTION).
    destruct (_section s <=? _MY_H_SECTION)%Z eqn:E; rewrite ?E, ?Hother; solve_check.
  - change (target _OTHER_HEADER (_section s)) with _OTHER_H_SECTION. rewrite Hother.
    solve_check.
Qed.

(** [CheckNextIncludeOrder] is total on the header types and sections, never moves
    the section backwards, and complains exactly if the header belongs to a section
    before the current one. *)
Theorem include_order_step header_type s :
  header_type ∈ header_types → well_formed s →
  ∃ msg s', CheckNextIncludeOrder header_type s = Ok (msg, s') ∧ well_formed s' ∧
    (_section s ≤ _section s')%Z ∧
    (msg ≠ [] ↔ (target header_type (_section s) < _section s)%Z).
Proof.
  intros Ht Hw. destruct (check_next header_type s Ht Hw) as (msg&s'&E&Hl&H).
  exists msg, s'. split; [done|]. destruct Hw as [Hne Hs].
  unfold well_formed. rewrite Hl.
  destruct (Z.leb_spec (_section s) (target header_type (_section s))) as [Hle|Hlt].
  - destruct H as (->&->&_). pose proof (target_range header_type (_section s)).
    split_and!; try done; try lia. by split; [|lia].
  - destruct H as (Hm&->&_). split_and!; try done; lia.
Qed.

Lemma include_order_step_witness :
  ∃ msg s', CheckNextIncludeOrder _C_SYS_HEADER (make [[]] _CPP_SECTION (py "vector")) = Ok (msg, s')
    ∧ msg ≠ [].
Proof.
  destruct (include_order_step _C_SYS_HEADER (make [[]] _CPP_SECTION (py "vector")))
    as (msg&s'&E&_&_&H).
  - by left.
  - split; [done|]. cbn. unfold _INITIAL_SECTION, _CPP_SECTION, _OTHER_H_SECTION. lia.
  - exists msg, s'. split; [exact E|]. by apply H.
Defined.

(** The messages for the includes of a file, in order. *)
Fixpoint messages (types : list Z) (s : t) : res pyexn (list str) :=
  match types with
  | [] => Ok []
  | ty :: types =>
      '(msg, s) ← CheckNextIncludeOrder ty s;
      msgs ← messages types s;
      Ok (msg :: msgs)
  end.

(** System and other headers, without the headers the file implements. *)
Definition plain_types : list Z := [_C_SYS_HEADER; _CPP_SYS_HEADER; _OTHER_HEADER].

(** Sorted from a section on. *)
Fixpoint ordered (section : Z) (types : list Z) : bool :=
  match types with
  | [] => true
  | ty :: types => (section <=? target ty 0)%Z && ordered (target ty 0) types
  end.

Lemma target_plain ty section : ty ∈ plain_types → target ty section = target ty 0.
Proof.
  unfold plain_types. rewrite !elem_of_cons, elem_of_nil.
  by intros [->|[->|[->|[]]]].
Qed.

Lemma messages_ok types s :
  Forall (λ ty, ty ∈ header_types) types → well_formed s →
  ∃ msgs, messages types s = Ok msgs ∧ length msgs = length types.
Proof.
  intros Hty. revert s; induction Hty as [|ty types Ht _ IH]; intros s Hw; [by exists []|].
  cbn [messages]. destruct (check_next ty s Ht Hw) as (msg&s'&->&Hl&H).
  assert (Hw' : well_formed s').
  { destruct Hw as [Hne Hs]. split; [by rewrite Hl|].
    destruct (_ <=? _)%Z.
    - destruct H as (_&->&_). apply target_range.
    - destruct H as (_&->&_). done. }
  cbn [mbind res_bind]. destruct (IH s' Hw') as (msgs&->&Hlen).
  exists (msg :: msgs). split; [done|cbn; by rewrite Hlen].
Qed.



Lemma find_in_list_spec header l :
  find_in_list header l =
  match list_find (λ f : str * Z, f.1 = header) (concat l) with
  | Some (_, f) => f.2
  | None => (-1)%Z
  end.
Proof.
  induction l as [|sec l IH]; [done|]. cbn [find_in_list concat].
  induction sec as [|f sec IHs]; cbn [find_in_section app].
  - rewrite IH. by destruct (list_find _ (concat l)) as [[]|].
  - cbn [list_find]. unfold str_eqb. case_bool_decide as E.
    + by rewrite decide_True.
    + rewrite decide_False by done. rewrite IHs.
      by destruct (list_find _ (sec ++ concat l)) as [[]|].
Qed.

(** [FindHeader] and the preprocessor: a header is found with the line of its first
    occurrence among all the lists kept, -1 if there is none; [if] keeps everything that
    was found before, [else] and [elif] forget what the last list holds, any other
    directive changes nothing; the operation never fails on a list that starts as
    [__init__] makes it, and always starts the section over. *)
Theorem find_header_reset header directive s :
  include_list s ≠ [] →
  FindHeader header s =
    match list_find (λ f : str * Z, f.1 = header) (concat (include_list s)) with
    | Some (_, f) => f.2 | None => (-1)%Z end ∧
  ∃ s', ResetSection directive s = Ok s' ∧ include_list s' ≠ [] ∧
    _section s' = _INITIAL_SECTION ∧ _last_header s' = [] ∧
    concat (include_list s') =
      (if mem_str directive [py "else"; py "elif"]
       then concat (take (length (include_list s) - 1) (include_list s))
       else concat (include_list s)).
Proof.
  intros Hne. split; [apply find_in_list_spec|]. unfold ResetSection, reset_include_list.
  destruct (mem_str directive [py "if"; py "ifdef"; py "ifndef"]) eqn:E1.
  - assert (mem_str directive [py "else"; py "elif"] = false) as ->.
    { apply mem_str_spec in E1.
      repeat (apply elem_of_cons in E1 as [->|E1]; [by vm_compute|]). by apply elem_of_nil in E1. }
    eexists. split; [done|]. cbn. split_and!; try done.
    + by destruct (include_list s).
    + by rewrite concat_app, app_nil_r.
  - destruct (mem_str directive [py "else"; py "elif"]).
    + destruct (include_list s) as [|x l] eqn:El; [done|]. eexists. split; [done|].
      cbn [include_list _section _last_header]. split_and!; try done.
      * by destruct (take _ _).
      * by rewrite concat_app, app_nil_r.
    + eexists. split; [done|]. done.
Qed.

Lemma find_header_reset_witness :
  FindHeader (py "a.h") (make [[(py "b.h", 1%Z)]; [(py "a.h", 4%Z); (py "a.h", 9%Z)]] 0 []) = 4%Z.
Proof.
  refine (eq_trans (proj1 (find_header_reset (py "a.h") []
    (make [[(py "b.h", 1%Z)]; [(py "a.h", 4%Z); (py "a.h", 9%Z)]] 0 []) _)) _); done.
Defined.
End IncludeStateFacts.

Module FunctionStateFacts.
Import FunctionState.

(** A function over its length limit is always reported loudly enough to be seen:
    at verbosity 0 to 5 the limit doubles with each level, and a function beyond it gets
    a confidence between the verbosity level and 5, so that the verbosity test of
    [Error] lets the report through. *)
Theorem function_length_visible base lines v :
  (0 < base)%Z → (0 ≤ v ≤ 5)%Z → exceeds lines base v = true →
  ∃ level, level_of (lines / base) = Ok level ∧ (v ≤ level ≤ 5)%Z.
Proof.
  intros Hb Hv. unfold exceeds. rewrite (proj2 (Z.leb_le 0 v)) by lia.
  intros Hlt%Z.ltb_lt.
  assert (Hp : (2 ^ v ≤ lines / base)%Z) by (apply Z.div_le_lower_bound; lia).
  assert (0 < 2 ^ v)%Z by (apply Z.pow_pos_nonneg; lia).
  unfold level_of. rewrite (proj2 (Z.leb_gt _ _)) by lia.
  eexists. split; [done|]. apply Z.log2_le_mono in Hp. rewrite Z.log2_pow2 in Hp by lia. lia.
Qed.

Lemma function_length_visible_witness :
  ∃ level, level_of (1001 / 250) = Ok level ∧ (1 ≤ level ≤ 5)%Z.
Proof. apply (function_length_visible 250 1001 1); [lia|lia|reflexivity]. Defined.
End FunctionStateFacts.

Module FileInfoFacts.
Import FileInfo.
Section fileinfo.
Context (cwd : str) (exists_ : str → bool).

Lemma svn_root_spec fuel r o :
  length o < fuel →
  (∃ k, svn_root exists_ fuel r o = Ok (Nat.iter k dirname r)) ∨
  (∃ top, dirname top = top ∧ exists_ (path_join top (py ".svn")) = true).
Proof.
  revert r o; induction fuel as [|fuel IH]; intros r o Hf; [lia|]. cbn [svn_root].
  destruct (exists_ (path_join o (py ".svn"))) eqn:E; [|left; by exists 0].
  destruct (decide (dirname o = o)) as [Eo|Eo]; [right; by exists o|].
  destruct (IH (dirname r) (dirname o)) as [[k ->]|H]; [|left|by right].
  - pose proof (dirname_shorter o Eo). lia.
  - exists (S k). by rewrite Nat.iter_succ_r.
Qed.

(** The nearest directory, from [r] up, with a version control directory, or the top. *)
Lemma vcs_root_spec fuel r :
  length r < fuel →
  ∃ k, vcs_root exists_ fuel r = Nat.iter k dirname r ∧
    (has_vcs exists_ (Nat.iter k dirname r) = true
     ∨ dirname (Nat.iter k dirname r) = Nat.iter k dirname r) ∧
    ∀ j, j < k → has_vcs exists_ (Nat.iter j dirname r) = false.
Proof.
  revert r; induction fuel as [|fuel IH]; intros r Hf; [lia|]. cbn [vcs_root].
  unfold str_eqb. case_bool_decide as E; cbn [negb andb].
  { exists 0. split_and!; [done|by right|lia]. }
  destruct (has_vcs exists_ r) eqn:Ev; cbn [negb].
  { exists 0. split_and!; [done|by left|lia]. }
  destruct (IH (dirname r)) as (k&->&Hk&Hj).
  { pose proof (dirname_shorter r ltac:(congruence)). lia. }
  exists (S k). rewrite Nat.iter_succ_r. split_and!; [done|done|].
  intros [|j] Hlt; [done|]. rewrite Nat.iter_succ_r. apply Hj. lia.
Qed.

Lemma suffix_drop_any n (s : str) : drop n s `suffix_of` s.
Proof. exists (take n s). by rewrite take_drop. Qed.

(** [RepositoryName] returns, with some trailing part of the full name, unless a
    top directory (the root) holds a [.svn] entry. *)
Theorem repository_name_total f :
  (∀ top, dirname top = top → exists_ (path_join top (py ".svn")) = false) →
  ∃ r, RepositoryName cwd exists_ f = Ok r ∧ r `suffix_of` FullName cwd f.
Proof.
  intros Htop. unfold RepositoryName. destruct (exists_ (FullName cwd f)); [|by eexists].
  set (project_dir := dirname (FullName cwd f)).
  destruct (exists_ (path_join project_dir (py ".svn"))).
  - destruct (svn_root_spec (S (length project_dir)) project_dir (dirname project_dir))
      as [[k ->]|(top&Ht&Hx)].
    + pose proof (prefix_length _ _ (dirname_prefix project_dir)). lia.
    + cbn [mbind res_bind]. eexists. split; [done|]. apply suffix_drop_any.
    + by rewrite Htop in Hx.
  - destruct (has_vcs _ _); eexists; (split; [done|]); [apply suffix_drop_any|done].
Qed.

(** With a [.svn] entry in every directory up to the root the first loop of
    [RepositoryName] never ends: no number of steps is enough. *)
Theorem svn_root_diverges r :
  (∀ dir, exists_ (path_join dir (py ".svn")) = true) →
  ∀ fuel, svn_root exists_ fuel r (dirname r) = Raise Diverges.
Proof.
  intros H fuel. generalize (dirname r) as o. revert r.
  induction fuel as [|fuel IH]; intros r o; [done|]. cbn [svn_root]. rewrite H. apply IH.
Qed.

Lemma iter_dirname_prefix k p : Nat.iter k dirname p `prefix_of` p.
Proof.
  induction k as [|k IH]; [done|]. rewrite Nat.iter_succ.
  etransitivity; [apply dirname_prefix|exact IH].
Qed.

(** In a git or hg checkout (or a new svn one) whose root is below the top
    directory, [RepositoryName] is the path relative to the nearest enclosing
    directory that holds the version control data. *)
Theorem repository_name_relative f k :
  let fullname := FullName cwd f in
  let root := Nat.iter (S k) dirname fullname in
  exists_ fullname = true →
  exists_ (path_join (dirname fullname) (py ".svn")) = false →
  has_vcs exists_ root = true →
  (∀ j, j < k → has_vcs exists_ (Nat.iter (S j) dirname fullname) = false) →
  forallb (N.eqb slash) root = false →
  ∃ t, fullname = root ++ slash :: t ∧ RepositoryName cwd exists_ f = Ok t.
Proof.
  intros fullname root Hx Hsvn Hv Hj Hroot.
  destruct (dirname_iter_slash k fullname Hroot) as [t Ht]. exists t. split; [done|].
  unfold RepositoryName. fold fullname. rewrite Hx, Hsvn.
  assert (Hr : vcs_root exists_ (S (length fullname)) (dirname fullname) = root).
  { destruct (vcs_root_spec (S (length fullname)) (dirname fullname)) as (n&->&Hn&Hnj).
    { pose proof (prefix_length _ _ (dirname_prefix fullname)). lia. }
    unfold root in *. rewrite Nat.iter_succ_r in *.
    setoid_rewrite Nat.iter_succ_r in Hj.
    destruct (lt_eq_lt_dec n k) as [[Hlt| ->]|Hlt]; [|done|].
    - destruct Hn as [Hn|Hn]; [by rewrite Hj in Hn|].
      assert (Hfix : ∀ i, Nat.iter (i + n) dirname (dirname fullname)
                          = Nat.iter n dirname (dirname fullname)).
      { induction i as [|i IH]; [done|]. cbn [Nat.add]. by rewrite Nat.iter_succ, IH. }
      rewrite <- (Hfix (k - n)). by replace (k - n + n) with k by lia.
    - by rewrite (Hnj k Hlt) in Hv. }
  rewrite Hr, Hv. rewrite commonprefix_of_prefix.
  - do 2 f_equal. rewrite Ht at 1. fold root. rewrite <- drop_drop, drop_app_length. done.
  - unfold root. rewrite Nat.iter_succ_r. apply iter_dirname_prefix.
Qed.

(** [Split] takes the repository name apart without losing anything: directory,
    separating slashes, base name and extension put together are the name; base name and
    extension hold no slash, and an extension is a dot with no further dot. *)
Theorem split_parts f project root ext :
  Split cwd exists_ f = Ok (project, root, ext) →
  ∃ name n, RepositoryName cwd exists_ f = Ok name ∧
    name = project ++ repeat slash n ++ root ++ ext ∧ (slash ∉ root ++ ext) ∧
    (ext = [] ∨ ∃ e, ext = dot :: e ∧ (dot ∉ e) ∧ (slash ∉ e)).
Proof.
  unfold Split. destruct (RepositoryName cwd exists_ f) as [name|e]; [|done].
  cbn [mbind res_bind]. destruct (path_split name) as [d b] eqn:Ep.
  destruct (splitext b) as [ro ex] eqn:Es. intros [= -> -> ->].
  pose proof (splitext_spec b) as [Hb Hext]. rewrite Es in Hb, Hext. cbn [fst snd] in *.
  assert (Hn : ∃ n, name = project ++ repeat slash n ++ b ∧ (slash ∉ b)).
  { unfold path_split in Ep. pose proof (rfind_nat_char slash name) as H.
    destruct (rfind_nat [slash] name) as [i|].
    - destruct H as (u&t&->&<-&Ht).
      assert (Etake : take (S (length u)) (u ++ slash :: t) = u ++ [slash])
        by (rewrite take_app_ge by lia; by replace (S (length u) - length u) with 1 by lia).
      assert (Edrop : drop (S (length u)) (u ++ slash :: t) = t)
        by (rewrite drop_app_ge by lia; by replace (S (length u) - length u) with 1 by lia).
      rewrite Etake, Edrop in Ep. destruct (forallb _ _); injection Ep as <- <-.
      + exists 0. split; [by rewrite <- app_assoc|done].
      + destruct (rstrip_char_spec slash (u ++ [slash])) as (n&Hn&_). exists n.
        split; [|done]. rewrite app_assoc, <- Hn. by rewrite <- app_assoc.
    - cbn in Ep. injection Ep as <- <-. by exists 0. }
  destruct Hn as (n&Hname&Hno). exists name, n. rewrite Hb. done.
Qed.
End fileinfo.

(** A file system with the given paths. *)
Definition files (l : list string) (p : str) : bool := existsb (λ s, str_eqb (py s) p) l.

Lemma path_join_ends a b : starts_with (py "/") b = false → ends_with b (path_join a b) = true.
Proof.
  intros Hb. apply ends_with_spec. unfold path_join. rewrite Hb.
  destruct (_ || _); [by exists a|]. exists (a ++ py "/"). by rewrite <- app_assoc.
Qed.

(** Everything exists but [.svn]. *)
Definition no_svn (p : str) : bool := negb (ends_with (py ".svn") p).

Lemma repository_name_total_witness :
  ∃ r, RepositoryName (py "/w") no_svn (py "a.cc") = Ok r.
Proof.
  destruct (repository_name_total (py "/w") no_svn (py "a.cc")) as (r&Hr&_).
  - intros top _. unfold no_svn. by rewrite path_join_ends.
  - by exists r.
Defined.

Lemma svn_root_diverges_witness :
  svn_root (λ _, true) 1000 (py "/w") (dirname (py "/w")) = Raise Diverges.
Proof. by apply svn_root_diverges. Defined.

Lemma repository_name_relative_witness :
  RepositoryName (py "/w/src") (files ["/w/src/x/a.cc"; "/w/.git"]) (py "x/a.cc")
  = Ok (py "src/x/a.cc").
Proof.
  destruct (repository_name_relative (py "/w/src") (files ["/w/src/x/a.cc"; "/w/.git"])
              (py "x/a.cc") 2) as (t&Ht&Hr); try by vm_compute.
  intros [|[|j]] Hj; [by vm_compute|by vm_compute|lia].
Defined.

Lemma split_parts_witness :
  Split (py "/w") (λ _, false) (py "x/a.test.cc") = Ok (py "/w/x", py "a.test", py ".cc") ∧
  ∃ name, RepositoryName (py "/w") (λ _, false) (py "x/a.test.cc") = Ok name.
Proof.
  assert (H : Split (py "/w") (λ _, false) (py "x/a.test.cc")
              = Ok (py "/w/x", py "a.test", py ".cc")) by by vm_compute.
  split; [exact H|]. destruct (split_parts _ _ _ _ _ _ H) as (name&n&Hn&_). by exists name.
Defined.

(** When the checkout's root is the top directory itself, one character of the
    relative path is lost: the prefix removed is taken to be followed by a slash. *)
Theorem top_level_checkout_loses_letter :
  RepositoryName (py "/src") (files ["/src/a.h"; "/.git"]) (py "a.h") = Ok (py "rc/a.h").
Proof. vm_compute. reflexivity. Qed.
End FileInfoFacts.
