(* ===== verification/LintExpr.v ===== *)
(** * cpplint.py: matching brackets

    The scans for the end and the start of a bracketed expression, within a line and
    across lines. The top of the source's stack is the head of ours. *)

From S2P Require Import Prelude PyStr PyRe PyReFacts LintData LintState LintLines.

Definition operator_re : regex := rx "\boperator\s*$".

(** [while stack and stack[-1] == c: stack.pop()] *)
Fixpoint pop_while (c : char) (stack : list char) : list char :=
  match stack with
  | a :: stack' => if (a =? c)%N then pop_while c stack' else stack
  | [] => []
  end.

Definition pairs (o c : char) : bool :=
  ((o =? 40) && (c =? 41) || (o =? 91) && (c =? 93) || (o =? 123) && (c =? 125))%N.
Definition is_open (c : char) : bool := ((c =? 40) || (c =? 91) || (c =? 123))%N.
Definition is_close (c : char) : bool := ((c =? 41) || (c =? 93) || (c =? 125))%N.

(** The position found or -1, and the stack at the end of the line if the scan goes on
    ([None]: the expression ended or cannot be closed). *)
Abbreviation scan_result := (Z * option (list char))%type.

(** The [for] loop at index [i]; [rest] is [line[i:]]. *)
Fixpoint find_end (line : str) (i : nat) (rest : str) (stack : list char) : scan_result :=
  match rest with
  | [] => ((-1)%Z, Some stack)
  | c :: rest =>
      let next := find_end line (S i) rest in
      let prev := match i with O => None | S j => line !! j end in
      if is_open c then next (c :: stack)
      else if (c =? 60)%N then
        if bool_decide (prev = Some 60%N) then
          match stack with
          | a :: stack' =>
              if (a =? 60)%N
              then match stack' with [] => ((-1)%Z, None) | _ => next stack' end
              else next stack
          | [] => next stack
          end
        else if (0 <? i)%nat && matched (re_search operator_re (take i line)) then next stack
        else next (60%N :: stack)
      else if is_close c then
        match pop_while 60 stack with
        | [] => ((-1)%Z, None)
        | a :: stack' =>
            if pairs a c
            then match stack' with
                 | [] => (Z.of_nat (S i), None)
                 | _ => next stack'
                 end
            else ((-1)%Z, None)
        end
      else if (c =? 62)%N then
        if (0 <? i)%nat && (bool_decide (prev = Some 45%N)
                            || matched (re_search operator_re (take (i - 1) line)))
        then next stack
        else match stack with
             | a :: stack' =>
                 if (a =? 60)%N
                 then match stack' with
                      | [] => (Z.of_nat (S i), None)
                      | _ => next stack'
                      end
                 else next stack
             | [] => next stack
             end
      else if (c =? 59)%N then
        match pop_while 60 stack with
        | [] => ((-1)%Z, None)
        | stack => next stack
        end
      else next stack
  end.

Definition FindEndOfExpressionInLine (line : str) (startpos : nat) (stack : list char)
    : scan_result :=
  find_end line startpos (drop startpos line) stack.

(** The [while] loop of [CloseExpression]; [rest] is [elided[linenum + 1:]]. *)
Fixpoint close_forward (num_lines : Z) (rest : list str) (line : str) (linenum : Z)
    (stack : option (list char)) : str * Z * Z :=
  match stack with
  | None | Some [] => (line, num_lines, (-1)%Z)
  | Some stack =>
      match rest with
      | [] => (line, num_lines, (-1)%Z)
      | line :: rest =>
          let '(end_pos, stack) := FindEndOfExpressionInLine line 0 stack in
          if (end_pos >? -1)%Z then (line, (linenum + 1)%Z, end_pos)
          else close_forward num_lines rest line (linenum + 1) stack
      end
  end.

Definition CloseExpression (clean_lines : CleansedLines) (linenum pos : nat)
    : res pyexn (str * Z * Z) :=
  match elided clean_lines !! linenum with
  | None => Raise IndexError
  | Some line =>
      match line !! pos with
      | None => Raise IndexError
      | Some c =>
          if negb (is_open c || (c =? 60)%N) || matched (re_match (rx "<[<=]") (drop pos line))
          then Ok (line, NumLines clean_lines, (-1)%Z)
          else
            let '(end_pos, stack) := FindEndOfExpressionInLine line pos [] in
            if (end_pos >? -1)%Z then Ok (line, Z.of_nat linenum, end_pos)
            else Ok (close_forward (NumLines clean_lines) (drop (S linenum) (elided clean_lines))
                       line (Z.of_nat linenum) stack)
      end
  end.

(** The [while] loop with [i = n - 1]. *)
Fixpoint find_start (line : str) (n : nat) (stack : list char) : scan_result :=
  match n with
  | O => ((-1)%Z, Some stack)
  | S i =>
      let next := find_start line i in
      (** [i -= 1] twice *)
      let skip (stack : list char) :=
        match i with O => ((-1)%Z, Some stack) | S j => find_start line j stack end in
      let prev := match i with O => None | S j => line !! j end in
      match line !! i with
      | None => next stack
      | Some c =>
          if is_close c then next (c :: stack)
          else if (c =? 62)%N then
            if (0 <? i)%nat && (bool_decide (prev = Some 45%N)
                                || matched (re_match (rx "\s>=\s") (drop (i - 1) line))
                                || matched (re_search operator_re (take i line)))
            then skip stack
            else next (62%N :: stack)
          else if (c =? 60)%N then
            if bool_decide (prev = Some 60%N) then skip stack
            else match stack with
                 | a :: stack' =>
                     if (a =? 62)%N
                     then match stack' with
                          | [] => (Z.of_nat i, None)
                          | _ => next stack'
                          end
                     else next stack
                 | [] => next stack
                 end
          else if is_open c then
            match pop_while 62 stack with
            | [] => ((-1)%Z, None)
            | a :: stack' =>
                if pairs c a
                then match stack' with
                     | [] => (Z.of_nat i, None)
                     | _ => next stack'
                     end
                else ((-1)%Z, None)
            end
          else if (c =? 59)%N then
            match pop_while 62 stack with
            | [] => ((-1)%Z, None)
            | stack => next stack
            end
          else next stack
      end
  end.

Definition FindStartOfExpressionInLine (line : str) (endpos : Z) (stack : list char)
    : scan_result :=
  find_start line (Z.to_nat (endpos + 1)) stack.

(** The [while] loop of [ReverseCloseExpression]; [before] is [elided[:linenum]], last
    line first. *)
Fixpoint close_backward (before : list str) (line : str) (linenum : Z)
    (stack : option (list char)) : str * Z * Z :=
  match stack with
  | None | Some [] => (line, 0%Z, (-1)%Z)
  | Some stack =>
      match before with
      | [] => (line, 0%Z, (-1)%Z)
      | line :: before =>
          let '(start_pos, stack) :=
            FindStartOfExpressionInLine line (Z.of_nat (length line) - 1) stack in
          if (start_pos >? -1)%Z then (line, (linenum - 1)%Z, start_pos)
          else close_backward before line (linenum - 1) stack
      end
  end.

Definition ReverseCloseExpression (clean_lines : CleansedLines) (linenum pos : nat)
    : res pyexn (str * Z * Z) :=
  match elided clean_lines !! linenum with
  | None => Raise IndexError
  | Some line =>
      match line !! pos with
      | None => Raise IndexError
      | Some c =>
          if negb (is_close c || (c =? 62)%N) then Ok (line, 0%Z, (-1)%Z)
          else
            let '(start_pos, stack) := FindStartOfExpressionInLine line (Z.of_nat pos) [] in
            if (start_pos >? -1)%Z then Ok (line, Z.of_nat linenum, start_pos)
            else Ok (close_backward (reverse (take linenum (elided clean_lines)))
                       line (Z.of_nat linenum) stack)
      end
  end.

(** * Theorems *)

(** ** Bounds *)

Lemma find_end_bounds line i rest stack e r :
  rest = drop i line → i ≤ length line →
  find_end line i rest stack = (e, r) →
  e = (-1)%Z ∨
  (r = None ∧ ∃ c j, e = Z.of_nat (S j) ∧ i ≤ j ∧ line !! j = Some c ∧
     (is_close c = true ∨ c = 62%N)).
Proof.
  revert i stack; induction rest as [|c rest IH]; intros i stack Hr Hi; cbn [find_end].
  { intros [= <- _]. by left. }
  assert (Hc : line !! i = Some c).
  { rewrite <- (Nat.add_0_r i), <- lookup_drop, <- Hr. done. }
  assert (Hrest : rest = drop (S i) line).
  { rewrite <- Nat.add_1_r, <- drop_drop, <- Hr. done. }
  apply lookup_lt_Some in Hc as Hlt.
  assert (Hnext : ∀ stack, find_end line (S i) rest stack = (e, r) →
    e = (-1)%Z ∨ (r = None ∧ ∃ c j, e = Z.of_nat (S j) ∧ i ≤ j ∧ line !! j = Some c ∧
      (is_close c = true ∨ c = 62%N))).
  { intros st H. destruct (IH (S i) st Hrest ltac:(lia) H) as [->|(->&c'&j&->&Hj&Hl&Hcl)];
      [by left|right]. split; [done|]. exists c', j. split_and!; done || lia. }
  destruct (is_open c); [apply Hnext|].
  destruct (N.eqb_spec c 60) as [->|_].
  { case_bool_decide.
    - destruct stack as [|a [|b st]]; try apply Hnext; destruct (a =? 60)%N; try apply Hnext.
      intros [= <- _]. by left.
    - destruct (_ && _); apply Hnext. }
  destruct (is_close c) eqn:Ecl.
  { destruct (pop_while 60 stack) as [|a [|b st]]; [intros [= <- _]; by left| |];
      (destruct (pairs a c); [|intros [= <- _]; by left]); [|apply Hnext].
    intros [= <- <-]. right. split; [done|]. exists c, i. split_and!; auto. }
  destruct (N.eqb_spec c 62) as [->|_].
  { destruct (_ && _); [apply Hnext|].
    destruct stack as [|a [|b st]]; try apply Hnext; destruct (a =? 60)%N; try apply Hnext.
    intros [= <- <-]. right. split; [done|]. exists 62%N, i. split_and!; auto. }
  destruct (c =? 59)%N; [|apply Hnext].
  destruct (pop_while 60 stack); [intros [= <- _]; by left|apply Hnext].
Qed.

(** What [CloseExpression] and its loop return: nothing, or a line of the file at or
    behind the start and the position just behind a closing character on it. *)
Definition closed_at (lns : list str) (from : nat) (r : str * Z * Z) : Prop :=
  ∃ k j c, r.1.2 = Z.of_nat k ∧ from ≤ k ∧ lns !! k = Some r.1.1 ∧ r.2 = Z.of_nat (S j) ∧
    r.1.1 !! j = Some c ∧ (is_close c = true ∨ c = 62%N).

Lemma close_forward_bounds lns num k line stack :
  let r := close_forward num (drop (S k) lns) line (Z.of_nat k) stack in
  (r.1.2 = num ∧ r.2 = (-1)%Z) ∨ closed_at lns (S k) r.
Proof.
  remember (drop (S k) lns) as rest eqn:Hrest. revert k line stack Hrest.
  induction rest as [|l rest IH]; intros k line stack Hrest.
  { destruct stack as [[|]|]; by left. }
  destruct stack as [[|a st]|]; [by left| |by left]. cbn [close_forward].
  unfold FindEndOfExpressionInLine. rewrite drop_0.
  destruct (find_end l 0 l (a :: st)) as [e r] eqn:E.
  assert (Hl : lns !! S k = Some l).
  { rewrite <- (Nat.add_0_r (S k)), <- lookup_drop, <- Hrest. done. }
  assert (Hrest' : rest = drop (S (S k)) lns).
  { rewrite <- (Nat.add_1_r (S k)), <- drop_drop, <- Hrest. done. }
  apply find_end_bounds in E as [->|(->&c&j&->&_&Hj&Hc)]; [| |done|lia].
  - cbn [Z.gtb Z.compare].
    replace (Z.of_nat k + 1)%Z with (Z.of_nat (S k)) by lia.
    destruct (IH (S k) l r Hrest') as [|(k'&j&c&H1&H2&H3)]; [by left|right].
    exists k', j, c. split_and!; [done|lia|apply H3..].
  - rewrite (proj2 (Z.gtb_lt _ _)) by lia. right. exists (S k), j, c.
    cbn [fst snd]. split_and!; [lia|lia|done..].
Qed.

(** With the position the search started at. *)
Lemma close_expression_spec cl linenum pos line :
  elided cl !! linenum = Some line → pos < length line →
  ∃ r, CloseExpression cl linenum pos = Ok r ∧
    ((r.1.2 = NumLines cl ∧ r.2 = (-1)%Z) ∨
     closed_at (elided cl) (S linenum) r ∨
     (r.1 = (line, Z.of_nat linenum) ∧
      ∃ j c, r.2 = Z.of_nat (S j) ∧ pos ≤ j ∧ line !! j = Some c ∧
        (is_close c = true ∨ c = 62%N))).
Proof.
  intros Hl [c Hc]%lookup_lt_is_Some. unfold CloseExpression. rewrite Hl, Hc.
  destruct (_ || _); [eexists; split; [done|]; by left|].
  unfold FindEndOfExpressionInLine.
  destruct (find_end line pos (drop pos line) []) as [e r] eqn:E.
  apply find_end_bounds in E as [->|(->&c'&j&->&Hj&Hj2&Hc')]; [| |done|].
  - cbn [Z.gtb Z.compare]. eexists. split; [done|].
    destruct (close_forward_bounds (elided cl) (NumLines cl) linenum line r) as [|]; eauto.
  - rewrite (proj2 (Z.gtb_lt _ _)) by lia. eexists. split; [done|]. right. right.
    split; [done|]. exists j, c'. split_and!; done.
  - apply lookup_lt_Some in Hc. lia.
Qed.

(** [CloseExpression] never fails on a position of the file, and either reports that
    no close was found - line number the number of lines, position -1 - or a position
    just behind a closing character of the line it returns, at or behind the start. *)
Theorem close_expression_bounds cl linenum pos line :
  elided cl !! linenum = Some line → pos < length line →
  ∃ r, CloseExpression cl linenum pos = Ok r ∧
    ((r.1.2 = NumLines cl ∧ r.2 = (-1)%Z) ∨ closed_at (elided cl) linenum r).
Proof.
  intros Hl Hp. destruct (close_expression_spec _ _ _ _ Hl Hp) as (r&E&H).
  exists r. split; [done|].
  destruct H as [H|[(k&j&c&H1&H2&H3)|(Hr&j&c&H1&_&H3)]]; [by left|right..].
  - exists k, j, c. split_and!; [done|lia|apply H3..].
  - exists linenum, j, c. rewrite Hr. split_and!; [done|done|done|done|apply H3..].
Qed.

(** The same for the scan to the left. *)
Lemma find_start_bounds line n stack e r :
  find_start line n stack = (e, r) →
  e = (-1)%Z ∨
  (r = None ∧ ∃ c j, e = Z.of_nat j ∧ j < n ∧ line !! j = Some c ∧
     (is_open c = true ∨ c = 60%N)).
Proof.
  revert stack; induction (lt_wf n) as [n _ IH]; intros stack.
  destruct n as [|i]; cbn [find_start]; [intros [= <- _]; by left|].
  assert (Hgo : ∀ m stack, m ≤ i → find_start line m stack = (e, r) →
    e = (-1)%Z ∨ (r = None ∧ ∃ c j, e = Z.of_nat j ∧ j < S i ∧ line !! j = Some c ∧
      (is_open c = true ∨ c = 60%N))).
  { intros m st Hm H. destruct (IH m ltac:(lia) st H) as [->|(->&c&j&->&Hj&Hl&Hc)];
      [by left|right]. split; [done|]. exists c, j. split_and!; done || lia. }
  assert (Hskip : ∀ stack,
    match i with O => ((-1)%Z, Some stack) | S j => find_start line j stack end = (e, r) →
    e = (-1)%Z ∨ (r = None ∧ ∃ c j, e = Z.of_nat j ∧ j < S i ∧ line !! j = Some c ∧
      (is_open c = true ∨ c = 60%N))).
  { intros st. destruct i as [|j]; [intros [= <- _]; by left|]. apply Hgo. lia. }
  assert (Hhere : ∀ c, line !! i = Some c → is_open c = true ∨ c = 60%N →
    (Z.of_nat i, None) = (e, r) →
    e = (-1)%Z ∨ (r = None ∧ ∃ c j, e = Z.of_nat j ∧ j < S i ∧ line !! j = Some c ∧
      (is_open c = true ∨ c = 60%N))).
  { intros c Hl Hc [= <- <-]. right. split; [done|]. exists c, i. split_and!; done || lia. }
  destruct (line !! i) as [c|] eqn:Hl; [|by apply Hgo].
  destruct (is_close c); [by apply Hgo|].
  destruct (N.eqb_spec c 62) as [->|_].
  { destruct (_ && _); [apply Hskip|by apply Hgo]. }
  destruct (N.eqb_spec c 60) as [->|_].
  { case_bool_decide; [apply Hskip|].
    destruct stack as [|a [|b st]]; try (by apply Hgo); destruct (a =? 62)%N; try (by apply Hgo).
    eapply Hhere; [done|by right]. }
  destruct (is_open c) eqn:Ho.
  { destruct (pop_while 62 stack) as [|a [|b st]]; [intros [= <- _]; by left| |];
      (destruct (pairs c a); [|intros [= <- _]; by left]); [|by apply Hgo].
    eapply Hhere; [done|by left]. }
  destruct (c =? 59)%N; [|by apply Hgo].
  destruct (pop_while 62 stack); [intros [= <- _]; by left|by apply Hgo].
Qed.

(** A line of the file up to [upto] and the position of an opening character on it. *)
Definition opened_at (lns : list str) (upto : nat) (r : str * Z * Z) : Prop :=
  ∃ k j c, r.1.2 = Z.of_nat k ∧ k ≤ upto ∧ lns !! k = Some r.1.1 ∧ r.2 = Z.of_nat j ∧
    r.1.1 !! j = Some c ∧ (is_open c = true ∨ c = 60%N).

Lemma close_backward_bounds lns k line stack :
  k ≤ length lns →
  let r := close_backward (reverse (take k lns)) line (Z.of_nat k) stack in
  r.1.2 = 0%Z ∧ r.2 = (-1)%Z ∨ (∃ upto, upto < k ∧ opened_at lns upto r).
Proof.
  revert line stack; induction k as [|k IH]; intros line stack Hk.
  { destruct stack as [[|]|]; by left. }
  destruct (lookup_lt_is_Some_2 lns k ltac:(lia)) as [l Hl].
  rewrite (take_S_r _ _ _ Hl), reverse_app, reverse_singleton. cbn [app].
  destruct stack as [[|a st]|]; [by left| |by left]. cbn [close_backward].
  unfold FindStartOfExpressionInLine.
  destruct (find_start l _ (a :: st)) as [e r] eqn:E.
  replace (Z.of_nat (S k) - 1)%Z with (Z.of_nat k) by lia.
  apply find_start_bounds in E as [->|(->&c&j&->&_&Hj&Hc)].
  - cbn [Z.gtb Z.compare].
    destruct (IH l r ltac:(lia)) as [H|(u&Hu&H)]; [by left|right]. exists u. split; [lia|done].
  - rewrite (proj2 (Z.gtb_lt _ _)) by lia. right. exists k. split; [lia|].
    exists k, j, c. split_and!; done.
Qed.

Lemma reverse_expression_spec cl linenum pos line :
  elided cl !! linenum = Some line → pos < length line →
  ∃ r, ReverseCloseExpression cl linenum pos = Ok r ∧
    (r.1.2 = 0%Z ∧ r.2 = (-1)%Z ∨ opened_at (elided cl) linenum r).
Proof.
  intros Hl [c Hc]%lookup_lt_is_Some. unfold ReverseCloseExpression. rewrite Hl, Hc.
  destruct (negb _); [eexists; split; [done|]; by left|].
  unfold FindStartOfExpressionInLine. destruct (find_start line _ []) as [e r] eqn:E.
  apply lookup_lt_Some in Hl as Hlt.
  apply find_start_bounds in E as [->|(->&c'&j&->&_&Hj&Hc')]; cbn [Z.gtb Z.compare].
  - eexists. split; [done|].
    destruct (close_backward_bounds (elided cl) linenum line r ltac:(lia))
      as [H|(u&Hu&k&j&c'&H1&H2&H3)]; [by left|right].
    exists k, j, c'. split_and!; [done|lia|apply H3..].
  - rewrite (proj2 (Z.gtb_lt _ _)) by lia. eexists. split; [done|]. right.
    exists linenum, j, c'. split_and!; done.
Qed.

Definition file_of (l : list string) : CleansedLines :=
  {| elided := py <$> l; lines := py <$> l; raw_lines := py <$> l;
     num_lines := Z.of_nat (length l); lines_without_raw_strings := py <$> l |}.

Lemma close_expression_bounds_witness :
  ∃ r, CloseExpression (file_of ["f(a,"; "  b);"]) 0 1 = Ok r ∧
    ((r.1.2 = NumLines (file_of ["f(a,"; "  b);"]) ∧ r.2 = (-1)%Z)
     ∨ closed_at (elided (file_of ["f(a,"; "  b);"])) 0 r).
Proof.
  apply (close_expression_bounds (file_of ["f(a,"; "  b);"]) 0 1 (py "f(a,")); [reflexivity|cbn; lia].
Defined.

(** ** Finding the bracket that matches *)

(** Characters with no meaning to the scans: no angle bracket and no semicolon. *)
Definition plain_char (c : char) : bool := negb ((c =? 60) || (c =? 62) || (c =? 59))%N.

(** Balanced text over the three kinds of brackets. *)
Inductive balanced : str → Prop :=
| balanced_nil : balanced []
| balanced_char c w :
    plain_char c = true → is_open c = false → is_close c = false → balanced w → balanced (c :: w)
| balanced_pair o c v w :
    pairs o c = true → balanced v → balanced w → balanced (o :: v ++ c :: w).

(** The stack behind a text that leaves it non-empty throughout. *)
Fixpoint run (stack : list char) (s : str) : option (list char) :=
  match s with
  | [] => Some stack
  | c :: s =>
      if negb (plain_char c) then None
      else if is_open c then run (c :: stack) s
      else if is_close c then
        match stack with
        | a :: (_ :: _) as stack' => if pairs a c then run (tail stack) s else None
        | _ => None
        end
      else run stack s
  end.

Definition no_angle (stack : list char) : Prop := (60%N ∉ stack) ∧ (62%N ∉ stack).

Lemma pop_while_other c stack : c ∉ stack → pop_while c stack = stack.
Proof.
  destruct stack as [|a st]; [done|]. intros [Ha _]%not_elem_of_cons. cbn.
  by rewrite (proj2 (N.eqb_neq _ _)).
Qed.

Lemma plain_char_spec c :
  plain_char c = true → (c =? 60)%N = false ∧ (c =? 62)%N = false ∧ (c =? 59)%N = false.
Proof. unfold plain_char. by destruct (c =? 60)%N, (c =? 62)%N, (c =? 59)%N. Qed.

Lemma is_open_plain c : is_open c = true → c = 40%N ∨ c = 91%N ∨ c = 123%N.
Proof. unfold is_open. rewrite !orb_true_iff, !N.eqb_eq. tauto. Qed.
Lemma is_close_plain c : is_close c = true → c = 41%N ∨ c = 93%N ∨ c = 125%N.
Proof. unfold is_close. rewrite !orb_true_iff, !N.eqb_eq. tauto. Qed.

Lemma pairs_spec o c :
  pairs o c = true →
  (o = 40 ∧ c = 41 ∨ o = 91 ∧ c = 93 ∨ o = 123 ∧ c = 125)%N.
Proof. unfold pairs. rewrite !orb_true_iff, !andb_true_iff, !N.eqb_eq. tauto. Qed.

(** The forward scan over a text that [run] accepts. *)
Lemma find_end_run line s : ∀ i rest stack stack',
  no_angle stack → run stack s = Some stack' →
  find_end line i (s ++ rest) stack = find_end line (i + length s) rest stack' ∧ no_angle stack'.
Proof.
  induction s as [|c s IH]; intros i rest stack stack' Hn; cbn [run].
  { intros [= <-]. cbn. by rewrite Nat.add_0_r. }
  destruct (plain_char c) eqn:Ep; [|done]. cbn [negb app length find_end].
  apply plain_char_spec in Ep as (E1&E2&E3). rewrite E1, E2, E3.
  rewrite <- Nat.add_succ_comm.
  destruct (is_open c) eqn:Eo; [|destruct (is_close c)].
  - intros H. apply IH; [|done]. apply is_open_plain in Eo. unfold no_angle in *.
    rewrite !not_elem_of_cons. destruct Eo as [->|[->| ->]]; by destruct Hn.
  - destruct stack as [|a [|b st]]; [done|done|]. intros H. rewrite pop_while_other by apply Hn.
    destruct (pairs a c); [|done]. apply IH; [|done]. unfold no_angle in *.
    rewrite !not_elem_of_cons in *. tauto.
  - intros H. by apply IH.
Qed.

Lemma run_app stack s t :
  run stack (s ++ t) = st ← run stack s; run st t.
Proof.
  revert stack; induction s as [|c s IH]; intros stack; [done|]. cbn [app run].
  destruct (negb (plain_char c)); [done|].
  destruct (is_open c); [apply IH|]. destruct (is_close c); [|apply IH].
  destruct stack as [|a [|b st]]; [done|done|]. destruct (pairs a c); [apply IH|done].
Qed.

Lemma run_balanced w : balanced w → ∀ a stack, run (a :: stack) w = Some (a :: stack).
Proof.
  induction 1 as [|c w Hp Ho Hc _ IH|o c v w Hp _ IHv _ IHw]; intros a stack; [done| |].
  - cbn [run]. by rewrite Hp, Ho, Hc, IH.
  - assert (H : run (a :: stack) (o :: v ++ c :: w) = run (a :: stack) w); [|by rewrite H, IHw].
    apply pairs_spec in Hp as [[-> ->]|[[-> ->]|[-> ->]]]; cbn [run plain_char negb is_open
      N.eqb Pos.eqb orb]; rewrite run_app, IHv; done.
Qed.

Lemma close_step line i o c rest :
  pairs o c = true → find_end line i (c :: rest) [o] = (Z.of_nat (S i), None).
Proof. intros [[-> ->]|[[-> ->]|[-> ->]]]%pairs_spec; done. Qed.

Lemma open_step line i o c rest :
  pairs o c = true → find_end line i (o :: rest) [] = find_end line (S i) rest [o].
Proof. intros [[-> ->]|[[-> ->]|[-> ->]]]%pairs_spec; done. Qed.

Lemma open_no_angle o c : pairs o c = true → no_angle [o].
Proof.
  intros [[-> ->]|[[-> ->]|[-> ->]]]%pairs_spec; unfold no_angle;
    rewrite !list_elem_of_singleton; done.
Qed.

Lemma run_nonempty s : ∀ stack stack', stack ≠ [] → run stack s = Some stack' → stack' ≠ [].
Proof.
  induction s as [|c s IH]; intros stack stack' Hne; cbn [run]; [by intros [= <-]|].
  destruct (negb (plain_char c)); [done|]. destruct (is_open c); [by apply IH|].
  destruct (is_close c); [|by apply IH].
  destruct stack as [|a [|b st]]; [done|done|]. destruct (pairs a c); [by apply IH|done].
Qed.

(** [CloseExpression]'s loop over the lines between the brackets. *)
Lemma close_forward_run num mids : ∀ last_line post line k stack o c v,
  pairs o c = true → no_angle stack →
  run stack (concat mids ++ last_line) = Some [o] → stack ≠ [] →
  close_forward num (mids ++ (last_line ++ c :: v) :: post) line (Z.of_nat k) (Some stack)
  = (last_line ++ c :: v, Z.of_nat (S k + length mids), Z.of_nat (S (length last_line))).
Proof.
  induction mids as [|m mids IH]; intros last_line post line k stack o c v Hp Hn Hrun Hne.
  - destruct stack as [|a st]; [done|]. cbn [app concat close_forward] in *.
    unfold FindEndOfExpressionInLine. rewrite drop_0.
    destruct (find_end_run (last_line ++ c :: v) last_line 0 (c :: v) (a :: st) [o] Hn Hrun)
      as [-> _]. rewrite (close_step _ _ _ _ _ Hp). cbn [Nat.add].
    rewrite (proj2 (Z.gtb_lt _ _)) by lia. do 2 f_equal. cbn. lia.
  - destruct stack as [|a st]; [done|]. cbn [app concat close_forward] in *.
    unfold FindEndOfExpressionInLine. rewrite drop_0.
    rewrite <- app_assoc, run_app in Hrun.
    destruct (run (a :: st) m) as [st'|] eqn:Em; [|done]. cbn [mbind option_bind] in Hrun.
    pose proof (find_end_run m m 0 [] (a :: st) st' Hn Em) as [Hf Hn'].
    rewrite app_nil_r in Hf. rewrite Hf. cbn [find_end Z.gtb Z.compare].
    replace (Z.of_nat k + 1)%Z with (Z.of_nat (S k)) by lia.
    rewrite (IH last_line post m (S k) st' o c v Hp Hn' Hrun).
    + do 2 f_equal. cbn. lia.
    + by eapply run_nonempty.
Qed.

Lemma shift_re_no o s : o ≠ 60%N → re_match (rx "<[<=]") (o :: s) = None.
Proof.
  intros Ho. unfold re_match, re_match_fl, match_at.
  change (rx "<[<=]") with (RCat (RChar 60) (RSet false [IChar 60; IChar 61])).
  rewrite rmatch_cat. erewrite rmatch_char_cons by reflexivity.
  cbn [char_eq noflags f_icase]. by rewrite (proj2 (N.eqb_neq _ _)) by done.
Qed.

Lemma pairs_open o c : pairs o c = true → is_open o = true ∧ o ≠ 60%N ∧ is_close c = true.
Proof. intros [[-> ->]|[[-> ->]|[-> ->]]]%pairs_spec; done. Qed.

Lemma lookup_middle_char (u : str) c v : (u ++ c :: v) !! length u = Some c.
Proof. by rewrite lookup_app_r, Nat.sub_diag by lia. Qed.

(** C20: [CloseExpression] finds the bracket that matches, over any number of lines: for
    balanced text between an opening bracket and the closing one of its kind, with no
    angle bracket or semicolon inside, it returns the line of the closing bracket and
    the position behind it. *)
Theorem close_expression_balanced cl pre u o w0 mids wn c v post :
  elided cl = pre ++ (u ++ o :: w0) :: mids ++ (wn ++ c :: v) :: post →
  pairs o c = true → balanced (w0 ++ concat mids ++ wn) →
  CloseExpression cl (length pre) (length u)
  = Ok (wn ++ c :: v, Z.of_nat (S (length pre) + length mids), Z.of_nat (S (length wn))).
Proof.
  intros He Hp Hb. destruct (pairs_open o c Hp) as (Ho&Ho60&_).
  unfold CloseExpression. rewrite He, list_lookup_middle by done.
  rewrite lookup_middle_char, Ho. cbn [orb negb].
  rewrite drop_app_length, shift_re_no by done. cbn [matched].
  unfold FindEndOfExpressionInLine. rewrite drop_app_length, (open_step _ _ _ _ _ Hp).
  pose proof (run_balanced _ Hb o []) as Hrun. rewrite run_app in Hrun.
  destruct (run [o] w0) as [st|] eqn:E0; [|done]. cbn [mbind option_bind] in Hrun.
  pose proof (find_end_run (u ++ o :: w0) w0 (S (length u)) [] [o] st
                (open_no_angle o c Hp) E0) as [Hf Hn].
  rewrite app_nil_r in Hf. rewrite Hf. cbn [find_end Z.gtb Z.compare].
  replace (drop (S (length pre)) (pre ++ (u ++ o :: w0) :: mids ++ (wn ++ c :: v) :: post))
    with (mids ++ (wn ++ c :: v) :: post).
  - rewrite (close_forward_run _ mids wn post _ _ st o c v Hp Hn Hrun); [done|].
    by eapply (run_nonempty w0 [o]).
  - rewrite drop_app_ge by lia. by replace (S (length pre) - length pre) with 1 by lia.
Qed.

Lemma close_expression_balanced_witness :
  CloseExpression (file_of ["f(a[1],"; "{ }"; "  b) + c"]) 0 1 = Ok (py "  b) + c", 2%Z, 4%Z).
Proof.
  refine (close_expression_balanced (file_of ["f(a[1],"; "{ }"; "  b) + c"]) [] (py "f") 40%N
            (py "a[1],") [py "{ }"] (py "  b") 41%N (py " + c") [] _ _ _); [by vm_compute..|].
  change (balanced (py "a[1],{ }  b")).
  apply balanced_char; [done..|].
  apply (balanced_pair 91 93 (py "1") (py ",{ }  b")); [done| |].
  { apply balanced_char; [done..|constructor]. }
  apply balanced_char; [done..|].
  apply (balanced_pair 123 125 (py " ") (py "  b")); [done| |].
  { apply balanced_char; [done..|constructor]. }
  do 3 (apply balanced_char; [done..|]). constructor.
Defined.

(** *** The backward scan *)

(** [run] from the right: closing brackets push, opening ones pop. *)
Fixpoint run_back (stack : list char) (s : str) : option (list char) :=
  match s with
  | [] => Some stack
  | c :: s =>
      if negb (plain_char c) then None
      else if is_close c then run_back (c :: stack) s
      else if is_open c then
        match stack with
        | a :: (_ :: _) => if pairs c a then run_back (tail stack) s else None
        | _ => None
        end
      else run_back stack s
  end.

Lemma run_back_app stack s t :
  run_back stack (s ++ t) = st ← run_back stack s; run_back st t.
Proof.
  revert stack; induction s as [|c s IH]; intros stack; [done|]. cbn [app run_back].
  destruct (negb (plain_char c)); [done|].
  destruct (is_close c); [apply IH|]. destruct (is_open c); [|apply IH].
  destruct stack as [|a [|b st]]; [done|done|]. destruct (pairs c a); [apply IH|done].
Qed.

Lemma run_back_balanced w :
  balanced w → ∀ a stack, run_back (a :: stack) (reverse w) = Some (a :: stack).
Proof.
  induction 1 as [|c w Hp Ho Hc _ IH|o c v w Hp _ IHv _ IHw]; intros a stack; [done| |].
  - rewrite reverse_cons, run_back_app, IH. cbn [mbind option_bind run_back].
    by rewrite Hp, Ho, Hc.
  - rewrite reverse_cons, reverse_app, reverse_cons. rewrite !run_back_app, IHw.
    cbn [mbind option_bind].
    assert (H : run_back (a :: stack) [c] = Some (c :: a :: stack))
      by (apply pairs_spec in Hp as [[-> ->]|[[-> ->]|[-> ->]]]; done).
    rewrite H. cbn [mbind option_bind]. rewrite IHv. cbn [mbind option_bind].
    by apply pairs_spec in Hp as [[-> ->]|[[-> ->]|[-> ->]]].
Qed.

Lemma find_start_run u s : ∀ line v stack stack',
  line = u ++ s ++ v → no_angle stack → run_back stack (reverse s) = Some stack' →
  find_start line (length u + length s) stack = find_start line (length u) stack'.
Proof.
  induction s as [|c s IH] using rev_ind; intros line v stack stack' Hl Hn.
  { cbn. rewrite Nat.add_0_r. by intros [= <-]. }
  rewrite reverse_app. cbn [reverse rev_append app run_back].
  destruct (plain_char c) eqn:Ep; [|done]. cbn [negb]. intros H.
  rewrite length_app, Nat.add_1_r, Nat.add_succ_r. cbn [find_start].
  assert (Hc : line !! (length u + length s) = Some c).
  { rewrite Hl, <- app_assoc, app_assoc, <- length_app. apply lookup_middle_char. }
  rewrite Hc. apply plain_char_spec in Ep as (E1&E2&E3). rewrite E1, E2, E3.
  assert (Hl' : line = u ++ s ++ c :: v) by (by rewrite Hl, <- app_assoc).
  destruct (is_close c) eqn:Ec; [|destruct (is_open c)].
  - apply (IH line (c :: v)); [done| |done]. apply is_close_plain in Ec. unfold no_angle in *.
    rewrite !not_elem_of_cons. destruct Ec as [->|[->| ->]]; by destruct Hn.
  - destruct stack as [|a [|b st]]; [done|done|]. rewrite pop_while_other by apply Hn.
    destruct (pairs c a); [|done]. apply (IH line (c :: v)); [done| |done].
    unfold no_angle in *. rewrite !not_elem_of_cons in *. tauto.
  - by apply (IH line (c :: v)).
Qed.

(** C27: The two directions are inverse on a line: from the opening bracket
    [CloseExpression] goes to the position behind the matching closing bracket, and from
    that bracket [ReverseCloseExpression] goes back to the opening one. *)
Theorem close_reverse_roundtrip cl n u o w c v :
  elided cl !! n = Some (u ++ o :: w ++ c :: v) → pairs o c = true → balanced w →
  ∃ p, CloseExpression cl n (length u)
       = Ok (u ++ o :: w ++ c :: v, Z.of_nat n, Z.of_nat (S p)) ∧
       p = length u + S (length w) ∧
       ReverseCloseExpression cl n p = Ok (u ++ o :: w ++ c :: v, Z.of_nat n, Z.of_nat (length u)).
Proof.
  intros He Hp Hb. destruct (pairs_open o c Hp) as (Ho&Ho60&Hc).
  set (line := u ++ o :: w ++ c :: v) in *. exists (length u + S (length w)).
  assert (Hrun := run_balanced w Hb o []).
  split; [|split; [done|]].
  - unfold CloseExpression. rewrite He. unfold line at 1. rewrite lookup_middle_char, Ho.
    cbn [orb negb]. unfold line at 1. rewrite drop_app_length, shift_re_no by done.
    cbn [matched]. unfold FindEndOfExpressionInLine. unfold line at 2.
    rewrite drop_app_length, (open_step _ _ _ _ _ Hp).
    destruct (find_end_run line w (S (length u)) (c :: v) [o] [o]
                (open_no_angle o c Hp) Hrun) as [-> _].
    rewrite (close_step _ _ _ _ _ Hp). rewrite (proj2 (Z.gtb_lt _ _)) by lia.
    do 2 f_equal. lia.
  - unfold ReverseCloseExpression. rewrite He.
    assert (Hl : line = (u ++ o :: w) ++ c :: v) by (unfold line; by norm_app).
    assert (Hlen : length u + S (length w) = length (u ++ o :: w)) by (by rewrite length_app).
    rewrite Hlen. rewrite Hl at 1. rewrite lookup_middle_char, Hc. cbn [orb negb].
    unfold FindStartOfExpressionInLine.
    replace (Z.to_nat _) with (S (length (u ++ o :: w))) by lia. cbn [find_start].
    rewrite Hl at 1. rewrite lookup_middle_char, Hc, <- Hlen.
    assert (Hn : no_angle [c]).
    { apply is_close_plain in Hc. unfold no_angle. rewrite !list_elem_of_singleton.
      by destruct Hc as [->|[->| ->]]. }
    pose proof (find_start_run (u ++ [o]) w line (c :: v) [c] [c]
                  ltac:(unfold line; by norm_app) Hn (run_back_balanced w Hb c [])) as Hf.
    rewrite length_app in Hf. cbn [length] in Hf.
    replace (length u + S (length w)) with (length u + 1 + length w) by lia.
    rewrite Hf, Nat.add_1_r. cbn [find_start]. unfold line at 1.
    rewrite lookup_middle_char.
    apply pairs_spec in Hp as [[-> ->]|[[-> ->]|[-> ->]]]; cbn;
      rewrite (proj2 (Z.gtb_lt _ _)) by lia; done.
Qed.

Lemma close_reverse_roundtrip_witness :
  CloseExpression (file_of ["x = (a) * 2;"]) 0 4 = Ok (py "x = (a) * 2;", 0%Z, 7%Z) ∧
  ReverseCloseExpression (file_of ["x = (a) * 2;"]) 0 6 = Ok (py "x = (a) * 2;", 0%Z, 4%Z).
Proof.
  destruct (close_reverse_roundtrip (file_of ["x = (a) * 2;"]) 0 (py "x = ") 40%N (py "a") 41%N
              (py " * 2;")) as (p&H1&->&H2); [by vm_compute|done| |].
  - apply balanced_char; [done..|constructor].
  - split; [exact H1|exact H2].
Defined.
