(* ===== verification/LintChecks.v ===== *)
(** * cpplint.py: the checks on a whole file and the single-line checks

    From [CheckForCopyright] to [IsForwardClassDeclaration]. *)

From S2P Require Import Prelude PyStr PyRe PyReFacts PyPath LintData LintState LintLines.
From S2P Require Import LintInclude.

(** [clean_lines.elided[linenum]] *)
Definition elided_line (clean_lines : CleansedLines) (linenum : Z) : lint str :=
  match py_index (elided clean_lines) linenum with
  | Some line => mret line
  | None => raiseM IndexError
  end.

(** The loop with its [else]: no line matched. *)
Definition CheckForCopyright (filename : str) (lines : list str) (error : error_fn) : lint unit :=
  let head_lines := take (length lines `min` 11 - 1) (drop 1 lines) in
  if existsb (λ line, matched (re_search_fl IGNORECASE (rx "Copyright") line)) head_lines
  then mret ()
  else error filename 0%Z (py "legal/copyright") 5%Z
         (py "No copyright message found.  You should have a line: \x22Copyright [year] <Copyright Owner>\x22").

Definition GetIndentLevel (line : str) : Z :=
  match re_match (rx "^( *)\S") line with
  | Some indent => Z.of_nat (length (group_ indent 1))
  | None => 0
  end.

Section filesystem.
Context (cwd : str) (exists_ : str → bool).

(** ** Header guards *)

(** The regular expressions are applied to file names, so [os.sep] is a slash. *)
Definition GetHeaderGuardCPPVariable (filename : str) : lint str :=
  let filename := re_sub (rx "_flymake\.h$") (λ _, py ".h") filename in
  let filename := re_sub (rx "/\.flymake/([^/]*)$") (λ m, py "/" ++ group_ m 1) filename in
  let filename := replace (py "c++") (py "cpp") (replace (py "C++") (py "cpp") filename) in
  file_path_from_root ← liftM (FileInfo.RepositoryName cwd exists_ filename);
  w ← getM;
  file_path_from_root ←
    match _root w with
    | Some ((_ :: _) as root) =>
        match compile (py "^" ++ root ++ py "/") with
        | Some r => mret (re_sub r (λ _, []) file_path_from_root)
        | None => raiseM ReError
        end
    | _ => mret file_path_from_root
    end;
  mret (upper (re_sub (rx "[^a-zA-Z0-9]") (λ _, py "_") file_path_from_root) ++ py "_").

(** What the loop over the lines collects: the argument of the first [#ifndef] with its
    line, the argument of the first [#define], the last [#endif] line with its number. *)
Record guard := Guard {
  ifndef : str;
  ifndef_linenum : Z;
  define : str;
  endif : str;
  endif_linenum : Z }.

Definition guard_line (g : guard) (linenum : Z) (line : str) : guard :=
  let g :=
    match split_ws line with
    | w0 :: w1 :: _ =>
        let g := if bool_decide (ifndef g = []) && str_eqb w0 (py "#ifndef")
                 then Guard w1 linenum (define g) (endif g) (endif_linenum g) else g in
        if bool_decide (define g = []) && str_eqb w0 (py "#define")
        then Guard (ifndef g) (ifndef_linenum g) w1 (endif g) (endif_linenum g) else g
    | _ => g
    end in
  if starts_with (py "#endif") line
  then Guard (ifndef g) (ifndef_linenum g) (define g) line linenum else g.

Fixpoint guard_lines (g : guard) (linenum : Z) (lines : list str) : guard :=
  match lines with
  | [] => g
  | line :: lines => guard_lines (guard_line g linenum line) (linenum + 1) lines
  end.

Definition nolint_guard_re : regex := rx "//\s*NOLINT\(build/header_guard\)".
Definition single_line_comment_re : regex :=
  pyrx "^(?:(?:\'(?:\\.|[^\'])*\')|(?:\x22(?:\\.|[^\x22])*\x22)|[^\'\x22])*//".

Definition line_at (l : list str) (i : Z) : lint str :=
  match py_index l i with Some line => mret line | None => raiseM IndexError end.

(** A match of a pattern made of [cppvar]: [None] if there is none, otherwise whether
    the deprecated second underscore is there. *)
Definition match_guard (before cppvar after endif : str) : lint (option bool) :=
  match compile (before ++ cppvar ++ after) with
  | None => raiseM ReError
  | Some r =>
      mret (match re_match r endif with
            | None => None
            | Some m => Some (bool_decide (group m 1 = Some (py "_")))
            end)
  end.

Definition check_endif (filename : str) (raw_lines : list str) (cppvar : str) (g : guard)
    (error : error_fn) : lint unit :=
  m ← match_guard (raw "#endif\s*//\s*") cppvar (raw "(_)?\b") (endif g);
  match m with
  | Some deprecated =>
      whenM deprecated
        (error filename (endif_linenum g) (py "build/header_guard") 0%Z
           (py "#endif line should be \x22#endif  // " ++ cppvar ++ py "\x22"))
  | None =>
      let body := take (length raw_lines - 1 - 1) (drop 1 raw_lines) in
      let no_single_line_comments :=
        negb (existsb (λ line, matched (re_match single_line_comment_re line)) body) in
      m ← (if no_single_line_comments
           then match_guard (raw "#endif\s*/\*\s*") cppvar (raw "(_)?\s*\*/") (endif g)
           else mret None);
      match m with
      | Some deprecated =>
          whenM deprecated
            (error filename (endif_linenum g) (py "build/header_guard") 0%Z
               (py "#endif line should be \x22#endif  /* " ++ cppvar ++ py " */\x22"))
      | None =>
          error filename (endif_linenum g) (py "build/header_guard") 5%Z
            (py "#endif line should be \x22#endif  // " ++ cppvar ++ py "\x22")
      end
  end.

Definition CheckForHeaderGuard (filename : str) (clean_lines : CleansedLines) (error : error_fn)
    : lint unit :=
  let raw_lines := lines_without_raw_strings clean_lines in
  if existsb (λ i, matched (re_search nolint_guard_re i)) raw_lines then mret () else
  cppvar ← GetHeaderGuardCPPVariable filename;
  let g := guard_lines (Guard [] 0 [] [] 0) 0 raw_lines in
  if bool_decide (ifndef g = []) || bool_decide (define g = [])
     || negb (str_eqb (ifndef g) (define g)) then
    error filename 0%Z (py "build/header_guard") 5%Z
      (py "No #ifndef header guard found, suggested CPP variable is: " ++ cppvar)
  else
    whenM (negb (str_eqb (ifndef g) cppvar)) (
      let error_level := if str_eqb (ifndef g) (cppvar ++ py "_") then 0%Z else 5%Z in
      line ← line_at raw_lines (ifndef_linenum g);
      ParseNolintSuppressions filename line (ifndef_linenum g) error ;;
      error filename (ifndef_linenum g) (py "build/header_guard") error_level
        (py "#ifndef header guard has wrong style, please use: " ++ cppvar)) ;;
    line ← line_at raw_lines (endif_linenum g);
    ParseNolintSuppressions filename line (endif_linenum g) error ;;
    check_endif filename raw_lines cppvar g error.

(** ** The header of a source file *)

(** The loop over the includes: whether one of them is the header, and the line of the
    first include. *)
Fixpoint find_own_header (headername : str) (includes : list (str * Z)) (first_include : Z)
    : option Z :=
  match includes with
  | [] => Some first_include
  | f :: includes =>
      if contains headername f.1 || contains f.1 headername then None
      else find_own_header headername includes
             (if (first_include =? 0)%Z then f.2 else first_include)
  end.

Definition CheckHeaderFileIncluded (filename : str) (include_state : IncludeState.t)
    (error : error_fn) : lint unit :=
  if ends_with (py "_test.cc") filename || ends_with (py "_unittest.cc") filename then mret ()
  else
    let headerfile :=
      py_slice filename 0 (Z.of_nat (length filename) - 2) ++ py "h" in
    if negb (exists_ headerfile) then mret ()
    else
      headername ← liftM (FileInfo.RepositoryName cwd exists_ headerfile);
      match find_own_header headername (concat (IncludeState.include_list include_state)) 0 with
      | None => mret ()
      | Some first_include =>
          name ← liftM (FileInfo.RepositoryName cwd exists_ filename);
          error filename first_include (py "build/include") 5%Z
            (name ++ py " should include its header file " ++ headername)
      end.
End filesystem.

(** ** Characters and the end of the file *)

Fixpoint bad_characters (filename : str) (linenum : Z) (lines : list str) (error : error_fn)
    : lint unit :=
  match lines with
  | [] => mret ()
  | line :: lines =>
      whenM (contains [65533%N] line)
        (error filename linenum (py "readability/utf8") 5%Z
           (py "Line contains invalid UTF-8 (or Unicode replacement character).")) ;;
      whenM (contains (py "\0") line)
        (error filename linenum (py "readability/nul") 5%Z (py "Line contains NUL byte.")) ;;
      bad_characters filename (linenum + 1) lines error
  end.
Definition CheckForBadCharacters (filename : str) (lines : list str) (error : error_fn)
    : lint unit := bad_characters filename 0 lines error.

Definition CheckForNewlineAtEOF (filename : str) (lines : list str) (error : error_fn)
    : lint unit :=
  let n := Z.of_nat (length lines) in
  b ← (if (n <? 3)%Z then mret true
       else match py_index lines (-2) with
            | Some line => mret (negb (bool_decide (line = [])))
            | None => raiseM IndexError
            end);
  whenM b
    (error filename (n - 2)%Z (py "whitespace/ending_newline") 5%Z
       (py "Could not find a newline character at the end of the file.")).

(** ** Single lines *)

Definition CheckForMultilineCommentsAndStrings (filename : str) (clean_lines : CleansedLines)
    (linenum : Z) (error : error_fn) : lint unit :=
  line ← elided_line clean_lines linenum;
  let line := replace (py "\\\\") [] line in
  whenM (count (py "*/") line <? count (py "/*") line)%Z
    (error filename linenum (py "readability/multiline_comment") 5%Z
       (py "Complex multi-line /*...*/-style comment found. Lint may give bogus warnings.  Consider replacing these with //-style comments, with #if 0...#endif, or with more clearly structured multi-line comments.")) ;;
  whenM (negb ((count (py "\x22") line - count (py "\\\x22") line) mod 2 =? 0)%Z)
    (error filename linenum (py "readability/multiline_string") 5%Z
       (py "Multi-line string (\x22...\x22) found.  This lint script doesn\'t do well with such strings, and may give bogus warnings.  Use C++11 raw strings or concatenation instead.")).

Definition _UNSAFE_FUNC_PREFIX : str := raw "(?:[-+*/=%^&|(<]\s*|>\s+)".

(** Name and pattern of an unsafe function; the replacement's name ends in [_r(]. *)
Definition unsafe (name args : string) : str * str * str :=
  (py name ++ py "(", py name ++ py "_r(", _UNSAFE_FUNC_PREFIX ++ py name ++ raw args).
Definition _THREADING_LIST : list (str * str * str) :=
  [unsafe "asctime" "\([^)]+\)"; unsafe "ctime" "\([^)]+\)"; unsafe "getgrgid" "\([^)]+\)";
   unsafe "getgrnam" "\([^)]+\)"; unsafe "getlogin" "\(\)"; unsafe "getpwnam" "\([^)]+\)";
   unsafe "getpwuid" "\([^)]+\)"; unsafe "gmtime" "\([^)]+\)"; unsafe "localtime" "\([^)]+\)";
   unsafe "rand" "\(\)"; unsafe "strtok" "\([^)]+\)"; unsafe "ttyname" "\([^)]+\)"].

Definition CheckPosixThreading (filename : str) (clean_lines : CleansedLines) (linenum : Z)
    (error : error_fn) : lint unit :=
  line ← elided_line clean_lines linenum;
  forM _THREADING_LIST (λ '(single_thread_func, multithread_safe_func, pattern),
    match compile pattern with
    | None => raiseM ReError
    | Some r =>
        whenM (matched (re_search r line))
          (error filename linenum (py "runtime/threadsafe_fn") 2%Z
             (py "Consider using " ++ multithread_safe_func ++ py "...) instead of "
              ++ single_thread_func ++ py "...) for improved thread safety."))
    end).

Definition CheckVlogArguments (filename : str) (clean_lines : CleansedLines) (linenum : Z)
    (error : error_fn) : lint unit :=
  line ← elided_line clean_lines linenum;
  whenM (matched (re_search (rx "\bVLOG\((INFO|ERROR|WARNING|DFATAL|FATAL)\)") line))
    (error filename linenum (py "runtime/vlog") 5%Z
       (py "VLOG() should be used with numeric verbosity level.  Use LOG() if you want symbolic severity levels.")).

Definition _RE_PATTERN_INVALID_INCREMENT : regex := rx "^\s*\*\w+(\+\+|--);".

Definition CheckInvalidIncrement (filename : str) (clean_lines : CleansedLines) (linenum : Z)
    (error : error_fn) : lint unit :=
  line ← elided_line clean_lines linenum;
  whenM (matched (re_match _RE_PATTERN_INVALID_INCREMENT line))
    (error filename linenum (py "runtime/invalid_increment") 5%Z
       (py "Changing pointer instead of value (or unused value of operator*).")).

(** [clean_lines] is a list of lines here. *)
Definition IsMacroDefinition (clean_lines : list str) (linenum : Z) : lint bool :=
  line ← line_at clean_lines linenum;
  if matched (re_search (rx "^#define") line) then mret true
  else if (0 <? linenum)%Z then
    before ← line_at clean_lines (linenum - 1);
    mret (matched (re_search (rx "\\$") before))
  else mret false.

Definition IsForwardClassDeclaration (clean_lines : list str) (linenum : Z) : lint bool :=
  line ← line_at clean_lines linenum;
  mret (matched (re_match (rx "^\s*(\btemplate\b)*.*class\s+\w+;\s*$") line)).

(** * Theorems *)

(** ** Header guards *)

Definition guard_char (c : char) : bool :=
  is_digit c || ((65 <=? c) && (c <=? 90))%N || (c =? 95)%N.

Definition alnum (c : char) : bool :=
  is_digit c || ((97 <=? c) && (c <=? 122))%N || ((65 <=? c) && (c <=? 90))%N.

Lemma guard_re_eq : rx "[^a-zA-Z0-9]" = RSet true [IRange 97 122; IRange 65 90; IRange 48 57].
Proof. vm_compute. reflexivity. Qed.

(** [re.sub(r'[^a-zA-Z0-9]', '_', s)] character by character. *)
Lemma guard_sub s :
  re_sub (rx "[^a-zA-Z0-9]") (λ _, py "_") s = (λ c, if alnum c then c else 95%N) <$> s.
Proof.
  rewrite guard_re_eq, (re_sub_set _ _ _ (py "_")) by done.
  induction s as [|c s IH]; [done|]. rewrite bind_cons, IH, fmap_cons. unfold sub_char.
  assert (set_ok noflags true [IRange 97 122; IRange 65 90; IRange 48 57] c = negb (alnum c)) as ->.
  { unfold set_ok, in_set, alnum, is_digit. cbn.
    by destruct ((48 <=? c)%N && (c <=? 57)%N), ((97 <=? c)%N && (c <=? 122)%N),
      ((65 <=? c)%N && (c <=? 90)%N). }
  by destruct (alnum c).
Qed.

Lemma upper_alnum c : alnum c = true → guard_char (upper_char c) = true.
Proof.
  unfold alnum, guard_char, upper_char, is_digit.
  rewrite !orb_true_iff, !andb_true_iff, !N.leb_le.
  destruct (N.leb_spec 97 c), (N.leb_spec c 122); cbn [andb];
    rewrite ?orb_true_iff, ?andb_true_iff, ?N.leb_le, ?N.eqb_eq; lia.
Qed.

(** Whatever the file is called, the header guard the tool asks for is made of upper
    case letters, digits and underscores and ends with an underscore; computing it
    changes no state. *)
Theorem header_guard_variable cwd exists_ filename w r w' :
  GetHeaderGuardCPPVariable cwd exists_ filename w = (Ok r, w') →
  w' = w ∧ Forall (λ c, guard_char c = true) r ∧ last r = Some 95%N.
Proof.
  unfold GetHeaderGuardCPPVariable. cbv zeta. unfold mbind, M_bind, liftM, getM.
  destruct (FileInfo.RepositoryName cwd exists_ _) as [name|e]; [|done].
  assert (H : ∀ p, (Ok (E := pyexn)
                      (upper (re_sub (rx "[^a-zA-Z0-9]") (λ _, py "_") p) ++ py "_"), w)
                   = (Ok r, w') →
              w' = w ∧ Forall (λ c, guard_char c = true) r ∧ last r = Some 95%N).
  { intros p [= <- <-]. split; [done|]. split; [|by rewrite last_snoc].
    rewrite guard_sub. unfold upper. apply Forall_app. split; [|by repeat constructor].
    rewrite <- list_fmap_compose. apply Forall_fmap, Forall_forall. intros c _. cbn.
    destruct (alnum c) eqn:Ec; [by apply upper_alnum|done]. }
  destruct (_root w) as [[|a root]|]; [apply H| |apply H].
  destruct (compile _) as [rr|]; [apply H|done].
Qed.

Lemma header_guard_variable_witness :
  GetHeaderGuardCPPVariable (py "/w") (λ _, false) (py "/a-b/c++.h") initial_world
    = (Ok (py "_A_B_CPP_H_"), initial_world) ∧ last (py "_A_B_CPP_H_") = Some 95%N.
Proof.
  assert (H : GetHeaderGuardCPPVariable (py "/w") (λ _, false) (py "/a-b/c++.h") initial_world
    = (Ok (py "_A_B_CPP_H_"), initial_world)) by by vm_compute.
  split; [exact H|]. apply (header_guard_variable _ _ _ _ _ _ H).
Defined.

(** The argument of the first line whose first word is the directive. *)
Fixpoint directive_arg (directive : str) (lines : list str) : str :=
  match lines with
  | [] => []
  | line :: lines =>
      match split_ws line with
      | w0 :: w1 :: _ => if str_eqb w0 directive then w1 else directive_arg directive lines
      | _ => directive_arg directive lines
      end
  end.

Lemma split_ws_go_ne acc s : Forall (λ u, u ≠ []) (split_ws_go acc s).
Proof.
  revert acc; induction s as [|c s IH]; intros acc; cbn [split_ws_go].
  - destruct acc as [|a acc]; constructor; [|constructor]. rewrite reverse_cons. by destruct (reverse acc).
  - destruct (is_space c); [|apply IH]. destruct acc as [|a acc]; [apply IH|].
    constructor; [|apply IH]. rewrite reverse_cons. by destruct (reverse acc).
Qed.

(** The loop over the lines finds the first [#ifndef] and the first [#define]. *)
Lemma guard_lines_spec lines : ∀ g n,
  let g' := guard_lines g n lines in
  ifndef g' = (if decide (ifndef g = []) then directive_arg (py "#ifndef") lines else ifndef g) ∧
  define g' = (if decide (define g = []) then directive_arg (py "#define") lines else define g).
Proof.
  induction lines as [|line lines IH]; intros g n.
  { cbn. by repeat case_decide. }
  cbn [guard_lines directive_arg]. destruct (IH (guard_line g n line) (n + 1)%Z) as [-> ->].
  clear IH. unfold guard_line. pose proof (split_ws_go_ne [] line) as Hne. fold (split_ws line) in Hne.
  destruct (split_ws line) as [|w0 [|w1 ws]].
  - by destruct (starts_with _ _).
  - by destruct (starts_with _ _).
  - apply Forall_cons in Hne as [_ Hne]. apply Forall_cons in Hne as [Hw1 _].
    destruct (str_eqb w0 (py "#ifndef")) eqn:E1.
    + apply str_eqb_eq in E1 as ->.
      replace (str_eqb (py "#ifndef") (py "#define")) with false by done.
      rewrite andb_true_r, andb_false_r. case_bool_decide as Ei; cbn [ifndef define];
        destruct (starts_with _ _); cbn [ifndef define]; repeat case_decide; done.
    + rewrite andb_false_r. destruct (str_eqb w0 (py "#define")).
      * rewrite andb_true_r. case_bool_decide as Ei; cbn [ifndef define];
          destruct (starts_with _ _); cbn [ifndef define]; repeat case_decide; done.
      * rewrite andb_false_r.
        destruct (starts_with _ _); cbn [ifndef define]; repeat case_decide; done.
Qed.

(** A file without the guard-specific NOLINT comment whose guard is missing - no
    [#ifndef], no [#define], or different names - gets exactly one report, on line 0,
    that suggests the variable. *)
Theorem header_guard_missing cwd exists_ filename cl (error : error_fn) w cppvar w' :
  existsb (λ i, matched (re_search nolint_guard_re i)) (lines_without_raw_strings cl) = false →
  GetHeaderGuardCPPVariable cwd exists_ filename w = (Ok cppvar, w') →
  (let name := directive_arg (py "#ifndef") (lines_without_raw_strings cl) in
   name = [] ∨ name ≠ directive_arg (py "#define") (lines_without_raw_strings cl)) →
  CheckForHeaderGuard cwd exists_ filename cl error w
  = error filename 0%Z (py "build/header_guard") 5%Z
      (py "No #ifndef header guard found, suggested CPP variable is: " ++ cppvar) w'.
Proof.
  intros Hno Hv Hg. unfold CheckForHeaderGuard. rewrite Hno. unfold mbind, M_bind. rewrite Hv.
  cbv zeta in *.
  destruct (guard_lines_spec (lines_without_raw_strings cl) (Guard [] 0 [] [] 0) 0) as [Hi Hd].
  cbv zeta in Hi, Hd. rewrite decide_True in Hi, Hd by done.
  set (g := guard_lines _ _ _) in *.
  assert (bool_decide (ifndef g = []) || bool_decide (define g = [])
          || negb (str_eqb (ifndef g) (define g)) = true) as ->; [|done].
  unfold str_eqb. rewrite <- bool_decide_not, <- !bool_decide_or, bool_decide_eq_true.
  rewrite Hi, Hd. tauto.
Qed.

Lemma header_guard_missing_witness :
  (CheckForHeaderGuard (py "/w") (λ _, false) (py "/x.h") 
     {| elided := []; lines := []; raw_lines := []; num_lines := 0;
        lines_without_raw_strings := [py "#ifndef A"; py "#define B"] |}
     (λ _ _ _ _ m, write_stderr m) initial_world).2
  = (write_stderr (py "No #ifndef header guard found, suggested CPP variable is: _X_H_")
       initial_world).2.
Proof.
  rewrite (header_guard_missing _ _ _ _ _ initial_world (py "_X_H_") initial_world);
    [done|by vm_compute|by vm_compute|].
  right. by vm_compute.
Defined.

(** ** The end of the file *)

(** The lines a check gets for a file: its text cut at the newlines, between two marker
    lines. *)
Definition marked_lines (content : str) : list str :=
  py "// marker so line numbers and indices both start at 1" :: split (py "\n") content
  ++ [py "// marker so line numbers end in a known way"].

Lemma split_ne s : split (py "\n") s ≠ [].
Proof.
  intros H. pose proof (split_go_last 10 [] s) as Hl.
  change (split_go [10%N] [] 0 s) with (split (py "\n") s) in Hl. by rewrite H in Hl.
Qed.

(** [CheckForNewlineAtEOF] on the lines of a file reports exactly the files that are
    not empty and do not end with a newline, on their last line. *)
Theorem newline_at_eof filename content (error : error_fn) w :
  let n := Z.of_nat (length (split (py "\n") content)) in
  CheckForNewlineAtEOF filename (marked_lines content) error w =
  if decide (content = [] ∨ last content = Some 10%N) then (Ok (), w)
  else error filename n (py "whitespace/ending_newline") 5%Z
         (py "Could not find a newline character at the end of the file.") w.
Proof.
  cbv zeta. unfold CheckForNewlineAtEOF, marked_lines.
  set (l := split (py "\n") content).
  set (m1 := py "// marker so line numbers and indices both start at 1").
  set (m2 := py "// marker so line numbers end in a known way").
  assert (Hl : 0 < length l) by (pose proof (split_ne content); destruct l eqn:E; [done|cbn; lia]).
  assert (Hlen : length (m1 :: l ++ [m2]) = length l + 2) by (cbn [length]; rewrite length_app; cbn; lia).
  rewrite Hlen. rewrite (proj2 (Z.ltb_ge _ _)) by lia.
  assert (Hidx : py_index (m1 :: l ++ [m2]) (-2) = last l).
  { unfold py_index, norm_index. rewrite Hlen. rewrite (decide_True (P := (-2 < 0)%Z)) by lia.
    rewrite decide_False by lia.
    replace (Z.to_nat _) with (S (length l - 1)) by lia.
    change ((l ++ [m2]) !! (length l - 1) = last l).
    rewrite lookup_app_l by lia. rewrite last_lookup. f_equal. lia. }
  rewrite Hidx. unfold mbind, M_bind. destruct (last l) as [t|] eqn:Elast.
  2: { apply last_None in Elast. rewrite Elast in Hl. cbn in Hl. lia. }
  cbn [mret M_ret].
  replace (Z.of_nat (length l + 2) - 2)%Z with (Z.of_nat (length l)) by lia.
  assert (Hiff : t = [] ↔ content = [] ∨ last content = Some 10%N).
  { rewrite <- last_split_nil. change [10%N] with (py "\n"). fold l. rewrite Elast.
    split; [by intros ->|by intros [= ->]]. }
  case_bool_decide as E; cbn [negb whenM]; case_decide as E'; tauto.
Qed.

(** ** Indentation *)

Lemma indent_re_eq :
  rx "^( *)\S" = RCat RBol (RCat (RGroup 1 (RStar true (RChar 32))) (RSet false [IClass CNSpace])).
Proof. vm_compute. reflexivity. Qed.

Lemma star_spaces {A : Type} s c n a t g (k : cur → caps → option A) x :
  c_rest c = repeat 32%N n ++ a :: t → a ≠ 32%N → k (adv (repeat 32%N n) c) g = Some x →
  rmatch noflags s (RStar true (RChar 32)) c g k = Some x.
Proof.
  intros E Ha. rewrite rmatch_star.
  assert (Hlen : n < S (length (c_rest c)))
    by (rewrite E, length_app, repeat_length; cbn; lia).
  revert Hlen. generalize (S (length (c_rest c))) as m. intros m Hm Hk.
  revert c m g E Hm Hk. induction n as [|n IH]; intros c m g E Hm Hk; (destruct m as [|m]; [lia|]);
    cbn [star_go].
  - cbn [repeat app] in *. erewrite rmatch_char_cons by exact E.
    cbn [char_eq noflags f_icase]. rewrite (proj2 (N.eqb_neq _ _)) by done.
    by rewrite adv_nil in Hk.
  - cbn [repeat app] in *. erewrite rmatch_char_cons by exact E.
    cbn [char_eq noflags f_icase N.eqb Pos.eqb step_cur c_pos].
    rewrite decide_False by lia.
    rewrite (adv_cons _ _ _ (repeat 32%N n ++ a :: t)) in Hk by done.
    by rewrite (IH (step_cur c 32 (repeat 32%N n ++ a :: t)) m g eq_refl ltac:(lia) Hk).
Qed.

(** [GetIndentLevel] of a line with a character that is not white space behind its
    leading spaces is the number of those spaces; a line of spaces only has level 0. *)
Theorem indent_level n a t :
  is_re_space a = false →
  GetIndentLevel (repeat 32%N n ++ a :: t) = Z.of_nat n ∧ GetIndentLevel (repeat 32%N n) = 0%Z.
Proof.
  intros Ha. unfold GetIndentLevel. split.
  - set (s := repeat 32%N n ++ a :: t).
    assert (Hm : re_match (rx "^( *)\S") s
                 = Some (Mobj s 0 (S n) [(1, (0, n))])).
    { unfold re_match, re_match_fl, match_at. rewrite indent_re_eq.
      rewrite rmatch_cat, rmatch_bol. cbn [at_bol start_cur c_prev noflags].
      rewrite rmatch_cat, rmatch_group.
      eapply (star_spaces _ _ n a t); [done|by intros ->|].
      erewrite rmatch_set_cons by by apply adv_rest.
      assert (set_ok noflags false [IClass CNSpace] a = true) as ->
        by (unfold set_ok, in_set; cbn; by rewrite Ha).
      unfold adv, step_cur. cbn. rewrite repeat_length. done. }
    rewrite Hm. unfold group_. cbn [group get_cap mo_caps mo_subject].
    rewrite decide_True by done. cbn. unfold span_text. cbn [fst snd].
    rewrite drop_0, Nat.sub_0_r. unfold s. rewrite take_app_le by (rewrite repeat_length; lia).
    rewrite length_take, repeat_length. f_equal. lia.
  - destruct (re_match (rx "^( *)\S") (repeat 32%N n)) as [m|] eqn:Em; [|done].
    exfalso. assert (Hs : is_Some (re_match (rx "^( *)\S") (repeat 32%N n))) by by eexists.
    unfold re_match, re_match_fl in Hs. rewrite indent_re_eq in Hs.
    apply matched_iff in Hs as (c'&c1&[_ ->]&c2&Hg&b&u&E&Hb&_); [|done].
    apply den_reads_prefix, reads_prefix_read in Hg as [w [Hw _]].
    cbn [start_cur c_rest] in Hw. rewrite E in Hw.
    assert (b = 32%N) as ->.
    { assert (Hin : b ∈ repeat 32%N n) by (rewrite Hw; set_solver).
      apply list_elem_of_In, repeat_spec in Hin. done. }
    done.
Qed.

Lemma indent_level_witness : GetIndentLevel (py "    return x;") = 4%Z.
Proof. by apply (indent_level 4 114 (py "eturn x;")). Defined.

(** ** The header of a source file *)

(** Whether a source file's own header is among the includes, as the tool sees it. *)
Definition includes_header (headername : str) (includes : list (str * Z)) : bool :=
  existsb (λ f, contains headername f.1 || contains f.1 headername) includes.

Lemma find_own_header_spec headername includes first :
  Forall (λ f, f.2 ≠ 0%Z) includes →
  find_own_header headername includes first =
  if includes_header headername includes then None
  else Some (if (first =? 0)%Z then from_option snd 0%Z (head includes) else first).
Proof.
  intros Hl. revert first; induction Hl as [|f includes Hf _ IH]; intros first.
  { cbn. by destruct (Z.eqb_spec first 0) as [->|]. }
  cbn [find_own_header]. unfold includes_header. cbn [existsb head from_option].
  destruct (contains headername f.1 || contains f.1 headername); [done|]. cbn [orb].
  rewrite IH. unfold includes_header. destruct (existsb _ includes); [done|].
  destruct (Z.eqb_spec first 0) as [->|Hn].
  - by rewrite (proj2 (Z.eqb_neq _ _) Hf).
  - by rewrite (proj2 (Z.eqb_neq _ _) Hn).
Qed.

(** A source file that is not a test and has a header of the same name next to it is
    reported, at its first include, exactly if no include names the header. *)
Theorem header_file_included cwd exists_ base st (error : error_fn) w headername name :
  let filename := base ++ py ".cc" in
  let header := base ++ py ".h" in
  ends_with (py "_test.cc") filename = false → ends_with (py "_unittest.cc") filename = false →
  exists_ header = true →
  FileInfo.RepositoryName cwd exists_ header = Ok headername →
  FileInfo.RepositoryName cwd exists_ filename = Ok name →
  Forall (λ f, f.2 ≠ 0%Z) (concat (IncludeState.include_list st)) →
  CheckHeaderFileIncluded cwd exists_ filename st error w =
  if includes_header headername (concat (IncludeState.include_list st)) then (Ok (), w)
  else error filename (from_option snd 0%Z (head (concat (IncludeState.include_list st))))
         (py "build/include") 5%Z (name ++ py " should include its header file " ++ headername) w.
Proof.
  cbv zeta. intros H1 H2 Hx Hh Hn Hl. unfold CheckHeaderFileIncluded. rewrite H1, H2.
  cbn [orb]. cbv zeta.
  assert (Hs : py_slice (base ++ py ".cc") 0 (Z.of_nat (length (base ++ py ".cc")) - 2) ++ py "h"
               = base ++ py ".h").
  { unfold py_slice, clamp_index, norm_index. rewrite length_app. cbn [length py].
    rewrite (decide_False (P := (0 < 0)%Z)) by lia.
    rewrite decide_False by lia.
    replace (Z.to_nat _ - Z.to_nat _) with (length base + 1) by lia.
    replace (Z.to_nat _) with 0 by lia. rewrite drop_0, take_app_ge by lia.
    replace (length base + 1 - length base) with 1 by lia. by rewrite <- app_assoc. }
  rewrite Hs, Hx. cbn [negb]. unfold mbind, M_bind, liftM. rewrite Hh.
  rewrite find_own_header_spec by done. cbn [Z.eqb].
  destruct (includes_header _ _); [done|]. by rewrite Hn.
Qed.

Lemma header_file_included_witness :
  (CheckHeaderFileIncluded (py "/") (λ p, str_eqb p (py "/w/a.h")) (py "/w/a.cc")
     (IncludeState.make [[(py "b.h", 3%Z)]] 0 []) (λ _ l _ _ m, write_stderr (str_of_Z l ++ m))
     initial_world).2
  = (write_stderr (py "3/w/a.cc should include its header file /w/a.h") initial_world).2.
Proof.
  rewrite (header_file_included (py "/") _ (py "/w/a") _ _ _ (py "/w/a.h") (py "/w/a.cc"));
    [by vm_compute|by vm_compute..|]. repeat constructor; done.
Defined.
