(* ===== verification/LintNesting.v ===== *)
(** * cpplint.py: the nesting of blocks

    [NestingState] and the block objects on its stack. The blocks are shared, mutable
    objects - [previous_stack_top] keeps a reference to one, [copy.deepcopy] makes new
    ones - so they live in a heap and the stacks hold references. The top of a stack of
    the source is the head of ours. *)

From S2P Require Import Prelude PyStr PyRe PyReFacts LintData LintState LintLines LintExpr.
From S2P Require Import LintChecks.

(** ** The block objects *)
Record class_info := ClassInfo {
  c_name : str;
  c_starting_linenum : Z;
  is_derived : bool;
  is_struct : bool;
  access : str;
  class_indent : Z;
  last_line : Z }.

Inductive block_kind : Type :=
| BlockInfo
| ExternCInfo
| ClassKind (c : class_info)
| NamespaceInfo (name : str) (starting_linenum : Z).

Record block := Block {
  kind : block_kind;
  seen_open_brace : bool;
  open_parentheses : Z;
  inline_asm : asm_state;
  check_namespace_indentation : bool }.

Definition _BlockInfo (seen : bool) : block := Block BlockInfo seen 0 _NO_ASM false.
Definition _ExternCInfo : block := Block ExternCInfo true 0 _NO_ASM false.
Definition _NamespaceInfo (name : option str) (linenum : Z) : block :=
  Block (NamespaceInfo (default [] name) linenum) false 0 _NO_ASM true.

Definition IsBlockInfo (b : block) : bool :=
  match kind b with BlockInfo => true | _ => false end.
Definition is_class (b : block) : bool :=
  match kind b with ClassKind _ => true | _ => false end.

(** The line on which the braces counted from [linenum] on balance; 0 if none does. *)
Fixpoint find_last_line (i depth : Z) (rest : list str) : Z :=
  match rest with
  | [] => 0
  | line :: rest =>
      let depth := (depth + (count (py "{") line - count (py "}") line))%Z in
      if (depth =? 0)%Z then i else find_last_line (i + 1) depth rest
  end.

Definition _ClassInfo (name class_or_struct : str) (clean_lines : CleansedLines) (linenum : Z)
    : lint block :=
  raw ← line_at (raw_lines clean_lines) linenum;
  let struct := str_eqb class_or_struct (py "struct") in
  mret (Block (ClassKind {|
    c_name := name;
    c_starting_linenum := linenum;
    is_derived := false;
    is_struct := struct;
    access := if struct then py "public" else py "private";
    class_indent := GetIndentLevel raw;
    last_line := find_last_line linenum 0 (drop (Z.to_nat linenum) (elided clean_lines)) |})
    false 0 _NO_ASM true).

(** [CheckBegin]: only a class does something, to itself. *)
Definition CheckBegin (b : block) (clean_lines : CleansedLines) (linenum : Z) : lint block :=
  match kind b with
  | ClassKind c =>
      line ← elided_line clean_lines linenum;
      mret (if matched (re_search (rx "(^|[^:]):($|[^:])") line)
            then Block (ClassKind (ClassInfo (c_name c) (c_starting_linenum c) true (is_struct c)
                                     (access c) (class_indent c) (last_line c)))
                       (seen_open_brace b) (open_parentheses b) (inline_asm b)
                       (check_namespace_indentation b)
            else b)
  | _ => mret b
  end.

Definition parent_name (c : class_info) : str :=
  (if is_struct c then py "struct " else py "class ") ++ c_name c.

(** The loop of [_ClassInfo.CheckEnd] over the lines above, last one first. *)
Fixpoint check_last_thing (filename : str) (clean_lines : CleansedLines) (r : regex)
    (lines : list Z) (seen_last_thing_in_class : bool) (error : error_fn) : lint unit :=
  match lines with
  | [] => mret ()
  | i :: lines =>
      line ← elided_line clean_lines i;
      match re_search r line with
      | Some m =>
          whenM seen_last_thing_in_class
            (error filename i (py "readability/constructors") 3%Z
               (group_ m 1 ++ py " should be the last thing in the class"))
      | None =>
          check_last_thing filename clean_lines r lines
            (seen_last_thing_in_class || negb (matched (re_match (rx "^\s*$") line))) error
      end
  end.

Definition class_CheckEnd (c : class_info) (filename : str) (clean_lines : CleansedLines)
    (linenum : Z) (error : error_fn) : lint unit :=
  let above := reverse (seqZ (c_starting_linenum c + 1) (linenum - 1 - c_starting_linenum c)) in
  match compile (raw "\b(DISALLOW_COPY_AND_ASSIGN|DISALLOW_IMPLICIT_CONSTRUCTORS)\("
                 ++ c_name c ++ raw "\)") with
  | None => if bool_decide (above = []) then mret () else raiseM ReError
  | Some r => check_last_thing filename clean_lines r above false error
  end ;;
  line ← elided_line clean_lines linenum;
  match re_match (rx "^( *)\}") line with
  | Some indent =>
      whenM (negb (Z.of_nat (length (group_ indent 1)) =? class_indent c)%Z)
        (error filename linenum (py "whitespace/indent") 3%Z
           (py "Closing brace should be aligned with beginning of " ++ parent_name c))
  | None => mret ()
  end.

Definition namespace_CheckEnd (name : str) (starting_linenum : Z) (filename : str)
    (clean_lines : CleansedLines) (linenum : Z) (error : error_fn) : lint unit :=
  line ← line_at (raw_lines clean_lines) linenum;
  if (linenum - starting_linenum <? 10)%Z
     && negb (matched (re_match (rx "};*\s*(//|/\*).*\bnamespace\b") line)) then mret ()
  else if negb (bool_decide (name = [])) then
    match compile (raw "};*\s*(//|/\*).*\bnamespace\s+" ++ re_escape name ++ raw "[\*/\.\\\s]*$") with
    | None => raiseM ReError
    | Some r =>
        whenM (negb (matched (re_match r line)))
          (error filename linenum (py "readability/namespace") 5%Z
             (py "Namespace should be terminated with \x22// namespace " ++ name ++ py "\x22"))
    end
  else if negb (matched (re_match (rx "};*\s*(//|/\*).*\bnamespace[\*/\.\\\s]*$") line)) then
    if matched (re_match (rx "}.*\b(namespace anonymous|anonymous namespace)\b") line) then
      error filename linenum (py "readability/namespace") 5%Z
        (py "Anonymous namespace should be terminated with \x22// namespace\x22 or \x22// anonymous namespace\x22")
    else
      error filename linenum (py "readability/namespace") 5%Z
        (py "Anonymous namespace should be terminated with \x22// namespace\x22")
  else mret ().

Definition CheckEnd (b : block) (filename : str) (clean_lines : CleansedLines) (linenum : Z)
    (error : error_fn) : lint unit :=
  match kind b with
  | ClassKind c => class_CheckEnd c filename clean_lines linenum error
  | NamespaceInfo name starting =>
      namespace_CheckEnd name starting filename clean_lines linenum error
  | _ => mret ()
  end.

(** ** The state *)
Record _PreprocessorInfo := PreprocessorInfo {
  stack_before_if : list nat;
  stack_before_else : list nat;
  seen_else : bool }.

(** [previous_stack_top]: the empty list it starts as counts as false, like [None]. *)
Record NestingState := Nesting {
  heap : gmap nat block;
  next_ref : nat;
  stack : list nat;
  previous_stack_top : option nat;
  pp_stack : list _PreprocessorInfo }.

Definition init_nesting : NestingState := Nesting ∅ 0 [] None [].

Definition set_stack (s : list nat) (n : NestingState) : NestingState :=
  Nesting (heap n) (next_ref n) s (previous_stack_top n) (pp_stack n).
Definition set_pp (p : list _PreprocessorInfo) (n : NestingState) : NestingState :=
  Nesting (heap n) (next_ref n) (stack n) (previous_stack_top n) p.
Definition set_previous (p : option nat) (n : NestingState) : NestingState :=
  Nesting (heap n) (next_ref n) (stack n) p (pp_stack n).
Definition set_block (r : nat) (b : block) (n : NestingState) : NestingState :=
  Nesting (<[ r := b ]> (heap n)) (next_ref n) (stack n) (previous_stack_top n) (pp_stack n).

(** [self.stack.append(b)] of a new object. *)
Definition push (b : block) (n : NestingState) : NestingState :=
  Nesting (<[ next_ref n := b ]> (heap n)) (S (next_ref n)) (next_ref n :: stack n)
    (previous_stack_top n) (pp_stack n).

(** [copy.deepcopy(stack)]: a new object for every one on it. *)
Fixpoint deepcopy (s : list nat) (n : NestingState) : list nat * NestingState :=
  match s with
  | [] => ([], n)
  | r :: s =>
      let '(s', n) := deepcopy s n in
      let h := match heap n !! r with
               | Some b => <[ next_ref n := b ]> (heap n)
               | None => heap n
               end in
      (next_ref n :: s',
       Nesting h (S (next_ref n)) (stack n) (previous_stack_top n) (pp_stack n))
  end.

(** [self.stack[-1]] *)
Definition top (n : NestingState) : option block := r ← head (stack n); heap n !! r.
Definition set_top (b : block) (n : NestingState) : NestingState :=
  match stack n with
  | r :: _ => set_block r b n
  | [] => n
  end.

Definition SeenOpenBrace (n : NestingState) : bool :=
  match top n with None => true | Some b => seen_open_brace b end.
Definition InNamespaceBody (n : NestingState) : bool :=
  match kind <$> top n with Some (NamespaceInfo _ _) => true | _ => false end.
Definition InExternC (n : NestingState) : bool :=
  match kind <$> top n with Some ExternCInfo => true | _ => false end.
Definition InClassDeclaration (n : NestingState) : bool :=
  match top n with Some b => is_class b | None => false end.
Definition InAsmBlock (n : NestingState) : bool :=
  match top n with Some b => negb (bool_decide (inline_asm b = _NO_ASM)) | None => false end.

Definition template_re : regex := rx "^[^{};=\[\]\.<>]*(.)".

(** The [while] loop of [InTemplateArgumentList]. *)
Fixpoint in_template (fuel : nat) (clean_lines : CleansedLines) (linenum pos : nat)
    : res pyexn bool :=
  match fuel with
  | O => Raise Diverges
  | S fuel =>
      if (NumLines clean_lines <=? Z.of_nat linenum)%Z then Ok false else
      match elided clean_lines !! linenum with
      | None => Raise IndexError
      | Some line =>
          match re_match template_re (drop pos line) with
          | None => in_template fuel clean_lines (S linenum) 0
          | Some m =>
              let token := group_ m 1 in
              let pos := pos + length (group_ m 0) in
              if mem_str token [py "{"; py "}"; py ";"] then Ok false
              else if mem_str token [py ">"; py "="; py "["; py "]"; py "."] then Ok true
              else if negb (str_eqb token (py "<")) then
                let pos := S pos in
                if (length line <=? pos)%nat then in_template fuel clean_lines (S linenum) 0
                else in_template fuel clean_lines linenum pos
              else
                '(_, end_line, end_pos) ← CloseExpression clean_lines linenum (pos - 1);
                if (end_pos <? 0)%Z then Ok false
                else in_template fuel clean_lines (Z.to_nat end_line) (Z.to_nat end_pos)
          end
      end
  end.

(** Every round moves on in the file. *)
Definition file_size (clean_lines : CleansedLines) : nat :=
  sum_list ((λ l, length l + 2) <$> elided clean_lines).
Definition InTemplateArgumentList (clean_lines : CleansedLines) (linenum pos : nat)
    : res pyexn bool := in_template (S (file_size clean_lines)) clean_lines linenum pos.

(** *** Preprocessor directives *)
Definition pp_if_re : regex := rx "^\s*#\s*(if|ifdef|ifndef)\b".
Definition pp_else_re : regex := rx "^\s*#\s*(else|elif)\b".
Definition pp_endif_re : regex := rx "^\s*#\s*endif\b".

Definition pp_if (n : NestingState) : NestingState :=
  let '(s, n) := deepcopy (stack n) n in
  set_pp (PreprocessorInfo s [] false :: pp_stack n) n.

Definition pp_else (n : NestingState) : NestingState :=
  match pp_stack n with
  | [] => n
  | p :: pps =>
      let '(p, n) :=
        if negb (seen_else p) then
          let '(s, n) := deepcopy (stack n) n in
          (PreprocessorInfo (stack_before_if p) s true, n)
        else (p, n) in
      let '(s, n) := deepcopy (stack_before_if p) n in
      set_stack s (set_pp (p :: pps) n)
  end.

Definition pp_endif (n : NestingState) : NestingState :=
  match pp_stack n with
  | [] => n
  | p :: pps =>
      set_pp pps (if seen_else p then set_stack (stack_before_else p) n else n)
  end.

Definition UpdatePreprocessor (line : str) (n : NestingState) : NestingState :=
  if matched (re_match pp_if_re line) then pp_if n
  else if matched (re_match pp_else_re line) then pp_else n
  else if matched (re_match pp_endif_re line) then pp_endif n
  else n.

(** *** [Update] *)

(** Parentheses and inline assembly of the innermost block. *)
Definition update_parens (line : str) (b : block) : block :=
  let depth_change := (count (py "(") line - count (py ")") line)%Z in
  let parens := (open_parentheses b + depth_change)%Z in
  let asm :=
    match inline_asm b with
    | _NO_ASM | _END_ASM =>
        if negb (depth_change =? 0)%Z && (parens =? 1)%Z && matched (re_match _MATCH_ASM line)
        then _INSIDE_ASM else _NO_ASM
    | _INSIDE_ASM => if (parens =? 0)%Z then _END_ASM else _INSIDE_ASM
    | _BLOCK_ASM => _BLOCK_ASM
    end in
  Block (kind b) (seen_open_brace b) parens asm (check_namespace_indentation b).

Definition count_parens (line : str) (n : NestingState) : NestingState :=
  match top n with
  | Some b => set_top (update_parens line b) n
  | None => n
  end.

Definition see_brace (b : block) : block :=
  Block (kind b) true (open_parentheses b) (inline_asm b) (check_namespace_indentation b).

Definition namespace_re : regex := rx "^\s*namespace\b\s*([:\w]+)?(.*)$".

(** The namespaces declared at the beginning of the line; the rest of the line. *)
Fixpoint consume_namespaces (fuel : nat) (linenum : Z) (line : str) (n : NestingState)
    : res pyexn (str * NestingState) :=
  match fuel with
  | O => Raise Diverges
  | S fuel =>
      match re_match namespace_re line with
      | None => Ok (line, n)
      | Some m =>
          let new_namespace := _NamespaceInfo (group m 1) linenum in
          let line := group_ m 2 in
          match find_nat (py "{") line with
          | Some i =>
              consume_namespaces fuel linenum (drop (S i) line) (push (see_brace new_namespace) n)
          | None => consume_namespaces fuel linenum line (push new_namespace n)
          end
      end
  end.

Definition class_decl_re : regex :=
  rx "^(\s*(?:template\s*<[\w\s<>,:]*>\s*)?(class|struct)\s+(?:[A-Z_]+\s+)*(\w+(?:::\w+)*))(.*)$".

Definition consume_class (clean_lines : CleansedLines) (linenum : Z) (line : str)
    (n : NestingState) : lint (str * NestingState) :=
  match re_match class_decl_re line with
  | Some m =>
      if match top n with Some b => (open_parentheses b =? 0)%Z | None => true end then
        inside ← liftM (InTemplateArgumentList clean_lines (Z.to_nat linenum)
                          (length (group_ m 1)));
        if (inside : bool) then mret (line, n)
        else
          b ← _ClassInfo (group_ m 3) (group_ m 2) clean_lines linenum;
          mret (group_ m 4, push b n)
      else mret (line, n)
  | None => mret (line, n)
  end.

Definition check_begin (clean_lines : CleansedLines) (linenum : Z) (n : NestingState)
    : lint NestingState :=
  match top n with
  | Some b =>
      if seen_open_brace b then mret n
      else b ← CheckBegin b clean_lines linenum; mret (set_top b n)
  | None => mret n
  end.

Definition access_re : regex :=
  rx "^(.*)\b(public|private|protected|signals)(\s+(?:slots\s*)?)?:(?:[^:]|$)".

Definition update_access (filename : str) (linenum : Z) (line : str) (n : NestingState)
    (error : error_fn) : lint NestingState :=
  match top n with
  | Some (Block (ClassKind c) seen parens asm ns) =>
      match re_match access_re line with
      | Some m =>
          let c' := ClassInfo (c_name c) (c_starting_linenum c) (is_derived c) (is_struct c)
                      (group_ m 2) (class_indent c) (last_line c) in
          let indent := group_ m 1 in
          whenM (negb (Z.of_nat (length indent) =? class_indent c + 1)%Z
                 && matched (re_match (rx "^\s*$") indent))
            (error filename linenum (py "whitespace/indent") 3%Z
               (group_ m 2 ++ group_ m 3 ++ py ": should be indented +1 space inside "
                ++ parent_name c)) ;;
          mret (set_top (Block (ClassKind c') seen parens asm ns) n)
      | None => mret n
      end
  | _ => mret n
  end.

Definition token_re : regex := rx "^[^{;)}]*([{;)}])(.*)$".
Definition extern_re : regex := pyrx "^extern\\s*\x22[^\x22]*\x22\\s*\\{".

(** An opening brace: the head of the innermost block is complete, or a new block. *)
Definition open_brace (line : str) (n : NestingState) : NestingState :=
  match top n with
  | Some (Block _ false _ _ _ as b) => set_top (see_brace b) n
  | _ =>
      if matched (re_match extern_re line) then push _ExternCInfo n
      else
        let b := _BlockInfo true in
        push (if matched (re_match _MATCH_ASM line)
              then Block (kind b) (seen_open_brace b) (open_parentheses b) _BLOCK_ASM
                         (check_namespace_indentation b)
              else b) n
  end.

Definition pop (n : NestingState) : NestingState := set_stack (tail (stack n)) n.

Fixpoint consume_tokens (fuel : nat) (filename : str) (clean_lines : CleansedLines) (linenum : Z)
    (line : str) (n : NestingState) (error : error_fn) : lint NestingState :=
  match fuel with
  | O => raiseM Diverges
  | S fuel =>
      match re_match token_re line with
      | None => mret n
      | Some m =>
          let token := group_ m 1 in
          n ← (if str_eqb token (py "{") then mret (open_brace line n)
               else if str_eqb token (py ";") || str_eqb token (py ")") then
                 mret (if SeenOpenBrace n then n else pop n)
               else
                 match top n with
                 | Some b =>
                     CheckEnd b filename clean_lines linenum error ;; mret (pop n)
                 | None => mret n
                 end);
          consume_tokens fuel filename clean_lines linenum (group_ m 2) n error
      end
  end.

(** [Update] behind the preprocessor step, from the parentheses on. *)
Definition process_line (filename : str) (clean_lines : CleansedLines) (linenum : Z) (line : str)
    (n : NestingState) (error : error_fn) : lint NestingState :=
  let n := count_parens line n in
  '(line, n) ← liftM (consume_namespaces (S (length line)) linenum line n);
  '(line, n) ← consume_class clean_lines linenum line n;
  n ← check_begin clean_lines linenum n;
  n ← update_access filename linenum line n error;
  consume_tokens (S (length line)) filename clean_lines linenum line n error.

Definition Update (filename : str) (clean_lines : CleansedLines) (linenum : Z)
    (n : NestingState) (error : error_fn) : lint NestingState :=
  line ← elided_line clean_lines linenum;
  let n := set_previous (head (stack n)) n in
  let n := UpdatePreprocessor line n in
  process_line filename clean_lines linenum line n error.

Definition InnermostClass (n : NestingState) : option block :=
  head (filter (λ b, is_class b = true) (omap (λ r, heap n !! r) (stack n))).

(** The blocks left when the file ends, outermost first. *)
Definition CheckCompletedBlocks (filename : str) (n : NestingState) (error : error_fn)
    : lint unit :=
  forM (reverse (omap (λ r, heap n !! r) (stack n))) (λ b,
    match kind b with
    | ClassKind c =>
        error filename (c_starting_linenum c) (py "build/class") 5%Z
          (py "Failed to find complete declaration of class " ++ c_name c)
    | NamespaceInfo name starting_linenum =>
        error filename starting_linenum (py "build/namespaces") 5%Z
          (py "Failed to find complete declaration of namespace " ++ name)
    | _ => mret ()
    end).

(** * Theorems *)

(** ** Well-formed states *)

(** The references the preprocessor stack keeps. *)
Definition saved_of (pps : list _PreprocessorInfo) : list nat :=
  concat ((λ p, stack_before_if p ++ stack_before_else p) <$> pps).
Definition saved (n : NestingState) : list nat := saved_of (pp_stack n).

(** The allocated references are those below [next_ref], and no object is on two of the
    stacks, or twice on one. *)
Record wf (n : NestingState) : Prop := {
  wf_heap : ∀ r, is_Some (heap n !! r) ↔ r < next_ref n;
  wf_nodup : NoDup (stack n ++ saved n);
  wf_refs : ∀ r, r ∈ stack n ++ saved n → r < next_ref n;
  wf_prev : ∀ r, previous_stack_top n = Some r → r < next_ref n }.

(** A step that works on the stack alone: the preprocessor stack and every object on it
    stay as they are. *)
Record frame (n n' : NestingState) : Prop := {
  frame_wf : wf n';
  frame_pp : pp_stack n' = pp_stack n;
  frame_next : next_ref n ≤ next_ref n';
  frame_heap : ∀ r, r ∈ saved n → heap n' !! r = heap n !! r;
  frame_stack : ∀ r, r ∈ stack n' → r ∈ stack n ∨ next_ref n ≤ r }.

Lemma frame_refl n : wf n → frame n n.
Proof. intros Hw. split; auto. Qed.

Lemma frame_trans n1 n2 n3 : frame n1 n2 → frame n2 n3 → frame n1 n3.
Proof.
  intros [W1 P1 N1 H1 S1] [W2 P2 N2 H2 S2]. split; try done.
  - by rewrite P2.
  - lia.
  - intros r Hr. rewrite H2, H1; [done|done|]. unfold saved in *. by rewrite P1.
  - intros r [Hr|Hr]%S2; [|right; lia]. apply S1 in Hr as [|]; [by left|right; lia].
Qed.

Lemma wf_push n b : wf n → frame n (push b n).
Proof.
  intros [Hh Hnd Hr Hp]. split; try done; cbn; [| lia| |].
  - split; cbn.
    + intros r. destruct (decide (r = next_ref n)) as [->|Hne].
      * rewrite lookup_insert_eq. split; [lia|by eexists].
      * rewrite lookup_insert_ne by done. rewrite Hh. lia.
    + constructor; [|done]. intros Hin%Hr. lia.
    + intros r [->|Hin]%elem_of_cons; [lia|]. apply Hr in Hin. lia.
    + intros r Hin%Hp. lia.
  - intros r Hin. rewrite lookup_insert_ne; [done|].
    assert (r < next_ref n) by (apply Hr, elem_of_app; by right). lia.
  - intros r [->|Hin]%elem_of_cons; [by right|by left].
Qed.

Lemma wf_set_top n b : wf n → frame n (set_top b n).
Proof.
  intros Hw. unfold set_top. destruct (stack n) as [|r s] eqn:Es; [by apply frame_refl|].
  destruct Hw as [Hh Hnd Hr Hp].
  assert (Hlt : r < next_ref n) by (apply Hr; rewrite Es; by left).
  split; try done; cbn; auto.
  - split; cbn; try done.
    intros r'. destruct (decide (r' = r)) as [->|Hne].
    + rewrite lookup_insert_eq. split; [done|by eexists].
    + by rewrite lookup_insert_ne.
  - intros r' Hin. rewrite lookup_insert_ne; [done|]. intros ->.
    rewrite Es in Hnd. apply NoDup_cons in Hnd as [Hnd _]. apply Hnd, elem_of_app. by right.
Qed.

Lemma wf_pop n : wf n → frame n (pop n).
Proof.
  intros [Hh Hnd Hr Hp]. split; try done; cbn.
  - split; cbn; try done.
    + destruct (stack n); [done|]. by apply NoDup_cons in Hnd as [_ ?].
    + intros r Hin. apply Hr. destruct (stack n); [done|]. by right.
  - intros r Hin. left. destruct (stack n); [done|]. by right.
Qed.

(** *** Copies *)
Lemma deepcopy_spec s n s' n' :
  deepcopy s n = (s', n') →
  (∀ r, is_Some (heap n !! r) ↔ r < next_ref n) → (∀ r, r ∈ s → r < next_ref n) →
  stack n' = stack n ∧ previous_stack_top n' = previous_stack_top n ∧ pp_stack n' = pp_stack n ∧
  next_ref n' = next_ref n + length s ∧ length s' = length s ∧
  (∀ r, is_Some (heap n' !! r) ↔ r < next_ref n') ∧
  NoDup s' ∧ (∀ r, r ∈ s' → next_ref n ≤ r < next_ref n') ∧
  (∀ r, r < next_ref n → heap n' !! r = heap n !! r) ∧
  (λ r, heap n' !! r) <$> s' = (λ r, heap n !! r) <$> s.
Proof.
  revert s' n'; induction s as [|r s IH]; intros s' n' E Hh Hs.
  { injection E as <- <-. cbn. split_and!; try done; try lia; try constructor.
    all: by apply elem_of_nil in H. }
  cbn [deepcopy] in E. destruct (deepcopy s n) as [s1 n1] eqn:E1.
  destruct (IH s1 n1 eq_refl Hh) as (Hst&Hpr&Hpp&Hnx&Hlen&Hh1&Hnd&Hfr&Hold&Hval).
  { intros r' Hr'. apply Hs. by right. }
  assert (Hr : r < next_ref n) by (apply Hs; by left).
  destruct (heap n1 !! r) as [b|] eqn:Eb.
  2: { assert (is_Some (heap n1 !! r)) as [? ?] by (apply Hh1; lia). congruence. }
  injection E as <- <-. cbn [stack previous_stack_top pp_stack next_ref heap length].
  split_and!; try done; try lia.
  - intros r'. destruct (decide (r' = next_ref n1)) as [->|Hne].
    + rewrite lookup_insert_eq. split; [lia|by eexists].
    + rewrite lookup_insert_ne by done. rewrite Hh1. lia.
  - constructor; [|done]. intros Hin%Hfr. lia.
  - intros r' [->|Hin]%elem_of_cons; [lia|]. apply Hfr in Hin. lia.
  - intros r' Hlt. rewrite lookup_insert_ne by lia. by apply Hold.
  - cbn [fmap list_fmap]. f_equal.
    + rewrite lookup_insert_eq, <- Eb. by apply Hold.
    + rewrite <- Hval. apply list_fmap_ext. intros i r' Hi.
      assert (r' < next_ref n1) by (apply list_elem_of_lookup_2, Hfr in Hi; lia).
      by rewrite lookup_insert_ne by lia.
Qed.

(** The objects of a stack. *)
Definition blocks (n : NestingState) (s : list nat) : list (option block) :=
  (λ r, heap n !! r) <$> s.

Lemma wf_pp_if n :
  wf n →
  ∃ s, pp_stack (pp_if n) = PreprocessorInfo s [] false :: pp_stack n ∧
    stack (pp_if n) = stack n ∧ previous_stack_top (pp_if n) = previous_stack_top n ∧
    wf (pp_if n) ∧ blocks (pp_if n) s = blocks n (stack n) ∧
    (∀ r, r < next_ref n → heap (pp_if n) !! r = heap n !! r) ∧ next_ref n ≤ next_ref (pp_if n).
Proof.
  intros [Hh Hnd Hr Hp]. unfold pp_if. destruct (deepcopy (stack n) n) as [s n1] eqn:E.
  destruct (deepcopy_spec _ _ _ _ E Hh) as (Hst&Hpr&Hpp&Hnx&Hlen&Hh1&Hnd1&Hfr&Hold&Hval).
  { intros r Hin. apply Hr, elem_of_app. by left. }
  exists s. cbn. rewrite Hst, Hpp, Hpr. split_and!; try done; [|lia].
  split; cbn; rewrite ?Hst, ?Hpr, ?Hpp.
  - done.
  - unfold saved, saved_of. cbn. rewrite app_nil_r.
    apply NoDup_app. apply NoDup_app in Hnd as (N1&N2&N3). split_and!; [done| |].
    + intros r Hin. rewrite elem_of_app. intros [Hin'|Hin'].
      * apply Hfr in Hin'. assert (r < next_ref n) by (apply Hr, elem_of_app; by left). lia.
      * by eapply N2.
    + apply NoDup_app. split_and!; [done| |done]. intros r Hin Hin'.
      apply Hfr in Hin. assert (r < next_ref n) by (apply Hr, elem_of_app; by right). lia.
  - intros r. unfold saved, saved_of. cbn. rewrite app_nil_r, !elem_of_app. intros [H|[H|H]].
    + assert (r < next_ref n) by (apply Hr, elem_of_app; by left). lia.
    + apply Hfr in H. lia.
    + assert (r < next_ref n) by (apply Hr, elem_of_app; by right). lia.
  - intros r Hin%Hp. lia.
Qed.

Lemma wf_pp_else n p pps :
  wf n → pp_stack n = p :: pps →
  ∃ p', pp_stack (pp_else n) = p' :: pps ∧ stack_before_if p' = stack_before_if p ∧
    seen_else p' = true ∧ (seen_else p = true → p' = p) ∧ wf (pp_else n) ∧
    blocks (pp_else n) (stack (pp_else n)) = blocks n (stack_before_if p) ∧
    blocks (pp_else n) (stack_before_else p')
      = blocks n (if seen_else p then stack_before_else p else stack n) ∧
    (∀ r, r < next_ref n → heap (pp_else n) !! r = heap n !! r) ∧
    next_ref n ≤ next_ref (pp_else n).
Proof.
  intros [Hh Hnd Hr Hp] Epp. unfold pp_else. rewrite Epp.
  assert (Hsaved : ∀ r, r ∈ stack_before_if p ∨ r ∈ stack_before_else p ∨ r ∈ saved_of pps →
                   r < next_ref n).
  { intros r H. apply Hr, elem_of_app. right. unfold saved, saved_of. rewrite Epp. cbn.
    rewrite !elem_of_app. tauto. }
  assert (Hstack : ∀ r, r ∈ stack n → r < next_ref n).
  { intros r H. apply Hr, elem_of_app. by left. }
  unfold saved, saved_of in Hnd. rewrite Epp in Hnd. cbn [fmap list_fmap concat] in Hnd.
  fold (saved_of pps) in Hnd. rewrite !NoDup_app in Hnd.
  destruct Hnd as (Nst&Dst&(Nif&Dif&Nelse)&Dsv&Nsv).
  destruct (seen_else p) eqn:Eseen; cbn [negb].
  - destruct (deepcopy (stack_before_if p) n) as [s n1] eqn:E.
    destruct (deepcopy_spec _ _ _ _ E Hh) as (Hst&Hpr&Hpp&Hnx&Hlen&Hh1&Hnd1&Hfr&Hold&Hval).
    { intros r H. apply Hsaved. tauto. }
    exists p. cbn [pp_stack stack set_stack set_pp heap next_ref]. split_and!; [done|done|done|done| |exact Hval| |exact Hold|lia].
    + split; cbn; rewrite ?Hpr.
      * done.
      * unfold saved, saved_of. cbn. fold (saved_of pps). rewrite !NoDup_app. split_and!; try done.
        intros r Hin. rewrite !elem_of_app. intros H. apply Hfr in Hin.
        assert (r < next_ref n) by (apply Hsaved; tauto). lia.
      * intros r. unfold saved, saved_of. cbn. fold (saved_of pps). rewrite !elem_of_app.
        intros [H|H]; [apply Hfr in H; lia|]. assert (r < next_ref n) by (apply Hsaved; tauto). lia.
      * intros r H%Hp. lia.
    + apply list_fmap_ext. intros i r Hi. apply Hold, Hsaved.
      apply list_elem_of_lookup_2 in Hi. tauto.
  - destruct (deepcopy (stack n) n) as [s1 n1] eqn:E1.
    destruct (deepcopy_spec _ _ _ _ E1 Hh) as (Hst1&Hpr1&Hpp1&Hnx1&Hlen1&Hh1&Hnd1&Hfr1&Hold1&Hval1).
    { done. }
    cbn [stack_before_if].
    destruct (deepcopy (stack_before_if p) n1) as [s2 n2] eqn:E2.
    destruct (deepcopy_spec _ _ _ _ E2 Hh1) as (Hst2&Hpr2&Hpp2&Hnx2&Hlen2&Hh2&Hnd2&Hfr2&Hold2&Hval2).
    { intros r H. assert (r < next_ref n) by (apply Hsaved; tauto). lia. }
    exists (PreprocessorInfo (stack_before_if p) s1 true).
    cbn [pp_stack stack set_stack set_pp heap next_ref stack_before_if stack_before_else seen_else].
    split_and!; [done|done|done|congruence| | | | |lia].
    + split; cbn; rewrite ?Hpr2, ?Hpr1.
      * done.
      * unfold saved, saved_of. cbn. fold (saved_of pps). rewrite !NoDup_app. split_and!; try done.
        -- intros r Hin. rewrite !elem_of_app. intros [[H|H]|H]; apply Hfr2 in Hin.
           ++ assert (r < next_ref n) by (apply Hsaved; tauto). lia.
           ++ apply Hfr1 in H. lia.
           ++ assert (r < next_ref n) by (apply Hsaved; tauto). lia.
        -- intros r Hin Hin'. apply Hfr1 in Hin'.
           assert (r < next_ref n) by (apply Hsaved; tauto). lia.
        -- intros r. rewrite elem_of_app. intros [H|H] Hin.
           ++ eapply Dsv; [|exact Hin]. apply elem_of_app. by left.
           ++ apply Hfr1 in H. assert (r < next_ref n) by (apply Hsaved; tauto). lia.
      * intros r. unfold saved, saved_of. cbn. fold (saved_of pps). rewrite !elem_of_app.
        intros [H|[[H|H]|H]]; [apply Hfr2 in H; lia| |apply Hfr1 in H; lia|];
          (assert (r < next_ref n) by (apply Hsaved; tauto)); lia.
      * intros r H%Hp. lia.
    + unfold blocks. cbn. rewrite Hval2. apply list_fmap_ext. intros i r Hi.
      apply Hold1, Hsaved. apply list_elem_of_lookup_2 in Hi. tauto.
    + unfold blocks. cbn. rewrite <- Hval1. apply list_fmap_ext. intros i r Hi.
      apply Hold2. apply list_elem_of_lookup_2, Hfr1 in Hi. lia.
    + intros r Hlt. cbn. rewrite Hold2 by lia. by apply Hold1.
Qed.

Lemma wf_pp_endif n p pps :
  wf n → pp_stack n = p :: pps →
  pp_stack (pp_endif n) = pps ∧ wf (pp_endif n) ∧ heap (pp_endif n) = heap n ∧
  next_ref (pp_endif n) = next_ref n ∧
  stack (pp_endif n) = (if seen_else p then stack_before_else p else stack n).
Proof.
  intros [Hh Hnd Hr Hp] Epp. unfold pp_endif. rewrite Epp.
  assert (Hsub : stack_before_else p ++ saved_of pps `sublist_of` stack n ++ saved n ∧
                 stack n ++ saved_of pps `sublist_of` stack n ++ saved n).
  { unfold saved, saved_of at 2 4. rewrite Epp. cbn. fold (saved_of pps). split.
    - apply sublist_inserts_l. rewrite <- app_assoc. by apply sublist_inserts_l.
    - apply sublist_app; [done|]. by apply sublist_inserts_l. }
  destruct (seen_else p); cbn; split_and!; try done; split; cbn; try done;
    first [eapply sublist_NoDup; [exact Hnd|apply Hsub]
          |intros r Hin; apply Hr; eapply elem_of_sublist; [exact Hin|apply Hsub]].
Qed.

(** *** The steps of [Update] behind the preprocessor *)
Lemma frame_count_parens line n : wf n → frame n (count_parens line n).
Proof.
  intros Hw. unfold count_parens. destruct (top n); [by apply wf_set_top|by apply frame_refl].
Qed.

Lemma frame_consume_namespaces fuel linenum line n line' n' :
  wf n → consume_namespaces fuel linenum line n = Ok (line', n') → frame n n'.
Proof.
  revert line n; induction fuel as [|fuel IH]; intros line n Hw; cbn [consume_namespaces]; [done|].
  destruct (re_match namespace_re line) as [m|].
  2: { intros [= _ <-]. by apply frame_refl. }
  destruct (find_nat _ _); cbv zeta; intros E;
    (eapply frame_trans; [by apply wf_push|]); eapply IH; [|exact E| |exact E];
    by apply frame_wf with n, wf_push.
Qed.

Lemma frame_consume_class clean_lines linenum line n :
  wf n → returns (λ r, frame n r.2) (consume_class clean_lines linenum line n).
Proof.
  intros Hw. unfold consume_class.
  assert (Hstay : ∀ l, returns (λ r, frame n r.2) (mret (l, n) : lint (str * NestingState))).
  { intros l. apply returns_ret. by apply frame_refl. }
  destruct (re_match class_decl_re line) as [m|]; [|apply Hstay].
  destruct (match top n with Some _ => _ | None => _ end); [|apply Hstay].
  eapply returns_bind; [apply returns_any|]. intros [] _; [apply Hstay|].
  eapply returns_bind; [apply returns_any|]. intros b _. apply returns_ret. by apply wf_push.
Qed.

Lemma frame_check_begin clean_lines linenum n :
  wf n → returns (frame n) (check_begin clean_lines linenum n).
Proof.
  intros Hw. unfold check_begin. destruct (top n) as [b|]; [|by apply returns_ret, frame_refl].
  destruct (seen_open_brace b); [by apply returns_ret, frame_refl|].
  eapply returns_bind; [apply returns_any|]. intros b' _. by apply returns_ret, wf_set_top.
Qed.

Lemma frame_update_access filename linenum line n error :
  wf n → returns (frame n) (update_access filename linenum line n error).
Proof.
  intros Hw. unfold update_access.
  destruct (top n) as [[[] seen parens asm ns]|]; try by apply returns_ret, frame_refl.
  destruct (re_match access_re line); [|by apply returns_ret, frame_refl].
  eapply returns_bind; [apply returns_any|]. intros [] _. by apply returns_ret, wf_set_top.
Qed.

Lemma frame_open_brace line n : wf n → frame n (open_brace line n).
Proof.
  intros Hw. unfold open_brace. destruct (top n) as [[k [] ps asm ns]|]; [|by apply wf_set_top|];
    by destruct (matched _); apply wf_push.
Qed.

Lemma frame_consume_tokens fuel filename clean_lines linenum line n error :
  wf n → returns (frame n) (consume_tokens fuel filename clean_lines linenum line n error).
Proof.
  revert line n; induction fuel as [|fuel IH]; intros line n Hw; cbn [consume_tokens].
  { by intros w a w'. }
  destruct (re_match token_re line) as [m|]; [|by apply returns_ret, frame_refl].
  cbv zeta. eapply returns_bind with (P := frame n).
  2: { intros n1 Hf w a w' E. eapply frame_trans; [exact Hf|].
       eapply IH; [by eapply frame_wf|exact E]. }
  destruct (str_eqb _ _); [by apply returns_ret, frame_open_brace|].
  destruct (_ || _).
  - apply returns_ret. destruct (SeenOpenBrace n); [by apply frame_refl|by apply wf_pop].
  - destruct (top n) as [b|]; [|by apply returns_ret, frame_refl].
    eapply returns_bind; [apply returns_any|]. intros [] _. by apply returns_ret, wf_pop.
Qed.

(** The step of a stage behind one that kept the frame. *)
Lemma returns_frame {A} (n : NestingState) (n1 : NestingState) (p : A → NestingState) (m : lint A) :
  frame n n1 → (wf n1 → returns (λ a, frame n1 (p a)) m) → returns (λ a, frame n (p a)) m.
Proof.
  intros Hf Hm w a w' E. eapply frame_trans; [exact Hf|].
  eapply Hm; [by eapply frame_wf|exact E].
Qed.

Lemma frame_process_line filename clean_lines linenum line n error :
  wf n → returns (frame n) (process_line filename clean_lines linenum line n error).
Proof.
  intros Hw. unfold process_line. cbv zeta.
  apply (returns_frame n (count_parens line n) id); [by apply frame_count_parens|]. intros Hw1.
  eapply returns_bind with (P := λ r, frame (count_parens line n) r.2).
  { apply returns_lift. intros [l1 n1] E. by eapply frame_consume_namespaces. }
  intros [l1 n1] H1. cbn in H1. apply (returns_frame _ n1 id); [done|]. intros Hw2.
  eapply returns_bind; [by apply frame_consume_class|].
  intros [l2 n2] H2. cbn in H2. apply (returns_frame _ n2 id); [done|]. intros Hw3.
  eapply returns_bind; [by apply frame_check_begin|].
  intros n3 H3. apply (returns_frame _ n3 id); [done|]. intros Hw4.
  eapply returns_bind; [by apply frame_update_access|].
  intros n4 H4. apply (returns_frame _ n4 id); [done|]. intros Hw5.
  by apply frame_consume_tokens.
Qed.

(** ** Every call returns *)

(** What the patterns of the loops consume. *)
Definition namespace_parts : list part :=
  [Plain RBol; Plain (RStar true (RSet false [IClass CSpace]));
   Plain (RChar 110); Plain (RChar 97); Plain (RChar 109); Plain (RChar 101); Plain (RChar 115);
   Plain (RChar 112); Plain (RChar 97); Plain (RChar 99); Plain (RChar 101);
   Plain (RWordB false); Plain (RStar true (RSet false [IClass CSpace]));
   Plain (ROpt true (RGroup 1 (RCat (RSet false [IChar 58; IClass CWord])
     (RStar true (RSet false [IChar 58; IClass CWord])))));
   Cap 2 (RStar true RAny); Plain REol].

Lemma namespace_re_parts : namespace_re = parts_re namespace_parts.
Proof. vm_compute. reflexivity. Qed.

Lemma namespace_match line m :
  re_match namespace_re line = Some m → length (group_ m 2) < length line.
Proof.
  intros H. destruct (re_match_parts _ _ _ _ namespace_re_parts eq_refl H) as (ws&c'&Hs&Hd&Hg).
  unfold namespace_parts in Hd. read_parts Hd.
  apply (den_char_read _ _ _ _ Hd2) in Hr1 as ->.
  unfold group_. rewrite (Hg 14 _ _ _ eq_refl eq_refl). cbn [default from_option]. unfold id.
  clear -Hs. rewrite Hs. cbn [concat]. rewrite !length_app. cbn [length]. lia.
Qed.

Definition token_parts : list part :=
  [Plain RBol; Plain (RStar true (RSet true [IChar 123; IChar 59; IChar 41; IChar 125]));
   Cap 1 (RSet false [IChar 123; IChar 59; IChar 41; IChar 125]);
   Cap 2 (RStar true RAny); Plain REol].

Lemma token_re_parts : token_re = parts_re token_parts.
Proof. vm_compute. reflexivity. Qed.

Lemma token_match line m :
  re_match token_re line = Some m → length (group_ m 2) < length line.
Proof.
  intros H. destruct (re_match_parts _ _ _ _ token_re_parts eq_refl H) as (ws&c'&Hs&Hd&Hg).
  unfold token_parts in Hd. read_parts Hd.
  destruct (den_set_read _ _ _ _ _ _ Hd2 Hr1) as (t&->&_).
  unfold group_. rewrite (Hg 3 _ _ _ eq_refl eq_refl). cbn [default from_option]. unfold id.
  clear -Hs. rewrite Hs. cbn [concat]. rewrite !length_app. cbn [length]. lia.
Qed.

Definition template_parts : list part :=
  [Plain RBol;
   Plain (RStar true (RSet true [IChar 123; IChar 125; IChar 59; IChar 61; IChar 91; IChar 93;
     IChar 46; IChar 60; IChar 62]));
   Cap 1 RAny].

Lemma template_re_parts : template_re = parts_re template_parts.
Proof. vm_compute. reflexivity. Qed.

(** The match ends behind its token. *)
Lemma template_match line m :
  re_match template_re line = Some m →
  ∃ h t rest, line = h ++ t :: rest ∧ group_ m 1 = [t] ∧ length (group_ m 0) = S (length h).
Proof.
  intros H.
  destruct (re_match_parts_all _ _ _ _ template_re_parts eq_refl H) as (ws&c'&Hs&Hd&H0&Hg).
  unfold template_parts in Hd. read_parts Hd.
  assert (∃ t, w1 = [t]) as [t ->].
  { destruct Hd2 as (a&u&Ea&_&Ec). exists a. eapply read_step; [exact Ea|]. by rewrite <- Ec. }
  unfold group_. rewrite H0, (Hg 2 _ _ _ eq_refl eq_refl). cbn [default from_option]. unfold id.
  clear -Hs. exists (w ++ w0), t, (c_rest c'). rewrite Hs. cbn [concat].
  split_and!; [by norm_app|done|]. rewrite !length_app. cbn [length]. lia.
Qed.

(** What is left of the file behind position [pos] of line [linenum]. *)
Definition left_of (lns : list str) (linenum pos : nat) : nat :=
  match drop linenum lns with
  | [] => 0
  | line :: rest => length line + 2 - (pos `min` length line) + sum_list ((λ l, length l + 2) <$> rest)
  end.

Lemma left_of_next lns k line pos :
  lns !! k = Some line → left_of lns (S k) 0 + 2 ≤ left_of lns k pos.
Proof.
  intros H. unfold left_of. rewrite (drop_S _ _ _ H).
  destruct (drop (S k) lns) as [|l r]; cbn; lia.
Qed.

Lemma left_of_step lns k line pos pos' :
  lns !! k = Some line → pos < pos' ≤ length line → left_of lns k pos' < left_of lns k pos.
Proof. intros H Hp. unfold left_of. rewrite (drop_S _ _ _ H). lia. Qed.

Lemma left_of_any lns k pos : left_of lns k pos ≤ left_of lns k 0.
Proof. unfold left_of. destruct (drop k lns); lia. Qed.

Lemma left_of_mono lns k k' : k ≤ k' → left_of lns k' 0 ≤ left_of lns k 0.
Proof.
  induction 1 as [|k' Hk IH]; [done|]. etransitivity; [|exact IH].
  destruct (lns !! k') as [l|] eqn:E.
  - pose proof (left_of_next _ _ _ 0 E). lia.
  - unfold left_of. rewrite (drop_ge _ (S k')); [lia|]. apply lookup_ge_None in E. lia.
Qed.

Lemma left_of_later lns k k' line pos pos' :
  k < k' → lns !! k = Some line → left_of lns k' pos' < left_of lns k pos.
Proof.
  intros Hk H. pose proof (left_of_next _ _ _ pos H). pose proof (left_of_any lns k' pos').
  pose proof (left_of_mono lns (S k) k' Hk). lia.
Qed.

Lemma left_of_size cl k pos : left_of (elided cl) k pos ≤ file_size cl.
Proof.
  etransitivity; [apply left_of_any|]. unfold left_of, file_size.
  generalize (elided cl) as l. induction k as [|k IH]; intros [|a l]; cbn; try lia.
  specialize (IH l). destruct (drop k l); cbn in *; lia.
Qed.

Lemma in_template_returns fuel cl k pos :
  left_of (elided cl) k pos < fuel → in_template fuel cl k pos ≠ Raise Diverges.
Proof.
  revert k pos; induction fuel as [|fuel IH]; intros k pos Hf; [lia|]. cbn [in_template].
  destruct (_ <=? _)%Z; [done|]. destruct (elided cl !! k) as [line|] eqn:El; [|done].
  assert (Hnext : in_template fuel cl (S k) 0 ≠ Raise Diverges).
  { apply IH. pose proof (left_of_next _ _ _ pos El). lia. }
  destruct (re_match template_re (drop pos line)) as [m|] eqn:Em; [|done].
  apply template_match in Em as (h&t&rest&E&->&->). cbv zeta.
  apply (f_equal length) in E as Hl. rewrite length_drop, length_app in Hl. cbn [length] in Hl.
  destruct (mem_str _ _); [done|]. destruct (mem_str _ _); [done|].
  destruct (negb (str_eqb [t] _)).
  - destruct (Nat.leb_spec (length line) (S (pos + S (length h)))); [done|].
    apply IH. eapply Nat.lt_le_trans; [|apply Nat.lt_succ_r, Hf]. eapply left_of_step; [done|lia].
  - assert (Hp : pos + S (length h) - 1 < length line) by lia.
    destruct (close_expression_spec _ _ _ _ El Hp) as ([[l el] ep]&->&H).
    unfold closed_at in H. cbn [mbind res_bind fst snd] in *.
    destruct H as [[_ ->]|[(k'&j&c&->&Hk&Hl'&->&_)|(Hr&j&c&->&Hj&Hc&_)]]; [done| |].
    + destruct (_ <? 0)%Z; [done|]. apply IH. rewrite Nat2Z.id.
      eapply Nat.lt_le_trans; [|apply Nat.lt_succ_r, Hf]. eapply left_of_later; [lia|done].
    + destruct (_ <? 0)%Z; [done|]. apply IH. injection Hr as -> ->. rewrite !Nat2Z.id.
      apply lookup_lt_Some in Hc.
      eapply Nat.lt_le_trans; [|apply Nat.lt_succ_r, Hf]. eapply left_of_step; [done|lia].
Qed.

Lemma template_list_returns cl k pos : InTemplateArgumentList cl k pos ≠ Raise Diverges.
Proof. apply in_template_returns. pose proof (left_of_size cl k pos). lia. Qed.

Lemma consume_namespaces_returns fuel linenum line n :
  length line < fuel → consume_namespaces fuel linenum line n ≠ Raise Diverges.
Proof.
  revert line n; induction fuel as [|fuel IH]; intros line n Hf; [lia|]. cbn [consume_namespaces].
  destruct (re_match namespace_re line) as [m|] eqn:Em; [|done].
  apply namespace_match in Em. cbv zeta. destruct (find_nat _ _); apply IH; [|lia].
  rewrite length_drop. lia.
Qed.

Lemma line_at_halts lns i : halts (line_at lns i : lint str).
Proof. unfold line_at. by destruct (py_index lns i). Qed.
Lemma elided_line_halts cl i : halts (elided_line cl i).
Proof. apply line_at_halts. Qed.
#[export] Hint Resolve line_at_halts elided_line_halts : halts.

Section update_halts.
Context (filename : str) (cl : CleansedLines) (error : error_fn).
Hypothesis error_halts : ∀ f n c l msg, halts (error f n c l msg).

Lemma check_last_thing_halts r ls seen : halts (check_last_thing filename cl r ls seen error).
Proof.
  revert seen; induction ls as [|i ls IH]; intros seen; [apply halts_ret|]. cbn [check_last_thing].
  apply halts_seq; [auto with halts|]. intros line. destruct (re_search r line); auto with halts.
Qed.

Lemma CheckEnd_halts b linenum : halts (CheckEnd b filename cl linenum error).
Proof.
  unfold CheckEnd. destruct (kind b) as [| |c|name i]; [apply halts_ret..| |].
  - unfold class_CheckEnd. apply halts_seq.
    { destruct (compile _); [apply check_last_thing_halts|].
      destruct (bool_decide _); [apply halts_ret|by apply halts_raise]. }
    intros _. apply halts_seq; [auto with halts|]. intros line.
    destruct (re_match _ line); auto with halts.
  - unfold namespace_CheckEnd. apply halts_seq; [auto with halts|]. intros line.
    destruct (_ && _); [apply halts_ret|]. destruct (negb (bool_decide _)).
    + destruct (compile _); [auto with halts|by apply halts_raise].
    + destruct (negb _); [|apply halts_ret]. destruct (matched _); auto.
Qed.

Lemma consume_tokens_halts fuel linenum line n :
  length line < fuel → halts (consume_tokens fuel filename cl linenum line n error).
Proof.
  revert line n; induction fuel as [|fuel IH]; intros line n Hf; [lia|]. cbn [consume_tokens].
  destruct (re_match token_re line) as [m|] eqn:Em; [|apply halts_ret].
  apply token_match in Em. cbv zeta. apply halts_seq; [|intros n1; apply IH; lia].
  destruct (str_eqb _ _); [apply halts_ret|]. destruct (_ || _); [apply halts_ret|].
  destruct (top n) as [b|]; [|apply halts_ret].
  apply halts_seq; [apply CheckEnd_halts|intros _; apply halts_ret].
Qed.

Lemma update_halts linenum n : halts (Update filename cl linenum n error).
Proof.
  unfold Update. apply halts_seq; [auto with halts|]. intros line. cbv zeta.
  generalize (UpdatePreprocessor line (set_previous (head (stack n)) n)); clear n; intros n.
  unfold process_line. apply halts_seq.
  { apply halts_lift, consume_namespaces_returns. lia. }
  intros [l1 n1]. apply halts_seq.
  { unfold consume_class. destruct (re_match _ _); [|apply halts_ret].
    destruct (match top n1 with Some _ => _ | None => _ end); [|apply halts_ret].
    apply halts_seq; [apply halts_lift, template_list_returns|].
    intros []; [apply halts_ret|]. apply halts_seq; [|intros b; apply halts_ret].
    unfold _ClassInfo. apply halts_seq; [auto with halts|]. intros raw. apply halts_ret. }
  intros [l2 n2]. apply halts_seq.
  { unfold check_begin, CheckBegin. destruct (top n2) as [b|]; [|apply halts_ret].
    destruct (seen_open_brace b); [apply halts_ret|]. apply halts_seq; [|intros b'; apply halts_ret].
    destruct (kind b); try apply halts_ret.
    apply halts_seq; [auto with halts|]. intros l. apply halts_ret. }
  intros n3. apply halts_seq.
  { unfold update_access. destruct (top n3) as [[[] ? ? ? ?]|]; try apply halts_ret.
    destruct (re_match _ _); [|apply halts_ret].
    apply halts_seq; [auto with halts|]. intros []. apply halts_ret. }
  intros n4. apply consume_tokens_halts. lia.
Qed.
End update_halts.

Lemma wf_init : wf init_nesting.
Proof.
  split; cbn; [|constructor|intros r []%elem_of_nil|done].
  intros r. rewrite lookup_empty. split; [intros [? [=]]|lia].
Qed.

Lemma wf_set_previous n : wf n → wf (set_previous (head (stack n)) n).
Proof.
  intros [Hh Hnd Hr Hp]. split; try done. cbn. intros r Hin. apply Hr, elem_of_app. left.
  destruct (stack n); [done|]. injection Hin as ->. by left.
Qed.

(** In a well-formed state [top] is undefined exactly on the empty stack. *)
Lemma wf_top n : wf n → top n = None ↔ stack n = [].
Proof.
  intros [Hh _ Hr _]. unfold top. destruct (stack n) as [|r s] eqn:E; [done|]. cbn.
  split; [|done]. intros H. assert (is_Some (heap n !! r)) as [b Hb]; [|congruence].
  apply Hh, Hr. by left.
Qed.

(** ** Preprocessor conditionals *)

Inductive directive := DIf | DElse | DEndif | DNone.

Definition directive_of (line : str) : directive :=
  if matched (re_match pp_if_re line) then DIf
  else if matched (re_match pp_else_re line) then DElse
  else if matched (re_match pp_endif_re line) then DEndif
  else DNone.

Definition apply_directive (d : directive) : NestingState → NestingState :=
  match d with DIf => pp_if | DElse => pp_else | DEndif => pp_endif | DNone => id end.

Lemma UpdatePreprocessor_directive line n :
  UpdatePreprocessor line n = apply_directive (directive_of line) n.
Proof.
  unfold UpdatePreprocessor, directive_of.
  destruct (matched (re_match pp_if_re line)); [done|].
  destruct (matched (re_match pp_else_re line)); [done|].
  by destruct (matched (re_match pp_endif_re line)).
Qed.

(** How many conditionals the lines open that they do not close; [None] if they close one
    they did not open, or continue one and [cont] is not set. *)
Fixpoint depth_after (cont : bool) (d : nat) (ds : list directive) : option nat :=
  match ds with
  | [] => Some d
  | DIf :: ds => depth_after cont (S d) ds
  | DElse :: ds => match d with
                   | O => if cont then depth_after cont 0 ds else None
                   | S _ => depth_after cont d ds
                   end
  | DEndif :: ds => match d with O => None | S d => depth_after cont d ds end
  | DNone :: ds => depth_after cont d ds
  end.

(** [Update] on the lines of a file, one after the other. *)
Fixpoint updates (filename : str) (cl : CleansedLines) (ls : list Z) (n : NestingState)
    (error : error_fn) : lint NestingState :=
  match ls with
  | [] => mret n
  | i :: ls => n ← Update filename cl i n error; updates filename cl ls n error
  end.

(** The state [n'] comes from [n] by lines that opened [d] conditionals: what [n] saved is
    still saved, underneath, and its objects have not changed. *)
Record inside (d : nat) (n n' : NestingState) : Prop := {
  inside_wf : wf n';
  inside_pp : ∃ new, length new = d ∧ pp_stack n' = new ++ pp_stack n;
  inside_next : next_ref n ≤ next_ref n';
  inside_heap : ∀ r, r ∈ saved n → heap n' !! r = heap n !! r }.

Lemma inside_refl n : wf n → inside 0 n n.
Proof. intros Hw. split; auto. by exists []. Qed.

Lemma saved_app pps qqs : saved_of (pps ++ qqs) = saved_of pps ++ saved_of qqs.
Proof. unfold saved_of. by rewrite fmap_app, concat_app. Qed.

Lemma inside_saved d n n' r : inside d n n' → r ∈ saved n → r ∈ saved n'.
Proof.
  intros [_ (new&_&E) _ _] Hr. unfold saved. rewrite E, saved_app. apply elem_of_app. by right.
Qed.

Lemma inside_frame d n n1 n2 : inside d n n1 → frame n1 n2 → inside d n n2.
Proof.
  intros Hi [W P N H _]. pose proof (λ r, inside_saved d n n1 r Hi) as Hs.
  destruct Hi as [Hw (new&Hl&E) Hn Hh]. split; [done| |lia|].
  - exists new. split; [done|]. by rewrite P.
  - intros r Hr. rewrite H, Hh by auto. done.
Qed.

(** A saved reference is allocated. *)
Lemma wf_saved n r : wf n → r ∈ saved n → r < next_ref n.
Proof. intros Hw Hr. apply (wf_refs n Hw), elem_of_app. by right. Qed.

(** One directive, at depth [d] of a conditional. With [cont] the innermost conditional
    of the starting state has seen its [#else]. *)
Definition continued (n : NestingState) : Prop :=
  match pp_stack n with [] => True | p :: _ => seen_else p = true end.

Lemma inside_if d n n' : inside d n n' → inside (S d) n (pp_if n').
Proof.
  intros Hi. pose proof Hi as [Hw (new&Hl&E) Hn Hh].
  destruct (wf_pp_if n' Hw) as (s&Hpp&_&_&Hw'&_&Hh'&Hn'). split; [done| |lia|].
  - eexists (_ :: new). split; [cbn; by rewrite Hl|]. by rewrite Hpp, E.
  - intros r Hr. rewrite Hh', Hh; [done|done|]. eapply wf_saved, inside_saved; eauto.
Qed.

Lemma inside_else_nested d n n' : inside (S d) n n' → inside (S d) n (pp_else n').
Proof.
  intros Hi. pose proof Hi as [Hw ([|p new]&Hl&E) Hn Hh]; [done|].
  destruct (wf_pp_else n' p (new ++ pp_stack n) Hw E) as (p'&Hpp&_&_&_&Hw'&_&_&Hh'&Hn').
  split; [done| |lia|].
  - exists (p' :: new). split; [done|]. by rewrite Hpp.
  - intros r Hr. rewrite Hh', Hh; [done|done|]. eapply wf_saved, inside_saved; eauto.
Qed.

Lemma inside_else_cont n n' : continued n → inside 0 n n' → inside 0 n (pp_else n').
Proof.
  intros Hc Hi. pose proof Hi as [Hw (new&Hl&E) Hn Hh]. destruct new; [|done]. cbn in E.
  unfold continued in Hc. destruct (pp_stack n) as [|p pps] eqn:En.
  { unfold pp_else. by rewrite E. }
  destruct (wf_pp_else n' p pps Hw E) as (p'&Hpp&_&_&Hp'&Hw'&_&_&Hh'&Hn').
  split; [done| |lia|].
  - exists []. split; [done|]. by rewrite Hpp, Hp', En.
  - intros r Hr. rewrite Hh', Hh; [done|done|]. eapply wf_saved, inside_saved; eauto.
Qed.

Lemma inside_endif d n n' : inside (S d) n n' → inside d n (pp_endif n').
Proof.
  intros Hi. pose proof Hi as [Hw ([|p new]&Hl&E) Hn Hh]; [done|].
  destruct (wf_pp_endif n' p (new ++ pp_stack n) Hw E) as (Hpp&Hw'&Hh'&Hn'&_).
  split; [done| |lia|].
  - exists new. split; [by injection Hl|done].
  - intros r Hr. rewrite Hh'. by apply Hh.
Qed.

Lemma inside_directive cont d d' ds dir n n' :
  (cont = true → continued n) → inside d n n' → depth_after cont d (dir :: ds) = Some d' →
  ∃ d1, inside d1 n (apply_directive dir n') ∧ depth_after cont d1 ds = Some d'.
Proof.
  intros Hc Hi. destruct dir; cbn [depth_after apply_directive].
  - eauto using inside_if.
  - destruct d as [|d]; [|eauto using inside_else_nested].
    destruct cont; [|done]. eauto using inside_else_cont.
  - destruct d; [done|]. eauto using inside_endif.
  - eauto.
Qed.

(** The directive on a line of the file. *)
Definition directive_at (cl : CleansedLines) (i : Z) : directive :=
  match py_index (elided cl) i with Some line => directive_of line | None => DNone end.

Lemma inside_set_previous d n n' :
  inside d n n' → inside d n (set_previous (head (stack n')) n').
Proof. intros [Hw Hp Hn Hh]. split; try done. by apply wf_set_previous. Qed.

(** [Update]: the directive of the line, then steps that keep the frame. *)
Lemma update_steps filename cl i n error :
  returns (λ n', ∃ line, py_index (elided cl) i = Some line ∧
             (wf (UpdatePreprocessor line (set_previous (head (stack n)) n)) →
              frame (UpdatePreprocessor line (set_previous (head (stack n)) n)) n'))
    (Update filename cl i n error).
Proof.
  unfold Update, elided_line. destruct (py_index (elided cl) i) as [line|]; [|by intros ? ? ?].
  intros w n' w' E. exists line. split; [done|]. intros Hw. rewrite M_bind_ret in E.
  exact (frame_process_line filename cl i line _ error Hw w n' w' E).
Qed.

Lemma inside_updates cont filename cl error n ls : 
  (cont = true → continued n) → ∀ d d' n',
  inside d n n' → depth_after cont d (directive_at cl <$> ls) = Some d' →
  returns (inside d' n) (updates filename cl ls n' error).
Proof.
  intros Hc. induction ls as [|i ls IH]; intros d d' n' Hi Hd; cbn [updates].
  { injection Hd as <-. by apply returns_ret. }
  eapply returns_bind; [apply update_steps|]. intros n1 (line&El&Hf).
  rewrite UpdatePreprocessor_directive in Hf.
  apply inside_set_previous in Hi. cbn [fmap list_fmap] in Hd.
  destruct (inside_directive _ _ _ _ _ _ _ Hc Hi Hd) as (d1&Hi1&Hd1).
  unfold directive_at in Hi1. rewrite El in Hi1.
  eapply IH; [|exact Hd1]. eapply inside_frame; [exact Hi1|]. apply Hf, Hi1.
Qed.

Lemma updates_cons filename cl i ls n error w n' w' :
  updates filename cl (i :: ls) n error w = (Ok n', w') →
  ∃ n1 w1, Update filename cl i n error w = (Ok n1, w1) ∧
    updates filename cl ls n1 error w1 = (Ok n', w').
Proof.
  cbn [updates]. unfold mbind, M_bind. destruct (Update _ _ _ _ _ _) as [[n1|e] w1]; [|done].
  eauto.
Qed.

(** Saved objects do not change. *)
Lemma blocks_eq n n' s t :
  (∀ r, r ∈ saved n → heap n' !! r = heap n !! r) → s ⊆ saved n → blocks n s = t → blocks n' s = t.
Proof.
  intros Hh Hs <-. apply list_fmap_ext. intros i r Hi. apply Hh, Hs. by eapply list_elem_of_lookup_2.
Qed.

Lemma saved_top n p pps :
  pp_stack n = p :: pps → stack_before_if p ⊆ saved n ∧ stack_before_else p ⊆ saved n.
Proof.
  intros E. unfold saved, saved_of. rewrite E. cbn.
  split; intros r Hr; rewrite !elem_of_app; tauto.
Qed.

(** A line with directive [dir] and lines that open nothing they do not close. *)
Lemma segment filename cl error i line ls cont n w n' w' :
  wf n → py_index (elided cl) i = Some line →
  updates filename cl (i :: ls) n error w = (Ok n', w') →
  depth_after cont 0 (directive_at cl <$> ls) = Some 0 →
  let n1 := apply_directive (directive_of line) (set_previous (head (stack n)) n) in
  wf n1 → (cont = true → continued n1) →
  wf n' ∧ pp_stack n' = pp_stack n1 ∧ ∀ r, r ∈ saved n1 → heap n' !! r = heap n1 !! r.
Proof.
  intros Hw El Hrun Hd n1 Hw1 Hc. apply updates_cons in Hrun as (n2&w2&HU&Hrun).
  apply update_steps in HU as (line'&El'&Hf).
  rewrite El in El'. injection El' as <-. rewrite UpdatePreprocessor_directive in Hf.
  specialize (Hf Hw1). fold n1 in Hf. pose proof Hf as [W2 P2 _ H2 _].
  assert (Hc2 : cont = true → continued n2) by (unfold continued; by rewrite P2).
  destruct (inside_updates cont filename cl error n2 ls Hc2 0 0 n2 (inside_refl _ W2) Hd _ _ _ Hrun)
    as [W3 ([|]&Hl&P3) _ H3]; [|done].
  split_and!; [done|by rewrite P3|]. intros r Hr. rewrite H3; [by apply H2|].
  unfold saved. by rewrite P2.
Qed.

(** C18: Preprocessor conditionals. Between [#if] and the first [#else] or [#elif], and from
    there to the [#endif], let the lines close every conditional they open (nested ones may
    have [#else]s of their own, and the second part further [#elif]s). Then the first
    [#else] goes back to the blocks that were open before the [#if], whatever the lines
    between have opened and closed; the [#endif] goes on with the blocks that were open
    before that [#else]; and the stack of conditionals is the one before the [#if]. *)
Theorem conditional_restores filename cl error n0 i li A j lj B k lk w0 n2 w2 n4 w4 :
  wf n0 →
  py_index (elided cl) i = Some li → directive_of li = DIf →
  depth_after false 0 (directive_at cl <$> A) = Some 0 →
  py_index (elided cl) j = Some lj → directive_of lj = DElse →
  depth_after true 0 (directive_at cl <$> B) = Some 0 →
  py_index (elided cl) k = Some lk → directive_of lk = DEndif →
  updates filename cl (i :: A) n0 error w0 = (Ok n2, w2) →
  updates filename cl (j :: B) n2 error w2 = (Ok n4, w4) →
  let n3 := UpdatePreprocessor lj n2 in
  let n5 := UpdatePreprocessor lk n4 in
  blocks n3 (stack n3) = blocks n0 (stack n0) ∧
  blocks n5 (stack n5) = blocks n2 (stack n2) ∧
  pp_stack n5 = pp_stack n0 ∧ wf n3 ∧ wf n5.
Proof.
  intros Hw0 Eli Di DA Elj Dj DB Elk Dk R1 R2. cbv zeta.
  rewrite !UpdatePreprocessor_directive, Dj, Dk. cbn [apply_directive].
  apply wf_set_previous in Hw0 as Hw0'.
  destruct (wf_pp_if _ Hw0') as (s&P1&_&_&W1&B1&_&_).
  pose proof (segment _ _ _ _ _ _ _ _ _ _ _ Hw0 Eli R1 DA) as HA.
  rewrite Di in HA. destruct (HA W1) as (W2&P2&H2); [done|]. clear HA.
  cbn [apply_directive] in *. rewrite P1 in P2.
  assert (B2 : blocks n2 s = blocks n0 (stack n0)).
  { eapply blocks_eq; [exact H2| |exact B1]. by apply saved_top in P1 as [? _]. }
  destruct (wf_pp_else _ _ _ W2 P2) as (_&_&_&_&_&W3&B3&_&_&_).
  apply wf_set_previous in W2 as W2'.
  destruct (wf_pp_else _ _ _ W2' P2) as (p'&P4&_&Hp'&_&W4&_&B4&_&_).
  pose proof (segment _ _ _ _ _ _ _ _ _ _ _ W2 Elj R2 DB) as HB.
  rewrite Dj in HB. destruct (HB W4) as (W5&P5&H5).
  { intros _. unfold continued. cbn [apply_directive]. by rewrite P4. }
  clear HB. cbn [apply_directive] in *. rewrite P4 in P5.
  destruct (wf_pp_endif _ _ _ W5 P5) as (P6&W6&H6&_&S6). rewrite Hp' in S6.
  split_and!; [by rewrite B3|..|done|done].
  - rewrite S6. unfold blocks at 1. rewrite H6.
    eapply blocks_eq; [exact H5| |exact B4]. by apply saved_top in P4 as [_ ?].
  - by rewrite P6.
Qed.

(** The [#else] branch starts from the namespace, as the [#if] branch did, and the text
    behind the [#endif] from the state the first branch ended in. *)
Definition conditional_file : CleansedLines :=
  file_of ["namespace a {"; "#ifdef X"; "class F {"; "#else"; "class G {"; "#endif"; "};"; "}"].
Definition ignore_error : error_fn := λ _ _ _ _ _, mret ().
Definition nesting_at (ls : list Z) (n : NestingState) : NestingState :=
  match (updates (py "f.cc") conditional_file ls n ignore_error initial_world).1 with
  | Ok n' => n'
  | Raise _ => n
  end.

Lemma wf_update filename cl i n error : wf n → returns wf (Update filename cl i n error).
Proof.
  intros Hw w n' w' HU. apply update_steps in HU as (line&_&Hf). apply Hf. clear Hf.
  rewrite UpdatePreprocessor_directive. apply wf_set_previous in Hw.
  generalize dependent (set_previous (head (stack n)) n). intros n0 Hw.
  destruct (directive_of line); cbn [apply_directive].
  - by destruct (wf_pp_if n0 Hw) as (?&_&_&_&?&_).
  - destruct (pp_stack n0) eqn:E; [unfold pp_else; by rewrite E|].
    by destruct (wf_pp_else _ _ _ Hw E) as (?&_&_&_&_&?&_).
  - destruct (pp_stack n0) eqn:E; [unfold pp_endif; by rewrite E|].
    by destruct (wf_pp_endif _ _ _ Hw E) as (_&?&_).
  - done.
Qed.

Lemma wf_run ls n n' w w' filename cl error :
  wf n → updates filename cl ls n error w = (Ok n', w') → wf n'.
Proof.
  intros Hw. revert n w Hw; induction ls as [|i ls IH]; intros n w Hw; [by intros [= <- _]|].
  intros (n1&w1&HU&Hrun)%updates_cons. eapply IH; [|exact Hrun]. by eapply wf_update.
Qed.

(** C17: [Update] always returns, with a value or a Python exception - none of its loops runs
    forever, on any line of any file - if the error callback does; and when it returns a
    value, the state is well formed if it was: every reference on the stack, on the saved
    stacks and in [previous_stack_top] is to an existing object, and no object is on two
    stacks, so that a block changed in place is seen in one place only. *)
Theorem update_safe filename cl linenum n error :
  (∀ f i c l msg, halts (error f i c l msg)) → wf n →
  halts (Update filename cl linenum n error) ∧
  returns (λ n', wf n' ∧ (top n' = None ↔ stack n' = [])) (Update filename cl linenum n error).
Proof.
  intros He Hw. split; [by apply update_halts|]. intros w n' w' HU.
  assert (wf n') by (by eapply wf_update). split; [done|by apply wf_top].
Qed.

Lemma update_safe_witness :
  halts (Update (py "f.cc") conditional_file 0%Z init_nesting ignore_error) ∧
  returns (λ n', wf n' ∧ (top n' = None ↔ stack n' = []))
    (Update (py "f.cc") conditional_file 0%Z init_nesting ignore_error).
Proof.
  apply (update_safe (py "f.cc") conditional_file 0%Z init_nesting ignore_error).
  - intros f i c l msg w. discriminate.
  - apply wf_init.
Defined.

(** The blocks of the stack from the outermost in, by what [CheckCompletedBlocks] and the
    [In...] tests see of them. *)
Definition kinds_at (cl : CleansedLines) (ls : list Z) : list (option block_kind) :=
  match (updates (py "f.cc") cl ls init_nesting ignore_error initial_world).1 with
  | Ok n => reverse ((λ r, kind <$> heap n !! r) <$> stack n)
  | Raise _ => []
  end.

Example nested_kinds :
  kinds_at (file_of ["namespace a { namespace b {"; "extern \x22C\x22 {"; "void f() {"]) [0; 1; 2]%Z
  = [Some (NamespaceInfo (py "a") 0); Some (NamespaceInfo (py "b") 0); Some ExternCInfo;
     Some BlockInfo].
Proof. vm_compute. reflexivity. Qed.

Lemma conditional_restores_witness :
  let n0 := nesting_at [0%Z] init_nesting in
  let n2 := nesting_at [1; 2]%Z n0 in
  let n4 := nesting_at [3; 4]%Z n2 in
  let n3 := UpdatePreprocessor (py "#else") n2 in
  let n5 := UpdatePreprocessor (py "#endif") n4 in
  blocks n3 (stack n3) = blocks n0 (stack n0) ∧
  blocks n5 (stack n5) = blocks n2 (stack n2) ∧
  pp_stack n5 = pp_stack n0 ∧ wf n3 ∧ wf n5.
Proof.
  apply (conditional_restores (py "f.cc") conditional_file ignore_error (nesting_at [0%Z] init_nesting)
    1 (py "#ifdef X") [2%Z] 3 (py "#else") [4%Z] 5 (py "#endif")
    initial_world (nesting_at [1; 2]%Z (nesting_at [0%Z] init_nesting)) initial_world
    (nesting_at [3; 4]%Z (nesting_at [1; 2]%Z (nesting_at [0%Z] init_nesting))) initial_world).
  - apply (wf_run [0%Z] init_nesting _ initial_world initial_world (py "f.cc") conditional_file
      ignore_error); [apply wf_init|vm_compute; reflexivity].
  - reflexivity.
  - vm_compute. reflexivity.
  - vm_compute. reflexivity.
  - reflexivity.
  - vm_compute. reflexivity.
  - vm_compute. reflexivity.
  - reflexivity.
  - vm_compute. reflexivity.
  - vm_compute. reflexivity.
  - vm_compute. reflexivity.
Defined.

(** ** The braces of a line *)

Definition brace_token (c : char) : bool :=
  ((c =? 123) || (c =? 59) || (c =? 41) || (c =? 125))%N.

Lemma token_set_ok neg c :
  set_ok noflags neg [IChar 123; IChar 59; IChar 41; IChar 125] c = xorb neg (brace_token c).
Proof. unfold set_ok, in_set, brace_token. cbn. by rewrite !orb_false_r, !orb_assoc. Qed.

(** The line up to its first token. *)
Lemma first_token line :
  Forall (λ c, brace_token c = false) line ∨
  ∃ h t tl, line = h ++ t :: tl ∧ Forall (λ c, brace_token c = false) h ∧ brace_token t = true.
Proof.
  induction line as [|c line IH]; [by left; constructor|]. destruct (brace_token c) eqn:E.
  - right. by exists [], c, line.
  - destruct IH as [IH|(h&t&tl&->&Hh&Ht)]; [left; by constructor|right].
    exists (c :: h), t, tl. split_and!; [done|by constructor|done].
Qed.

Lemma first_token_unique h t tl h' t' tl' :
  h ++ t :: tl = h' ++ t' :: tl' →
  Forall (λ c, brace_token c = false) h → Forall (λ c, brace_token c = false) h' →
  brace_token t = true → brace_token t' = true → h = h' ∧ t = t' ∧ tl = tl'.
Proof.
  revert h'; induction h as [|a h IH]; intros [|b h'] E Hh Hh' Ht Ht'; cbn in E;
    injection E as Ea E.
  - by subst.
  - apply Forall_cons in Hh' as [? _]. congruence.
  - apply Forall_cons in Hh as [? _]. congruence.
  - apply Forall_cons in Hh as [_ Hh]. apply Forall_cons in Hh' as [_ Hh'].
    destruct (IH h' E Hh Hh' Ht Ht') as (->&->&->). by subst.
Qed.

Lemma token_match_inv line m :
  (10%N ∉ line) → re_match token_re line = Some m →
  ∃ h t tl, line = h ++ t :: tl ∧ Forall (λ c, brace_token c = false) h ∧ brace_token t = true ∧
    group_ m 1 = [t] ∧ group_ m 2 = tl.
Proof.
  intros Hnl H. destruct (re_match_parts _ _ _ _ token_re_parts eq_refl H) as (ws&c'&Hs&Hd&Hg).
  unfold token_parts in Hd. read_parts Hd.
  assert (w = []) as -> by (destruct Hd0 as [_ ->]; by eapply read_stay).
  assert (w3 = []) as -> by (destruct Hd4 as [_ ->]; by eapply read_stay).
  destruct (den_set_read _ _ _ _ _ _ Hd2 Hr1) as (t&->&Ht). rewrite token_set_ok in Ht.
  pose proof (den_star_set_read _ _ _ _ _ _ _ Hd1 Hr0) as Hh.
  assert (Hend : c_rest c' = []).
  { destruct Hd4 as [Heol ->]. subst c'. unfold at_eol in Heol. cbn in Heol.
    destruct (c_rest _) as [|a [|b u]] eqn:Er; [done| |done]. apply N.eqb_eq in Heol as ->.
    destruct Hnl. rewrite Hs. apply elem_of_app. right. by left. }
  clear Hd0 Hd1 Hd2 Hd3 Hd4. rewrite Hend, app_nil_r in Hs. cbn [concat app] in Hs.
  rewrite app_nil_r in Hs. exists w0, t, w2. split_and!; [done| |by destruct (brace_token t)| |].
  - eapply Forall_impl; [exact Hh|]. intros a Ha. cbv beta in Ha. rewrite token_set_ok in Ha.
    by destruct (brace_token a).
  - unfold group_. by rewrite (Hg 2 _ _ _ eq_refl eq_refl).
  - unfold group_. by rewrite (Hg 3 _ _ _ eq_refl eq_refl).
Qed.

Lemma iter_set neg l w t c :
  Forall (λ b, set_ok noflags neg l b = true) w → c_rest c = w ++ t →
  iter (den noflags (RSet neg l)) c (adv w c).
Proof.
  intros Hw; revert c; induction Hw as [|a w Ha _ IH]; intros c E; [rewrite adv_nil; constructor|].
  eapply iter_step.
  - exists a, (w ++ t). split_and!; done.
  - rewrite (adv_cons _ _ _ (w ++ t)) by done. by apply IH.
Qed.

Lemma token_spec h t tl :
  (10%N ∉ h ++ t :: tl) → Forall (λ c, brace_token c = false) h → brace_token t = true →
  ∃ m, re_match token_re (h ++ t :: tl) = Some m ∧ group_ m 1 = [t] ∧ group_ m 2 = tl.
Proof.
  intros Hnl Hh Ht. assert (Hm : is_Some (re_match token_re (h ++ t :: tl))).
  { apply matched_iff; [vm_compute; reflexivity|]. rewrite token_re_parts.
    set (c0 := start_cur (h ++ t :: tl)).
    exists (adv tl (adv [t] (adv h c0))).
    assert (E1 : c_rest (adv h c0) = t :: tl) by by apply adv_rest.
    assert (E2 : c_rest (adv [t] (adv h c0)) = tl) by by apply adv_rest.
    exists c0. split; [done|]. exists (adv h c0). split.
    { eapply (iter_set true _ h (t :: tl)); [|done]. eapply Forall_impl; [exact Hh|].
      intros a Ha. cbv beta. by rewrite token_set_ok, Ha. }
    exists (adv [t] (adv h c0)). split.
    { exists t, tl. split_and!; [done|by rewrite token_set_ok, Ht|].
      symmetry. by apply step_cur_adv. }
    exists (adv tl (adv [t] (adv h c0))). split.
    { apply (iter_any tl []); [|by rewrite app_nil_r].
      intros Hin. apply Hnl, elem_of_app. right. by right. }
    split; [|done]. unfold at_eol. rewrite (adv_rest tl []) by (by rewrite app_nil_r). done. }
  destruct Hm as [m Hm]. exists m. split; [done|].
  apply token_match_inv in Hm as (h'&t'&tl'&E&Hh'&Ht'&->&->); [|done].
  destruct (first_token_unique _ _ _ _ _ _ E Hh Hh' Ht Ht') as (->&->&->). done.
Qed.

Lemma token_none line :
  (10%N ∉ line) → Forall (λ c, brace_token c = false) line → re_match token_re line = None.
Proof.
  intros Hnl Hl. destruct (re_match token_re line) as [m|] eqn:Hm; [|done].
  apply token_match_inv in Hm as (h&t&tl&->&_&Ht&_&_); [|done].
  apply Forall_app in Hl as [_ Hl]. apply Forall_cons in Hl as [Hl _]. congruence.
Qed.

(** The nesting depth behind a text; [None] if it closes a brace it has not opened. *)
Fixpoint brace_run (d : nat) (text : str) : option nat :=
  match text with
  | [] => Some d
  | c :: text =>
      if (c =? 123)%N then brace_run (S d) text
      else if (c =? 125)%N then match d with O => None | S d => brace_run d text end
      else brace_run d text
  end.

Lemma brace_run_skip d h text :
  Forall (λ c, brace_token c = false) h → brace_run d (h ++ text) = brace_run d text.
Proof.
  induction 1 as [|c h Hc _ IH]; [done|]. cbn. unfold brace_token in Hc.
  apply orb_false_iff in Hc as [Hc H4]. apply orb_false_iff in Hc as [Hc _].
  apply orb_false_iff in Hc as [H1 _]. by rewrite H1, H4.
Qed.

Definition plain_block (b : block) : Prop :=
  seen_open_brace b = true ∧ (kind b = BlockInfo ∨ kind b = ExternCInfo).

(** On top of [base], whose innermost block has seen its brace, only plain blocks. *)
Record above (base new : list nat) (n : NestingState) : Prop := {
  above_wf : wf n;
  above_stack : stack n = new ++ base;
  above_new : ∀ r, r ∈ new → ∃ b, heap n !! r = Some b ∧ plain_block b;
  above_base : ∀ r b, head base = Some r → heap n !! r = Some b → seen_open_brace b = true }.

Lemma above_seen base new n b : above base new n → top n = Some b → seen_open_brace b = true.
Proof.
  intros [_ Hs Hn Hb]. unfold top. rewrite Hs. destruct new as [|r new]; cbn.
  - destruct base as [|r base]; [done|]. cbn. by apply Hb.
  - destruct (Hn r) as (b'&->&[Hb' _]); [by left|]. by intros [= <-].
Qed.

Lemma above_SeenOpenBrace base new n : above base new n → SeenOpenBrace n = true.
Proof.
  intros H. unfold SeenOpenBrace. destruct (top n) as [b|] eqn:E; [|done]. by eapply above_seen.
Qed.

Lemma above_push base new n b :
  above base new n → plain_block b → above base (next_ref n :: new) (push b n).
Proof.
  intros [Hw Hs Hn Hb] Hp. split; cbn.
  - by apply wf_push.
  - by rewrite Hs.
  - intros r [->|Hr]%elem_of_cons; [rewrite lookup_insert_eq; eauto|].
    rewrite lookup_insert_ne; [by apply Hn|].
    assert (r < next_ref n); [|lia]. apply (wf_refs n Hw). rewrite Hs, !elem_of_app. auto.
  - intros r b' Hr. rewrite lookup_insert_ne; [by apply Hb|].
    assert (r < next_ref n); [|lia]. apply (wf_refs n Hw). rewrite Hs, !elem_of_app.
    left. right. destruct base; [done|]. injection Hr as ->. by left.
Qed.

Lemma above_pop base r new n : above base (r :: new) n → above base new (pop n).
Proof.
  intros [Hw Hs Hn Hb]. split; cbn; [by apply wf_pop|by rewrite Hs| |done].
  intros r' Hr. apply Hn. by right.
Qed.

Lemma above_open_brace base new n line :
  above base new n →
  ∃ b, plain_block b ∧ open_brace line n = push b n.
Proof.
  intros Ha. unfold open_brace.
  assert (Hp : plain_block _ExternCInfo ∧ ∀ a, plain_block (Block BlockInfo true 0 a false)).
  { split; [|intros a]; (split; [done|auto]). }
  destruct Hp as [Hp1 Hp2].
  destruct (top n) as [[k [] ps asm ns]|] eqn:E;
    [|by apply (above_seen _ _ _ _ Ha) in E|];
    (destruct (matched (re_match extern_re line)); [by eexists|]);
    (eexists; split; [|done]); destruct (matched _); apply Hp2.
Qed.

Lemma brace_cases t :
  brace_token t = true → t = 123%N ∨ (t = 59%N ∨ t = 41%N) ∨ t = 125%N.
Proof. unfold brace_token. rewrite !orb_true_iff, !N.eqb_eq. tauto. Qed.

Lemma consume_tokens_above fuel filename cl linenum error base : ∀ line new n d w,
  length line < fuel → (10%N ∉ line) → above base new n →
  brace_run (length new) line = Some d →
  ∃ new' n', consume_tokens fuel filename cl linenum line n error w = (Ok n', w) ∧
    length new' = d ∧ above base new' n' ∧ next_ref n ≤ next_ref n' ∧
    ∀ r, r < next_ref n → heap n' !! r = heap n !! r.
Proof.
  induction fuel as [|fuel IH]; intros line new n d w Hf Hnl Ha Hd; [lia|].
  cbn [consume_tokens]. destruct (first_token line) as [Hno|(h&t&tl&->&Hh&Ht)].
  { rewrite token_none by done. exists new, n.
    rewrite <- (app_nil_r line), brace_run_skip in Hd by done. injection Hd as <-. done. }
  destruct (token_spec h t tl Hnl Hh Ht) as (m&->&->&->). cbv zeta.
  rewrite brace_run_skip in Hd by done. cbn [brace_run] in Hd.
  rewrite length_app in Hf. cbn [length] in Hf.
  assert (Hnl' : 10%N ∉ tl) by (intros ?; apply Hnl, elem_of_app; right; by right).
  apply brace_cases in Ht as [->|[Ht| ->]].
  - change (str_eqb [123%N] (py "{")) with true. cbn [N.eqb Pos.eqb] in Hd. cbv iota.
    rewrite M_bind_ret. destruct (above_open_brace _ _ _ (h ++ 123%N :: tl) Ha) as (b&Hb&->).
    destruct (IH tl _ _ d w ltac:(lia) Hnl' (above_push _ _ _ _ Ha Hb) Hd)
      as (new'&n'&E&Hl&Ha'&Hn&Hh'). exists new', n'. rewrite E. cbn in Hn.
    split_and!; [done|done|done|lia|]. intros r Hr. rewrite Hh' by (cbn; lia). cbn.
    rewrite lookup_insert_ne; [done|lia].
  - replace (str_eqb [t] (py "{")) with false by (by destruct Ht as [->| ->]).
    replace (str_eqb [t] (py ";") || str_eqb [t] (py ")")) with true
      by (by destruct Ht as [->| ->]).
    rewrite (above_SeenOpenBrace _ _ _ Ha). rewrite M_bind_ret.
    apply (IH tl new n d w); [lia|done|done|]. by destruct Ht as [->| ->].
  - change (str_eqb [125%N] (py "{")) with false.
    change (str_eqb [125%N] (py ";") || str_eqb [125%N] (py ")")) with false.
    cbn [N.eqb Pos.eqb] in Hd. destruct new as [|r new]; [done|]. cbn [length] in Hd.
    pose proof Ha as [Hw Hs Hn _]. destruct (Hn r) as (b&Hb&Hpl); [by left|].
    assert (Htop : top n = Some b) by (unfold top; by rewrite Hs).
    rewrite Htop. unfold CheckEnd.
    destruct (IH tl new (pop n) d w ltac:(lia) Hnl' (above_pop _ _ _ _ Ha) Hd)
      as (new'&n'&E&Hl&Ha'&Hnx&Hh').
    exists new', n'. split; [|done].
    destruct Hpl as [_ [->| ->]]; rewrite M_bind_assoc, !M_bind_ret; exact E.
Qed.

Lemma count_parens_above n line :
  wf n → (∀ b, top n = Some b → seen_open_brace b = true) →
  above (stack n) [] (count_parens line n) ∧ stack (count_parens line n) = stack n ∧
  (∀ b, top (count_parens line n) = Some b → ∃ b0, top n = Some b0 ∧ b = update_parens line b0) ∧
  (∀ r, kind <$> heap (count_parens line n) !! r = kind <$> heap n !! r) ∧
  next_ref (count_parens line n) = next_ref n.
Proof.
  intros Hw Hseen. pose proof (frame_wf _ _ (frame_count_parens line n Hw)) as Hw'.
  unfold count_parens in *. destruct (top n) as [b|] eqn:Et.
  2: { apply (wf_top n Hw) in Et as Es. split_and!; try done.
       - split; [done|done|by intros ? ?%elem_of_nil|]. intros r b. by rewrite Es.
       - congruence. }
  unfold top in Et. unfold set_top in *. destruct (stack n) as [|r s] eqn:Es; [done|].
  cbn in Et. cbn [set_block stack heap next_ref]. split_and!; try done.
  - split; [done|done|by intros ? ?%elem_of_nil|]. intros r' b' [= <-]. cbn.
    rewrite lookup_insert_eq. intros [= <-]. cbn. by apply Hseen.
  - intros b'. unfold top. cbn. rewrite Es. cbn. rewrite lookup_insert_eq. intros [= <-]. eauto.
  - intros r'. destruct (decide (r' = r)) as [->|Hne].
    + by rewrite lookup_insert_eq, Et.
    + by rewrite lookup_insert_ne.
Qed.


