(* ===== verification/LintModules.v ===== *)
(** * cpplint.py: include lines, modules and missing includes

    How a header is classified and checked, which files make up a module, and which
    standard headers a file needs. File contents belong to the environment. *)

From S2P Require Import Prelude PyStr PyRe PyReFacts PyPath LintData LintState LintLines LintInclude.

Definition _RE_FIRST_COMPONENT : regex := rx "^[^-_.]+".

(** ** Names of files *)
Fixpoint drop_suffix (suffixes : list str) (filename : str) : option str :=
  match suffixes with
  | [] => None
  | suffix :: suffixes =>
      if ends_with suffix filename && (length suffix <? length filename)%nat
         && match py_index filename (- Z.of_nat (length suffix) - 1) with
            | Some c => bool_decide (c = 45%N ∨ c = 95%N)
            | None => false
            end
      then Some (slice_to filename (- Z.of_nat (length suffix) - 1))
      else drop_suffix suffixes filename
  end.

Definition common_suffixes : list str :=
  [py "test.cc"; py "regtest.cc"; py "unittest.cc"; py "inl.h"; py "impl.h"; py "internal.h"].

Definition _DropCommonSuffixes (filename : str) : str :=
  default (splitext filename).1 (drop_suffix common_suffixes filename).

Definition _IsTestFilename (filename : str) : bool :=
  ends_with (py "_test.cc") filename || ends_with (py "_unittest.cc") filename
  || ends_with (py "_regtest.cc") filename.

Definition FilesBelongToSameModule (filename_cc filename_h : str) : bool * str :=
  if negb (ends_with (py ".cc") filename_cc) then (false, []) else
  let filename_cc := slice_to filename_cc (- 3) in
  let filename_cc :=
    if ends_with (py "_unittest") filename_cc then slice_to filename_cc (- 9)
    else if ends_with (py "_test") filename_cc then slice_to filename_cc (- 5)
    else filename_cc in
  let filename_cc := replace (py "/public/") (py "/") filename_cc in
  let filename_cc := replace (py "/internal/") (py "/") filename_cc in
  if negb (ends_with (py ".h") filename_h) then (false, []) else
  let filename_h := slice_to filename_h (- 2) in
  let filename_h :=
    if ends_with (py "-inl") filename_h then slice_to filename_h (- 4) else filename_h in
  let filename_h := replace (py "/public/") (py "/") filename_h in
  let filename_h := replace (py "/internal/") (py "/") filename_h in
  let files_belong_to_same_module := ends_with filename_h filename_cc in
  (files_belong_to_same_module,
   if files_belong_to_same_module then slice_to filename_cc (- Z.of_nat (length filename_h)) else []).

(** ** Text between brackets *)
Definition matching_punctuation (c : char) : option char :=
  if (c =? 40)%N then Some 41%N        (* ( ) *)
  else if (c =? 123)%N then Some 125%N (* { } *)
  else if (c =? 91)%N then Some 93%N   (* [ ] *)
  else None.
Definition closing_punctuation (c : char) : bool :=
  bool_decide (c = 41%N ∨ c = 125%N ∨ c = 93%N).

(** The [while] loop: the position where the stack is empty, or [None]. The top of the
    source's stack is the head of ours. *)
Fixpoint punctuation_loop (stack : list char) (rest : str) (position : nat) : option nat :=
  match stack with
  | [] => Some position
  | top :: below =>
      match rest with
      | [] => None
      | c :: rest =>
          if (c =? top)%N then punctuation_loop below rest (S position)
          else if closing_punctuation c then None
          else match matching_punctuation c with
               | Some close => punctuation_loop (close :: stack) rest (S position)
               | None => punctuation_loop stack rest (S position)
               end
      end
  end.

(** [fl]: the flags, with those at the start of the pattern. *)
Definition text_inside (fl : flags) (text : str) (start_pattern : regex)
    : res pyexn (option str) :=
  match re_search_fl fl start_pattern text with
  | None => Ok None
  | Some m =>
      let start_position := mo_end m in
      if (start_position =? 0)%nat then Raise AssertionError else
      match text !! (start_position - 1) with
      | Some c =>
          match matching_punctuation c with
          | Some close =>
              Ok (position ← punctuation_loop [close] (drop start_position text) start_position;
                  Some (take (position - 1 - start_position) (drop start_position text)))
          | None => Raise AssertionError
          end
      | None => Raise IndexError
      end
  end.

Definition _GetTextInside : str → regex → res pyexn (option str) := text_inside MULTILINE.

(** ** Include lines *)
Section filesystem.
(** The working directory and the paths that exist. *)
Context (cwd : str) (exists_ : str → bool).

(** [x in s] *)
Definition is_in (x : str) (s : gset str) : bool := bool_decide (x ∈ s).

(** [filename]: the one of [fileinfo]. *)
Definition _ClassifyInclude (filename include : str) (is_system : bool) : res pyexn Z :=
  let is_cpp_h := is_in include _CPP_HEADERS in
  if is_system then Ok (if is_cpp_h then _CPP_SYS_HEADER else _C_SYS_HEADER) else
  repository_name ← FileInfo.RepositoryName cwd exists_ filename;
  let '(target_dir, target_base) := path_split (_DropCommonSuffixes repository_name) in
  let '(include_dir, include_base) := path_split (_DropCommonSuffixes include) in
  if str_eqb target_base include_base
     && (str_eqb include_dir target_dir
         || str_eqb include_dir (normpath (target_dir ++ py "/../public")))
  then Ok _LIKELY_MY_HEADER
  else match re_match _RE_FIRST_COMPONENT target_base, re_match _RE_FIRST_COMPONENT include_base with
       | Some target_first_component, Some include_first_component =>
           Ok (if str_eqb (group_ target_first_component 0) (group_ include_first_component 0)
               then _POSSIBLE_MY_HEADER else _OTHER_HEADER)
       | _, _ => Ok _OTHER_HEADER
       end.

(** [include_list[-1].append(...)] *)
Definition append_include (include : str) (linenum : Z) (s : IncludeState.t)
    : res pyexn IncludeState.t :=
  match last (IncludeState.include_list s) with
  | Some section =>
      Ok (IncludeState.make
            (take (length (IncludeState.include_list s) - 1) (IncludeState.include_list s)
             ++ [section ++ [(include, linenum)]])
            (IncludeState._section s) (IncludeState._last_header s))
  | None => Raise IndexError
  end.

(** The branch for a header that is new and ours. *)
Definition check_new_include (filename : str) (clean_lines : CleansedLines) (linenum : Z)
    (include : str) (is_system : bool) (include_state : IncludeState.t) (error : error_fn)
    : lint IncludeState.t :=
  include_state ← liftM (append_include include linenum include_state);
  header_type ← liftM (_ClassifyInclude filename include is_system);
  '(error_message, include_state) ←
    liftM (IncludeState.CheckNextIncludeOrder header_type include_state);
  base_name ← (match error_message with
               | [] => mret []
               | _ => liftM (FileInfo.BaseName cwd exists_ filename)
               end);
  (match error_message with
   | [] => mret ()
   | _ => error filename linenum (py "build/include_order") 4%Z
            (error_message ++ py ". Should be: " ++ base_name ++ py ".h, c system, c++ system, other.")
   end) ;;
  let canonical_include := IncludeState.CanonicalizeAlphabeticalOrder include in
  sorted ← liftM (IncludeState.IsInAlphabeticalOrder clean_lines linenum canonical_include include_state);
  whenM (negb sorted) (error filename linenum (py "build/include_alpha") 4%Z
    (py "Include \x22" ++ include ++ py "\x22 not in alphabetical order")) ;;
  mret (IncludeState.SetLastHeader canonical_include include_state).

Definition include_h_re : regex := pyrx "#include\\s*\x22([^/]+\\.h)\x22".

(** The new state of [include_state]. *)
Definition CheckIncludeLine (filename : str) (clean_lines : CleansedLines) (linenum : Z)
    (include_state : IncludeState.t) (error : error_fn) : lint IncludeState.t :=
  line ← (match py_index (lines clean_lines) linenum with
          | Some line => mret line
          | None => raiseM IndexError
          end);
  whenM (match re_match include_h_re line with
         | Some m => negb (matched (re_match _THIRD_PARTY_HEADERS_PATTERN (group_ m 1)))
         | None => false
         end)
    (error filename linenum (py "build/include") 4%Z (py "Include the directory when naming .h files")) ;;
  match re_search _RE_PATTERN_INCLUDE line with
  | None => mret include_state
  | Some m =>
      let include := group_ m 2 in
      let is_system := str_eqb (group_ m 1) (py "<") in
      let duplicate_line := IncludeState.FindHeader include include_state in
      if (0 <=? duplicate_line)%Z then
        error filename linenum (py "build/include") 4%Z
          (py "\x22" ++ include ++ py "\x22 already included at " ++ filename ++ py ":"
           ++ str_of_Z duplicate_line) ;;
        mret include_state
      else
        other_package ← (if ends_with (py ".cc") include
                         then repository_name ← liftM (FileInfo.RepositoryName cwd exists_ filename);
                              mret (negb (str_eqb (dirname repository_name) (dirname include)))
                         else mret false);
        if (other_package : bool) then
          error filename linenum (py "build/include") 4%Z
            (py "Do not include .cc files from other packages") ;;
          mret include_state
        else if matched (re_match _THIRD_PARTY_HEADERS_PATTERN include) then mret include_state
        else check_new_include filename clean_lines linenum include is_system include_state error
  end.
End filesystem.

(** ** Missing includes *)
Definition _HEADERS_CONTAINING_TEMPLATES : list (str * list str) := [
  (py "<deque>", [py "deque"]);
  (py "<functional>", py <$> ["unary_function"; "binary_function"; "plus"; "minus"; "multiplies";
     "divides"; "modulus"; "negate"; "equal_to"; "not_equal_to"; "greater"; "less";
     "greater_equal"; "less_equal"; "logical_and"; "logical_or"; "logical_not"; "unary_negate";
     "not1"; "binary_negate"; "not2"; "bind1st"; "bind2nd"; "pointer_to_unary_function";
     "pointer_to_binary_function"; "ptr_fun"; "mem_fun_t"; "mem_fun"; "mem_fun1_t";
     "mem_fun1_ref_t"; "mem_fun_ref_t"; "const_mem_fun_t"; "const_mem_fun1_t";
     "const_mem_fun_ref_t"; "const_mem_fun1_ref_t"; "mem_fun_ref"]%string);
  (py "<limits>", [py "numeric_limits"]);
  (py "<list>", [py "list"]);
  (py "<map>", [py "map"; py "multimap"]);
  (py "<memory>", [py "allocator"]);
  (py "<queue>", [py "queue"; py "priority_queue"]);
  (py "<set>", [py "set"; py "multiset"]);
  (py "<stack>", [py "stack"]);
  (py "<string>", [py "char_traits"; py "basic_string"]);
  (py "<tuple>", [py "tuple"]);
  (py "<utility>", [py "pair"]);
  (py "<vector>", [py "vector"]);
  (py "<hash_map>", [py "hash_map"; py "hash_multimap"]);
  (py "<hash_set>", [py "hash_set"; py "hash_multiset"]);
  (py "<slist>", [py "slist"])].

Definition _RE_PATTERN_STRING : regex := rx "\bstring\b".

(** A pattern made of pieces. *)
Definition re_of (p : str) : regex := default REps (compile p).

Definition _re_pattern_algorithm_header : list (regex * str * str) :=
  (λ template, (re_of (raw "[^>.]\b" ++ template ++ raw "(<.*?>)?\([^\)]"), template, py "<algorithm>"))
  <$> (py <$> ["copy"; "max"; "min"; "min_element"; "sort"; "swap"; "transform"]%string).

Definition _re_pattern_templates : list (regex * str * str) :=
  ht ← _HEADERS_CONTAINING_TEMPLATES;
  (λ template, (re_of (raw "(\<|\b)" ++ template ++ raw "\s*\<"), template ++ py "<>", ht.1)) <$> ht.2.

(** [required]: header, line and template, in the order of insertion. *)
Definition requirements : Type := list (str * (Z * str)).

Fixpoint require (header : str) (use : Z * str) (required : requirements) : requirements :=
  match required with
  | [] => [(header, use)]
  | (h, u) :: required =>
      if str_eqb h header then (h, use) :: required else (h, u) :: require header use required
  end.

Definition require_all (patterns : list (regex * str * str)) (linenum : Z) (line : str)
    (required : requirements) : requirements :=
  foldl (λ required '(pattern, template, header),
    if matched (re_search pattern line) then require header (linenum, template) required else required)
    required patterns.

(** One round of the loop over the lines. *)
Definition require_line (linenum : Z) (line : str) (required : requirements) : requirements :=
  match line with
  | [] => required
  | c :: _ =>
      if (c =? 35)%N then required else
      let required :=
        match re_search _RE_PATTERN_STRING line with
        | Some m =>
            let prefix := take (mo_start m) line in
            if ends_with (py "std::") prefix || negb (ends_with (py "::") prefix)
            then require (py "<string>") (linenum, py "string") required else required
        | None => required
        end in
      let required := require_all _re_pattern_algorithm_header linenum line required in
      if negb (contains (py "<") line) then required
      else require_all _re_pattern_templates linenum line required
  end.

Fixpoint require_lines (linenum : Z) (lines : list str) (required : requirements) : requirements :=
  match lines with
  | [] => required
  | line :: lines => require_lines (linenum + 1) lines (require_line linenum line required)
  end.

Fixpoint lstrip_in (chars s : str) : str :=
  match s with
  | c :: s' => if bool_decide (c ∈ chars) then lstrip_in chars s' else s
  | [] => []
  end.
Definition strip_in (chars s : str) : str := reverse (lstrip_in chars (reverse (lstrip_in chars s))).

Section modules.
(** The working directory, and the lines of a file that can be opened. *)
Context (cwd : str) (read_file : str → option (list str)).

Fixpoint update_include_dict (linenum : Z) (lines : list str) (include_dict : gmap str Z)
    : gmap str Z :=
  match lines with
  | [] => include_dict
  | line :: lines =>
      update_include_dict (linenum + 1) lines
        (match re_search _RE_PATTERN_INCLUDE (CleanseComments line) with
         | Some m =>
             let include := group_ m 2 in
             match include_dict !! include with
             | Some _ => include_dict
             | None => <[ include := linenum ]> include_dict
             end
         | None => include_dict
         end)
  end.

Definition UpdateIncludeState (filename : str) (include_dict : gmap str Z) : bool * gmap str Z :=
  match read_file filename with
  | None => (false, include_dict)
  | Some lines => (true, update_include_dict 1 lines include_dict)
  end.

(** The loop over the headers; their order, that of a dictionary, has no influence on
    whether a header is found nor on the keys. *)
Fixpoint find_headers (abs_filename : str) (header_keys : list str) (include_dict : gmap str Z)
    (header_found : bool) : bool * gmap str Z :=
  match header_keys with
  | [] => (header_found, include_dict)
  | header :: header_keys =>
      let '(same_module, common_path) := FilesBelongToSameModule abs_filename header in
      let fullpath := common_path ++ header in
      if same_module then
        let '(found, include_dict) := UpdateIncludeState fullpath include_dict in
        find_headers abs_filename header_keys include_dict (found || header_found)
      else find_headers abs_filename header_keys include_dict header_found
  end.

Definition flymake_cc_re : regex := rx "_flymake\.cc$".

(** [dict([item for sublist in include_list for item in sublist])] *)
Definition include_dict_of (include_list : list (list (str * Z))) : gmap str Z :=
  foldl (λ d item, <[ item.1 := item.2 ]> d) ∅ (concat include_list).

Definition required_by (clean_lines : CleansedLines) : requirements :=
  require_lines 0 (take (Z.to_nat (NumLines clean_lines)) (elided clean_lines)) [].

(** Dictionaries are visited in the order of [keys] and [items]. *)
Definition CheckForIncludeWhatYouUse (keys : gmap str Z → list str)
    (items : requirements → requirements) (filename : str) (clean_lines : CleansedLines)
    (include_state : IncludeState.t) (error : error_fn) : lint unit :=
  let required := required_by clean_lines in
  let include_dict := include_dict_of (IncludeState.include_list include_state) in
  let abs_filename := re_sub flymake_cc_re (λ _, py ".cc") (FileInfo.FullName cwd filename) in
  let '(header_found, include_dict) :=
    find_headers abs_filename (keys include_dict) include_dict false in
  if ends_with (py ".cc") filename && negb header_found then mret ()
  else forM (items required) (λ '(header, (linenum, template)),
         whenM (bool_decide (include_dict !! strip_in (py "<>\x22") header = None))
           (error filename linenum (py "build/include_what_you_use") 4%Z
              (py "Add #include " ++ header ++ py " for " ++ template))).
End modules.

(** * Theorems *)

(** ** Text between brackets *)

(** A text whose brackets match. *)
Inductive balanced : str → Prop :=
| balanced_nil : balanced []
| balanced_char c s :
    matching_punctuation c = None → closing_punctuation c = false → balanced s → balanced (c :: s)
| balanced_group o c inner s :
    matching_punctuation o = Some c → balanced inner → balanced s →
    balanced (o :: inner ++ c :: s).

(** A text that closes a stack: balanced pieces, each up to the next bracket expected. *)
Inductive closes : list char → str → Prop :=
| closes_nil : closes [] []
| closes_cons top below t u : balanced t → closes below u → closes (top :: below) (t ++ top :: u).

Lemma matching_closes o c : matching_punctuation o = Some c → closing_punctuation c = true.
Proof.
  unfold matching_punctuation. repeat case_match; intros [= <-]; done.
Qed.

Lemma opening_not_closing o c : matching_punctuation o = Some c → closing_punctuation o = false.
Proof.
  unfold matching_punctuation. destruct (N.eqb_spec o 40) as [->|]; [done|].
  destruct (N.eqb_spec o 123) as [->|]; [done|]. by destruct (N.eqb_spec o 91) as [->|].
Qed.

Lemma closes_char c top below u :
  matching_punctuation c = None → closing_punctuation c = false →
  closes (top :: below) u → closes (top :: below) (c :: u).
Proof.
  intros Hm Hc Hu. inversion Hu as [|? ? t v Ht Hv]; subst.
  change (c :: t ++ top :: v) with ((c :: t) ++ top :: v). by repeat constructor.
Qed.

Lemma closes_open o c top below u :
  matching_punctuation o = Some c → closes (c :: top :: below) u → closes (top :: below) (o :: u).
Proof.
  intros Ho Hu. inversion Hu as [|? ? t v Ht Hv]; subst.
  inversion Hv as [|? ? t' v' Ht' Hv']; subst.
  replace (o :: t ++ c :: t' ++ top :: v') with ((o :: t ++ c :: t') ++ top :: v')
    by (cbn; by rewrite <- (assoc_L (++))).
  constructor; [by constructor|done].
Qed.

Lemma punctuation_sound rest : ∀ stack position p,
  punctuation_loop stack rest position = Some p →
  ∃ u v, rest = u ++ v ∧ p = position + length u ∧ closes stack u.
Proof.
  induction rest as [|c rest IH]; intros stack position p; destruct stack as [|top below];
    cbn [punctuation_loop]; try (intros [= <-]; eexists [], _; split_and!; [done|cbn; lia|constructor]);
    [done|].
  assert (∀ stack', punctuation_loop stack' rest (S position) = Some p →
    (∀ u, closes stack' u → closes (top :: below) (c :: u)) →
    ∃ u v, c :: rest = u ++ v ∧ p = position + length u ∧ closes (top :: below) u) as Hstep.
  { intros stack' E Hc. apply IH in E as (u&v&->&->&Hu). exists (c :: u), v.
    split_and!; [done|cbn; lia|by apply Hc]. }
  destruct (N.eqb_spec c top) as [->|Hne].
  - intros E. eapply Hstep; [exact E|]. intros u Hu. by apply (closes_cons top below [] u); [constructor|].
  - destruct (closing_punctuation c) eqn:Ec; [done|].
    destruct (matching_punctuation c) as [close|] eqn:Em; intros E; (eapply Hstep; [exact E|]).
    + intros u. by apply closes_open.
    + intros u. by apply closes_char.
Qed.

Lemma punctuation_balanced t : balanced t → ∀ top below rest position,
  closing_punctuation top = true →
  punctuation_loop (top :: below) (t ++ rest) position
  = punctuation_loop (top :: below) rest (position + length t).
Proof.
  induction 1 as [|c t Hm Hc _ IH|o c inner t Ho _ IH1 _ IH2]; intros top below rest position Htop.
  - by rewrite Nat.add_0_r.
  - cbn [app punctuation_loop]. destruct (N.eqb_spec c top) as [->|]; [congruence|].
    rewrite Hc, Hm, IH by done. f_equal. cbn. lia.
  - cbn [app punctuation_loop]. pose proof (opening_not_closing _ _ Ho) as Hoc.
    destruct (N.eqb_spec o top) as [->|]; [congruence|].
    rewrite Hoc, Ho, <- (assoc_L (++)), IH1 by (by eapply matching_closes).
    cbn [app punctuation_loop]. rewrite N.eqb_refl, IH2 by done. f_equal. cbn. rewrite length_app. cbn. lia.
Qed.

(** C31: [_GetTextInside] returns the text between the bracket that ends the first match of
    the pattern and its partner, if it has one: the text, of which the brackets match
    among themselves, up to a bracket of the matching kind, over any number of lines.
    Without a match it returns None; a pattern that can end in another character fails
    an assertion. *)
Theorem get_text_inside text start_pattern :
  (re_search_fl MULTILINE start_pattern text = None → _GetTextInside text start_pattern = Ok None) ∧
  ∀ m open close, re_search_fl MULTILINE start_pattern text = Some m →
    mo_end m ≠ 0 → text !! (mo_end m - 1) = Some open →
    (matching_punctuation open = None → _GetTextInside text start_pattern = Raise AssertionError) ∧
    (matching_punctuation open = Some close →
       (∃ r, _GetTextInside text start_pattern = Ok r) ∧
       ∀ t, _GetTextInside text start_pattern = Ok (Some t) ↔
         balanced t ∧ ∃ rest, drop (mo_end m) text = t ++ close :: rest).
Proof.
  unfold _GetTextInside, text_inside. split; [by intros ->|]. intros m open close -> Hm Ho. rewrite (proj2 (Nat.eqb_neq _ _)), Ho by done.
  split; [by intros ->|]. intros Hc. rewrite Hc. split; [by eexists|]. intros t.
  set (rest := drop (mo_end m) text). split.
  - destruct (punctuation_loop [close] rest (mo_end m)) as [p|] eqn:E; [|done].
    intros [= <-]. apply punctuation_sound in E as (u&v&->&->&Hu).
    inversion Hu as [|? ? t' u' Ht Hu']; subst. inversion Hu'; subst.
    replace (mo_end m + length (t' ++ [close]) - 1 - mo_end m) with (length t')
      by (rewrite length_app; cbn; lia).
    rewrite <- !(assoc_L (++)), take_app_length. split; [done|by eexists].
  - intros (Ht&v&E). rewrite E, (punctuation_balanced t Ht) by (by eapply matching_closes).
    cbn [punctuation_loop]. rewrite N.eqb_refl. destruct v; cbn [punctuation_loop mbind option_bind].
    all: replace (S (mo_end m + length t) - 1 - mo_end m) with (length t) by lia; by rewrite take_app_length.
Qed.

(** ** Modules *)
Lemma slice_to_suffix {A} (u v : list A) :
  v ≠ [] → slice_to (u ++ v) (- Z.of_nat (length v)) = u.
Proof.
  intros Hv. assert (length v ≠ 0) by by destruct v.
  unfold slice_to, clamp_index, norm_index. rewrite decide_True by lia. rewrite length_app.
  replace (Z.to_nat _) with (length u) by lia. by rewrite take_app_length.
Qed.

Lemma ends_with_app s t : ends_with t (s ++ t) = true.
Proof. apply ends_with_spec. by exists s. Qed.

Lemma replace_go_absent old new n s :
  contains old s = false → replace_go old new n 0 s = s.
Proof.
  induction s as [|c s IH]; intros Hc; [done|]. rewrite contains_cons in Hc.
  apply orb_false_iff in Hc as [Hs Hc]. cbn [replace_go]. destruct n as [|n]; [done|].
  rewrite Hs. by rewrite IH.
Qed.

Lemma replace_absent old new s : contains old s = false → replace old new s = s.
Proof. apply replace_go_absent. Qed.

(** What the function compares: the names without extension, suffix and the directories
    public and internal. *)
Definition cc_stem (cc : str) : str :=
  if ends_with (py "_unittest") cc then slice_to cc (- 9)
  else if ends_with (py "_test") cc then slice_to cc (- 5) else cc.
Definition h_stem (h : str) : str := if ends_with (py "-inl") h then slice_to h (- 4) else h.
Definition without_visibility (s : str) : str :=
  replace (py "/internal/") (py "/") (replace (py "/public/") (py "/") s).

Lemma same_module_eq cc h :
  FilesBelongToSameModule (cc ++ py ".cc") (h ++ py ".h")
  = let a := without_visibility (cc_stem cc) in
    let b := without_visibility (h_stem h) in
    (ends_with b a, if ends_with b a then slice_to a (- Z.of_nat (length b)) else []).
Proof.
  unfold FilesBelongToSameModule. rewrite !ends_with_app. cbn [negb].
  change (- 3)%Z with (- Z.of_nat (length (py ".cc")))%Z.
  change (- 2)%Z with (- Z.of_nat (length (py ".h")))%Z. by rewrite !slice_to_suffix.
Qed.

Lemma cc_stem_suffix base suffix :
  ends_with (py "_test") base = false → ends_with (py "_unittest") base = false →
  suffix ∈ [[]; py "_test"; py "_unittest"] → cc_stem (base ++ suffix) = base.
Proof.
  intros H1 H2 Hs. unfold cc_stem. rewrite !elem_of_cons in Hs.
  destruct Hs as [->|[->|[->|[]%elem_of_nil]]].
  - by rewrite app_nil_r, H1, H2.
  - destruct (ends_with (py "_unittest") (base ++ py "_test")) eqn:E.
    + apply ends_with_spec in E as [k Hk]. apply (f_equal reverse) in Hk.
      rewrite !reverse_app in Hk. cbn in Hk. by simplify_eq.
    + rewrite ends_with_app. change (- 5)%Z with (- Z.of_nat (length (py "_test")))%Z.
      by apply slice_to_suffix.
  - rewrite ends_with_app. change (- 9)%Z with (- Z.of_nat (length (py "_unittest")))%Z.
    by apply slice_to_suffix.
Qed.

Lemma h_stem_suffix base suffix :
  ends_with (py "-inl") base = false → suffix ∈ [[]; py "-inl"] → h_stem (base ++ suffix) = base.
Proof.
  intros H1 Hs. unfold h_stem. rewrite !elem_of_cons in Hs.
  destruct Hs as [->|[->|[]%elem_of_nil]].
  - by rewrite app_nil_r, H1.
  - rewrite ends_with_app. change (- 4)%Z with (- Z.of_nat (length (py "-inl")))%Z.
    by apply slice_to_suffix.
Qed.

Lemma ends_with_prefix_app p s t : ends_with t s = true → ends_with t (p ++ s) = true.
Proof. rewrite !ends_with_spec. intros [k ->]. exists (p ++ k). by rewrite (assoc_L (++)). Qed.

Lemma contains_right old s t : contains old (s ++ t) = false → contains old t = false.
Proof.
  destruct (contains old t) eqn:E; [|done]. intros Hc. apply contains_spec in E as (a&b&->).
  rewrite <- Hc. symmetry. apply contains_spec. exists (s ++ a), b. by rewrite <- (assoc_L (++)).
Qed.

(** A source and a header belong together exactly if, without their extensions and the
    suffixes _test, _unittest and -inl, and without directories public and internal, the
    name of the header ends that of the source. The second component is then what stands
    before it; for paths without such directories that is the prefix of the path that the
    header lacks. *)
Theorem same_module :
  (∀ cc h p, FilesBelongToSameModule cc h = (true, p) →
     ∃ a b q, cc = a ++ py ".cc" ∧ h = b ++ py ".h" ∧
       without_visibility (cc_stem a) = q ++ without_visibility (h_stem b) ∧
       (without_visibility (h_stem b) ≠ [] → p = q)) ∧
  (∀ prefix base s1 s2, base ≠ [] →
     s1 ∈ [[]; py "_test"; py "_unittest"] → s2 ∈ [[]; py "-inl"] →
     ends_with (py "_test") (prefix ++ base) = false →
     ends_with (py "_unittest") (prefix ++ base) = false → ends_with (py "-inl") base = false →
     contains (py "/public/") (prefix ++ base) = false →
     contains (py "/internal/") (prefix ++ base) = false →
     FilesBelongToSameModule (prefix ++ base ++ s1 ++ py ".cc") (base ++ s2 ++ py ".h") = (true, prefix)).
Proof.
  split.
  - intros cc h p E.
    assert (ends_with (py ".cc") cc = true ∧ ends_with (py ".h") h = true) as [[a ->]%ends_with_spec [b ->]%ends_with_spec].
    { unfold FilesBelongToSameModule in E. destruct (ends_with (py ".cc") cc); [|done].
      by destruct (ends_with (py ".h") h). }
    rewrite same_module_eq in E. cbv zeta in E.
    destruct (ends_with _ _) eqn:He; [|done]. injection E as <-.
    apply ends_with_spec in He as [q Hq]. exists a, b, q. split_and!; [done..|].
    intros Hne. rewrite Hq. by apply slice_to_suffix.
  - intros prefix base s1 s2 Hb H1 H2 Ht Hu Hi Hp Hn.
    rewrite !(assoc_L (++)). rewrite same_module_eq, cc_stem_suffix, h_stem_suffix by done.
    unfold without_visibility. rewrite (replace_absent _ _ (prefix ++ base)), (replace_absent _ _ base)
      by (done || by eapply contains_right).
    rewrite (replace_absent _ _ (prefix ++ base)), (replace_absent _ _ base)
      by (done || by eapply contains_right).
    cbv zeta. by rewrite ends_with_app, slice_to_suffix.
Qed.

(** The prefix of a path that has such a directory in front of the header's part. *)
Example internal_prefix :
  FilesBelongToSameModule (py "/a/internal/b/foo.cc") (py "b/foo.h") = (true, py "/a/").
Proof. reflexivity. Qed.

Lemma same_module_witness :
  (∃ a b q, py "/src/base/sys.cc" = a ++ py ".cc" ∧ py "base/sys.h" = b ++ py ".h" ∧
    without_visibility (cc_stem a) = q ++ without_visibility (h_stem b) ∧
    (without_visibility (h_stem b) ≠ [] → py "/src/" = q)) ∧
  FilesBelongToSameModule (py "/src/" ++ py "base/sys" ++ py "_unittest" ++ py ".cc")
    (py "base/sys" ++ py "-inl" ++ py ".h") = (true, py "/src/").
Proof.
  split.
  - apply (proj1 same_module). reflexivity.
  - apply (proj2 same_module); first [reflexivity|done|by_decision].
Defined.

Definition printf_call : str := py "  printf(a(), b[c]);".

Lemma get_text_inside_witness :
  (∃ r, _GetTextInside printf_call (rx "printf\(") = Ok r) ∧
  ∀ t, _GetTextInside printf_call (rx "printf\(") = Ok (Some t) ↔
    balanced t ∧ ∃ rest, drop 9 printf_call = t ++ 41%N :: rest.
Proof.
  destruct (proj2 (get_text_inside printf_call (rx "printf\(")) (Mobj printf_call 2 9 []) 40%N 41%N)
    as [_ Hok]; [vm_compute; reflexivity|discriminate|reflexivity|].
  apply Hok. reflexivity.
Defined.

(** ** Include lines *)
Section include_lines.
Import IncludeState.

Lemma find_in_section_app h l l' :
  find_in_section h (l ++ l')
  = match find_in_section h l with Some n => Some n | None => find_in_section h l' end.
Proof. induction l as [|f l IH]; [done|]. cbn. by destruct (str_eqb f.1 h). Qed.

Lemma find_in_section_elem h l n : find_in_section h l = Some n → (h, n) ∈ l.
Proof.
  induction l as [|[h' n'] l IH]; [done|]. cbn. destruct (str_eqb h' h) eqn:E.
  - apply str_eqb_eq in E as ->. intros [= ->]. by left.
  - intros Hn. right. by apply IH.
Qed.

Lemma find_in_list_snoc h ls section :
  find_in_list h (ls ++ [section])
  = match find_in_section h (concat ls ++ section) with Some n => n | None => (-1)%Z end.
Proof.
  induction ls as [|l ls IH]; cbn [app find_in_list concat].
  - by destruct (find_in_section h section).
  - rewrite <- (assoc_L (++)), find_in_section_app. by destruct (find_in_section h l).
Qed.

(** Includes carry line numbers. *)
Definition numbered (s : t) : Prop := Forall (λ i, 0 ≤ i.2)%Z (concat (include_list s)).

Lemma FindHeader_append inc n s s' :
  append_include inc n s = Ok s' → (0 ≤ n)%Z → numbered s →
  numbered s' ∧ (∀ h, h ≠ inc → FindHeader h s' = FindHeader h s) ∧
  ((FindHeader inc s < 0)%Z → FindHeader inc s' = n).
Proof.
  unfold append_include, numbered, FindHeader.
  destruct (last (include_list s)) as [section|] eqn:El; [|done].
  apply last_Some in El as [ls El]. rewrite El. intros [= <-] Hn Hs. cbn.
  rewrite length_app, Nat.add_sub, take_app_length, !find_in_list_snoc, !(assoc_L (++)).
  rewrite concat_app in Hs. cbn in Hs. rewrite app_nil_r in Hs. split_and!.
  - rewrite concat_app. cbn. rewrite app_nil_r, (assoc_L (++)). apply Forall_app. by repeat constructor.
  - intros h Hh. rewrite !find_in_list_snoc, (assoc_L (++)), (find_in_section_app h (concat ls ++ section)).
    destruct (find_in_section h (concat ls ++ section)); [done|]. cbn.
    destruct (str_eqb inc h) eqn:E; [|done]. apply str_eqb_eq in E. congruence.
  - rewrite (find_in_section_app inc (concat ls ++ section)).
    destruct (find_in_section inc (concat ls ++ section)) as [n'|] eqn:E.
    + apply find_in_section_elem in E. rewrite Forall_forall in Hs. specialize (Hs _ E). cbn in Hs. lia.
    + intros _. cbn. by rewrite (proj2 (str_eqb_eq _ _)).
Qed.
End include_lines.

Lemma CheckNextIncludeOrder_list ht s msg s' :
  IncludeState.CheckNextIncludeOrder ht s = Ok (msg, s') →
  IncludeState.include_list s' = IncludeState.include_list s.
Proof.
  unfold IncludeState.CheckNextIncludeOrder.
  intros (type_name&_&(section_name&_&E)%res_bind_ok)%res_bind_ok. revert E. cbv zeta.
  repeat case_match; by intros [= <- <-].
Qed.

(** What the branch for a new header returns. *)
Lemma check_new_include_returns cwd exists_ filename cl linenum inc is_system s error :
  returns (λ s', ∃ s1, append_include inc linenum s = Ok s1 ∧
             IncludeState.include_list s' = IncludeState.include_list s1)
    (check_new_include cwd exists_ filename cl linenum inc is_system s error).
Proof.
  eapply returns_bind; [apply returns_lift; intros s1; exact id|]. intros s1 E1.
  eapply returns_bind; [apply returns_any|]. intros ht _.
  eapply (returns_bind (λ p, IncludeState.include_list p.2 = IncludeState.include_list s1));
    [apply returns_lift; intros [msg s2]; apply CheckNextIncludeOrder_list|].
  intros [msg s2] E2. eapply returns_bind; [apply returns_any|]. intros base _.
  eapply returns_bind; [apply returns_any|]. intros _ _.
  eapply returns_bind; [apply returns_any|]. intros sorted _.
  eapply returns_bind; [apply returns_any|]. intros _ _. apply returns_ret. by exists s1.
Qed.

(** The step of the state at an include of [inc]. *)
Definition include_step (inc : str) (linenum : Z) (s s' : IncludeState.t) : Prop :=
  numbered s' ∧
  (∀ h, h ≠ inc → IncludeState.FindHeader h s' = IncludeState.FindHeader h s) ∧
  if (0 <=? IncludeState.FindHeader inc s)%Z then s' = s
  else IncludeState.FindHeader inc s' = linenum ∨
       s' = s ∧ (ends_with (py ".cc") inc = true ∨ matched (re_match _THIRD_PARTY_HEADERS_PATTERN inc) = true).

Lemma CheckIncludeLine_returns cwd exists_ filename cl linenum line m s error :
  numbered s → (0 ≤ linenum)%Z →
  py_index (lines cl) linenum = Some line → re_search _RE_PATTERN_INCLUDE line = Some m →
  returns (include_step (group_ m 2) linenum s)
    (CheckIncludeLine cwd exists_ filename cl linenum s error).
Proof.
  intros Hs Hn Hl Hm. unfold CheckIncludeLine. rewrite Hl.
  eapply (returns_bind (λ l, l = line)); [by apply returns_ret|]. intros ? ->.
  eapply returns_bind; [apply returns_any|]. intros _ _. rewrite Hm. cbv zeta.
  set (inc := group_ m 2). set (step := include_step inc linenum s).
  assert ((0 <=? IncludeState.FindHeader inc s)%Z = true ∨ ends_with (py ".cc") inc = true
            ∨ matched (re_match _THIRD_PARTY_HEADERS_PATTERN inc) = true → step s) as Hsame.
  { intros Hwhy. split; [done|]. split; [done|]. destruct (0 <=? _)%Z; [done|]. right. split; [done|].
    by destruct Hwhy as [?|[?|?]]; [|left|right]. }
  destruct (0 <=? IncludeState.FindHeader inc s)%Z eqn:Hf.
  - eapply returns_bind; [apply returns_any|]. intros _ _. apply returns_ret, Hsame. by left.
  - eapply (returns_bind (λ b : bool, b = true → ends_with (py ".cc") inc = true)).
    { destruct (ends_with (py ".cc") inc); [by intros ? ? ? _ _|by apply returns_ret]. }
    intros [] Hcc.
    + eapply returns_bind; [apply returns_any|]. intros _ _. apply returns_ret, Hsame. auto.
    + destruct (matched (re_match _ inc)) eqn:Ht; [apply returns_ret, Hsame; auto|].
      intros w s' w' E. apply check_new_include_returns in E as (s1&E1&E2).
      destruct (FindHeader_append _ _ _ _ E1 Hn Hs) as (H1&H2&H3).
      unfold step, include_step. rewrite Hf. unfold numbered, IncludeState.FindHeader in *. rewrite E2.
      split_and!; [done..|]. left. apply H3. apply Z.leb_gt in Hf. lia.
Qed.

(** What [CheckIncludeLine] does to the state: an include that was seen before changes
    nothing, any other is recorded with its line number, or is left out for good reason, a
    third party header or a source file. Whatever was recorded stays as it is, so
    from then on an include of the same header is found and reported as a duplicate. *)
Theorem include_line_recorded cwd exists_ filename cl linenum line m s error w s' w' :
  numbered s → (0 ≤ linenum)%Z →
  py_index (lines cl) linenum = Some line → re_search _RE_PATTERN_INCLUDE line = Some m →
  CheckIncludeLine cwd exists_ filename cl linenum s error w = (Ok s', w') →
  include_step (group_ m 2) linenum s s'.
Proof. intros Hs Hn Hl Hm. by apply CheckIncludeLine_returns with (line := line). Qed.

(** ** Missing includes *)

(** The header a line of a file includes. *)
Definition include_name (line : str) : option str :=
  (λ m, group_ m 2) <$> re_search _RE_PATTERN_INCLUDE (CleanseComments line).

Definition included_in (lines : list str) (k : str) : Prop := Some k ∈ include_name <$> lines.

Lemma update_include_dict_cons n line lines d :
  update_include_dict n (line :: lines) d
  = update_include_dict (n + 1) lines
      match include_name line with
      | Some inc => if decide (is_Some (d !! inc)) then d else <[ inc := n ]> d
      | None => d
      end.
Proof.
  cbn [update_include_dict]. unfold include_name. f_equal.
  destruct (re_search _RE_PATTERN_INCLUDE (CleanseComments line)) as [m|]; [|done]. cbn [fmap option_fmap option_map].
  destruct (d !! group_ m 2); [by rewrite decide_True|by rewrite decide_False by by intros []].
Qed.

#[local] Opaque include_name update_include_dict.

Lemma update_include_dict_keys lines k : ∀ n d,
  is_Some (update_include_dict n lines d !! k) ↔ is_Some (d !! k) ∨ included_in lines k.
Proof.
  unfold included_in. induction lines as [|line lines IH]; intros n d.
  { change (update_include_dict n [] d) with d. rewrite elem_of_nil. tauto. }
  rewrite update_include_dict_cons, IH, fmap_cons, elem_of_cons. clear IH.
  destruct (include_name line) as [inc|]; [|intuition congruence].
  destruct (decide (is_Some (d !! inc))) as [Hd|Hd].
  - assert (Some k = Some inc → is_Some (d !! k)) by congruence. tauto.
  - rewrite lookup_insert_is_Some.
    assert (Some k = Some inc ↔ inc = k) as -> by (split; congruence).
    destruct (decide (inc = k)); tauto.
Qed.

Section missing.
Context (cwd : str) (read_file : str → option (list str)).

(** The lines of a header of the file's own module, if it can be read. *)
Definition own_header (abs_filename header : str) : option (list str) :=
  let '(same_module, path) := FilesBelongToSameModule abs_filename header in
  if same_module then read_file (path ++ header) else None.

Lemma find_headers_eq abs_filename keys : ∀ d b,
  find_headers read_file abs_filename keys d b
  = let files := omap (own_header abs_filename) keys in
    (b || (0 <? length files)%nat, foldl (λ d lines, update_include_dict 1 lines d) d files).
Proof.
  induction keys as [|h keys IH]; intros d b; cbv zeta; [cbn; by rewrite orb_false_r|].
  cbn [find_headers omap list_omap].
  assert (own_header abs_filename h = let '(same_module, path) := FilesBelongToSameModule abs_filename h in
    if same_module then read_file (path ++ h) else None) as -> by done.
  destruct (FilesBelongToSameModule abs_filename h) as [[] path]; [|apply IH].
  unfold UpdateIncludeState. destruct (read_file (path ++ h)) as [lines|]; [|by rewrite IH].
  rewrite IH. cbv zeta. cbn [foldl orb length]. f_equal. by rewrite orb_true_r.
Qed.

Lemma headers_keys files k : ∀ d,
  is_Some (foldl (λ d lines, update_include_dict 1 lines d) d files !! k)
  ↔ is_Some (d !! k) ∨ ∃ lines, lines ∈ files ∧ included_in lines k.
Proof.
  induction files as [|lines files IH]; intros d; cbn [foldl].
  { split; [by left|]. intros [?|(?&[]%elem_of_nil&_)]. done. }
  rewrite IH, update_include_dict_keys. setoid_rewrite elem_of_cons. split.
  - intros [[?|?]|(l&?&?)]; [by left|right; by exists lines; auto|right; exists l; auto].
  - intros [?|(l&[->|?]&?)]; [auto|auto|right; by exists l].
Qed.

Lemma include_dict_keys ls k : is_Some (include_dict_of ls !! k) ↔ k ∈ (concat ls).*1.
Proof.
  unfold include_dict_of. generalize (concat ls) as l. intros l.
  assert (∀ d : gmap str Z, is_Some (foldl (λ d item, <[ item.1 := item.2 ]> d) d l !! k)
            ↔ is_Some (d !! k) ∨ k ∈ l.*1) as Hl.
  { induction l as [|[h n] l IH]; intros d; cbn [foldl fmap list_fmap].
    - rewrite elem_of_nil. tauto.
    - rewrite IH, lookup_insert_is_Some, elem_of_cons. cbn.
      destruct (decide (h = k)) as [->|]; [tauto|]. assert (k ≠ h) by congruence. tauto. }
  rewrite Hl, lookup_empty. split; [|by right]. by intros [[? [=]]|?].
Qed.

Lemma forM_ext {W E A} (l : list A) (f g : A → M W E unit) w :
  (∀ x w, f x w = g x w) → forM l f w = forM l g w.
Proof.
  intros Hfg. revert w. induction l as [|x l IH]; intros w; [done|]. cbn [forM].
  unfold mbind, M_bind. rewrite Hfg. destruct (g x w) as [[]]; [apply IH|done].
Qed.

Lemma no_headers {A B} (f : A → option B) l :
  (0 <? length (omap f l))%nat = bool_decide (Exists (λ x, is_Some (f x)) l).
Proof.
  induction l as [|x l IH]; [done|]. cbn [omap list_omap].
  destruct (f x) as [y|] eqn:E; cbn [length].
  - symmetry. apply bool_decide_eq_true. left. by rewrite E.
  - rewrite IH. apply bool_decide_ext. rewrite Exists_cons, E. split; [by right|by intros [[]|]].
Qed.

Lemma require_keys h u l : NoDup l.*1 → NoDup (require h u l).*1 ∧ ∀ k, k ∈ (require h u l).*1 → k = h ∨ k ∈ l.*1.
Proof.
  induction l as [|[h' u'] l IH].
  { intros _. cbn. split; [apply NoDup_singleton|]. intros k ->%list_elem_of_singleton. by left. }
  rewrite fmap_cons, NoDup_cons. intros [Hh Hl]. destruct (IH Hl) as [IH1 IH2]. cbn [require].
  destruct (str_eqb h' h) eqn:E; rewrite fmap_cons, NoDup_cons; cbn [fst].
  - split; [done|]. intros k Hk. by right.
  - split; [split; [|done]|].
    + intros [->|Hin]%IH2; [by rewrite (proj2 (str_eqb_eq h h)) in E|done].
    + intros k [->|[?|?]%IH2]%elem_of_cons; rewrite elem_of_cons; auto.
Qed.

Lemma require_all_keys patterns n line : ∀ l,
  NoDup l.*1 → NoDup (require_all patterns n line l).*1.
Proof.
  unfold require_all. induction patterns as [|[[p t] h] patterns IH]; intros l Hl; [done|].
  cbn [foldl]. apply IH. destruct (matched _); [by apply require_keys|done].
Qed.

Lemma required_once cl : NoDup (required_by cl).*1.
Proof.
  unfold required_by. generalize 0%Z, (take (Z.to_nat (NumLines cl)) (elided cl)). intros n ls.
  assert (NoDup (@nil (str * (Z * str))).*1) as Hl by constructor. revert n Hl.
  generalize (@nil (str * (Z * str))) as l.
  induction ls as [|line ls IH]; intros l n Hl; [done|]. cbn [require_lines]. apply IH.
  unfold require_line. destruct line as [|c line]; [done|]. destruct (c =? 35)%N; [done|]. cbv zeta.
  match goal with |- context [require_all _re_pattern_algorithm_header n _ ?r] => assert (NoDup r.*1) as Hr end.
  { destruct (re_search _ _); [|done]. destruct (_ || _); [by apply require_keys|done]. }
  destruct (negb _); by repeat apply require_all_keys.
Qed.

(** C36: What [CheckForIncludeWhatYouUse] reports: every header the lines of the file need,
    once, unless the file includes it or one of the headers of its own module that can
    be read does. For a .cc file it reports nothing if there is no such header. The order
    in which the dictionaries are visited changes the order of the reports only. *)
Theorem missing_includes keys items filename cl include_state error covered w :
  let abs_filename := re_sub flymake_cc_re (λ _, py ".cc") (FileInfo.FullName cwd filename) in
  let includes := (concat (IncludeState.include_list include_state)).*1 in
  (∀ d k, k ∈ keys d ↔ is_Some (d !! k)) →
  (∀ k, covered k = true ↔ k ∈ includes ∨
     ∃ h lines, h ∈ includes ∧ own_header abs_filename h = Some lines ∧ included_in lines k) →
  NoDup (required_by cl).*1 ∧
  CheckForIncludeWhatYouUse cwd read_file keys items filename cl include_state error w
  = if ends_with (py ".cc") filename
       && negb (bool_decide (Exists (λ h, is_Some (own_header abs_filename h)) includes))
    then (Ok (), w)
    else forM (items (required_by cl)) (λ '(header, (linenum, template)),
           if covered (strip_in (py "<>\x22") header) then mret ()
           else error filename linenum (py "build/include_what_you_use") 4%Z
                  (py "Add #include " ++ header ++ py " for " ++ template)) w.
Proof.
  cbv zeta. intros Hkeys Hcov. split; [apply required_once|].
  unfold CheckForIncludeWhatYouUse. rewrite find_headers_eq. cbv zeta.
  set (abs := re_sub _ _ _) in *. set (dict := include_dict_of _) in *.
  assert (∀ h, h ∈ keys dict ↔ h ∈ (concat (IncludeState.include_list include_state)).*1) as Hk
    by (intros h; rewrite Hkeys; apply include_dict_keys).
  rewrite orb_false_l, no_headers.
  rewrite (bool_decide_ext (Exists _ (keys dict))
             (Exists (λ h, is_Some (own_header abs h)) (concat (IncludeState.include_list include_state)).*1))
    by (rewrite !Exists_exists; by setoid_rewrite Hk).
  destruct (ends_with _ filename && _); [done|]. apply forM_ext.
  intros [header [linenum template]] w'. set (k := strip_in _ header).
  assert (bool_decide (foldl (λ d lines, update_include_dict 1 lines d) dict
            (omap (own_header abs) (keys dict)) !! k = None) = negb (covered k)) as ->; [|by destruct (covered k)].
  assert (covered k = true ↔ is_Some (foldl (λ d lines, update_include_dict 1 lines d) dict
            (omap (own_header abs) (keys dict)) !! k)) as Hiff.
  { assert (is_Some (dict !! k) ↔ k ∈ (concat (IncludeState.include_list include_state)).*1) as Hd
      by apply include_dict_keys.
    rewrite Hcov, headers_keys, Hd. setoid_rewrite list_elem_of_omap. setoid_rewrite Hk. split.
    - intros [?|(h&lines&?&?&?)]; [by left|right]. exists lines. split; [|done]. by exists h.
    - intros [?|(lines&(h&?&?)&?)]; [by left|right]. by exists h, lines. }
  destruct (foldl _ _ _ !! k) as [n|].
  - rewrite bool_decide_eq_false_2 by done. by rewrite (proj2 Hiff) by by eexists.
  - rewrite bool_decide_eq_true_2 by done. destruct (covered k); [|done].
    by destruct (proj1 Hiff eq_refl).
Qed.
End missing.

(** ** Concrete inputs *)
Definition include_lines_of (l : list str) : CleansedLines := {|
  elided := l; lines := l; raw_lines := l; num_lines := Z.of_nat (length l);
  lines_without_raw_strings := l |}.

Definition mark (filename : str) (linenum : Z) (category : str) (confidence : Z) (message : str)
    : lint unit := write_stderr (str_of_Z linenum ++ py " " ++ message ++ py "\n").

Lemma missing_includes_witness :
  let cl := include_lines_of [py "std::string x = max(a, b);"; py "string y;"] in
  NoDup (required_by cl).*1 ∧
  (CheckForIncludeWhatYouUse (py "/w") (λ _, None) (λ d, (map_to_list d).*1) id (py "a.h") cl
     IncludeState.__init__ mark initial_world)
  = forM (required_by cl) (λ '(header, (linenum, template)),
      mark (py "a.h") linenum (py "build/include_what_you_use") 4
        (py "Add #include " ++ header ++ py " for " ++ template)) initial_world.
Proof.
  apply (missing_includes (py "/w") (λ _, None) (λ d, (map_to_list d).*1) id (py "a.h")
    (include_lines_of [py "std::string x = max(a, b);"; py "string y;"]) IncludeState.__init__ mark
    (λ _, false)).
  - intros d k. rewrite list_elem_of_fmap. split.
    + intros ([k' n]&->&Hn%elem_of_map_to_list). by exists n.
    + intros [n Hn]. exists (k, n). by rewrite elem_of_map_to_list.
  - intros k. split; [done|]. by intros [[]%elem_of_nil|(?&?&[]%elem_of_nil&_)].
Defined.

Definition vector_line : str := py "#include <vector>".

Lemma include_line_recorded_witness :
  include_step (py "vector") 0 IncludeState.__init__
    (IncludeState.make [[(py "vector", 0%Z)]] IncludeState._CPP_SECTION (py "vector")).
Proof.
  apply (include_line_recorded (py "/w") (λ _, false) (py "a.cc") (include_lines_of [vector_line]) 0
    vector_line (Mobj vector_line 0 17 [(2, (10, 16)); (1, (9, 10))])
    IncludeState.__init__ mark initial_world _ initial_world).
  - constructor.
  - done.
  - reflexivity.
  - vm_compute. reflexivity.
  - vm_compute. reflexivity.
Defined.
