(* ===== verification/LintSpacing.v ===== *)
(** * cpplint.py: non-standard constructs, function lengths and spacing

    The checks of single lines from [CheckForNonStandardConstructs] to
    [CheckBracesSpacing], and the indentation in namespaces. *)

From S2P Require Import Prelude PyStr PyRe PyReFacts LintData LintState LintLines LintInclude.
From S2P Require Import LintExpr LintChecks LintNesting.

(** [Search] and [Match] of a literal pattern, as conditions. *)
Definition search_ (pattern : string) (line : str) : bool := matched (re_search (rx pattern) line).
Definition match_ (pattern : string) (line : str) : bool := matched (re_match (rx pattern) line).

(** A pattern computed from the file. *)
Definition compiled (pattern : str) : lint regex :=
  match compile pattern with Some r => mret r | None => raiseM ReError end.

Definition IsBlankLine (line : str) : bool := forallb is_space line.

(** ** Constructors *)

(** [while constructor_arg.count('<') > ...]: more arguments while brackets are open; [rest]
    is what follows in the list. *)
Definition arg_open (arg : str) : bool :=
  (count (py ">") arg <? count (py "<") arg)%Z || (count (py ")") arg <? count (py "(") arg)%Z.

Fixpoint absorb (constructor_arg : str) (rest : list str) : res pyexn (str * list str) :=
  if arg_open constructor_arg then
    match rest with
    | [] => Raise IndexError
    | next :: rest => absorb (constructor_arg ++ py "," ++ next) rest
    end
  else Ok (constructor_arg, rest).

(** The loop over the arguments; there are at most as many rounds as arguments. *)
Fixpoint collapse_args (fuel : nat) (constructor_args : list str) : res pyexn (list str) :=
  match constructor_args with
  | [] => Ok []
  | arg :: rest =>
      match fuel with
      | O => Raise Diverges
      | S fuel =>
          '(arg, rest) ← absorb arg rest;
          args ← collapse_args fuel rest;
          Ok (arg :: args)
      end
  end.

(** [explicit_constructor_match.group(2).split(',')], collapsed. *)
Definition constructor_arguments (inside : str) : res pyexn (list str) :=
  let args := match inside with [] => [] | _ => split (py ",") inside end in
  collapse_args (length args) args.

Definition constructor_pattern (base_classname : str) : str :=
  raw "\s+(?:inline\s+)?(explicit\s+)?(?:inline\s+)?" ++ re_escape base_classname
  ++ raw "\s*\(((?:[^()]|\([^()]*\))*)\)".
Definition copy_pattern (base_classname : str) : str :=
  raw "(const\s+)?" ++ re_escape base_classname
  ++ raw "(\s*<[^>]*>)?(\s+const)?\s*(?:<\w+>\s*)?&".

(** ** Spacing *)

(** [while search_position >= 0 and Match(r' {6}\w', elided[search_position])]; the result
    [S i] is the position [i], and [0] is the position -1. *)
Fixpoint skip_initializers (elided : list str) (search_position : nat) : nat :=
  match search_position with
  | O => O
  | S i =>
      match elided !! i with
      | Some line => if match_ " {6}\w" line then skip_initializers elided i else S i
      | None => S i
      end
  end.

(** Whether the blank line at [linenum], after the line [prev_line], ends a function header. *)
Definition blank_line_exception (elided : list str) (linenum : Z) (prev_line : str) : bool :=
  if match_ " {6}\w" prev_line then
    match skip_initializers elided (Z.to_nat (linenum - 1)) with
    | O => false
    | S i => match elided !! i with
             | Some line => str_eqb (take 5 line) (py "    :")
             | None => false
             end
    end
  else match_ " {4}\w[^\(]*\)\s*(const\s*)?(\{\s*$|:)" prev_line || match_ " {4}:" prev_line.

(** A space before the brackets, and the colon of a range-based [for]. *)
Definition extra_space_before_bracket (line : str) : bool :=
  search_ "\w\s+\[" line && negb (search_ "(?:delete|return)\s+\[" line).
Definition missing_space_around_colon (line : str) : bool :=
  search_ "for *\(.*[^:]:[^: ]" line || search_ "for *\(.*[^: ]:[^:]" line.

(** [match.group(1) + ('_' * len(match.group(2))) + match.group(3)], until there is no match.
    Every round adds an underscore (see [mask_operators_total]): one round more than the line
    has characters is enough. *)
Definition operator_name_re : regex := rx "^(.*\boperator\b)(\S+)(\s*\(.*)$".

Fixpoint mask_operators (fuel : nat) (line : str) : res pyexn str :=
  match re_match operator_name_re line with
  | None => Ok line
  | Some m =>
      match fuel with
      | O => Raise Diverges
      | S fuel =>
          mask_operators fuel
            (group_ m 1 ++ replicate (length (group_ m 2)) 95%N ++ group_ m 3)
      end
  end.

Definition isdigit (s : str) : bool :=
  match s with [] => false | _ => forallb is_digit s end.

(** The operators of C++ that have an equals sign, and the spaces around it. *)
Definition missing_spaces_around_assignment (line : str) : bool :=
  (search_ "[\w.]=" line || search_ "=[\w.]" line)
  && negb (search_ "\b(if|while|for) " line)
  && negb (search_ "(>=|<=|==|!=|&=|\^=|\|=|\+=|\*=|\/=|\%=)" line)
  && negb (search_ "operator=" line).

Definition less_re : regex := rx "^(.*[^\s<])<[^\s=<,]".
Definition greater_re : regex := rx "^(.*[^-\s>])>[^\s=>,]".
Definition comparison_re : regex := rx "[^<>=!\s](==|!=|<=|>=|\|\|)[^<>=!\s,;\)]".
Definition shift_re : regex := rx "(operator|[^\s(<])(?:L|UL|ULL|l|ul|ull)?<<([^\s,=<])".
Definition unary_re : regex := rx "(!\s|~\s|[\s]--[\s;]|[\s]\+\+[\s;])".
Definition keyword_paren_re : regex := rx " (if\(|for\(|while\(|switch\()".
Definition control_re : regex := rx "\b(if|for|while|switch)\s*\(([ ]*)(.).*[^ ]+([ ]*)\)\s*{\s*$".
Definition brace_re : regex := rx "^(.*[^ ({>]){".

Section checks.
Context (filename : str) (clean_lines : CleansedLines) (linenum : Z) (error : error_fn).

Definition complain (category : string) (confidence : Z) (message : str) : lint unit :=
  error filename linenum (py category) confidence message.

Definition check_constructor (base_classname line : str) : lint unit :=
  r ← compiled (constructor_pattern base_classname);
  match re_match r line with
  | None => mret ()
  | Some m =>
      let is_marked_explicit := match group m 1 with Some (_ :: _) => true | _ => false end in
      constructor_args ← liftM (constructor_arguments (group_ m 2));
      let first := default [] (head constructor_args) in
      let defaulted_args := filter (λ arg, contains (py "=") arg = true) constructor_args in
      let n := length constructor_args in
      let noarg_constructor := (n =? 0)%nat || (n =? 1)%nat && str_eqb (strip first) (py "void") in
      let onearg_constructor :=
        (n =? 1)%nat && negb noarg_constructor
        || (1 <=? n)%nat && negb noarg_constructor && (n - 1 <=? length defaulted_args)%nat in
      let initializer_list_constructor :=
        onearg_constructor && search_ "\bstd\s*::\s*initializer_list\b" first in
      copy_constructor ← (if onearg_constructor then
                            r ← compiled (copy_pattern base_classname);
                            mret (matched (re_match r (strip first)))
                          else mret false);
      if negb is_marked_explicit && onearg_constructor && negb initializer_list_constructor
         && negb copy_constructor
      then
        if negb (length defaulted_args =? 0)%nat
        then complain "runtime/explicit" 5
               (py "Constructors callable with one argument should be marked explicit.")
        else complain "runtime/explicit" 5
               (py "Single-parameter constructors should be marked explicit.")
      else whenM (is_marked_explicit && negb onearg_constructor)
        (if (noarg_constructor : bool)
         then complain "runtime/explicit" 5
                (py "Zero-parameter constructors should not be marked explicit.")
         else complain "runtime/explicit" 0
                (py "Constructors that require multiple arguments should not be marked explicit."))
  end.

Definition CheckForNonStandardConstructs (nesting_state : NestingState) : lint unit :=
  line ← line_at (lines clean_lines) linenum;
  whenM (matched (re_search (pyrx "printf\\s*\\(.*\x22.*%[-+ ]?\\d*q") line))
    (complain "runtime/printf_format" 3 (py "%q in format strings is deprecated.  Use %ll instead.")) ;;
  whenM (matched (re_search (pyrx "printf\\s*\\(.*\x22.*%\\d+\\$") line))
    (complain "runtime/printf_format" 2
       (py "%N$ formats are unconventional.  Try rewriting to avoid them.")) ;;
  let line := replace (py "\\\\") [] line in
  whenM (matched (re_search (pyrx "(\x22|\\').*\\\\(%|\\[|\\(|{)") line))
    (complain "build/printf_format" 3
       (py "%, [, (, and { are undefined character escapes.  Unescape them.")) ;;
  line ← elided_line clean_lines linenum;
  whenM (search_ "\b(const|volatile|void|char|short|int|long|float|double|signed|unsigned|schar|u?int8|u?int16|u?int32|u?int64)\s+(register|static|extern|typedef)\b" line)
    (complain "build/storage_class" 5
       (py "Storage class (static, extern, typedef, etc) should be first.")) ;;
  whenM (match_ "\s*#\s*endif\s*[^/\s]+" line)
    (complain "build/endif_comment" 5
       (py "Uncommented text after #endif is non-standard.  Use a comment.")) ;;
  whenM (match_ "\s*class\s+(\w+\s*::\s*)+\w+\s*;" line)
    (complain "build/forward_decl" 5
       (py "Inner-style forward declarations are invalid.  Remove this line.")) ;;
  whenM (search_ "(\w+|[+-]?\d+(\.\d*)?)\s*(<|>)\?=?\s*(\w+|[+-]?\d+)(\.\d*)?" line)
    (complain "build/deprecated" 3
       (py ">? and <? (max and min) operators are non-standard and deprecated.")) ;;
  whenM (search_ "^\s*const\s*string\s*&\s*\w+\s*;" line)
    (complain "runtime/member_string_references" 2
       (py "const string& members are dangerous. It is much better to use alternatives, such as pointers or simple constants.")) ;;
  match InnermostClass nesting_state with
  | Some b =>
      match kind b with
      | ClassKind c =>
          whenM (seen_open_brace b)
            (check_constructor (default [] (last (split (py "::") (c_name c)))) line)
      | _ => mret ()
      end
  | None => mret ()
  end.

(** ** Function calls *)

(** The text inside the first control structure found, or the whole line. *)
Definition fncall_of (line : str) : str :=
  match re_search (rx "\bif\s*\((.*)\)\s*{") line with
  | Some m => group_ m 1
  | None =>
  match re_search (rx "\bfor\s*\((.*)\)\s*{") line with
  | Some m => group_ m 1
  | None =>
  match re_search (rx "\bwhile\s*\((.*)\)\s*[{;]") line with
  | Some m => group_ m 1
  | None =>
  match re_search (rx "\bswitch\s*\((.*)\)\s*{") line with
  | Some m => group_ m 1
  | None => line
  end end end end.

Definition CheckSpacingForFunctionCall : lint unit :=
  line ← elided_line clean_lines linenum;
  let fncall := fncall_of line in
  whenM (negb (search_ "\b(if|for|while|switch|return|new|delete|catch|sizeof)\b" fncall)
         && negb (search_ " \([^)]+\)\([^)]*(\)|,$)" fncall)
         && negb (search_ " \([^)]+\)\[[^\]]+\]" fncall))
    ((if search_ "\w\s*\(\s(?!\s*\\$)" fncall then
        complain "whitespace/parens" 4 (py "Extra space after ( in function call")
      else whenM (search_ "\(\s+(?!(\s*\\)|\()" fncall)
        (complain "whitespace/parens" 2 (py "Extra space after ("))) ;;
     whenM (search_ "\w\s+\(" fncall
            && negb (search_ "#\s*define|typedef|using\s+\w+\s*=" fncall)
            && negb (search_ "\w\s+\((\w+::)*\*\w+\)\(" fncall)
            && negb (search_ "\bcase\s+\(" fncall))
       (if search_ "\boperator_*\b" line
        then complain "whitespace/parens" 0 (py "Extra space before ( in function call")
        else complain "whitespace/parens" 4 (py "Extra space before ( in function call")) ;;
     whenM (search_ "[^)]\s+\)\s*[^{\s]" fncall)
       (if search_ "^\s+\)" fncall
        then complain "whitespace/parens" 2 (py "Closing ) should be moved to the previous line")
        else complain "whitespace/parens" 2 (py "Extra space before )"))).

(** ** Indentation in namespaces

    [IsForwardClassDeclaration] and [IsMacroDefinition] are in LintChecks. *)

(** [stack[-2]] *)
Definition second (n : NestingState) : option nat := stack n !! 1.

Definition is_namespace (b : option block) : bool :=
  match kind <$> b with Some (NamespaceInfo _ _) => true | _ => false end.
Definition checks_indentation (b : option block) : bool :=
  match b with Some b => check_namespace_indentation b | None => false end.

Definition IsBlockInNameSpace (nesting_state : NestingState) (is_forward_declaration : bool) : bool :=
  if is_forward_declaration then is_namespace (top nesting_state)
  else (1 <? length (stack nesting_state))%nat
       && checks_indentation (top nesting_state)
       && is_namespace (r ← second nesting_state; heap nesting_state !! r).

Definition ShouldCheckNamespaceIndentation (nesting_state : NestingState)
    (is_namespace_indent_item : bool) (raw_lines_no_comments : list str) : lint bool :=
  is_forward_declaration ← IsForwardClassDeclaration raw_lines_no_comments linenum;
  if negb (is_namespace_indent_item || is_forward_declaration) then mret false
  else
    macro ← IsMacroDefinition raw_lines_no_comments linenum;
    mret (negb macro && IsBlockInNameSpace nesting_state is_forward_declaration).

Definition CheckItemIndentationInNamespace (raw_lines_no_comments : list str) : lint unit :=
  line ← line_at raw_lines_no_comments linenum;
  whenM (match_ "^\s+" line)
    (complain "runtime/indentation_namespace" 4 (py "Do not indent within a namespace")).

(** Blocks are compared by identity: [previous_stack_top] is the very object below the top. *)
Definition is_namespace_indent_item (n : NestingState) : bool :=
  (1 <? length (stack n))%nat && checks_indentation (top n)
  && is_namespace (r ← previous_stack_top n; heap n !! r)
  && bool_decide (previous_stack_top n = second n).

Definition CheckForNamespaceIndentation (nesting_state : NestingState) : lint unit :=
  should ← ShouldCheckNamespaceIndentation nesting_state
             (is_namespace_indent_item nesting_state) (elided clean_lines);
  whenM should (CheckItemIndentationInNamespace (elided clean_lines)).

(** ** Lengths of functions *)

(** What the search for the body of a function finds. *)
Inductive body_search :=
| NoBody
(** A semicolon or a closing brace: a declaration, or a trivial function. *)
| Ignored
(** An opening brace, with the lines up to it joined. *)
| Body (joined_line : str).

Fixpoint find_body (rest : list str) (joined_line : str) : body_search :=
  match rest with
  | [] => NoBody
  | start_line :: rest =>
      let joined_line := joined_line ++ py " " ++ lstrip start_line in
      if search_ "(;|})" start_line then Ignored
      else if search_ "{" start_line then Body joined_line
      else find_body rest joined_line
  end.

Definition function_re : regex := rx "(\w(\w|::|\*|\&|\s)*)\(".

Definition is_function_name (function_name : str) : bool :=
  str_eqb function_name (py "TEST") || str_eqb function_name (py "TEST_F")
  || negb (match_ "[A-Z_]+$" function_name).

(** The name that is reported; [None]: the [.group] of a failed search. *)
Definition function_of (line joined_line : str) : option str :=
  m ← re_search (rx "((\w|:)*)\(") line;
  let function := group_ m 1 in
  Some (if match_ "TEST" function then
          function ++ match re_search (rx "(\(.*\))") joined_line with
                      | Some p => group_ p 1
                      | None => []
                      end
        else function ++ py "()").

(** The new state of [function_state]. *)
Definition CheckForFunctionLengths (function_state : FunctionState.t) : lint FunctionState.t :=
  line ← line_at (lines clean_lines) linenum;
  starting_func ←
    match re_match function_re line with
    | Some m =>
        match last (split_ws (group_ m 1)) with
        | Some function_name => mret (is_function_name function_name)
        | None => raiseM IndexError
        end
    | None => mret false
    end;
  if (starting_func : bool) then
    match find_body (drop (Z.to_nat linenum)
                       (take (Z.to_nat (NumLines clean_lines)) (lines clean_lines))) [] with
    | NoBody =>
        complain "readability/fn_size" 5 (py "Lint failed to find start of function body.") ;;
        mret function_state
    | Ignored => mret function_state
    | Body joined_line =>
        match function_of line joined_line with
        | Some function => mret (FunctionState.Begin function function_state)
        | None => raiseM AttributeError
        end
    end
  else if match_ "^\}\s*$" line then
    FunctionState.Check_ function_state error filename linenum ;;
    mret (FunctionState.End_ function_state)
  else if negb (match_ "^\s*$" line) then mret (FunctionState.Count function_state)
  else mret function_state.

(** ** Comments *)
Definition _RE_PATTERN_TODO : regex := rx "^//(\s*)TODO(\(.+?\))?:?(\s|$)?".

(** [c in string.whitespace] *)
Definition string_whitespace (c : char) : bool := ((9 <=? c) && (c <=? 13) || (c =? 32))%N.

Definition code_at (line : str) (i : Z) : bool :=
  (0 <=? i)%Z && match line !! Z.to_nat i with Some c => negb (string_whitespace c) | None => false end.

Definition check_todo (comment : str) : lint unit :=
  match re_match _RE_PATTERN_TODO comment with
  | None => mret ()
  | Some m =>
      whenM (1 <? length (group_ m 1))%nat
        (complain "whitespace/todo" 2 (py "Too many spaces before TODO")) ;;
      whenM (match group m 2 with Some (_ :: _) => false | _ => true end)
        (complain "readability/todo" 2
           (py "Missing username in TODO; it should look like \x22// TODO(my_username): Stuff.\x22")) ;;
      whenM (bool_decide (group m 3 ≠ Some (py " ")) && bool_decide (group m 3 ≠ Some []))
        (complain "whitespace/todo" 2 (py "TODO(my_username) should be followed by a space"))
  end.

Definition CheckComment (line : str) (next_line_start : Z) : lint unit :=
  match find_nat (py "//") line with
  | None => mret ()
  | Some commentpos =>
      let before := take commentpos line in
      let p := Z.of_nat commentpos in
      if ((count (py "\x22") before - count (py "\\\x22") before) mod 2 =? 0)%Z then
        whenM (negb (match_ "^.*{ *//" line && (next_line_start =? p)%Z)
               && (code_at line (p - 1) || code_at line (p - 2)))
          (complain "whitespace/comments" 2
             (py "At least two spaces is best between code and comments")) ;;
        let comment := drop commentpos line in
        check_todo comment ;;
        whenM (match_ "//[^ ]*\w" comment && negb (match_ "(///|//\!)(\s+|$)" comment))
          (complain "whitespace/comments" 4 (py "Should have a space between // and comment"))
      else mret ()
  end.

Definition CheckAccess (nesting_state : NestingState) : lint unit :=
  line ← elided_line clean_lines linenum;
  match re_match (rx "\s*(DISALLOW_COPY_AND_ASSIGN|DISALLOW_IMPLICIT_CONSTRUCTORS)") line with
  | None => mret ()
  | Some m =>
      match kind <$> top nesting_state with
      | Some (ClassKind c) =>
          whenM (negb (str_eqb (access c) (py "private")))
            (complain "readability/constructors" 3 (group_ m 1 ++ py " must be in the private: section"))
      | _ => mret ()
      end
  end.

(** ** Spacing *)
Definition CheckSpacing (nesting_state : NestingState) : lint unit :=
  let raw := lines_without_raw_strings clean_lines in
  line ← line_at raw linenum;
  whenM (IsBlankLine line && negb (InNamespaceBody nesting_state) && negb (InExternC nesting_state))
    (prev_line ← elided_line clean_lines (linenum - 1);
     whenM (match rfind_nat (py "{") prev_line with
            | Some prevbrace => (find (py "}") (drop prevbrace prev_line) =? -1)%Z
            | None => false
            end
            && negb (blank_line_exception (elided clean_lines) linenum prev_line))
       (complain "whitespace/blank_line" 2
          (py "Redundant blank line at the start of a code block should be deleted.")) ;;
     (if (linenum + 1 <? NumLines clean_lines)%Z then
        next_line ← line_at raw (linenum + 1);
        whenM (match next_line with [] => false | _ => true end
               && match_ "\s*}" next_line && (find (py "} else ") next_line =? -1)%Z)
          (complain "whitespace/blank_line" 3
             (py "Redundant blank line at the end of a code block should be deleted."))
      else mret ()) ;;
     match re_match (rx "\s*(public|protected|private):") prev_line with
     | Some m => complain "whitespace/blank_line" 3
                   (py "Do not leave a blank line after \x22" ++ group_ m 1 ++ py ":\x22")
     | None => mret ()
     end) ;;
  next_line_start ←
    (if (linenum + 1 <? NumLines clean_lines)%Z then
       next_line ← line_at raw (linenum + 1);
       mret (Z.of_nat (length next_line) - Z.of_nat (length (lstrip next_line)))%Z
     else mret 0%Z);
  CheckComment line next_line_start ;;
  line ← elided_line clean_lines linenum;
  whenM (extra_space_before_bracket line)
    (complain "whitespace/braces" 5 (py "Extra space before [")) ;;
  whenM (missing_space_around_colon line)
    (complain "whitespace/forcolon" 2 (py "Missing space around colon in range-based for loop")).

(** A [<] or a [>] without spaces that [close], of LintExpr, does not pair. *)
Definition check_angle (r : regex) (close : nat → nat → res pyexn (str * Z * Z)) (op : string)
    (line : str) : lint unit :=
  match re_match r line with
  | None => mret ()
  | Some m =>
      '(_, _, pos) ← liftM (close (Z.to_nat linenum) (length (group_ m 1)));
      whenM (pos <=? -1)%Z
        (complain "whitespace/operators" 3 (py "Missing spaces around " ++ py op))
  end.

Definition CheckOperatorSpacing : lint unit :=
  line ← elided_line clean_lines linenum;
  line ← liftM (mask_operators (length line) line);
  whenM (missing_spaces_around_assignment line)
    (complain "whitespace/operators" 4 (py "Missing spaces around =")) ;;
  match re_search comparison_re line with
  | Some m => complain "whitespace/operators" 3 (py "Missing spaces around " ++ group_ m 1)
  | None =>
      if match_ "#.*include" line then mret ()
      else
        check_angle less_re (CloseExpression clean_lines) "<" line ;;
        check_angle greater_re (ReverseCloseExpression clean_lines) ">" line
  end ;;
  match re_search shift_re line with
  | Some m =>
      whenM (negb (isdigit (group_ m 1) && isdigit (group_ m 2))
             && negb (str_eqb (group_ m 1) (py "operator") && str_eqb (group_ m 2) (py ";")))
        (complain "whitespace/operators" 3 (py "Missing spaces around <<"))
  | None => mret ()
  end ;;
  whenM (search_ ">>[a-zA-Z_]" line)
    (complain "whitespace/operators" 3 (py "Missing spaces around >>")) ;;
  match re_search unary_re line with
  | Some m => complain "whitespace/operators" 4 (py "Extra space for operator " ++ group_ m 1)
  | None => mret ()
  end.

Definition CheckParenthesisSpacing : lint unit :=
  line ← elided_line clean_lines linenum;
  match re_search keyword_paren_re line with
  | Some m => complain "whitespace/parens" 5 (py "Missing space before ( in " ++ group_ m 1)
  | None => mret ()
  end ;;
  match re_search control_re line with
  | None => mret ()
  | Some m =>
      let before := length (group_ m 2) in
      let after := length (group_ m 4) in
      whenM (negb (before =? after)%nat
             && negb (str_eqb (group_ m 3) (py ";") && (before =? 1 + after)%nat
                      || (before =? 0)%nat && search_ "\bfor\s*\(.*; \)" line))
        (complain "whitespace/parens" 5 (py "Mismatching spaces inside () in " ++ group_ m 1)) ;;
      whenM (1 <? before)%nat
        (complain "whitespace/parens" 5
           (py "Should have zero or one spaces inside ( and ) in " ++ group_ m 1))
  end.

Definition CheckCommaSpacing : lint unit :=
  line ← elided_line clean_lines linenum;
  comma ← (if search_ ",[^,\s]" (re_sub (rx "\boperator\s*,\s*\(") (λ _, py "F(") line)
           then raw_line ← line_at (lines_without_raw_strings clean_lines) linenum;
                mret (search_ ",[^,\s]" raw_line)
           else mret false);
  whenM comma (complain "whitespace/comma" 3 (py "Missing space after ,")) ;;
  whenM (search_ ";[^\s};\\)/]" line)
    (complain "whitespace/semicolon" 3 (py "Missing space after ;")).

(** [elided[offset]] for [offset] from [endlinenum + 1] below
    [min(endlinenum + 3, NumLines() - 1)], joined. *)
Definition following_lines (endlinenum : Z) : str :=
  let stop := Z.min (endlinenum + 3) (NumLines clean_lines - 1) in
  mjoin (take (Z.to_nat (stop - (endlinenum + 1)))
           (drop (Z.to_nat (endlinenum + 1)) (elided clean_lines))).

Definition CheckBracesSpacing : lint unit :=
  line ← elided_line clean_lines linenum;
  match re_match brace_re line with
  | None => mret ()
  | Some m =>
      '(endline, endlinenum, endpos) ←
        liftM (CloseExpression clean_lines (Z.to_nat linenum) (length (group_ m 1)));
      let trailing_text := if (endpos >? -1)%Z then drop (Z.to_nat endpos) endline else [] in
      let trailing_text := trailing_text ++ following_lines endlinenum in
      whenM (negb (match_ "^[\s}]*[{.;,)<>\]:]" trailing_text))
        (complain "whitespace/braces" 5 (py "Missing space before {"))
  end ;;
  whenM (search_ "}else" line)
    (complain "whitespace/braces" 5 (py "Missing space before else")) ;;
  if search_ ":\s*;\s*$" line then
    complain "whitespace/semicolon" 5
      (py "Semicolon defining empty statement. Use {} instead.")
  else if search_ "^\s*;\s*$" line then
    complain "whitespace/semicolon" 5
      (py "Line contains only semicolon. If this should be an empty statement, use {} instead.")
  else whenM (search_ "\s+;\s*$" line && negb (search_ "\bfor\b" line))
    (complain "whitespace/semicolon" 5
       (py "Extra space before last semicolon. If this should be an empty statement, use {} instead.")).

End checks.

(** * Theorems *)

(** ** Arguments of constructors *)

Lemma absorb_spec arg rest :
  match absorb arg rest with
  | Ok (arg', rest') =>
      arg_open arg' = false ∧ join (py ",") (arg' :: rest') = join (py ",") (arg :: rest) ∧
      length rest' ≤ length rest
  | Raise e => e = IndexError ∧ arg_open (join (py ",") (arg :: rest)) = true
  end.
Proof.
  revert arg; induction rest as [|next rest IH]; intros arg; cbn [absorb].
  - destruct (arg_open arg) eqn:E; [done|]. split_and!; done.
  - destruct (arg_open arg) eqn:E; [|split_and!; done].
    specialize (IH (arg ++ py "," ++ next)).
    assert (Hj : join (py ",") ((arg ++ py "," ++ next) :: rest) = join (py ",") (arg :: next :: rest)).
    { rewrite (join_cons _ arg) by done. destruct rest; cbn [join]; by norm_app. }
    destruct (absorb _ rest) as [[a r]|e].
    + destruct IH as (H1&H2&H3). split_and!; [done|by rewrite H2|cbn; lia].
    + destruct IH as [-> H]. split; [done|]. by rewrite <- Hj.
Qed.

Lemma collapse_args_spec fuel l :
  length l ≤ fuel →
  match collapse_args fuel l with
  | Ok args => join (py ",") args = join (py ",") l ∧ Forall (λ a, arg_open a = false) args
               ∧ (args = [] ↔ l = [])
  | Raise e => e = IndexError ∧
      ∃ l1 l2, join (py ",") l = l1 ++ l2 ∧ arg_open l2 = true
  end.
Proof.
  revert l; induction fuel as [|fuel IH]; intros [|arg rest] Hf; cbn [length] in Hf; try lia;
    cbn [collapse_args]; [done|done|].
  pose proof (absorb_spec arg rest) as Ha. destruct (absorb arg rest) as [[a r]|e].
  - destruct Ha as (Ha&Hj&Hr). cbn [mbind res_bind]. specialize (IH r ltac:(lia)).
    rewrite <- Hj. destruct (collapse_args fuel r) as [args|e]; cbn [mbind res_bind].
    + destruct IH as (IHj&IHf&IHn). split_and!; [|by constructor|done].
      destruct (decide (r = [])) as [->|Hne]; [by rewrite (proj2 IHn)|].
      rewrite !join_cons, IHj by tauto. done.
    + destruct IH as [-> (l1&l2&Hl&Hop)]. split; [done|].
      destruct (decide (r = [])) as [->|Hne].
      * exists a, []. cbn in Hl. symmetry in Hl. apply app_eq_nil in Hl as [-> ->]. by norm_app.
      * exists (a ++ py "," ++ l1), l2. rewrite join_cons, Hl by done. by norm_app.
  - destruct Ha as [-> Ha]. split; [done|]. by eexists [], _.
Qed.


(** ** Names of operators *)

Definition operator_parts : list part :=
  [Plain RBol;
   Cap 1 (RCat (RStar true RAny) (RCat (RWordB false)
     (rlit (py "operator") (RWordB false))));
   Cap 2 (RPlus true (RSet false [IClass CNSpace]));
   Cap 3 (RCat (RStar true (RSet false [IClass CSpace])) (RCat (RChar 40) (RStar true RAny)))].

Lemma operator_re_parts : operator_name_re = parts_re (operator_parts ++ [Plain REol]).
Proof. vm_compute. reflexivity. Qed.

Lemma operator_match line m :
  10%N ∉ line → re_match operator_name_re line = Some m →
  ∃ u a v t, line = u ++ (a :: v) ++ t ∧ a ≠ 95%N ∧
    group_ m 1 = u ∧ group_ m 2 = a :: v ∧ group_ m 3 = t.
Proof.
  intros Hnl H.
  destruct (re_match_line _ _ _ _ operator_re_parts eq_refl Hnl H) as (ws&c'&Es&Hd&Hg).
  unfold operator_parts in Hd. read_parts Hd.
  apply (den_bol_read _ _ _ _ Hd0) in Hr as ->.
  destruct (den_plus_set_read _ _ _ _ _ _ _ Hd2 Hr1) as (a&v&->&_).
  exists w0, a, v, w2. unfold group_.
  rewrite (Hg 1 _ _ _ eq_refl eq_refl), (Hg 2 _ _ _ eq_refl eq_refl),
    (Hg 3 _ _ _ eq_refl eq_refl). clear H. repeat split.
  - rewrite Es. cbn [concat]. by norm_app.
  - (* the word ends before the name *)
    destruct Hd1 as (cy&_&cz&_&Hl). apply den_rlit in Hl as [Hb ->].
    destruct Hr1 as [Hr1 _]. unfold at_word_boundary in Hb. rewrite Hr1 in Hb.
    intros ->. discriminate Hb.
Qed.

(** The characters a round can replace. *)
Definition unmasked (line : str) : nat := length (filter (λ c, c ≠ 95%N) line).

(** Each character is kept or replaced by an underscore. *)
Definition masked_as : str → str → Prop := Forall2 (λ c d, d = c ∨ d = 95%N).

Lemma masked_as_refl s : masked_as s s.
Proof. apply Forall_Forall2_diag, Forall_forall. by left. Qed.

Lemma masked_as_trans s t u : masked_as s t → masked_as t u → masked_as s u.
Proof.
  intros H. revert u. induction H as [|c d s t Hcd _ IH]; intros u Hu; [by inversion Hu; constructor|].
  inversion Hu as [|? e ? u' Hde Hu']; subst. constructor; [|by apply IH].
  destruct Hcd as [->| ->], Hde as [->| ->]; auto.
Qed.

Lemma filter_replicate_mask n : filter (λ c, c ≠ 95%N) (replicate n 95%N) = [].
Proof. induction n as [|n IH]; [done|]. cbn [replicate]. by rewrite filter_cons_False by tauto. Qed.

Lemma mask_total line :
  10%N ∉ line →
  ∃ r, mask_operators (length line) line = Ok r ∧
    masked_as line r ∧ re_match operator_name_re r = None.
Proof.
  assert (Hgo : ∀ fuel line, unmasked line ≤ fuel → 10%N ∉ line →
    ∃ r, mask_operators fuel line = Ok r ∧
      masked_as line r ∧ re_match operator_name_re r = None).
  2: { intros Hnl. apply Hgo; [|done]. apply length_filter. }
  clear line. intros fuel. induction fuel as [|fuel IH]; intros line Hf Hnl; cbn [mask_operators];
    (destruct (re_match operator_name_re line) as [m|] eqn:Em;
      [|exists line; split_and!; [done| |done]; apply masked_as_refl]);
    destruct (operator_match line m Hnl Em) as (u&a&v&t&->&Ha&Hg1&Hg2&Hg3).
  - exfalso. unfold unmasked in Hf. rewrite filter_app, length_app in Hf. cbn [app] in Hf.
    rewrite filter_cons_True in Hf by done. cbn in Hf. lia.
  - rewrite Hg1, Hg2, Hg3. set (line' := u ++ replicate (length (a :: v)) 95%N ++ t).
    assert (Hrel : masked_as (u ++ (a :: v) ++ t) line').
    { apply Forall2_app; [apply masked_as_refl|].
      apply Forall2_app; [|apply masked_as_refl].
      apply Forall2_replicate_r; [done|]. apply Forall_forall. by right. }
    destruct (IH line') as (r&Hr&Hrr&Hn).
    + unfold unmasked, line' in *. rewrite !filter_app, !length_app in *. cbn [app] in Hf.
      rewrite filter_cons_True in Hf by done. rewrite filter_replicate_mask. cbn [length] in *. lia.
    + unfold line'. rewrite !elem_of_app in *. intros [H|[H|H]]; [tauto| |tauto].
      apply elem_of_replicate in H as [H _]. done.
    + exists r. split_and!; [done| |done].
      by eapply masked_as_trans.
Qed.

(** The loop over the names of operator functions terminates; a line keeps its length,
    every character stays what it is or becomes an underscore, and no operator name is
    left, so that columns found in the masked line are columns of the line. *)
Theorem mask_operators_total line :
  10%N ∉ line →
  ∃ r, mask_operators (length line) line = Ok r ∧
    masked_as line r ∧ re_match operator_name_re r = None.
Proof. apply mask_total. Qed.

Lemma mask_operators_total_witness :
  (10%N ∉ py "a operator<(b) operator==(c)") ∧
  ∃ r, mask_operators 28 (py "a operator<(b) operator==(c)") = Ok r ∧
    masked_as (py "a operator<(b) operator==(c)") r ∧
    re_match operator_name_re r = None.
Proof.
  assert (Hn : 10%N ∉ py "a operator<(b) operator==(c)") by by_decision.
  split; [exact Hn|]. exact (mask_operators_total _ Hn).
Defined.

(** ** No check of the spacing fails *)

Lemma line_at_yields (l : list str) i line :
  (0 ≤ i)%Z → l !! Z.to_nat i = Some line → yields (λ r, r = line) (line_at l i : lint str).
Proof.
  intros Hi Hl. unfold line_at, py_index, norm_index.
  rewrite (decide_False (P := (i < 0)%Z)) by lia. rewrite decide_False by lia. rewrite Hl.
  by apply yields_ret.
Qed.

Lemma line_at_some (l : list str) i :
  (- Z.of_nat (length l) ≤ i < Z.of_nat (length l))%Z →
  yields (λ _, True) (line_at l i : lint str).
Proof.
  intros Hi. unfold line_at, py_index, norm_index.
  destruct (decide (i < 0)%Z); rewrite decide_False by lia.
  - destruct (lookup_lt_is_Some_2 l (Z.to_nat (i + Z.of_nat (length l))) ltac:(lia)) as [x ->].
    by apply yields_ret.
  - destruct (lookup_lt_is_Some_2 l (Z.to_nat i) ltac:(lia)) as [x ->]. by apply yields_ret.
Qed.

(** The character behind the first group. *)
Lemma char_behind_group r body a rest line m :
  r = parts_re (Plain RBol :: Cap 1 body :: Plain (RChar a) :: rest) →
  parts_ok (Plain RBol :: Cap 1 body :: Plain (RChar a) :: rest) = true →
  re_match r line = Some m → line !! length (group_ m 1) = Some a.
Proof.
  intros Hr Hok H. destruct (re_match_parts _ _ _ _ Hr Hok H) as (ws&c'&Es&Hd&Hg).
  apply parts_den_cons in Hd as (w0&ws0&c0&->&Hr0&Hd0&Hd).
  apply parts_den_cons in Hd as (w1&ws1&c1&->&Hr1&Hd1&Hd).
  apply parts_den_cons in Hd as (w2&ws2&c2&->&Hr2&Hd2&_).
  cbn [part_body] in *. apply (den_bol_read _ _ _ _ Hd0) in Hr0 as ->.
  apply (den_char_read _ _ _ _ Hd2) in Hr2 as ->.
  unfold group_. rewrite (Hg 1 _ _ _ eq_refl eq_refl). cbn [default from_option]. unfold id.
  rewrite Es. cbn [concat]. norm_app. rewrite lookup_app_r by lia. by rewrite Nat.sub_diag.
Qed.

Lemma less_match line m : re_match less_re line = Some m → line !! length (group_ m 1) = Some 60%N.
Proof.
  apply (char_behind_group _ (RCat (RStar true RAny) (RSet true [IClass CSpace; IChar 60])) _
    [Plain (RSet true [IClass CSpace; IChar 61; IChar 60; IChar 44])]); vm_compute; reflexivity.
Qed.
Lemma greater_match line m :
  re_match greater_re line = Some m → line !! length (group_ m 1) = Some 62%N.
Proof.
  apply (char_behind_group _ (RCat (RStar true RAny) (RSet true [IChar 45; IClass CSpace; IChar 62]))
    _ [Plain (RSet true [IClass CSpace; IChar 61; IChar 62; IChar 44])]); vm_compute; reflexivity.
Qed.
Lemma brace_match line m : re_match brace_re line = Some m → line !! length (group_ m 1) = Some 123%N.
Proof.
  apply (char_behind_group _ (RCat (RStar true RAny)
    (RSet true [IChar 32; IChar 40; IChar 123; IChar 62])) _ []); vm_compute; reflexivity.
Qed.

Section safety.
Context (filename : str) (cl : CleansedLines) (linenum : Z) (error : error_fn).
Hypothesis cl_aligned : aligned cl.
Hypothesis in_file : (0 ≤ linenum < NumLines cl)%Z.
Hypothesis error_returns : ∀ f n c l msg, yields (λ _, True) (error f n c l msg).

Lemma complain_yields c l msg : yields (λ _, True) (complain filename linenum error c l msg).
Proof. apply error_returns. Qed.
Hint Resolve complain_yields : yields.

Lemma current_line : ∃ line, elided cl !! Z.to_nat linenum = Some line ∧ (10%N ∉ line) ∧
  yields (λ r, r = line) (elided_line cl linenum).
Proof.
  destruct cl_aligned as [_ _ _ Hn Hb].
  destruct (lookup_lt_is_Some_2 (elided cl) (Z.to_nat linenum)) as [line Hl]; [lia|].
  exists line. split_and!; [done| |by apply line_at_yields; [lia|]].
  rewrite Forall_lookup in Hb. by eapply Hb.
Qed.

Lemma elided_yields i :
  (-1 ≤ i < NumLines cl ∧ 0 < NumLines cl)%Z → yields (λ _, True) (elided_line cl i).
Proof. clear in_file. intros Hi. apply line_at_some. destruct cl_aligned as [_ _ _ Hn _]. lia. Qed.
Lemma without_yields i :
  (0 ≤ i < NumLines cl)%Z → yields (λ _, True) (line_at (lines_without_raw_strings cl) i : lint str).
Proof. clear in_file. intros Hi. apply line_at_some. destruct cl_aligned as [_ _ Hw Hn _]. lia. Qed.
Lemma lines_yields i :
  (-1 ≤ i < NumLines cl ∧ 0 < NumLines cl)%Z → yields (λ _, True) (line_at (lines cl) i : lint str).
Proof. clear in_file. intros Hi. apply line_at_some. destruct cl_aligned as [_ Hl _ Hn _]. lia. Qed.

Ltac go :=
  yields_go ltac:(first [ apply complain_yields | apply elided_yields; lia
                        | apply without_yields; lia | apply lines_yields; lia ]).

Lemma CheckComment_safe line next : yields (λ _, True) (CheckComment filename linenum error line next).
Proof. unfold CheckComment, check_todo. cbv zeta. go. Qed.

Lemma CheckSpacing_safe n : yields (λ _, True) (CheckSpacing filename cl linenum error n).
Proof.
  unfold CheckSpacing. cbv zeta.
  repeat match goal with |- context [(?a <? ?b)%Z] => destruct (Z.ltb_spec a b) end; go.
  all: try apply CheckComment_safe.
Qed.

Lemma check_angle_safe r close op line line0 :
  elided cl !! Z.to_nat linenum = Some line0 → length line = length line0 →
  (∀ m, re_match r line = Some m → is_Some (line !! length (group_ m 1))) →
  (∀ pos, pos < length line0 → ∃ p, close (Z.to_nat linenum) pos = Ok p) →
  yields (λ _, True) (check_angle filename linenum error r close op line).
Proof.
  intros Hl Hlen Hr Hc. unfold check_angle. destruct (re_match r line) as [m|]; [|apply yields_done].
  destruct (Hr m eq_refl) as [x Hx]. apply lookup_lt_Some in Hx.
  destruct (Hc (length (group_ m 1)) ltac:(lia)) as [p Hp].
  apply yields_seq; [by eapply yields_lift|]. intros [[l i] pos]. go.
Qed.

Lemma CheckOperatorSpacing_safe :
  yields (λ _, True) (CheckOperatorSpacing filename cl linenum error).
Proof.
  destruct current_line as (line&Hl&Hnl&Hy). unfold CheckOperatorSpacing.
  eapply yields_bind; [exact Hy|]. intros ? ->.
  destruct (mask_total line Hnl) as (r&Hr&Hm&_).
  eapply (yields_bind (λ l, l = r)); [by eapply yields_lift|]. intros ? ->.
  apply Forall2_length in Hm. go.
  - eapply check_angle_safe; [done|done| |].
    + intros m Hmm. apply less_match in Hmm. by eexists.
    + intros pos Hp. destruct (close_expression_spec _ _ _ _ Hl Hp) as (x&->&_). by eexists.
  - eapply check_angle_safe; [done|done| |].
    + intros m Hmm. apply greater_match in Hmm. by eexists.
    + intros pos Hp. destruct (reverse_expression_spec _ _ _ _ Hl Hp) as (x&->&_). by eexists.
Qed.

Lemma CheckParenthesisSpacing_safe :
  yields (λ _, True) (CheckParenthesisSpacing filename cl linenum error).
Proof. unfold CheckParenthesisSpacing. go. Qed.

Lemma CheckCommaSpacing_safe : yields (λ _, True) (CheckCommaSpacing filename cl linenum error).
Proof. unfold CheckCommaSpacing. go. Qed.

Lemma CheckBracesSpacing_safe : yields (λ _, True) (CheckBracesSpacing filename cl linenum error).
Proof.
  destruct current_line as (line&Hl&Hnl&Hy). unfold CheckBracesSpacing.
  eapply yields_bind; [exact Hy|]. intros ? ->. apply yields_seq; [|go].
  destruct (re_match brace_re line) as [m|] eqn:Em; [|apply yields_done].
  apply brace_match, lookup_lt_Some in Em.
  destruct (close_expression_spec _ _ _ _ Hl Em) as (x&Hx&_).
  apply yields_seq; [by eapply yields_lift|]. intros [[l i] pos]. go.
Qed.

Lemma CheckSpacingForFunctionCall_safe :
  yields (λ _, True) (CheckSpacingForFunctionCall filename cl linenum error).
Proof. unfold CheckSpacingForFunctionCall. cbv zeta. go. Qed.

Lemma CheckAccess_safe n : yields (λ _, True) (CheckAccess filename cl linenum error n).
Proof. unfold CheckAccess. go. Qed.
End safety.

Lemma file_of_aligned l :
  Forall (λ s, 10%N ∉ s) (py <$> l) → aligned (file_of l).
Proof.
  intros H. split; cbn; by rewrite ?length_fmap.
Qed.

(** The tool stops on a constructor with a comparison in a default argument: the lone [<]
    makes it look for more arguments than there are. *)
Theorem constructor_comparison_crashes filename linenum error w :
  check_constructor filename linenum error (py "Foo") (py "  Foo(int a, bool b = 1 < 2);") w
  = (Raise IndexError, w).
Proof. vm_compute. reflexivity. Qed.

(** ** Lengths of functions *)

(** The check on lines one after the other. *)
Fixpoint function_lengths (filename : str) (cl : CleansedLines) (error : error_fn)
    (linenums : list Z) (st : FunctionState.t) : lint FunctionState.t :=
  match linenums with
  | [] => mret st
  | i :: linenums =>
      st ← CheckForFunctionLengths filename cl i error st;
      function_lengths filename cl error linenums st
  end.

Definition starts_function (line : str) : bool :=
  match re_match function_re line with
  | Some m => match last (split_ws (group_ m 1)) with
              | Some function_name => is_function_name function_name
              | None => true
              end
  | None => false
  end.
Definition closes_function (line : str) : bool := match_ "^\}\s*$" line.
Definition blank (line : str) : bool := match_ "^\s*$" line.

(** A line that does not start a function. *)
Lemma function_line filename cl i error st line w :
  (0 ≤ i)%Z → lines cl !! Z.to_nat i = Some line → starts_function line = false →
  CheckForFunctionLengths filename cl i error st w =
  (if closes_function line
   then FunctionState.Check_ st error filename i ;; mret (FunctionState.End_ st)
   else mret (if blank line then st else FunctionState.Count st)) w.
Proof.
  intros Hi Hl Hs. unfold CheckForFunctionLengths.
  destruct (line_at_yields (lines cl) i line Hi Hl w) as (a&w'&E&->).
  assert (w' = w) as ->.
  { unfold line_at in E. destruct (py_index _ _); by injection E. }
  unfold mbind at 1, M_bind at 1. rewrite E. unfold starts_function in Hs.
  unfold closes_function, blank.
  destruct (re_match function_re line) as [m|].
  - destruct (last (split_ws (group_ m 1))) as [f|]; [|done].
    unfold mbind at 1, M_bind at 1. cbn [mret M_ret]. rewrite Hs.
    destruct (match_ "^\}\s*$" line); [done|]. by destruct (match_ "^\s*$" line).
  - unfold mbind at 1, M_bind at 1. cbn [mret M_ret].
    destruct (match_ "^\}\s*$" line); [done|]. by destruct (match_ "^\s*$" line).
Qed.

Lemma function_body filename cl error i body f n w rest :
  (0 ≤ i)%Z →
  (∀ k line, body !! k = Some line → lines cl !! (Z.to_nat i + k)%nat = Some line) →
  Forall (λ l, starts_function l = false ∧ closes_function l = false) body →
  function_lengths filename cl error (seqZ i (Z.of_nat (length body)) ++ rest)
    (FunctionState.make true n f) w
  = function_lengths filename cl error rest
      (FunctionState.make true (n + Z.of_nat (length (filter (λ l, blank l = false) body))) f) w.
Proof.
  revert i n. induction body as [|line body IH]; intros i n Hi Hl Hb.
  - cbn. by rewrite Z.add_0_r.
  - apply Forall_cons in Hb as [[Hs Hc] Hb]. cbn [length].
    rewrite seqZ_cons by lia. cbn [app function_lengths]. unfold mbind at 1, M_bind at 1.
    rewrite (function_line _ _ _ _ _ line); [|lia| |exact Hs].
    2: { rewrite <- (Nat.add_0_r (Z.to_nat i)). by apply (Hl 0). }
    rewrite Hc. cbn [mret M_ret].
    replace (Z.pred (Z.of_nat (S (length body)))) with (Z.of_nat (length body)) by lia.
    assert (Hl' : ∀ k l, body !! k = Some l → lines cl !! (Z.to_nat (Z.succ i) + k)%nat = Some l).
    { intros k l Hk. replace (Z.to_nat (Z.succ i) + k)%nat with (Z.to_nat i + S k)%nat by lia.
      by apply (Hl (S k)). }
    rewrite filter_cons. destruct (blank line) eqn:Ebl.
    + rewrite decide_False by done. rewrite IH by first [assumption | lia]. done.
    + rewrite decide_True by done. unfold FunctionState.Count. cbn [FunctionState.in_a_function
        FunctionState.lines_in_function FunctionState.current_function].
      rewrite IH by first [assumption | lia]. cbn [length]. do 2 f_equal. lia.
Qed.

(** C37: From the first line of a body to the closing brace in the first column the lines that
    are not blank are counted, and at the brace the count - neither more nor less - is what
    is compared with the limit, under the name the function was found with; after that no
    function is open. *)
Theorem function_length_counted filename cl error i body last_line f st w :
  (0 ≤ i)%Z →
  (∀ k line, (body ++ [last_line]) !! k = Some line →
     lines cl !! (Z.to_nat i + k)%nat = Some line) →
  Forall (λ l, starts_function l = false ∧ closes_function l = false) body →
  starts_function last_line = false → closes_function last_line = true →
  let n := Z.of_nat (length (filter (λ l, blank l = false) body)) in
  let e := (i + Z.of_nat (length body))%Z in
  function_lengths filename cl error (seqZ i (Z.of_nat (length body) + 1))
    (FunctionState.Begin f st) w
  = (FunctionState.Check_ (FunctionState.make true n f) error filename e ;;
     mret (FunctionState.make false n f)) w.
Proof.
  intros Hi Hl Hb Hs Hc n e.
  rewrite seqZ_app by lia.
  rewrite (seqZ_cons (i + Z.of_nat (length body)) 1) by lia. change (seqZ _ (Z.pred 1)) with (@nil Z).
  unfold FunctionState.Begin. rewrite function_body; [|done| |done].
  2: { intros k line Hk. apply Hl. by rewrite lookup_app_l by (by eapply lookup_lt_Some). }
  cbn [function_lengths]. unfold mbind at 1, M_bind at 1.
  rewrite (function_line _ _ _ _ _ last_line); [|lia| |done].
  2: { replace (Z.to_nat _) with (Z.to_nat i + length body)%nat by lia. apply Hl.
       rewrite lookup_app_r by lia. by rewrite Nat.sub_diag. }
  rewrite Hc, Z.add_0_l. fold n e. unfold mbind, M_bind.
  by destruct (FunctionState.Check_ _ _ _ _ w) as [[[]|] w'].
Qed.

Lemma function_length_counted_witness :
  ∃ r, function_lengths (py "f.cc") (file_of ["int f() {"; "  a;"; ""; "  b;"; "}"])
         (λ _ _ _ _ _, mret ()) (seqZ 1 4) (FunctionState.Begin (py "f()") FunctionState.__init__)
         initial_world = (Ok r, initial_world) ∧
       r = FunctionState.make false 2 (py "f()").
Proof.
  eexists. split; [|reflexivity].
  refine (eq_trans (function_length_counted (py "f.cc") (file_of ["int f() {"; "  a;"; ""; "  b;"; "}"])
    (λ _ _ _ _ _, mret ()) 1 [py "  a;"; []; py "  b;"] (py "}") (py "f()") FunctionState.__init__
    initial_world _ _ _ _ _) _); try done.
  - repeat constructor; vm_compute; reflexivity.
Defined.
