(* ===== verification/LintRValue.v ===== *)
(** * cpplint.py: rvalue references

    The check of [&&] from [IsDecltype] to [CheckRValueReference]: whether the text before
    it is a type, whether the reference is allowed, and the type names of the template the
    function belongs to. *)

From S2P Require Import Prelude PyStr PyRe PyReFacts LintData LintState LintLines LintInclude.
From S2P Require Import LintExpr LintChecks LintNesting LintSpacing.

(** A line of the file by number. *)
Definition elided_at (clean_lines : CleansedLines) (linenum : nat) : res pyexn str :=
  match elided clean_lines !! linenum with Some line => Ok line | None => Raise IndexError end.

Definition IsDecltype (clean_lines : CleansedLines) (linenum column : nat) : res pyexn bool :=
  '(text, _, start_col) ← ReverseCloseExpression clean_lines linenum column;
  if (start_col <? 0)%Z then Ok false
  else Ok (search_ "\bdecltype\s*$" (take (Z.to_nat start_col) text)).

Definition IsTemplateParameterList (clean_lines : CleansedLines) (linenum column : nat)
    : res pyexn bool :=
  '(_, startline, startpos) ← ReverseCloseExpression clean_lines linenum column;
  if (startpos >? -1)%Z then
    line ← elided_at clean_lines (Z.to_nat startline);
    Ok (search_ "\btemplate\s*$" (take (Z.to_nat startpos) line))
  else Ok false.

Definition word_left_re : regex := rx "^(.*)(\b\w+|[>*)&])\s*$".
Definition symbol_re : regex := rx "^(.*)([^\w\s,])[\w\s,]*$".
Definition function_name_re : regex := rx "^(.*\S.*)\s+\w(?:\w|::)*(?:<[^<>]*>)?\s*$".
Definition cast_re : regex :=
  rx "\b(?:const_cast\s*<|static_cast\s*<|dynamic_cast\s*<|reinterpret_cast\s*<|\w+\s)\s*$".

Definition known_types : list str :=
  py <$> ["char"; "char16_t"; "char32_t"; "wchar_t"; "bool"; "short"; "int"; "long"; "signed";
          "unsigned"; "float"; "double"; "void"; "auto"; ">"; "*"; "&"]%string.

(** [while start >= 0] with [before] the lines above [start], the nearest first: the line of
    the nearest symbol, what is before it there and the symbol. *)
Fixpoint find_symbol (before : list str) (start : nat) (line : str) : option (nat * str * str) :=
  match re_match symbol_re line with
  | Some m => Some (start, group_ m 1, group_ m 2)
  | None =>
      match before with
      | [] => None
      | line :: before => find_symbol before (start - 1) line
      end
  end.

(** The up to five lines above [start], but for the first of the file. *)
Definition lines_above (elided : list str) (start : nat) : str :=
  let first := S (start - 6) in mjoin (take (start - first) (drop first elided)).

(** The [for ch in line] loop: the answer, or the depth at the end of the line. *)
Fixpoint scan_block (depth : Z) (line : str) : bool + Z :=
  match line with
  | [] => inr depth
  | ch :: line =>
      if (ch =? 59)%N then inl true
      else if (ch =? 123)%N then scan_block (depth + 1) line
      else if (ch =? 125)%N then
        if (depth - 1 =? 0)%Z then inl false else scan_block (depth - 1) line
      else scan_block depth line
  end.

Fixpoint scan_blocks (depth : Z) (lines : list str) : bool :=
  match lines with
  | [] => false
  | line :: lines =>
      match scan_block depth line with
      | inl answer => answer
      | inr depth => scan_blocks depth lines
      end
  end.

Definition in_block (n : NestingState) : bool :=
  match r ← previous_stack_top n; heap n !! r with Some b => IsBlockInfo b | None => false end.

(** What the nearest symbol says; [recurse] is the recursive call on another column. *)
Definition rvalue_at_symbol (recurse : nat → res pyexn bool) (clean_lines : CleansedLines)
    (nesting_state : NestingState) (prefix : str) (start : nat) (before_symbol symbol : str)
    : res pyexn bool :=
  if str_eqb symbol (py "}") then Ok true
  else if str_eqb symbol (py ";") then
    let before_text := lines_above (elided clean_lines) start ++ before_symbol in
    Ok (negb (search_ "for\s*\([^{};]*$" before_text))
  else if str_eqb symbol (py "{") then
    line ← elided_at clean_lines start;
    Ok (scan_blocks 1 (take (length before_symbol + 1) line
                       :: drop (S start) (elided clean_lines)))
  else if str_eqb symbol (py "(") then
    if search_ "(?:\]|\bfor|\bsizeof|\boperator\s*\S+\s*)\s*$" before_symbol then Ok true
    else if search_ "(?:\bif|\bwhile|[-+=%^(<!?:,&*]\s*)$" before_symbol then Ok false
    else
      match re_match function_name_re before_symbol with
      | Some f =>
          if search_ "\b(?:explicit|inline)$" (group_ f 1) then Ok true
          else if match re_match (rx "\s*(\w+)\((?:const\s+)?(\w+)") prefix with
                  | Some c => str_eqb (group_ c 1) (group_ c 2)
                  | None => false
                  end
          then Ok true
          else recurse (length (group_ f 1))
      | None => Ok (negb (in_block nesting_state))
      end
  else if str_eqb symbol (py ">") then
    IsTemplateParameterList clean_lines start (length before_symbol)
  else Ok false.

(** The recursion is on another column of the same line, which need not be smaller (see
    [rvalue_type_diverges]): [fuel] bounds its depth. *)
Fixpoint IsRValueType (fuel : nat) (typenames : list str) (clean_lines : CleansedLines)
    (nesting_state : NestingState) (linenum column : nat) : res pyexn bool :=
  match fuel with
  | O => Raise Diverges
  | S fuel =>
  current ← elided_at clean_lines linenum;
  let prefix := take column current in
  match re_match word_left_re prefix with
  | None => Ok false
  | Some m =>
      let suffix := drop column current in
      if match_ "&&\s*(?:[>,]|\.\.\.)" suffix then Ok true
      else if mem_str (group_ m 2) typenames || mem_str (group_ m 2) known_types then Ok true
      else if str_eqb (group_ m 2) (py ")") then
        IsDecltype clean_lines linenum (length (group_ m 1) + length (group_ m 2) - 1)
      else if matched (re_search cast_re (group_ m 1)) then Ok true
      else
        match find_symbol (reverse (take linenum (elided clean_lines))) linenum (group_ m 1) with
        | None => Ok true
        | Some (start, before_symbol, symbol) =>
            rvalue_at_symbol (IsRValueType fuel typenames clean_lines nesting_state linenum)
              clean_lines nesting_state prefix start before_symbol symbol
        end
  end
  end.

Definition IsDeletedOrDefault (clean_lines : CleansedLines) (linenum : nat) : res pyexn bool :=
  line ← elided_at clean_lines linenum;
  match find_nat (py "(") line with
  | None => Ok false
  | Some open_paren =>
      '(close_line, _, close_paren) ← CloseExpression clean_lines linenum open_paren;
      if (close_paren <? 0)%Z then Ok false
      else Ok (match_ "\s*=\s*(?:delete|default)\b" (drop (Z.to_nat close_paren) close_line))
  end.

Definition region_re : regex := rx "GOOGLE_ALLOW_RVALUE_REFERENCES_(?:PUSH|POP)".
Definition is_region_marker (line : str) : bool := matched (re_match region_re line).

(** The regions of the PUSH and POP macros: [before] are the lines from the current one
    upwards, [after] those from the current one downwards. *)
Fixpoint rvalue_region (before after : list str) : option bool :=
  match before with
  | [] => None
  | line :: before =>
      if is_region_marker line then
        if negb (ends_with (py "PUSH") line) then Some false
        else match head (filter (λ l, is_region_marker l = true) after) with
             | Some line => Some (ends_with (py "POP") line)
             | None => rvalue_region before after
             end
      else rvalue_region before after
  end.

(** [while line]: whether all types before [&&] are among the type names. *)
Definition rvalue_re : regex := rx "^.*?(\w+)\s*&&(.*)$".

Fixpoint only_typenames (fuel : nat) (typenames : list str) (line : str) : res pyexn bool :=
  match line with
  | [] => Ok true
  | _ =>
      match re_match rvalue_re line with
      | None => Ok (find (py "&&") line <? 0)%Z
      | Some m =>
          match fuel with
          | O => Raise Diverges
          | S fuel =>
              if mem_str (group_ m 1) typenames then only_typenames fuel typenames (group_ m 2)
              else Ok false
          end
      end
  end.

Definition constructor_re : regex := rx "\s*(?:[\w<>]+::)*([\w<>]+)\s*::\s*([\w<>]+)\s*\(".

Definition IsRValueAllowed (clean_lines : CleansedLines) (linenum : nat) (typenames : list str)
    : res pyexn bool :=
  let elided := elided clean_lines in
  match rvalue_region (reverse (take linenum (drop 1 elided))) (drop linenum elided) with
  | Some allowed => Ok allowed
  | None =>
  line ← elided_at clean_lines linenum;
  if search_ "\boperator\s*=\s*\(" line then IsDeletedOrDefault clean_lines linenum
  else if match re_match constructor_re line with
          | Some m => str_eqb (group_ m 1) (group_ m 2)
          | None => false
          end
  then IsDeletedOrDefault clean_lines linenum
  else if search_ "\b(?:explicit|inline)\s+[\w<>]+\s*\(" line then
    IsDeletedOrDefault clean_lines linenum
  else
    previous_line ← match linenum with
                    | O => Ok (py "ReturnType")
                    | S i => elided_at clean_lines i
                    end;
    if match_ "\s*[\w<>]+\s*\(" line
       && (match_ "^\s*$" previous_line || search_ "[{}:;]\s*$" previous_line)
    then IsDeletedOrDefault clean_lines linenum
    else only_typenames (length line) typenames line
  end.

(** ** The type names of a template *)

(** [while func_line > 0]: the nearest line up to [linenum] with a parenthesis; none behind
    a blank line or at the first line of the file. *)
Fixpoint function_line (elided : list str) (func_line : nat) : res pyexn (option nat) :=
  match func_line with
  | O => Ok None
  | S i =>
      match elided !! func_line with
      | None => Raise IndexError
      | Some line =>
          if match_ "^\s*$" line then Ok None
          else if contains (py "(") line then Ok (Some func_line)
          else function_line elided i
      end
  end.

(** The text from column [start_col] of [start_line] to column [end_col] of [end_line]. *)
Definition text_between (elided : list str) (start_line start_col end_line end_col : nat) : str :=
  if (start_line <? end_line)%nat then
    match elided !! start_line with Some line => drop start_col line | None => [] end
    ++ mjoin (take (end_line - S start_line) (drop (S start_line) elided))
    ++ match elided !! end_line with Some line => take end_col line | None => [] end
  else match elided !! end_line with
       | Some line => take (end_col - start_col) (drop start_col line)
       | None => []
       end.

Definition template_start_re : regex := rx "^(\s*template\s*)<".
Definition template_end_re : regex := rx "^(.*)>\s*$".

Definition argument_list_at (clean_lines : CleansedLines) (func_line : nat) : res pyexn str :=
  line ← elided_at clean_lines func_line;
  match re_match template_start_re line with
  | Some m =>
      let start_col := length (group_ m 1) in
      '(_, end_line, end_col) ← CloseExpression clean_lines func_line start_col;
      if (end_col >? -1)%Z && (end_line =? Z.of_nat func_line)%Z
      then Ok (take (Z.to_nat end_col - (start_col + 1)) (drop (start_col + 1) line))
      else Ok []
  | None =>
      if (1 <? func_line)%nat then
        previous ← elided_at clean_lines (func_line - 1);
        match re_match template_end_re previous with
        | Some m =>
            let end_col := length (group_ m 1) in
            '(_, start_line, start_col) ← ReverseCloseExpression clean_lines (func_line - 1) end_col;
            if (start_col >? -1)%Z
            then Ok (text_between (elided clean_lines) (Z.to_nat start_line)
                       (Z.to_nat start_col + 1) (func_line - 1) end_col)
            else Ok []
        | None => Ok []
        end
      else Ok []
  end.

Definition typename_re : regex := rx "^[,\s]*(?:typename|class)(?:\.\.\.)?\s+(\w+)(.*)$".

(** The set of type names, as a list; every round shortens the text. *)
Fixpoint type_names (fuel : nat) (argument_list : str) : res pyexn (list str) :=
  match re_match typename_re argument_list with
  | None => Ok []
  | Some m =>
      match fuel with
      | O => Raise Diverges
      | S fuel =>
          typenames ← type_names fuel (group_ m 2);
          Ok (group_ m 1 :: typenames)
      end
  end.

Definition GetTemplateArgs (clean_lines : CleansedLines) (linenum : nat) : res pyexn (list str) :=
  func_line ← function_line (elided clean_lines) linenum;
  match func_line with
  | None => Ok []
  | Some func_line =>
      argument_list ← argument_list_at clean_lines func_line;
      match argument_list with
      | [] => Ok []
      | _ => type_names (length argument_list) argument_list
      end
  end.

(** [fuel] is the depth of the recursion of [IsRValueType]. *)
Definition CheckRValueReference (fuel : nat) (filename : str) (clean_lines : CleansedLines)
    (linenum : Z) (nesting_state : NestingState) (error : error_fn) : lint unit :=
  line ← elided_line clean_lines linenum;
  let match1 := re_match (rx "^(.*\S)&&") line in
  let match1 := match match1 with Some _ => match1 | None => re_match (rx "(.*)&&\S") line end in
  match match1 with
  | None => mret ()
  | Some m =>
      if contains (py "(&&)") line || matched (re_search operator_re (group_ m 1)) then mret ()
      else
        let i := Z.to_nat linenum in
        typenames ← liftM (GetTemplateArgs clean_lines i);
        let and_pos := length (group_ m 1) in
        is_type ← liftM (IsRValueType fuel typenames clean_lines nesting_state i and_pos);
        if (is_type : bool) then
          allowed ← liftM (IsRValueAllowed clean_lines i typenames);
          whenM (negb allowed)
            (error filename linenum (py "build/c++11") 3%Z
               (py "RValue references are an unapproved C++ feature."))
        else error filename linenum (py "whitespace/operators") 3%Z
               (py "Missing spaces around &&")
  end.

(** * Theorems *)

(** ** What the patterns cut off *)

Lemma word_left_match s m :
  re_match word_left_re s = Some m → length (group_ m 1) + length (group_ m 2) ≤ length s.
Proof.
  set (ps := [Plain RBol; Cap 1 (RStar true RAny);
    Cap 2 (RAlt (RCat (RWordB false) (RPlus true (RSet false [IClass CWord])))
      (RSet false [IChar 62; IChar 42; IChar 41; IChar 38]));
    Plain (RStar true (RSet false [IClass CSpace])); Plain REol]).
  intros H. destruct (re_match_parts _ _ ps _ eq_refl eq_refl H) as (ws&c'&Es&Hd&Hg).
  unfold ps in Hd. read_parts Hd. unfold group_.
  rewrite (Hg 1 _ _ _ eq_refl eq_refl), (Hg 2 _ _ _ eq_refl eq_refl), Es.
  cbn [concat default from_option]. unfold id. rewrite !length_app. lia.
Qed.

Lemma symbol_match s m : re_match symbol_re s = Some m → length (group_ m 1) < length s.
Proof.
  set (ps := [Plain RBol; Cap 1 (RStar true RAny);
    Cap 2 (RSet true [IClass CWord; IClass CSpace; IChar 44]);
    Plain (RStar true (RSet false [IClass CWord; IClass CSpace; IChar 44])); Plain REol]).
  intros H. destruct (re_match_parts _ _ ps _ eq_refl eq_refl H) as (ws&c'&Es&Hd&Hg).
  unfold ps in Hd. read_parts Hd. destruct (den_set_read _ _ _ _ _ _ Hd2 Hr1) as (a&->&_).
  unfold group_. rewrite (Hg 1 _ _ _ eq_refl eq_refl), Es.
  cbn [concat default from_option]. unfold id. rewrite !length_app. cbn [length]. lia.
Qed.

Lemma function_name_match s m :
  re_match function_name_re s = Some m → length (group_ m 1) < length s.
Proof.
  set (ps := [Plain RBol;
    Cap 1 (RCat (RStar true RAny) (RCat (RSet false [IClass CNSpace]) (RStar true RAny)));
    Plain (RPlus true (RSet false [IClass CSpace]));
    Plain (RSet false [IClass CWord]);
    Plain (RStar true (RAlt (RSet false [IClass CWord]) (RCat (RChar 58) (RChar 58))));
    Plain (ROpt true (RCat (RChar 60) (RCat (RStar true (RSet true [IChar 60; IChar 62]))
      (RChar 62))));
    Plain (RStar true (RSet false [IClass CSpace])); Plain REol]).
  intros H. destruct (re_match_parts _ _ ps _ eq_refl eq_refl H) as (ws&c'&Es&Hd&Hg).
  unfold ps in Hd. read_parts Hd. destruct (den_plus_set_read _ _ _ _ _ _ _ Hd2 Hr1) as (a&v&->&_).
  unfold group_. rewrite (Hg 1 _ _ _ eq_refl eq_refl), Es.
  cbn [concat default from_option]. unfold id. rewrite !length_app. cbn [length]. lia.
Qed.

Lemma rvalue_match s m : re_match rvalue_re s = Some m → length (group_ m 2) < length s.
Proof.
  set (ps := [Plain RBol; Plain (RStar false RAny); Cap 1 (RPlus true (RSet false [IClass CWord]));
    Plain (RStar true (RSet false [IClass CSpace])); Plain (RChar 38); Plain (RChar 38);
    Cap 2 (RStar true RAny); Plain REol]).
  intros H. destruct (re_match_parts _ _ ps _ eq_refl eq_refl H) as (ws&c'&Es&Hd&Hg).
  unfold ps in Hd. read_parts Hd. apply (den_char_read _ _ _ _ Hd4) in Hr3 as ->.
  unfold group_. rewrite (Hg 6 _ _ _ eq_refl eq_refl), Es.
  cbn [concat default from_option]. unfold id. rewrite !length_app. cbn [length]. lia.
Qed.

Lemma typename_match s m : re_match typename_re s = Some m → length (group_ m 2) < length s.
Proof.
  set (ps := [Plain RBol; Plain (RStar true (RSet false [IChar 44; IClass CSpace]));
    Plain (RAlt (rlit (py "typenam") (RChar 101)) (rlit (py "clas") (RChar 115)));
    Plain (ROpt true (rlit (py "..") (RChar 46)));
    Plain (RPlus true (RSet false [IClass CSpace]));
    Cap 1 (RPlus true (RSet false [IClass CWord])); Cap 2 (RStar true RAny); Plain REol]).
  intros H. destruct (re_match_parts _ _ ps _ eq_refl eq_refl H) as (ws&c'&Es&Hd&Hg).
  unfold ps in Hd. read_parts Hd. destruct (den_plus_set_read _ _ _ _ _ _ _ Hd4 Hr3) as (a&v&->&_).
  unfold group_. rewrite (Hg 6 _ _ _ eq_refl eq_refl), Es.
  cbn [concat default from_option]. unfold id. rewrite !length_app. cbn [length]. lia.
Qed.

Lemma template_start_match line m :
  re_match template_start_re line = Some m → line !! length (group_ m 1) = Some 60%N.
Proof.
  apply (char_behind_group _ (RCat (RStar true (RSet false [IClass CSpace]))
    (rlit (py "template") (RStar true (RSet false [IClass CSpace])))) _ []); vm_compute; reflexivity.
Qed.

Lemma template_end_match line m :
  re_match template_end_re line = Some m → line !! length (group_ m 1) = Some 62%N.
Proof.
  apply (char_behind_group _ (RStar true RAny) _
    [Plain (RStar true (RSet false [IClass CSpace])); Plain REol]); vm_compute; reflexivity.
Qed.

Lemma and_match s m :
  (re_match (rx "^(.*\S)&&") s = Some m ∨ re_match (rx "(.*)&&\S") s = Some m) →
  length (group_ m 1) ≤ length s.
Proof.
  intros [H|H]; revert H.
  - by apply (group_le _ _ [Plain RBol; Cap 1 (RCat (RStar true RAny) (RSet false [IClass CNSpace]));
      Plain (RChar 38); Plain (RChar 38)] _ 1 _ _ eq_refl eq_refl eq_refl).
  - by apply (group_le _ _ [Cap 1 (RStar true RAny); Plain (RChar 38); Plain (RChar 38);
      Plain (RSet false [IClass CNSpace])] _ 0 _ _ eq_refl eq_refl eq_refl).
Qed.

(** ** Loops that only shorten their text *)

Lemma only_typenames_total typenames fuel line :
  length line ≤ fuel → ∃ b, only_typenames fuel typenames line = Ok b.
Proof.
  revert line; induction fuel as [|fuel IH]; intros [|c line] Hf; cbn [length] in Hf; try lia;
    cbn [only_typenames]; [by eexists|by eexists|].
  destruct (re_match rvalue_re (c :: line)) as [m|] eqn:E; [|by eexists].
  apply rvalue_match in E. cbn [length] in E. destruct (mem_str _ _); [|by eexists]. apply IH. lia.
Qed.

Lemma type_names_total fuel s : length s ≤ fuel → ∃ l, type_names fuel s = Ok l.
Proof.
  revert s; induction fuel as [|fuel IH]; intros s Hf; cbn [type_names];
    (destruct (re_match typename_re s) as [m|] eqn:E; [|by eexists]);
    apply typename_match in E; [lia|].
  destruct (IH (group_ m 2)) as [l ->]; [lia|]. by eexists.
Qed.

(** ** Where the nearest symbol is *)

(** The nearest symbol above a line. *)
Definition symbol_above (elided : list str) (linenum : nat) : option (nat * str * str) :=
  match linenum with
  | O => None
  | S i => line ← elided !! i; find_symbol (reverse (take i elided)) i line
  end.

Lemma find_symbol_step elided k line :
  k ≤ length elided →
  find_symbol (reverse (take k elided)) k line =
  match re_match symbol_re line with
  | Some m => Some (k, group_ m 1, group_ m 2)
  | None => symbol_above elided k
  end.
Proof.
  intros Hk. destruct k as [|i].
  { change (reverse (take 0 elided)) with (@nil str). cbn [find_symbol symbol_above].
    by destruct (re_match _ _). }
  destruct (lookup_lt_is_Some_2 elided i ltac:(lia)) as [l Hl].
  rewrite (take_S_r _ _ _ Hl), reverse_app, reverse_singleton. cbn [app find_symbol symbol_above].
  rewrite Hl. destruct (re_match symbol_re line); [done|].
  replace (S i - 1) with i by lia. done.
Qed.

Lemma symbol_above_spec elided k start bs sym :
  k ≤ length elided → symbol_above elided k = Some (start, bs, sym) →
  start < k ∧ ∃ l, elided !! start = Some l ∧ length bs < length l.
Proof.
  induction k as [|k IH]; intros Hk; cbn [symbol_above]; [done|].
  destruct (lookup_lt_is_Some_2 elided k ltac:(lia)) as [l Hl]. rewrite Hl.
  cbn [mbind option_bind]. rewrite find_symbol_step by lia.
  destruct (re_match symbol_re l) as [m|] eqn:Em.
  - intros [= <- <- <-]. split; [lia|]. exists l. split; [done|]. by apply symbol_match.
  - intros H. apply IH in H as [H1 H2]; [|lia]. split; [lia|done].
Qed.

(** The statement of a line does not begin inside an argument list opened further up. *)
Definition statement_starts (elided : list str) (linenum : nat) : Prop :=
  ∀ start bs, symbol_above elided linenum ≠ Some (start, bs, py "(").

Lemma elided_at_some cl i line : elided cl !! i = Some line → elided_at cl i = Ok line.
Proof. unfold elided_at. by intros ->. Qed.

Lemma IsDecltype_total cl linenum column line :
  elided cl !! linenum = Some line → column < length line →
  ∃ b, IsDecltype cl linenum column = Ok b.
Proof.
  intros Hl Hc. unfold IsDecltype.
  destruct (reverse_expression_spec _ _ _ _ Hl Hc) as ([[t i] p]&->&_). cbn [mbind res_bind].
  destruct (p <? 0)%Z; by eexists.
Qed.

Lemma IsTemplateParameterList_total cl linenum column line :
  elided cl !! linenum = Some line → column < length line →
  ∃ b, IsTemplateParameterList cl linenum column = Ok b.
Proof.
  intros Hl Hc. unfold IsTemplateParameterList.
  destruct (reverse_expression_spec _ _ _ _ Hl Hc) as ([[t i] p]&->&H). cbn [mbind res_bind].
  destruct H as [[_ H2]|(k&j&c&H1&_&H2&_)]; cbn [fst snd] in *; subst; [by eexists|].
  destruct (_ >? _)%Z; [|by eexists]. rewrite Nat2Z.id, (elided_at_some _ _ _ H2). by eexists.
Qed.

Lemma rvalue_at_symbol_total recurse cl n prefix start bs sym line :
  elided cl !! start = Some line → length bs < length line →
  (∀ column, sym = py "(" → column < length bs → ∃ b, recurse column = Ok b) →
  ∃ b, rvalue_at_symbol recurse cl n prefix start bs sym = Ok b.
Proof.
  intros Hs Hb Hr. unfold rvalue_at_symbol. cbv zeta.
  destruct (str_eqb sym (py "}")); [by eexists|].
  destruct (str_eqb sym (py ";")); [by eexists|].
  destruct (str_eqb sym (py "{")); [rewrite (elided_at_some _ _ _ Hs); by eexists|].
  destruct (str_eqb sym (py "(")) eqn:Ep.
  - apply bool_decide_eq_true in Ep. destruct (search_ _ _); [by eexists|].
    destruct (search_ _ _); [by eexists|].
    destruct (re_match function_name_re bs) as [f|] eqn:Ef; [|by eexists].
    destruct (search_ _ _); [by eexists|].
    destruct (match re_match _ _ with Some _ => _ | None => _ end); [by eexists|].
    apply Hr; [done|]. by apply function_name_match.
  - destruct (str_eqb sym (py ">")); [|by eexists]. by eapply IsTemplateParameterList_total.
Qed.

(** More fuel than columns is enough for a statement that starts on the line. *)
Lemma IsRValueType_total fuel typenames cl n linenum column line :
  elided cl !! linenum = Some line → statement_starts (elided cl) linenum →
  column < fuel → ∃ b, IsRValueType fuel typenames cl n linenum column = Ok b.
Proof.
  intros Hl Hst. revert column. induction fuel as [|fuel IH]; intros column Hf; [lia|].
  cbn [IsRValueType]. rewrite (elided_at_some _ _ _ Hl). cbn [mbind res_bind]. cbv zeta.
  destruct (re_match word_left_re (take column line)) as [m|] eqn:Em; [|by eexists].
  apply word_left_match in Em. rewrite length_take in Em.
  destruct (match_ _ _); [by eexists|]. destruct (_ || _); [by eexists|].
  destruct (str_eqb (group_ m 2) (py ")")) eqn:E2.
  { apply bool_decide_eq_true in E2. rewrite E2 in *. cbn [length py] in Em.
    apply (IsDecltype_total _ _ _ _ Hl). cbn. cbn in Em. lia. }
  destruct (matched _); [by eexists|].
  apply lookup_lt_Some in Hl as Hlt. rewrite find_symbol_step by lia.
  destruct (re_match symbol_re (group_ m 1)) as [s|] eqn:Es.
  - apply symbol_match in Es. eapply rvalue_at_symbol_total; [exact Hl|lia|].
    intros f _ Hlen. apply IH. lia.
  - destruct (symbol_above (elided cl) linenum) as [[[start bs] sym]|] eqn:Ea; [|by eexists].
    pose proof (symbol_above_spec _ _ _ _ _ (Nat.lt_le_incl _ _ Hlt) Ea) as (_&l&Hs&Hb).
    eapply rvalue_at_symbol_total; [done|done|]. intros f ->. by destruct (Hst _ _ Ea).
Qed.

Lemma IsDeletedOrDefault_total cl linenum line :
  elided cl !! linenum = Some line → ∃ b, IsDeletedOrDefault cl linenum = Ok b.
Proof.
  intros Hl. unfold IsDeletedOrDefault. rewrite (elided_at_some _ _ _ Hl). cbn [mbind res_bind].
  destruct (find_nat (py "(") line) as [p|] eqn:Ep; [|by eexists].
  apply find_nat_bound in Ep. cbn [length py] in Ep.
  assert (Hp : p < length line) by (cbn in Ep; lia).
  destruct (close_expression_spec _ _ _ _ Hl Hp) as ([[t i] q]&->&_). cbn [mbind res_bind].
  destruct (q <? 0)%Z; by eexists.
Qed.

Lemma IsRValueAllowed_total cl linenum typenames line :
  elided cl !! linenum = Some line → ∃ b, IsRValueAllowed cl linenum typenames = Ok b.
Proof.
  intros Hl. unfold IsRValueAllowed. cbv zeta. destruct (rvalue_region _ _); [by eexists|].
  rewrite (elided_at_some _ _ _ Hl). cbn [mbind res_bind].
  pose proof (IsDeletedOrDefault_total _ _ _ Hl) as Hd.
  destruct (search_ _ _); [done|]. destruct (match re_match _ _ with Some _ => _ | None => _ end);
    [done|]. destruct (search_ _ _); [done|].
  assert (∃ p, match linenum with O => Ok (py "ReturnType") | S i => elided_at cl i end
               = Ok (E := pyexn) p) as [p ->].
  { destruct linenum as [|i]; [by eexists|]. apply lookup_lt_Some in Hl.
    destruct (lookup_lt_is_Some_2 (elided cl) i ltac:(lia)) as [l Hi]. exists l.
    by apply elided_at_some. }
  cbn [mbind res_bind]. destruct (_ && _); [done|]. by apply only_typenames_total.
Qed.

Lemma function_line_spec elided k :
  k < length elided →
  ∃ r, function_line elided k = Ok r ∧ ∀ i, r = Some i → 0 < i ≤ k.
Proof.
  induction k as [|k IH]; intros Hk; cbn [function_line]; [by exists None|].
  destruct (lookup_lt_is_Some_2 elided (S k) Hk) as [l ->].
  destruct (match_ _ _); [by exists None|]. destruct (contains _ _).
  - exists (Some (S k)). split; [done|]. intros i [= <-]. lia.
  - destruct IH as (r&->&H); [lia|]. exists r. split; [done|]. intros i Hi. specialize (H i Hi). lia.
Qed.

Lemma GetTemplateArgs_total cl linenum :
  linenum < length (elided cl) → ∃ l, GetTemplateArgs cl linenum = Ok l.
Proof.
  intros Hk. unfold GetTemplateArgs.
  destruct (function_line_spec _ _ Hk) as (r&->&Hr). cbn [mbind res_bind].
  destruct r as [i|]; [|by eexists]. specialize (Hr i eq_refl).
  assert (∃ s, argument_list_at cl i = Ok s) as [s ->].
  { unfold argument_list_at.
    destruct (lookup_lt_is_Some_2 (elided cl) i ltac:(lia)) as [l Hl].
    rewrite (elided_at_some _ _ _ Hl). cbn [mbind res_bind].
    destruct (re_match template_start_re l) as [m|] eqn:Em.
    - apply template_start_match, lookup_lt_Some in Em. cbv zeta.
      destruct (close_expression_spec _ _ _ _ Hl Em) as ([[t j] q]&->&_). cbn [mbind res_bind].
      destruct (_ && _); by eexists.
    - destruct (1 <? i)%nat; [|by eexists].
      destruct (lookup_lt_is_Some_2 (elided cl) (i - 1) ltac:(lia)) as [l' Hl'].
      rewrite (elided_at_some _ _ _ Hl'). cbn [mbind res_bind].
      destruct (re_match template_end_re l') as [m|] eqn:Em'; [|by eexists].
      apply template_end_match, lookup_lt_Some in Em'. cbv zeta.
      destruct (reverse_expression_spec _ _ _ _ Hl' Em') as ([[t j] q]&->&_). cbn [mbind res_bind].
      destruct (_ >? _)%Z; by eexists. }
  cbn [mbind res_bind]. destruct s; [by eexists|]. by apply type_names_total.
Qed.

(** On a line whose statement does not begin inside an argument list opened on an earlier
    line the check of rvalue references comes to its end: the recursion of [IsRValueType]
    goes to smaller columns, the loops over type names shorten their text, and no line or
    column is out of range. *)
Theorem rvalue_reference_returns fuel filename cl linenum n error :
  aligned cl → (0 ≤ linenum < NumLines cl)%Z →
  (∀ f i c l msg, yields (λ _, True) (error f i c l msg)) →
  statement_starts (elided cl) (Z.to_nat linenum) →
  Forall (λ line, length line < fuel) (elided cl) →
  yields (λ _, True) (CheckRValueReference fuel filename cl linenum n error).
Proof.
  intros Ha Hi He Hst Hf. destruct (current_line cl linenum Ha Hi) as (line&Hl&_&Hy).
  unfold CheckRValueReference. eapply yields_bind; [exact Hy|]. intros ? ->. cbv zeta.
  set (m1 := match re_match (rx "^(.*\S)&&") line with Some _ => _ | None => _ end).
  destruct m1 as [m|] eqn:Em; [|apply yields_done]. destruct (_ || _); [apply yields_done|].
  apply lookup_lt_Some in Hl as Hlt. destruct (GetTemplateArgs_total cl _ Hlt) as [ts Hts].
  eapply (yields_bind (λ l, l = ts)); [by eapply yields_lift|]. intros ? ->.
  assert (length (group_ m 1) < fuel).
  { eapply Nat.le_lt_trans; [|exact (proj1 (Forall_lookup _ _) Hf _ _ Hl)].
    apply and_match. unfold m1 in Em. destruct (re_match (rx "^(.*\S)&&") line); tauto. }
  destruct (IsRValueType_total fuel ts cl n _ (length (group_ m 1)) _ Hl Hst) as [b Hb]; [done|].
  eapply (yields_bind (λ c, c = b)); [by eapply yields_lift|]. intros ? ->.
  destruct b; [|apply He]. destruct (IsRValueAllowed_total cl _ ts _ Hl) as [c Hc].
  eapply (yields_bind (λ d, d = c)); [by eapply yields_lift|]. intros ? ->.
  apply yields_when, He.
Qed.

(** The recursion of [IsRValueType] takes a column of the line with the opening
    parenthesis for a column of the line it looks at. Where a parameter is declared on the
    line after the function's name, it can come back to the same column for ever: no depth of
    recursion is enough, and the tool dies of Python's limit. *)
Definition wrapped_parameter : CleansedLines :=
  file_of [""; "std::string foo("; "    LongTypeName&& x);"].

Lemma wrapped_step fuel n column :
  column = 11 ∨ column = 16 →
  IsRValueType (S fuel) [] wrapped_parameter n 2 column
  = IsRValueType fuel [] wrapped_parameter n 2 11.
Proof.
  intros [-> | ->]; cbn [IsRValueType];
    generalize (IsRValueType fuel [] wrapped_parameter n 2); intros recurse;
    vm_compute; reflexivity.
Qed.

(** C29: The check of [&&] does not come back on a parameter declared on the line after the
    name of its function, [std::string foo(] and then [LongTypeName&& x);] - whatever depth
    of recursion is allowed. *)
Theorem rvalue_reference_diverges fuel filename n error w :
  (CheckRValueReference fuel filename wrapped_parameter 2 n error w).1
  = Raise Diverges.
Proof.
  assert (H11 : ∀ fuel, IsRValueType fuel [] wrapped_parameter n 2 11 = Raise Diverges).
  { intros f. induction f as [|f IH]; [done|]. rewrite wrapped_step by auto. exact IH. }
  assert (H16 : IsRValueType fuel [] wrapped_parameter n 2 16 = Raise Diverges).
  { destruct fuel as [|f]; [done|]. rewrite wrapped_step by auto. apply H11. }
  unfold CheckRValueReference.
  change (elided_line wrapped_parameter 2) with (mret (py "    LongTypeName&& x);") : lint str).
  unfold mbind, M_bind, mret, M_ret. cbv zeta.
  destruct (re_match (rx "^(.*\S)&&") (py "    LongTypeName&& x);")) as [m|] eqn:E;
    [|by vm_compute in E].
  assert (Hm : m = Mobj (py "    LongTypeName&& x);") 0 18 [(1, (0, 16))])
    by (apply (f_equal (default m)) in E; cbn in E; rewrite <- E; vm_compute; reflexivity).
  subst m. change (contains _ _ || _) with false. cbv iota.
  assert (HT : GetTemplateArgs wrapped_parameter (Z.to_nat 2) = Ok []) by (vm_compute; reflexivity).
  rewrite HT. unfold liftM. change (length (group_ _ 1)) with 16. change (Z.to_nat 2) with 2.
  by rewrite H16.
Qed.

(** The nearest symbol is the brace of an initializer. The scan for what follows it starts
    with the text before it and so counts it twice: the brace that closes it does not end the
    scan, and a semicolon further down makes the [&&] of an expression a reference. *)
Theorem initializer_scanned_too_far :
  IsRValueType 1 [] (file_of [""; "C() : x{a &&b} {"; "  f();"; "}"]) init_nesting 1 10 = Ok true ∧
  IsRValueType 1 [] (file_of [""; "C() : x{a &&b} {"; "}"]) init_nesting 1 10 = Ok false.
Proof. split; vm_compute; reflexivity. Qed.
