(* ===== verification/LintBraces.v ===== *)
(** * cpplint.py: sections, braces and the style of a line

    The checks from [CheckSectionSpacing] to [CheckStyle]: blank lines before sections,
    placement of braces, trailing semicolons, empty bodies, the CHECK macros, alternative
    tokens, and the function that runs all checks of the style of a line. *)

From S2P Require Import Prelude PyStr PyRe PyReFacts LintData LintState LintLines LintInclude.
From S2P Require Import LintExpr LintChecks LintNesting LintSpacing LintRValue.

(** ** Unicode

    What [unicodedata] knows, for [GetLineWidth]. *)
Class UnicodeData := {
  nfc : str → str;
  (** The [east_asian_width] is W or F. *)
  is_wide : char → bool;
  (** The canonical combining class is not 0. *)
  is_combining : char → bool }.

(** Lines of a file are Unicode strings. *)
Definition GetLineWidth `{UnicodeData} (line : str) : Z :=
  foldr (λ uc width, if is_wide uc then width + 2
                     else if negb (is_combining uc) then width + 1 else width)%Z
        0%Z (nfc line).

(** ** Patterns *)
Definition section_re : regex := rx "\s*(public|protected|private):".

(** The line of the first opening brace from the start of the class. *)
Fixpoint class_head_end (i : Z) (lines : list str) (default_ : Z) : Z :=
  match lines with
  | [] => default_
  | line :: lines => if search_ "\{\s*$" line then i else class_head_end (i + 1) lines default_
  end.

Definition else_if_re : regex := rx "else if\s*\(".
Definition if_else_re : regex := rx "\b(if\s*\(|else\b)".
Definition if_re : regex := rx "\bif\s*\(".

(** The first line with a semicolon, from column [endpos] of the first of [lines], which is
    [endlinenum]; the number of lines if there is none. *)
Fixpoint find_semicolon (lines : list str) (endlinenum endpos : Z) : Z :=
  match lines with
  | [] => endlinenum
  | line :: lines =>
      if contains (py ";") (slice_from line endpos) then endlinenum
      else find_semicolon lines (endlinenum + 1) 0
  end.

Definition paren_block_re : regex := rx "^(.*\)\s*)\{".
Definition else_block_re : regex := rx "^(.*(?:else|\)\s*const)\s*)\{".
Definition block_re : regex := rx "^(\s*)\{".
Definition macro_re : regex := rx "\b([A-Z_]+)\s*$".
Definition index_re : regex := rx "^(.*\])\s*$".

Definition safe_macros : list str :=
  py <$> ["TEST"; "TEST_F"; "MATCHER"; "MATCHER_P"; "TYPED_TEST"; "EXCLUSIVE_LOCKS_REQUIRED";
          "SHARED_LOCKS_REQUIRED"; "LOCKS_EXCLUDED"; "INTERFACE_DEF"]%string.

(** Macros, lambdas, [alignas] and compound literals before the parenthesis. *)
Definition braces_allowed (line_prefix : str) : bool :=
  match re_search macro_re line_prefix with
  | Some macro => negb (mem_str (group_ macro 1) safe_macros)
  | None => false
  end
  || match re_match index_re line_prefix with
     | Some func => negb (search_ "\boperator\s*\[\s*\]" (group_ func 1))
     | None => false
     end
  || search_ "\b(?:struct|union)\s+alignas\s*$" line_prefix
  || search_ "\s+=\s*$" line_prefix.

Definition conditional_re : regex := rx "\s*(for|while|if)\s*\(".

(** ** The CHECK macros *)
Definition check_macro_re (macro : str) : lint regex :=
  compiled (raw "^(.*\b" ++ macro ++ raw "\s*)\(").

(** [None]: no macro that can be replaced. *)
Fixpoint find_check_macro (macros : list str) (line : str) : lint (option (str * nat)) :=
  match macros with
  | [] => mret None
  | macro :: macros =>
      if contains macro line then
        r ← check_macro_re macro;
        match re_match r line with
        | Some m => mret (Some (macro, length (group_ m 1)))
        | None => find_check_macro macros line
        end
      else find_check_macro macros line
  end.
Definition FindCheckMacro (line : str) : lint (option (str * nat)) :=
  find_check_macro _CHECK_MACROS line.

Definition check_token_re : regex :=
  rx "^\s*(<<|<<=|>>|>>=|->\*|->|&&|\|\||==|!=|>=|>|<=|<|\()(.*)$".
Definition operand_re : regex := rx "^([^-=!<>()&|]+)(.*)$".
Definition operand_char_re : regex := rx "^(\s*\S)(.*)$".

(** How the loop over an expression ends. *)
Inductive check_parse :=
(** A return: logical operators, or unmatched parentheses. *)
| Unsuitable
(** The left-hand side and, if one was found, the operator and the right-hand side. *)
| Parsed (lhs : str) (op : option (str * str)).

Definition other_operators : list str :=
  py <$> ["<<"; "<<="; ">>"; ">>="; "->*"; "->"]%string.

(** [while expression]; every round shortens the expression (see [parse_check_total]). *)
Fixpoint parse_check (fuel : nat) (lhs expression : str) : res pyexn check_parse :=
  match expression with
  | [] => Ok (Parsed lhs None)
  | _ =>
      match re_match check_token_re expression with
      | Some m =>
          let token := group_ m 1 in
          if str_eqb token (py "(") then
            let expression := group_ m 2 in
            let '(end_, _) := FindEndOfExpressionInLine expression 0 [40%N] in
            if (end_ <? 0)%Z then Ok Unsuitable
            else match fuel with
                 | O => Raise Diverges
                 | S fuel => parse_check fuel (lhs ++ py "(" ++ take (Z.to_nat end_) expression)
                               (drop (Z.to_nat end_) expression)
                 end
          else if mem_str token [py "&&"; py "||"] then Ok Unsuitable
          else if mem_str token other_operators then
            match fuel with
            | O => Raise Diverges
            | S fuel => parse_check fuel (lhs ++ token) (group_ m 2)
            end
          else Ok (Parsed lhs (Some (token, group_ m 2)))
      | None =>
          let m := match re_match operand_re expression with
                   | Some m => Some m
                   | None => re_match operand_char_re expression
                   end in
          match m with
          | None => Ok (Parsed lhs None)
          | Some m =>
              match fuel with
              | O => Raise Diverges
              | S fuel => parse_check fuel (lhs ++ group_ m 1) (group_ m 2)
              end
          end
      end
  end.

Definition constant_re : regex :=
  pyrx "^([-+]?(\\d+|0[xX][0-9a-fA-F]+)[lLuU]{0,3}|\x22.*\x22|\\'.*\\')$".

Section checks.
Context (filename : str) (clean_lines : CleansedLines) (linenum : Z) (error : error_fn).

Local Abbreviation complain := (complain filename linenum error).

(** ** Sections of a class *)
Definition CheckSectionSpacing (class_info : class_info) : lint unit :=
  if (last_line class_info - c_starting_linenum class_info <=? 24)%Z
     || (linenum <=? c_starting_linenum class_info)%Z
  then mret ()
  else
    line ← line_at (lines clean_lines) linenum;
    match re_match section_re line with
    | None => mret ()
    | Some m =>
        prev_line ← line_at (lines clean_lines) (linenum - 1);
        let start := c_starting_linenum class_info in
        whenM (negb (IsBlankLine prev_line) && negb (search_ "\b(class|struct)\b" prev_line)
               && negb (search_ "\\$" prev_line)
               && (class_head_end start (py_slice (lines clean_lines) start linenum) start
                   <? linenum - 1)%Z)
          (complain "whitespace/blank_line" 3
             (py "\x22" ++ group_ m 1 ++ py ":\x22 should be preceded by a blank line"))
    end.

(** [while prevlinenum >= 0]; the result [S i] of the second component is the line [i]. *)
Fixpoint previous_non_blank (elided : list str) (n : nat) : str * Z :=
  match n with
  | O => ([], -1)%Z
  | S i =>
      match elided !! i with
      | Some prevline => if negb (IsBlankLine prevline) then (prevline, Z.of_nat i)
                         else previous_non_blank elided i
      | None => previous_non_blank elided i
      end
  end.

Definition GetPreviousNonBlankLine : str * Z :=
  previous_non_blank (elided clean_lines) (Z.to_nat linenum).

(** ** Braces *)

(** If/else bodies that need braces: the first semicolon behind the condition ends its line,
    and the line behind it is not indented further than the [if]. *)
Definition check_bodies (line : str) (is_if : bool) (endlinenum endpos : Z) : lint unit :=
  let if_indent := GetIndentLevel line in
  let len := Z.of_nat (length (elided clean_lines)) in
  let endlinenum := find_semicolon (drop (Z.to_nat endlinenum) (elided clean_lines)) endlinenum endpos in
  if (endlinenum <? len)%Z then
    endline ← elided_line clean_lines endlinenum;
    if negb (match_ ";[\s}]*(\\?)$" (slice_from endline (find (py ";") endline))) then
      whenM (negb (match_ "^[^{};]*\[[^\[\]]*\][^{}]*\{[^{}]*\}\s*\)*[;,]\s*$" endline))
        (complain "readability/braces" 4
           (py "If/else bodies with multiple statements require braces"))
    else if (endlinenum <? len - 1)%Z then
      next_line ← elided_line clean_lines (endlinenum + 1);
      let next_indent := GetIndentLevel next_line in
      if is_if && match_ "\s*else\b" next_line && negb (next_indent =? if_indent)%Z then
        complain "readability/braces" 4
          (py "Else clause should be indented at the same level as if. Ambiguous nested if/else chains require braces.")
      else whenM (if_indent <? next_indent)%Z
        (complain "readability/braces" 4
           (py "If/else bodies with multiple statements require braces"))
    else mret ()
  else mret ().

Definition check_single_statement (line : str) : lint unit :=
  match re_search if_else_re line with
  | None => mret ()
  | Some if_else_match =>
      if match_ "\s*#" line then mret ()
      else
        let if_match := re_search if_re line in
        '(endline, endlinenum, endpos) ←
          match if_match with
          | Some m => liftM (CloseExpression clean_lines (Z.to_nat linenum) (mo_end m - 1))
          | None => mret (line, linenum, Z.of_nat (mo_end if_else_match))
          end;
        let rest := slice_from endline endpos in
        brace_next ←
          (if match_ "\s*$" rest && (endlinenum <? Z.of_nat (length (elided clean_lines)) - 1)%Z
           then next_line ← elided_line clean_lines (endlinenum + 1); mret (match_ "\s*{" next_line)
           else mret false);
        whenM (negb (match_ "\s*{" rest) && negb brace_next)
          (check_bodies line (matched if_match) endlinenum endpos)
  end.

Definition CheckBraces : lint unit :=
  line ← elided_line clean_lines linenum;
  let prevline := GetPreviousNonBlankLine.1 in
  whenM (match_ "\s*{\s*$" line && negb (search_ "[,;:}{(]\s*$" prevline)
         && negb (match_ "\s*#" prevline))
    (complain "whitespace/braces" 4
       (py "{ should almost always be at the end of the previous line")) ;;
  whenM (match_ "\s*else\b\s*(?:if\b|\{|$)" line && match_ "\s*}\s*$" prevline)
    (complain "whitespace/newline" 4
       (py "An else should appear on the same line as the preceding }")) ;;
  (if matched (re_search else_if_re line) then
     let brace_on_left := search_ "}\s*else if\s*\(" line in
     let pos := find_at (py "(") line (Z.to_nat (find (py "else if") line)) in
     if (pos >? 0)%Z then
       '(endline, _, endpos) ←
         liftM (CloseExpression clean_lines (Z.to_nat linenum) (Z.to_nat pos));
       let brace_on_right := contains (py "{") (slice_from endline endpos) in
       whenM (xorb brace_on_left brace_on_right)
         (complain "readability/braces" 5
            (py "If an else has a brace on one side, it should have it on both"))
     else mret ()
   else whenM (search_ "}\s*else[^{]*$" line || match_ "[^}]*else\s*{" line)
     (complain "readability/braces" 5
        (py "If an else has a brace on one side, it should have it on both"))) ;;
  whenM (search_ "\belse [^\s{]" line && negb (search_ "\belse if\b" line))
    (complain "whitespace/newline" 4
       (py "Else clause should never be on same line as else (use 2 lines)")) ;;
  whenM (match_ "\s*do [^\s{]" line)
    (complain "whitespace/newline" 4
       (py "do/while clauses should not be on a single line")) ;;
  check_single_statement line.

(** The column of the brace of a block that takes no semicolon. *)
Definition block_brace (line : str) : lint (option nat) :=
  match re_match paren_block_re line with
  | Some m =>
      let closing_brace_pos := default 0 (rfind_nat (py ")") (group_ m 1)) in
      '(text, start_line, start_col) ←
        liftM (ReverseCloseExpression clean_lines (Z.to_nat linenum) closing_brace_pos);
      if (start_col >? -1)%Z && braces_allowed (take (Z.to_nat start_col) text) then mret None
      else
        lambda ← (if (start_line >? 1)%Z
                  then above ← elided_line clean_lines (start_line - 1);
                       mret (search_ "\]\s*$" above)
                  else mret false);
        mret (if (lambda : bool) then None else Some (length (group_ m 1)))
  | None =>
      match re_match else_block_re line with
      | Some m => mret (Some (length (group_ m 1)))
      | None =>
          let prevline := GetPreviousNonBlankLine.1 in
          if match prevline with [] => false | _ => search_ "[;{}]\s*$" prevline end
          then mret ((λ m, length (group_ m 1)) <$> re_match block_re line)
          else mret None
      end
  end.

Definition CheckTrailingSemicolon : lint unit :=
  line ← elided_line clean_lines linenum;
  brace ← block_brace line;
  match brace with
  | None => mret ()
  | Some pos =>
      '(endline, endlinenum, endpos) ← liftM (CloseExpression clean_lines (Z.to_nat linenum) pos);
      whenM ((endpos >? -1)%Z && match_ "^\s*;" (slice_from endline endpos))
        (error filename endlinenum (py "readability/braces") 4%Z (py "You don't need a ; after a }"))
  end.

Definition CheckEmptyBlockBody : lint unit :=
  line ← elided_line clean_lines linenum;
  match re_match conditional_re line with
  | None => mret ()
  | Some m =>
      '(end_line, end_linenum, end_pos) ←
        liftM (CloseExpression clean_lines (Z.to_nat linenum) (default 0 (find_nat (py "(") line)));
      whenM ((end_pos >=? 0)%Z && match_ ";" (slice_from end_line end_pos))
        (if str_eqb (group_ m 1) (py "if")
         then error filename end_linenum (py "whitespace/empty_conditional_body") 5%Z
                (py "Empty conditional bodies should use {}")
         else error filename end_linenum (py "whitespace/empty_loop_body") 5%Z
                (py "Empty loop bodies should use {} or continue"))
  end.

(** ** The CHECK macros *)

(** The text between the parenthesis at [start_pos] and the one before [end_pos]. *)
Definition check_expression (start_pos : nat) (last_line : str) (end_line end_pos : Z) : str :=
  let i := Z.to_nat linenum in
  let line := default [] (elided clean_lines !! i) in
  if (linenum =? end_line)%Z then py_slice line (Z.of_nat start_pos + 1) (end_pos - 1)
  else drop (start_pos + 1) line
       ++ mjoin (take (Z.to_nat (end_line - (linenum + 1))) (drop (S i) (elided clean_lines)))
       ++ slice_to last_line (end_pos - 1).

Definition suggest_check (check_macro lhs op rhs : str) : lint unit :=
  if contains (py "&&") rhs || contains (py "||") rhs then mret ()
  else
    let lhs := strip lhs in
    let rhs := strip rhs in
    if matched (re_match constant_re lhs) || matched (re_match constant_re rhs) then
      replacement ← match _CHECK_REPLACEMENT !! check_macro with
                    | Some d => match d !! op with
                                | Some r => mret r
                                | None => raiseM (KeyError op)
                                end
                    | None => raiseM (KeyError check_macro)
                    end;
      complain "readability/check" 2
        (py "Consider using " ++ replacement ++ py " instead of " ++ check_macro ++ py "(a "
         ++ op ++ py " b)")
    else mret ().

Definition CheckCheck : lint unit :=
  line ← elided_line clean_lines linenum;
  found ← FindCheckMacro line;
  match found with
  | None => mret ()
  | Some (check_macro, start_pos) =>
      '(last_line, end_line, end_pos) ←
        liftM (CloseExpression clean_lines (Z.to_nat linenum) start_pos);
      if (end_pos <? 0)%Z then mret ()
      else if negb (match_ "\s*;" (slice_from last_line end_pos)) then mret ()
      else
        let expression := check_expression start_pos last_line end_line end_pos in
        parsed ← liftM (parse_check (length expression) [] expression);
        match parsed with
        | Parsed ((_ :: _) as lhs) (Some (((_ :: _) as op), ((_ :: _) as rhs))) =>
            suggest_check check_macro lhs op rhs
        | _ => mret ()
        end
  end.

(** ** Alternative tokens *)
Definition CheckAltTokens : lint unit :=
  line ← elided_line clean_lines linenum;
  if match_ "^\s*#" line then mret ()
  else if contains (py "/*") line || contains (py "*/") line then mret ()
  else
    match _ALT_TOKEN_REPLACEMENT_PATTERN with
    | None => raiseM ReError
    | Some r =>
        forM (re_finditer r line) (λ m,
          match list_find (λ p, p.1 = group_ m 1) _ALT_TOKEN_REPLACEMENT with
          | Some (_, (_, replacement)) =>
              complain "readability/alt_tokens" 2
                (py "Use operator " ++ replacement ++ py " instead of " ++ group_ m 1)
          | None => raiseM (KeyError (group_ m 1))
          end)
    end.
End checks.

(** ** The style of a line *)
Section style.
Context `{UnicodeData}.
(** The working directory and the paths that exist, for the header guard's name; the depth
    of recursion for the check of [&&]. *)
Context (cwd : str) (exists_ : str → bool) (fuel : nat).
Context (filename : str) (clean_lines : CleansedLines) (linenum : Z) (error : error_fn).

Local Abbreviation complain := (complain filename linenum error).

Definition initial_spaces (line : str) : nat :=
  length line - length (let fix go (l : str) := match l with
                                                | c :: l' => if (c =? 32)%N then go l' else l
                                                | [] => []
                                                end in go line).

(** Tabs, spaces at the end of the line, odd numbers of spaces at its start. *)
Definition check_indent (line cleansed_line : str) : lint unit :=
  whenM (contains (py "\t") line)
    (complain "whitespace/tab" 1 (py "Tab found; better to use spaces")) ;;
  if match last line with Some c => is_space c | None => false end then
    complain "whitespace/end_of_line" 4
      (py "Line ends in whitespace.  Consider deleting these extra spaces.")
  else if ((initial_spaces line =? 1)%nat || (initial_spaces line =? 3)%nat)
          && negb (match_ "\s*\w+\s*:\s*\\?$" cleansed_line) then
    raw_line ← line_at (raw_lines clean_lines) linenum;
    whenM (negb (negb (str_eqb raw_line line) && matched (re_match (pyrx "^\\s*\x22\x22") line)))
      (complain "whitespace/indent" 3
         (py "Weird number of spaces at line-start.  Are you using a 2-space indent?"))
  else mret ().

Definition header_guard_line (file_extension line : str) : lint bool :=
  if str_eqb file_extension (py "h") then
    cppvar ← GetHeaderGuardCPPVariable cwd exists_ filename;
    mret (starts_with (py "#ifndef " ++ cppvar) line || starts_with (py "#define " ++ cppvar) line
          || starts_with (py "#endif  // " ++ cppvar) line)
  else mret false.

(** [int(_line_length * 1.25)]: a quarter is exact in the float. *)
Definition extended_length (line_length : Z) : Z := Z.quot (5 * line_length) 4.

Definition check_length (is_header_guard : bool) (line : str) : lint unit :=
  whenM (negb (starts_with (py "#include") line) && negb is_header_guard
         && negb (match_ "^\s*//.*http(s?)://\S*$" line)
         && negb (match_ "^// \$Id:.*#[0-9]+ \$$" line))
    (let line_width := GetLineWidth line in
     w ← getM;
     let extended_length := extended_length (_line_length w) in
     if (extended_length <? line_width)%Z then
       complain "whitespace/line_length" 4
         (py "Lines should very rarely be longer than " ++ str_of_Z extended_length
          ++ py " characters")
     else whenM (_line_length w <? line_width)%Z
       (complain "whitespace/line_length" 2
          (py "Lines should be <= " ++ str_of_Z (_line_length w) ++ py " characters long"))).

Definition several_commands (cleansed_line : str) : bool :=
  let prevline := (GetPreviousNonBlankLine clean_lines linenum).1 in
  (1 <? count (py ";") cleansed_line)%Z && negb (contains (py "for") cleansed_line)
  && (negb (contains (py "for") prevline) || contains (py ";") prevline)
  && negb ((contains (py "case ") cleansed_line || contains (py "default:") cleansed_line)
           && contains (py "break;") cleansed_line).

Definition CheckStyle (file_extension : str) (nesting_state : NestingState) : lint unit :=
  line ← line_at (lines_without_raw_strings clean_lines) linenum;
  cleansed_line ← elided_line clean_lines linenum;
  check_indent line cleansed_line ;;
  is_header_guard ← header_guard_line file_extension line;
  check_length is_header_guard line ;;
  whenM (several_commands cleansed_line)
    (complain "whitespace/newline" 0 (py "More than one command on the same line")) ;;
  CheckBraces filename clean_lines linenum error ;;
  CheckTrailingSemicolon filename clean_lines linenum error ;;
  CheckEmptyBlockBody filename clean_lines linenum error ;;
  CheckAccess filename clean_lines linenum error nesting_state ;;
  CheckSpacing filename clean_lines linenum error nesting_state ;;
  CheckOperatorSpacing filename clean_lines linenum error ;;
  CheckParenthesisSpacing filename clean_lines linenum error ;;
  CheckCommaSpacing filename clean_lines linenum error ;;
  CheckBracesSpacing filename clean_lines linenum error ;;
  CheckSpacingForFunctionCall filename clean_lines linenum error ;;
  CheckRValueReference fuel filename clean_lines linenum nesting_state error ;;
  CheckCheck filename clean_lines linenum error ;;
  CheckAltTokens filename clean_lines linenum error ;;
  match kind <$> InnermostClass nesting_state with
  | Some (ClassKind c) => CheckSectionSpacing filename clean_lines linenum error c
  | _ => mret ()
  end.
End style.

(** * Theorems *)

(** ** The CHECK macros *)

Definition check_tokens : list str :=
  py <$> ["<<"; "<<="; ">>"; ">>="; "->*"; "->"; "&&"; "||"; "=="; "!="; ">="; ">"; "<="; "<"; "("]%string.

Lemma check_token_match s m :
  10%N ∉ s → re_match check_token_re s = Some m →
  group_ m 1 ∈ check_tokens ∧ ∃ u, s = u ++ group_ m 1 ++ group_ m 2.
Proof.
  set (ps := [Plain RBol; Plain (RStar true (RSet false [IClass CSpace]));
    Cap 1 (alts check_tokens); Cap 2 (RStar true RAny)]).
  intros Hnl H.
  destruct (re_match_line check_token_re _ ps _ ltac:(vm_compute; reflexivity) eq_refl Hnl H)
    as (ws&c'&Es&Hd&Hg).
  unfold ps in Hd. read_parts Hd. unfold group_.
  rewrite (Hg 2 _ _ _ eq_refl eq_refl), (Hg 3 _ _ _ eq_refl eq_refl). cbn [default from_option].
  unfold id. split; [by eapply den_alts_read|]. exists (w ++ w0).
  rewrite Es. cbn [concat]. by norm_app.
Qed.

Lemma operand_match s m :
  10%N ∉ s → re_match operand_re s = Some m ∨ re_match operand_char_re s = Some m →
  s = group_ m 1 ++ group_ m 2 ∧ group_ m 1 ≠ [].
Proof.
  assert (Hgo : ∀ body r,
    r = parts_re ([Plain RBol; Cap 1 body; Cap 2 (RStar true RAny)] ++ [Plain REol]) →
    parts_ok ([Plain RBol; Cap 1 body; Cap 2 (RStar true RAny)] ++ [Plain REol]) = true →
    (∀ w c c', den noflags body c c' → read w c c' → w ≠ []) →
    10%N ∉ s → re_match r s = Some m → s = group_ m 1 ++ group_ m 2 ∧ group_ m 1 ≠ []).
  { intros body r Hr Hok Hb Hnl H.
    destruct (re_match_line _ _ _ _ Hr Hok Hnl H) as (ws&c'&Es&Hd&Hg). read_parts Hd.
    apply (den_bol_read _ _ _ _ Hd0) in Hr0 as ->.
    unfold group_. rewrite (Hg 1 _ _ _ eq_refl eq_refl), (Hg 2 _ _ _ eq_refl eq_refl).
    cbn [default from_option]. unfold id. split; [|by eapply Hb].
    rewrite Es. cbn [concat]. by norm_app. }
  intros Hnl [H|H]; revert Hnl H.
  - eapply Hgo; [vm_compute; reflexivity|reflexivity|].
    intros w c c' Hd Hr ->. by destruct (den_plus_set_read _ _ _ _ _ _ _ Hd Hr) as (a&v&?&_).
  - eapply Hgo; [vm_compute; reflexivity|reflexivity|].
    intros w c c' (c1&H1&(a&t&E&_&->)) Hr ->. apply den_reads_prefix in H1 as (x&_&Hp&_).
    apply read_length in Hr. cbn in Hr. lia.
Qed.

Definition relational : list str := py <$> ["=="; "!="; ">="; ">"; "<="; "<"]%string.

Lemma tokens_cases t :
  t ∈ check_tokens →
  str_eqb t (py "(") || mem_str t [py "&&"; py "||"] || mem_str t other_operators
  || mem_str t relational = true.
Proof.
  revert t. apply Forall_forall. repeat (constructor; [vm_compute; reflexivity|]). constructor.
Qed.

(** Every round of the loop takes text off the expression. *)
Lemma parse_check_spec fuel lhs s :
  length s ≤ fuel → 10%N ∉ s →
  ∃ r, parse_check fuel lhs s = Ok r ∧
    match r with
    | Parsed _ (Some (op, rhs)) => op ∈ relational ∧ ∃ u, s = u ++ op ++ rhs
    | _ => True
    end.
Proof.
  revert lhs s; induction fuel as [|fuel IH]; intros lhs [|c s] Hf Hnl; cbn [length] in Hf; try lia;
    [by eexists|by eexists|].
  (* a rest of the expression *)
  assert (Hrest : ∀ lhs u t, c :: s = u ++ t → u ≠ [] →
    ∃ r, parse_check fuel lhs t = Ok r ∧
      match r with
      | Parsed _ (Some (op, rhs)) => op ∈ relational ∧ ∃ u, c :: s = u ++ op ++ rhs
      | _ => True
      end).
  { intros l u t E Hu. destruct (IH l t) as (r&Hr&H).
    - apply (f_equal length) in E. rewrite length_app in E. destruct u; [done|]. cbn in E. lia.
    - intros Hin. apply Hnl. rewrite E. apply elem_of_app. by right.
    - exists r. split; [done|]. destruct r as [|l' [[op rhs]|]]; try done.
      destruct H as [Hop (u'&->)]. split; [done|]. exists (u ++ u'). rewrite E. by norm_app. }
  cbn [parse_check]. destruct (re_match check_token_re (c :: s)) as [m|] eqn:Em.
  - destruct (check_token_match _ _ Hnl Em) as (Ht&u&Es). clear Em. cbv zeta.
    destruct (str_eqb (group_ m 1) (py "(")) eqn:Ep.
    { apply bool_decide_eq_true in Ep. destruct (FindEndOfExpressionInLine _ _ _) as [e r].
      destruct (e <? 0)%Z; [by eexists|].
      apply (Hrest _ (u ++ group_ m 1 ++ take (Z.to_nat e) (group_ m 2))).
      - rewrite Es at 1. norm_app. by rewrite take_drop.
      - rewrite Ep. intros H. apply (f_equal length) in H. rewrite !length_app in H. cbn in H. lia. }
    destruct (mem_str (group_ m 1) [py "&&"; py "||"]) eqn:El; [by eexists|].
    destruct (mem_str (group_ m 1) other_operators) eqn:Eo.
    + apply (Hrest _ (u ++ group_ m 1)); [rewrite Es at 1; by norm_app|].
      intros H. apply app_eq_nil in H as [_ H]. by rewrite H in Eo.
    + eexists. split; [done|]. split; [|by exists u].
      apply tokens_cases in Ht. rewrite Ep, El, Eo in Ht. by apply mem_str_spec.
  - clear Em. set (m := match re_match operand_re (c :: s) with Some m => Some m | None => _ end).
    destruct m as [m0|] eqn:E0; [|by eexists].
    destruct (operand_match (c :: s) m0 Hnl) as [Es Hne].
    { unfold m in E0. destruct (re_match operand_re (c :: s)); [left; congruence|by right]. }
    by apply (Hrest _ (group_ m0 1)).
Qed.

Definition macro_parts (macro : str) : list part :=
  [Plain RBol; Cap 1 (RCat (RStar true RAny) (RCat (RWordB false)
     (rlit macro (RStar true (RSet false [IClass CSpace])))));
   Plain (RChar 40)].

Lemma macro_re_parts :
  Forall (λ macro, compile (raw "^(.*\b" ++ macro ++ raw "\s*)\(") = Some (parts_re (macro_parts macro))
                   ∧ parts_ok (macro_parts macro) = true) _CHECK_MACROS.
Proof. repeat (constructor; [split; vm_compute; reflexivity|]). constructor. Qed.

(** The macro that is found is one of the table, and its parenthesis is where it says. *)
Lemma find_check_macro_yields macros line :
  Forall (λ macro, compile (raw "^(.*\b" ++ macro ++ raw "\s*)\(") = Some (parts_re (macro_parts macro))
                   ∧ parts_ok (macro_parts macro) = true) macros →
  yields (λ r, ∀ macro pos, r = Some (macro, pos) → macro ∈ macros ∧ line !! pos = Some 40%N)
    (find_check_macro macros line).
Proof.
  induction 1 as [|macro macros [Hc Hok] _ IH]; cbn [find_check_macro]; [by apply yields_ret|].
  assert (Hnext : yields (λ r, ∀ m p, r = Some (m, p) → m ∈ macro :: macros ∧ line !! p = Some 40%N)
                    (find_check_macro macros line)).
  { eapply yields_weaken; [exact IH|]. intros r Hr m p E. destruct (Hr m p E). split; [by right|done]. }
  destruct (contains macro line); [|exact Hnext].
  apply (yields_bind (λ r, r = parts_re (macro_parts macro))).
  { unfold check_macro_re, compiled. rewrite Hc. by apply yields_ret. }
  intros r ->. destruct (re_match _ line) as [m|] eqn:Em; [|exact Hnext].
  apply yields_ret. intros m' p [= <- <-]. split; [by left|].
  by eapply (char_behind_group _ _ _ []); [|exact Hok|exact Em].
Qed.

Lemma suggest_check_yields filename linenum error macro lhs op rhs :
  (∀ f i c l msg, yields (λ _, True) (error f i c l msg)) →
  macro ∈ _CHECK_MACROS → op ∈ relational →
  yields (λ _, True) (suggest_check filename linenum error macro lhs op rhs).
Proof.
  intros He Hm Ho. unfold suggest_check. cbv zeta. destruct (_ || _); [apply yields_done|].
  destruct (_ || _); [|apply yields_done].
  assert (Hr : is_Some (replacement_of macro op)).
  { apply check_replacement_table. split; [done|].
    revert op Ho. apply Forall_forall. by_decision. }
  unfold replacement_of in Hr. apply yields_seq; [|intros r; apply He].
  destruct (_CHECK_REPLACEMENT !! macro) as [d|]; [|by destruct Hr].
  cbn [mbind option_bind] in Hr. destruct Hr as [r ->]. by apply yields_ret.
Qed.

(** ** Alternative tokens *)

Definition alt_parts : list part :=
  [Plain (RSet false [IChar 32; IChar 61; IChar 40; IChar 41]);
   Cap 1 (alts (_ALT_TOKEN_REPLACEMENT.*1));
   Plain (RLook false (RAlt (RSet false [IChar 32; IChar 40]) REol))].

Lemma alt_re_parts : _ALT_TOKEN_REPLACEMENT_PATTERN = Some (parts_re alt_parts).
Proof. vm_compute. reflexivity. Qed.

(** Every token the pattern finds has a replacement. *)
Lemma alt_token_known line m :
  m ∈ re_finditer (parts_re alt_parts) line →
  is_Some (list_find (λ p, p.1 = group_ m 1) _ALT_TOKEN_REPLACEMENT).
Proof.
  intros (c&Hw&Hm)%finditer_inv.
  destruct (match_at_parts _ _ alt_parts _ _ eq_refl eq_refl Hw Hm) as (ws&c'&Hd&_&Hg).
  unfold alt_parts in Hd. read_parts Hd. apply den_alts_read with (w := w0) in Hd1; [|done|done].
  unfold group_. rewrite (Hg 1 _ _ _ eq_refl eq_refl). cbn [default from_option]. unfold id.
  apply list_elem_of_fmap in Hd1 as ([t r]&->&Hin).
  by eapply list_find_elem_of.
Qed.

(** ** Searches that end with a parenthesis *)
Lemma if_match_end line m :
  re_search if_re line = Some m → is_Some (line !! (mo_end m - 1)).
Proof.
  intros (c&Hw&Hm)%re_search_inv.
  set (ps := [Plain (RWordB false); Plain (RChar 105); Plain (RChar 102);
    Plain (RStar true (RSet false [IClass CSpace])); Plain (RChar 40)]).
  destruct (match_at_parts if_re _ ps _ _ ltac:(vm_compute; reflexivity) eq_refl Hw Hm)
    as (ws&c'&Hd&He&_).
  apply parts_den_read in Hd as Hr. unfold ps in Hd. read_parts Hd.
  apply (den_char_read _ _ _ _ Hd4) in Hr4 as ->.
  pose proof (read_within _ _ _ _ Hw Hr) as [_ Hp]. apply read_length in Hr. cbn [concat] in Hr.
  rewrite !length_app in Hr. cbn [length] in Hr. apply lookup_lt_is_Some. lia.
Qed.

Lemma elem_find a s : a ∈ s → ∃ i, find_nat [a] s = Some i ∧ i < length s.
Proof.
  intros Hin. destruct (find_nat [a] s) as [i|] eqn:E.
  - apply find_nat_bound in E as Hb. cbn [length] in Hb. exists i. split; [done|lia].
  - exfalso. apply list_elem_of_split in Hin as (u&t&->).
    apply (proj1 (find_nat_None _ _) E (length u)). rewrite drop_app_length. by exists t.
Qed.

Lemma conditional_match line m : re_match conditional_re line = Some m → 40%N ∈ line.
Proof.
  set (ps := [Plain (RStar true (RSet false [IClass CSpace]));
    Cap 1 (alts (py <$> ["for"; "while"; "if"]%string));
    Plain (RStar true (RSet false [IClass CSpace])); Plain (RChar 40)]).
  intros H. destruct (re_match_parts conditional_re _ ps _ ltac:(vm_compute; reflexivity) eq_refl H)
    as (ws&c'&Es&Hd&_).
  unfold ps in Hd. read_parts Hd. apply (den_char_read _ _ _ _ Hd3) in Hr2 as ->.
  rewrite Es. cbn [concat]. rewrite !elem_of_app. left. do 3 right. left. by left.
Qed.

Lemma block_matches line m :
  re_match paren_block_re line = Some m ∨ re_match else_block_re line = Some m
  ∨ re_match block_re line = Some m → line !! length (group_ m 1) = Some 123%N.
Proof.
  intros [H|[H|H]]; revert H;
    (eapply (char_behind_group _ _ _ []); [vm_compute; reflexivity|vm_compute; reflexivity]).
Qed.

(** ** No check of the style of a line fails *)

Lemma find_semicolon_ge lines i p : (i ≤ find_semicolon lines i p)%Z.
Proof.
  revert i p; induction lines as [|l lines IH]; intros i p; cbn [find_semicolon]; [lia|].
  destruct (contains _ _); [lia|]. specialize (IH (i + 1)%Z 0%Z). lia.
Qed.

Section safety.
Context (filename : str) (cl : CleansedLines) (linenum : Z) (error : error_fn).
Hypothesis cl_aligned : aligned cl.
Hypothesis in_file : (0 ≤ linenum < NumLines cl)%Z.
Hypothesis error_returns : ∀ f n c l msg, yields (λ _, True) (error f n c l msg).

Ltac go :=
  yields_go ltac:(first
    [ apply error_returns | apply complain_yields; exact error_returns
    | apply (elided_yields cl cl_aligned); lia
    | apply (without_yields cl cl_aligned); lia | apply (lines_yields cl cl_aligned); lia ]).

(** The lines [CloseExpression] returns are lines of the file or the number of lines. *)
Lemma close_yields pos line :
  elided cl !! Z.to_nat linenum = Some line → pos < length line →
  yields (λ r : str * Z * Z, 0 ≤ r.1.2)%Z
    (liftM (CloseExpression cl (Z.to_nat linenum) pos) : lint _).
Proof.
  intros Hl Hp. destruct (close_expression_spec _ _ _ _ Hl Hp) as (r&Hr&H).
  eapply yields_lift; [exact Hr|].
  destruct H as [[-> _]|[(k&j&c&->&_)|[-> _]]]; cbn [fst snd]; lia.
Qed.

Lemma CheckSectionSpacing_safe c :
  yields (λ _, True) (CheckSectionSpacing filename cl linenum error c).
Proof. unfold CheckSectionSpacing. go. Qed.

Lemma check_bodies_safe line is_if i p :
  (0 ≤ i)%Z → yields (λ _, True) (check_bodies filename cl linenum error line is_if i p).
Proof.
  intros Hi. unfold check_bodies. cbv zeta.
  pose proof (find_semicolon_ge (drop (Z.to_nat i) (elided cl)) i p).
  destruct cl_aligned as [_ _ _ Hn _].
  destruct (Z.ltb_spec (find_semicolon (drop (Z.to_nat i) (elided cl)) i p)
              (Z.of_nat (length (elided cl)))); [|apply yields_done].
  apply yields_seq; [apply (elided_yields cl cl_aligned); lia|]. intros endline.
  destruct (negb _); [go|]. destruct (Z.ltb_spec (find_semicolon (drop (Z.to_nat i) (elided cl)) i p)
              (Z.of_nat (length (elided cl)) - 1)); [|apply yields_done].
  apply yields_seq; [apply (elided_yields cl cl_aligned); lia|]. go.
Qed.

Lemma check_single_statement_safe line :
  elided cl !! Z.to_nat linenum = Some line →
  yields (λ _, True) (check_single_statement filename cl linenum error line).
Proof.
  intros Hl. unfold check_single_statement.
  destruct (re_search if_else_re line) as [m|]; [|apply yields_done].
  destruct (match_ _ _); [apply yields_done|]. cbv zeta.
  apply (yields_bind (λ r : str * Z * Z, 0 ≤ r.1.2)%Z).
  { destruct (re_search if_re line) as [mi|] eqn:Ei.
    - apply if_match_end, lookup_lt_is_Some in Ei. by apply (close_yields _ line).
    - apply yields_ret. cbn. lia. }
  intros [[endline endlinenum] endpos] Hge. cbn [fst snd] in Hge.
  apply yields_seq.
  - destruct cl_aligned as [_ _ _ Hn _].
    destruct (Z.ltb_spec endlinenum (Z.of_nat (length (elided cl)) - 1)); rewrite ?andb_false_r; go.
  - intros b. apply yields_when. by apply check_bodies_safe.
Qed.

Lemma CheckBraces_safe : yields (λ _, True) (CheckBraces filename cl linenum error).
Proof.
  destruct (current_line cl linenum cl_aligned in_file) as (line&Hl&_&Hy).
  unfold CheckBraces. eapply yields_bind; [exact Hy|]. intros ? ->. cbv zeta.
  apply yields_seq; [go|intros _]. apply yields_seq; [go|intros _].
  apply yields_seq; [|intros _; apply yields_seq; [go|intros _]; apply yields_seq; [go|intros _];
    by apply check_single_statement_safe].
  destruct (matched _); [|go].
  destruct (Z.gtb_spec (find_at (py "(") line (Z.to_nat (find (py "else if") line))) 0); [|apply yields_done].
  apply (yields_bind (λ _, True)); [|go].
  eapply yields_weaken; [apply (close_yields _ line Hl)|done].
  revert H. generalize (Z.to_nat (find (py "else if") line)). intros start. unfold find_at.
  destruct (find_nat _ _) as [i|] eqn:E; [|lia]. intros Hpos. apply find_nat_bound in E.
  rewrite length_drop in E. change (length (py "(")) with 1 in E. case_decide; lia.
Qed.

Lemma CheckEmptyBlockBody_safe :
  yields (λ _, True) (CheckEmptyBlockBody filename cl linenum error).
Proof.
  destruct (current_line cl linenum cl_aligned in_file) as (line&Hl&_&Hy).
  unfold CheckEmptyBlockBody. eapply yields_bind; [exact Hy|]. intros ? ->.
  destruct (re_match conditional_re line) as [m|] eqn:Em; [|apply yields_done].
  destruct (elem_find 40%N line (conditional_match _ _ Em)) as (i&Hi&Hlt).
  change (py "(") with [40%N]. rewrite Hi.
  apply (yields_bind (λ _, True)); [|go].
  eapply yields_weaken; [by apply (close_yields _ line Hl)|done].
Qed.

Lemma block_brace_safe line :
  elided cl !! Z.to_nat linenum = Some line →
  yields (λ r, ∀ pos, r = Some pos → pos < length line) (block_brace cl linenum line).
Proof.
  intros Hl. unfold block_brace. destruct (re_match paren_block_re line) as [m|] eqn:Em.
  - assert (Hm : length (group_ m 1) < length line).
    { eapply lookup_lt_Some, block_matches. by left. }
    set (p := default 0 (rfind_nat (py ")") (group_ m 1))).
    assert (Hp : p < length line).
    { unfold p. pose proof (rfind_nat_char 41%N (group_ m 1)) as Hr. change (py ")") with [41%N].
      destruct (rfind_nat [41%N] (group_ m 1)) as [i|]; cbn [default from_option]; [|lia].
      destruct Hr as (u&t&E&<-&_). unfold id. rewrite E, length_app in Hm. cbn in Hm. lia. }
    clearbody p. cbv zeta. destruct (reverse_expression_spec _ _ _ _ Hl Hp) as (r&Hr&Hspec).
    eapply (yields_bind (λ x, x = r)); [by eapply yields_lift|]. intros ? ->.
    destruct r as [[text k] col]. cbn [fst snd] in Hspec.
    destruct (_ && _); [by apply yields_ret|].
    apply (yields_bind (λ _, True)).
    + destruct (Z.gtb_spec k 1); [|by apply yields_ret].
      apply yields_seq; [|intros ?; by apply yields_ret].
      apply (elided_yields cl cl_aligned).
      destruct Hspec as [[-> _]|(k'&_&_&E&Hle&_)]; [lia|]. cbn [fst snd] in E. lia.
    + intros [] _; apply yields_ret; [done|]. by intros pos [= <-].
  - destruct (re_match else_block_re line) as [m|] eqn:Ee.
    + apply yields_ret. intros pos [= <-]. eapply lookup_lt_Some, block_matches. by right; left.
    + destruct (match _ with [] => false | _ => _ end); [|by apply yields_ret].
      apply yields_ret. intros pos Hp. destruct (re_match block_re line) as [m|] eqn:Eb; [|done].
      injection Hp as <-. eapply lookup_lt_Some, block_matches. by right; right.
Qed.

Lemma CheckTrailingSemicolon_safe :
  yields (λ _, True) (CheckTrailingSemicolon filename cl linenum error).
Proof.
  destruct (current_line cl linenum cl_aligned in_file) as (line&Hl&_&Hy).
  unfold CheckTrailingSemicolon. eapply yields_bind; [exact Hy|]. intros ? ->.
  eapply yields_bind; [by apply (block_brace_safe line)|]. intros [pos|] Hpos; [|apply yields_done].
  apply (yields_bind (λ _, True)); [|go].
  eapply yields_weaken; [apply (close_yields _ line Hl); by apply Hpos|done].
Qed.

(** The text between the parentheses of a macro has no line breaks either. *)
Lemma check_expression_break start last_line k p :
  10%N ∉ last_line → 10%N ∉ check_expression cl linenum start last_line k p.
Proof.
  intros Hlast. destruct (current_line cl linenum cl_aligned in_file) as (line&Hl&Hnl&_).
  assert (Hsub : ∀ (l l' : str), 10%N ∉ l → l' `sublist_of` l → 10%N ∉ l').
  { intros l l' H Hs Hin. apply H. by eapply elem_of_sublist. }
  unfold check_expression. cbv zeta. rewrite Hl. cbn [default from_option]. unfold id.
  destruct (_ =? _)%Z.
  - apply (Hsub line); [done|]. unfold py_slice. etrans; [apply sublist_take|apply sublist_drop].
  - rewrite !elem_of_app. intros [H|[H|H]].
    + revert H. apply (Hsub line); [done|apply sublist_drop].
    + apply list_elem_of_join in H as (l&Hin&Hl'). destruct cl_aligned as [_ _ _ _ Hb].
      rewrite Forall_forall in Hb. apply (Hb l); [|done].
      eapply elem_of_sublist; [exact Hl'|]. etrans; [apply sublist_take|apply sublist_drop].
    + revert H. apply (Hsub last_line); [done|apply sublist_take].
Qed.

Lemma CheckCheck_safe : yields (λ _, True) (CheckCheck filename cl linenum error).
Proof.
  destruct (current_line cl linenum cl_aligned in_file) as (line&Hl&_&Hy).
  unfold CheckCheck. eapply yields_bind; [exact Hy|]. intros ? ->.
  eapply yields_bind; [apply find_check_macro_yields, macro_re_parts|].
  intros [[macro pos]|] Hm; [|apply yields_done].
  destruct (Hm _ _ eq_refl) as [Hin Hpos]. apply lookup_lt_Some in Hpos.
  destruct (close_expression_spec _ _ _ _ Hl Hpos) as ([[last_line k] p]&Hr&H).
  eapply (yields_bind (λ x, x = (last_line, k, p))); [by eapply yields_lift|]. intros ? ->.
  destruct (Z.ltb_spec p 0); [apply yields_done|]. destruct (negb _); [apply yields_done|].
  assert (Hb : 10%N ∉ last_line).
  { destruct cl_aligned as [_ _ _ _ Hb]. rewrite Forall_lookup in Hb. cbn [fst snd] in H.
    destruct H as [[_ ?]|[(j&_&_&_&_&Hj&_)|[E _]]]; [lia|by eapply Hb|].
    injection E as -> _. by eapply Hb. }
  cbv zeta. destruct (parse_check_spec (length (check_expression cl linenum pos last_line k p)) []
    (check_expression cl linenum pos last_line k p)) as (r&Hr'&Hspec);
    [done|by apply check_expression_break|].
  eapply (yields_bind (λ x, x = r)); [by eapply yields_lift|]. intros ? ->.
  destruct r as [|[|c lhs] [[[|o op] [|r rhs]]|]]; try apply yields_done.
  destruct Hspec as [Hop _]. apply suggest_check_yields; [exact error_returns|exact Hin|exact Hop].
Qed.

Lemma CheckAltTokens_safe : yields (λ _, True) (CheckAltTokens filename cl linenum error).
Proof.
  destruct (current_line cl linenum cl_aligned in_file) as (line&Hl&_&Hy).
  unfold CheckAltTokens. eapply yields_bind; [exact Hy|]. intros ? ->.
  destruct (match_ _ _); [apply yields_done|]. destruct (_ || _); [apply yields_done|].
  rewrite alt_re_parts. apply yields_for. intros m Hm.
  destruct (alt_token_known line m Hm) as [[i [t r]] ->]. go.
Qed.

Lemma check_indent_safe line cleansed_line :
  yields (λ _, True) (check_indent filename cl linenum error line cleansed_line).
Proof.
  unfold check_indent. apply yields_seq; [go|intros _].
  destruct (match last line with Some _ => _ | None => _ end); [go|].
  destruct (_ && _); [|go]. apply yields_seq; [|go]. apply line_at_some.
  destruct cl_aligned as [Hr _ _ Hn _]. lia.
Qed.

Lemma check_length_safe `{UnicodeData} guard line :
  yields (λ _, True) (check_length filename linenum error guard line).
Proof.
  unfold check_length. apply yields_when. cbv zeta. apply yields_seq; [apply yields_get|]. go.
Qed.

Lemma header_guard_line_safe cwd exists_ ext line :
  (ext = py "h" → yields (λ _, True) (GetHeaderGuardCPPVariable cwd exists_ filename)) →
  yields (λ _, True) (header_guard_line cwd exists_ filename ext line).
Proof.
  intros Hg. unfold header_guard_line. destruct (str_eqb ext (py "h")) eqn:E; [|by apply yields_ret].
  apply bool_decide_eq_true in E. apply yields_seq; [by apply Hg|]. intros v. by apply yields_ret.
Qed.
End safety.


