(* ===== verification/LintLanguage.v ===== *)
(** * cpplint.py: rules of the language

    The checks from [CheckLanguage] to [ExpectingFunctionArgs] and those of [make_pair],
    lambdas and redundant specifiers: C types, format strings, global strings, references that
    are not constant, casts. *)

From S2P Require Import Prelude PyStr PyRe PyReFacts PyPath LintData LintState LintLines LintInclude.
From S2P Require Import LintExpr LintChecks LintNesting LintModules LintSpacing.

(** ** Patterns *)
Definition rx_str (p : str) : regex := default REps (compile p).

Definition _RE_PATTERN_IDENT : str := raw "[_a-zA-Z]\w*".
Definition _RE_PATTERN_TYPE : str :=
  raw "(?:const\s+)?(?:typename\s+|class\s+|struct\s+|union\s+|enum\s+)?"
  ++ raw "(?:\w|\s*<(?:<(?:<[^<>]*>|[^<>])*>|[^<>])*>|::)+".
Definition _RE_PATTERN_REF_PARAM : regex :=
  rx_str (raw "(" ++ _RE_PATTERN_TYPE ++ raw "(?:\s*(?:\bconst\b|[*]))*\s*&\s*"
          ++ _RE_PATTERN_IDENT ++ raw ")\s*(?:=[^,()]+)?[,)]").
Definition _RE_PATTERN_CONST_REF_PARAM : regex :=
  rx_str (raw "(?:.*\s*\bconst\s*&\s*" ++ _RE_PATTERN_IDENT
          ++ raw "|const\s+" ++ _RE_PATTERN_TYPE ++ raw "\s*&\s*" ++ _RE_PATTERN_IDENT ++ raw ")").
Definition _RE_PATTERN_EXPLICIT_MAKEPAIR : regex := rx "\bmake_pair\s*<".

(** The lines from [last] up to [first], nearest first: [xrange(last, first - 1, -1)]. *)
Definition lines_up (elided : list str) (last_ first : nat) : list str :=
  reverse (take (S last_ - first) (drop first elided)).

(** The first of [lines], numbered downwards from [i], that starts like a function. *)
Definition function_start_re : regex := rx "^([^()]*\w+)\(".
Fixpoint function_start (i : nat) (lines : list str) : option (nat * str * mobj) :=
  match lines with
  | [] => None
  | line :: lines =>
      match re_match function_start_re line with
      | Some m => Some (i, line, m)
      | None => function_start (i - 1) lines
      end
  end.

Definition IsDerivedFunction (clean_lines : CleansedLines) (linenum : nat) : res pyexn bool :=
  match function_start linenum (lines_up (elided clean_lines) linenum (linenum - 9)) with
  | None => Ok false
  | Some (i, _, m) =>
      '(line, _, closing_paren) ← CloseExpression clean_lines i (length (group_ m 1));
      Ok ((closing_paren >=? 0)%Z && search_ "\boverride\b" (drop (Z.to_nat closing_paren) line))
  end.

Definition IsOutOfLineMethodDefinition (clean_lines : CleansedLines) (linenum : nat) : bool :=
  match function_start linenum (lines_up (elided clean_lines) linenum (linenum - 9)) with
  | None => false
  | Some (_, line, _) => match_ "^[^()]*\w+::\w+\(" line
  end.

Fixpoint initializer_list (lines : list str) : bool :=
  match lines with
  | [] => false
  | line :: lines =>
      if search_ "\s:\s*\w+[({]" line then true
      else if search_ "\}\s*,\s*$" line then true
      else if search_ "[{};]\s*$" line then false
      else initializer_list lines
  end.

(** The current line without the brace of the body, then the lines above it. *)
Definition IsInitializerList (clean_lines : CleansedLines) (linenum : nat) : bool :=
  match lines_up (elided clean_lines) linenum 2 with
  | [] => false
  | line :: lines =>
      let line := match re_match (rx "^(.*)\{\s*$") line with
                  | Some m => group_ m 1
                  | None => line
                  end in
      initializer_list (line :: lines)
  end.

(** ** References *)

(** The line, joined with the line above where a type is split between them. *)
Definition joined_type (clean_lines : CleansedLines) (linenum : nat) (line : str)
    : res pyexn str :=
  if (linenum <=? 1)%nat then Ok line
  else
    let above := default [] (elided clean_lines !! (linenum - 1)) in
    let previous :=
      if match_ "\s*::(?:[\w<>]|::)+\s*&\s*\S" line
      then re_search (rx "\b((?:const\s*)?(?:[\w<>]|::)+[\w<>])\s*$") above
      else if match_ "\s*[a-zA-Z_]([\w<>]|::)+\s*&\s*\S" line
      then re_search (rx "\b((?:const\s*)?(?:[\w<>]|::)+::)\s*$") above
      else None in
    match previous with
    | Some m => Ok (group_ m 1 ++ lstrip line)
    | None =>
        match rfind_nat (py ">") line with
        | None => Ok line
        | Some endpos =>
            '(_, startline, startpos) ← ReverseCloseExpression clean_lines linenum endpos;
            if (startpos >? -1)%Z && (startline <? Z.of_nat linenum)%Z
            then let first := Z.to_nat startline in
                 Ok (mjoin (strip <$> take (S linenum - first) (drop first (elided clean_lines))))
            else Ok line
        end
    end.

(** Neither a class nor a namespace around the line. *)
Definition in_function (n : NestingState) : bool :=
  match r ← previous_stack_top n; heap n !! r with
  | Some b => match kind b with ClassKind _ | NamespaceInfo _ _ => false | _ => true end
  | None => false
  end.

(** The lines above, while they end a parameter: does one start an initializer list? *)
Fixpoint colon_above (lines : list str) : bool :=
  match lines with
  | [] => false
  | previous_line :: lines =>
      if negb (search_ "[),]\s*$" previous_line) then false
      else if match_ "^\s*:\s+\S" previous_line then true
      else colon_above lines
  end.

Definition whitelisted_functions : string :=
  "(?:[sS]wap(?:<\w:+>)?|operator\s*[<>][<>]|static_assert|COMPILE_ASSERT)\s*\(".

Definition whitelisted (clean_lines : CleansedLines) (linenum : nat) (line : str) : bool :=
  search_ whitelisted_functions line
  || negb (search_ "\S+\([^)]*$" line)
     && existsb (search_ whitelisted_functions)
          (take (linenum - (linenum - 2)) (drop (linenum - 2) (elided clean_lines))).

(** ** Casts *)
Definition ExpectingFunctionArgs (clean_lines : CleansedLines) (linenum : nat) (line : str) : bool :=
  let above i := default [] (elided clean_lines !! (linenum - i)) in
  match_ "^\s*MOCK_(CONST_)?METHOD\d+(_T)?\(" line
  || (2 <=? linenum)%nat
     && (match_ "^\s*MOCK_(?:CONST_)?METHOD\d+(?:_T)?\((?:\S+,)?\s*$" (above 1)
         || match_ "^\s*MOCK_(?:CONST_)?METHOD\d+(?:_T)?\(\s*$" (above 2)
         || search_ "\bstd::m?function\s*\<\s*$" (above 1)).

Definition basic_type_re : regex :=
  rx "(\bnew\s+|\S<\s*(?:const\s+)?)?\b(int|float|double|bool|char|int32|uint32|int64|uint64)(\([^)].*)".
Definition static_cast_re : regex := rx "\((int|float|double|bool|char|u?int(16|32|64))\)".
Definition const_cast_re : regex := pyrx "\\((char\\s?\\*+\\s?)\\)\\s*\x22".
Definition reinterpret_cast_re : regex := rx "\((\w+\s?\*+\s?)\)".
Definition address_re : regex :=
  rx "(?:[^\w]&\(([^)*][^)]*)\)[\w(])|(?:[^\w]&(static|dynamic|down|reinterpret)_cast\b)".
Definition address_of_cast_re : regex := rx "^(.*&(?:static|dynamic|down|reinterpret)_cast\b)<".

(** Remainders behind the type that look like a parameter without a name. *)
Definition unnamed_parameter (remainder : str) : bool :=
  match_ "^\s*(?:;|const\b|throw\b|final\b|override\b|[=>{),]|->)" remainder.

Definition function_pointer (before remainder : str) : bool :=
  match_ "^\s*>" remainder
  || match re_match (rx "^\s=\s*(\S+)\s*;") remainder with
     | Some m => negb (str_eqb (group_ m 1) (py "0"))
     | None => false
     end
  || match_ ".*\)\s*$" before.

(** [re.split]'s pattern for the size of an array. *)
Definition size_tokens_re : regex := rx "\s|\+|\-|\*|\/|<<|>>]".

Definition constant_token (tok : str) : bool :=
  match tok with [] => true | _ => false end
  || match_ "\d+" tok || match_ "0[xX][0-9a-fA-F]+" tok || match_ "k[A-Z0-9]\w*" tok
  || match_ "(.+::)?k[A-Z0-9]\w*" tok || match_ "(.+::)?[A-Z][A-Z0-9_]*" tok.

(** The loop over the tokens of the size. *)
Fixpoint constant_tokens (skip_next : bool) (tokens : list str) : bool :=
  match tokens with
  | [] => true
  | tok :: tokens =>
      if skip_next then constant_tokens false tokens
      else if search_ "sizeof\(.+\)" tok || search_ "arraysize\(\w+\)" tok
      then constant_tokens false tokens
      else
        let tok := rstrip_char 41 (lstrip_char 40 tok) in
        if constant_token tok then constant_tokens false tokens
        else if starts_with (py "sizeof") tok then constant_tokens true tokens
        else false
  end.

Section checks.
Context (filename : str) (clean_lines : CleansedLines) (linenum : Z) (error : error_fn).

Local Abbreviation complain := (complain filename linenum error).
Local Abbreviation i := (Z.to_nat linenum).

Definition CheckForNonConstReference (nesting_state : NestingState) : lint unit :=
  line ← elided_line clean_lines linenum;
  if negb (contains (py "&") line) then mret ()
  else
    derived ← liftM (IsDerivedFunction clean_lines i);
    if (derived : bool) then mret ()
    else if IsOutOfLineMethodDefinition clean_lines i then mret ()
    else
      line ← liftM (joined_type clean_lines i line);
      if in_function nesting_state then mret ()
      else if colon_above (lines_up (elided clean_lines) (i - 1) (S (i - 10))) then mret ()
      else if search_ "\\\s*$" line then mret ()
      else if IsInitializerList clean_lines i then mret ()
      else if whitelisted clean_lines i line then mret ()
      else
        let decls := re_sub (rx "{[^}]*}") (λ _, py " ") line in
        forM (re_findall _RE_PATTERN_REF_PARAM decls) (λ parameter,
          whenM (negb (matched (re_match _RE_PATTERN_CONST_REF_PARAM parameter)))
            (complain "runtime/references" 2
               (py "Is this a non-const reference? If so, make const or use a pointer: "
                ++ re_sub (rx " *<") (λ _, py "<") parameter))).

(** Whether an error was emitted. *)
Definition CheckCStyleCast (cast_type : string) (pattern : regex) : lint bool :=
  line ← elided_line clean_lines linenum;
  match re_search pattern line with
  | None => mret false
  | Some m =>
      let start := match get_cap 1 (mo_caps m) with Some (a, _) => a | None => 0 end in
      let context := take (start - 1) line in
      if match_ ".*\b(?:sizeof|alignof|alignas|[_A-Z][_A-Z0-9]*)\s*$" context then mret false
      else
        let context := mjoin (reverse (lines_up (elided clean_lines) (i - 1) (S (i - 5)))) ++ context in
        if match_ ".*\b[_A-Z][_A-Z0-9]*\s*\((?:\([^()]*\)|[^()])*$" context then mret false
        else if ends_with (py " operator++") context || ends_with (py " operator--") context
        then mret false
        else
          let remainder := drop (mo_end m) line in
          if unnamed_parameter remainder then
            if function_pointer (take (mo_start m) line) remainder then mret false
            else
              raw_line ← line_at (raw_lines clean_lines) linenum;
              if contains (py "/*") raw_line then mret false
              else
                complain "readability/function" 3
                  (py "All parameters should be named in a function") ;;
                mret true
          else
            complain "readability/casting" 4
              (py "Using C-style cast.  Use " ++ py cast_type ++ py "<" ++ group_ m 1
               ++ py ">(...) instead") ;;
            mret true
  end.

(** The first part: conversion functions; [true]: the check is over. *)
Definition check_conversion (line : str) (expecting_function : bool) : lint bool :=
  match re_search basic_type_re line with
  | Some m =>
      if expecting_function then mret false
      else
        let matched_type := group_ m 2 in
        let matched_funcptr := group_ m 3 in
        if match_ "\([^()]+\)\s*\[" matched_funcptr then mret true
        else if bool_decide (group m 1 ≠ None) then mret false
        else if match_ "\((?:[^() ]+::\s*\*\s*)?[^() ]+\)\s*\(" matched_funcptr
                || starts_with (py "(*)") matched_funcptr then mret false
        else
          using_ ← compiled (raw "\s*using\s+\S+\s*=\s*" ++ matched_type);
          if matched (re_match using_ line) then mret false
          else
            placement ← compiled (raw "new\(\S+\)\s*" ++ matched_type);
            whenM (negb (matched (re_search placement line)))
              (complain "readability/casting" 4
                 (py "Using deprecated casting style.  Use static_cast<" ++ matched_type
                  ++ py ">(...) instead")) ;;
            mret false
  | None => mret false
  end.

(** Whether something dereferenced from a cast follows. *)
Definition parenthesis_error (line : str) : res pyexn bool :=
  match re_match address_of_cast_re line with
  | None => Ok false
  | Some m =>
      '(_, y1, x1) ← CloseExpression clean_lines i (length (group_ m 1));
      if (x1 >=? 0)%Z then
        line1 ← match elided clean_lines !! Z.to_nat y1 with Some l => Ok l | None => Raise IndexError end;
        c ← match line1 !! Z.to_nat x1 with Some c => Ok c | None => Raise IndexError end;
        if (c =? 40)%N then
          '(_, y2, x2) ← CloseExpression clean_lines (Z.to_nat y1) (Z.to_nat x1);
          if (x2 >=? 0)%Z then
            line2 ← match elided clean_lines !! Z.to_nat y2 with Some l => Ok l | None => Raise IndexError end;
            let next := if (y2 <? NumLines clean_lines - 1)%Z
                        then default [] (elided clean_lines !! S (Z.to_nat y2)) else [] in
            Ok (match_ "\s*(?:->|\[)" (drop (Z.to_nat x2) line2 ++ next))
          else Ok false
        else Ok false
      else Ok false
  end.

Definition CheckCasts : lint unit :=
  line ← elided_line clean_lines linenum;
  let expecting_function := ExpectingFunctionArgs clean_lines i line in
  over ← check_conversion line expecting_function;
  if (over : bool) then mret ()
  else
    whenM (negb expecting_function)
      (CheckCStyleCast "static_cast" static_cast_re ;; mret ()) ;;
    const_cast ← CheckCStyleCast "const_cast" const_cast_re;
    whenM (negb const_cast)
      (CheckCStyleCast "reinterpret_cast" reinterpret_cast_re ;; mret ()) ;;
    match re_search address_re line with
    | None => mret ()
    | Some _ =>
        dereferenced ← liftM (parenthesis_error line);
        if (dereferenced : bool) then
          complain "readability/casting" 4
            (py "Are you taking an address of something dereferenced from a cast?  Wrapping the dereferenced expression in parentheses will make the binding more obvious")
        else
          complain "runtime/casting" 4
            (py "Are you taking an address of a cast?  This is dangerous: could be a temp var.  Take the address before doing the cast, rather than after")
    end.

(** ** Global strings, format strings *)
Definition CheckGlobalStatic : lint unit :=
  line ← elided_line clean_lines linenum;
  line ← (if (linenum + 1 <? NumLines clean_lines)%Z && negb (search_ "[;({]" line)
          then next ← elided_line clean_lines (linenum + 1); mret (line ++ strip next)
          else mret line);
  match re_match (rx "((?:|static +)(?:|const +))string +([a-zA-Z0-9_:]+)\b(.*)") line with
  | Some m =>
      whenM (negb (search_ "\bstring\b(\s+const)?\s*\*\s*(const\s+)?\w" line)
             && negb (search_ "\boperator\W" line)
             && negb (matched (re_match (pyrx "\\s*(<.*>)?(::[a-zA-Z0-9_]+)*\\s*\\(([^\x22]|$)") (group_ m 3))))
        (complain "runtime/string" 4
           (py "For a static/global string constant, use a C style string instead: \x22"
            ++ group_ m 1 ++ py "char " ++ group_ m 2 ++ py "[]\x22."))
  | None => mret ()
  end ;;
  whenM (search_ "\b([A-Za-z0-9_]*_)\(\1\)" line)
    (complain "runtime/init" 4 (py "You seem to be initializing a member variable with itself.")).

Definition CheckPrintf : lint unit :=
  line ← elided_line clean_lines linenum;
  match re_search (rx "snprintf\s*\(([^,]*),\s*([0-9]*)\s*,") line with
  | Some m =>
      whenM (negb (str_eqb (group_ m 2) (py "0")))
        (complain "runtime/printf" 3
           (py "If you can, use sizeof(" ++ group_ m 1 ++ py ") instead of " ++ group_ m 2
            ++ py " as the 2nd arg to snprintf."))
  | None => mret ()
  end ;;
  whenM (search_ "\bsprintf\s*\(" line)
    (complain "runtime/printf" 5 (py "Never use sprintf. Use snprintf instead.")) ;;
  match re_search (rx "\b(strcpy|strcat)\s*\(") line with
  | Some m => complain "runtime/printf" 4 (py "Almost always, snprintf is better than " ++ group_ m 1)
  | None => mret ()
  end.
End checks.

(** ** Further checks of a line *)
Section more_checks.
Context (filename : str) (clean_lines : CleansedLines) (linenum : Z) (error : error_fn).

Local Abbreviation complain := (complain filename linenum error).
Local Abbreviation i := (Z.to_nat linenum).

Definition CheckMakePairUsesDeduction : lint unit :=
  line ← elided_line clean_lines linenum;
  whenM (matched (re_search _RE_PATTERN_EXPLICIT_MAKEPAIR line))
    (complain "build/explicit_make_pair" 4
       (py "For C++11-compatibility, omit template arguments from make_pair OR use pair directly OR if appropriate, construct a pair directly")).

Definition lambda_re : regex := rx "^(.*)\[\s*(?:=|&[^\w])".

Definition CheckDefaultLambdaCaptures : lint unit :=
  line ← elided_line clean_lines linenum;
  match re_match lambda_re line with
  | None => mret ()
  | Some m =>
      '(line, _, pos) ← liftM (CloseExpression clean_lines i (length (group_ m 1)));
      whenM ((pos >=? 0)%Z && match_ "^\s*[{(]" (drop (Z.to_nat pos) line))
        (complain "build/c++11" 4 (py "Default lambda captures are an unapproved C++ feature."))
  end.

(** The parameter list behind [virtual], on one of three lines: the number of the line and the
    column of its parenthesis. *)
Fixpoint parameter_list (lines : list str) (start_line start_col : nat) : option (nat * nat) :=
  match lines with
  | [] => None
  | line :: lines =>
      match re_match (rx "^([^(]*)\(") (drop start_col line) with
      | Some m => Some (start_line, start_col + length (group_ m 1))
      | None => parameter_list lines (S start_line) 0
      end
  end.

(** The lines from the end of the parameter list on. *)
Fixpoint check_virt_specifiers (lines : list str) (end_col : nat) : lint unit :=
  match lines with
  | [] => mret ()
  | line :: lines =>
      let line := drop end_col line in
      match re_search (rx "\b(override|final)\b") line with
      | Some m => complain "readability/inheritance" 4
                    (py "\x22virtual\x22 is redundant since function is already declared as \x22"
                     ++ group_ m 1 ++ py "\x22")
      | None => mret ()
      end ;;
      if search_ "[^\w]\s*$" line then mret () else check_virt_specifiers lines 0
  end.

Definition CheckRedundantVirtual : lint unit :=
  line ← elided_line clean_lines linenum;
  match re_match (rx "^(.*)(\bvirtual\b)(.*)$") line with
  | None => mret ()
  | Some m =>
      if search_ "\b(public|protected|private)\s+$" (group_ m 1)
         || match_ "^\s+(public|protected|private)\b" (group_ m 3) then mret ()
      else if match_ "^.*[^:]:[^:].*$" line then mret ()
      else
        match parameter_list (take 3 (drop i (elided clean_lines))) i (length (group_ m 2)) with
        | None => mret ()
        | Some (start_line, col) =>
            '(_, end_line, end_col) ← liftM (CloseExpression clean_lines start_line col);
            if (end_col <? 0)%Z then mret ()
            else check_virt_specifiers (take 3 (drop (Z.to_nat end_line) (elided clean_lines)))
                   (Z.to_nat end_col)
        end
  end.

Definition CheckRedundantOverrideOrFinal : lint unit :=
  line ← elided_line clean_lines linenum;
  fragment ←
    match rfind_nat (py ")") line with
    | Some declarator_end => mret (Some (drop declarator_end line))
    | None =>
        if (linenum >? 1)%Z then
          above ← elided_line clean_lines (linenum - 1);
          mret (if contains (py ")") above then Some line else None)
        else mret None
    end;
  match fragment with
  | Some fragment =>
      whenM (search_ "\boverride\b" fragment && search_ "\bfinal\b" fragment)
        (complain "readability/inheritance" 4
           (py "\x22override\x22 is redundant since function is already declared as \x22final\x22"))
  | None => mret ()
  end.

(** ** The language rules *)
Context (cwd : str) (exists_ : str → bool).

Definition IGNORECASE_MULTILINE : flags := Flags true true.

Definition check_printf_args (line : str) : lint unit :=
  printf_args ← liftM (text_inside IGNORECASE_MULTILINE line (rx "\b(string)?printf\s*\("));
  match printf_args with
  | Some ((_ :: _) as printf_args) =>
      match re_match (rx "([\w.\->()]+)$") printf_args with
      | Some m =>
          if str_eqb (group_ m 1) (py "__VA_ARGS__") then mret ()
          else
            match re_search_fl IGNORECASE (rx "\b((?:string)?printf)\s*\(") line with
            | Some f =>
                complain "runtime/printf" 4
                  (py "Potential format string bug. Do " ++ group_ f 1 ++ py "(\x22%s\x22, "
                   ++ group_ m 1 ++ py ") instead.")
            | None => raiseM AttributeError
            end
      | None => mret ()
      end
  | _ => mret ()
  end.

Definition check_arrays (line : str) : lint unit :=
  match re_match (rx "\s*(.+::)?(\w+) [a-z]\w*\[(.+)];") line with
  | Some m =>
      whenM (negb (str_eqb (group_ m 2) (py "return")) && negb (str_eqb (group_ m 2) (py "delete"))
             && negb (contains (py "]") (group_ m 3))
             && negb (constant_tokens false (re_split size_tokens_re (group_ m 3))))
        (complain "runtime/arrays" 1
           (py "Do not use variable-length arrays.  Use an appropriately named ('k' followed by CamelCase) compile-time constant for the size."))
  | None => mret ()
  end.

Definition check_basic_types (line : str) : lint unit :=
  if search_ "\bshort port\b" line then
    whenM (negb (search_ "\bunsigned short port\b" line))
      (complain "runtime/int" 4 (py "Use \x22unsigned short\x22 for ports, not \x22short\x22"))
  else
    match re_search (rx "\b(short|long(?! +double)|long long)\b") line with
    | Some m => complain "runtime/int" 4
                  (py "Use int16/int64/etc, rather than the C type " ++ group_ m 1)
    | None => mret ()
    end.

Definition check_memset (line : str) : lint unit :=
  match re_search (rx "memset\s*\(([^,]*),\s*([^,]*),\s*0\s*\)") line with
  | Some m =>
      whenM (negb (match_ "^''|-?[0-9]+|0x[0-9A-Fa-f]$" (group_ m 2)))
        (complain "runtime/memset" 4
           (py "Did you mean \x22memset(" ++ group_ m 1 ++ py ", 0, " ++ group_ m 2 ++ py ")\x22?"))
  | None => mret ()
  end.

(** The new state of [include_state]. *)
Definition CheckLanguage (file_extension : str) (include_state : IncludeState.t)
    : lint IncludeState.t :=
  line ← elided_line clean_lines linenum;
  if str_eqb line [] then mret include_state
  else if matched (re_search _RE_PATTERN_INCLUDE line) then
    CheckIncludeLine cwd exists_ filename clean_lines linenum include_state error
  else
    include_state ←
      match re_match (rx "^\s*#\s*(if|ifdef|ifndef|elif|else|endif)\b") line with
      | Some m => liftM (IncludeState.ResetSection (group_ m 1) include_state)
      | None => mret include_state
      end;
    CheckCasts filename clean_lines linenum error ;;
    CheckGlobalStatic filename clean_lines linenum error ;;
    CheckPrintf filename clean_lines linenum error ;;
    check_basic_types line ;;
    whenM (search_ "\boperator\s*&\s*\(\s*\)" line)
      (complain "runtime/operator" 4 (py "Unary operator& is dangerous.  Do not use it.")) ;;
    whenM (search_ "\}\s*if\s*\(" line)
      (complain "readability/braces" 4
         (py "Did you mean \x22else if\x22? If not, start a new line for \x22if\x22.")) ;;
    check_printf_args line ;;
    check_memset line ;;
    whenM (search_ "\busing namespace\b" line)
      (complain "build/namespaces" 5
         (py "Do not use namespace using-directives.  Use using-declarations instead.")) ;;
    check_arrays line ;;
    whenM (str_eqb file_extension (py "h") && search_ "\bnamespace\s*{" line
           && negb (bool_decide (last line = Some 92%N)))
      (complain "build/namespaces" 4
         (py "Do not use unnamed namespaces in header files.  See http://google-styleguide.googlecode.com/svn/trunk/cppguide.xml#Namespaces for more information.")) ;;
    mret include_state.
End more_checks.

(** * Theorems *)

(** The pattern [r] is [^(body)a] or [^(body)a...]: the character behind the group. *)
Ltac behind_group r :=
  match eval vm_compute in r with
  | RCat RBol (RCat (RGroup 1 ?body) (RCat (RChar ?a) ?rest)) =>
      apply (char_behind_group r body a [Plain rest]); vm_compute; reflexivity
  | RCat RBol (RCat (RGroup 1 ?body) (RChar ?a)) =>
      apply (char_behind_group r body a []); vm_compute; reflexivity
  end.

Lemma address_of_cast_match line m :
  re_match address_of_cast_re line = Some m → line !! length (group_ m 1) = Some 60%N.
Proof. behind_group address_of_cast_re. Qed.
Lemma function_start_match line m :
  re_match function_start_re line = Some m → line !! length (group_ m 1) = Some 40%N.
Proof. behind_group function_start_re. Qed.
Lemma lambda_match line m :
  re_match lambda_re line = Some m → line !! length (group_ m 1) = Some 91%N.
Proof. behind_group lambda_re. Qed.

(** ** The address of a cast *)

(** Where the expression behind the cast of [line] closes: the text of that line, its number,
    the column behind the closing character. *)
Definition cast_closes (cl : CleansedLines) (linenum : Z) (line l : str) (y x : nat) : Prop :=
  ∃ m, re_match address_of_cast_re line = Some m ∧
    CloseExpression cl (Z.to_nat linenum) (length (group_ m 1)) = Ok (l, Z.of_nat y, Z.of_nat x).

(** C30: [CheckCasts] looks at the character behind a cast whose address is taken without asking
    whether there is one: on exactly those lines where the closing angle bracket is the last
    character of its line the tool stops with an IndexError; on all others the question is
    answered. *)
Theorem parenthesis_error_spec cl linenum line :
  elided cl !! Z.to_nat linenum = Some line →
  (parenthesis_error cl linenum line = Raise IndexError ∧
   ∃ l y, cast_closes cl linenum line l y (length l)) ∨
  ((∃ b, parenthesis_error cl linenum line = Ok b) ∧
   ∀ l y, ¬ cast_closes cl linenum line l y (length l)).
Proof.
  intros Hl. unfold parenthesis_error, cast_closes.
  destruct (re_match address_of_cast_re line) as [m|] eqn:Em.
  2: { right. split; [by eexists|]. by intros l y (m&[=]&_). }
  destruct (close_expression_bounds cl (Z.to_nat linenum) (length (group_ m 1)) line Hl)
    as ([[l y] x]&E&H).
  { eapply lookup_lt_Some, address_of_cast_match, Em. }
  rewrite E. cbn [mbind res_bind]. destruct H as [[_ Hx]|(k&j&c&Hy&_&Hk&Hx&Hc&_)]; cbn [fst snd] in *.
  - rewrite Hx. right. split; [by eexists|]. intros l' y' (m'&[= <-]&E'). rewrite E in E'.
    injection E'. lia.
  - rewrite (proj2 (Z.geb_le _ _)) by lia. subst y x. rewrite !Nat2Z.id, Hk. cbn [mbind res_bind].
    destruct (l !! S j) as [d|] eqn:Ed.
    + right. split; [|].
      2: { intros l' y' (m'&[= <-]&E'). rewrite E in E'. injection E' as -> _ Hj.
           apply lookup_lt_Some in Ed. lia. }
      cbn [mbind res_bind]. destruct (d =? 40)%N; [|by eexists].
      destruct (close_expression_bounds cl k (S j) l Hk) as ([[l2 y2] x2]&E2&H2).
      { by eapply lookup_lt_Some. }
      rewrite E2. cbn [mbind res_bind].
      destruct H2 as [[_ H2]|(k2&j2&c2&H2&_&Hk2&Hx2&_)]; cbn [fst snd] in *.
      * rewrite H2. by eexists.
      * rewrite (proj2 (Z.geb_le _ _)) by lia. subst y2 x2. rewrite !Nat2Z.id, Hk2. by eexists.
    + left. split; [done|]. exists l, k, m. split; [done|].
      apply lookup_ge_None in Ed. apply lookup_lt_Some in Hc. rewrite E. do 2 f_equal. lia.
Qed.

Lemma parenthesis_error_spec_witness :
  let cl := file_of ["  x = &static_cast<Foo*>"; "      (y);"] in
  elided cl !! 0 = Some (py "  x = &static_cast<Foo*>") ∧
  ((parenthesis_error cl 0 (py "  x = &static_cast<Foo*>") = Raise IndexError ∧
    ∃ l y, cast_closes cl 0 (py "  x = &static_cast<Foo*>") l y (length l)) ∨
   ((∃ b, parenthesis_error cl 0 (py "  x = &static_cast<Foo*>") = Ok b) ∧
    ∀ l y, ¬ cast_closes cl 0 (py "  x = &static_cast<Foo*>") l y (length l))).
Proof.
  intros cl. assert (H : elided cl !! 0 = Some (py "  x = &static_cast<Foo*>"))
    by (vm_compute; reflexivity).
  split; [exact H|]. exact (parenthesis_error_spec cl 0 _ H).
Defined.

(** ** Rules that do not do what their patterns mean *)

Definition report_all : error_fn := λ _ linenum category _ _,
  write_stderr (category ++ py ":" ++ str_of_Z linenum ++ py "\n").

(** [<\w:+>] in the list of exceptions matches one letter and colons: a specialization of
    [swap] is not excepted from the rule about references, where [swap] is. *)
Theorem swap_specialization_reported :
  let check line := (CheckForNonConstReference (py "f.h") (file_of ["//"; line]) 1 report_all
                       init_nesting initial_world).2 in
  stderr (check "void swap(Foo& a);") = [] ∧
  stderr (check "void swap<Foo>(Foo& a);") = py "runtime/references:1\n".
Proof. split; vm_compute; reflexivity. Qed.

(** [>>]] in the pattern that splits the size of an array has a bracket too much, so a shift
    to the right does not end a token: a size with it is not looked at behind a constant. *)
Theorem shifted_size_not_reported :
  let check line := (check_arrays (py "f.cc") 1 report_all (py line) initial_world).2 in
  stderr (check "char a[8<<n];") = py "runtime/arrays:1\n" ∧
  stderr (check "char a[8>>n];") = [].
Proof. split; vm_compute; reflexivity. Qed.

(** The alternatives of [^''|-?[0-9]+|0x[0-9A-Fa-f]$] are not grouped: an expression that
    starts with a digit passes for a constant, and the swapped arguments are not reported. *)
Theorem memset_expression_not_reported :
  let check line := (check_memset (py "f.cc") 1 report_all (py line) initial_world).2 in
  stderr (check "memset(buf, n * 4, 0)") = py "runtime/memset:1\n" ∧
  stderr (check "memset(buf, 4 * n, 0)") = [].
Proof. split; vm_compute; reflexivity. Qed.
