(* ===== verification/PyGetopt.v ===== *)
(** * Python's getopt, for long options, and int()

    [getopt.getopt(args, '', longopts)] and [int(text)] of CPython 2.7. *)

From S2P Require Import Prelude PyStr.

(** An option is [name=] if it has an argument. [None]: [getopt.GetoptError]. *)
Definition with_arg (opt : str) : str := opt ++ py "=".

(** [long_has_args]: does the option have an argument, and its full name. *)
Definition long_has_args (opt : str) (longopts : list str) : option (bool * str) :=
  let possibilities := filter (λ o, starts_with opt o = true) longopts in
  if mem_str opt possibilities then Some (false, opt)
  else if mem_str (with_arg opt) possibilities then Some (true, opt)
  else match possibilities with
       | [o] => Some (if ends_with (py "=") o then (true, take (length o - 1) o) else (false, o))
       | _ => None
       end.

(** [do_longs]: the option of [arg] without its dashes, and the arguments left. *)
Definition do_longs (arg : str) (longopts args : list str) : option (str * str * list str) :=
  let '(opt, optarg) := match find_nat (py "=") arg with
                        | Some i => (take i arg, Some (drop (S i) arg))
                        | None => (arg, None)
                        end in
  match long_has_args opt longopts with
  | None => None
  | Some (true, opt) =>
      match optarg, args with
      | Some value, _ => Some (py "--" ++ opt, value, args)
      | None, value :: args => Some (py "--" ++ opt, value, args)
      | None, [] => None
      end
  | Some (false, opt) =>
      match optarg with
      | Some _ => None
      | None => Some (py "--" ++ opt, [], args)
      end
  end.

(** The options and the arguments behind them; no short options. [fuel]: the number of
    arguments is enough. *)
Fixpoint getopt_go (fuel : nat) (longopts args : list str) : option (list (str * str) * list str) :=
  match fuel, args with
  | S fuel, arg :: rest =>
      if negb (starts_with (py "-") arg) || str_eqb arg (py "-") then Some ([], args)
      else if str_eqb arg (py "--") then Some ([], rest)
      else if starts_with (py "--") arg then
        '(opt, value, rest) ← do_longs (drop 2 arg) longopts rest;
        '(opts, rest) ← getopt_go fuel longopts rest;
        Some ((opt, value) :: opts, rest)
      else None
  | _, _ => Some ([], args)
  end.

Definition getopt (args longopts : list str) : option (list (str * str) * list str) :=
  getopt_go (length args) longopts args.

(** [int(text)]: white space, a sign, white space, digits, white space. *)
Definition int_of (text : str) : option Z :=
  let s := strip text in
  let '(negative, digits) := match s with
                             | 45%N :: s => (true, lstrip s)
                             | 43%N :: s => (false, lstrip s)
                             | _ => (false, s)
                             end in
  match digits with
  | [] => None
  | _ => if forallb digit digits
         then let n := Z.of_N (dec_val 0 digits) in Some (if (negative : bool) then (- n)%Z else n)
         else None
  end.

(** What [int] raises; [repr]'s escapes are left out of the message. *)
Definition bad_int (text : str) : pyexn :=
  ValueError (py "invalid literal for int() with base 10: \'" ++ text ++ py "\'").

(** * Theorems *)

(** Each step of the loop uses up an argument. *)
Lemma do_longs_length arg longopts args opt value rest :
  do_longs arg longopts args = Some (opt, value, rest) → length rest ≤ length args.
Proof.
  unfold do_longs. destruct (match find_nat _ arg with Some _ => _ | None => _ end) as [o [v|]];
    destruct (long_has_args o longopts) as [[[] name]|]; try done.
  - by intros [= <- <- <-].
  - destruct args; [done|]. intros [= <- <- <-]. cbn. lia.
  - by intros [= <- <- <-].
Qed.

Lemma getopt_fuel longopts : ∀ n m args,
  length args ≤ n → length args ≤ m → getopt_go n longopts args = getopt_go m longopts args.
Proof.
  induction n as [|n IH]; intros [|m] [|arg args] Hn Hm; cbn [length] in *; try done; try lia.
  cbn [getopt_go]. destruct (_ || _); [done|]. destruct (str_eqb _ _); [done|].
  destruct (starts_with _ arg); [|done].
  destruct (do_longs (drop 2 arg) longopts args) as [[[o v] rest]|] eqn:E; [|done].
  apply do_longs_length in E. cbn [mbind option_bind]. by rewrite (IH m rest) by lia.
Qed.

Lemma long_has_args_exact name longopts :
  with_arg name ∈ longopts → name ∉ longopts → long_has_args name longopts = Some (true, name).
Proof.
  intros Hin Hnot. unfold long_has_args.
  destruct (mem_str name _) eqn:E.
  { apply mem_str_spec, list_elem_of_filter in E as [_ E]. by destruct Hnot. }
  rewrite (proj2 (mem_str_spec (with_arg name) _)); [done|].
  apply list_elem_of_filter. split; [|done]. apply starts_with_spec. by exists (py "=").
Qed.

(** An option of the list, given as [--name=value], in front of other arguments. *)
Lemma getopt_option longopts name value args opts rest :
  with_arg name ∈ longopts → name ∉ longopts → 61%N ∉ name →
  getopt args longopts = Some (opts, rest) →
  getopt ((py "--" ++ name ++ py "=" ++ value) :: args) longopts
  = Some ((py "--" ++ name, value) :: opts, rest).
Proof.
  intros Hin Hnot Hname H. unfold getopt in *. cbn [length getopt_go].
  change (py "--" ++ name ++ py "=" ++ value) with (45%N :: 45%N :: name ++ 61%N :: value).
  change (starts_with (py "-") (45%N :: ?s)) with true.
  change (starts_with (py "--") (45%N :: 45%N :: ?s)) with true.
  unfold str_eqb. rewrite bool_decide_false by done.
  rewrite bool_decide_false by (intros [= E]; by destruct name).
  cbn [negb orb drop]. unfold do_longs. rewrite drop_0. change (py "=") with [61%N].
  rewrite find_nat_prefix_free by done.
  change (find_nat [61%N] (61%N :: value)) with (Some 0). cbn [fmap option_fmap option_map].
  rewrite Nat.add_0_r, take_app_length, drop_app_ge by lia.
  replace (S (length name) - length name) with 1 by lia. cbn [drop].
  rewrite long_has_args_exact by done. cbn [mbind option_bind]. by rewrite H.
Qed.

(** The first argument that is no option ends the options. *)
Lemma getopt_files longopts arg args :
  starts_with (py "-") arg = false → getopt (arg :: args) longopts = Some ([], arg :: args).
Proof. intros H. unfold getopt. cbn [length getopt_go]. by rewrite H. Qed.
