(* ===== verification/LintMain.v ===== *)
(** * cpplint.py: the driver

    From [ProcessLine] to [main]: the checks of a line and of a file in their order, the
    configuration files, the options. The file system, the arguments and the orders of
    Python's dictionaries belong to the environment. *)

From S2P Require Import Prelude PyStr PyRe PyReFacts PyPath LintData LintState LintLines LintInclude.
From S2P Require Import LintExpr LintChecks LintNesting LintModules LintSpacing LintRValue LintBraces.
From S2P Require Import LintLanguage PyGetopt.

(** ** The environment

    [read_config] gives the lines the iteration over an opened file yields and whether an
    IOError ends it; [read_text] the contents of a file, decoded from UTF-8 with
    replacement, [None] for an IOError. *)
Class Environment := {
  cwd : str;
  exists_ : str → bool;
  isfile : str → bool;
  read_config : str → list str * bool;
  read_text : str → option str;
  read_lines : str → option (list str);
  key_order : gmap str Z → list str;
  requirement_order : requirements → requirements;
  count_order : gmap str Z → list (str * Z);
  extension_order : list str → list str;
  recursion_limit : nat;
  #[global] unicode :: UnicodeData }.

Definition set_line_length (n : Z) (w : world) : world :=
  World (_error_suppressions w) (_cpplint_state w) (_root w) n (_valid_extensions w)
        (stderr w) (stdin w).
Definition set_root (root : str) (w : world) : world :=
  World (_error_suppressions w) (_cpplint_state w) (Some root) (_line_length w)
        (_valid_extensions w) (stderr w) (stdin w).
Definition set_extensions (l : list str) (w : world) : world :=
  World (_error_suppressions w) (_cpplint_state w) (_root w) (_line_length w) l
        (stderr w) (stdin w).

(** Reading standard input to its end. *)
Definition read_stdin : lint (option str) := λ w,
  (Ok (stdin w),
   World (_error_suppressions w) (_cpplint_state w) (_root w) (_line_length w)
         (_valid_extensions w) (stderr w) ((λ _, []) <$> stdin w)).

(** ** A line *)

(** The state the checks of a file keep from line to line. *)
Record file_state := FileState {
  include_state : IncludeState.t;
  function_state : FunctionState.t;
  nesting_state : NestingState }.

Abbreviation check_function := (str → CleansedLines → Z → error_fn → lint unit).

Section driver.
Context `{Environment}.

Definition ProcessLine (filename file_extension : str) (clean_lines : CleansedLines) (line : Z)
    (st : file_state) (error : error_fn) (extra_check_functions : list check_function)
    : lint file_state :=
  let '(FileState include_state function_state nesting_state) := st in
  raw_line ← line_at (raw_lines clean_lines) line;
  ParseNolintSuppressions filename raw_line line error ;;
  nesting_state ← Update filename clean_lines line nesting_state error;
  CheckForNamespaceIndentation filename clean_lines line error nesting_state ;;
  if InAsmBlock nesting_state then mret (FileState include_state function_state nesting_state)
  else
    function_state ← CheckForFunctionLengths filename clean_lines line error function_state;
    CheckForMultilineCommentsAndStrings filename clean_lines line error ;;
    CheckStyle cwd exists_ recursion_limit filename clean_lines line error file_extension
      nesting_state ;;
    include_state ← CheckLanguage filename clean_lines line error cwd exists_ file_extension
                      include_state;
    CheckForNonConstReference filename clean_lines line error nesting_state ;;
    CheckForNonStandardConstructs filename clean_lines line error nesting_state ;;
    CheckVlogArguments filename clean_lines line error ;;
    CheckPosixThreading filename clean_lines line error ;;
    CheckInvalidIncrement filename clean_lines line error ;;
    CheckMakePairUsesDeduction filename clean_lines line error ;;
    CheckDefaultLambdaCaptures filename clean_lines line error ;;
    CheckRedundantVirtual filename clean_lines line error ;;
    CheckRedundantOverrideOrFinal filename clean_lines line error ;;
    forM extra_check_functions (λ check_fn, check_fn filename clean_lines line error) ;;
    mret (FileState include_state function_state nesting_state).

Definition include_header_re : regex := pyrx "\\s*#\\s*include\\s+[<\x22]([^<\x22]+)[\x22>]".

Definition unapproved_headers : list str :=
  [py "cfenv"; py "condition_variable"; py "fenv.h"; py "future"; py "mutex"; py "thread";
   py "chrono"; py "ratio"; py "regex"; py "system_error"].

Definition FlagCxx11Features (filename : str) (clean_lines : CleansedLines) (linenum : Z)
    (error : error_fn) : lint unit :=
  let complain := error filename linenum (py "build/c++11") 5%Z in
  line ← elided_line clean_lines linenum;
  match re_match include_header_re line with
  | Some include =>
      whenM (mem_str (group_ include 1) unapproved_headers)
        (complain (py "<" ++ group_ include 1 ++ py "> is an unapproved C++11 header."))
  | None => mret ()
  end ;;
  if match_ "\s*#" line && negb (match_ "\s*#\s*define\b" line) then mret ()
  else
    forM [py "alignment_of"; py "aligned_union"] (λ top_name,
      name ← compiled (raw "\bstd::" ++ top_name ++ raw "\b");
      whenM (matched (re_search name line))
        (complain (py "std::" ++ top_name ++ py " is an unapproved C++11 class or function.  Send c-style an example of where it would make your code more readable, and they may let you use it."))).

(** ** A file *)

(** The loop over the numbers of the lines. *)
Fixpoint process_lines (filename file_extension : str) (clean_lines : CleansedLines)
    (error : error_fn) (extra_check_functions : list check_function) (numbers : list nat)
    (st : file_state) : lint file_state :=
  match numbers with
  | [] => mret st
  | line :: numbers =>
      let line := Z.of_nat line in
      st ← ProcessLine filename file_extension clean_lines line st error extra_check_functions;
      FlagCxx11Features filename clean_lines line error ;;
      process_lines filename file_extension clean_lines error extra_check_functions numbers st
  end.

Definition with_markers (lines : list str) : list str :=
  [py "// marker so line numbers and indices both start at 1"] ++ lines
  ++ [py "// marker so line numbers end in a known way"].

Definition ProcessFileData (filename file_extension : str) (lines : list str) (error : error_fn)
    (extra_check_functions : list check_function) : lint unit :=
  let lines := with_markers lines in
  ResetNolintSuppressions ;;
  CheckForCopyright filename lines error ;;
  lines ← RemoveMultiLineComments filename lines error;
  clean_lines ← liftM (cleanse lines);
  whenM (str_eqb file_extension (py "h"))
    (CheckForHeaderGuard cwd exists_ filename clean_lines error) ;;
  st ← process_lines filename file_extension clean_lines error extra_check_functions
         (seq 0 (Z.to_nat (NumLines clean_lines)))
         (FileState IncludeState.__init__ FunctionState.__init__ init_nesting);
  CheckCompletedBlocks filename (nesting_state st) error ;;
  CheckForIncludeWhatYouUse cwd read_lines key_order requirement_order filename clean_lines
    (include_state st) error ;;
  whenM (str_eqb file_extension (py "cc"))
    (CheckHeaderFileIncluded cwd exists_ filename (include_state st) error) ;;
  CheckForBadCharacters filename lines error ;;
  CheckForNewlineAtEOF filename lines error.

(** ** Configuration files *)

(** The parts of [s.partition(sep)] for a single character: before and behind it. *)
Definition partition (sep : char) (s : str) : str * str :=
  match find_nat [sep] s with Some i => (take i s, drop (S i) s) | None => (s, []) end.

(** The name and the value on a line; [None] if it is blank or a comment. *)
Definition config_option (line : str) : option (str * str) :=
  let line := (partition 35 line).1 in
  match strip line with
  | [] => None
  | _ => let '(name, val) := partition 61 line in Some (strip name, strip val)
  end.

Definition excluded_message (filename cfg_file base_name val : str) : str :=
  py "Ignoring \x22" ++ filename ++ py "\x22: file excluded by \x22" ++ cfg_file
  ++ py "\x22. File path component \x22" ++ base_name ++ py "\x22 matches pattern \x22" ++ val
  ++ py "\x22\n".

(** The lines of one file: the filters so far and [keep_looking], [None] if the file is
    excluded. *)
Fixpoint config_file (filename cfg_file base_name : str) (lines : list str)
    (cfg_filters : list str) (keep_looking : bool) : lint (option (list str * bool)) :=
  match lines with
  | [] => mret (Some (cfg_filters, keep_looking))
  | line :: lines =>
      let next := config_file filename cfg_file base_name lines in
      match config_option line with
      | None => next cfg_filters keep_looking
      | Some (name, val) =>
          if str_eqb name (py "set noparent") then next cfg_filters false
          else if str_eqb name (py "filter") then next (cfg_filters ++ [val]) keep_looking
          else if str_eqb name (py "exclude_files") then
            if negb (str_eqb base_name []) then
              pattern ← compiled val;
              if matched (re_match pattern base_name) then
                write_stderr (excluded_message filename cfg_file base_name val) ;;
                mret None
              else next cfg_filters keep_looking
            else next cfg_filters keep_looking
          else if str_eqb name (py "linelength") then
            match int_of val with
            | Some n => modifyM (set_line_length n)
            | None => write_stderr (py "Line length must be numeric.")
            end ;;
            next cfg_filters keep_looking
          else
            write_stderr (py "Invalid configuration option (" ++ name ++ py ") in file "
                          ++ cfg_file ++ py "\n") ;;
            next cfg_filters keep_looking
      end
  end.

Definition config_name (abs_path : str) : str := path_join abs_path (py "CPPLINT.cfg").

(** The directories from that of the file upwards. *)
Fixpoint config_files (fuel : nat) (filename abs_filename : str) (cfg_filters : list str)
    : lint (option (list str)) :=
  match fuel with
  | O => raiseM Diverges
  | S fuel =>
      let '(abs_path, base_name) := path_split abs_filename in
      if str_eqb base_name [] then mret (Some cfg_filters)
      else
        let cfg_file := config_name abs_path in
        if negb (isfile cfg_file) then config_files fuel filename abs_path cfg_filters
        else
          let '(lines, io_error) := read_config cfg_file in
          found ← config_file filename cfg_file base_name lines cfg_filters true;
          match found with
          | None => mret None
          | Some (cfg_filters, keep_looking) =>
              whenM io_error
                (write_stderr (py "Skipping config file \'" ++ cfg_file
                               ++ py "\': Can\'t open for reading\n")) ;;
              if keep_looking && negb io_error then config_files fuel filename abs_path cfg_filters
              else mret (Some cfg_filters)
          end
  end.

Definition ProcessConfigOverrides (filename : str) : lint bool :=
  let abs_filename := abspath cwd filename in
  cfg_filters ← config_files (S (length abs_filename)) filename abs_filename [];
  match cfg_filters with
  | None => mret false
  | Some cfg_filters => forM (reverse cfg_filters) _AddFilters ;; mret true
  end.

(** ** Line ends *)

(** The loop over all lines but the last one, numbered from [linenum]: the lines without their
    carriage returns, the numbers of the lines without and with one. *)
Fixpoint line_ends (linenum : Z) (lines : list str) : list str * list Z * list Z :=
  match lines with
  | [] => ([], [], [])
  | [line] => ([line], [], [])
  | line :: lines =>
      let '(rest, lf_lines, crlf_lines) := line_ends (linenum + 1) lines in
      if ends_with (py "\r") line
      then (rstrip_char 13 line :: rest, lf_lines, linenum :: crlf_lines)
      else (line :: rest, linenum :: lf_lines, crlf_lines)
  end.

Definition file_extension_of (filename : str) : str :=
  drop (Z.to_nat (rfind (py ".") filename + 1)) filename.

Definition ProcessFile (filename : str) (vlevel : Z) (extra_check_functions : list check_function)
    : lint unit :=
  _SetVerboseLevel vlevel ;;
  _BackupFilters ;;
  wanted ← ProcessConfigOverrides filename;
  if negb wanted then _RestoreFilters
  else
    text ← (if str_eqb filename (py "-") then read_stdin else mret (read_text filename));
    match text with
    | None =>
        write_stderr (py "Skipping input \'" ++ filename ++ py "\': Can\'t open for reading\n") ;;
        _RestoreFilters
    | Some text =>
        let '(lines, lf_lines, crlf_lines) := line_ends 1 (split (py "\n") text) in
        let file_extension := file_extension_of filename in
        w ← getM;
        (if negb (str_eqb filename (py "-")) && negb (mem_str file_extension (_valid_extensions w))
         then write_stderr (py "Ignoring " ++ filename ++ py "; not a valid file name ("
                            ++ join (py ", ") (extension_order (_valid_extensions w)) ++ py ")\n")
         else
           ProcessFileData filename file_extension lines Error extra_check_functions ;;
           match lf_lines, crlf_lines with
           | _ :: _, _ :: _ =>
               forM crlf_lines (λ linenum,
                 Error filename linenum (py "whitespace/newline") 1
                   (py "Unexpected \\r (^M) found; better to use only \\n"))
           | _, _ => mret ()
           end) ;;
        write_stderr (py "Done processing " ++ filename ++ py "\n") ;;
        _RestoreFilters
    end.

(** ** Options *)
Definition _USAGE : str := py "
Syntax: cpplint.py [--verbose=#] [--output=vs7] [--filter=-x,+y,...]
                   [--counting=total|toplevel|detailed] [--root=subdir]
                   [--linelength=digits]
        <file> [file] ...

  The style guidelines this tries to follow are those in
    http://google-styleguide.googlecode.com/svn/trunk/cppguide.xml

  Every problem is given a confidence score from 1-5, with 5 meaning we are
  certain of the problem, and 1 meaning it could be a legitimate construct.
  This will miss some errors, and is not a substitute for a code review.

  To suppress false-positive errors of a certain category, add a
  'NOLINT(category)' comment to the line.  NOLINT or NOLINT(*)
  suppresses errors of all categories on that line.

  The files passed in will be linted; at least one file must be provided.
  Default linted extensions are .cc, .cpp, .cu, .cuh and .h.  Change the
  extensions with the --extensions flag.

  Flags:

    output=vs7
      By default, the output is formatted to ease emacs parsing.  Visual Studio
      compatible output (vs7) may also be used.  Other formats are unsupported.

    verbose=#
      Specify a number 0-5 to restrict errors to certain verbosity levels.

    filter=-x,+y,...
      Specify a comma-separated list of category-filters to apply: only
      error messages whose category names pass the filters will be printed.
      (Category names are printed with the message and look like
      \x22[whitespace/indent]\x22.)  Filters are evaluated left to right.
      \x22-FOO\x22 and \x22FOO\x22 means \x22do not print categories that start with FOO\x22.
      \x22+FOO\x22 means \x22do print categories that start with FOO\x22.

      Examples: --filter=-whitespace,+whitespace/braces
                --filter=whitespace,runtime/printf,+runtime/printf_format
                --filter=-,+build/include_what_you_use

      To see a list of all the categories used in cpplint, pass no arg:
         --filter=

    counting=total|toplevel|detailed
      The total number of errors found is always printed. If
      'toplevel' is provided, then the count of errors in each of
      the top-level categories like 'build' and 'whitespace' will
      also be printed. If 'detailed' is provided, then a count
      is provided for each category like 'build/class'.

    root=subdir
      The root directory used for deriving header guard CPP variable.
      By default, the header guard CPP variable is calculated as the relative
      path to the directory that contains .git, .hg, or .svn.  When this flag
      is specified, the relative path is calculated from the specified
      directory. If the specified directory does not exist, this flag is
      ignored.

      Examples:
        Assuming that src/.git exists, the header guard CPP variables for
        src/chrome/browser/ui/browser.h are:

        No flag => CHROME_BROWSER_UI_BROWSER_H_
        --root=chrome => BROWSER_UI_BROWSER_H_
        --root=chrome/browser => UI_BROWSER_H_

    linelength=digits
      This is the allowed line length for the project. The default value is
      80 characters.

      Examples:
        --linelength=120

    extensions=extension,extension,...
      The allowed file extensions that cpplint will check

      Examples:
        --extensions=hpp,cpp

    cpplint.py supports per-directory configurations specified in CPPLINT.cfg
    files. CPPLINT.cfg file can contain a number of key=value pairs.
    Currently the following options are supported:

      set noparent
      filter=+filter1,-filter2,...
      exclude_files=regex
      linelength=80

    \x22set noparent\x22 option prevents cpplint from traversing directory tree
    upwards looking for more .cfg files in parent directories. This option
    is usually placed in the top-level project directory.

    The \x22filter\x22 option is similar in function to --filter flag. It specifies
    message filters in addition to the |_DEFAULT_FILTERS| and those specified
    through --filter command-line flag.

    \x22exclude_files\x22 allows to specify a regular expression to be matched against
    a file name. If the expression matches, the file is skipped and not run
    through liner.

    \x22linelength\x22 allows to specify the allowed line length for the project.

    CPPLINT.cfg has an effect on files in the same directory and all
    sub-directories, unless overridden by a nested configuration file.

      Example file:
        filter=-build/include_order,+build/include_alpha
        exclude_files=.*\\.cc

    The above example disables build/include_order warning and enables
    build/include_alpha as well as excludes all .cc from being
    processed by linter, in the current directory (where the .cfg
    file is located) and all sub-directories.
".

(** [sys.exit(message)]: the interpreter writes the message and exits with 1. *)
Definition exit_with {A} (message : str) : lint A :=
  write_stderr (message ++ py "\n") ;; raiseM (SystemExit 1).

Definition PrintUsage {A} (message : option str) : lint A :=
  write_stderr _USAGE ;;
  match message with
  | Some ((_ :: _) as message) => exit_with (py "\nFATAL ERROR: " ++ message)
  | _ => raiseM (SystemExit 1)
  end.

Definition PrintCategories {A} : lint A :=
  write_stderr (mjoin ((λ cat, py "  " ++ cat ++ py "\n") <$> _ERROR_CATEGORIES)) ;;
  raiseM (SystemExit 0).

Definition longopts : list str :=
  [py "help"; py "output="; py "verbose="; py "counting="; py "filter="; py "root=";
   py "linelength="; py "extensions="].

(** The local variables of [ParseArguments]. *)
Record settings := Settings {
  verbosity : Z;
  chosen_format : str;
  chosen_filters : str;
  counting_style : str }.

Definition parse_option (opt val : str) (s : settings) : lint settings :=
  if str_eqb opt (py "--help") then PrintUsage None
  else if str_eqb opt (py "--output") then
    if negb (mem_str val [py "emacs"; py "vs7"; py "eclipse"])
    then PrintUsage (Some (py "The only allowed output formats are emacs, vs7 and eclipse."))
    else mret (Settings (verbosity s) val (chosen_filters s) (counting_style s))
  else if str_eqb opt (py "--verbose") then
    match int_of val with
    | Some n => mret (Settings n (chosen_format s) (chosen_filters s) (counting_style s))
    | None => raiseM (bad_int val)
    end
  else if str_eqb opt (py "--filter") then
    if str_eqb val [] then PrintCategories
    else mret (Settings (verbosity s) (chosen_format s) val (counting_style s))
  else if str_eqb opt (py "--counting") then
    if negb (mem_str val [py "total"; py "toplevel"; py "detailed"])
    then PrintUsage (Some (py "Valid counting options are total, toplevel, and detailed"))
    else mret (Settings (verbosity s) (chosen_format s) (chosen_filters s) val)
  else if str_eqb opt (py "--root") then modifyM (set_root val) ;; mret s
  else if str_eqb opt (py "--linelength") then
    match int_of val with
    | Some n => modifyM (set_line_length n) ;; mret s
    | None => PrintUsage (Some (py "Line length must be digits."))
    end
  else if str_eqb opt (py "--extensions") then
    modifyM (set_extensions (split (py ",") val)) ;; mret s
  else mret s.

Fixpoint parse_options (opts : list (str * str)) (s : settings) : lint settings :=
  match opts with
  | [] => mret s
  | (opt, val) :: opts => s ← parse_option opt val s; parse_options opts s
  end.

Definition ParseArguments (args : list str) : lint (list str) :=
  '(opts, filenames) ← match getopt args longopts with
                       | Some parsed => mret parsed
                       | None => PrintUsage (Some (py "Invalid arguments."))
                       end;
  verbosity_ ← _VerboseLevel;
  output_format ← _OutputFormat;
  s ← parse_options opts (Settings verbosity_ output_format [] []);
  match filenames with
  | [] => PrintUsage (Some (py "No files were specified."))
  | _ =>
      _SetOutputFormat (chosen_format s) ;;
      _SetVerboseLevel (verbosity s) ;;
      _SetFilters (chosen_filters s) ;;
      _SetCountingStyle (counting_style s) ;;
      mret filenames
  end.

(** The loop of [main]. *)
Definition lint_files (filenames : list str) : lint unit :=
  forM filenames (λ filename,
    w ← getM;
    ProcessFile filename (CppLintState.verbose_level (_cpplint_state w)) []).

(** The exit code is the exception. *)
Definition main (argv : list str) : lint unit :=
  filenames ← ParseArguments argv;
  on_state CppLintState.ResetErrorCounts ;;
  lint_files filenames ;;
  w ← getM;
  let s := _cpplint_state w in
  write_stderr (CppLintState.PrintErrorCounts
                  (count_order (CppLintState.errors_by_category s)) s) ;;
  raiseM (SystemExit (if (CppLintState.error_count s >? 0)%Z then 1 else 0)).
End driver.
