(* ===== verification/LintReports.v ===== *)
(** * cpplint.py: what the checks of a file change

    The checks act on the module state through the [error] callback and the NOLINT
    suppressions only. [moves R m]: the call [m], even one that raises, takes every state to
    one related to it; if [R] is a preorder that holds across the callback and across changes
    of the suppressions, then it holds across the checks of a whole file. *)

From S2P Require Import Prelude PyStr PyRe LintData LintState LintLines LintInclude.
From S2P Require Import LintExpr LintChecks LintNesting LintModules LintSpacing LintRValue LintBraces.
From S2P Require Import LintLanguage PyGetopt LintMain.

Section moves.
Context {W : Type} (R : relation W) `{!PreOrder R}.

Definition moves {E A} (m : M W E A) : Prop := ∀ w, R w (m w).2.

Lemma moves_stay {E A} (r : W → res E A) : moves (λ w, (r w, w)).
Proof. intros w. reflexivity. Qed.
Lemma moves_bind {E A B} (m : M W E A) (f : A → M W E B) :
  moves m → (∀ a, moves (f a)) → moves (m ≫= f).
Proof.
  intros Hm Hf w. specialize (Hm w). unfold mbind, M_bind.
  destruct (m w) as [[a|e] w1]; cbn [snd] in *; [|done]. etrans; [exact Hm|apply Hf].
Qed.
Lemma moves_when {E} b (m : M W E unit) : moves m → moves (whenM b m).
Proof. destruct b; [done|]. intros _ w. reflexivity. Qed.
Lemma moves_for {E A} (l : list A) (f : A → M W E unit) : (∀ a, a ∈ l → moves (f a)) → moves (forM l f).
Proof.
  induction l as [|a l IH]; intros Hf; [intros w; reflexivity|]. cbn [forM].
  apply moves_bind; [apply Hf; by left|]. intros _. apply IH. intros b Hb. apply Hf. by right.
Qed.
End moves.

(** Goes through a program: its binds, branches and loops; a call is solved by the hints about
    it, or else unfolded. *)
Ltac unfold_call m :=
  lazymatch m with
  | ?f _ => unfold_call f
  | ?f => unfold f
  end.
Ltac moves_go :=
  repeat lazymatch goal with
  | |- ∀ _, _ => intros ?
  | |- moves _ (mret _) => apply (moves_stay _ (λ _, Ok _))
  | |- moves _ (raiseM _) => apply (moves_stay _ (λ _, Raise _))
  | |- moves _ getM => apply (moves_stay _ Ok)
  | |- moves _ (liftM ?r) => apply (moves_stay _ (λ _, r))
  | |- moves _ (mbind _ _) => apply moves_bind; [exact _| |]
  | |- moves _ (whenM _ _) => apply moves_when; [exact _|]
  | |- moves _ (forM _ _) => apply moves_for; [exact _|]
  | |- moves _ (match ?x with _ => _ end) => destruct x
  | |- moves _ (let _ := _ in _) => cbv zeta
  | |- moves _ ?m => first [ solve [auto 2 with moves nocore] | unfold_call m; cbv beta ]
  end.

Create HintDb moves.

(** What [ProcessFileData] does when all lines have been checked. *)
Definition closing `{Environment} (filename file_extension : str) (lines : list str)
    (clean_lines : CleansedLines) (st : file_state) (error : error_fn) : lint unit :=
  CheckCompletedBlocks filename (nesting_state st) error ;;
  CheckForIncludeWhatYouUse cwd read_lines key_order requirement_order filename clean_lines
    (include_state st) error ;;
  whenM (str_eqb file_extension (py "cc"))
    (CheckHeaderFileIncluded cwd exists_ filename (include_state st) error) ;;
  CheckForBadCharacters filename lines error ;;
  CheckForNewlineAtEOF filename lines error.

(** ** The checks *)
Section checks.
Context (R : relation world) `{!PreOrder R} (error : error_fn).
Hypothesis error_moves : ∀ f n c l m, moves R (error f n c l m).
Hypothesis suppress_moves : ∀ c l, moves R (suppress c l).
Hint Resolve error_moves suppress_moves : moves.

Lemma check_last_thing_moves f cl r is_ : ∀ seen, moves R (check_last_thing f cl r is_ seen error).
Proof. induction is_; intros seen; cbn [check_last_thing]; moves_go. Qed.
Hint Resolve check_last_thing_moves : moves.

Lemma consume_tokens_moves fuel f cl n : ∀ line st, moves R (consume_tokens fuel f cl n line st error).
Proof. induction fuel; intros line st; cbn [consume_tokens]; moves_go. Qed.
Hint Resolve consume_tokens_moves : moves.

Lemma Update_moves f cl n st : moves R (Update f cl n st error).
Proof. moves_go. Qed.
Lemma CheckForNamespaceIndentation_moves f cl n st : moves R (CheckForNamespaceIndentation f cl n error st).
Proof. moves_go. Qed.
Lemma CheckForFunctionLengths_moves f cl n st : moves R (CheckForFunctionLengths f cl n error st).
Proof. moves_go. Qed.
Lemma check_todo_moves f n c : moves R (check_todo f n error c).
Proof. moves_go. Qed.
Lemma CheckComment_moves f l n i : moves R (CheckComment f n error l i).
Proof. moves_go. Qed.
Hint Resolve Update_moves CheckForNamespaceIndentation_moves CheckForFunctionLengths_moves check_todo_moves CheckComment_moves : moves.

Lemma find_check_macro_moves macros line : moves R (find_check_macro macros line).
Proof. induction macros; cbn [find_check_macro]; moves_go. Qed.
Lemma check_virt_specifiers_moves f n ls : ∀ c, moves R (check_virt_specifiers f n error ls c).
Proof. induction ls; intros c; cbn [check_virt_specifiers]; moves_go. Qed.
Lemma bad_characters_moves f ls : ∀ n, moves R (bad_characters f n ls error).
Proof. induction ls; intros n; cbn [bad_characters]; moves_go. Qed.
Lemma remove_comments_moves f fuel : ∀ ls i, moves R (remove_comments fuel f error ls i).
Proof. induction fuel; intros ls i; cbn [remove_comments]; moves_go. Qed.
Hint Resolve find_check_macro_moves check_virt_specifiers_moves bad_characters_moves remove_comments_moves : moves.

Lemma CheckStyle_moves `{UnicodeData} cwd ex fuel f cl n ext st : moves R (CheckStyle cwd ex fuel f cl n error ext st).
Proof. moves_go. Qed.
Lemma CheckLanguage_moves f cl n cwd ex ext st : moves R (CheckLanguage f cl n error cwd ex ext st).
Proof. moves_go. Qed.
Hint Resolve CheckStyle_moves CheckLanguage_moves : moves.

Context `{Environment} (extra : list check_function).
Hypothesis extra_moves : ∀ check f cl n, check ∈ extra → moves R (check f cl n error).
Hint Resolve extra_moves : moves.

Lemma ProcessLine_moves f ext cl n st : moves R (ProcessLine f ext cl n st error extra).
Proof. unfold ProcessLine. moves_go. Qed.
Lemma FlagCxx11Features_moves f cl n : moves R (FlagCxx11Features f cl n error).
Proof. moves_go. Qed.
Hint Resolve ProcessLine_moves FlagCxx11Features_moves : moves.

Lemma process_lines_moves f ext cl ns : ∀ st, moves R (process_lines f ext cl error extra ns st).
Proof. induction ns; intros st; cbn [process_lines]; moves_go. Qed.
Hint Resolve process_lines_moves : moves.

(** The checks of [ProcessFileData] behind the loop over the lines. *)
Lemma closing_moves filename file_extension lines clean_lines st :
  moves R (closing filename file_extension lines clean_lines st error).
Proof. moves_go. Qed.

Hypothesis reset_moves : moves R ResetNolintSuppressions.
Hint Resolve reset_moves : moves.

Lemma ProcessFileData_moves f ext ls : moves R (ProcessFileData f ext ls error extra).
Proof. moves_go. Qed.
End checks.

(** ** What a file adds *)

(** A line [Error] writes. *)
Definition is_report (text : str) : Prop :=
  ∃ format filename linenum category confidence message,
    text = report format filename linenum category confidence message.

(** What the checks read of the state and must not change. *)
Definition settings_of (w : world) :=
  let s := _cpplint_state w in
  (_root w, _line_length w, _valid_extensions w, stdin w,
   (CppLintState.verbose_level s, CppLintState.filters s, CppLintState._filters_backup s,
    CppLintState.counting s, CppLintState.output_format s)).

Definition errors_of (w : world) : Z := CppLintState.error_count (_cpplint_state w).

(** Exactly the reports [l] are written and counted; the settings stay. *)
Definition reports (l : list str) (w w' : world) : Prop :=
  stderr w' = stderr w ++ concat l ∧ errors_of w' = (errors_of w + Z.of_nat (length l))%Z ∧
  Forall is_report l ∧ settings_of w' = settings_of w.
Definition reported (w w' : world) : Prop := ∃ l, reports l w w'.

(** Besides the reports, other texts are written, and settings may change. *)
Definition logs (texts l : list str) (w w' : world) : Prop :=
  stderr w' = stderr w ++ concat texts ∧ errors_of w' = (errors_of w + Z.of_nat (length l))%Z ∧
  Forall is_report l ∧ l `sublist_of` texts.
Definition logged (w w' : world) : Prop := ∃ texts l, logs texts l w w'.

#[export] Instance reported_preorder : PreOrder reported.
Proof.
  split.
  - intros w. exists []. split_and!; [by rewrite app_nil_r|cbn; lia|done|done].
  - intros w1 w2 w3 (l1&E1&N1&F1&S1) (l2&E2&N2&F2&S2). exists (l1 ++ l2). split_and!.
    + by rewrite E2, E1, concat_app, app_assoc.
    + rewrite N2, N1, length_app. lia.
    + by apply Forall_app.
    + by rewrite S2.
Qed.
#[export] Instance logged_preorder : PreOrder logged.
Proof.
  split.
  - intros w. exists [], []. split_and!; [by rewrite app_nil_r|cbn; lia|done|done].
  - intros w1 w2 w3 (t1&l1&E1&N1&F1&S1) (t2&l2&E2&N2&F2&S2). exists (t1 ++ t2), (l1 ++ l2).
    split_and!.
    + by rewrite E2, E1, concat_app, app_assoc.
    + rewrite N2, N1, length_app. lia.
    + by apply Forall_app.
    + by apply sublist_app.
Qed.

Lemma reported_logged w w' : reported w w' → logged w w'.
Proof. intros (l&?&?&?&_). by exists l, l. Qed.

Lemma moves_weaken (R R' : relation world) {A} (m : lint A) :
  (∀ w w', R w w' → R' w w') → moves R m → moves R' m.
Proof. intros H Hm w. apply H, Hm. Qed.

(** Nothing written, nothing counted. *)
Lemma logged_silent w w' : stderr w' = stderr w → errors_of w' = errors_of w → logged w w'.
Proof. intros E N. exists [], []. unfold logs. rewrite E, N. split_and!; [by rewrite app_nil_r|cbn; lia|done|done]. Qed.
Lemma reported_silent w w' :
  stderr w' = stderr w → errors_of w' = errors_of w → settings_of w' = settings_of w → reported w w'.
Proof. intros E N S. exists []. unfold reports. rewrite E, N. split_and!; [by rewrite app_nil_r|cbn; lia|done|done]. Qed.

Lemma should_print_stays category confidence linenum w :
  (_ShouldPrintError category confidence linenum w).2 = w.
Proof.
  unfold _ShouldPrintError. cbv [mbind M_bind getM].
  destruct (IsErrorSuppressedByNolint _ _ _); [done|]. destruct (_ <? _)%Z; [done|].
  by destruct (filter_loop _ _ _).
Qed.

Lemma increment_settings category s :
  let s' := (CppLintState.IncrementErrorCount category s).2 in
  CppLintState.verbose_level s' = CppLintState.verbose_level s ∧
  CppLintState.filters s' = CppLintState.filters s ∧
  CppLintState._filters_backup s' = CppLintState._filters_backup s.
Proof.
  unfold CppLintState.IncrementErrorCount. cbn -[mem_str py].
  by destruct (mem_str (CppLintState.counting s) [py "toplevel"; py "detailed"]).
Qed.

Lemma Error_reported f n c k m : moves reported (Error f n c k m).
Proof.
  intros w. unfold Error. unfold mbind at 1, M_bind at 1.
  pose proof (should_print_stays c k n w) as Hs.
  destruct (_ShouldPrintError c k n w) as [[[]|e] w1]; cbn [snd] in Hs; subst w1; try reflexivity.
  exists [report (CppLintState.output_format (_cpplint_state w)) f n c k m].
  destruct (increment_fields c (_cpplint_state w)) as (Hn&Hc&_).
  destruct (increment_settings c (_cpplint_state w)) as (Hv&Hf&Hb).
  rewrite <- (increment_format c (_cpplint_state w)).
  assert (H : (CppLintState.IncrementErrorCount c (_cpplint_state w)).1 = Ok ()) by done.
  unfold mbind, M_bind, on_state, reports, errors_of, settings_of, whenM.
  pose proof (increment_format c (_cpplint_state w)) as Ho.
  destruct (CppLintState.IncrementErrorCount c (_cpplint_state w)) as [r s'].
  cbn -[report] in *. subst r. unfold _OutputFormat, mbind, M_bind. cbn -[report].
  rewrite app_nil_r, Hv, Hf, Hb, Hn, Hc, Ho.
  split_and!; try done. constructor; [|done]. by eexists _, _, _, _, _, _.
Qed.

Lemma suppress_reported c l : moves reported (suppress c l).
Proof. intros w. by apply reported_silent. Qed.

Lemma file_data_reported `{Environment} filename file_extension lines :
  moves reported (ProcessFileData filename file_extension lines Error []).
Proof.
  apply ProcessFileData_moves; [apply _|apply Error_reported|apply suppress_reported| |].
  - by intros check f cl n ?%not_elem_of_nil.
  - intros w. by apply reported_silent.
Qed.

(** C22: The checks of a file are readers that report. Whatever the text of the file, and even
    if a check ends the tool with an exception: what is added to standard error are reports,
    each of them counted, and the filters, the verbosity, the output format, the counting
    style and the options are as before. *)
Theorem process_file_data_reports `{Environment} filename file_extension lines w :
  reported w (ProcessFileData filename file_extension lines Error [] w).2.
Proof. apply file_data_reported. Qed.

(** ** The driver *)

(** What one file does not change for the next, once the filters are restored. *)
Definition kept_of (w : world) :=
  let s := _cpplint_state w in
  (_root w, _valid_extensions w,
   (CppLintState.verbose_level s, CppLintState._filters_backup s, CppLintState.counting s,
    CppLintState.output_format s)).
Definition filed (w w' : world) : Prop := logged w w' ∧ kept_of w' = kept_of w.

#[export] Instance filed_preorder : PreOrder filed.
Proof.
  split; [by intros w|]. intros w1 w2 w3 [L1 K1] [L2 K2]. split; [by etrans|by rewrite K2].
Qed.

Lemma reported_filed w w' : reported w w' → filed w w'.
Proof.
  intros H. split; [by apply reported_logged|]. destruct H as (l&_&_&_&S). unfold settings_of in S.
  injection S as Hr _ He _ Hv _ Hb Hc Ho. unfold kept_of. by rewrite Hr, He, Hv, Hb, Hc, Ho.
Qed.

Lemma filed_text text : moves filed (write_stderr text).
Proof.
  intros w. split; [|done]. exists [text], [].
  split_and!; [cbn; by rewrite app_nil_r|unfold errors_of; cbn; lia|done|apply sublist_nil_l].
Qed.
Lemma filed_length n : moves filed (modifyM (set_line_length n) : lint unit).
Proof. intros w. split; [by apply logged_silent|done]. Qed.
Lemma filed_stdin : moves filed read_stdin.
Proof. intros w. split; [by apply logged_silent|done]. Qed.
Lemma filed_restore : moves filed _RestoreFilters.
Proof. intros w. split; [by apply logged_silent|done]. Qed.
Lemma filed_error f n c k m : moves filed (Error f n c k m).
Proof. eapply moves_weaken; [apply reported_filed|apply Error_reported]. Qed.

(** What [_AddFilters] changes. *)
Lemma add_filters_eq arg s :
  (CppLintState.AddFilters arg s).2
  = CppLintState.set_filters (CppLintState.filters s ++ clean_filters arg) s.
Proof.
  unfold CppLintState.AddFilters. cbv [mbind M_bind getM].
  by rewrite append_filters, check_filters.
Qed.
Lemma filed_filters arg : moves filed (_AddFilters arg).
Proof.
  intros w. unfold _AddFilters, on_state. pose proof (add_filters_eq arg (_cpplint_state w)) as E.
  destruct (CppLintState.AddFilters arg (_cpplint_state w)) as [r s']. cbn [snd] in E. subst s'.
  split; [by apply logged_silent|done].
Qed.
Hint Resolve filed_text filed_length filed_stdin filed_restore filed_error filed_filters : moves.

Section driver.
Context `{Environment}.

Lemma filed_data f ext ls : moves filed (ProcessFileData f ext ls Error []).
Proof. intros w. apply reported_filed, file_data_reported. Qed.
Hint Resolve filed_data : moves.

Lemma config_file_filed f cfg b ls : ∀ filters keep, moves filed (config_file f cfg b ls filters keep).
Proof. induction ls; intros filters keep; cbn [config_file]; moves_go. Qed.
Hint Resolve config_file_filed : moves.
Lemma config_files_filed f fuel : ∀ p filters, moves filed (config_files fuel f p filters).
Proof. induction fuel; intros p filters; cbn [config_files]; moves_go. Qed.
Hint Resolve config_files_filed : moves.

(** [m] ends by restoring the filters that were saved. *)
Definition restores (m : lint unit) : Prop := ∀ w w',
  m w = (Ok (), w') →
  CppLintState.filters (_cpplint_state w') = CppLintState._filters_backup (_cpplint_state w).

Lemma restores_seq {A} (m : lint A) (f : A → lint unit) :
  moves filed m → (∀ a, restores (f a)) → restores (m ≫= f).
Proof.
  intros Hm Hf w w'. specialize (Hm w) as [_ Hk]. unfold mbind, M_bind.
  destruct (m w) as [[a|e] w1]; [|done]. intros Hw'%Hf. rewrite Hw'.
  unfold kept_of in Hk. cbn [snd] in Hk. by injection Hk.
Qed.
Lemma restores_here : restores _RestoreFilters.
Proof. by intros w w' [= <-]. Qed.


Lemma ProcessFile_logged f v : moves logged (ProcessFile f v []).
Proof.
  assert (Hf : ∀ {A} (m : lint A), moves filed m → moves logged m).
  { intros A m. apply moves_weaken. by intros w w' []. }
  unfold ProcessFile. apply moves_bind; [exact _|by intros w; apply logged_silent|]. intros _.
  apply moves_bind; [exact _|by intros w; apply logged_silent|]. intros _. apply Hf. moves_go.
Qed.

End driver.
