(* ===== verification/LintConfig.v ===== *)
(** * cpplint.py: configuration files

    [ProcessConfigOverrides] against a reference reading of the CPPLINT.cfg files, the end of
    its walk up the directories, and runs of the whole tool. *)

From S2P Require Import Prelude PyStr PyRe PyPath LintData LintState LintLines LintInclude.
From S2P Require Import LintExpr LintChecks LintNesting LintModules LintSpacing LintRValue LintBraces.
From S2P Require Import LintLanguage PyGetopt LintMain LintReports.

(** ** The directories *)

(** The directories above [p], nearest first, each with the component below it. *)
Fixpoint ancestors (fuel : nat) (p : str) : list (str * str) :=
  match fuel with
  | O => []
  | S fuel =>
      let '(d, b) := path_split p in
      if str_eqb b [] then [] else (d, b) :: ancestors fuel d
  end.

Lemma path_split_shorter p d b : path_split p = (d, b) → b ≠ [] → length d < length p.
Proof.
  unfold path_split. set (i := match rfind_nat [slash] p with Some i => S i | None => 0 end).
  intros [= <- <-] Hb.
  assert (Hi : i < length p).
  { destruct (decide (i < length p)) as [|Hi]; [done|]. destruct Hb. apply drop_ge. lia. }
  assert (Ht : length (take i p) ≤ i) by (rewrite length_take; lia).
  destruct (forallb _ _); [lia|].
  pose proof (prefix_length _ _ (rstrip_char_prefix slash (take i p))). lia.
Qed.

Lemma ancestors_fuel n m p : length p < n → length p < m → ancestors n p = ancestors m p.
Proof.
  revert m p. induction n as [|n IH]; intros [|m] p Hn Hm; try lia. cbn [ancestors].
  destruct (path_split p) as [d b] eqn:E. unfold str_eqb. case_bool_decide; [done|].
  f_equal. apply path_split_shorter in E; [|done]. apply IH; lia.
Qed.

(** ** The reference reading *)
Section config.
Context `{Environment}.

(** The options of a directory's file, in the order of its lines. *)
Definition options_in (d : str) : list (str * str) :=
  if isfile (config_name d) then omap config_option (read_config (config_name d)).1 else [].

Definition named (name : str) (opts : list (str * str)) : list str :=
  snd <$> filter (λ o, o.1 = name) opts.
Definition is_root (opts : list (str * str)) : bool :=
  existsb (λ o, str_eqb o.1 (py "set noparent")) opts.

(** The options that count, nearest directory first, up to a file that has no parent. *)
Fixpoint options_above (dirs : list str) : list (str * str) :=
  match dirs with
  | [] => []
  | d :: dirs => options_in d ++ (if is_root (options_in d) then [] else options_above dirs)
  end.

(** The options for a file. *)
Definition options_for (filename : str) : list (str * str) :=
  let p := abspath cwd filename in options_above (ancestors (S (length p)) p).*1.

(** Options with a known name, a number where one is asked for, and no exclusion. *)
Definition plain_option (o : str * str) : bool :=
  str_eqb o.1 (py "set noparent") || str_eqb o.1 (py "filter")
  || str_eqb o.1 (py "linelength") && bool_decide (is_Some (int_of o.2)).
Definition plain_dir (d : str) : Prop :=
  isfile (config_name d) = true →
  (read_config (config_name d)).2 = false ∧ Forall (λ o, plain_option o = true) (options_in d).

(** The last of the line lengths is the one that stays. *)
Definition chosen_length (opts : list (str * str)) (n : Z) : Z :=
  default n (last (omap int_of (named (py "linelength") opts))).

Definition with_length (n : Z) (w : world) : world := set_line_length n w.

Lemma named_app name o1 o2 : named name (o1 ++ o2) = named name o1 ++ named name o2.
Proof. unfold named. by rewrite filter_app, fmap_app. Qed.

Lemma chosen_length_app o1 o2 n :
  chosen_length (o1 ++ o2) n = chosen_length o2 (chosen_length o1 n).
Proof.
  unfold chosen_length. rewrite named_app, omap_app, last_app.
  by destruct (last (omap int_of (named _ o2))).
Qed.

Lemma chosen_length_cons o opts n : chosen_length (o :: opts) n = chosen_length opts (chosen_length [o] n).
Proof. apply (chosen_length_app [o]). Qed.

Lemma set_length_same w : set_line_length (_line_length w) w = w.
Proof. by destruct w. Qed.

Lemma named_cons name n v opts :
  named name ((n, v) :: opts) = (if str_eqb n name then [v] else []) ++ named name opts.
Proof.
  unfold named, str_eqb. rewrite filter_cons. cbn [fst]. by case_decide; case_bool_decide.
Qed.
Lemma chosen_length_one n v k :
  chosen_length [(n, v)] k = if str_eqb n (py "linelength") then default k (int_of v) else k.
Proof.
  unfold chosen_length. rewrite named_cons. destruct (str_eqb _ _); [|done].
  cbn. by destruct (int_of v).
Qed.

Lemma set_length_length n m w : set_line_length n (set_line_length m w) = set_line_length n w.
Proof. done. Qed.

(** The names of options are different. *)
Ltac option_name E :=
  apply bool_decide_eq_true in E; subst;
  repeat match goal with
  | |- context [str_eqb ?a ?b] =>
      let r := eval vm_compute in (str_eqb a b) in change (str_eqb a b) with r
  end; cbn match.

(** One file. *)
Lemma config_file_plain f cfg b lines : ∀ filters keep w,
  let opts := omap config_option lines in
  Forall (λ o, plain_option o = true) opts →
  config_file f cfg b lines filters keep w
  = (Ok (Some (filters ++ named (py "filter") opts, keep && negb (is_root opts))),
     set_line_length (chosen_length opts (_line_length w)) w).
Proof.
  induction lines as [|line lines IH]; intros filters keep w; cbn [config_file omap list_omap].
  { intros _. unfold chosen_length. cbn. by rewrite app_nil_r, andb_true_r, set_length_same. }
  destruct (config_option line) as [[name val]|]; [|apply IH].
  cbv zeta. intros [Ho Hp]%Forall_cons.
  rewrite chosen_length_cons, chosen_length_one, named_cons. cbn [is_root existsb fst].
  unfold plain_option in Ho. cbn [fst snd] in Ho.
  destruct (str_eqb name (py "set noparent")) eqn:E1.
  { option_name E1. rewrite IH by done. cbn [app andb orb negb]. by rewrite andb_false_r. }
  destruct (str_eqb name (py "filter")) eqn:E2.
  { option_name E2. rewrite IH by done. by rewrite <- app_assoc. }
  cbn [orb] in Ho. apply andb_true_iff in Ho as [E3 [n Hn]%bool_decide_eq_true].
  option_name E3. rewrite Hn. cbv [mbind M_bind modifyM]. by rewrite IH.
Qed.

(** The whole walk. *)
Lemma config_files_plain f : ∀ fuel p filters w,
  length p < fuel →
  let dirs := (ancestors fuel p).*1 in
  Forall plain_dir dirs →
  config_files fuel f p filters w
  = (Ok (Some (filters ++ named (py "filter") (options_above dirs))),
     set_line_length (chosen_length (options_above dirs) (_line_length w)) w).
Proof.
  induction fuel as [|fuel IH]; intros p filters w Hp; [lia|]. cbn [config_files ancestors].
  destruct (path_split p) as [d b] eqn:E. destruct (str_eqb b []) eqn:Eb.
  { cbn. intros _. unfold chosen_length. cbn. by rewrite app_nil_r, set_length_same. }
  apply bool_decide_eq_false in Eb. apply path_split_shorter in E as Hd; [|done].
  cbn [fmap list_fmap fst options_above]. cbv zeta. intros [Hplain Hrest]%Forall_cons.
  unfold plain_dir in Hplain. unfold options_in in Hplain |- *.
  destruct (isfile (config_name d)); cbn [negb].
  2: { cbn [app is_root existsb]. apply IH; [lia|done]. }
  destruct (Hplain eq_refl) as [Hio Hopts]. destruct (read_config (config_name d)) as [lines io].
  cbn [fst snd] in *. subst io.
  rewrite (bind_run _ _ _ _ _ (config_file_plain f (config_name d) b lines filters true w Hopts)).
  cbn [andb negb whenM]. rewrite andb_true_r. unfold mbind at 1, M_bind at 1. cbn [mret M_ret].
  destruct (is_root _); cbn [negb].
  - by rewrite !app_nil_r.
  - rewrite IH by (done || lia). rewrite named_app, chosen_length_app, <- app_assoc. done.
Qed.

Lemma add_filters_run arg s :
  Forall (λ f, signed f = true) (CppLintState.filters s ++ clean_filters arg) →
  CppLintState.AddFilters arg s
  = (Ok (), CppLintState.set_filters (CppLintState.filters s ++ clean_filters arg) s).
Proof.
  intros Hs. unfold CppLintState.AddFilters. cbv [mbind M_bind getM].
  rewrite append_filters, check_filters. cbn [CppLintState.filters CppLintState.set_filters].
  destruct (list_find _ _) as [[i f]|] eqn:E; [|done].
  apply list_find_Some in E as (Hi&Hf&_). eapply Forall_lookup_1 in Hs; [|exact Hi].
  by rewrite Hs in Hf.
Qed.

Definition add_to_filters (l : list str) (w : world) : world :=
  with_state (CppLintState.set_filters (CppLintState.filters (_cpplint_state w) ++ l)
                (_cpplint_state w)) w.

Lemma add_all_filters args : ∀ w,
  Forall (λ f, signed f = true) (CppLintState.filters (_cpplint_state w) ++ concat (clean_filters <$> args)) →
  forM args _AddFilters w = (Ok (), add_to_filters (concat (clean_filters <$> args)) w).
Proof.
  induction args as [|arg args IH]; intros w Hs; cbn [forM fmap list_fmap concat] in *.
  { unfold add_to_filters. rewrite app_nil_r. by destruct w as [? []]. }
  rewrite app_assoc in Hs. apply Forall_app in Hs as Hs'. destruct Hs' as [Hs1 _].
  erewrite bind_run; [|unfold _AddFilters, on_state; rewrite add_filters_run by done; reflexivity].
  rewrite IH by done. unfold add_to_filters. cbn. by rewrite app_assoc.
Qed.


Lemma config_file_halts f cfg b lines : ∀ filters keep, halts (config_file f cfg b lines filters keep).
Proof.
  induction lines as [|line lines IH]; intros filters keep; cbn [config_file]; [apply halts_ret|].
  destruct (config_option line) as [[name val]|]; [|apply IH].
  destruct (str_eqb name _); [apply IH|]. destruct (str_eqb name _); [apply IH|].
  destruct (str_eqb name _).
  { destruct (negb _); [|apply IH]. apply halts_seq.
    { unfold compiled. destruct (compile val); [apply halts_ret|by apply halts_raise]. }
    intros r. destruct (matched _); [|apply IH]. apply halts_seq; [by intros w|].
    intros _. apply halts_ret. }
  destruct (str_eqb name _); (apply halts_seq; [|intros _; apply IH]); [|by intros w].
  by destruct (int_of val); intros w.
Qed.

Lemma config_files_halts f : ∀ fuel p filters, length p < fuel → halts (config_files fuel f p filters).
Proof.
  induction fuel as [|fuel IH]; intros p filters Hp; [lia|]. cbn [config_files].
  destruct (path_split p) as [d b] eqn:E. destruct (str_eqb b []) eqn:Eb; [apply halts_ret|].
  apply bool_decide_eq_false in Eb. apply path_split_shorter in E; [|done].
  destruct (negb _); [apply IH; lia|]. destruct (read_config _) as [lines io].
  apply halts_seq; [apply config_file_halts|]. intros [[filters' keep]|]; [|apply halts_ret].
  apply halts_seq; [apply halts_when; by intros w|]. intros _.
  destruct (_ && _); [apply IH; lia|apply halts_ret].
Qed.

Lemma add_filters_halts arg : halts (_AddFilters arg).
Proof.
  intros w. unfold _AddFilters, on_state, CppLintState.AddFilters. cbv [mbind M_bind getM].
  rewrite append_filters, check_filters. by destruct (list_find _ _) as [[]|].
Qed.

(** The walk up the directories ends, whatever they hold: each step takes a component off
    the path. *)
Theorem config_overrides_stop filename : halts (ProcessConfigOverrides filename).
Proof.
  unfold ProcessConfigOverrides. apply halts_seq; [apply config_files_halts; lia|].
  intros [filters|]; [|apply halts_ret]. apply halts_seq; [|intros _; apply halts_ret].
  apply halts_for. intros arg. apply add_filters_halts.
Qed.
End config.

(** ** Runs of the tool *)

(** An environment with the given configuration files and one text for every other file. *)
Definition demo (configs : list (string * list string)) (text : str) : Environment := {|
  cwd := py "/w";
  exists_ _ := false;
  isfile p := existsb (λ c, str_eqb (py c.1) p) configs;
  read_config p :=
    (mjoin ((λ c, if str_eqb (py c.1) p then py <$> c.2 else []) <$> configs), false);
  read_text _ := Some text;
  read_lines _ := None;
  key_order d := (map_to_list d).*1;
  requirement_order r := r;
  count_order d := map_to_list d;
  extension_order l := l;
  recursion_limit := 100;
  unicode := {| nfc s := s; is_wide _ := false; is_combining _ := false |} |}.

Definition nested_configs : list (string * list string) :=
  [("/p/CPPLINT.cfg", ["set noparent"; "linelength=100"; "filter=-build"]);
   ("/p/q/CPPLINT.cfg", ["# for q"; "linelength=80"; "filter=+build/include"; "filter=-legal"])]%string.




(** The usage text says that a nested configuration file overrides those above it; of the
    line lengths the one of the outer file is used. *)
Theorem outer_line_length_wins :
  let env := demo nested_configs [] in
  _line_length (ProcessConfigOverrides (py "/p/q/a.cc") initial_world).2 = 100%Z.
Proof. vm_compute. reflexivity. Qed.

(** The line length that a configuration file sets for one directory stays for the files of
    other directories after it: only the filters are saved and restored. *)
Theorem line_length_leaks :
  let env := demo nested_configs [] in
  let '(r, w) := lint_files [py "/p/a.cc"; py "/other/b.cc"] initial_world in
  r = Ok () ∧ options_for (py "/other/b.cc") = [] ∧ _line_length w = 100%Z.
Proof. vm_compute. done. Qed.

(** The two marker lines that are put around a file are linted with it: with a short line
    length they are reported, at line 0 and behind the last line. *)
Theorem marker_lines_reported :
  let env := demo [] (py "// Copyright 2015\nint x;\n") in
  let w := set_line_length 43 initial_world in
  stderr (ProcessFile (py "a.cc") 1 [] w).2
  = py "a.cc:0:  Lines should be <= 43 characters long  [whitespace/line_length] [2]\n"
    ++ py "a.cc:4:  Lines should be <= 43 characters long  [whitespace/line_length] [2]\n"
    ++ py "Done processing a.cc\n".
Proof. vm_compute. reflexivity. Qed.

(** An example of the usage text, and the statement there that FOO means the same as -FOO:
    a filter without a sign ends the tool. *)
Theorem usage_example_rejected :
  (ParseArguments [py "--filter=whitespace,runtime/printf,+runtime/printf_format"; py "a.cc"]
     initial_world).1 = Raise (CppLintState.bad_filter (py "whitespace")).
Proof. vm_compute. reflexivity. Qed.

(** The check for bad characters is meant to see raw lines, but the comments over several
    lines have been blanked by then: a NUL is reported in a comment on one line only. *)
Theorem comment_characters_not_seen :
  let run text :=
    let env := demo [] text in
    stderr (ProcessFile (py "a.cc") 5 [] initial_world).2 in
  run (py "// Copyright 2015\n/* \0 */\n")
  = py "a.cc:2:  Line contains NUL byte.  [readability/nul] [5]\nDone processing a.cc\n" ∧
  run (py "// Copyright 2015\n/*\n\0\n*/\n") = py "Done processing a.cc\n".
Proof. vm_compute. done. Qed.
