(* ===== verification/LintSuppress.v ===== *)
(** * cpplint.py: NOLINT over a whole file

    A marker acts on what is reported from the turn of its line on: [unsuppressed] is the
    relation between the states around any part of the linting, which LintReports carries
    through all checks. *)

From S2P Require Import Prelude PyStr PyRe LintData LintState LintLines LintInclude.
From S2P Require Import LintExpr LintChecks LintNesting LintModules LintSpacing LintRValue LintBraces.
From S2P Require Import LintLanguage PyGetopt LintMain LintReports LintConfig.

(** ** Reports with their lines *)
Record entry := Entry { entry_line : Z; entry_category : str; entry_text : str }.

(** The text is a report of [Error] about that line and category. *)
Definition well_written (e : entry) : Prop :=
  ∃ format filename confidence message,
    entry_text e = report format filename (entry_line e) (entry_category e) confidence message.

(** [l] is written; none of it was suppressed in [w], and what was suppressed stays so. *)
Definition writes_unsuppressed (l : list entry) (w w' : world) : Prop :=
  stderr w' = stderr w ++ concat (entry_text <$> l) ∧ Forall well_written l ∧
  Forall (λ e, IsErrorSuppressedByNolint (entry_category e) (entry_line e) w = false) l ∧
  ∀ c n, IsErrorSuppressedByNolint c n w = true → IsErrorSuppressedByNolint c n w' = true.
Definition unsuppressed (w w' : world) : Prop := ∃ l, writes_unsuppressed l w w'.

#[export] Instance unsuppressed_preorder : PreOrder unsuppressed.
Proof.
  split.
  - intros w. exists []. split_and!; [by rewrite app_nil_r|done|done|done].
  - intros w1 w2 w3 (l1&E1&F1&U1&S1) (l2&E2&F2&U2&S2). exists (l1 ++ l2). split_and!.
    + by rewrite E2, E1, fmap_app, concat_app, app_assoc.
    + by apply Forall_app.
    + apply Forall_app. split; [done|]. eapply Forall_impl; [exact U2|]. intros e He. cbn.
      apply not_true_iff_false. intros Ht%S1. congruence.
    + intros c n Ht. by apply S2, S1.
Qed.

(** The callback and the markers keep to it. *)
Lemma suppress_unsuppressed c n : moves unsuppressed (suppress c n).
Proof.
  intros w. exists []. split_and!; [by rewrite app_nil_r|done|done|].
  intros c' n' Hs. by rewrite suppress_spec, Hs.
Qed.

(** What [Error] does: nothing, or an exception, or one report that is not suppressed. *)
Lemma Error_cases filename linenum category confidence message w :
  let w' := (Error filename linenum category confidence message w).2 in
  w' = w ∨
  IsErrorSuppressedByNolint category linenum w = false ∧
  _error_suppressions w' = _error_suppressions w ∧
  ∃ format, stderr w' = stderr w ++ report format filename linenum category confidence message.
Proof.
  cbv zeta. unfold Error, mbind, M_bind.
  pose proof (should_print_stays category confidence linenum w) as Hs.
  destruct (_ShouldPrintError category confidence linenum w) as [[[]|e] w1] eqn:E;
    cbn [snd] in Hs; subst w1; [|by left|by left].
  right. split.
  - unfold _ShouldPrintError in E. cbv [mbind M_bind getM] in E.
    by destruct (IsErrorSuppressedByNolint category linenum w).
  - assert (H : (CppLintState.IncrementErrorCount category (_cpplint_state w)).1 = Ok ()) by done.
    unfold on_state, whenM.
    destruct (CppLintState.IncrementErrorCount category (_cpplint_state w)) as [r s'].
    cbn [fst] in H. subst r. split; [done|]. by eexists.
Qed.

Lemma Error_unsuppressed f n c k m : moves unsuppressed (Error f n c k m).
Proof.
  intros w. destruct (Error_cases f n c k m w) as [->|(Hn&Hs&format&Ht)]; [reflexivity|].
  exists [Entry n c (report format f n c k m)]. split_and!.
  - rewrite Ht. cbn. by rewrite app_nil_r.
  - constructor; [|done]. by eexists _, _, _, _.
  - by constructor.
  - intros c' n'. unfold IsErrorSuppressedByNolint, suppressed_at. by rewrite Hs.
Qed.

(** ** The parts of [ProcessFileData] *)
Section file.
Context `{Environment} (filename file_extension : str).

(** Up to the loop over the lines, with the lines as they are then. *)
Definition opening (lines : list str) : lint (list str * CleansedLines) :=
  let lines := with_markers lines in
  ResetNolintSuppressions ;;
  CheckForCopyright filename lines Error ;;
  lines ← RemoveMultiLineComments filename lines Error;
  clean_lines ← liftM (cleanse lines);
  whenM (str_eqb file_extension (py "h"))
    (CheckForHeaderGuard cwd exists_ filename clean_lines Error) ;;
  mret (lines, clean_lines).

Definition lint_lines (clean_lines : CleansedLines) (numbers : list nat) : file_state → lint file_state :=
  process_lines filename file_extension clean_lines Error [] numbers.

Definition numbers_of (clean_lines : CleansedLines) : list nat := seq 0 (Z.to_nat (NumLines clean_lines)).

(** Up to the turn of line [k], and from there on. *)
Definition before_line (k : nat) (lines : list str) : lint (list str * CleansedLines * file_state) :=
  '(lines, clean_lines) ← opening lines;
  st ← lint_lines clean_lines (take k (numbers_of clean_lines))
         (FileState IncludeState.__init__ FunctionState.__init__ init_nesting);
  mret (lines, clean_lines, st).
Definition from_line (k : nat) (lines : list str) (clean_lines : CleansedLines) (st : file_state)
    : lint unit :=
  st ← lint_lines clean_lines (drop k (numbers_of clean_lines)) st;
  closing filename file_extension lines clean_lines st Error.

Lemma bind_ext {A B} (m : lint A) (f g : A → lint B) w :
  (∀ a w, f a w = g a w) → (m ≫= f) w = (m ≫= g) w.
Proof. intros Hf. unfold mbind, M_bind. destruct (m w) as [[a|e] w1]; [apply Hf|done]. Qed.

Lemma lint_lines_app cl l1 l2 : ∀ st w,
  lint_lines cl (l1 ++ l2) st w = (lint_lines cl l1 st ≫= lint_lines cl l2) w.
Proof.
  unfold lint_lines. induction l1 as [|n l1 IH]; intros st w; [done|]. cbn [app process_lines].
  rewrite M_bind_assoc. apply bind_ext. clear w. intros st1 w.
  rewrite M_bind_assoc. apply bind_ext. intros _ w1. apply IH.
Qed.

Lemma ProcessFileData_parts k lines w :
  ProcessFileData filename file_extension lines Error [] w
  = (before_line k lines ≫= λ '(lines, clean_lines, st), from_line k lines clean_lines st) w.
Proof.
  unfold ProcessFileData, before_line, opening. rewrite !M_bind_assoc.
  apply bind_ext. clear w. intros _ w. rewrite !M_bind_assoc.
  apply bind_ext. clear w. intros _ w. rewrite !M_bind_assoc.
  apply bind_ext. clear w. intros ls w. rewrite !M_bind_assoc.
  apply bind_ext. clear w. intros cl w. rewrite !M_bind_assoc.
  apply bind_ext. clear w. intros _ w. rewrite !M_bind_ret, M_bind_assoc.
  unfold from_line. fold (numbers_of cl). fold (lint_lines cl (numbers_of cl)).
  transitivity ((lint_lines cl (take k (numbers_of cl) ++ drop k (numbers_of cl))
    (FileState IncludeState.__init__ FunctionState.__init__ init_nesting) ≫=
      (λ st, closing filename file_extension ls cl st Error)) w).
  { by rewrite take_drop. }
  unfold mbind at 1, M_bind at 1. rewrite lint_lines_app.
  unfold mbind, M_bind. by destruct (lint_lines cl (take k _) _ w) as [[st|e] w1].
Qed.

(** A line is looked at as if its marker had been read before. *)
Lemma suppress_twice c n w : suppress c n (suppress c n w).2 = suppress c n w.
Proof.
  unfold suppress, modifyM. cbn. unfold with_suppressions. cbn. do 2 f_equal.
  rewrite lookup_insert_eq, insert_insert_eq. cbn. f_equal. by rewrite (assoc_L (∪)), (idemp_L (∪)).
Qed.

Lemma from_line_again k lines cl st raw w :
  raw_lines cl !! k = Some raw → num_lines cl = Z.of_nat (length (raw_lines cl)) →
  ∀ w', ParseNolintSuppressions filename raw (Z.of_nat k) Error w = (Ok (), w') →
  ParseNolintSuppressions filename raw (Z.of_nat k) Error w' = (Ok (), w') →
  from_line k lines cl st w = from_line k lines cl st w'.
Proof.
  intros Ek El w' E1 E2. unfold from_line. apply lookup_lt_Some in Ek as Hk.
  assert (drop k (numbers_of cl) = k :: seq (S k) (length (raw_lines cl) - S k)) as ->.
  { unfold numbers_of, NumLines. rewrite El, Nat2Z.id, drop_seq. cbn.
    by replace (length (raw_lines cl) - k) with (S (length (raw_lines cl) - S k)) by lia. }
  unfold lint_lines. cbn [process_lines]. rewrite !M_bind_assoc. unfold ProcessLine.
  destruct st as [inc fun_ nest]. rewrite !M_bind_assoc.
  assert (line_at (raw_lines cl) (Z.of_nat k) = mret raw) as ->.
  { unfold line_at, py_index, norm_index. by rewrite (decide_False (P := (Z.of_nat k < 0)%Z)), decide_False, Nat2Z.id, Ek by lia. }
  rewrite !M_bind_ret, !M_bind_assoc. by rewrite (bind_run _ _ _ _ _ E1), (bind_run _ _ _ _ _ E2).
Qed.

Lemma opening_lines lines : returns (λ '(lines, cl),
  raw_lines cl = lines ∧ num_lines cl = Z.of_nat (length (raw_lines cl))) (opening lines).
Proof.
  unfold opening. eapply returns_bind; [apply returns_any|]. intros _ _.
  eapply returns_bind; [apply returns_any|]. intros _ _.
  eapply returns_bind; [apply returns_any|]. intros ls _.
  eapply (returns_bind (λ cl, raw_lines cl = ls ∧ num_lines cl = Z.of_nat (length (raw_lines cl)))).
  - apply returns_lift. intros cl E. unfold cleanse in E.
    apply res_bind_ok in E as (without&_&E). apply res_bind_ok in E as (collapsed&_&E).
    by injection E as <-.
  - intros cl Hcl. eapply returns_bind; [apply returns_any|]. intros _ _. by apply returns_ret.
Qed.

Lemma from_line_unsuppressed k lines cl st : moves unsuppressed (from_line k lines cl st).
Proof.
  unfold from_line, lint_lines. apply moves_bind; [apply _| |].
  - apply process_lines_moves; [apply _|apply Error_unsuppressed|apply suppress_unsuppressed|].
    by intros check f c n ?%not_elem_of_nil.
  - intros st'. apply closing_moves; [apply _|apply Error_unsuppressed].
Qed.

(** C23: A NOLINT marker silences its line in the whole linting of a file: of everything that
    is written from the turn of the marked line on - by all checks of this line and of all
    later lines, and by those of the file as a whole - nothing is a report about the line of
    the marker, or the next one for NOLINTNEXTLINE, in the category of the marker, or in any
    category if it names none. (What was reported about that line before its turn has been
    written already.) *)
Theorem nolint_silences lines k w clean_lines st lines' w1 u next cat v :
  before_line k lines w = (Ok (lines', clean_lines, st), w1) →
  raw_lines clean_lines !! k = Some (nolint_line u next cat v) →
  nolint_ok u cat v →
  (∀ c, cat = Some c → c = py "*" ∨ c ∈ _ERROR_CATEGORIES) →
  ∃ l,
    stderr (ProcessFileData filename file_extension lines Error [] w).2
    = stderr w1 ++ concat (entry_text <$> l) ∧
    Forall well_written l ∧
    Forall (λ e, ¬ (entry_line e = nolint_target (Z.of_nat k) next ∧
                    (cat = None ∨ cat = Some (py "*") ∨ cat = Some (entry_category e)))) l.
Proof.
  intros Eb Ek Hok Hcat. rewrite (ProcessFileData_parts k), (bind_run _ _ _ _ _ Eb).
  assert (num_lines clean_lines = Z.of_nat (length (raw_lines clean_lines))) as Hn.
  { unfold before_line in Eb. unfold mbind at 1, M_bind at 1 in Eb.
    destruct (opening lines w) as [[[ls cl]|e] w0] eqn:Eo; [|done].
    apply opening_lines in Eo as [_ Hn]. unfold mbind, M_bind in Eb.
    destruct (lint_lines cl _ _ w0) as [[st'|e] w2]; [|done]. by injection Eb as <- <- <- <-. }
  set (c := match cat with Some c => if bool_decide (c = py "*") then None else Some c | None => None end).
  assert (∀ w, ParseNolintSuppressions filename (nolint_line u next cat v) (Z.of_nat k) Error w
    = suppress c (nolint_target (Z.of_nat k) next) w) as Hp.
  { intros w'. rewrite (parse_nolint _ _ _ _ _ _ _ Hok). subst c. destruct cat as [c|]; [|done].
    destruct (bool_decide_reflect (c = py "*")) as [->|Hne]; [done|].
    destruct (Hcat c eq_refl) as [|Hin]; [done|]. by rewrite (proj2 (mem_str_spec _ _) Hin). }
  set (w2 := (suppress c (nolint_target (Z.of_nat k) next) w1).2).
  rewrite (from_line_again k lines' clean_lines st _ w1 Ek Hn w2);
    [|by rewrite Hp|by rewrite Hp; apply suppress_twice].
  destruct (from_line_unsuppressed k lines' clean_lines st w2) as (l&E&Hw&Hu&_).
  exists l. split_and!; [exact E|done|]. eapply Forall_impl; [exact Hu|].
  intros e He [Hl Hc]. cbv beta in He. subst w2. rewrite suppress_spec in He.
  apply orb_false_iff in He as [_ He]. apply andb_false_iff in He as [He|He];
    apply bool_decide_eq_false in He; [done|]. apply He. subst c.
  destruct Hc as [-> | [-> | ->]]; [by left|by left|].
  case_bool_decide; [by left|by right].
Qed.
End file.

(** ** Runs *)
Definition marked : str :=
  py "// Copyright 2015\nint f(int a,int b);  // NOLINT(whitespace/comma)\nint g(int a,int b);\n".

(** The marker at line 2 holds; line 3 is reported. *)
Lemma nolint_silences_witness :
  let env := demo [] marked in
  let lines := split (py "\n") marked in
  let before := before_line (py "a.cc") (py "cc") 2 lines initial_world in
  ∃ lines' cl st w1, before = (Ok (lines', cl, st), w1) ∧
  stderr (ProcessFileData (py "a.cc") (py "cc") lines Error [] initial_world).2
  = py "a.cc:3:  Missing space after ,  [whitespace/comma] [3]\n" ∧
  ∃ l,
    stderr (ProcessFileData (py "a.cc") (py "cc") lines Error [] initial_world).2
    = stderr w1 ++ concat (entry_text <$> l) ∧
    Forall well_written l ∧
    Forall (λ e, ¬ (entry_line e = 2%Z ∧
      (Some (py "whitespace/comma") = None ∨ Some (py "whitespace/comma") = Some (py "*") ∨
       Some (py "whitespace/comma") = Some (entry_category e)))) l.
Proof.
  intros env lines before. eexists _, _, _, _. split; [vm_compute; reflexivity|].
  split; [vm_compute; reflexivity|].
  refine (nolint_silences (py "a.cc") (py "cc") lines 2 initial_world _ _ _ _
            (py "int f(int a,int b);  // ") false (Some (py "whitespace/comma")) [] _ _ _ _).
  - vm_compute. reflexivity.
  - vm_compute. reflexivity.
  - split_and!; by_decision.
  - intros c [= <-]. right. by_decision.
Defined.

(** A report about a line that is made before its turn comes through: the semicolon behind the
    body is found from the line of its opening brace, when the marker beside it has not been
    read yet. *)
Theorem marker_read_too_late :
  let text := py "// Copyright 2015\nvoid f() {\n};  // NOLINT\n" in
  let env := demo [] text in
  stderr (ProcessFile (py "a.cc") 3 [] initial_world).2
  = py "a.cc:3:  You don\'t need a ; after a }  [readability/braces] [4]\nDone processing a.cc\n".
Proof. vm_compute. reflexivity. Qed.
