(* ===== verification/LintTermination.v ===== *)
(** * cpplint.py: linting a file comes to its end

    The loops of all checks together: what has to hold of a file and of the file system for
    [ProcessFile] to return or to raise, and never to run on. *)

From S2P Require Import Prelude PyStr PyRe PyReFacts PyPath LintData LintState LintLines LintInclude.
From S2P Require Import LintExpr LintChecks LintNesting LintModules LintSpacing LintRValue LintBraces.
From S2P Require Import LintLanguage PyGetopt LintMain LintReports LintConfig.

(** A result that is not the end of the fuel. *)
Lemma ends_bind {A B} (r : res pyexn A) (f : A → res pyexn B) :
  r ≠ Raise Diverges → (∀ a, f a ≠ Raise Diverges) → (r ≫= f) ≠ Raise Diverges.
Proof. intros Hr Hf. destruct r as [a|e]; cbn; [apply Hf|]. intros [= ->]. by apply Hr. Qed.

(** Goes through a program, like [moves_go]. *)
Ltac halts_go :=
  repeat lazymatch goal with
  | |- ∀ _, _ => intros ?
  | |- Ok _ ≠ Raise Diverges => discriminate
  | |- Raise _ ≠ Raise Diverges => discriminate
  | |- mbind _ _ ≠ Raise Diverges => apply ends_bind
  | |- (match ?x with _ => _ end) ≠ Raise Diverges => destruct x
  | |- (let _ := _ in _) ≠ Raise Diverges => cbv zeta
  | |- ?r ≠ Raise Diverges => first [ solve [auto 4 with halts nocore] | unfold_call r; cbv beta ]
  | |- halts (mret _) => apply halts_ret
  | |- halts (raiseM _) => apply halts_raise; discriminate
  | |- halts (liftM _) => apply halts_lift
  | |- halts getM => by intros ?
  | |- halts (mbind _ _) => apply halts_seq
  | |- halts (whenM _ _) => apply halts_when
  | |- halts (forM [] _) => apply halts_ret
  | |- halts (forM _ _) => apply halts_for
  | |- halts (match ?x with _ => _ end) => destruct x
  | |- halts (let _ := _ in _) => cbv zeta
  | |- halts ?m => first [ solve [auto 4 with halts nocore] | unfold_call m; cbv beta ]
  end.

Lemma CloseExpression_ends cl i pos : CloseExpression cl i pos ≠ Raise Diverges.
Proof. halts_go. Qed.
Lemma ReverseCloseExpression_ends cl i pos : ReverseCloseExpression cl i pos ≠ Raise Diverges.
Proof. halts_go. Qed.
Hint Resolve CloseExpression_ends ReverseCloseExpression_ends : halts.

Lemma absorb_ends rest : ∀ arg, absorb arg rest ≠ Raise Diverges.
Proof. induction rest; intros arg; cbn [absorb]; halts_go. Qed.
Hint Resolve absorb_ends : halts.

Lemma absorb_shorter rest : ∀ arg arg' rest',
  absorb arg rest = Ok (arg', rest') → length rest' ≤ length rest.
Proof.
  induction rest as [|next rest IH]; intros arg arg' rest'; cbn [absorb].
  - destruct (arg_open arg); [done|]. by intros [= _ <-].
  - destruct (arg_open arg); [|by intros [= _ <-]]. intros H%IH. cbn. lia.
Qed.

Lemma collapse_ends : ∀ fuel args, length args ≤ fuel → collapse_args fuel args ≠ Raise Diverges.
Proof.
  induction fuel as [|fuel IH]; intros [|arg args] Hl; cbn [length] in Hl; try done; try lia.
  cbn [collapse_args]. destruct (absorb arg args) as [[arg' rest]|e] eqn:E.
  2: { intros H. apply (absorb_ends args arg). rewrite E. by injection H as ->. }
  apply absorb_shorter in E. cbn [mbind res_bind]. apply ends_bind; [apply IH; lia|done].
Qed.
Lemma constructor_arguments_ends inside : constructor_arguments inside ≠ Raise Diverges.
Proof. apply collapse_ends. done. Qed.
Hint Resolve constructor_arguments_ends : halts.

(** ** A callback that raises, and one that does the same and returns *)

(** What [m] does, without the exception. *)
Definition quiet (error : error_fn) : error_fn :=
  λ f n c l msg w, (Ok (), (error f n c l msg w).2).

(** [m] follows [m'] until it raises an exception other than the end of the fuel. *)
Definition follows {A} (m m' : lint A) : Prop := ∀ w,
  m w = m' w ∨ ∃ e, (m w).1 = Raise e ∧ e ≠ Diverges.

Lemma follows_refl {A} (m : lint A) : follows m m.
Proof. intros w. by left. Qed.
Lemma follows_bind {A B} (m m' : lint A) (f f' : A → lint B) :
  follows m m' → (∀ a, follows (f a) (f' a)) → follows (m ≫= f) (m' ≫= f').
Proof.
  intros Hm Hf w. unfold mbind, M_bind. destruct (Hm w) as [->|(e&He&Hne)].
  - destruct (m' w) as [[a|e] w1]; [apply Hf|by left].
  - right. destruct (m w) as [[a|e'] w1]; [done|]. cbn in *. exists e'. by injection He as ->.
Qed.
Lemma follows_for {A} (l : list A) (f f' : A → lint unit) :
  (∀ a, follows (f a) (f' a)) → follows (forM l f) (forM l f').
Proof.
  intros Hf. induction l as [|a l IH]; [apply follows_refl|]. cbn [forM]. by apply follows_bind.
Qed.
Lemma follows_when b (m m' : lint unit) : follows m m' → follows (whenM b m) (whenM b m').
Proof. by destruct b; [|intros _; apply follows_refl]. Qed.

Lemma follows_halts {A} (m m' : lint A) Q : follows m m' → yields Q m' → halts m.
Proof.
  intros Hf Hy w. destruct (Hf w) as [->|(e&->&He)]; [|by intros [= ->]].
  by destruct (Hy w) as (a&w'&->&_).
Qed.

Section quiet.
Context (error : error_fn).
Hypothesis error_halts : ∀ f n c l m, halts (error f n c l m).

Lemma error_quiet f n c l m : follows (error f n c l m) (quiet error f n c l m).
Proof.
  intros w. specialize (error_halts f n c l m w). unfold quiet.
  destruct (error f n c l m w) as [[[]|e] w1]; [by left|]. right. exists e. split; [done|].
  cbn in error_halts. congruence.
Qed.
Lemma quiet_yields f n c l m : yields (λ _, True) (quiet error f n c l m).
Proof. intros w. by eexists _, _. Qed.

Ltac follows_go :=
  repeat lazymatch goal with
  | |- ∀ _, _ => intros ?
  | |- follows (mbind _ _) _ => apply follows_bind
  | |- follows (whenM _ _) _ => apply follows_when
  | |- follows (forM _ _) _ => apply follows_for
  | |- follows (match ?x with _ => _ end) _ => destruct x
  | |- follows (let _ := _ in _) _ => cbv zeta
  | |- follows ?m ?m' =>
      first [ apply follows_refl | apply error_quiet | unfold_call m; cbv beta ]
  end.

Context (filename : str) (cl : CleansedLines) (linenum : Z).
Hypothesis cl_aligned : aligned cl.
Hypothesis in_file : (0 ≤ linenum < NumLines cl)%Z.

Lemma CheckOperatorSpacing_halts : halts (CheckOperatorSpacing filename cl linenum error).
Proof.
  eapply (follows_halts _ (CheckOperatorSpacing filename cl linenum (quiet error))); [follows_go|].
  apply CheckOperatorSpacing_safe; [done|done|apply quiet_yields].
Qed.
Lemma CheckCheck_halts : halts (CheckCheck filename cl linenum error).
Proof.
  eapply (follows_halts _ (CheckCheck filename cl linenum (quiet error))); [follows_go|].
  apply CheckCheck_safe; [done|done|apply quiet_yields].
Qed.
Lemma CheckRValueReference_halts fuel n :
  statement_starts (elided cl) (Z.to_nat linenum) →
  Forall (λ line, length line < fuel) (elided cl) →
  halts (CheckRValueReference fuel filename cl linenum n error).
Proof.
  intros Hs Hf.
  eapply (follows_halts _ (CheckRValueReference fuel filename cl linenum n (quiet error)));
    [follows_go|].
  apply rvalue_reference_returns; [done|done|apply quiet_yields|done|done].
Qed.
End quiet.

Section checks.
Context (filename : str) (cl : CleansedLines) (error : error_fn).
Context (cwd_ : str) (ex : str → bool).
Hypothesis error_halts : ∀ f n c l m, halts (error f n c l m).
Hypothesis found : ∀ f, FileInfo.RepositoryName cwd_ ex f ≠ Raise Diverges.
Hint Resolve error_halts found update_halts : halts.

Lemma check_virt_specifiers_halts n ls : ∀ c, halts (check_virt_specifiers filename n error ls c).
Proof. induction ls; intros c; cbn [check_virt_specifiers]; halts_go. Qed.
Lemma find_check_macro_halts macros line : halts (find_check_macro macros line).
Proof. induction macros; cbn [find_check_macro]; halts_go. Qed.
Lemma bad_characters_halts ls : ∀ n, halts (bad_characters filename n ls error).
Proof. induction ls; intros n; cbn [bad_characters]; halts_go. Qed.
Hint Resolve check_virt_specifiers_halts find_check_macro_halts bad_characters_halts : halts.

Lemma CheckLanguage_halts n ext st :
  halts (CheckLanguage filename cl n error cwd_ ex ext st).
Proof. halts_go. Qed.
Lemma CheckForNonConstReference_halts n st : halts (CheckForNonConstReference filename cl n error st).
Proof. halts_go. Qed.
Lemma CheckForNonStandardConstructs_halts n st :
  halts (CheckForNonStandardConstructs filename cl n error st).
Proof. halts_go. Qed.
Lemma CheckForFunctionLengths_halts n st : halts (CheckForFunctionLengths filename cl n error st).
Proof. halts_go. Qed.
Lemma FlagCxx11Features_halts n : halts (FlagCxx11Features filename cl n error).
Proof. halts_go. Qed.
Lemma CheckForNamespaceIndentation_halts n st :
  halts (CheckForNamespaceIndentation filename cl n error st).
Proof. halts_go. Qed.
Lemma ParseNolintSuppressions_halts raw n : halts (ParseNolintSuppressions filename raw n error).
Proof. halts_go; by intros w. Qed.

(** ** A line *)
Context (n : Z) (fuel : nat).
Hypothesis cl_aligned : aligned cl.
Hypothesis in_file : (0 ≤ n < NumLines cl)%Z.
Hypothesis starts : statement_starts (elided cl) (Z.to_nat n).
Hypothesis short : Forall (λ line, length line < fuel) (elided cl).

Lemma CheckStyle_halts `{UnicodeData} ext st :
  halts (CheckStyle cwd_ ex fuel filename cl n error ext st).
Proof.
  pose proof (CheckOperatorSpacing_halts error error_halts filename cl n cl_aligned in_file).
  pose proof (CheckCheck_halts error error_halts filename cl n cl_aligned in_file).
  pose proof (CheckRValueReference_halts error error_halts filename cl n cl_aligned in_file fuel st
                starts short).
  halts_go.
Qed.
End checks.
Hint Resolve update_halts check_virt_specifiers_halts bad_characters_halts CheckLanguage_halts CheckForNonConstReference_halts CheckForNonStandardConstructs_halts
  CheckForFunctionLengths_halts CheckForNamespaceIndentation_halts ParseNolintSuppressions_halts
  CheckStyle_halts : halts.

(** ** No step of the cleansing makes a line break *)
Definition unbroken (s : str) : Prop := Forall (λ c, c ≠ 10%N) s.

Lemma unbroken_iff s : unbroken s ↔ 10%N ∉ s.
Proof.
  unfold unbroken. rewrite Forall_forall. split; [by intros H Hin; apply (H _ Hin)|].
  by intros H c Hc ->.
Qed.
Lemma unbroken_span s p : unbroken s → unbroken (span_text s p).
Proof. intros H. by apply Forall_take, Forall_drop. Qed.

Lemma match_subject r s m : no_backref r = true → re_match r s = Some m → mo_subject m = s.
Proof. intros Hr H. by apply match_at_span in H as (c'&_&->&_). Qed.
Lemma unbroken_group m n : unbroken (mo_subject m) → unbroken (group_ m n).
Proof.
  intros H. unfold group_, group. destruct n; cbn -[span_text]; [by apply unbroken_span|].
  destruct (get_cap _ _); cbn -[span_text]; [by apply unbroken_span|constructor].
Qed.
Lemma unbroken_match r s m n :
  no_backref r = true → re_match r s = Some m → unbroken s → unbroken (group_ m n).
Proof. intros Hr H Hs. apply unbroken_group. by rewrite (match_subject r s m Hr H). Qed.

Lemma unbroken_sub_go r repl s : unbroken s → (∀ m, unbroken (repl m)) →
  ∀ fuel copied any start, unbroken (sub_go noflags r repl s fuel copied any start).
Proof.
  intros Hs Hr. induction fuel as [|fuel IH]; intros copied any start; cbn [sub_go];
    [by apply Forall_drop|]. cbv zeta. destruct (_ <? _); [by apply Forall_drop|].
  destruct (search_from _ _ _ _ _ _) as [m|]; [|by apply Forall_drop].
  destruct (_ && _); [apply IH|]. apply Forall_app_2; [by apply unbroken_span|].
  apply Forall_app_2; [apply Hr|apply IH].
Qed.

Lemma unbroken_replace old new s : unbroken new → unbroken s → unbroken (replace old new s).
Proof.
  intros Hn. unfold replace. generalize (length s), 0 at 1. intros n k Hs. revert n k.
  induction Hs as [|c s Hc Hs IH]; intros n k; cbn [replace_go]; [constructor|].
  destruct k; [|apply IH]. destruct n; [by constructor|].
  destruct (starts_with _ _); [apply Forall_app_2; [done|apply IH]|constructor; [done|apply IH]].
Qed.

Lemma unbroken_lstrip s : unbroken s → unbroken (lstrip s).
Proof. induction 1; cbn [lstrip]; [constructor|]. destruct (is_space _); [done|by constructor]. Qed.
Lemma unbroken_rstrip s : unbroken s → unbroken (rstrip s).
Proof. intros H. by apply Forall_reverse, unbroken_lstrip, Forall_reverse. Qed.

Lemma unbroken_comments s : unbroken s → unbroken (CleanseComments s).
Proof.
  intros Hs. unfold CleanseComments, re_sub. apply unbroken_sub_go; [|constructor].
  destruct (find_nat _ s); [|done]. destruct (negb _); [|done].
  by apply unbroken_rstrip, Forall_take.
Qed.
Lemma unbroken_raw_starts : ∀ fuel line line' d,
  unbroken line → raw_string_starts fuel line = Ok (line', d) → unbroken line'.
Proof.
  induction fuel as [|fuel IH]; intros line line' d Hl; [done|]. cbn [raw_string_starts].
  destruct (re_match raw_string_re line) as [m|] eqn:E; [|by intros [= <- _]].
  assert (Hg : ∀ n, unbroken (group_ m n))
    by (intros n; by eapply unbroken_match; [|exact E|]).
  destruct (find_nat _ _) as [e|].
  - apply IH. apply Forall_app_2; [apply Hg|]. apply Forall_app_2; [by_decision|].
    apply Forall_drop, Hg.
  - intros [= <- _]. apply Forall_app_2; [apply Hg|by_decision].
Qed.

Lemma unbroken_raw_line d line line' d' :
  unbroken line → cleanse_raw_line d line = Ok (line', d') → unbroken line'.
Proof.
  intros Hl. unfold cleanse_raw_line.
  destruct d as [d|]; [|by apply unbroken_raw_starts].
  destruct (find_nat d line) as [e|]; [|intros [= <- _]; by_decision].
  destruct (re_match _ line) as [m|] eqn:E; [|done]. apply unbroken_raw_starts.
  apply Forall_app_2; [by eapply unbroken_match; [|exact E|]|].
  apply Forall_app_2; [by_decision|by apply Forall_drop].
Qed.

Lemma unbroken_raw_lines raw : ∀ d without,
  Forall unbroken raw → cleanse_raw_lines d raw = Ok without → Forall unbroken without.
Proof.
  induction raw as [|line raw IH]; intros d without Hr; cbn [cleanse_raw_lines].
  { intros [= <-]. constructor. }
  apply Forall_cons in Hr as [Hl Hr]. destruct (cleanse_raw_line d line) as [[line' d']|] eqn:E; [|done].
  cbn [mbind res_bind]. destruct (cleanse_raw_lines d' raw) as [rest|] eqn:E'; [|done].
  intros [= <-]. constructor; [by eapply unbroken_raw_line|by eapply IH].
Qed.

Lemma unbroken_collapse : ∀ fuel collapsed s r,
  unbroken collapsed → unbroken s → collapse_loop fuel collapsed s = Ok r → unbroken r.
Proof.
  induction fuel as [|fuel IH]; intros collapsed s r Hc Hs; [done|]. cbn [collapse_loop].
  assert (Hend : (Ok (collapsed ++ s) : res pyexn str) = Ok r → unbroken r) by (intros [= <-]; by apply Forall_app_2).
  destruct (re_match first_quote_re s) as [m|] eqn:E; [|exact Hend].
  assert (Hg : ∀ n, unbroken (group_ m n))
    by (intros n; by eapply unbroken_match; [|exact E|]).
  assert (Hstep : ∀ t q, unbroken t → unbroken q → unbroken (collapsed ++ t ++ q))
    by (intros t q Ht Hq; apply Forall_app_2; [done|by apply Forall_app_2]).
  case_bool_decide.
  - destruct (find_nat _ _); [|exact Hend].
    apply IH; [apply Hstep; [apply Hg|by_decision]|apply Forall_drop, Hg].
  - destruct (matched _).
    + destruct (re_match digits_re _) as [m'|] eqn:E'; [|done].
      assert (Hg' : ∀ n, unbroken (group_ m' n)).
      { intros n. eapply unbroken_match; [|exact E'|]; [done|]. constructor; [done|apply Hg]. }
      apply IH; [apply Hstep; [apply Hg|]|apply Hg'].
      apply unbroken_replace; [constructor|apply Hg'].
    + destruct (find_nat _ _); [|exact Hend].
      apply IH; [apply Hstep; [apply Hg|by_decision]|apply Forall_drop, Hg].
Qed.

Lemma unbroken_collapse_strings s r : unbroken s → _CollapseStrings s = Ok r → unbroken r.
Proof.
  intros Hs. unfold _CollapseStrings. destruct (matched _); [by intros [= <-]|].
  apply unbroken_collapse; [constructor|]. by apply unbroken_sub_go; [|constructor].
Qed.

Lemma unbroken_map_res (f : str → res pyexn str) l : ∀ r,
  (∀ s t, unbroken s → f s = Ok t → unbroken t) →
  Forall unbroken l → map_res f l = Ok r → Forall unbroken r.
Proof.
  induction l as [|s l IH]; intros r Hf Hl; cbn [map_res]; [intros [= <-]; constructor|].
  apply Forall_cons in Hl as [Hs Hl]. destruct (f s) as [t|] eqn:E; [|done]. cbn [mbind res_bind].
  destruct (map_res f l) as [ts|]; [|done]. intros [= <-]. constructor; [by eapply Hf|by apply IH].
Qed.

(** Cleansing a file whose lines have no line breaks. *)
Lemma cleanse_aligned raw cl : Forall unbroken raw → cleanse raw = Ok cl → aligned cl.
Proof.
  intros Hr E. destruct (cleanse_total raw) as (cl'&E'&Hraw&He&Hl&Hw&Hn).
  rewrite E in E'. injection E' as <-. split; [by rewrite Hraw|lia|lia|by rewrite Hn, He|].
  unfold cleanse, CleanseRawStrings in E.
  destruct (cleanse_raw_lines None raw) as [without|] eqn:Ew; [|done]. cbn [mbind res_bind] in E.
  destruct (map_res _CollapseStrings without) as [collapsed|] eqn:Ec; [|done].
  injection E as <-. cbn [elided]. apply Forall_fmap.
  apply unbroken_raw_lines in Ew; [|done].
  apply unbroken_map_res in Ec; [|apply unbroken_collapse_strings|done].
  eapply Forall_impl; [exact Ec|]. intros s Hs. by apply unbroken_iff, unbroken_comments.
Qed.

Lemma filter_loop_ends category filters : ∀ b, filter_loop category filters b ≠ Raise Diverges.
Proof. induction filters; intros b; cbn [filter_loop]; halts_go. Qed.
Hint Resolve filter_loop_ends : halts.

Lemma Error_halts f n c l m : halts (Error f n c l m).
Proof.
  unfold Error. apply halts_seq; [halts_go|]. intros b. apply halts_when.
  apply halts_seq; [by intros w|]. intros _. apply halts_seq; [halts_go|]. by intros o w.
Qed.
Hint Resolve Error_halts : halts.

(** ** A file *)
Section file.
Context `{Environment} (filename : str).
Hypothesis found : ∀ f, FileInfo.RepositoryName cwd exists_ f ≠ Raise Diverges.

(** The lines no statement of which begins inside an argument list opened further up, and none
    of which is longer than the recursion may be deep. *)
Definition lintable (cl : CleansedLines) : Prop :=
  (∀ i, i < length (elided cl) → statement_starts (elided cl) i) ∧
  Forall (λ line, length line < recursion_limit) (elided cl).

Lemma ProcessLine_halts ext cl n st :
  aligned cl → lintable cl → (0 ≤ n < NumLines cl)%Z →
  halts (ProcessLine filename ext cl n st Error []).
Proof.
  intros Ha [Hs Hl] Hn. assert (Hst : statement_starts (elided cl) (Z.to_nat n)).
  { apply Hs. destruct Ha as [_ _ _ E _]. lia. }
  pose proof Error_halts. unfold ProcessLine. halts_go.
Qed.
Hint Resolve ProcessLine_halts FlagCxx11Features_halts : halts.

Lemma process_lines_halts ext cl ns : aligned cl → lintable cl →
  Forall (λ n, Z.of_nat n < NumLines cl)%Z ns →
  ∀ st, halts (process_lines filename ext cl Error [] ns st).
Proof.
  intros Ha Hl. induction 1 as [|n ns Hn _ IH]; intros st; cbn [process_lines]; [apply halts_ret|].
  apply halts_seq; [apply ProcessLine_halts; [done|done|lia]|]. intros st'.
  apply halts_seq; [apply FlagCxx11Features_halts; auto with halts|]. intros _. apply IH.
Qed.

(** The lines the removal of comments leaves do not depend on who listens. *)
Lemma remove_comments_lines fuel f error : ∀ ls i w ls',
  (remove_comments fuel f error ls i w).1 = Ok ls' →
  (remove_comments fuel [] ignore_error ls i initial_world).1 = Ok ls'.
Proof.
  induction fuel as [|fuel IH]; intros ls i w ls'; cbn [remove_comments]; [done|].
  destruct (_ <=? _)%nat; [done|]. cbv zeta. destruct (_ <=? _)%nat; [done|].
  destruct (_ <=? _)%nat; [|apply IH]. unfold mbind, M_bind.
  destruct (error _ _ _ _ _ w) as [[[]|e] w']; [done|done].
Qed.

Lemma unbroken_range ls b e : Forall unbroken ls → Forall unbroken (RemoveMultiLineCommentsFromRange ls b e).
Proof.
  unfold RemoveMultiLineCommentsFromRange. generalize (seq b (e - b)) as l. intros l. revert ls.
  induction l as [|i l IH]; intros ls H0; cbn [foldl]; [done|]. apply IH, Forall_insert; [done|].
  by_decision.
Qed.
Lemma unbroken_remove fuel f error : ∀ ls i w ls',
  Forall unbroken ls → (remove_comments fuel f error ls i w).1 = Ok ls' → Forall unbroken ls'.
Proof.
  induction fuel as [|fuel IH]; intros ls i w ls' H0; cbn [remove_comments]; [done|].
  destruct (_ <=? _)%nat; [by intros [= <-]|]. cbv zeta. destruct (_ <=? _)%nat; [by intros [= <-]|].
  destruct (_ <=? _)%nat; [|by apply IH, unbroken_range]. unfold mbind, M_bind.
  destruct (error _ _ _ _ _ w) as [[[]|e] w']; [by intros [= <-]|done].
Qed.

(** The cleansed lines of a file with the given lines. *)
Definition cleansed (ls : list str) : option CleansedLines :=
  match (RemoveMultiLineComments [] (with_markers ls) ignore_error initial_world).1 with
  | Ok ls => match cleanse ls with Ok cl => Some cl | Raise _ => None end
  | Raise _ => None
  end.

Lemma RemoveMultiLineComments_halts ls : halts (RemoveMultiLineComments filename ls Error).
Proof.
  intros w. unfold RemoveMultiLineComments.
  destruct (remove_comments_spec (S (length ls)) filename Error [] ls w)
    as [(ls'&_&E)|(p&p'&l&s&_&_&_&_&E)]; [lia| |];
    cbn [app length] in E; rewrite E; [done|].
  apply (halts_seq (Error _ _ _ _ _)); [apply Error_halts|]. intros _. apply halts_ret.
Qed.

Lemma ProcessFileData_halts ext ls :
  Forall unbroken ls → (∀ cl, cleansed ls = Some cl → lintable cl) →
  halts (ProcessFileData filename ext ls Error []).
Proof.
  intros Hb Hl. unfold ProcessFileData. cbv zeta.
  apply halts_seq; [by intros w|]. intros _. apply halts_seq; [halts_go|]. intros _.
  apply (halts_bind (λ ls', Forall unbroken ls' ∧ ∀ cl, cleanse ls' = Ok cl → lintable cl));
    [apply RemoveMultiLineComments_halts| |].
  { intros w ls' w' E. assert (E1 : (RemoveMultiLineComments filename (with_markers ls) Error w).1 = Ok ls')
      by (by rewrite E).
    split.
    - eapply unbroken_remove, E1. apply Forall_app. split; [repeat constructor; by_decision|].
      apply Forall_app. split; [done|repeat constructor; by_decision].
    - intros cl Ec. apply Hl. unfold cleansed.
      unfold RemoveMultiLineComments in E1 |- *. apply remove_comments_lines in E1. by rewrite E1, Ec. }
  intros ls' [Hb' Hl']. destruct (cleanse_total ls') as (cl&Ec&_&Hlen&_&_&Hn). rewrite Ec.
  assert (Ha : aligned cl) by by eapply cleanse_aligned. specialize (Hl' cl Ec).
  apply (halts_bind (λ cl', cl' = cl)); [by intros w|by intros w cl' w' [= -> _]|]. intros ? ->.
  assert (Hlines : ∀ st, halts (process_lines filename ext cl Error []
                                  (seq 0 (Z.to_nat (NumLines cl))) st)).
  { apply process_lines_halts; [done|done|]. apply Forall_forall. intros n Hin%elem_of_seq. lia. }
  clear Hb Hl Hb' Hl' Ec Ha Hn Hlen. halts_go.
Qed.

(** Splitting at line breaks. *)
Lemma unbroken_split_go s : ∀ acc, unbroken acc → Forall unbroken (split_go [10%N] acc 0 s).
Proof.
  induction s as [|c s IH]; intros acc Ha; cbn [split_go starts_with].
  { constructor; [by apply Forall_reverse|constructor]. }
  destruct (10 =? c)%N eqn:E; cbn [andb].
  - constructor; [by apply Forall_reverse|]. apply IH. constructor.
  - apply IH. constructor; [|done]. apply N.eqb_neq in E. congruence.
Qed.

Lemma unbroken_line_ends ls : ∀ n, Forall unbroken ls → Forall unbroken (line_ends n ls).1.1.
Proof.
  induction ls as [|l ls IH]; intros n H0; [constructor|]. apply Forall_cons in H0 as [Hl H0].
  cbn [line_ends]. destruct ls as [|l' ls]; [by repeat constructor|].
  specialize (IH (n + 1)%Z H0). destruct (line_ends _ _) as [[rest lf] crlf]. cbn [fst] in IH.
  destruct (ends_with _ _); cbn [fst]; constructor; try done.
  destruct (rstrip_char_prefix 13 l) as [k E]. rewrite E in Hl. by apply Forall_app in Hl as [Hl _].
Qed.

(** The lines of a text, without their carriage returns. *)
Definition lines_of (text : str) : list str := (line_ends 1 (split (py "\n") text)).1.1.

End file.

