(* ===== verification/PyUtf8.v ===== *)
(** * UTF-8 and compat.py

    Python's [utf8] codec, and the conversions of hs2client/compat.py between text and
    bytes, with the helpers of that file. Bytes are numbers below 256. *)

From S2P Require Import Prelude PyStr.
Local Open Scope N_scope.

Definition is_surrogate (c : char) : bool := (0xD800 <=? c) && (c <=? 0xDFFF).
Definition cont (b : N) : bool := (0x80 <=? b) && (b <=? 0xBF).

Definition UnicodeEncodeError : pyexn := UserException "UnicodeEncodeError" [].
Definition UnicodeDecodeError : pyexn := UserException "UnicodeDecodeError" [].

(** One code point; Python 2 ([lenient]) lets lone surrogates through. *)
Definition encode_char (lenient : bool) (c : char) : option (list N) :=
  if c <? 0x80 then Some [c]
  else if c <? 0x800 then Some [0xC0 + c / 64; 0x80 + c mod 64]
  else if c <? 0x10000 then
    if is_surrogate c && negb lenient then None
    else Some [0xE0 + c / 4096; 0x80 + c / 64 mod 64; 0x80 + c mod 64]
  else Some [0xF0 + c / 262144; 0x80 + c / 4096 mod 64; 0x80 + c / 64 mod 64; 0x80 + c mod 64].

Fixpoint encode (lenient : bool) (s : str) : res pyexn (list N) :=
  match s with
  | [] => Ok []
  | c :: s =>
      match encode_char lenient c with
      | Some u => v ← encode lenient s; Ok (u ++ v)
      | None => Raise UnicodeEncodeError
      end
  end.

(** The strict decoder: shortest form, no surrogates, nothing above U+10FFFF. *)
Fixpoint decode (b : list N) : res pyexn str :=
  match b with
  | [] => Ok []
  | a :: b =>
      if a <? 0x80 then s ← decode b; Ok (a :: s)
      else match b with
           | a1 :: b =>
               if (0xC2 <=? a) && (a <=? 0xDF) then
                 if cont a1 then s ← decode b; Ok ((a - 0xC0) * 64 + (a1 - 0x80) :: s)
                 else Raise UnicodeDecodeError
               else match b with
                    | a2 :: b =>
                        if (0xE0 <=? a) && (a <=? 0xEF) then
                          let c := (a - 0xE0) * 4096 + (a1 - 0x80) * 64 + (a2 - 0x80) in
                          if cont a1 && cont a2 && (0x800 <=? c) && negb (is_surrogate c)
                          then s ← decode b; Ok (c :: s)
                          else Raise UnicodeDecodeError
                        else match b with
                             | a3 :: b =>
                                 let c := (a - 0xF0) * 262144 + (a1 - 0x80) * 4096
                                          + (a2 - 0x80) * 64 + (a3 - 0x80) in
                                 if (0xF0 <=? a) && (a <=? 0xF4) && cont a1 && cont a2 && cont a3
                                    && (0x10000 <=? c) && (c <=? 0x10FFFF)
                                 then s ← decode b; Ok (c :: s)
                                 else Raise UnicodeDecodeError
                             | [] => Raise UnicodeDecodeError
                             end
                    | [] => Raise UnicodeDecodeError
                    end
           | [] => Raise UnicodeDecodeError
           end
  end.

(** ** compat.py *)
Inductive pyobj :=
| Text (s : str)
| Bytes (b : list N)
| NotText.

#[export] Instance pyobj_eq_dec : EqDecision pyobj.
Proof. solve_decision. Defined.

Definition tobytes (PY2 : bool) (o : pyobj) : res pyexn pyobj :=
  match o with
  | Text s => b ← encode PY2 s; Ok (Bytes b)
  | _ => Ok o
  end.

Definition frombytes (PY2 : bool) (o : list N) : res pyexn pyobj :=
  if PY2 then Ok (Bytes o) else s ← decode o; Ok (Text s).

(** The helpers that are the same for both major versions: [zip] as a list, up to the end of
    the shortest sequence, [values] of a dictionary as a list, and the hexadecimal digits of
    a random identifier, [uuid4]. *)
Definition lzip {A} (x : list (list A)) : list (list A) :=
  match x with
  | [] => []
  | s :: rest => (λ i, omap (.!! i) x) <$> seq 0 (foldr Nat.min (length s) (length <$> rest))
  end.
Definition dict_values {K V} (x : list (K * V)) : list V := x.*2.

Definition hex_digit (n : N) : char := if n <? 10 then 48 + n else 87 + n.
Fixpoint hex_digits (k : nat) (n : N) : str :=
  match k with O => [] | S k => hex_digits k (n / 16) ++ [hex_digit (n mod 16)] end.
Definition guid (uuid4 : N) : str := hex_digits 32 uuid4.

(** * Theorems *)

(** Every tuple has an entry of each sequence, and none is missing as long as all last. *)
Lemma lzip_tuples {A} (x : list (list A)) t : t ∈ lzip x → length t = length x.
Proof.
  destruct x as [|s rest]; [by intros ?%elem_of_nil|]. cbn [lzip].
  intros (i&->&Hi%elem_of_seq)%list_elem_of_fmap.
  assert (Forall (λ l, (i < length l)%nat) (s :: rest)) as Hf.
  { destruct Hi as [_ Hi]. cbn in Hi. revert Hi. generalize (s : list A) as s'. intros s' Hi.
    assert ((i < length s')%nat ∧ Forall (λ l : list A, (i < length l)%nat) rest) as [? ?].
    { induction rest as [|r rest IH]; [done|]. cbn in Hi.
      destruct IH; [lia|]. split; [done|]. constructor; [lia|done]. }
    by constructor. }
  clear Hi. induction Hf as [|l x Hl _ IH]; [done|]. cbn.
  destruct (lookup_lt_is_Some_2 _ _ Hl) as [a ->]. cbn. by rewrite IH.
Qed.

(** Of a 128-bit number the digits are all there. *)
Lemma guid_value n : n < 2 ^ 128 →
  foldl (λ acc c, 16 * acc + (if c <? 58 then c - 48 else c - 87)) 0 (guid n) = n.
Proof.
  unfold guid. assert (∀ k n, n < 16 ^ N.of_nat k →
    foldl (λ acc c, 16 * acc + (if c <? 58 then c - 48 else c - 87)) 0 (hex_digits k n) = n) as H.
  { clear. induction k as [|k IH]; intros n Hn; [cbn in *; lia|]. cbn [hex_digits].
    rewrite foldl_app, IH.
    - cbn [foldl]. unfold hex_digit.
      pose proof (N.div_mod n 16 ltac:(lia)) as Ed. pose proof (N.mod_lt n 16 ltac:(lia)) as Hm.
      revert Ed Hm. generalize (n / 16) (n mod 16). intros q r -> Hr. clear.
      destruct (N.ltb_spec r 10); [destruct (N.ltb_spec (48 + r) 58)|destruct (N.ltb_spec (87 + r) 58)]; lia.
    - rewrite Nat2N.inj_succ, N.pow_succ_r' in Hn. by apply N.Div0.div_lt_upper_bound. }
  intros Hn. by apply H.
Qed.

Lemma div_mod_64 c : c = c / 64 * 64 + c mod 64.
Proof. rewrite N.mul_comm. apply N.div_mod. lia. Qed.

(** Comparisons that linear arithmetic decides. *)
Ltac decide_comparisons :=
  repeat match goal with
  | |- context [?a <? ?b] =>
      first [rewrite (proj2 (N.ltb_lt a b)) by lia | rewrite (proj2 (N.ltb_ge a b)) by lia]
  | |- context [?a <=? ?b] =>
      first [rewrite (proj2 (N.leb_le a b)) by lia | rewrite (proj2 (N.leb_gt a b)) by lia]
  end; cbn [andb negb].

(** The digits of a code point in base 64. *)
Lemma digits_64 c :
  c mod 64 < 64 ∧ c / 64 mod 64 < 64 ∧ c / 4096 mod 64 < 64 ∧
  c = c / 64 * 64 + c mod 64 ∧
  c = c / 4096 * 4096 + c / 64 mod 64 * 64 + c mod 64 ∧
  c = c / 262144 * 262144 + c / 4096 mod 64 * 4096 + c / 64 mod 64 * 64 + c mod 64.
Proof.
  pose proof (div_mod_64 c) as E0. pose proof (div_mod_64 (c / 64)) as E1.
  pose proof (div_mod_64 (c / 4096)) as E2.
  rewrite N.Div0.div_div in E1. change (64 * 64) with 4096 in E1.
  rewrite N.Div0.div_div in E2. change (4096 * 64) with 262144 in E2.
  pose proof (N.mod_lt c 64 ltac:(lia)). pose proof (N.mod_lt (c / 64) 64 ltac:(lia)).
  pose proof (N.mod_lt (c / 4096) 64 ltac:(lia)). split_and!; lia.
Qed.

(** One encoded code point in front. *)
Lemma decode_encode_char c u b :
  c <= 0x10FFFF → encode_char false c = Some u → decode (u ++ b) = s ← decode b; Ok (c :: s).
Proof.
  intros Hc. unfold encode_char. destruct (digits_64 c) as (L0&L1&L2&E0&E1&E2).
  destruct (N.ltb_spec c 0x80) as [H1|H1].
  { intros [= <-]. cbn [app decode]. by rewrite (proj2 (N.ltb_lt _ _)). }
  destruct (N.ltb_spec c 0x800) as [H2|H2].
  { intros [= <-]. cbn [app decode]. unfold cont. clear E1 E2.
    generalize dependent (c / 64). generalize dependent (c mod 64). intros r L0 q _ E0.
    decide_comparisons. by replace ((0xC0 + q - 0xC0) * 64 + (0x80 + r - 0x80)) with c by lia. }
  destruct (N.ltb_spec c 0x10000) as [H3|H3].
  { destruct (is_surrogate c && negb false) eqn:Es; [done|]. intros [= <-]. cbn [app decode].
    unfold cont. clear E0 E2. rewrite andb_true_r in Es.
    generalize dependent (c / 4096). generalize dependent (c / 64 mod 64).
    generalize dependent (c mod 64). intros r0 L0 r1 L1 q _ E1.
    replace ((0xE0 + q - 0xE0) * 4096 + (0x80 + r1 - 0x80) * 64 + (0x80 + r0 - 0x80))
      with c by lia.
    rewrite Es. by decide_comparisons. }
  intros [= <-]. cbn [app decode]. unfold cont. clear E0 E1.
  generalize dependent (c / 262144). generalize dependent (c / 4096 mod 64).
  generalize dependent (c / 64 mod 64). generalize dependent (c mod 64).
  intros r0 L0 r1 L1 r2 L2 q E2.
  replace ((0xF0 + q - 0xF0) * 262144 + (0x80 + r2 - 0x80) * 4096 + (0x80 + r1 - 0x80) * 64
           + (0x80 + r0 - 0x80)) with c by lia.
  by decide_comparisons.
Qed.

(** In Python 3 text survives the trip to the server's bytes and back: [frombytes]
    undoes [tobytes] on every text of code points, and [tobytes] fails, with a
    UnicodeEncodeError, exactly on text with a lone surrogate. *)
Theorem text_roundtrip s :
  Forall (λ c, c <= 0x10FFFF) s →
  match tobytes false (Text s) with
  | Ok (Bytes b) => existsb is_surrogate s = false ∧ frombytes false b = Ok (Text s)
  | Raise e => existsb is_surrogate s = true ∧ e = UnicodeEncodeError
  | _ => False
  end.
Proof.
  intros Hs. unfold tobytes, frombytes.
  assert (match encode false s with
          | Ok b => existsb is_surrogate s = false ∧ decode b = Ok s
          | Raise e => existsb is_surrogate s = true ∧ e = UnicodeEncodeError
          end) as Hspec.
  { induction Hs as [|c s Hc _ IH]; [done|]. cbn [encode existsb].
    destruct (encode_char false c) as [u|] eqn:Eu.
    - assert (is_surrogate c = false) as ->.
      { unfold encode_char, is_surrogate in *. rewrite andb_true_r in Eu.
        destruct (N.ltb_spec c 0x80); [by decide_comparisons|].
        destruct (N.ltb_spec c 0x800); [by decide_comparisons|].
        destruct (N.ltb_spec c 0x10000); [by destruct (_ && _)|by decide_comparisons]. }
      destruct (encode false s) as [v|e]; [|done]. destruct IH as [-> IH]. split; [done|].
      by rewrite (decode_encode_char c u v Hc Eu), IH.
    - split; [|done]. unfold encode_char in Eu. destruct (c <? 0x80); [done|].
      destruct (c <? 0x800); [done|]. destruct (c <? 0x10000); [|done].
      by destruct (is_surrogate c). }
  destruct (encode false s) as [b|e]; [|done]. cbn. destruct Hspec as [-> ->]. done.
Qed.

Lemma text_roundtrip_witness :
  match tobytes false (Text [65; 0xE9; 0x20AC; 0x1F600]) with
  | Ok (Bytes b) => existsb is_surrogate [65; 0xE9; 0x20AC; 0x1F600] = false ∧
                    frombytes false b = Ok (Text [65; 0xE9; 0x20AC; 0x1F600])
  | Raise e => existsb is_surrogate [65; 0xE9; 0x20AC; 0x1F600] = true ∧ e = UnicodeEncodeError
  | _ => False
  end.
Proof.
  apply (text_roundtrip [65; 0xE9; 0x20AC; 0x1F600]). repeat constructor; discriminate.
Defined.
