(* ===== verification/HsTypes.v ===== *)
(** * hs2client's C++ core: status, enumerations and column types

    status.h, types.h and types.cc, and the conversions of thrift-internal.cc between
    the Thrift structures and the library's own types. A field of a Thrift
    enumeration holds whatever number came over the wire. DCHECKs are those of a
    release build: none. *)

From S2P Require Import Prelude PyStr.

(** ** Status *)
Inductive StatusCode := Success | StillExecutingCode | ErrorCode | InvalidHandleCode.

#[export] Instance StatusCode_eq_dec : EqDecision StatusCode.
Proof. solve_decision. Defined.

Module Status.
Record t := make { code_ : StatusCode; msg_ : str }.

Definition OK (msg : str) : t := make Success msg.
Definition StillExecuting : t := make StillExecutingCode [].
Definition Error (msg : str) : t := make ErrorCode msg.
Definition InvalidHandle : t := make InvalidHandleCode [].

Definition ok (s : t) : bool := bool_decide (code_ s = Success).
Definition IsStillExecuting (s : t) : bool := bool_decide (code_ s = StillExecutingCode).
Definition IsError (s : t) : bool := bool_decide (code_ s = ErrorCode).
Definition IsInvalidHandle (s : t) : bool := bool_decide (code_ s = InvalidHandleCode).
Definition GetMessage (s : t) : str := msg_ s.
End Status.

(** ** The Thrift structures *)

(** [TStatusCode] *)
Definition SUCCESS_STATUS : Z := 0.
Definition SUCCESS_WITH_INFO_STATUS : Z := 1.
Definition STILL_EXECUTING_STATUS : Z := 2.
Definition ERROR_STATUS : Z := 3.
Definition INVALID_HANDLE_STATUS : Z := 4.

(** Optional fields that are not set read as empty. *)
Record TStatus := { statusCode : Z; infoMessages : list str; errorMessage : str }.

(** [TTypeQualifierValue], [TPrimitiveTypeEntry] and [TTypeEntry]: the fields the code
    reads; [i32Value] is 0 where the union holds a string. *)
Record TPrimitiveTypeEntry := { type_ : Z; qualifiers : gmap str Z }.
Record TTypeEntry := { primitiveEntry : option TPrimitiveTypeEntry }.
Definition TTypeDesc : Type := list TTypeEntry.
Record TColumnDesc := {
  columnName : str; typeDesc : TTypeDesc; tposition : Z; tcomment : str }.

Definition CHARACTER_MAXIMUM_LENGTH : str := py "characterMaximumLength".
Definition PRECISION : str := py "precision".
Definition SCALE : str := py "scale".

(** ** Conversions of the status *)

(** What RETURN_NOT_OK tests. *)
Definition succeeded (s : TStatus) : bool :=
  (statusCode s =? SUCCESS_STATUS)%Z || (statusCode s =? SUCCESS_WITH_INFO_STATUS)%Z.

Definition TStatusToStatus (tstatus : TStatus) : Status.t :=
  if (statusCode tstatus =? SUCCESS_STATUS)%Z then Status.OK []
  else if (statusCode tstatus =? SUCCESS_WITH_INFO_STATUS)%Z then
    Status.OK (join (py ",") (infoMessages tstatus))
  else if (statusCode tstatus =? STILL_EXECUTING_STATUS)%Z then Status.StillExecuting
  else if (statusCode tstatus =? ERROR_STATUS)%Z then Status.Error (errorMessage tstatus)
  else if (statusCode tstatus =? INVALID_HANDLE_STATUS)%Z then Status.InvalidHandle
  else Status.Error (py "Unknown TStatusCode " ++ str_of_Z (statusCode tstatus)).

(** ** Operation states *)
Inductive State :=
| INITIALIZED | RUNNING | FINISHED | CANCELED | CLOSED | ERROR | UNKNOWN | PENDING.

#[export] Instance State_eq_dec : EqDecision State.
Proof. solve_decision. Defined.

(** [TOperationState] counts from 0 in this order. *)
Definition TOperationStateToOperationState (tstate : Z) : State :=
  match tstate with
  | 0 => INITIALIZED
  | 1 => RUNNING
  | 2 => FINISHED
  | 3 => CANCELED
  | 4 => CLOSED
  | 5 => ERROR
  | 6 => UNKNOWN
  | 7 => PENDING
  | _ => UNKNOWN
  end%Z.

Definition OperationStateToString (state : State) : str :=
  match state with
  | INITIALIZED => py "INITIALIZED"
  | RUNNING => py "RUNNING"
  | FINISHED => py "FINISHED"
  | CANCELED => py "CANCELED"
  | CLOSED => py "CLOSED"
  | ERROR => py "ERROR"
  | UNKNOWN => py "UNKNOWN"
  | PENDING => py "PENDING"
  end.

(** ** Protocols and fetch orientations *)
Inductive ProtocolVersion :=
| PROTOCOL_V1 | PROTOCOL_V2 | PROTOCOL_V3 | PROTOCOL_V4 | PROTOCOL_V5 | PROTOCOL_V6 | PROTOCOL_V7.

Definition HIVE_CLI_SERVICE_PROTOCOL_V6 : Z := 5.

Definition ProtocolVersionToTProtocolVersion (protocol : ProtocolVersion) : Z :=
  match protocol with
  | PROTOCOL_V1 => 0
  | PROTOCOL_V2 => 1
  | PROTOCOL_V3 => 2
  | PROTOCOL_V4 => 3
  | PROTOCOL_V5 => 4
  | PROTOCOL_V6 => HIVE_CLI_SERVICE_PROTOCOL_V6
  | PROTOCOL_V7 => 6
  end%Z.

Inductive FetchOrientation := NEXT | PRIOR | RELATIVE | ABSOLUTE | FIRST | LAST.

Definition FetchOrientationToTFetchOrientation (orientation : FetchOrientation) : Z :=
  match orientation with
  | NEXT => 0
  | PRIOR => 1
  | RELATIVE => 2
  | ABSOLUTE => 3
  | FIRST => 4
  | LAST => 5
  end%Z.

(** ** Column types *)
Inductive TypeId :=
| BOOLEAN | TINYINT | SMALLINT | INT | BIGINT | FLOAT | DOUBLE | STRING_ | TIMESTAMP | BINARY
| ARRAY | MAP | STRUCT | UNION | USER_DEFINED | DECIMAL | NULL_TYPE | DATE | VARCHAR | CHAR
| INVALID.

#[export] Instance TypeId_eq_dec : EqDecision TypeId.
Proof. solve_decision. Defined.

Definition TypeIdToString (type_id : TypeId) : str :=
  match type_id with
  | BOOLEAN => py "BOOLEAN" | TINYINT => py "TINYINT" | SMALLINT => py "SMALLINT"
  | INT => py "INT" | BIGINT => py "BIGINT" | FLOAT => py "FLOAT" | DOUBLE => py "DOUBLE"
  | STRING_ => py "STRING" | TIMESTAMP => py "TIMESTAMP" | BINARY => py "BINARY"
  | ARRAY => py "ARRAY" | MAP => py "MAP" | STRUCT => py "STRUCT" | UNION => py "UNION"
  | USER_DEFINED => py "USER_DEFINED" | DECIMAL => py "DECIMAL" | NULL_TYPE => py "NULL_TYPE"
  | DATE => py "DATE" | VARCHAR => py "VARCHAR" | CHAR => py "CHAR" | INVALID => py "INVALID"
  end.

(** [TTypeId] counts from 0 in this order. *)
Definition TTypeIdToTypeId (type_id : Z) : TypeId :=
  match type_id with
  | 0 => BOOLEAN | 1 => TINYINT | 2 => SMALLINT | 3 => INT | 4 => BIGINT | 5 => FLOAT
  | 6 => DOUBLE | 7 => STRING_ | 8 => TIMESTAMP | 9 => BINARY | 10 => ARRAY | 11 => MAP
  | 12 => STRUCT | 13 => UNION | 14 => USER_DEFINED | 15 => DECIMAL | 16 => NULL_TYPE
  | 17 => DATE | 18 => VARCHAR | 19 => CHAR
  | _ => INVALID
  end%Z.

Inductive ColumnType :=
| PrimitiveType (type_id : TypeId)
| CharacterType (type_id : TypeId) (max_length : Z)
| DecimalType (type_id : TypeId) (precision scale : Z).

Definition type_id (t : ColumnType) : TypeId :=
  match t with PrimitiveType i | CharacterType i _ | DecimalType i _ _ => i end.
Definition ToString (t : ColumnType) : str := TypeIdToString (type_id t).

Definition TTypeDescToColumnType (ttype_desc : TTypeDesc) : ColumnType :=
  match ttype_desc with
  | [{| primitiveEntry := Some e |}] =>
      let type_id := TTypeIdToTypeId (type_ e) in
      if bool_decide (type_id = CHAR) || bool_decide (type_id = VARCHAR) then
        match qualifiers e !! CHARACTER_MAXIMUM_LENGTH with
        | Some n => CharacterType type_id n
        | None => PrimitiveType INVALID
        end
      else if bool_decide (type_id = DECIMAL) then
        match qualifiers e !! PRECISION, qualifiers e !! SCALE with
        | Some p, Some s => DecimalType type_id p s
        | _, _ => PrimitiveType INVALID
        end
      else PrimitiveType type_id
  | _ => PrimitiveType INVALID
  end.

(** [ColumnDesc] *)
Module ColumnDesc.
Record t := make { column_name : str; type : ColumnType; position : Z; comment : str }.

(** The [static_cast]s: [None] is the undefined use of one. *)
Definition GetPrimitiveType (d : t) : ColumnType := type d.
Definition GetCharacterType (d : t) : option Z :=
  match type d with CharacterType _ n => Some n | _ => None end.
Definition GetDecimalType (d : t) : option (Z * Z) :=
  match type d with DecimalType _ p s => Some (p, s) | _ => None end.
End ColumnDesc.

Definition of_TColumnDesc (d : TColumnDesc) : ColumnDesc.t :=
  ColumnDesc.make (columnName d) (TTypeDescToColumnType (typeDesc d)) (tposition d) (tcomment d).

(** * Theorems *)

(** RETURN_NOT_OK and [TStatusToStatus] agree on what success is. *)
Lemma TStatusToStatus_ok s : Status.ok (TStatusToStatus s) = succeeded s.
Proof.
  unfold TStatusToStatus, succeeded.
  destruct (statusCode s =? SUCCESS_STATUS)%Z; [done|].
  destruct (statusCode s =? SUCCESS_WITH_INFO_STATUS)%Z; [done|].
  destruct (statusCode s =? STILL_EXECUTING_STATUS)%Z; [done|].
  destruct (statusCode s =? ERROR_STATUS)%Z; [done|].
  by destruct (statusCode s =? INVALID_HANDLE_STATUS)%Z.
Qed.

(** The type identifier tells the class of a converted type, so the casts of
    [ColumnDesc] guarded by it are defined. *)
Lemma converted_casts d :
  let c := of_TColumnDesc d in
  (is_Some (ColumnDesc.GetCharacterType c) ↔
     type_id (ColumnDesc.type c) = CHAR ∨ type_id (ColumnDesc.type c) = VARCHAR) ∧
  (is_Some (ColumnDesc.GetDecimalType c) ↔ type_id (ColumnDesc.type c) = DECIMAL).
Proof.
  unfold of_TColumnDesc, TTypeDescToColumnType. cbv zeta. cbn [ColumnDesc.type].
  destruct (typeDesc d) as [|[[e|]] [|]];
    try (generalize (TTypeIdToTypeId (type_ e)), (qualifiers e !! CHARACTER_MAXIMUM_LENGTH),
           (qualifiers e !! PRECISION), (qualifiers e !! SCALE); intros [] [] [] []);
    split; split; cbv -[is_Some];
    first [by intros [? [=]]|by intros [[=]|[=]]|by intros [=]|by intros _; eexists|by eauto].
Qed.
