(* ===== verification/HsColumns.v ===== *)
(** * Columns: columnar-row-set.h/.cc and python/hs2client/converters.h

    The typed columns of a fetched batch and their conversion to numpy arrays. Numpy's
    allocations are taken to succeed; an array is the list of its elements. The interning
    of equal strings is not modelled: they are immutable. *)

From Stdlib Require Import Floats.SpecFloat.
From S2P Require Import Prelude PyStr PyUtf8 HsTypes.

(** ** Numbers

    IEEE 754 numbers in round to nearest even, those of the Standard Library; one NaN. *)
Definition float : Type := spec_float.
Definition double : Type := spec_float.

Definition round_to (prec emax : Z) (x : spec_float) : spec_float :=
  match x with
  | S754_finite s m e => binary_normalize prec emax (if s then Zneg m else Zpos m) e s
  | _ => x
  end.
Definition float_of_int (z : Z) : float := binary_normalize 24 128 z 0 false.
Definition float_of_double (x : double) : float := round_to 24 128 x.
Definition double_of_float (x : float) : double := round_to 53 1024 x.

(** The macro has type [float]. *)
Definition NAN : float := S754_nan.
Definition nan : double := double_of_float NAN.

Definition bytes : Type := list N.

(** ** The Thrift column: a union *)
Inductive TColumn :=
| boolVal (values : list bool) (nulls : bytes)
| byteVal (values : list Z) (nulls : bytes)
| i16Val (values : list Z) (nulls : bytes)
| i32Val (values : list Z) (nulls : bytes)
| i64Val (values : list Z) (nulls : bytes)
| doubleVal (values : list double) (nulls : bytes)
| stringVal (values : list bytes) (nulls : bytes)
| binaryVal (values : list bytes) (nulls : bytes).

(** ** Typed columns *)
Record Column (A : Type) := TypedColumn { nulls_ : bytes; data : list A }.
Arguments TypedColumn {A} nulls_ data.
Arguments nulls_ {A} c : rename.
Arguments data {A} c : rename.

(** [nulls_[i / 8] & (1 << (i % 8))]; [nulls_] is the [c_str()] of the bitmap, so one zero
    byte follows it, and there is nothing to read behind that. *)
Definition IsNull {A} (c : Column A) (i : nat) : res pyexn bool :=
  match (nulls_ c ++ [0%N]) !! (i / 8) with
  | Some b => Ok (N.testbit b (N.of_nat (i mod 8)))
  | None => Raise Undefined
  end.

(** The members of a union that are not set are empty. *)
Section getters.
Definition BoolColumn (col : TColumn) : Column bool :=
  match col with boolVal v n => TypedColumn n v | _ => TypedColumn [] [] end.
Definition ByteColumn (col : TColumn) : Column Z :=
  match col with byteVal v n => TypedColumn n v | _ => TypedColumn [] [] end.
Definition Int16Column (col : TColumn) : Column Z :=
  match col with i16Val v n => TypedColumn n v | _ => TypedColumn [] [] end.
Definition Int32Column (col : TColumn) : Column Z :=
  match col with i32Val v n => TypedColumn n v | _ => TypedColumn [] [] end.
Definition Int64Column (col : TColumn) : Column Z :=
  match col with i64Val v n => TypedColumn n v | _ => TypedColumn [] [] end.
Definition DoubleColumn (col : TColumn) : Column double :=
  match col with doubleVal v n => TypedColumn n v | _ => TypedColumn [] [] end.
Definition StringColumn (col : TColumn) : Column bytes :=
  match col with stringVal v n => TypedColumn n v | _ => TypedColumn [] [] end.
(** The same type as [StringColumn], hence the same getter. *)
Definition BinaryColumn : TColumn → Column bytes := StringColumn.

Definition ColumnarRowSet : Type := list TColumn.

(** [GetCol<T>(i)]; reading behind the columns is undefined. *)
Definition GetCol {A} (T : TColumn → Column A) (rows : ColumnarRowSet) (i : nat)
    : res pyexn (Column A) :=
  match rows !! i with
  | Some col => Ok (T col)
  | None => Raise Undefined
  end.

(** [GetColumns] of converters.h *)
Fixpoint GetColumns {A} (T : TColumn → Column A) (batches : list ColumnarRowSet) (col_index : nat)
    : res pyexn (list (Column A)) :=
  match batches with
  | [] => Ok []
  | rows :: batches =>
      col ← GetCol T rows col_index;
      columns ← GetColumns T batches col_index;
      Ok (col :: columns)
  end.

(** ** Arrays *)
Inductive pyval :=
| VNone
| VBool (b : bool)
| VObj (o : pyobj).

Inductive npy_int := NPY_INT8 | NPY_INT16 | NPY_INT32 | NPY_INT64.
Inductive ndarray :=
| IntArray (t : npy_int) (l : list Z)
| BoolArray (l : list bool)
| DoubleArray (l : list double)
| FloatArray (l : list float)
| ObjectArray (l : list pyval).

(** ** The loops

    The first pass over integers and booleans copies values until it meets a null:
    [None] when it has. *)
Fixpoint copy_chunk {A} (col : Column A) (j : nat) (values : list A) : res pyexn (option (list A)) :=
  match values with
  | [] => Ok (Some [])
  | v :: values =>
      null ← IsNull col j;
      if (null : bool) then Ok None
      else rest ← copy_chunk col (S j) values; Ok (option_map (cons v) rest)
  end.

Fixpoint copy_until_null {A} (columns : list (Column A)) : res pyexn (option (list A)) :=
  match columns with
  | [] => Ok (Some [])
  | col :: columns =>
      vs ← copy_chunk col 0 (data col);
      match vs with
      | None => Ok None
      | Some vs => rest ← copy_until_null columns; Ok (option_map (app vs) rest)
      end
  end.

(** The loops that write [null] or the converted value. *)
Fixpoint fill_chunk {A B} (null : B) (f : A → res pyexn B) (col : Column A) (j : nat)
    (values : list A) : res pyexn (list B) :=
  match values with
  | [] => Ok []
  | v :: values =>
      is_null ← IsNull col j;
      x ← (if (is_null : bool) then Ok null else f v);
      rest ← fill_chunk null f col (S j) values;
      Ok (x :: rest)
  end.

Fixpoint fill {A B} (null : B) (f : A → res pyexn B) (columns : list (Column A))
    : res pyexn (list B) :=
  match columns with
  | [] => Ok []
  | col :: columns =>
      xs ← fill_chunk null f col 0 (data col);
      rest ← fill null f columns;
      Ok (xs ++ rest)
  end.

Definition ConvertInteger (t : npy_int) (T : TColumn → Column Z) (batches : list ColumnarRowSet)
    (col_index : nat) : res pyexn ndarray :=
  columns ← GetColumns T batches col_index;
  out ← copy_until_null columns;
  match out with
  | Some l => Ok (IntArray t l)
  | None =>
      (** [GetBit(nulls, j) ? NAN : col_data[j]] is a [float]. *)
      doubles ← fill (double_of_float NAN) (λ z, Ok (double_of_float (float_of_int z))) columns;
      Ok (DoubleArray doubles)
  end.

Definition ConvertBoolean (batches : list ColumnarRowSet) (col_index : nat) : res pyexn ndarray :=
  columns ← GetColumns BoolColumn batches col_index;
  out ← copy_until_null columns;
  match out with
  | Some l => Ok (BoolArray l)
  | None => objects ← fill VNone (λ b, Ok (VBool b)) columns; Ok (ObjectArray objects)
  end.

(** Text in Python 3, bytes in Python 2. *)
Definition make_pystring (PY2 : bool) (data : bytes) : res pyexn pyval :=
  o ← frombytes PY2 data; Ok (VObj o).

Definition ConvertString (PY2 : bool) (batches : list ColumnarRowSet) (col_index : nat)
    : res pyexn ndarray :=
  columns ← GetColumns StringColumn batches col_index;
  out ← fill VNone (make_pystring PY2) columns;
  Ok (ObjectArray out).

Definition ConvertFloat (batches : list ColumnarRowSet) (col_index : nat) : res pyexn ndarray :=
  columns ← GetColumns DoubleColumn batches col_index;
  out ← fill (float_of_double (double_of_float NAN)) (λ d, Ok (float_of_double d)) columns;
  Ok (FloatArray out).
Definition ConvertDouble (batches : list ColumnarRowSet) (col_index : nat) : res pyexn ndarray :=
  columns ← GetColumns DoubleColumn batches col_index;
  out ← fill (double_of_float NAN) Ok columns;
  Ok (DoubleArray out).

Definition ConvertColumnPandas (PY2 : bool) (batches : list ColumnarRowSet) (col_index : nat)
    (type : ColumnType) : res pyexn ndarray :=
  match type_id type with
  | BOOLEAN => ConvertBoolean batches col_index
  | TINYINT => ConvertInteger NPY_INT8 ByteColumn batches col_index
  | SMALLINT => ConvertInteger NPY_INT16 Int16Column batches col_index
  | INT => ConvertInteger NPY_INT32 Int32Column batches col_index
  | BIGINT => ConvertInteger NPY_INT64 Int64Column batches col_index
  | FLOAT => ConvertFloat batches col_index
  | DOUBLE => ConvertDouble batches col_index
  | STRING_ | TIMESTAMP | BINARY | ARRAY | MAP | STRUCT | UNION | USER_DEFINED | DECIMAL
  | VARCHAR | CHAR => ConvertString PY2 batches col_index
  | NULL_TYPE | DATE | INVALID => Raise NotImplementedError
  end.
End getters.

(** * Theorems *)

(** What becomes of an integer in a column with nulls. *)
Definition single_of_int (z : Z) : double := double_of_float (float_of_int z).

(** ** Cells

    What a column says: its values, with the null ones marked. *)
Definition bit {A} (c : Column A) (i : nat) : bool :=
  match IsNull c i with Ok b => b | Raise _ => false end.
Definition cells_from {A} (c : Column A) (j : nat) (values : list A) : list (option A) :=
  imap (λ i v, if bit c (j + i) then None else Some v) values.
Definition cells {A} (c : Column A) : list (option A) := cells_from c 0 (data c).
Definition all_cells {A} (columns : list (Column A)) : list (option A) :=
  concat (cells <$> columns).

(** The bitmap with its final zero byte covers the values. *)
Definition readable {A} (c : Column A) : bool :=
  (length (data c) <=? 8 * S (length (nulls_ c)))%nat.

Lemma IsNull_bit {A} (c : Column A) i :
  IsNull c i = if (i <? 8 * S (length (nulls_ c)))%nat then Ok (bit c i) else Raise Undefined.
Proof.
  unfold bit. destruct (Nat.ltb_spec i (8 * S (length (nulls_ c)))) as [Hi|Hi].
  - assert (is_Some ((nulls_ c ++ [0%N]) !! (i / 8))) as [b Hb].
    { apply lookup_lt_is_Some. rewrite length_app, Nat.add_1_r. apply Nat.Div0.div_lt_upper_bound. lia. }
    unfold IsNull. by rewrite Hb.
  - unfold IsNull. rewrite lookup_ge_None_2; [done|]. rewrite length_app, Nat.add_1_r. apply Nat.div_le_lower_bound; lia.
Qed.

Lemma cells_from_cons {A} (c : Column A) j v values :
  cells_from c j (v :: values)
  = (if bit c j then None else Some v) :: cells_from c (S j) values.
Proof.
  unfold cells_from. cbn [imap]. rewrite Nat.add_0_r. f_equal. apply imap_ext.
  intros i x _. cbn. by rewrite Nat.add_succ_r.
Qed.

(** The loops against the cells, on one chunk from position [j] on. *)
Lemma fill_chunk_spec {A B} (null : B) (f : A → B) (c : Column A) values : ∀ j,
  fill_chunk null (λ v, Ok (f v)) c j values
  = if decide (values = [] ∨ j + length values ≤ 8 * S (length (nulls_ c)))
    then Ok (from_option f null <$> cells_from c j values) else Raise Undefined.
Proof.
  induction values as [|v values IH]; intros j; [by rewrite decide_True by auto|].
  cbn [fill_chunk length]. rewrite cells_from_cons, IsNull_bit.
  destruct (Nat.ltb_spec j (8 * S (length (nulls_ c)))) as [Hj|Hj].
  2: { rewrite decide_False; [done|]. intros [[=]|H]; lia. }
  cbn [mbind res_bind]. rewrite IH.
  destruct (decide (j + S (length values) ≤ 8 * S (length (nulls_ c)))) as [Hl|Hl].
  - rewrite !decide_True by (right; lia). by destruct (bit c j).
  - rewrite (decide_False (P := v :: values = [] ∨ _)) by (intros [[=]|H]; lia).
    rewrite decide_False; [by destruct (bit c j)|].
    intros [->|H]; cbn in *; lia.
Qed.

Lemma copy_chunk_spec {A} (c : Column A) values : ∀ j,
  match copy_chunk c j values with
  | Ok (Some l) => cells_from c j values = Some <$> l ∧
                   (values = [] ∨ j + length values ≤ 8 * S (length (nulls_ c)))
  | Ok None => None ∈ cells_from c j values
  | Raise e => e = Undefined ∧ values ≠ [] ∧ ¬ j + length values ≤ 8 * S (length (nulls_ c))
  end.
Proof.
  induction values as [|v values IH]; intros j; [cbn; auto|]. cbn [copy_chunk length].
  rewrite cells_from_cons, IsNull_bit.
  destruct (Nat.ltb_spec j (8 * S (length (nulls_ c)))) as [Hj|Hj]; cbn [mbind res_bind].
  2: { split_and!; [done|done|lia]. }
  destruct (bit c j); [by left|]. specialize (IH (S j)).
  destruct (copy_chunk c (S j) values) as [[l|]|e]; cbn [option_map].
  - destruct IH as [-> [->|IH]]; (split; [done|right; cbn; lia]).
  - by right.
  - destruct IH as (->&_&IH). split_and!; [done|done|lia].
Qed.

Lemma readable_decide {A} (c : Column A) :
  bool_decide (data c = [] ∨ 0 + length (data c) ≤ 8 * S (length (nulls_ c))) = readable c.
Proof.
  unfold readable. destruct (Nat.leb_spec (length (data c)) (8 * S (length (nulls_ c)))).
  - apply bool_decide_eq_true. by right.
  - apply bool_decide_eq_false. intros [E|?]; [rewrite E in *; cbn in *|]; lia.
Qed.

(** The second pass: every cell written, or undefined behaviour. *)
Lemma fill_spec {A B} (null : B) (f : A → B) (columns : list (Column A)) :
  fill null (λ v, Ok (f v)) columns
  = if forallb readable columns then Ok (from_option f null <$> all_cells columns)
    else Raise Undefined.
Proof.
  induction columns as [|c columns IH]; [done|]. cbn [fill forallb]. rewrite fill_chunk_spec, IH.
  rewrite <- readable_decide. unfold all_cells. cbn [fmap list_fmap concat].
  rewrite fmap_app. case_decide as Hd; [|by rewrite bool_decide_eq_false_2].
  rewrite bool_decide_eq_true_2 by done. cbn. by destruct (forallb readable columns).
Qed.

(** The first pass: all values, if there is no null. *)
Lemma copy_spec {A} (columns : list (Column A)) :
  match copy_until_null columns with
  | Ok (Some l) => all_cells columns = Some <$> l ∧ forallb readable columns = true
  | Ok None => None ∈ all_cells columns
  | Raise e => e = Undefined ∧ forallb readable columns = false
  end.
Proof.
  induction columns as [|c columns IH]; [done|]. cbn [copy_until_null forallb].
  unfold all_cells. cbn [fmap list_fmap concat]. fold (all_cells columns).
  pose proof (copy_chunk_spec c (data c) 0) as Hc. rewrite <- readable_decide.
  destruct (copy_chunk c 0 (data c)) as [[l|]|e]; cbn [mbind res_bind].
  - destruct Hc as [Hc Hr]. unfold cells at 1. rewrite Hc, bool_decide_eq_true_2 by done.
    destruct (copy_until_null columns) as [[l'|]|e]; cbn [mbind res_bind option_map].
    + destruct IH as [-> ->]. by rewrite fmap_app.
    + apply elem_of_app. by right.
    + done.
  - apply elem_of_app. by left.
  - destruct Hc as (->&Hne&Hl). split; [done|].
    rewrite bool_decide_eq_false_2; [done|]. by intros [?|?].
Qed.

Lemma null_cell {A} (l : list (option A)) : None ∈ l → mapM id l = None.
Proof.
  induction l as [|x l IH]; [by intros ?%elem_of_nil|]. cbn.
  intros [<-|H]%elem_of_cons; [done|]. rewrite IH by done. by destruct x.
Qed.

Lemma full_cells {A} (l : list A) : mapM id (Some <$> l) = Some l.
Proof. induction l as [|x l IH]; [done|]. cbn. by rewrite IH. Qed.

(** ** What a server sends

    Bit [i mod 8] of byte [i / 8] of the bitmap is set when cell [i] is null. *)
Definition byte_of (bits : list bool) : N :=
  foldr (λ (b : bool) acc, 2 * acc + N.b2n b)%N 0%N bits.
Definition pack (bits : list bool) : bytes :=
  (λ k, byte_of (take 8 (drop (8 * k) bits))) <$> seq 0 ((length bits + 7) / 8).

Definition is_null {A} (o : option A) : bool := match o with None => true | Some _ => false end.
Definition wire {A} (filler : A) (l : list (option A)) : Column A :=
  TypedColumn (pack (is_null <$> l)) (default filler <$> l).

Lemma byte_of_bit bits k : N.testbit (byte_of bits) (N.of_nat k) = default false (bits !! k).
Proof.
  revert k; induction bits as [|b bits IH]; intros k; [by destruct k|]. cbn [byte_of foldr].
  destruct k as [|k]; [apply N.testbit_0_r|].
  rewrite Nat2N.inj_succ, N.testbit_succ_r. apply IH.
Qed.

Lemma pack_length bits : length bits ≤ 8 * length (pack bits).
Proof.
  unfold pack. rewrite length_fmap, length_seq.
  pose proof (Nat.div_mod (length bits + 7) 8 ltac:(lia)).
  pose proof (Nat.mod_upper_bound (length bits + 7) 8 ltac:(lia)). lia.
Qed.

Lemma pack_bit {A} bits (vs : list A) i :
  i < length bits → bit (TypedColumn (pack bits) vs) i = default false (bits !! i).
Proof.
  intros Hi. unfold bit, IsNull. cbn [nulls_].
  pose proof (Nat.div_mod i 8 ltac:(lia)) as Ed. pose proof (Nat.mod_upper_bound i 8 ltac:(lia)).
  assert (Hlt : i / 8 < (length bits + 7) / 8).
  { apply Nat.div_le_lower_bound; [lia|]. lia. }
  assert (Hb : (pack bits ++ [0%N]) !! (i / 8)
               = Some (byte_of (take 8 (drop (8 * (i / 8)) bits)))).
  { unfold pack. rewrite lookup_app_l by (by rewrite length_fmap, length_seq).
    rewrite list_lookup_fmap, lookup_seq_lt by done. done. }
  rewrite Hb, byte_of_bit, lookup_take_lt, lookup_drop by done. by rewrite <- Ed.
Qed.

Lemma wire_cells {A} (filler : A) l : cells (wire filler l) = l ∧ readable (wire filler l) = true.
Proof.
  split.
  - unfold cells, cells_from, wire at 2. cbn [data]. apply list_eq. intros i.
    rewrite list_lookup_imap, list_lookup_fmap. cbn [Nat.add].
    destruct (l !! i) as [x|] eqn:Ei; [|done]. cbn. f_equal.
    unfold wire. rewrite pack_bit by (rewrite length_fmap; by eapply lookup_lt_Some).
    rewrite list_lookup_fmap, Ei. by destruct x.
  - unfold readable, wire. cbn [data nulls_]. rewrite length_fmap. apply Nat.leb_le.
    pose proof (pack_length (is_null <$> l)) as Hp. rewrite length_fmap in Hp. lia.
Qed.

Lemma wire_all_cells {A} (filler : A) (ls : list (list (option A))) :
  all_cells (wire filler <$> ls) = concat ls ∧ forallb readable (wire filler <$> ls) = true.
Proof.
  unfold all_cells. induction ls as [|l ls [IH1 IH2]]; [done|]. cbn [fmap list_fmap concat forallb].
  destruct (wire_cells filler l) as [-> ->]. by rewrite IH1, IH2.
Qed.

(** ** The conversions *)
Section conversions.
Lemma GetColumns_spec {A} (T : TColumn → Column A) batches i :
  match GetColumns T batches i with
  | Ok columns => Forall2 (λ rows c, ∃ col, rows !! i = Some col ∧ c = T col) batches columns
  | Raise e => e = Undefined ∧ ∃ rows, rows ∈ batches ∧ rows !! i = None
  end.
Proof.
  induction batches as [|rows batches IH]; cbn [GetColumns]; [constructor|]. unfold GetCol.
  destruct (rows !! i) as [col|] eqn:E; cbn [mbind res_bind].
  2: { split; [done|]. exists rows. split; [by left|done]. }
  destruct (GetColumns T batches i) as [columns|e].
  - constructor; [by exists col|done].
  - destruct IH as (->&rows'&Hin&Hr). split; [done|]. exists rows'. split; [by right|done].
Qed.

(** C3: The two passes over an integer column, the optimistic one that gives up at the first
    null and the one that starts again with doubles, compute what one look at the cells of
    all batches would: the integers themselves if none is null, and otherwise doubles, with
    NaN for the nulls, and the integers rounded to single precision. The one condition is that in each batch the null bitmap, with the
    zero byte behind it, has a bit for every value; otherwise the behaviour is undefined. *)
Theorem convert_integer_cells t T batches i columns :
  GetColumns T batches i = Ok columns →
  ConvertInteger t T batches i
  = if forallb readable columns then
      Ok (match mapM id (all_cells columns) with
          | Some l => IntArray t l
          | None => DoubleArray (from_option single_of_int nan <$> all_cells columns)
          end)
    else Raise Undefined.
Proof.
  intros E. unfold ConvertInteger. rewrite E. cbn [mbind res_bind].
  pose proof (copy_spec columns) as Hc.
  destruct (copy_until_null columns) as [[l|]|e]; cbn [mbind res_bind].
  - destruct Hc as [-> ->]. by rewrite full_cells.
  - rewrite null_cell, fill_spec by done. by destruct (forallb readable columns).
  - by destruct Hc as [-> ->].
Qed.

Definition column_of {A} (mk : list A → bytes → TColumn) (filler : A) (l : list (option A))
    : TColumn := mk (data (wire filler l)) (nulls_ (wire filler l)).

(** One column in each of a number of batches. *)
Lemma column_of_columns {A} (mk : list A → bytes → TColumn) (T : TColumn → Column A) filler ls :
  (∀ v n, T (mk v n) = TypedColumn n v) →
  GetColumns T ((λ l, [column_of mk filler l]) <$> ls) 0 = Ok (wire filler <$> ls).
Proof.
  intros HT. induction ls as [|l ls IH]; [done|]. rewrite !fmap_cons. cbn [GetColumns].
  unfold GetCol. cbn [lookup list_lookup mbind res_bind]. rewrite IH. cbn [mbind res_bind].
  unfold column_of at 1. by rewrite HT.
Qed.


(** A column of type BINARY arrives in the binary member of the union, but is read
    from the string member, the type [BinaryColumn] being another name of [StringColumn]:
    whatever its values, nothing is left of them. *)
Theorem binary_values_lost PY2 (columns : list (list bytes * bytes)) :
  ConvertColumnPandas PY2 ((λ c, [binaryVal c.1 c.2]) <$> columns) 0 (PrimitiveType BINARY)
  = Ok (ObjectArray []).
Proof.
  unfold ConvertColumnPandas, ConvertString. cbn [type_id].
  assert (∃ cs, GetColumns StringColumn ((λ c, [binaryVal c.1 c.2]) <$> columns) 0 = Ok cs ∧
                fill VNone (make_pystring PY2) cs = Ok []) as (cs&->&Hf).
  { induction columns as [|c columns (cs&E&Hf)]; [by exists []|].
    exists (TypedColumn [] [] :: cs). rewrite fmap_cons. cbn [GetColumns]. unfold GetCol.
    cbn [lookup list_lookup mbind res_bind]. rewrite E. split; [done|]. cbn [fill]. by rewrite Hf. }
  cbn [mbind res_bind]. by rewrite Hf.
Qed.
End conversions.

Definition small_batches : list ColumnarRowSet := [[i64Val [1; 2]%Z [2%N]]; [i64Val [3]%Z []]].

Lemma convert_integer_cells_witness :
  ConvertInteger NPY_INT64 Int64Column small_batches 0
  = if forallb readable [TypedColumn [2%N] [1; 2]%Z; TypedColumn [] [3%Z]] then
      Ok (match mapM id (all_cells [TypedColumn [2%N] [1; 2]%Z; TypedColumn [] [3%Z]]) with
          | Some l => IntArray NPY_INT64 l
          | None => DoubleArray (from_option single_of_int nan <$>
                      all_cells [TypedColumn [2%N] [1; 2]%Z; TypedColumn [] [3%Z]])
          end)
    else Raise Undefined.
Proof.
  apply (convert_integer_cells NPY_INT64 Int64Column small_batches 0
           [TypedColumn [2%N] [1; 2]%Z; TypedColumn [] [3%Z]]).
  reflexivity.
Defined.

(** A bitmap cut short, as the comment in columnar-row-set.h says some servers send it. *)
Example short_bitmap :
  ConvertInteger NPY_INT8 ByteColumn [[byteVal (repeat 7%Z 17) [0%N]]] 0 = Raise Undefined.
Proof. vm_compute. reflexivity. Qed.

(** One null anywhere in a BIGINT or INT column and the other values lose all but their 24
    leading bits, though the array is one of doubles: 16777217 becomes 16777216, and the largest
    INT, 2147483647, becomes 2147483648. *)
Theorem null_rounds_integers filler PY2 :
  ConvertColumnPandas PY2 [[column_of i64Val filler [Some 16777217; None]%Z]] 0 (PrimitiveType BIGINT)
  = Ok (DoubleArray [single_of_int 16777216; nan]) ∧
  ConvertColumnPandas PY2 [[column_of i32Val filler [Some 2147483647; None]%Z]] 0 (PrimitiveType INT)
  = Ok (DoubleArray [single_of_int 2147483648; nan]) ∧
  ConvertColumnPandas PY2 [[column_of i64Val filler [Some 16777217]%Z]] 0 (PrimitiveType BIGINT)
  = Ok (IntArray NPY_INT64 [16777217%Z]).
Proof. by vm_compute. Qed.
