(* ===== verification/HsClient.v ===== *)
(** * hs2client's C++ core: services, sessions and operations

    service.cc, session.cc and operation.cc over an arbitrary server. A method of a C++
    class takes the object as a value and returns its [Status] with the object or the
    output parameters as they are afterwards. Objects are used only through the one
    pointer that owns them. *)

From S2P Require Import Prelude PyStr HsTypes HsColumns.

(** ** The Thrift library and the server behind it

    Sockets, transports and the generated RPC client are not part of the repository. [tstate]
    is everything on the other side: the network and the server. A call that throws a
    [TException] raises its [what()]. *)
Record TOpenSessionReq := { configuration : gmap str str; username : str }.

Class Thrift := {
  tstate : Type;
  transport : Type;
  TSessionHandle : Type;
  TOperationHandle : Type;
  (** A default constructed handle. *)
  no_session : TSessionHandle;
  no_operation : TOperationHandle;
  (** [TSocket], [TBufferedTransport], [TBinaryProtocol] and the client on top. *)
  new_transport : str → Z → Z → tstate → transport * tstate;
  (** The timeouts of the socket. *)
  setRecvTimeout : transport → Z → tstate → tstate;
  setSendTimeout : transport → Z → tstate → tstate;
  transport_isOpen : transport → tstate → bool;
  transport_open : transport → M tstate str unit;
  transport_close : transport → M tstate str unit;
  rpc_OpenSession : transport → TOpenSessionReq → M tstate str (TStatus * TSessionHandle);
  rpc_CloseSession : transport → TSessionHandle → M tstate str TStatus;
  rpc_ExecuteStatement : transport → TSessionHandle → str → gmap str str →
    M tstate str (TStatus * TOperationHandle);
  rpc_CancelOperation : transport → TOperationHandle → M tstate str TStatus;
  rpc_CloseOperation : transport → TOperationHandle → M tstate str TStatus;
  (** Operation state. *)
  rpc_GetOperationStatus : transport → TOperationHandle → M tstate str (TStatus * Z);
  rpc_GetLog : transport → TOperationHandle → M tstate str (TStatus * str);
  rpc_GetRuntimeProfile : transport → TOperationHandle → TSessionHandle →
    M tstate str (TStatus * str);
  rpc_GetResultSetMetadata : transport → TOperationHandle → M tstate str (TStatus * list TColumnDesc);
  (** Orientation and the largest number of rows; the rows, and whether there are more. *)
  rpc_FetchResults : transport → TOperationHandle → Z → Z → M tstate str (TStatus * ColumnarRowSet * bool);
  (** Time passes on the other side: a number of twentieths of a second. *)
  elapse : Z → tstate → tstate }.

Section client.
Context `{Thrift}.

(** What a method does up to a [return]: raising is an early return of a status. *)
Definition body (A : Type) : Type := M tstate Status.t A.

(** TRY_RPC_OR_RETURN *)
Definition try_rpc {A} (rpc : M tstate str A) : body A := λ w,
  match rpc w with
  | (Ok a, w) => (Ok a, w)
  | (Raise what, w) => (Raise (Status.Error what), w)
  end.
(** RETURN_NOT_OK *)
Definition return_not_ok (tstatus : TStatus) : body unit :=
  if succeeded tstatus then mret () else raiseM (TStatusToStatus tstatus).

(** The status returned, and what the caller sees: [old] after an early return. *)
Definition returning {A} (old : A) (m : body (Status.t * A)) : tstate → (Status.t * A) * tstate :=
  λ w, match m w with
       | (Ok r, w) => (r, w)
       | (Raise s, w) => ((s, old), w)
       end.

End client.

(** ** HS2ClientConfig: a map of options *)
Module HS2ClientConfig.
Definition SetOption (config_ : gmap str str) (key value : str) : gmap str str :=
  <[key := value]> config_.
(** What is returned, and [value_out] afterwards: [None] is a null pointer. *)
Definition GetOption (config_ : gmap str str) (key : str) (value_out : option str)
    : bool * option str :=
  match config_ !! key, value_out with
  | Some value, Some _ => (true, Some value)
  | _, _ => (false, value_out)
  end.
End HS2ClientConfig.

(** ** Operation *)
Module Operation.
Section methods.
Context `{Thrift}.

Record t := make {
  rpc : transport;
  handle : TOperationHandle;
  session_handle : TSessionHandle;
  open_ : bool }.

Definition new (rpc : transport) : t := make rpc no_operation no_session false.

Definition GetState (self : t) (out : State) : tstate → (Status.t * State) * tstate :=
  returning out (
    '(status, operationState) ← try_rpc (rpc_GetOperationStatus (rpc self) (handle self));
    return_not_ok status ;;
    mret (TStatusToStatus status, TOperationStateToOperationState operationState)).

Definition GetLog (self : t) (out : str) : tstate → (Status.t * str) * tstate :=
  returning out (
    '(status, log) ← try_rpc (rpc_GetLog (rpc self) (handle self));
    return_not_ok status ;;
    mret (TStatusToStatus status, log)).

Definition GetProfile (self : t) (out : str) : tstate → (Status.t * str) * tstate :=
  returning out (
    '(status, profile) ←
      try_rpc (rpc_GetRuntimeProfile (rpc self) (handle self) (session_handle self));
    return_not_ok status ;;
    mret (TStatusToStatus status, profile)).

Definition GetResultSetMetadata (self : t) (column_descs : list ColumnDesc.t)
    : tstate → (Status.t * list ColumnDesc.t) * tstate :=
  returning column_descs (
    '(status, columns) ← try_rpc (rpc_GetResultSetMetadata (rpc self) (handle self));
    return_not_ok status ;;
    mret (TStatusToStatus status, of_TColumnDesc <$> columns)).

(** The row set and the flag, the two output parameters. *)
Definition Fetch (self : t) (max_rows : Z) (orientation : FetchOrientation)
    (results : option ColumnarRowSet) (has_more_rows : bool)
    : tstate → (Status.t * (option ColumnarRowSet * bool)) * tstate :=
  returning (results, has_more_rows) (
    '(status, rows, hasMoreRows) ← try_rpc (rpc_FetchResults (rpc self) (handle self)
      (FetchOrientationToTFetchOrientation orientation) max_rows);
    return_not_ok status ;;
    mret (TStatusToStatus status, (Some rows, hasMoreRows))).

(** [Fetch] with two arguments. *)
Definition DEFAULT_MAX_ROWS : Z := 1024.
Definition FetchNext (self : t) (results : option ColumnarRowSet) (has_more_rows : bool)
    : tstate → (Status.t * (option ColumnarRowSet * bool)) * tstate :=
  Fetch self DEFAULT_MAX_ROWS NEXT results has_more_rows.

Definition Cancel (self : t) : tstate → (Status.t * unit) * tstate :=
  returning () (
    status ← try_rpc (rpc_CancelOperation (rpc self) (handle self));
    mret (TStatusToStatus status, ())).

Definition Close (self : t) : tstate → (Status.t * t) * tstate :=
  returning self (
    if negb (open_ self) then mret (Status.OK [], self) else
    status ← try_rpc (rpc_CloseOperation (rpc self) (handle self));
    return_not_ok status ;;
    mret (TStatusToStatus status, make (rpc self) (handle self) (session_handle self) false)).

Definition HasResultSet (self : t) : tstate → bool * tstate := λ w,
  let '((s, op_state), w) := GetState self UNKNOWN w in
  (if negb (Status.ok s) then false else bool_decide (op_state = FINISHED), w).

Definition IsColumnar (self : t) : bool := true.
End methods.
End Operation.

(** ** Session *)
Module Session.
Section methods.
Context `{Thrift}.

Record t := make { rpc : transport; handle : TSessionHandle; open_ : bool }.

Definition new (rpc : transport) : t := make rpc no_session false.

Definition Close (self : t) : tstate → (Status.t * t) * tstate :=
  returning self (
    if negb (open_ self) then mret (Status.OK [], self) else
    status ← try_rpc (rpc_CloseSession (rpc self) (handle self));
    return_not_ok status ;;
    mret (TStatusToStatus status, make (rpc self) (handle self) false)).

Definition Open (self : t) (config : gmap str str) (user : str)
    : tstate → (Status.t * t) * tstate :=
  returning self (
    '(status, sessionHandle) ←
      try_rpc (rpc_OpenSession (rpc self) {| configuration := config; username := user |});
    return_not_ok status ;;
    mret (TStatusToStatus status, make (rpc self) sessionHandle true)).

(** [ExecuteStatementOperation::Open] *)
Definition open_operation (op : Operation.t) (session_handle : TSessionHandle) (statement : str)
    (config : gmap str str) : tstate → (Status.t * Operation.t) * tstate :=
  returning op (
    '(status, operationHandle) ←
      try_rpc (rpc_ExecuteStatement (Operation.rpc op) session_handle statement config);
    return_not_ok status ;;
    mret (TStatusToStatus status,
          Operation.make (Operation.rpc op) operationHandle session_handle true)).

(** The new operation is the caller's even if it could not be opened. *)
Definition ExecuteStatement (self : t) (statement : str) (conf_overlay : gmap str str)
    : tstate → (Status.t * Operation.t) * tstate :=
  open_operation (Operation.new (rpc self)) (handle self) statement conf_overlay.
End methods.
End Session.

(** ** Service *)
Module Service.
Section methods.
Context `{Thrift}.

Record t := make {
  host_ : str; port_ : Z; conn_timeout_ : Z;
  protocol_version : Z;
  (** Socket, transport and client: none before [Open]. *)
  rpc : option transport }.

Definition new (host : str) (port conn_timeout : Z) (protocol_version : ProtocolVersion) : t :=
  make host port conn_timeout (ProtocolVersionToTProtocolVersion protocol_version) None.

Definition Open (self : t) : tstate → (Status.t * t) * tstate := λ w,
  if (protocol_version self <? HIVE_CLI_SERVICE_PROTOCOL_V6)%Z then
    ((Status.Error (py "Unsupported protocol: " ++ str_of_Z (protocol_version self)), self), w)
  else
    let '(c, w) := new_transport (host_ self) (port_ self) (conn_timeout_ self) w in
    let self := make (host_ self) (port_ self) (conn_timeout_ self) (protocol_version self) (Some c) in
    returning self (try_rpc (transport_open c) ;; mret (Status.OK [], self)) w.

Definition Connect (host : str) (port conn_timeout : Z) (protocol_version : ProtocolVersion)
    : tstate → (Status.t * t) * tstate :=
  Open (new host port conn_timeout protocol_version).

Definition IsConnected (self : t) (w : tstate) : bool :=
  match rpc self with Some c => transport_isOpen c w | None => false end.

Definition Close (self : t) : tstate → (Status.t * unit) * tstate := λ w,
  match rpc self with
  | Some c =>
      if transport_isOpen c w
      then returning () (try_rpc (transport_close c) ;; mret (Status.OK [], ())) w
      else ((Status.OK [], ()), w)
  | None => ((Status.OK [], ()), w)
  end.

(** [None]: there is no socket to set it on. *)
Definition SetRecvTimeout (self : t) (timeout : Z) : option (tstate → tstate) :=
  c ← rpc self; Some (setRecvTimeout c timeout).
Definition SetSendTimeout (self : t) (timeout : Z) : option (tstate → tstate) :=
  c ← rpc self; Some (setSendTimeout c timeout).

(** [None]: there is no client to call. *)
Definition OpenSession (self : t) (user : str) (config : gmap str str)
    : option (tstate → (Status.t * Session.t) * tstate) :=
  c ← rpc self; Some (Session.Open (Session.new c) config user).
End methods.
End Service.

(** * Theorems *)

(** The status a method returns for an RPC, and the answer if it succeeded. *)
Definition answered {A} (r : res str (TStatus * A)) : Status.t * option A :=
  match r with
  | Ok (st, a) => (TStatusToStatus st, if succeeded st then Some a else None)
  | Raise what => (Status.Error what, None)
  end.

Lemma answered_ok {A} (r : res str (TStatus * A)) :
  Status.ok (answered r).1 = bool_decide (is_Some (answered r).2).
Proof.
  destruct r as [[st a]|what]; cbn; [|done]. rewrite TStatusToStatus_ok.
  destruct (succeeded st); symmetry.
  - by apply bool_decide_eq_true_2.
  - apply bool_decide_eq_false_2. by intros [? [=]].
Qed.

(** A method whose body is one RPC. *)
Lemma returning_rpc `{Thrift} {A B} (old : B) (rpc : M tstate str (TStatus * A))
    (f : A → B) w :
  returning old (
    '(status, a) ← try_rpc rpc;
    return_not_ok status ;;
    mret (TStatusToStatus status, f a)) w
  = let r := answered (rpc w).1 in ((r.1, from_option f old r.2), (rpc w).2).
Proof.
  unfold returning, try_rpc, return_not_ok. unfold mbind, M_bind.
  destruct (rpc w) as [[[st a]|what] w']; [|done]. cbn. by destruct (succeeded st).
Qed.

(** For an RPC that answers with a status alone. *)
Definition bare {S} (rpc : M S str TStatus) : M S str (TStatus * unit) := λ w,
  match rpc w with
  | (Ok st, w) => (Ok (st, ()), w)
  | (Raise what, w) => (Raise what, w)
  end.

Lemma returning_bare `{Thrift} {B} (old new : B) (rpc : M tstate str TStatus) w :
  returning old (
    status ← try_rpc rpc;
    return_not_ok status ;;
    mret (TStatusToStatus status, new)) w
  = let r := answered (bare rpc w).1 in
    ((r.1, match r.2 with Some _ => new | None => old end), (bare rpc w).2).
Proof.
  unfold returning, try_rpc, return_not_ok, bare. unfold mbind, M_bind.
  destruct (rpc w) as [[st|what] w']; [|done]. cbn. by destruct (succeeded st).
Qed.

(** A service that [Connect] returns has a client, connected or not. *)
Lemma Connect_rpc `{Thrift} host port timeout proto w :
  proto = PROTOCOL_V7 ∨ proto = PROTOCOL_V6 →
  ∃ c, Service.rpc (Service.Connect host port timeout proto w).1.2 = Some c.
Proof.
  intros Hp. unfold Service.Connect, Service.Open.
  replace (_ <? _)%Z with false by (by destruct Hp as [-> | ->]).
  cbn [Service.new Service.host_ Service.port_ Service.conn_timeout_].
  destruct (new_transport host port timeout w) as [c t]. exists c.
  unfold returning. unfold mbind, M_bind. by destruct (try_rpc (transport_open c) t) as [[]].
Qed.

(** [Fetch] with its three part answer. *)
Definition fetch_rpc `{Thrift} (o : Operation.t) (n orientation : Z)
    : M tstate str (TStatus * (ColumnarRowSet * bool)) := λ w,
  match rpc_FetchResults (Operation.rpc o) (Operation.handle o) orientation n w with
  | (Ok (st, rows, more), w) => (Ok (st, (rows, more)), w)
  | (Raise what, w) => (Raise what, w)
  end.

Section operations.
Context `{Thrift}.

Lemma Fetch_spec o n orientation results more w :
  let rpc := fetch_rpc o n (FetchOrientationToTFetchOrientation orientation) in
  Operation.Fetch o n orientation results more w
  = let r := answered (rpc w).1 in
    ((r.1, match r.2 with Some (rows, m) => (Some rows, m) | None => (results, more) end),
     (rpc w).2).
Proof.
  cbv zeta. unfold Operation.Fetch, fetch_rpc, returning, try_rpc, return_not_ok.
  unfold mbind, M_bind.
  destruct (rpc_FetchResults _ _ _ _ _) as [[[[st rows] m]|what] w']; [|done].
  cbn. by destruct (succeeded st).
Qed.

Lemma GetState_spec o out w :
  let rpc := rpc_GetOperationStatus (Operation.rpc o) (Operation.handle o) in
  Operation.GetState o out w
  = let r := answered (rpc w).1 in
    ((r.1, from_option TOperationStateToOperationState out r.2), (rpc w).2).
Proof. apply returning_rpc. Qed.

Lemma GetResultSetMetadata_spec o out w :
  let rpc := rpc_GetResultSetMetadata (Operation.rpc o) (Operation.handle o) in
  Operation.GetResultSetMetadata o out w
  = let r := answered (rpc w).1 in
    ((r.1, from_option (fmap of_TColumnDesc) out r.2), (rpc w).2).
Proof. apply returning_rpc. Qed.

Lemma ExecuteStatement_spec s statement conf w :
  let rpc := rpc_ExecuteStatement (Session.rpc s) (Session.handle s) statement conf in
  Session.ExecuteStatement s statement conf w
  = let r := answered (rpc w).1 in
    ((r.1, from_option (λ h, Operation.make (Session.rpc s) h (Session.handle s) true)
             (Operation.new (Session.rpc s)) r.2), (rpc w).2).
Proof. apply returning_rpc. Qed.

Lemma Operation_Close_spec o w :
  Operation.Close o w
  = if Operation.open_ o then
      let rpc := bare (rpc_CloseOperation (Operation.rpc o) (Operation.handle o)) in
      let r := answered (rpc w).1 in
      ((r.1, match r.2 with
             | Some _ => Operation.make (Operation.rpc o) (Operation.handle o)
                           (Operation.session_handle o) false
             | None => o
             end), (rpc w).2)
    else ((Status.OK [], o), w).
Proof. unfold Operation.Close. destruct (Operation.open_ o); [apply returning_bare|done]. Qed.

Lemma Session_Close_spec s w :
  Session.Close s w
  = if Session.open_ s then
      let rpc := bare (rpc_CloseSession (Session.rpc s) (Session.handle s)) in
      let r := answered (rpc w).1 in
      ((r.1, match r.2 with
             | Some _ => Session.make (Session.rpc s) (Session.handle s) false
             | None => s
             end), (rpc w).2)
    else ((Status.OK [], s), w).
Proof. unfold Session.Close. destruct (Session.open_ s); [apply returning_bare|done]. Qed.

(** [HasResultSet]: the server has answered, and the answer is FINISHED. *)
Lemma HasResultSet_spec o w :
  let rpc := rpc_GetOperationStatus (Operation.rpc o) (Operation.handle o) in
  Operation.HasResultSet o w
  = (bool_decide (TOperationStateToOperationState <$> (answered (rpc w).1).2 = Some FINISHED),
     (rpc w).2).
Proof.
  cbv zeta. unfold Operation.HasResultSet. rewrite GetState_spec. cbv zeta. cbn.
  rewrite answered_ok. destruct (answered _) as [s [z|]]; cbn.
  - f_equal. apply bool_decide_ext.
    split; [by intros ->|by intros [= ->]].
  - done.
Qed.
End operations.
