(* ===== verification/HsExt.v ===== *)
(** * ext.pyx: the Python binding

    The extension classes over the C++ core. Python objects are shared, so services,
    sessions and operations live in a store and methods take references into it; a
    [unique_ptr] member is an optional C++ object, and using an empty one is undefined.
    Every C++ call that can block or fail goes to the server of an arbitrary [Thrift]
    instance. *)

From S2P Require Import Prelude PyStr PyUtf8 HsTypes HsColumns HsClient.

(** ** The metadata classes

    [Schema], [ColumnDesc] and the [ColumnType] classes are views of C++ values. [PY2]:
    the major version of Python, for [frombytes]. *)
Section metadata.
Context (PY2 : bool).

(** The text of what [frombytes] returns, in a message or a format. *)
Definition text_of (o : pyobj) : str :=
  match o with Text s => s | Bytes b => b | NotText => [] end.

(** [base], and [subtype] for the classes that have one. *)
Inductive PyColumnType :=
| PyPrimitiveType (base : ColumnType)
| PyCharacterType (base : ColumnType) (max_length : Z)
| PyDecimalType (base : ColumnType) (precision scale : Z).

Definition base (t : PyColumnType) : ColumnType :=
  match t with PyPrimitiveType b | PyCharacterType b _ | PyDecimalType b _ _ => b end.

Definition type_name (t : PyColumnType) : res pyexn pyobj := frombytes PY2 (ToString (base t)).

Definition short_repr (t : PyColumnType) : res pyexn str :=
  name ← type_name t;
  match t with
  | PyPrimitiveType _ => Ok (text_of name)
  | PyCharacterType _ max_length =>
      Ok (text_of name ++ py "(" ++ str_of_Z max_length ++ py ")")
  | PyDecimalType _ precision scale =>
      Ok (text_of name ++ py "(" ++ str_of_Z precision ++ py ", " ++ str_of_Z scale ++ py ")")
  end.

Definition desc_name (d : ColumnDesc.t) : res pyexn pyobj := frombytes PY2 (ColumnDesc.column_name d).
Definition desc_position (d : ColumnDesc.t) : Z := ColumnDesc.position d.
Definition desc_comment (d : ColumnDesc.t) : res pyexn (option pyobj) :=
  if (length (ColumnDesc.comment d) =? 0)%nat then Ok None
  else o ← frombytes PY2 (ColumnDesc.comment d); Ok (Some o).

Definition desc_type (d : ColumnDesc.t) : res pyexn PyColumnType :=
  let type_ptr := ColumnDesc.type d in
  if bool_decide (type_id type_ptr = DECIMAL) then
    match ColumnDesc.GetDecimalType d with
    | Some (p, s) => Ok (PyDecimalType type_ptr p s)
    | None => Raise Undefined
    end
  else if bool_decide (type_id type_ptr = CHAR) || bool_decide (type_id type_ptr = VARCHAR) then
    match ColumnDesc.GetCharacterType d with
    | Some n => Ok (PyCharacterType type_ptr n)
    | None => Raise Undefined
    end
  else Ok (PyPrimitiveType type_ptr).

(** [repr] of a text is a parameter. *)
Definition desc_repr (repr : str → str) (d : ColumnDesc.t) : res pyexn str :=
  name ← desc_name d;
  type ← desc_type d;
  r ← short_repr type;
  Ok (py "HS2Column(name=" ++ text_of name ++ py ", type=" ++ repr r ++ py ")").

Definition Schema : Type := list ColumnDesc.t.

Definition ncolumns (s : Schema) : Z := Z.of_nat (length s).

Definition schema_column (s : Schema) (i : Z) : res pyexn ColumnDesc.t :=
  if (i <? 0)%Z || (Z.of_nat (length s) <=? i)%Z then
    Raise (UserException "IndexError"
      (py "Column index " ++ str_of_Z i ++ py " is out of bounds"))
  else match s !! Z.to_nat i with
       | Some d => Ok d
       | None => Raise Undefined
       end.
Definition schema_getitem : Schema → Z → res pyexn ColumnDesc.t := schema_column.
End metadata.

Definition operation_state_to_string (state : State) : str :=
  match state with
  | INITIALIZED => py "initialized"
  | RUNNING => py "running"
  | FINISHED => py "finished"
  | CANCELED => py "canceled"
  | CLOSED => py "closed"
  | ERROR => py "error"
  | PENDING => py "pending"
  | UNKNOWN => py "unknown"
  end.

Definition DEFAULT_BATCHSIZE : Z := 2 ^ 10.

(** A Python integer as a C [int]. *)
Definition c_int (z : Z) : res pyexn Z :=
  if (- 2 ^ 31 <=? z)%Z && (z <? 2 ^ 31)%Z then Ok z else Raise OverflowError.

(** A Python object as a [std::string]. *)
Definition c_string (o : pyobj) : res pyexn bytes :=
  match o with Bytes b => Ok b | _ => Raise TypeError end.

(** ** The objects *)
Section ext.
Context `{Thrift} (PY2 : bool).

Record PyService := {
  service : option Service.t;
  host : bytes; port : Z; user : bytes; proto_version : ProtocolVersion; timeout_ms : Z }.
Record PySession := { session : option Session.t; session_parent : nat }.
Record PyOperation := {
  op : option Operation.t;
  cached_metadata : option Schema;
  operation_parent : nat }.

(** The store, the other side, and how long the process has slept: in twentieths of a
    second. *)
Record pyworld := PyWorld {
  services : gmap nat PyService;
  sessions : gmap nat PySession;
  operations : gmap nat PyOperation;
  next_object : nat;
  remote : tstate;
  slept : Z }.

Definition pym (A : Type) : Type := M pyworld pyexn A.

Definition with_remote (t : tstate) (w : pyworld) : pyworld :=
  PyWorld (services w) (sessions w) (operations w) (next_object w) t (slept w).

(** A call into C++. *)
Definition cxx {A} (m : tstate → A * tstate) : pym A := λ w,
  let '(a, t) := m (remote w) in (Ok a, with_remote t w).

(** A use of a pointer that may be empty. *)
Definition deref {A} (p : option A) : pym A :=
  match p with Some a => mret a | None => raiseM Undefined end.

Definition get_service (r : nat) : pym PyService := w ← getM; deref (services w !! r).
Definition get_session (r : nat) : pym PySession := w ← getM; deref (sessions w !! r).
Definition get_operation (r : nat) : pym PyOperation := w ← getM; deref (operations w !! r).

Definition put_session (r : nat) (s : PySession) : pym unit := modifyM (λ w,
  PyWorld (services w) (<[ r := s ]> (sessions w)) (operations w) (next_object w) (remote w) (slept w)).
Definition put_operation (r : nat) (o : PyOperation) : pym unit := modifyM (λ w,
  PyWorld (services w) (sessions w) (<[ r := o ]> (operations w)) (next_object w) (remote w) (slept w)).

Definition new_service (s : PyService) : pym nat := λ w,
  (Ok (next_object w), PyWorld (<[ next_object w := s ]> (services w)) (sessions w) (operations w)
                         (S (next_object w)) (remote w) (slept w)).
Definition new_session (s : PySession) : pym nat := λ w,
  (Ok (next_object w), PyWorld (services w) (<[ next_object w := s ]> (sessions w)) (operations w)
                         (S (next_object w)) (remote w) (slept w)).
Definition new_operation (o : PyOperation) : pym nat := λ w,
  (Ok (next_object w), PyWorld (services w) (sessions w) (<[ next_object w := o ]> (operations w))
                         (S (next_object w)) (remote w) (slept w)).

(** [m], with [cleanup] when it raises: an object that is garbage then. *)
Definition on_error {A} (m : pym A) (cleanup : pym unit) : pym A := λ w,
  match m w with
  | (Raise e, w) => (Raise e, (cleanup w).2)
  | r => r
  end.

Definition NativeException (msg : str) : pyexn := UserException "NativeException" msg.

Definition check_status (status : Status.t) : pym unit :=
  if Status.ok status then mret ()
  else
    c_message ← liftM (frombytes PY2 (Status.GetMessage status));
    raiseM (NativeException (py "C++ error: " ++ text_of c_message)).

(** time.sleep, of a number of twentieths of a second *)
Definition sleep (n : Z) : pym unit := modifyM (λ w,
  PyWorld (services w) (sessions w) (operations w) (next_object w) (elapse n (remote w)) (slept w + n)).

(** *** Service *)

(** [Service.close] of an object; [service] stays, closed. *)
Definition close_service (self : PyService) : pym unit :=
  match service self with
  | Some sp => '(status, _) ← cxx (Service.Close sp); check_status status
  | None => mret ()
  end.

(** An exception in [__dealloc__] is not propagated. *)
Definition ignore_error (m : pym unit) : pym unit := λ w, (Ok (), (m w).2).

Definition Service_cinit (host_ : pyobj) (port_ : Z) (user_ : pyobj) (protocol : str)
    (timeout_ms_ : Z) : pym nat :=
  let protocol := upper protocol in
  proto ← (if str_eqb protocol (py "V7") then mret PROTOCOL_V7
           else if str_eqb protocol (py "V6") then mret PROTOCOL_V6
           else raiseM NotImplementedError);
  host_ ← liftM (b ← tobytes PY2 host_; c_string b);
  port_ ← liftM (c_int port_);
  user_ ← liftM (b ← tobytes PY2 user_; c_string b);
  timeout_ms_ ← liftM (c_int timeout_ms_);
  '(status, sp) ← cxx (Service.Connect host_ port_ timeout_ms_ proto);
  let self := {| service := Some sp; host := host_; port := port_; user := user_;
                 proto_version := proto; timeout_ms := timeout_ms_ |} in
  on_error (check_status status) (ignore_error (close_service self)) ;;
  new_service self.

Definition Service_close (r : nat) : pym unit := self ← get_service r; close_service self.

Definition is_connected (r : nat) : pym bool :=
  self ← get_service r;
  sp ← deref (service self);
  w ← getM;
  mret (Service.IsConnected sp (remote w)).

(** *** Session *)
Definition close_session (self : PySession) : pym PySession :=
  match session self with
  | Some sp =>
      '(status, sp) ← cxx (Session.Close sp);
      check_status status ;;
      mret {| session := Some sp; session_parent := session_parent self |}
  | None => mret self
  end.

Definition open_session (r : nat) : pym nat :=
  self ← get_service r;
  sp ← deref (service self);
  m ← deref (Service.OpenSession sp (user self) ∅);
  '(status, s) ← cxx m;
  let session := {| session := Some s; session_parent := r |} in
  on_error (check_status status) (ignore_error (close_session session ;; mret ())) ;;
  new_session session.

Definition Session_close (r : nat) : pym unit :=
  self ← get_session r;
  self ← close_session self;
  put_session r self.

(** *** Operation *)
Definition close_operation (self : PyOperation) : pym PyOperation :=
  match op self with
  | Some optr =>
      '(status, optr) ← cxx (Operation.Close optr);
      check_status status ;;
      mret {| op := Some optr; cached_metadata := cached_metadata self;
              operation_parent := operation_parent self |}
  | None => mret self
  end.

Definition execute (r : nat) (statement : pyobj) : pym nat :=
  self ← get_session r;
  c_statement ← liftM (b ← tobytes PY2 statement; c_string b);
  sp ← deref (session self);
  '(status, o) ← cxx (Session.ExecuteStatement sp c_statement ∅);
  let operation := {| op := Some o; cached_metadata := None; operation_parent := r |} in
  on_error (check_status status) (ignore_error (close_operation operation ;; mret ())) ;;
  new_operation operation.

Definition Operation_close (r : nat) : pym unit :=
  self ← get_operation r;
  self ← close_operation self;
  put_operation r self.

Definition get_op (r : nat) : pym Operation.t := self ← get_operation r; deref (op self).

Definition cancel (r : nat) : pym unit :=
  o ← get_op r;
  '(status, _) ← cxx (Operation.Cancel o);
  check_status status.

Definition get_state (r : nat) : pym str :=
  o ← get_op r;
  (** [state] is not initialised; it is read only after a success. *)
  '(status, state) ← cxx (Operation.GetState o UNKNOWN);
  check_status status ;;
  mret (operation_state_to_string state).

Definition get_log (r : nat) : pym pyobj :=
  o ← get_op r;
  '(status, log) ← cxx (Operation.GetLog o []);
  check_status status ;;
  liftM (frombytes PY2 log).

Definition get_profile (r : nat) : pym pyobj :=
  o ← get_op r;
  '(status, profile) ← cxx (Operation.GetProfile o []);
  check_status status ;;
  liftM (frombytes PY2 profile).

Definition is_finished (r : nat) : pym bool := o ← get_op r; cxx (Operation.HasResultSet o).

(** The loop of [wait]: the last interval and the time slept so far, in twentieths. *)
Fixpoint wait_loop (fuel : nat) (r : nat) (timeout_seconds interval total_sleep : Z) : pym unit :=
  match fuel with
  | O => raiseM Diverges
  | S fuel =>
      finished ← is_finished r;
      if (finished : bool) then mret ()
      else
        let interval := (interval * 2)%Z in
        sleep interval ;;
        let total_sleep := (total_sleep + interval)%Z in
        if (0 <? timeout_seconds)%Z && (20 * timeout_seconds <? total_sleep)%Z
        then raiseM (UserException "Exception" (py "Operation timed out"))
        else wait_loop fuel r timeout_seconds interval total_sleep
  end.

Definition wait (fuel : nat) (r : nat) (timeout_seconds : Z) : pym unit :=
  finished ← is_finished r;
  if (finished : bool) then mret ()
  else
    sleep 1 ;;
    wait_loop fuel r timeout_seconds 1 1.

Definition execute_sync (fuel : nat) (r : nat) (statement : pyobj) : pym nat :=
  o ← execute r statement;
  wait fuel o 0 ;;
  mret o.

Definition schema (r : nat) : pym Schema :=
  self ← get_operation r;
  match cached_metadata self with
  | Some metadata => mret metadata
  | None =>
      o ← deref (op self);
      '(status, metadata) ← cxx (Operation.GetResultSetMetadata o []);
      check_status status ;;
      put_operation r {| op := op self; cached_metadata := Some metadata;
                         operation_parent := operation_parent self |} ;;
      mret metadata
  end.

(** The [while] loop of [fetchall_internal]. *)
Fixpoint fetch_loop (fuel : nat) (r : nat) (c_batchsize : Z) : pym (list ColumnarRowSet) :=
  match fuel with
  | O => raiseM Diverges
  | S fuel =>
      o ← get_op r;
      '(status, (data, has_more_rows)) ← cxx (Operation.Fetch o c_batchsize NEXT None true);
      check_status status ;;
      (** A success has set [data]. *)
      row_set ← deref data;
      if (has_more_rows : bool) then
        batches ← fetch_loop fuel r c_batchsize; mret (row_set :: batches)
      else mret [row_set]
  end.

Definition fetchall_internal (fuel : nat) (r : nat) (batchsize : option Z)
    : pym (list ColumnarRowSet) :=
  c_batchsize ← match batchsize with
                | Some b => liftM (c_int b)
                | None => mret DEFAULT_BATCHSIZE
                end;
  fetch_loop fuel r c_batchsize.

(** *** DataFrames

    pandas and [decimal.Decimal] are parameters. *)
Section pandas.
Context (datetimes decimal : Type) (to_datetime : ndarray → res pyexn datetimes)
  (Decimal_ : pyval → res pyexn decimal).

Inductive frame_column :=
| FArray (a : ndarray)
| FDatetimes (d : datetimes)
| FDecimals (l : list (option decimal)).

Fixpoint convert_decimals (arr : list pyval) : res pyexn (list (option decimal)) :=
  match arr with
  | [] => Ok []
  | VNone :: arr => l ← convert_decimals arr; Ok (None :: l)
  | x :: arr => d ← Decimal_ x; l ← convert_decimals arr; Ok (Some d :: l)
  end.

(** The buffer argument of [_convert_decimals] has to be an object array. *)
Definition _convert_decimals (a : ndarray) : res pyexn (list (option decimal)) :=
  match a with ObjectArray arr => convert_decimals arr | _ => Raise (ValueError []) end.

(** One round of the loop over the columns. *)
Definition convert_column (c_row_sets : list ColumnarRowSet) (schema : Schema) (i : nat)
    : res pyexn (pyobj * frame_column) :=
  d ← schema_column schema (Z.of_nat i);
  col_name ← desc_name PY2 d;
  let col_type := ColumnDesc.type d in
  result ← ConvertColumnPandas PY2 c_row_sets i col_type;
  if bool_decide (type_id col_type = TIMESTAMP) then
    result ← to_datetime result; Ok (col_name, FDatetimes result)
  else if bool_decide (type_id col_type = DECIMAL) then
    result ← _convert_decimals result; Ok (col_name, FDecimals result)
  else Ok (col_name, FArray result).

(** [d[k] = v] on a dictionary, kept in insertion order. *)
Fixpoint dict_set (k : pyobj) (v : frame_column) (d : list (pyobj * frame_column))
    : list (pyobj * frame_column) :=
  match d with
  | [] => [(k, v)]
  | (k', v') :: d => if decide (k = k') then (k, v) :: d else (k', v') :: dict_set k v d
  end.

Fixpoint convert_columns (c_row_sets : list ColumnarRowSet) (schema : Schema) (indices : list nat)
    (column_names : list pyobj) (converted_columns : list (pyobj * frame_column))
    : res pyexn (list (pyobj * frame_column) * list pyobj) :=
  match indices with
  | [] => Ok (converted_columns, column_names)
  | i :: indices =>
      '(col_name, result) ← convert_column c_row_sets schema i;
      convert_columns c_row_sets schema indices (column_names ++ [col_name])
        (dict_set col_name result converted_columns)
  end.

(** The arguments of [pd.DataFrame(converted_columns, columns=column_names)]. *)
Definition fetchall_pandas (fuel : nat) (r : nat) (batchsize : option Z)
    : pym (list (pyobj * frame_column) * list pyobj) :=
  batches ← fetchall_internal fuel r batchsize;
  schema ← schema r;
  liftM (convert_columns batches schema (seq 0 (length schema)) [] []).
End pandas.

(** *** The end of the objects

    [__dealloc__] closes what is still open; then the object is gone. *)
Definition dealloc_operation (r : nat) : pym unit :=
  self ← get_operation r;
  ignore_error (close_operation self ;; mret ()) ;;
  modifyM (λ w, PyWorld (services w) (sessions w) (delete r (operations w)) (next_object w)
                  (remote w) (slept w)).
Definition dealloc_session (r : nat) : pym unit :=
  self ← get_session r;
  ignore_error (close_session self ;; mret ()) ;;
  modifyM (λ w, PyWorld (services w) (delete r (sessions w)) (operations w) (next_object w)
                  (remote w) (slept w)).
Definition dealloc_service (r : nat) : pym unit :=
  self ← get_service r;
  ignore_error (close_service self) ;;
  modifyM (λ w, PyWorld (delete r (services w)) (sessions w) (operations w) (next_object w)
                  (remote w) (slept w)).

(** *** [hs2client.connect] of __init__.py; [environ_user] is [os.environ.get('USER')]. *)
Definition connect (environ_user host : pyobj) (port : Z) (user : option pyobj) (protocol : str)
    : pym nat :=
  let user := match user with None => environ_user | Some user => user end in
  Service_cinit host port user protocol 0.
End ext.
