(* ===== verification/HsDemo.v ===== *)
(** * A scripted server

    A concrete [Thrift] instance, on which definitions can be run: the other side is a list
    of replies, and every call takes the next one. When there is none left, the
    connection is lost. Time changes nothing. *)

From S2P Require Import Prelude PyStr HsTypes HsColumns HsClient.

Record reply := {
  reply_status : Z;
  reply_number : Z;
  reply_rows : ColumnarRowSet;
  reply_more : bool;
  reply_columns : list TColumnDesc }.

(** Success, an operation state or a handle, rows, and a failure. *)
Definition state_reply (n : Z) : reply := {|
  reply_status := SUCCESS_STATUS; reply_number := n; reply_rows := []; reply_more := false;
  reply_columns := [] |}.
Definition rows_reply (rows : ColumnarRowSet) (more : bool) : reply := {|
  reply_status := SUCCESS_WITH_INFO_STATUS; reply_number := 0; reply_rows := rows;
  reply_more := more; reply_columns := [] |}.
Definition columns_reply (columns : list TColumnDesc) : reply := {|
  reply_status := SUCCESS_STATUS; reply_number := 0; reply_rows := []; reply_more := false;
  reply_columns := columns |}.
Definition error_reply : reply := {|
  reply_status := ERROR_STATUS; reply_number := 0; reply_rows := []; reply_more := false;
  reply_columns := [] |}.

Definition lost : str := py "No more data to read.".

Definition status_of (r : reply) : TStatus := {|
  statusCode := reply_status r; infoMessages := []; errorMessage := py "scripted" |}.

(** The status and one part of the next reply. *)
Definition next_reply {A} (f : reply → A) : M (list reply) str A := λ w,
  match w with
  | [] => (Raise lost, [])
  | r :: w => (Ok (f r), w)
  end.

#[export] Instance scripted : Thrift := {|
  tstate := list reply;
  transport := unit;
  TSessionHandle := Z;
  TOperationHandle := Z;
  no_session := 0;
  no_operation := 0;
  new_transport := λ _ _ _ w, ((), w);
  setRecvTimeout := λ _ _ w, w;
  setSendTimeout := λ _ _ w, w;
  transport_isOpen := λ _ w, bool_decide (w ≠ []);
  transport_open := λ _, next_reply (λ _, ());
  transport_close := λ _, next_reply (λ _, ());
  rpc_OpenSession := λ _ _, next_reply (λ r, (status_of r, reply_number r));
  rpc_CloseSession := λ _ _, next_reply status_of;
  rpc_ExecuteStatement := λ _ _ _ _, next_reply (λ r, (status_of r, reply_number r));
  rpc_CancelOperation := λ _ _, next_reply status_of;
  rpc_CloseOperation := λ _ _, next_reply status_of;
  rpc_GetOperationStatus := λ _ _, next_reply (λ r, (status_of r, reply_number r));
  rpc_GetLog := λ _ _, next_reply (λ r, (status_of r, []));
  rpc_GetRuntimeProfile := λ _ _ _, next_reply (λ r, (status_of r, []));
  rpc_GetResultSetMetadata := λ _ _, next_reply (λ r, (status_of r, reply_columns r));
  rpc_FetchResults := λ _ _ _ _, next_reply (λ r, (status_of r, reply_rows r, reply_more r));
  elapse := λ _ w, w |}%Z.
