(* ===== verification/HsExtFacts.v ===== *)
(** * ext.pyx: fetching and waiting

    Statements hold for every [Thrift] instance: for every server and network. The concrete
    runs at the end use the scripted server of HsDemo. *)

From S2P Require Import Prelude PyStr PyUtf8 HsTypes HsColumns HsClient HsDemo HsExt.

Section facts.
Context `{Thrift} (PY2 : bool).

(** ** The monad *)
Lemma remote_with_remote t w : remote (with_remote t w) = t.
Proof. done. Qed.
Lemma with_remote_twice t t' w : with_remote t' (with_remote t w) = with_remote t' w.
Proof. done. Qed.
Lemma with_remote_same w : with_remote (remote w) w = w.
Proof. by destruct w. Qed.

Lemma bind_cxx {A B} (m : tstate → A * tstate) (f : A → pym B) w :
  (cxx m ≫= f) w = f (m (remote w)).1 (with_remote (m (remote w)).2 w).
Proof. unfold cxx, mbind, M_bind. by destruct (m (remote w)). Qed.

(** The exception for a status that is not OK. *)
Definition native_error (s : Status.t) : pyexn :=
  match frombytes PY2 (Status.GetMessage s) with
  | Ok c_message => NativeException (py "C++ error: " ++ text_of c_message)
  | Raise e => e
  end.

Lemma check_status_spec s w :
  check_status PY2 s w = (if Status.ok s then Ok () else Raise (native_error s), w).
Proof.
  unfold check_status, native_error, liftM, mbind, M_bind. destruct (Status.ok s); [done|].
  by destruct (frombytes PY2 (Status.GetMessage s)).
Qed.

Lemma bind_check_status {A} s (f : () → pym A) w :
  (check_status PY2 s ≫= f) w = if Status.ok s then f () w else (Raise (native_error s), w).
Proof. unfold mbind, M_bind. rewrite check_status_spec. by destruct (Status.ok s). Qed.

(** The usual sequel of an RPC. *)
Lemma bind_check_answered {A B} (r : res str (TStatus * A)) (f : () → pym B) w :
  (check_status PY2 (answered r).1 ≫= f) w
  = match (answered r).2 with
    | Some _ => f () w
    | None => (Raise (native_error (answered r).1), w)
    end.
Proof.
  rewrite bind_check_status, answered_ok. by destruct (answered r) as [s [a|]].
Qed.

(** An operation object with a live C++ operation. *)
Definition has_op (w : pyworld) (r : nat) (o : Operation.t) : Prop :=
  ∃ p, operations w !! r = Some p ∧ op p = Some o.

Lemma bind_get_op {B} r o (f : Operation.t → pym B) w :
  has_op w r o → (get_op r ≫= f) w = f o w.
Proof.
  intros (p&Hp&Ho). unfold get_op, get_operation, getM, mbind, M_bind. cbn.
  rewrite Hp. cbn. by rewrite Ho.
Qed.

Lemma has_op_remote t w r o : has_op w r o → has_op (with_remote t w) r o.
Proof. done. Qed.

(** ** Fetching *)

(** The server hands out batches [l], the last one marked as such. *)
Inductive fetches (o : Operation.t) (n : Z) : tstate → list ColumnarRowSet → tstate → Prop :=
| fetches_last t st rows t' :
    fetch_rpc o n 0 t = (Ok (st, (rows, false)), t') → succeeded st = true →
    fetches o n t [rows] t'
| fetches_more t st rows t' l t'' :
    fetch_rpc o n 0 t = (Ok (st, (rows, true)), t') → succeeded st = true →
    fetches o n t' l t'' → fetches o n t (rows :: l) t''.

(** It does so for a while, and then a call ends with the status [s]. *)
Inductive fetch_fails (o : Operation.t) (n : Z) : tstate → Status.t → tstate → nat → Prop :=
| fails_now t t' :
    (answered (fetch_rpc o n 0 t).1).2 = None → (fetch_rpc o n 0 t).2 = t' →
    fetch_fails o n t (answered (fetch_rpc o n 0 t).1).1 t' 1
| fails_later t st rows t' s t'' k :
    fetch_rpc o n 0 t = (Ok (st, (rows, true)), t') → succeeded st = true →
    fetch_fails o n t' s t'' k → fetch_fails o n t s t'' (S k).

Lemma fetch_loop_step fuel r n w o :
  has_op w r o →
  let rpc := fetch_rpc o n 0 (remote w) in
  fetch_loop PY2 (S fuel) r n w
  = match (answered rpc.1).2 with
    | None => (Raise (native_error (answered rpc.1).1), with_remote rpc.2 w)
    | Some (rows, false) => (Ok [rows], with_remote rpc.2 w)
    | Some (rows, true) =>
        (batches ← fetch_loop PY2 fuel r n; mret (rows :: batches)) (with_remote rpc.2 w)
    end.
Proof.
  intros Ho. cbv zeta. cbn [fetch_loop]. rewrite (bind_get_op _ _ _ _ Ho), bind_cxx, Fetch_spec.
  cbn [FetchOrientationToTFetchOrientation]. cbv zeta. cbn [fst snd].
  set (a := fetch_rpc o n 0 (remote w)).
  destruct (answered a.1).2 as [[rows more]|] eqn:E; rewrite bind_check_answered, E; [|done].
  by destruct more.
Qed.

Lemma answered_success {A} (st : TStatus) (a : A) :
  succeeded st = true → (answered (Ok (st, a))).2 = Some a.
Proof. intros Hs. cbn. by rewrite Hs. Qed.

Lemma fetch_loop_complete r n o : ∀ t l t', fetches o n t l t' → ∀ fuel w,
  has_op w r o → remote w = t → length l ≤ fuel →
  fetch_loop PY2 fuel r n w = (Ok l, with_remote t' w).
Proof.
  induction 1 as [t st rows t' E Hs|t st rows t' l t'' E Hs _ IH]; intros fuel w Ho Hw Hf;
    (destruct fuel as [|fuel]; [cbn in Hf; lia|]);
    rewrite (fetch_loop_step _ _ _ _ _ Ho), Hw, E; cbn [fst snd];
    rewrite answered_success by done; [done|].
  unfold mbind, M_bind. rewrite (IH fuel (with_remote t' w)); [done|done|done|cbn in Hf; lia].
Qed.

Lemma fetch_loop_fails r n o : ∀ t s t' k, fetch_fails o n t s t' k → ∀ fuel w,
  has_op w r o → remote w = t → k ≤ fuel →
  fetch_loop PY2 fuel r n w = (Raise (native_error s), with_remote t' w).
Proof.
  induction 1 as [t t' E <-|t st rows t' s t'' k E Hs _ IH]; intros fuel w Ho Hw Hf;
    (destruct fuel as [|fuel]; [lia|]); rewrite (fetch_loop_step _ _ _ _ _ Ho), Hw.
  - by rewrite E.
  - rewrite E; cbn [fst snd]. rewrite answered_success by done. unfold mbind, M_bind.
    rewrite (IH fuel (with_remote t' w)); [done|done|done|lia].
Qed.

Lemma fetch_loop_sound r n o : ∀ fuel w l w',
  has_op w r o → fetch_loop PY2 fuel r n w = (Ok l, w') →
  fetches o n (remote w) l (remote w') ∧ w' = with_remote (remote w') w.
Proof.
  induction fuel as [|fuel IH]; intros w l w' Ho; [done|]. rewrite (fetch_loop_step _ _ _ _ _ Ho).
  destruct (fetch_rpc o n 0 (remote w)) as [[[st [rows more]]|what] t'] eqn:E; cbn; [|done].
  destruct (succeeded st) eqn:Hs; [|done]. destruct more.
  - unfold mbind, M_bind. destruct (fetch_loop PY2 fuel r n _) as [[l'|e] w1] eqn:E1; [|done].
    intros [= <- <-]. apply IH in E1 as [H1 ->]; [|done]. split; [|done].
    eapply fetches_more; [exact E|done|exact H1].
  - intros [= <- <-]. split; [|done]. eapply fetches_last; [exact E|done].
Qed.

(** C2: [fetchall_internal] asks for the next batch, [batchsize] rows (1024 if none is
    given) at a time, until the server says there are no more, and returns all of the
    batches in order: it returns [l] exactly if the server's answers are [l]. If a call
    fails, that status is raised as a NativeException and nothing more is asked; a batch
    size that is no C int is refused before the first call. Only the other side changes. *)
Theorem fetchall_batches r batchsize w o :
  has_op w r o →
  match (match batchsize with Some b => c_int b | None => Ok 1024%Z end) with
  | Raise e => ∀ fuel, fetchall_internal PY2 fuel r batchsize w = (Raise e, w)
  | Ok n =>
      (∀ l t', fetches o n (remote w) l t' → ∀ fuel, length l ≤ fuel →
         fetchall_internal PY2 fuel r batchsize w = (Ok l, with_remote t' w)) ∧
      (∀ s t' k, fetch_fails o n (remote w) s t' k → ∀ fuel, k ≤ fuel →
         fetchall_internal PY2 fuel r batchsize w = (Raise (native_error s), with_remote t' w)) ∧
      (∀ fuel l w', fetchall_internal PY2 fuel r batchsize w = (Ok l, w') →
         fetches o n (remote w) l (remote w') ∧ w' = with_remote (remote w') w)
  end.
Proof.
  intros Ho. unfold fetchall_internal, liftM.
  destruct batchsize as [b|]; [destruct (c_int b) as [n|e]|]; [| |]; cbn beta iota;
    try (intros fuel; done).
  all: split_and!;
    [intros l t' Hl fuel Hf; rewrite ?M_bind_ok, ?M_bind_ret; by eapply fetch_loop_complete
    |intros s t' k Hl fuel Hf; rewrite ?M_bind_ok, ?M_bind_ret; by eapply fetch_loop_fails
    |intros fuel l w'; rewrite ?M_bind_ok, ?M_bind_ret; by apply fetch_loop_sound].
Qed.
(** ** Waiting

    [before o k t] is the other side when [wait] asks for the state for the [k]-th time,
    counting from 0: before it lie [k] questions and pauses of 1, 2, 4, ... twentieths of
    a second, 2 ^ k - 1 in all. *)
Fixpoint before (o : Operation.t) (k : nat) (t : tstate) : tstate :=
  match k with
  | O => t
  | S k => elapse (2 ^ Z.of_nat k) (Operation.HasResultSet o (before o k t)).2
  end.

Definition finished_at (o : Operation.t) (k : nat) (t : tstate) : bool :=
  (Operation.HasResultSet o (before o k t)).1.

Definition paused (k : nat) : Z := 2 ^ Z.of_nat k - 1.

(** The world when the [k]-th question is asked, and when it has been answered. *)
Definition asking (o : Operation.t) (k : nat) (w : pyworld) : pyworld :=
  PyWorld (services w) (sessions w) (operations w) (next_object w)
    (before o k (remote w)) (slept w + paused k).
Definition asked (o : Operation.t) (k : nat) (w : pyworld) : pyworld :=
  with_remote (Operation.HasResultSet o (before o k (remote w))).2 (asking o k w).

Definition timed_out {A} : res pyexn A :=
  Raise (UserException "Exception" (py "Operation timed out")).

Lemma paused_S k : paused (S k) = (paused k + 2 ^ Z.of_nat k)%Z.
Proof. unfold paused. rewrite Nat2Z.inj_succ, Z.pow_succ_r by lia. lia. Qed.

Lemma bind_is_finished {B} r o k (f : bool → pym B) w :
  has_op w r o →
  (is_finished r ≫= f) (asking o k w) = f (finished_at o k (remote w)) (asked o k w).
Proof.
  intros Ho. assert (is_finished r (asking o k w) = (Ok (finished_at o k (remote w)), asked o k w)) as E.
  { unfold is_finished. rewrite (bind_get_op _ o) by done. unfold cxx. cbn [remote asking].
    unfold asked, finished_at. by destruct (Operation.HasResultSet o _). }
  unfold mbind, M_bind. by rewrite E.
Qed.

Lemma sleep_asked {B} o k (f : () → pym B) w :
  (sleep (2 ^ Z.of_nat k) ≫= f) (asked o k w) = f () (asking o (S k) w).
Proof.
  unfold sleep, modifyM. unfold mbind, M_bind. cbn -[Z.pow before paused]. unfold asking.
  rewrite paused_S, Z.add_assoc. reflexivity.
Qed.

Lemma wait_start fuel r T w o :
  has_op w r o →
  wait fuel r T w
  = if finished_at o 0 (remote w) then (Ok (), asked o 0 w)
    else wait_loop fuel r T (2 ^ Z.of_nat 0) (paused 1) (asking o 1 w).
Proof.
  intros Ho. unfold wait.
  assert (asking o 0 w = w) as E0 by (destruct w; unfold asking; cbn; by rewrite Z.add_0_r).
  rewrite <- E0 at 1. rewrite (bind_is_finished _ o) by done. destruct (finished_at _ _ _); [done|].
  by rewrite (sleep_asked o 0).
Qed.

Lemma wait_loop_step fuel r T w o k :
  has_op w r o →
  wait_loop (S fuel) r T (2 ^ Z.of_nat k) (paused (S k)) (asking o (S k) w)
  = if finished_at o (S k) (remote w) then (Ok (), asked o (S k) w)
    else if (0 <? T)%Z && (20 * T <? paused (S (S k)))%Z
    then (timed_out, asking o (S (S k)) w)
    else wait_loop fuel r T (2 ^ Z.of_nat (S k)) (paused (S (S k))) (asking o (S (S k)) w).
Proof.
  intros Ho. cbn [wait_loop]. rewrite (bind_is_finished _ o) by done.
  destruct (finished_at _ _ _); [done|]. rewrite (Z.mul_comm _ 2), <- Z.pow_succ_r, <- Nat2Z.inj_succ by lia.
  rewrite sleep_asked, <- paused_S. by destruct (_ && _).
Qed.

(** In time for the [k]-th question: there is no limit, or the pauses before it are not
    longer than it. The first pause is not checked. *)
Definition in_time (T : Z) (k : nat) : Prop := (T ≤ 0)%Z ∨ k ≤ 1 ∨ (paused k ≤ 20 * T)%Z.

Lemma in_time_pred T k : in_time T (S k) → in_time T k.
Proof.
  intros [?|[?|Hp]]; [by left|right; left; lia|]. right; right. rewrite paused_S in Hp.
  pose proof (Z.pow_nonneg 2 (Z.of_nat k)). lia.
Qed.

Lemma in_time_check T k :
  in_time T (S (S k)) ↔ ((0 <? T)%Z && (20 * T <? paused (S (S k)))%Z) = false.
Proof.
  rewrite andb_false_iff, Z.ltb_ge, Z.ltb_ge. unfold in_time. split.
  - intros [?|[?|?]]; [by left|lia|by right].
  - intros [?|?]; [by left|by right; right].
Qed.

(** The loop, from the question [S k] on, while the answers are no and there is time. *)
Lemma wait_loop_skip r T w o k : has_op w r o →
  ∀ n fuel, (∀ j, k ≤ j < k + n → finished_at o (S j) (remote w) = false) →
  in_time T (S (k + n)) →
  wait_loop (n + fuel) r T (2 ^ Z.of_nat k) (paused (S k)) (asking o (S k) w)
  = wait_loop fuel r T (2 ^ Z.of_nat (k + n)) (paused (S (k + n))) (asking o (S (k + n)) w).
Proof.
  intros Ho n. revert k. induction n as [|n IH]; intros k fuel Hno Hin; [by rewrite Nat.add_0_r|].
  cbn [Nat.add]. rewrite wait_loop_step, (Hno k) by (done || lia).
  rewrite <- Nat.add_succ_comm in Hin |- *.
  assert (in_time T (S (S k))) as ->%in_time_check.
  { clear -Hin. induction n as [|n IH]; [by rewrite Nat.add_0_r in Hin|].
    apply IH, in_time_pred. by rewrite <- Nat.add_succ_r. }
  apply IH; [|done]. intros j Hj. apply Hno. lia.
Qed.

Lemma wait_skip r T w o n : has_op w r o → (∀ j, j ≤ n → finished_at o j (remote w) = false) →
  in_time T (S n) → ∀ fuel,
  wait (n + fuel) r T w
  = wait_loop fuel r T (2 ^ Z.of_nat n) (paused (S n)) (asking o (S n) w).
Proof.
  intros Ho Hno Hin fuel. rewrite (wait_start _ _ _ _ o), (Hno 0) by (done || lia).
  apply (wait_loop_skip r T w o 0); [done| |done]. intros j Hj. apply Hno. lia.
Qed.

Lemma wait_finishes r T w o k :
  has_op w r o → finished_at o k (remote w) = true →
  (∀ j, j < k → finished_at o j (remote w) = false) → in_time T k →
  ∀ fuel, k ≤ fuel → wait fuel r T w = (Ok (), asked o k w).
Proof.
  intros Ho Hk Hno Hin fuel Hf. destruct k as [|k]; [by rewrite (wait_start _ _ _ _ o), Hk|].
  replace fuel with (k + S (fuel - S k)) by lia.
  rewrite (wait_skip _ _ _ o) by (done || intros; apply Hno; lia). by rewrite wait_loop_step, Hk.
Qed.

Lemma wait_times_out r T w o k :
  has_op w r o → (∀ j, j ≤ k → finished_at o j (remote w) = false) →
  in_time T k → ¬ in_time T (S k) →
  ∀ fuel, k ≤ fuel → wait fuel r T w = (timed_out, asking o (S k) w).
Proof.
  intros Ho Hno Hin Hout fuel Hf. destruct k as [|k]; [exfalso; apply Hout; right; left; lia|].
  replace fuel with (k + S (fuel - S k)) by lia.
  rewrite (wait_skip _ _ _ o) by (done || intros; apply Hno; lia).
  rewrite wait_loop_step, Hno by done.
  destruct ((0 <? T)%Z && _) eqn:E; [done|]. by apply in_time_check in E.
Qed.

(** C4: [wait] asks for the state, pauses 0.05 seconds, asks again, pauses twice as long,
    and so on. It returns at the first answer FINISHED that comes in time, having slept
    (2 ^ k - 1) / 20 seconds before the question with that answer. With a positive limit
    it raises 'Operation timed out' right after the first pause, but the very first, that
    takes the sum of all pauses over the limit. Without one and without the answer
    FINISHED it does not end - whatever else the server says: that the operation
    has failed or was cancelled or closed, or that it knows of no such operation. *)
Theorem wait_outcome r T w o :
  has_op w r o →
  (∀ k, finished_at o k (remote w) = true → (∀ j, j < k → finished_at o j (remote w) = false) →
     in_time T k → ∀ fuel, k ≤ fuel → wait fuel r T w = (Ok (), asked o k w)) ∧
  (∀ k, (∀ j, j ≤ k → finished_at o j (remote w) = false) → in_time T k → ¬ in_time T (S k) →
     ∀ fuel, k ≤ fuel → wait fuel r T w = (timed_out, asking o (S k) w)) ∧
  ((T ≤ 0)%Z → (∀ j, finished_at o j (remote w) = false) →
     ∀ fuel, (wait fuel r T w).1 = Raise Diverges).
Proof.
  intros Ho. split_and!.
  - intros k Hk Hno Hin. by apply wait_finishes.
  - intros k Hno Hin Hout. by apply wait_times_out.
  - intros HT Hno fuel. rewrite <- (Nat.add_0_r fuel), (wait_skip _ _ _ o); [done..|by left].
Qed.

(** A positive limit is passed at some question, so the call ends. *)
Lemma in_time_ends T : (0 < T)%Z → ∀ n, (20 * T < paused n)%Z →
  ∃ k, S k ≤ n ∧ in_time T k ∧ ¬ in_time T (S k).
Proof.
  intros HT. assert (in_time T 1) as H1 by (right; left; lia).
  induction n as [|n IH]; intros Hn; [unfold paused in Hn; cbn in Hn; lia|].
  destruct (Z.ltb_spec (20 * T) (paused n)) as [Hlt|Hge].
  - destruct (IH Hlt) as (k&?&?&?). exists k. split_and!; [lia|done..].
  - exists n. split_and!; [done|by right; right|].
    intros [?|[Hle|?]]; [lia| |lia]. assert (n = 0) as -> by lia. unfold paused in Hn. cbn in Hn. lia.
Qed.

Lemma first_true (f : nat → bool) n :
  (∃ k, k ≤ n ∧ f k = true ∧ ∀ j, j < k → f j = false) ∨ ∀ j, j ≤ n → f j = false.
Proof.
  induction n as [|n [(k&?&?&?)|IH]].
  - destruct (f 0) eqn:E; [left; exists 0; split_and!; [done|done|lia]|].
    right. intros j Hj. by replace j with 0 by lia.
  - left. exists k. split_and!; [lia|done|done].
  - destruct (f (S n)) eqn:E.
    + left. exists (S n). split_and!; [done|done|]. intros j Hj. apply IH. lia.
    + right. intros j Hj. destruct (decide (j = S n)) as [->|]; [done|]. apply IH. lia.
Qed.
Lemma in_time_downward T k j : in_time T k → j ≤ k → in_time T j.
Proof.
  intros Hin Hj. induction k as [|k IH]; [by replace j with 0 by lia|].
  destruct (decide (j = S k)) as [->|]; [done|]. apply IH; [by apply in_time_pred|lia].
Qed.

(** C16: With a positive limit of T seconds [wait] always comes back, after a number of
    questions that is logarithmic in T: normally, or with 'Operation timed out'. In
    all it sleeps at most 2 T + 0.05 seconds; when it times out, longer than T. The store
    of objects is untouched. *)
Theorem wait_bounded r T w o fuel :
  has_op w r o → (0 < T)%Z → (20 * T < 2 ^ Z.of_nat fuel - 1)%Z →
  let '(result, w') := wait fuel r T w in
  (result = Ok () ∨ result = timed_out ∧ (20 * T < slept w' - slept w)%Z) ∧
  (0 ≤ slept w' - slept w ≤ 40 * T + 1)%Z ∧
  w' = PyWorld (services w) (sessions w) (operations w) (next_object w) (remote w') (slept w').
Proof.
  intros Ho HT Hf. destruct (in_time_ends T HT fuel Hf) as (n&Hn&Hin&Hout).
  assert (∀ k, k ≤ n → (0 ≤ paused k)%Z ∧ (paused (S k) ≤ 40 * T + 1)%Z) as Hbound.
  { intros k Hk. pose proof (in_time_downward _ _ _ Hin Hk) as Hk'.
    rewrite paused_S. unfold paused in *. pose proof (Z.pow_pos_nonneg 2 (Z.of_nat k)).
    split; [lia|]. destruct Hk' as [?|[Hle|?]]; [lia| |unfold paused in *; lia].
    destruct k as [|[|]]; [cbn; lia..|lia]. }
  destruct (first_true (λ k, finished_at o k (remote w)) n) as [(k&Hk&Hyes&Hno)|Hno].
  - rewrite (wait_finishes r T w o k) by (eauto using in_time_downward || lia).
    cbn -[paused before Z.mul]. split_and!; [by left|..|done].
    all: destruct (Hbound k Hk) as [? Hp]; rewrite paused_S in Hp; unfold paused in *; lia.
  - rewrite (wait_times_out r T w o n) by (done || lia).
    cbn -[paused before Z.mul]. destruct (Hbound n) as [? Hp]; [done|].
    assert (20 * T < paused (S n))%Z as Hlate by (apply Z.nle_gt; intros ?; apply Hout; by right; right).
    split_and!; [right; split; [done|lia]|lia..|done].
Qed.
End facts.

(** ** Concrete runs *)
Definition open_sp : Session.t := Session.make () 1%Z true.
Definition open_session_ : PySession := {| session := Some open_sp; session_parent := 0 |}.
Definition open_op : Operation.t := Operation.make () 7%Z 1%Z true.
Definition open_operation_ : PyOperation := {|
  op := Some open_op; cached_metadata := None; operation_parent := 1 |}.

(** A service, a session and an operation of its, with a server that has a script. *)
Definition world_with (script : list reply) : pyworld := {|
  services := {[ 0 := {| service := Some (Service.make [] 0 0 6 (Some ())); host := []; port := 0;
                         user := []; proto_version := PROTOCOL_V7; timeout_ms := 0 |} ]};
  sessions := {[ 1 := open_session_ ]};
  operations := {[ 2 := open_operation_ ]};
  next_object := 3; remote := script; slept := 0 |}.

Lemma world_has_op script : has_op (world_with script) 2 open_op.
Proof. by eexists. Qed.

Definition batch (n : Z) : ColumnarRowSet := [i32Val [n] []].

Lemma fetchall_batches_witness :
  fetchall_internal false 2 2 None (world_with [rows_reply (batch 1) true; rows_reply (batch 2) false])
  = (Ok [batch 1; batch 2], world_with []).
Proof.
  refine (proj1 (fetchall_batches false 2 None _ open_op (world_has_op _)) [batch 1; batch 2] [] _ 2 (le_n 2)).
  eapply fetches_more; [reflexivity|reflexivity|]. by eapply fetches_last.
Defined.

(** Initialized, then running, then finished. *)
Lemma wait_outcome_witness :
  wait 2 2 0 (world_with [state_reply 0; state_reply 1; state_reply 2])
  = (Ok (), asked open_op 2 (world_with [state_reply 0; state_reply 1; state_reply 2])) ∧
  ∀ fuel, (wait fuel 2 0 (world_with [])).1 = Raise Diverges.
Proof.
  split.
  - refine (proj1 (wait_outcome 2 0 _ open_op (world_has_op _)) 2 _ _ _ 2 (le_n 2)); [done| |by left].
    intros [|[|j]] Hj; [done|done|lia].
  - refine (proj2 (proj2 (wait_outcome 2 0 _ open_op (world_has_op _))) _ _); [done|].
    intros j. assert (before open_op j (remote (world_with [])) = []) as E
      by (induction j as [|j IH]; [done|cbn [before]; by rewrite IH]).
    unfold finished_at. by rewrite E.
Defined.

(** An operation that has failed. *)
Definition failed_world : pyworld := world_with [state_reply 5].

Lemma wait_bounded_witness :
  let '(result, w') := wait 5 2 1 failed_world in
  (result = Ok () ∨ result = timed_out ∧ (20 * 1 < slept w' - slept failed_world)%Z) ∧
  (0 ≤ slept w' - slept failed_world ≤ 40 * 1 + 1)%Z ∧
  w' = PyWorld (services failed_world) (sessions failed_world) (operations failed_world)
         (next_object failed_world) (remote w') (slept w').
Proof.
  exact (wait_bounded 2 1 failed_world open_op 5 (world_has_op _) eq_refl eq_refl).
Defined.
