(* ===== verification/HsExtObjects.v ===== *)
(** * ext.pyx: the objects and what they stand for

    An invariant of the store over all sequences of calls, the life of a session and an
    operation, the cached schema, column descriptors, and the data frame of a result.
    Statements hold for every [Thrift] instance. *)

From S2P Require Import Prelude PyStr PyUtf8 HsTypes HsColumns HsClient HsDemo HsExt HsExtFacts.

Section objects.
Context `{Thrift} (PY2 : bool).

(** ** The invariant

    Every object has its C++ object, and its parent is still there and speaks over the
    same connection; an operation carries its parent's session handle. *)
Definition service_ok (s : PyService) : Prop :=
  ∃ sp c, service s = Some sp ∧ Service.rpc sp = Some c.

Definition session_ok (svs : gmap nat PyService) (s : PySession) : Prop :=
  ∃ sp sv svp, session s = Some sp ∧ svs !! session_parent s = Some sv ∧
    service sv = Some svp ∧ Service.rpc svp = Some (Session.rpc sp).

Definition operation_ok (ss : gmap nat PySession) (p : PyOperation) : Prop :=
  ∃ o s sp, op p = Some o ∧ ss !! operation_parent p = Some s ∧ session s = Some sp ∧
    Operation.rpc o = Session.rpc sp ∧
    (Operation.open_ o = true → Operation.session_handle o = Session.handle sp).

Record wf (w : pyworld) : Prop := {
  wf_services : map_Forall (λ r s, r < next_object w ∧ service_ok s) (services w);
  wf_sessions : map_Forall (λ r s, r < next_object w ∧ session_ok (services w) s) (sessions w);
  wf_operations :
    map_Forall (λ r p, r < next_object w ∧ operation_ok (sessions w) p) (operations w) }.

(** A postcondition of a call on a well-formed store; a call that raises leaves one, too,
    and has no undefined behaviour. *)
Definition wp {A} (m : pym A) (Q : A → pyworld → Prop) (w : pyworld) : Prop :=
  match m w with
  | (Ok a, w') => Q a w'
  | (Raise e, w') => e ≠ Undefined ∧ wf w'
  end.

Lemma wp_bind {A B} (m : pym A) (f : A → pym B) Q w :
  wp m (λ a, wp (f a) Q) w → wp (m ≫= f) Q w.
Proof. unfold wp at 1 3, mbind, M_bind. by destruct (m w) as [[a|e] w']. Qed.

Lemma wp_mono {A} (m : pym A) (Q Q' : A → pyworld → Prop) w :
  wp m Q w → (∀ a w', Q a w' → Q' a w') → wp m Q' w.
Proof. unfold wp. destruct (m w) as [[a|e] w']; auto. Qed.

Lemma wp_ret {A} (a : A) (Q : A → pyworld → Prop) w : Q a w → wp (mret a) Q w.
Proof. done. Qed.

Lemma wp_raise {A} e (Q : A → pyworld → Prop) w : e ≠ Undefined → wf w → wp (raiseM e) Q w.
Proof. done. Qed.

Lemma wp_lift {A} (r : res pyexn A) (Q : A → pyworld → Prop) w :
  r ≠ Raise Undefined → wf w → (∀ a, Q a w) → wp (liftM r) Q w.
Proof. intros Hr Hw HQ. unfold wp, liftM. destruct r; [done|]. split; [congruence|done]. Qed.

Lemma wp_get (Q : pyworld → pyworld → Prop) w : Q w w → wp getM Q w.
Proof. done. Qed.

Lemma wp_deref {A} (a : A) (Q : A → pyworld → Prop) w : Q a w → wp (deref (Some a)) Q w.
Proof. done. Qed.

Lemma wp_cxx {A} (m : tstate → A * tstate) (Q : A → pyworld → Prop) w :
  Q (m (remote w)).1 (with_remote (m (remote w)).2 w) → wp (cxx m) Q w.
Proof. unfold wp, cxx. by destruct (m (remote w)). Qed.

(** Texts and statuses raise Python exceptions only. *)
Lemma tobytes_defined o : (b ← tobytes PY2 o; c_string b) ≠ Raise Undefined.
Proof.
  destruct o as [s|b|]; cbn; [|done..].
  induction s as [|c s IH]; [done|]. cbn. destruct (encode_char PY2 c); [|done].
  by destruct (encode PY2 s).
Qed.

Lemma c_int_defined z : c_int z ≠ Raise Undefined.
Proof. unfold c_int. by destruct (_ && _). Qed.

Lemma decode_defined b : decode b ≠ Raise Undefined.
Proof.
  remember (length b) as n eqn:E. assert (length b ≤ n) as Hn by lia. clear E.
  revert b Hn. induction n as [|n IH]; intros [|a b] Hn; cbn in Hn; [done|lia|done|].
  assert (∀ c b', length b' ≤ n → (s ← decode b'; Ok (c :: s)) ≠ Raise Undefined) as Hk.
  { intros c b' Hb. specialize (IH b' Hb). by destruct (decode b'). }
  cbn [decode]. destruct (a <? 128)%N; [apply Hk; lia|]. destruct b as [|a1 b]; [done|].
  destruct (_ && _)%N; [destruct (cont a1); [apply Hk; cbn in Hn; lia|done]|].
  destruct b as [|a2 b]; [done|]. destruct (_ && _)%N.
  { cbv zeta. destruct (_ && _); [apply Hk; cbn in Hn; lia|done]. }
  destruct b as [|a3 b]; [done|]. cbv zeta.
  destruct (_ && _); [apply Hk; cbn in Hn; lia|done].
Qed.

Lemma frombytes_defined b : frombytes PY2 b ≠ Raise Undefined.
Proof.
  unfold frombytes. destruct PY2; [done|]. pose proof (decode_defined b) as Hd.
  destruct (decode b) as [s|e]; cbn; congruence.
Qed.

Lemma native_error_defined s : native_error PY2 s ≠ Undefined.
Proof.
  unfold native_error. pose proof (frombytes_defined (Status.GetMessage s)).
  destruct (frombytes _ _); [done|congruence].
Qed.

Lemma wp_check s (Q : () → pyworld → Prop) w :
  wf w → (Status.ok s = true → Q () w) → wp (check_status PY2 s) Q w.
Proof.
  intros Hw HQ. unfold wp. rewrite check_status_spec. destruct (Status.ok s); [by apply HQ|].
  split; [apply native_error_defined|done].
Qed.

(** *** Changes of the store *)
Lemma wf_remote t w : wf w → wf (with_remote t w).
Proof. by intros []. Qed.

Lemma session_ok_subseteq svs svs' s : svs ⊆ svs' → session_ok svs s → session_ok svs' s.
Proof.
  intros Hs (sp&sv&svp&?&?&?&?). exists sp, sv, svp. split_and!; [done| |done..].
  by eapply lookup_weaken.
Qed.

Lemma operation_ok_subseteq ss ss' p : ss ⊆ ss' → operation_ok ss p → operation_ok ss' p.
Proof.
  intros Hs (o&s&sp&?&?&?&?&?). exists o, s, sp. split_and!; [done| |done..].
  by eapply lookup_weaken.
Qed.

(** No object has the next number yet. *)
Lemma unused {A} (P : nat → A → Prop) (m : gmap nat A) n :
  map_Forall (λ r a, r < n ∧ P r a) m → m !! n = None.
Proof.
  intros Hm. destruct (m !! n) as [a|] eqn:E; [|done]. destruct (Hm _ _ E). lia.
Qed.

Lemma wf_new_service s w : wf w → service_ok s →
  wp (new_service s) (λ r w', wf w' ∧ services w' !! r = Some s) w.
Proof.
  intros [Hv Hs Ho] Hok. split; [split; cbn|apply lookup_insert_eq].
  - apply map_Forall_insert_2; [auto with lia|]. eapply map_Forall_impl; [exact Hv|].
    intros r s' []. auto with lia.
  - eapply map_Forall_impl; [exact Hs|]. intros r s' [? Hs']. split; [lia|].
    eapply session_ok_subseteq; [|exact Hs']. by apply insert_subseteq, (unused _ _ _ Hv).
  - eapply map_Forall_impl; [exact Ho|]. intros r s' []. auto with lia.
Qed.

Lemma wf_new_session s w : wf w → session_ok (services w) s →
  wp (new_session s) (λ r w', wf w' ∧ sessions w' !! r = Some s) w.
Proof.
  intros [Hv Hs Ho] Hok. split; [split; cbn|apply lookup_insert_eq].
  - eapply map_Forall_impl; [exact Hv|]. intros r s' []. auto with lia.
  - apply map_Forall_insert_2; [auto with lia|]. eapply map_Forall_impl; [exact Hs|].
    intros r s' []. auto with lia.
  - eapply map_Forall_impl; [exact Ho|]. intros r p [? Hp]. split; [lia|].
    eapply operation_ok_subseteq; [|exact Hp]. by apply insert_subseteq, (unused _ _ _ Hs).
Qed.

Lemma wf_new_operation p w : wf w → operation_ok (sessions w) p →
  wp (new_operation p) (λ r w', wf w' ∧ operations w' !! r = Some p) w.
Proof.
  intros [Hv Hs Ho] Hok. split; [split; cbn|apply lookup_insert_eq].
  - eapply map_Forall_impl; [exact Hv|]. intros r s' []. auto with lia.
  - eapply map_Forall_impl; [exact Hs|]. intros r s' []. auto with lia.
  - apply map_Forall_insert_2; [auto with lia|]. eapply map_Forall_impl; [exact Ho|].
    intros r s' []. auto with lia.
Qed.

(** Another state of the same session, or of the same operation. *)
Definition same_session (s s' : PySession) : Prop :=
  session_parent s' = session_parent s ∧ ∃ sp sp', session s = Some sp ∧ session s' = Some sp' ∧
    Session.rpc sp' = Session.rpc sp ∧ Session.handle sp' = Session.handle sp.
Definition same_operation (p p' : PyOperation) : Prop :=
  operation_parent p' = operation_parent p ∧ ∃ o o', op p = Some o ∧ op p' = Some o' ∧
    Operation.rpc o' = Operation.rpc o ∧ Operation.session_handle o' = Operation.session_handle o ∧
    (Operation.open_ o' = true → Operation.open_ o = true).

Lemma wf_put_session r s s' w : wf w → sessions w !! r = Some s → same_session s s' →
  wp (put_session r s') (λ _ w', wf w') w.
Proof.
  intros [Hv Hs Ho] Hr (Ep&sp&sp'&E1&E2&E3&E4). split; cbn; [done| |].
  - apply map_Forall_insert_2; [|done]. destruct (Hs _ _ Hr) as [? (sp0&sv&svp&E&?&?&?)].
    rewrite E1 in E. injection E as <-. split; [done|]. exists sp', sv, svp. rewrite Ep, E3. done.
  - intros i p Hi. destruct (Ho _ _ Hi) as [? (o&s0&sp0&?&Hl&E&?&Hh)]. split; [done|].
    destruct (decide (operation_parent p = r)) as [<-|Hne].
    + rewrite Hr in Hl. injection Hl as <-. rewrite E1 in E. injection E as <-.
      exists o, s', sp'. rewrite lookup_insert_eq, E3, E4. done.
    + exists o, s0, sp0. by rewrite lookup_insert_ne.
Qed.

Lemma wf_put_operation r p p' w : wf w → operations w !! r = Some p → same_operation p p' →
  wp (put_operation r p') (λ _ w', wf w') w.
Proof.
  intros [Hv Hs Ho] Hr (Ep&o&o'&E1&E2&E3&E4&E5). split; cbn; [done|done|].
  apply map_Forall_insert_2; [|done]. destruct (Ho _ _ Hr) as [? (o0&s&sp&E&?&?&?&Hh)].
  rewrite E1 in E. injection E as <-. split; [done|]. exists o', s, sp.
  rewrite Ep, E3, E4. split_and!; auto.
Qed.

(** *** The methods *)
Lemma wp_service r s (Q : PyService → pyworld → Prop) w :
  services w !! r = Some s → Q s w → wp (get_service r) Q w.
Proof. intros E HQ. unfold wp, get_service, getM, mbind, M_bind. by rewrite E. Qed.
Lemma wp_session r s (Q : PySession → pyworld → Prop) w :
  sessions w !! r = Some s → Q s w → wp (get_session r) Q w.
Proof. intros E HQ. unfold wp, get_session, getM, mbind, M_bind. by rewrite E. Qed.
Lemma wp_operation r p (Q : PyOperation → pyworld → Prop) w :
  operations w !! r = Some p → Q p w → wp (get_operation r) Q w.
Proof. intros E HQ. unfold wp, get_operation, getM, mbind, M_bind. by rewrite E. Qed.

(** A well-formed store with the operation [p] at [r]. *)
Definition at_op (r : nat) (p : PyOperation) (w : pyworld) : Prop :=
  wf w ∧ operations w !! r = Some p.

Lemma at_op_remote r p t w : at_op r p w → at_op r p (with_remote t w).
Proof. intros [Hw Hr]. split; [by apply wf_remote|done]. Qed.

Lemma wp_get_op r p (Q : Operation.t → pyworld → Prop) w :
  at_op r p w → (∀ o, op p = Some o → Q o w) → wp (get_op r) Q w.
Proof.
  intros [Hw Hr] HQ. destruct (wf_operations _ Hw _ _ Hr) as [_ (o&_&_&Ho&_)].
  apply wp_bind, (wp_operation _ p); [done|]. rewrite Ho. by apply wp_deref, HQ.
Qed.

(** A call that only asks the other side something. *)
Definition only_remote {A} (m : pym A) : Prop := ∀ w, ∃ t, (m w).2 = with_remote t w.

Lemma only_remote_close {A} (m : tstate → (Status.t * A) * tstate) {B} (f : A → B) :
  only_remote ('(status, a) ← cxx m; check_status PY2 status ;; mret (f a)).
Proof.
  intros w. rewrite bind_cxx. destruct (m (remote w)) as [[s a] t]. cbn.
  rewrite bind_check_status. exists t. by destruct (Status.ok s).
Qed.

Lemma wp_on_error s (cleanup : pym unit) (Q : () → pyworld → Prop) w :
  only_remote cleanup → wf w → (Status.ok s = true → Q () w) →
  wp (on_error (check_status PY2 s) cleanup) Q w.
Proof.
  intros Hc Hw HQ. unfold wp, on_error. rewrite check_status_spec.
  destruct (Status.ok s); [by apply HQ|]. split; [apply native_error_defined|].
  destruct (Hc w) as [t ->]. by apply wf_remote.
Qed.

Lemma only_remote_ignore (m : pym unit) : only_remote m → only_remote (ignore_error m).
Proof. intros Hm w. destruct (Hm w) as [t E]. by exists t. Qed.

Lemma only_remote_service s : only_remote (close_service PY2 s).
Proof.
  intros w. unfold close_service. destruct (service s) as [sp|].
  - rewrite bind_cxx. destruct (Service.Close sp (remote w)) as [[st u] t]. cbn.
    rewrite check_status_spec. by exists t.
  - exists (remote w). by rewrite with_remote_same.
Qed.

Lemma wp_is_finished r p (Q : bool → pyworld → Prop) w :
  at_op r p w → (∀ b t, Q b (with_remote t w)) → wp (is_finished r) Q w.
Proof.
  intros Hr HQ. apply wp_bind, (wp_get_op _ p); [done|]. intros o _. apply wp_cxx, HQ.
Qed.

Lemma wp_sleep {r p} n (Q : () → pyworld → Prop) w :
  at_op r p w → (∀ w', at_op r p w' → Q () w') → wp (sleep n) Q w.
Proof. intros [[] Hr] HQ. apply HQ. by split. Qed.

Lemma wp_wait_loop r p T : ∀ fuel interval total w,
  at_op r p w → wp (wait_loop fuel r T interval total) (λ _, wf) w.
Proof.
  induction fuel as [|fuel IH]; intros interval total w Hr; [by destruct Hr|].
  apply wp_bind, (wp_is_finished _ p); [done|]. intros b t. apply (at_op_remote _ _ t) in Hr.
  destruct b; [by destruct Hr|]. apply wp_bind, (wp_sleep (r := r) (p := p)); [done|].
  intros w' Hr'. cbv zeta. case_match; [by destruct Hr'|by apply IH].
Qed.

Lemma wp_wait r p T fuel w : at_op r p w → wp (wait fuel r T) (λ _, wf) w.
Proof.
  intros Hr. apply wp_bind, (wp_is_finished _ p); [done|]. intros b t.
  apply (at_op_remote _ _ t) in Hr. destruct b; [by destruct Hr|].
  apply wp_bind, (wp_sleep (r := r) (p := p)); [done|]. intros w' Hr'. by apply (wp_wait_loop _ p).
Qed.

Lemma wp_fetch_loop r p n : ∀ fuel w, at_op r p w → wp (fetch_loop PY2 fuel r n) (λ _, at_op r p) w.
Proof.
  induction fuel as [|fuel IH]; intros w Hr; [by destruct Hr|].
  apply wp_bind, (wp_get_op _ p); [done|]. intros o _. apply wp_bind, wp_cxx. rewrite Fetch_spec.
  cbv zeta. cbn [fst snd]. set (rpc := fetch_rpc o n _ _).
  apply (at_op_remote _ _ rpc.2) in Hr. destruct (answered rpc.1).2 as [[rows more]|] eqn:E.
  - apply wp_bind, wp_check; [by destruct Hr|]. intros _. apply wp_bind, wp_deref.
    destruct more; [|done]. apply wp_bind. eapply wp_mono; [by apply IH|]. by intros a w' Hr'.
  - apply wp_bind, wp_check; [by destruct Hr|]. rewrite answered_ok, E.
    by intros []%bool_decide_eq_true.
Qed.

(** What a program can call, on objects it has; [c_drop_...]: the last reference to an
    object goes away. *)
Inductive pycall :=
| c_connect (host : pyobj) (port : Z) (user : pyobj) (protocol : str) (timeout_ms : Z)
| c_service_close (r : nat) | c_is_connected (r : nat) | c_open_session (r : nat)
| c_session_close (r : nat) | c_execute (r : nat) (statement : pyobj)
| c_operation_close (r : nat) | c_cancel (r : nat) | c_get_state (r : nat) | c_get_log (r : nat)
| c_get_profile (r : nat) | c_is_finished (r : nat) | c_wait (r : nat) (timeout : Z)
| c_schema (r : nat) | c_fetchall (r : nat) (batchsize : option Z)
| c_execute_sync (r : nat) (statement : pyobj)
| c_drop_operation (r : nat) | c_drop_session (r : nat) | c_drop_service (r : nat).

Definition run (fuel : nat) (c : pycall) : pym unit :=
  match c with
  | c_connect host port user protocol timeout =>
      Service_cinit PY2 host port user protocol timeout ;; mret ()
  | c_service_close r => Service_close PY2 r
  | c_is_connected r => is_connected r ;; mret ()
  | c_open_session r => open_session PY2 r ;; mret ()
  | c_session_close r => Session_close PY2 r
  | c_execute r statement => execute PY2 r statement ;; mret ()
  | c_operation_close r => Operation_close PY2 r
  | c_cancel r => cancel PY2 r
  | c_get_state r => get_state PY2 r ;; mret ()
  | c_get_log r => get_log PY2 r ;; mret ()
  | c_get_profile r => get_profile PY2 r ;; mret ()
  | c_is_finished r => is_finished r ;; mret ()
  | c_wait r timeout => wait fuel r timeout
  | c_schema r => schema PY2 r ;; mret ()
  | c_fetchall r batchsize => fetchall_internal PY2 fuel r batchsize ;; mret ()
  | c_execute_sync r statement => execute_sync PY2 fuel r statement ;; mret ()
  | c_drop_operation r => dealloc_operation PY2 r
  | c_drop_session r => dealloc_session PY2 r
  | c_drop_service r => dealloc_service PY2 r
  end.

(** The objects exist; one that another has as its parent is referred to. *)
Definition enabled (w : pyworld) (c : pycall) : Prop :=
  match c with
  | c_connect _ _ _ _ _ => True
  | c_service_close r | c_is_connected r | c_open_session r => is_Some (services w !! r)
  | c_session_close r | c_execute r _ | c_execute_sync r _ => is_Some (sessions w !! r)
  | c_operation_close r | c_cancel r | c_get_state r | c_get_log r | c_get_profile r
  | c_is_finished r | c_wait r _ | c_schema r | c_fetchall r _ | c_drop_operation r =>
      is_Some (operations w !! r)
  | c_drop_session r =>
      is_Some (sessions w !! r) ∧ map_Forall (λ _ p, operation_parent p ≠ r) (operations w)
  | c_drop_service r =>
      is_Some (services w !! r) ∧ map_Forall (λ _ s, session_parent s ≠ r) (sessions w)
  end.

Definition no_objects (t : tstate) : pyworld := PyWorld ∅ ∅ ∅ 0 t 0.

(** Calls in any order, one at a time, and changes of the other side between them. *)
Inductive reachable (fuel : nat) : pyworld → Prop :=
| reach_start t : reachable fuel (no_objects t)
| reach_call w c : reachable fuel w → enabled w c → reachable fuel (run fuel c w).2
| reach_other w t : reachable fuel w → reachable fuel (with_remote t w).

Lemma wp_forget {A} (m : pym A) (Q : A → pyworld → Prop) w :
  wp m Q w → (∀ a w', Q a w' → wf w') → wp (m ;; mret ()) (λ _, wf) w.
Proof. intros Hm HQ. apply wp_bind. eapply wp_mono; [done|]. intros a w' Ha. by eapply HQ. Qed.

(** A method that asks one question about an operation. *)
Lemma wp_question {A B} r p (m : Operation.t → tstate → (Status.t * A) * tstate)
    (k : A → pym B) (Q : B → pyworld → Prop) w :
  at_op r p w → (∀ a w', at_op r p w' → wp (k a) Q w') →
  wp (o ← get_op r; '(status, a) ← cxx (m o); check_status PY2 status ;; k a) Q w.
Proof.
  intros Hr Hk. apply wp_bind, (wp_get_op _ p); [done|]. intros o _. apply wp_bind, wp_cxx.
  destruct (m o (remote w)) as [[s a] t]. cbn. apply (at_op_remote _ _ t) in Hr.
  apply wp_bind, wp_check; [by destruct Hr|]. intros _. by apply Hk.
Qed.

Lemma wp_connect host_ port_ user_ protocol timeout_ w :
  wf w → wp (Service_cinit PY2 host_ port_ user_ protocol timeout_) (λ _, wf) w.
Proof.
  intros Hw. unfold Service_cinit. cbv zeta.
  assert (∀ proto, proto = PROTOCOL_V7 ∨ proto = PROTOCOL_V6 → wp (
    host_ ← liftM (b ← tobytes PY2 host_; c_string b);
    port_ ← liftM (c_int port_);
    user_ ← liftM (b ← tobytes PY2 user_; c_string b);
    timeout_ms_ ← liftM (c_int timeout_);
    '(status, sp) ← cxx (Service.Connect host_ port_ timeout_ms_ proto);
    let self := {| service := Some sp; host := host_; port := port_; user := user_;
                   proto_version := proto; timeout_ms := timeout_ms_ |} in
    on_error (check_status PY2 status) (ignore_error (close_service PY2 self)) ;;
    new_service self) (λ _, wf) w) as Hrest.
  { intros proto Hp.
    apply wp_bind, wp_lift; [apply tobytes_defined|done|]. intros h.
    apply wp_bind, wp_lift; [apply c_int_defined|done|]. intros n.
    apply wp_bind, wp_lift; [apply tobytes_defined|done|]. intros u.
    apply wp_bind, wp_lift; [apply c_int_defined|done|]. intros ms. apply wp_bind, wp_cxx.
    set (r := Service.Connect h n ms proto (remote w)).
    assert (∃ c, Service.rpc r.1.2 = Some c) as Hc.
    { by apply Connect_rpc. }
    destruct r as [[status sp] t]. cbn [fst snd] in *. apply (wf_remote t) in Hw.
    apply wp_bind, wp_on_error; [apply only_remote_ignore, only_remote_service|done|]. intros _.
    eapply wp_mono; [apply wf_new_service; [done|]|by intros ?? []].
    destruct Hc as [c Hc]. by exists sp, c. }
  destruct (str_eqb _ _); [by apply Hrest; left|].
  destruct (str_eqb _ _); [by apply Hrest; right|by apply wp_raise].
Qed.

(** What a C++ method leaves of its object. *)
Lemma Open_rpc s config u w : Session.rpc (Session.Open s config u w).1.2 = Session.rpc s.
Proof. unfold Session.Open. rewrite returning_rpc. cbn. by destruct (answered _).2. Qed.

Lemma ExecuteStatement_conn s c conf w :
  let o := (Session.ExecuteStatement s c conf w).1.2 in
  Operation.rpc o = Session.rpc s ∧
  (Operation.open_ o = true → Operation.session_handle o = Session.handle s).
Proof. cbv zeta. rewrite ExecuteStatement_spec. cbn. by destruct (answered _).2. Qed.

Lemma only_remote_session s : only_remote (close_session PY2 s ;; mret ()).
Proof.
  intros w. unfold close_session. destruct (session s) as [sp|].
  - unfold mbind, M_bind, cxx. destruct (Session.Close sp (remote w)) as [[st u] t].
    rewrite check_status_spec. exists t. by destruct (Status.ok st).
  - exists (remote w). by rewrite with_remote_same.
Qed.

Lemma only_remote_operation p : only_remote (close_operation PY2 p ;; mret ()).
Proof.
  intros w. unfold close_operation. destruct (op p) as [o|].
  - unfold mbind, M_bind, cxx. destruct (Operation.Close o (remote w)) as [[st u] t].
    rewrite check_status_spec. exists t. by destruct (Status.ok st).
  - exists (remote w). by rewrite with_remote_same.
Qed.

Lemma wp_open_session r w :
  wf w → is_Some (services w !! r) → wp (open_session PY2 r) (λ _, wf) w.
Proof.
  intros Hw [s Hr]. destruct (wf_services _ Hw _ _ Hr) as [_ (sp&c&Es&Ec)].
  apply wp_bind, (wp_service _ s); [done|]. rewrite Es. apply wp_bind, wp_deref.
  unfold Service.OpenSession. rewrite Ec. cbn [mbind option_bind].
  apply wp_bind, wp_deref, wp_bind, wp_cxx.
  pose proof (Open_rpc (Session.new c) ∅ (user s) (remote w)) as Hrpc.
  destruct (Session.Open _ _ _ _) as [[status s'] t]. cbn [fst snd] in *.
  apply (wf_remote t) in Hw.
  apply wp_bind, wp_on_error; [apply only_remote_ignore, only_remote_session|done|]. intros _.
  eapply wp_mono; [apply wf_new_session; [done|]|by intros ?? []].
  exists s', s, sp. by rewrite Hrpc.
Qed.

Lemma wp_execute r statement w :
  wf w → is_Some (sessions w !! r) →
  wp (execute PY2 r statement) (λ i w', ∃ p, at_op i p w') w.
Proof.
  intros Hw [s Hr]. destruct (wf_sessions _ Hw _ _ Hr) as [_ (sp&_&_&Es&_)].
  apply wp_bind, (wp_session _ s); [done|]. apply wp_bind, wp_lift; [apply tobytes_defined|done|].
  intros c. rewrite Es. apply wp_bind, wp_deref, wp_bind, wp_cxx.
  pose proof (ExecuteStatement_conn sp c ∅ (remote w)) as Hconn. cbv zeta in Hconn.
  destruct (Session.ExecuteStatement _ _ _ _) as [[status o] t]. cbn [fst snd] in *.
  apply (wf_remote t) in Hw.
  apply wp_bind, wp_on_error; [apply only_remote_ignore, only_remote_operation|done|]. intros _.
  eapply wp_mono; [apply wf_new_operation; [done|]|by intros i w' [??]; eexists].
  by exists o, s, sp.
Qed.

Lemma wp_session_close r w :
  wf w → is_Some (sessions w !! r) → wp (Session_close PY2 r) (λ _, wf) w.
Proof.
  intros Hw [s Hr]. destruct (wf_sessions _ Hw _ _ Hr) as [_ (sp&_&_&Es&_)].
  apply wp_bind, (wp_session _ s); [done|]. apply wp_bind. unfold close_session. rewrite Es.
  apply wp_bind, wp_cxx.
  assert (Session.rpc (Session.Close sp (remote w)).1.2 = Session.rpc sp ∧
          Session.handle (Session.Close sp (remote w)).1.2 = Session.handle sp) as Hsame.
  { rewrite Session_Close_spec. destruct (Session.open_ sp); [|done]. cbn.
    by destruct (answered _).2. }
  destruct (Session.Close sp (remote w)) as [[status sp'] t]. cbn [fst snd] in *.
  apply (wf_remote t) in Hw. apply wp_bind, wp_check; [done|]. intros _. apply wp_ret.
  apply (wf_put_session _ s); [done..|]. split; [done|]. exists sp, sp'. by destruct Hsame.
Qed.

Lemma wp_operation_close r p w : at_op r p w → wp (Operation_close PY2 r) (λ _, wf) w.
Proof.
  intros [Hw Hr]. destruct (wf_operations _ Hw _ _ Hr) as [_ (o&_&_&Eo&_)].
  apply wp_bind, (wp_operation _ p); [done|]. apply wp_bind. unfold close_operation. rewrite Eo.
  apply wp_bind, wp_cxx.
  assert (let o' := (Operation.Close o (remote w)).1.2 in
          Operation.rpc o' = Operation.rpc o ∧
          Operation.session_handle o' = Operation.session_handle o ∧
          (Operation.open_ o' = true → Operation.open_ o = true)) as Hsame.
  { cbv zeta. rewrite Operation_Close_spec. destruct (Operation.open_ o) eqn:E; cbn; [|by rewrite E].
    by destruct (answered _).2. }
  destruct (Operation.Close o (remote w)) as [[status o'] t]. cbn [fst snd] in *.
  apply (wf_remote t) in Hw. apply wp_bind, wp_check; [done|]. intros _. apply wp_ret.
  apply (wf_put_operation _ p); [done..|]. split; [done|]. by exists o, o'.
Qed.

Lemma wp_schema r p w : at_op r p w → wp (schema PY2 r) (λ _, wf) w.
Proof.
  intros [Hw Hr]. destruct (wf_operations _ Hw _ _ Hr) as [_ (o&_&_&Eo&_)].
  apply wp_bind, (wp_operation _ p); [done|]. destruct (cached_metadata p); [done|]. rewrite Eo.
  apply wp_bind, wp_deref, wp_bind, wp_cxx.
  destruct (Operation.GetResultSetMetadata _ _ _) as [[status metadata] t]. cbn [fst snd].
  apply (wf_remote t) in Hw. apply wp_bind, wp_check; [done|]. intros _. apply wp_bind.
  apply (wf_put_operation _ p); [done..|]. split; [done|]. by exists o, o.
Qed.

(** The end of an object nobody refers to. *)
Lemma wp_ignore (m : pym unit) (Q : () → pyworld → Prop) w :
  only_remote m → (∀ t, Q () (with_remote t w)) → wp (ignore_error m) Q w.
Proof. intros Hm HQ. unfold wp, ignore_error. destruct (Hm w) as [t ->]. apply HQ. Qed.

Lemma wp_drop_operation r p w : at_op r p w → wp (dealloc_operation PY2 r) (λ _, wf) w.
Proof.
  intros [Hw Hr]. apply wp_bind, (wp_operation _ p); [done|].
  apply wp_bind, wp_ignore; [apply only_remote_operation|]. intros t.
  destruct Hw as [Hv Hs Ho]. split; cbn; [done..|]. by apply map_Forall_delete.
Qed.

Lemma wp_drop_session r w :
  wf w → is_Some (sessions w !! r) → map_Forall (λ _ p, operation_parent p ≠ r) (operations w) →
  wp (dealloc_session PY2 r) (λ _, wf) w.
Proof.
  intros Hw [s Hr] Hc. apply wp_bind, (wp_session _ s); [done|].
  apply wp_bind, wp_ignore; [apply only_remote_session|]. intros t.
  destruct Hw as [Hv Hs Ho]. split; cbn; [done|by apply map_Forall_delete|].
  intros i p Hi. destruct (Ho _ _ Hi) as [? (o&s'&sp&?&?&?&?&?)]. split; [done|].
  exists o, s', sp. rewrite lookup_delete_ne; [done|]. intros E. by apply (Hc _ _ Hi).
Qed.

Lemma wp_drop_service r w :
  wf w → is_Some (services w !! r) → map_Forall (λ _ s, session_parent s ≠ r) (sessions w) →
  wp (dealloc_service PY2 r) (λ _, wf) w.
Proof.
  intros Hw [s Hr] Hc. apply wp_bind, (wp_service _ s); [done|].
  apply wp_bind, wp_ignore; [apply only_remote_service|]. intros t.
  destruct Hw as [Hv Hs Ho]. split; cbn; [by apply map_Forall_delete| |done].
  intros i p Hi. destruct (Hs _ _ Hi) as [? (sp&s'&svp&?&?&?&?)]. split; [done|].
  exists sp, s', svp. rewrite lookup_delete_ne; [done|]. intros E. by apply (Hc _ _ Hi).
Qed.

Lemma wp_fetchall fuel r p batchsize w :
  at_op r p w → wp (fetchall_internal PY2 fuel r batchsize) (λ _, wf) w.
Proof.
  intros Hr. apply wp_bind.
  assert (∀ n, wp (fetch_loop PY2 fuel r n) (λ _, wf) w) as Hf.
  { intros n. eapply wp_mono; [by apply (wp_fetch_loop _ p)|]. by intros ?? []. }
  destruct batchsize as [b|]; [|apply Hf].
  apply wp_lift; [apply c_int_defined|by destruct Hr|done].
Qed.

Lemma run_safe fuel c w : wf w → enabled w c → wp (run fuel c) (λ _, wf) w.
Proof.
  intros Hw. assert (∀ r, is_Some (operations w !! r) → ∃ p, at_op r p w) as Hop.
  { intros r [p Hp]. by exists p. }
  assert (∀ r p, at_op r p w → wf w) as Hw' by by intros r p [].
  assert (∀ {A} (m : pym A), wp m (λ _, wf) w → wp (m ;; mret ()) (λ _, wf) w) as Hforget.
  { intros A m Hm. eapply wp_forget; [exact Hm|done]. }
  destruct c; cbn [enabled run];
    try (intros [p Hr]%Hop).
  - intros _. by apply Hforget, wp_connect.
  - intros [s Hr]. apply wp_bind, (wp_service _ s); [done|]. unfold wp.
    destruct (wf_services _ Hw _ _ Hr) as [_ (sp&c&Es&_)]. unfold close_service. rewrite Es.
    apply wp_bind, wp_cxx. destruct (Service.Close _ _) as [[status u] t].
    apply wp_check; [by apply wf_remote|]. intros _. by apply wf_remote.
  - intros [s Hr]. apply Hforget, wp_bind, (wp_service _ s); [done|].
    destruct (wf_services _ Hw _ _ Hr) as [_ (sp&c&Es&_)]. rewrite Es. by apply wp_bind, wp_deref.
  - intros Hr. by apply Hforget, wp_open_session.
  - intros Hr. by apply wp_session_close.
  - intros Hr. eapply wp_forget; [by apply wp_execute|]. by intros i w' (p&?&_).
  - by apply (wp_operation_close _ p).
  - apply wp_bind, (wp_get_op _ p); [done|]. intros o _. apply wp_bind, wp_cxx.
    destruct (Operation.Cancel _ _) as [[status u] t].
    apply wp_check; [by apply wf_remote|]. intros _. by apply wf_remote.
  - apply Hforget, (wp_question _ p); [done|]. by intros a w' [].
  - apply Hforget, (wp_question _ p); [done|]. intros a w' [].
    by apply wp_lift; [apply frombytes_defined|..].
  - apply Hforget, (wp_question _ p); [done|]. intros a w' [].
    by apply wp_lift; [apply frombytes_defined|..].
  - apply Hforget, (wp_is_finished _ p); [done|]. intros b t. by apply wf_remote.
  - by apply (wp_wait _ p).
  - by apply Hforget, (wp_schema _ p).
  - by apply Hforget, (wp_fetchall _ _ p).
  - intros Hr. apply Hforget, wp_bind. eapply wp_mono; [by apply wp_execute|].
    intros i w' (p&Hp). apply wp_bind. eapply wp_mono; [by apply (wp_wait _ p)|]. done.
  - by apply (wp_drop_operation _ p).
  - intros [Hr Hc]. by apply wp_drop_session.
  - intros [Hr Hc]. by apply wp_drop_service.
Qed.

Lemma wp_wf {A} (m : pym A) w : wp m (λ _, wf) w → wf (m w).2.
Proof. unfold wp. destruct (m w) as [[a|e] w']; [done|by intros []]. Qed.

Lemma reachable_wf fuel w : reachable fuel w → wf w.
Proof.
  induction 1 as [t|w c _ IH Hc|w t _ IH].
  - split; apply map_Forall_empty.
  - by apply wp_wf, run_safe.
  - by apply wf_remote.
Qed.


(** ** The life of a session and of an operation *)

Definition with_operation (r : nat) (p : PyOperation) (w : pyworld) : pyworld :=
  PyWorld (services w) (sessions w) (<[ r := p ]> (operations w)) (next_object w) (remote w) (slept w).

Definition closed_operation (o : Operation.t) : Operation.t :=
  Operation.make (Operation.rpc o) (Operation.handle o) (Operation.session_handle o) false.
Definition with_op (o : Operation.t) (p : PyOperation) : PyOperation :=
  {| op := Some o; cached_metadata := cached_metadata p; operation_parent := operation_parent p |}.

Lemma with_op_same o p : op p = Some o → with_op o p = p.
Proof. destruct p. cbn. by intros ->. Qed.

Lemma with_operation_same r p w : operations w !! r = Some p → with_operation r p w = w.
Proof. intros Hr. unfold with_operation. rewrite insert_id by done. by destruct w. Qed.

Lemma Operation_close_eq r p o w : operations w !! r = Some p → op p = Some o →
  Operation_close PY2 r w
  = let '((status, o'), t) := Operation.Close o (remote w) in
    if Status.ok status then (Ok (), with_operation r (with_op o' p) (with_remote t w))
    else (Raise (native_error PY2 status), with_remote t w).
Proof.
  intros Hr Ho. unfold Operation_close, get_operation, getM, mbind, M_bind. rewrite Hr. cbn [deref].
  unfold mret, M_ret, close_operation. rewrite Ho. unfold mbind, M_bind, cxx.
  destruct (Operation.Close o (remote w)) as [[status o'] t]. rewrite check_status_spec.
  by destruct (Status.ok status).
Qed.

Lemma Operation_close_closed r p o w : operations w !! r = Some p → op p = Some o →
  Operation.open_ o = false → Operation_close PY2 r w = (Ok (), w).
Proof.
  intros Hr Ho Hc. rewrite (Operation_close_eq _ _ _ _ Hr Ho), Operation_Close_spec, Hc. cbn.
  by rewrite with_op_same, with_remote_same, with_operation_same by done.
Qed.

(** C5: Closing an operation sends one CloseOperation if it is open. When the server agrees
    the operation is closed, and from then on [close] does nothing at all. When it does not,
    or cannot be reached, its status is raised and the operation is as open as before: the
    next [close] asks again. *)
Theorem operation_close_once r p o w :
  operations w !! r = Some p → op p = Some o →
  let rpc := bare (rpc_CloseOperation (Operation.rpc o) (Operation.handle o)) (remote w) in
  if Operation.open_ o then
    match (answered rpc.1).2 with
    | Some _ =>
        let w' := with_operation r (with_op (closed_operation o) p) (with_remote rpc.2 w) in
        Operation_close PY2 r w = (Ok (), w') ∧
        ∀ t, Operation_close PY2 r (with_remote t w') = (Ok (), with_remote t w')
    | None => Operation_close PY2 r w = (Raise (native_error PY2 (answered rpc.1).1), with_remote rpc.2 w)
    end
  else Operation_close PY2 r w = (Ok (), w).
Proof.
  intros Hr Ho. cbv zeta. destruct (Operation.open_ o) eqn:Hopen; [|by apply (Operation_close_closed _ p o)].
  set (rpc := bare _ _).
  assert (Operation_close PY2 r w = match (answered rpc.1).2 with
    | Some _ => (Ok (), with_operation r (with_op (closed_operation o) p) (with_remote rpc.2 w))
    | None => (Raise (native_error PY2 (answered rpc.1).1), with_remote rpc.2 w) end) as E.
  { rewrite (Operation_close_eq _ _ _ _ Hr Ho), Operation_Close_spec, Hopen. cbv zeta. fold rpc.
    pose proof (answered_ok rpc.1) as Hok. destruct (answered rpc.1) as [s [a|]]; cbn in *; by rewrite Hok. }
  destruct (answered rpc.1).2; [|done]. split; [done|]. intros t.
  apply (Operation_close_closed _ (with_op (closed_operation o) p) (closed_operation o));
    [apply lookup_insert_eq|done|done].
Qed.

(** A statement just executed: its operation, no schema yet, the session it belongs to. *)
Definition opened (o : Operation.t) (r : nat) : PyOperation :=
  {| op := Some o; cached_metadata := None; operation_parent := r |}.

(** C15: [execute] sends the statement, UTF-8 encoded, once, in its session. On success there is
    a new operation, open, with the handle the server gave it and the session as
    its parent; otherwise the status is raised, nothing is sent to close the operation
    that is not open, and no object is left of it. *)
Theorem execute_outcome r s sp statement c w :
  sessions w !! r = Some s → session s = Some sp → tobytes PY2 statement = Ok (Bytes c) →
  let rpc := rpc_ExecuteStatement (Session.rpc sp) (Session.handle sp) c ∅ (remote w) in
  execute PY2 r statement w
  = match (answered rpc.1).2 with
    | Some h =>
        let o := Operation.make (Session.rpc sp) h (Session.handle sp) true in
        (Ok (next_object w),
         PyWorld (services w) (sessions w) (<[ next_object w := opened o r ]> (operations w))
           (S (next_object w)) rpc.2 (slept w))
    | None => (Raise (native_error PY2 (answered rpc.1).1), with_remote rpc.2 w)
    end.
Proof.
  intros Hr Hs Hb. cbv zeta.
  unfold execute, get_session, getM, liftM, cxx, on_error, mbind, M_bind. rewrite Hr. cbn [deref].
  unfold mret, M_ret. rewrite Hs, Hb. cbn [mbind res_bind c_string deref].
  unfold mret, M_ret. rewrite ExecuteStatement_spec. cbv zeta.
  set (rpc := rpc_ExecuteStatement _ _ _ _ _). pose proof (answered_ok rpc.1) as Hok.
  destruct (answered rpc.1) as [st [h|]]; cbn in *; by rewrite check_status_spec, Hok.
Qed.

(** ** The schema *)
Definition with_metadata (m : Schema) (p : PyOperation) : PyOperation :=
  {| op := op p; cached_metadata := Some m; operation_parent := operation_parent p |}.

Lemma schema_hit r p m w :
  operations w !! r = Some p → cached_metadata p = Some m → schema PY2 r w = (Ok m, w).
Proof.
  intros Hr Hm. unfold schema, get_operation, getM, mbind, M_bind. rewrite Hr. cbn [deref].
  unfold mret, M_ret. by rewrite Hm.
Qed.

Lemma schema_miss r p o w :
  operations w !! r = Some p → op p = Some o → cached_metadata p = None →
  let rpc := rpc_GetResultSetMetadata (Operation.rpc o) (Operation.handle o) (remote w) in
  schema PY2 r w
  = match (answered rpc.1).2 with
    | Some columns =>
        let m := of_TColumnDesc <$> columns in
        (Ok m, with_operation r (with_metadata m p) (with_remote rpc.2 w))
    | None => (Raise (native_error PY2 (answered rpc.1).1), with_remote rpc.2 w)
    end.
Proof.
  intros Hr Ho Hm. cbv zeta.
  unfold schema, get_operation, getM, mbind, M_bind. rewrite Hr. cbn [deref].
  unfold mret, M_ret. rewrite Hm, Ho. unfold cxx, mbind, M_bind. cbn [deref].
  unfold mret, M_ret. rewrite GetResultSetMetadata_spec. cbv zeta.
  set (rpc := rpc_GetResultSetMetadata _ _ _). pose proof (answered_ok rpc.1) as Hok.
  destruct (answered rpc.1) as [st [columns|]]; cbn in *; rewrite check_status_spec, Hok; [|done].
  unfold with_metadata. by rewrite Ho.
Qed.

(** The metadata of an operation is asked for until the server has once given it; then
    [schema] is that answer, converted, for good, and asks nothing. A failure is raised
    and not cached. *)
Theorem schema_cached r p o w :
  operations w !! r = Some p → op p = Some o →
  let rpc := rpc_GetResultSetMetadata (Operation.rpc o) (Operation.handle o) (remote w) in
  match cached_metadata p, (answered rpc.1).2 with
  | Some m, _ => schema PY2 r w = (Ok m, w)
  | None, Some columns =>
      let m := of_TColumnDesc <$> columns in
      let w' := with_operation r (with_metadata m p) (with_remote rpc.2 w) in
      schema PY2 r w = (Ok m, w') ∧
      ∀ t, schema PY2 r (with_remote t w') = (Ok m, with_remote t w')
  | None, None => schema PY2 r w = (Raise (native_error PY2 (answered rpc.1).1), with_remote rpc.2 w)
  end.
Proof.
  intros Hr Ho. cbv zeta. destruct (cached_metadata p) as [m|] eqn:Hm; [by apply (schema_hit _ p)|].
  rewrite (schema_miss _ _ _ _ Hr Ho Hm). cbv zeta.
  destruct (answered _).2 as [columns|]; [|done]. split; [done|]. intros t.
  eapply schema_hit; [apply lookup_insert_eq|done].
Qed.

(** The Python class of a type goes with the C++ class. *)
Definition matches (t : PyColumnType) : Prop :=
  match t with
  | PyPrimitiveType b => ∃ id, b = PrimitiveType id ∧ id ≠ DECIMAL ∧ id ≠ CHAR ∧ id ≠ VARCHAR
  | PyCharacterType b n => b = CharacterType (type_id b) n ∧ (type_id b = CHAR ∨ type_id b = VARCHAR)
  | PyDecimalType b p s => b = DecimalType DECIMAL p s
  end.

Lemma desc_type_of d :
  ∃ t, desc_type (of_TColumnDesc d) = Ok t ∧ matches t ∧ base t = TTypeDescToColumnType (typeDesc d).
Proof.
  destruct (converted_casts d) as [Hc Hd]. unfold desc_type. cbv zeta in *.
  change (ColumnDesc.type (of_TColumnDesc d)) with (TTypeDescToColumnType (typeDesc d)) in *.
  revert Hc Hd. unfold ColumnDesc.GetCharacterType, ColumnDesc.GetDecimalType.
  change (ColumnDesc.type (of_TColumnDesc d)) with (TTypeDescToColumnType (typeDesc d)).
  destruct (TTypeDescToColumnType (typeDesc d)) as [id|id n|id q s]; cbn [type_id]; intros Hc Hd.
  - assert (id ≠ DECIMAL) by (intros E; by apply Hd in E as [? [=]]).
    assert (id ≠ CHAR) by (intros E; assert (id = CHAR ∨ id = VARCHAR) as E' by auto; by apply Hc in E' as [? [=]]).
    assert (id ≠ VARCHAR) by (intros E; assert (id = CHAR ∨ id = VARCHAR) as E' by auto; by apply Hc in E' as [? [=]]).
    rewrite !bool_decide_eq_false_2 by done. eexists. split; [reflexivity|]. split; [|done]. by exists id.
  - assert (id = CHAR ∨ id = VARCHAR) as Hid by (apply Hc; by eexists).
    rewrite bool_decide_eq_false_2 by (by destruct Hid as [-> | ->]).
    eexists. split; [by destruct Hid as [-> | ->]|]. done.
  - assert (id = DECIMAL) as -> by (apply Hd; by eexists).
    rewrite bool_decide_eq_true_2 by done. by eexists.
Qed.


(** ** The data frame *)
Section frames.
Context (datetimes decimal : Type) (to_datetime : ndarray → res pyexn datetimes)
  (Decimal_ : pyval → res pyexn decimal).

Abbreviation column := (frame_column datetimes decimal).
Abbreviation convert := (convert_column PY2 datetimes decimal to_datetime Decimal_).

(** [d[k]] *)
Fixpoint dict_get (k : pyobj) (d : list (pyobj * column)) : option column :=
  match d with
  | [] => None
  | (k', v) :: d => if decide (k = k') then Some v else dict_get k d
  end.

Lemma dict_get_set k k' v d :
  dict_get k (dict_set datetimes decimal k' v d) = if decide (k = k') then Some v else dict_get k d.
Proof.
  induction d as [|[k1 v1] d IH]; [done|]. cbn [dict_set].
  destruct (decide (k' = k1)) as [<-|Hne]; cbn [dict_get]; [by destruct (decide (k = k'))|].
  rewrite IH. destruct (decide (k = k1)) as [->|]; [by rewrite decide_False by congruence|done].
Qed.

(** The dictionary after a number of assignments. *)
Definition assign (results : list (pyobj * column)) (d : list (pyobj * column)) :=
  foldl (λ d x, dict_set datetimes decimal x.1 x.2 d) d results.

Lemma dict_get_assign k results : ∀ d,
  dict_get k (assign results d)
  = match last (filter (λ x, x.1 = k) results) with Some x => Some x.2 | None => dict_get k d end.
Proof.
  induction results as [|[k' v] results IH] using rev_ind; intros d; [done|].
  unfold assign. rewrite foldl_app. cbn [foldl]. rewrite dict_get_set, filter_app.
  cbn [fst snd]. destruct (decide (k = k')) as [->|Hne].
  - rewrite filter_cons_True, filter_nil by done. by rewrite last_snoc.
  - rewrite filter_cons_False by (cbn; congruence). rewrite filter_nil, app_nil_r. apply IH.
Qed.

Lemma convert_columns_spec batches s indices : ∀ names d,
  convert_columns PY2 datetimes decimal to_datetime Decimal_ batches s indices names d
  = match mapM (convert batches s) indices with
    | Ok results => Ok (assign results d, names ++ results.*1)
    | Raise e => Raise e
    end.
Proof.
  induction indices as [|i indices IH]; intros names d; cbn [convert_columns];
    [cbn; by rewrite app_nil_r|].
  cbn [mapM]. destruct (convert batches s i) as [[name v]|e]; [|done]. cbn [mbind res_bind].
  rewrite IH. destruct (mapM _ indices) as [results|e]; [|done]. cbn.
  by rewrite <- (assoc_L (++)).
Qed.

(** C11: A whole result: [fetchall_pandas] fetches all batches, then asks for the schema, and
    hands to pandas the columns in the order of the schema, each converted from all of
    the batches; a column that cannot be converted is the only reason to fail. The columns go
    through a dictionary: where several have the same name, all of them show the data of
    the last one. *)
Theorem fetchall_pandas_frame fuel r p o w batches columns t t' st :
  operations w !! r = Some p → op p = Some o → cached_metadata p = None →
  fetches o 1024 (remote w) batches t → length batches ≤ fuel →
  rpc_GetResultSetMetadata (Operation.rpc o) (Operation.handle o) t = (Ok (st, columns), t') →
  succeeded st = true →
  let s := of_TColumnDesc <$> columns in
  let w' := with_operation r (with_metadata s p) (with_remote t' w) in
  let frame := fetchall_pandas PY2 datetimes decimal to_datetime Decimal_ fuel r None w in
  match mapM (convert batches s) (seq 0 (length columns)) with
  | Ok results => ∃ d, frame = (Ok (d, results.*1), w') ∧
      ∀ k, dict_get k d = snd <$> last (filter (λ x, x.1 = k) results)
  | Raise e => frame = (Raise e, w')
  end.
Proof.
  intros Hr Ho Hm Hf Hl E Hs. cbv zeta.
  assert (has_op w r o) as Hop by by exists p.
  assert (fetchall_internal PY2 fuel r None w = (Ok batches, with_remote t w)) as E1.
  { change (fetchall_internal PY2 fuel r None w) with (fetch_loop PY2 fuel r 1024 w). by apply (fetch_loop_complete PY2 r 1024 o (remote w)). }
  assert (schema PY2 r (with_remote t w) = (Ok (of_TColumnDesc <$> columns),
    with_operation r (with_metadata (of_TColumnDesc <$> columns) p) (with_remote t' w))) as E2.
  { rewrite (schema_miss r p o) by done. cbv zeta. cbn [remote with_remote].
    rewrite E. cbn [fst snd]. by rewrite (answered_success st columns Hs). }
  unfold fetchall_pandas, liftM, mbind, M_bind. rewrite E1, E2, convert_columns_spec, length_fmap.
  destruct (mapM _ _) as [results|e]; [|done].
  exists (assign results []). split; [done|]. intros k. rewrite dict_get_assign.
  by destruct (last _).
Qed.
End frames.
End objects.

(** ** Concrete runs *)
Definition session_started : pyworld :=
  foldl (λ w c, (run false 5 c w).2) (no_objects (repeat (state_reply 1) 4))
    [c_connect (Text (py "localhost")) 21050 (Text (py "me")) (py "v7") 0; c_open_session 0;
     c_execute 1 (Text (py "select 1")); c_operation_close 2].


Lemma operation_close_once_witness :
  let w' := with_operation 2 (with_op (closed_operation open_op) open_operation_) (world_with []) in
  Operation_close false 2 (world_with [state_reply 0]) = (Ok (), w') ∧
  ∀ t, Operation_close false 2 (with_remote t w') = (Ok (), with_remote t w').
Proof.
  exact (operation_close_once false 2 open_operation_ open_op
    (world_with [state_reply 0]) eq_refl eq_refl).
Defined.

Lemma execute_outcome_witness :
  (execute false 1 (Text (py "select 1")) (world_with [state_reply 9])).1 = Ok 3 ∧
  execute false 1 (Text (py "select")) (world_with [error_reply])
  = (Raise (NativeException (py "C++ error: scripted")), world_with []).
Proof.
  split.
  - rewrite (execute_outcome false 1 open_session_ open_sp _ (py "select 1")) by reflexivity. reflexivity.
  - rewrite (execute_outcome false 1 open_session_ open_sp _ (py "select")) by reflexivity. reflexivity.
Defined.

Definition int_column (name : str) : TColumnDesc := {|
  columnName := name;
  typeDesc := [{| primitiveEntry := Some {| type_ := 3; qualifiers := ∅ |} |}];
  tposition := 1; tcomment := [] |}.

Lemma schema_cached_witness :
  let m := [of_TColumnDesc (int_column (py "x"))] in
  let w' := with_operation 2 (with_metadata m open_operation_) (world_with []) in
  schema false 2 (world_with [columns_reply [int_column (py "x")]]) = (Ok m, w') ∧
  ∀ t, schema false 2 (with_remote t w') = (Ok m, with_remote t w').
Proof.
  exact (schema_cached false 2 open_operation_ open_op
    (world_with [columns_reply [int_column (py "x")]]) eq_refl eq_refl).
Defined.

(** Two columns of the same name: the data of the first are lost. *)
Definition twice_x : list TColumnDesc := [int_column (py "x"); int_column (py "x")].
Definition two_columns (n m : Z) : ColumnarRowSet := [i32Val [n] []; i32Val [m] []].
Definition result_world : pyworld := world_with
  [rows_reply (two_columns 1 10) true; rows_reply (two_columns 2 20) false; columns_reply twice_x].

Lemma fetchall_pandas_frame_witness :
  ∃ d, (fetchall_pandas false unit unit (λ _, Ok ()) (λ _, Ok ()) 2 2 None result_world).1
       = Ok (d, [Text (py "x"); Text (py "x")]) ∧
  ∀ k, dict_get unit unit k d
       = snd <$> last (filter (λ x, x.1 = k)
           [(Text (py "x"), FArray unit unit (IntArray NPY_INT32 [1; 2]%Z));
            (Text (py "x"), FArray unit unit (IntArray NPY_INT32 [10; 20]%Z))]).
Proof.
  destruct (fetchall_pandas_frame false unit unit (λ _, Ok ()) (λ _, Ok ()) 2 2 open_operation_ open_op result_world
    [two_columns 1 10; two_columns 2 20] twice_x [columns_reply twice_x] []
    (status_of (columns_reply twice_x))) as (d&E&Hd); [reflexivity|reflexivity|reflexivity| |apply le_n|
    reflexivity|reflexivity|].
  { eapply fetches_more; [reflexivity|reflexivity|]. by eapply fetches_last. }
  exists d. rewrite E. split; [reflexivity|exact Hd].
Defined.
