(* ===== verification/HsPrint.v ===== *)
(** * hs2client's C++ core: printing a result

    util.cc, which prints the result of an operation as a table, over an arbitrary server.
    A [Column] pointer is one of the classes behind it, so that a cast to another class can
    be told: its use is undefined, and so is reading behind a column or negating the least
    64-bit integer. A [size_t] has 64 bits and an [int] 32; a column has fewer rows than an [int]
    can count. *)

From S2P Require Import Prelude PyStr HsTypes HsColumns HsClient HsDemo.

(** ** Sizes *)
Definition size_t (z : Z) : Z := (z mod 2 ^ 64)%Z.
Definition int_of_size_t (z : Z) : Z :=
  let z := (z mod 2 ^ 32)%Z in if (z <? 2 ^ 31)%Z then z else (z - 2 ^ 32)%Z.
(** [s.size()] *)
Definition size (s : str) : Z := Z.of_nat (length s).
(** [v.data()[i]] *)
Definition at_ {A} (v : list A) (i : nat) : res pyexn A :=
  match v !! i with Some a => Ok a | None => Raise Undefined end.

Definition NULL_SYMBOL : str := py "NULL".
Definition TRUE_SYMBOL : str := py "true".
Definition FALSE_SYMBOL : str := py "false".

(** ** Columns of any class *)
Inductive AnyColumn :=
| BoolCol (c : Column bool)
| ByteCol (c : Column Z)
| Int16Col (c : Column Z)
| Int32Col (c : Column Z)
| Int64Col (c : Column Z)
| StringCol (c : Column bytes).

Definition any_length (c : AnyColumn) : nat :=
  match c with
  | BoolCol c => length (data c)
  | ByteCol c | Int16Col c | Int32Col c | Int64Col c => length (data c)
  | StringCol c => length (data c)
  end.
Definition any_IsNull (c : AnyColumn) (i : nat) : res pyexn bool :=
  match c with
  | BoolCol c => IsNull c i
  | ByteCol c | Int16Col c | Int32Col c | Int64Col c => IsNull c i
  | StringCol c => IsNull c i
  end.

(** The C style casts. *)
Definition as_bool (c : AnyColumn) : res pyexn (Column bool) :=
  match c with BoolCol c => Ok c | _ => Raise Undefined end.
Definition as_byte (c : AnyColumn) : res pyexn (Column Z) :=
  match c with ByteCol c => Ok c | _ => Raise Undefined end.
Definition as_int16 (c : AnyColumn) : res pyexn (Column Z) :=
  match c with Int16Col c => Ok c | _ => Raise Undefined end.
Definition as_int32 (c : AnyColumn) : res pyexn (Column Z) :=
  match c with Int32Col c => Ok c | _ => Raise Undefined end.
Definition as_int64 (c : AnyColumn) : res pyexn (Column Z) :=
  match c with Int64Col c => Ok c | _ => Raise Undefined end.
Definition as_string (c : AnyColumn) : res pyexn (Column bytes) :=
  match c with StringCol c => Ok c | _ => Raise Undefined end.

Record PrintInfo := { column : AnyColumn; max_size : Z }.

(** ** Widths *)

(** The digits of a number that is not negative; each step drops one of at most 19. *)
Fixpoint num_digits (fuel : nat) (n : Z) : res pyexn Z :=
  match fuel with
  | O => Raise Diverges
  | S fuel =>
      if (n <? 10)%Z then Ok 1%Z
      else k ← num_digits fuel (n / 10)%Z; Ok (1 + k)%Z
  end.
Definition NumSpaces (n : Z) : res pyexn Z :=
  if (n <? 0)%Z then
    if (n =? - 2 ^ 63)%Z then Raise Undefined else k ← num_digits 19 (- n)%Z; Ok (1 + k)%Z
  else num_digits 19 n.

Fixpoint bool_max_size (bool_col : Column bool) (j : nat) (values : list bool) (max_size : Z)
    : res pyexn Z :=
  match values with
  | [] => Ok max_size
  | v :: values =>
      null ← IsNull bool_col j;
      if negb null && negb v then Ok (Z.max max_size (size FALSE_SYMBOL))
      else bool_max_size bool_col (S j) values max_size
  end.

Fixpoint int_max_size (column : Column Z) (i : nat) (values : list Z) (max_size : Z)
    : res pyexn Z :=
  match values with
  | [] => Ok max_size
  | v :: values =>
      null ← IsNull column i;
      n ← (if negb null then NumSpaces v else Ok (size NULL_SYMBOL));
      int_max_size column (S i) values (Z.max max_size n)
  end.
Definition GetIntMaxSize (column : Column Z) (column_name : str) : res pyexn Z :=
  int_max_size column 0 (data column) (size column_name).

Fixpoint string_max_size (string_col : Column bytes) (j : nat) (values : list bytes) (max_size : Z)
    : res pyexn Z :=
  match values with
  | [] => Ok max_size
  | v :: values =>
      null ← IsNull string_col j;
      string_max_size string_col (S j) values
        (Z.max max_size (if negb null then size v else size NULL_SYMBOL))
  end.

(** ** Printing *)
Section printing.
Context `{Thrift}.

(** The server and what has been written to the stream. *)
Record screen := { server : tstate; out : str }.
Definition print A : Type := M screen pyexn A.

Definition emit (s : str) : print unit :=
  modifyM (λ w, {| server := server w; out := out w ++ s |}).
(** A call of a method of the operation. *)
Definition on_server {A} (m : tstate → A * tstate) : print A := λ w,
  let '(a, t) := m (server w) in (Ok a, {| server := t; out := out w |}).

Definition AddTableBreak (columns : list PrintInfo) : print unit :=
  forM columns (λ c,
    emit (py "+") ;;
    emit (replicate (Z.to_nat (size_t (max_size c + 2))) (ch "-"))) ;;
  emit (py "+\n").

(** One turn of the loop that collects the columns. *)
Definition collect_column (results : ColumnarRowSet) (i : nat) (desc : ColumnDesc.t)
    : print (list PrintInfo) :=
  let column_name := ColumnDesc.column_name desc in
  let integers (T : TColumn → Column Z) (class : Column Z → AnyColumn) : print (list PrintInfo) :=
    col ← liftM (GetCol T results i);
    m ← liftM (GetIntMaxSize col column_name);
    mret [{| column := class col; max_size := m |}] in
  match type_id (ColumnDesc.type desc) with
  | BOOLEAN =>
      col ← liftM (GetCol BoolColumn results i);
      m ← liftM (bool_max_size col 0 (data col) (Z.max (size column_name) (size TRUE_SYMBOL)));
      mret [{| column := BoolCol col; max_size := m |}]
  | TINYINT => integers ByteColumn ByteCol
  | SMALLINT => integers Int16Column Int16Col
  | INT => integers Int32Column Int32Col
  | BIGINT => integers Int64Column Int64Col
  | STRING_ =>
      col ← liftM (GetCol StringColumn results i);
      m ← liftM (string_max_size col 0 (data col) (size column_name));
      mret [{| column := StringCol col; max_size := m |}]
  | BINARY =>
      col ← liftM (GetCol BinaryColumn results i);
      mret [{| column := StringCol col; max_size := size column_name |}]
  | _ =>
      emit (py "Unrecognized ColumnType = " ++ ToString (ColumnDesc.type desc)) ;;
      mret []
  end.

Fixpoint collect_columns (results : ColumnarRowSet) (i : nat) (column_descs : list ColumnDesc.t)
    : print (list PrintInfo) :=
  match column_descs with
  | [] => mret []
  | desc :: column_descs =>
      c ← collect_column results i desc;
      columns ← collect_columns results (S i) column_descs;
      mret (c ++ columns)
  end.

(** A text, and blanks up to the width: no blanks if the text is wider. *)
Definition emit_cell (max_size : Z) (text : str) : print unit :=
  emit (py "| " ++ text ++ py " ") ;;
  emit (replicate (Z.to_nat (int_of_size_t (max_size - size text))) (ch " ")).

Definition print_header (columns : list PrintInfo) (column_descs : list ColumnDesc.t) : print unit :=
  forM (imap pair columns) (λ '(i, c),
    desc ← liftM (at_ column_descs i);
    emit_cell (max_size c) (ColumnDesc.column_name desc)) ;;
  emit (py "|\n").

(** What goes into the [stringstream]; the type is that of the descriptor. *)
Definition cell_value (c : AnyColumn) (desc : ColumnDesc.t) (i : nat) : res pyexn str :=
  null ← any_IsNull c i;
  if (null : bool) then Ok NULL_SYMBOL else
  match type_id (ColumnDesc.type desc) with
  | BOOLEAN =>
      c ← as_bool c; b ← at_ (data c) i; Ok (if (b : bool) then TRUE_SYMBOL else FALSE_SYMBOL)
  | TINYINT => c ← as_byte c; v ← at_ (data c) i; Ok (str_of_Z v)
  | SMALLINT => c ← as_int16 c; v ← at_ (data c) i; Ok (str_of_Z v)
  | INT => c ← as_int32 c; v ← at_ (data c) i; Ok (str_of_Z v)
  | BIGINT => c ← as_int64 c; v ← at_ (data c) i; Ok (str_of_Z v)
  | STRING_ | BINARY => c ← as_string c; at_ (data c) i
  | _ => Ok (py "unrecognized type")
  end.

Definition print_row (columns : list PrintInfo) (column_descs : list ColumnDesc.t) (i : nat)
    : print unit :=
  forM (imap pair columns) (λ '(j, c),
    desc ← liftM (at_ column_descs j);
    value_str ← liftM (cell_value (column c) desc i);
    emit_cell (max_size c) value_str) ;;
  emit (py "|\n").

(** The part of the loop's body behind the calls. *)
Definition print_table (results : ColumnarRowSet) (column_descs : list ColumnDesc.t) : print unit :=
  columns ← collect_columns results 0 column_descs;
  AddTableBreak columns ;;
  print_header columns column_descs ;;
  AddTableBreak columns ;;
  first ← liftM (at_ columns 0);
  forM (seq 0 (any_length (column first))) (print_row columns column_descs) ;;
  AddTableBreak columns.

Fixpoint print_loop (fuel : nat) (op : Operation.t) (results : option ColumnarRowSet)
    (has_more_rows : bool) : print unit :=
  if has_more_rows then
    match fuel with
    | O => raiseM Diverges
    | S fuel =>
        '(s, (results, has_more_rows)) ← on_server (Operation.FetchNext op results has_more_rows);
        if negb (Status.ok s) then emit (Status.GetMessage s) else
        '(s, column_descs) ← on_server (Operation.GetResultSetMetadata op []);
        if negb (Status.ok s) then emit (Status.GetMessage s) else
        if length column_descs =? 0 then emit (py "No result set to print.\n") else
        rows ← liftM (match results with Some rows => Ok rows | None => Raise Undefined end);
        print_table rows column_descs ;;
        print_loop fuel op results has_more_rows
    end
  else mret ().

Definition PrintResults (fuel : nat) (op : Operation.t) : print unit :=
  print_loop fuel op None true.
End printing.

(** * Theorems *)

(** ** Widths *)
Lemma pow10_S k : (10 ^ Z.of_nat (S k) = 10 * 10 ^ Z.of_nat k)%Z.
Proof. rewrite Nat2Z.inj_succ, Z.pow_succ_r; lia. Qed.

Lemma num_digits_spec fuel : ∀ n k,
  (k < fuel)%nat → (0 ≤ n < 10 ^ Z.of_nat (S k))%Z → (10 ^ Z.of_nat k ≤ n ∨ k = O)%Z →
  num_digits fuel n = Ok (Z.of_nat (S k)).
Proof.
  induction fuel as [|fuel IH]; intros n k Hk Hn Hl; [lia|]. cbn [num_digits].
  destruct (Z.ltb_spec n 10) as [Hs|Hs].
  - destruct k as [|k]; [done|]. exfalso. destruct Hl as [Hl|?]; [|lia].
    rewrite pow10_S in Hl. pose proof (Z.pow_pos_nonneg 10 (Z.of_nat k) ltac:(lia) ltac:(lia)). lia.
  - destruct k as [|k]; [cbn in Hn; lia|]. rewrite (IH (n / 10)%Z k).
    + cbn. f_equal. lia.
    + lia.
    + split; [apply Z.div_pos; lia|]. apply Z.div_lt_upper_bound; [lia|].
      rewrite pow10_S in Hn. lia.
    + left. apply Z.div_le_lower_bound; [lia|]. destruct Hl as [Hl|]; [|done].
      by rewrite pow10_S in Hl.
Qed.

Lemma num_digits_pos p :
  (Z.pos p < 2 ^ 63)%Z → num_digits 19 (Z.pos p) = Ok (size (str_of_Z (Z.pos p))).
Proof.
  intros Hp. pose proof (str_of_Z_length p) as Hl. unfold size in *.
  destruct (str_of_Z_head p) as (c&s&E&_). rewrite E in *. cbn [length] in *.
  rewrite Nat2Z.inj_succ, Z.sub_1_r, Z.pred_succ in Hl.
  apply num_digits_spec; [|rewrite Nat2Z.inj_succ; lia|left; lia].
  destruct (decide (length s < 19)) as [|Hs]; [done|].
  assert (10 ^ 19 ≤ 10 ^ Z.of_nat (length s))%Z by (apply Z.pow_le_mono_r; lia). lia.
Qed.

(** The width that is computed for a number is that of its decimal numeral. *)
Lemma NumSpaces_spec v :
  (- 2 ^ 63 < v < 2 ^ 63)%Z → NumSpaces v = Ok (size (str_of_Z v)).
Proof.
  intros Hv. unfold NumSpaces. destruct v as [|p|p].
  - done.
  - cbn [Z.ltb]. apply num_digits_pos. lia.
  - rewrite (proj2 (Z.ltb_lt _ _)), (proj2 (Z.eqb_neq _ _)) by lia.
    rewrite Pos2Z.opp_neg, num_digits_pos by lia. cbn [mbind res_bind]. f_equal.
    unfold size. change (str_of_Z (Z.neg p)) with (ch "-" :: str_of_Z (Z.pos p)). cbn [length]. lia.
Qed.

(** The widest of some texts, and at least [m]. *)
Definition widest (m : Z) (texts : list str) : Z := foldl (λ m s, Z.max m (size s)) m texts.
(** The text of a cell. *)
Definition shown {A} (f : A → str) (cell : option A) : str := from_option f NULL_SYMBOL cell.
Definition show_bool (b : bool) : str := if b then TRUE_SYMBOL else FALSE_SYMBOL.

Lemma widest_least m texts : (m ≤ widest m texts)%Z.
Proof.
  unfold widest. revert m. induction texts as [|t texts IH]; intros m; cbn; [lia|].
  etransitivity; [|apply IH]. lia.
Qed.
Lemma widest_text m texts t : t ∈ texts → (size t ≤ widest m texts)%Z.
Proof.
  unfold widest. revert m. induction texts as [|x texts IH]; intros m; [by intros ?%elem_of_nil|].
  cbn. intros [<-|Ht]%elem_of_cons; [|by apply IH]. etransitivity; [|apply widest_least]. lia.
Qed.
Lemma widest_same m texts : Forall (λ t, size t ≤ m)%Z texts → widest m texts = m.
Proof.
  unfold widest. induction 1 as [|t texts Ht _ IH]; [done|]. cbn.
  by rewrite Z.max_l by done.
Qed.

Lemma shown_bool_size (l : list (option bool)) :
  Forall (λ t, size t ≤ 5)%Z (shown show_bool <$> l).
Proof. apply Forall_fmap, Forall_true. by intros [[]|]. Qed.

(** A column whose bitmap covers the values from position [j] on. *)
Definition covered {A} (c : Column A) (j : nat) (values : list A) : Prop :=
  j + length values ≤ 8 * S (length (nulls_ c)).

Lemma covered_cons {A} (c : Column A) j v values :
  covered c j (v :: values) → IsNull c j = Ok (bit c j) ∧ covered c (S j) values.
Proof.
  unfold covered. cbn [length]. intros Hc. split; [|lia].
  rewrite IsNull_bit. destruct (Nat.ltb_spec j (8 * S (length (nulls_ c)))); [done|lia].
Qed.

Lemma readable_covered {A} (c : Column A) : readable c = true → covered c 0 (data c).
Proof. by intros Hr%Nat.leb_le. Qed.

(** The integers that can be printed: all but the least one of 64 bits. *)
Definition printable (cell : option Z) : Prop :=
  from_option (λ v, - 2 ^ 63 < v < 2 ^ 63)%Z True cell.

Lemma int_max_size_spec c values : ∀ j m,
  covered c j values → Forall printable (cells_from c j values) →
  int_max_size c j values m = Ok (widest m (shown str_of_Z <$> cells_from c j values)).
Proof.
  induction values as [|v values IH]; intros j m Hc Hp; [done|].
  apply covered_cons in Hc as [En Hc]. rewrite cells_from_cons in Hp |- *.
  apply Forall_cons in Hp as [Hv Hp]. cbn [int_max_size]. rewrite En. cbn [mbind res_bind].
  destruct (bit c j); cbn [negb mbind res_bind]; [by apply IH|].
  rewrite NumSpaces_spec by done. cbn [mbind res_bind]. by apply IH.
Qed.

Lemma string_max_size_spec c values : ∀ j m,
  covered c j values →
  string_max_size c j values m = Ok (widest m (shown id <$> cells_from c j values)).
Proof.
  induction values as [|v values IH]; intros j m Hc; [done|].
  apply covered_cons in Hc as [En Hc]. rewrite cells_from_cons. cbn [string_max_size].
  rewrite En. cbn [mbind res_bind]. destruct (bit c j); cbn [negb]; by apply IH.
Qed.

(** The loop over booleans may stop at the first false: nothing is wider. *)
Lemma bool_max_size_spec c values : ∀ j m,
  covered c j values → (4 ≤ m)%Z →
  bool_max_size c j values m = Ok (widest m (shown show_bool <$> cells_from c j values)).
Proof.
  induction values as [|v values IH]; intros j m Hc Hm; [done|].
  apply covered_cons in Hc as [En Hc]. rewrite cells_from_cons. cbn [bool_max_size].
  rewrite En. cbn [mbind res_bind].
  assert (Hno : ∀ s, (size s ≤ 4)%Z →
    widest m (s :: (shown show_bool <$> cells_from c (S j) values))
    = widest m (shown show_bool <$> cells_from c (S j) values)).
  { intros s Hs. unfold widest. cbn [foldl]. by rewrite Z.max_l by lia. }
  rewrite fmap_cons. destruct (bit c j), v; cbn [negb andb shown from_option show_bool];
    [rewrite Hno by done; by apply IH..|].
  unfold widest at 1. cbn [foldl]. f_equal. symmetry. apply widest_same.
  eapply Forall_impl; [apply shown_bool_size|]. intros t Ht.
  etransitivity; [exact Ht|]. apply Z.le_max_r.
Qed.

(** ** A table

    What is to be seen of a column: its title, the texts of its cells, and how wide it is at
    least. *)
Record field := { title : str; entries : list str; least : Z }.
Definition width (f : field) : Z := widest (Z.max (size (title f)) (least f)) (entries f).
Definition rule (fields : list field) : str :=
  concat ((λ f, py "+" ++ replicate (Z.to_nat (width f + 2)) (ch "-")) <$> fields) ++ py "+\n".
(** A line: each field shows a text, in its width. *)
Definition line (text : field → str) (fields : list field) : str :=
  concat ((λ f, py "| " ++ text f ++ py " " ++
                replicate (Z.to_nat (width f - size (text f))) (ch " ")) <$> fields) ++ py "|\n".
Definition entry (i : nat) (f : field) : str := default [] (entries f !! i).
Definition table (fields : list field) (n : nat) : str :=
  rule fields ++ line title fields ++ rule fields ++
  concat ((λ i, line (entry i) fields) <$> seq 0 n) ++ rule fields.

(** The column that is described and sent is the field, of [n] cells, and its class and its
    cells are those of the column that is printed. *)
Inductive shows (n : nat) : ColumnDesc.t → TColumn → field → Prop :=
| shows_bool d v nulls :
    type_id (ColumnDesc.type d) = BOOLEAN → readable (TypedColumn nulls v) = true →
    length v = n →
    shows n d (boolVal v nulls)
      {| title := ColumnDesc.column_name d;
         entries := shown show_bool <$> cells (TypedColumn nulls v); least := 4 |}
| shows_int d T (mk : list Z → bytes → TColumn) v nulls :
    type_id (ColumnDesc.type d) = T →
    (T, mk) ∈ [(TINYINT, byteVal); (SMALLINT, i16Val); (INT, i32Val); (BIGINT, i64Val)] →
    readable (TypedColumn nulls v) = true → length v = n →
    Forall printable (cells (TypedColumn nulls v)) →
    shows n d (mk v nulls)
      {| title := ColumnDesc.column_name d;
         entries := shown str_of_Z <$> cells (TypedColumn nulls v); least := 0 |}
| shows_string d v nulls :
    type_id (ColumnDesc.type d) = STRING_ → readable (TypedColumn nulls v) = true →
    length v = n →
    shows n d (stringVal v nulls)
      {| title := ColumnDesc.column_name d;
         entries := shown id <$> cells (TypedColumn nulls v); least := 0 |}.

(** ** What a computation writes *)
Section facts.
Context `{Thrift}.

Definition say (s : str) (w : screen) : screen := {| server := server w; out := out w ++ s |}.
(** It returns [a] and writes [s], and does not call the server. *)
Definition writes {A} (m : print A) (a : A) (s : str) : Prop := ∀ w, m w = (Ok a, say s w).

Lemma writes_eq {A} (m : print A) a s t : writes m a s → s = t → writes m a t.
Proof. by intros Hm <-. Qed.

Lemma writes_ret {A} (a : A) : writes (mret a) a [].
Proof. intros []. unfold say. cbn. by rewrite app_nil_r. Qed.
Lemma writes_lift {A} (r : res pyexn A) a : r = Ok a → writes (liftM r) a [].
Proof. intros -> []. unfold say, liftM. cbn. by rewrite app_nil_r. Qed.
Lemma writes_emit s : writes (emit s) () s.
Proof. done. Qed.

Lemma writes_bind {A B} (m : print A) (f : A → print B) a b s t :
  writes m a s → writes (f a) b t → writes (m ≫= f) b (s ++ t).
Proof.
  intros Hm Hf w. rewrite (bind_run _ _ _ _ _ (Hm w)), Hf. unfold say. cbn. by rewrite app_assoc.
Qed.

(** A value that is looked up. *)
Lemma writes_look {A B} (r : res pyexn A) (f : A → print B) a b t :
  r = Ok a → writes (f a) b t → writes (liftM r ≫= f) b t.
Proof. intros Hr Hf. exact (writes_bind _ _ _ _ _ _ (writes_lift _ _ Hr) Hf). Qed.

Lemma writes_for {A} (l : list A) (body : A → print unit) g :
  (∀ x, x ∈ l → writes (body x) () (g x)) → writes (forM l body) () (concat (g <$> l)).
Proof.
  induction l as [|x l IH]; intros Hb; [apply writes_ret|]. rewrite fmap_cons. cbn [forM concat].
  eapply writes_bind; [apply Hb; by left|]. apply IH. intros y Hy. apply Hb. by right.
Qed.

(** The loops over the positions of a list, beside another list. *)
Lemma writes_for_indexed {A B C} (l : list A) (l' : list B) (body : C → print unit) g :
  length l = length l' → ∀ h : nat → A → C,
  (∀ j x y, l !! j = Some x → l' !! j = Some y → writes (body (h j x)) () (g y)) →
  writes (forM (imap h l) body) () (concat (g <$> l')).
Proof.
  revert l'. induction l as [|x l IH]; intros [|y l'] Hl h Hb; try done; [apply writes_ret|].
  rewrite fmap_cons. cbn [imap forM concat]. eapply writes_bind; [by apply (Hb 0)|].
  apply IH; [by injection Hl|]. intros j a b Ha Hb'. by apply (Hb (S j)).
Qed.

(** ** The parts of a table *)

(** Widths that an [int] can hold. *)
Definition narrow (f : field) : Prop := (width f < 2 ^ 31)%Z.

Lemma size_nonneg s : (0 ≤ size s)%Z.
Proof. unfold size. lia. Qed.

Lemma width_nonneg f : (0 ≤ width f)%Z.
Proof.
  unfold width. pose proof (widest_least (Z.max (size (title f)) (least f)) (entries f)).
  pose proof (size_nonneg (title f)). lia.
Qed.
Lemma width_title f : (size (title f) ≤ width f)%Z.
Proof. unfold width. etransitivity; [|apply widest_least]. lia. Qed.
Lemma width_entry f i : (size (entry i f) ≤ width f)%Z.
Proof.
  unfold entry. destruct (entries f !! i) as [t|] eqn:E; [|apply width_nonneg].
  apply widest_text. by eapply list_elem_of_lookup_2.
Qed.

Definition slot (text : field → str) (f : field) : str :=
  py "| " ++ text f ++ py " " ++ replicate (Z.to_nat (width f - size (text f))) (ch " ").

Lemma emit_cell_writes text f :
  narrow f → (size (text f) ≤ width f)%Z → writes (emit_cell (width f) (text f)) () (slot text f).
Proof.
  intros Hn Hs. unfold emit_cell, slot, narrow in *. pose proof (size_nonneg (text f)).
  eapply writes_eq; [eapply writes_bind; apply writes_emit|]. rewrite <- !app_assoc.
  do 4 f_equal. unfold int_of_size_t. rewrite Z.mod_small by lia.
  by rewrite (proj2 (Z.ltb_lt _ _)) by lia.
Qed.

(** A column that has been collected for a field. *)
Record collected (n : nat) (d : ColumnDesc.t) (c : PrintInfo) (f : field) : Prop := {
  collected_title : title f = ColumnDesc.column_name d;
  collected_width : max_size c = width f;
  collected_length : any_length (column c) = n;
  collected_cell i : i < n → cell_value (column c) d i = Ok (entry i f) }.

Lemma AddTableBreak_writes n descs columns fields :
  Forall3 (collected n) descs columns fields → Forall narrow fields →
  writes (AddTableBreak columns) () (rule fields).
Proof.
  intros Hc Hn. unfold AddTableBreak, rule. eapply writes_bind; [|apply writes_emit].
  replace ((λ f, _) <$> fields) with ((λ c, py "+" ++ replicate (Z.to_nat (size_t (max_size c + 2))) (ch "-")) <$> columns).
  - apply writes_for. intros c _. eapply writes_bind; apply writes_emit.
  - induction Hc as [|d c f ds cs fs Hd _ IH]; [done|]. apply Forall_cons in Hn as [Hf Hn].
    rewrite !fmap_cons, IH by done. do 3 f_equal. rewrite (collected_width _ _ _ _ Hd).
    pose proof (width_nonneg f). unfold narrow, size_t in *. by rewrite Z.mod_small by lia.
Qed.

(** The loop of the header and that of a row, which look up the descriptor beside the column. *)
Lemma line_writes n descs columns fields text (body : ColumnDesc.t → PrintInfo → print unit) :
  Forall3 (collected n) descs columns fields → Forall narrow fields →
  (∀ d c f, collected n d c f → narrow f → writes (body d c) () (slot text f)) →
  writes (forM (imap pair columns) (λ '(j, c), desc ← liftM (at_ descs j); body desc c) ;;
          emit (py "|\n")) () (line text fields).
Proof.
  intros Hc Hn Hb. unfold line. eapply writes_bind; [|apply writes_emit].
  pose proof (Forall3_length_lm _ _ _ _ Hc) as Hl1. pose proof (Forall3_length_lr _ _ _ _ Hc) as Hl2.
  apply writes_for_indexed; [congruence|]. intros j c f Ec Ef.
  destruct (Forall3_lookup_m _ _ _ _ _ _ Hc Ec) as (d&f'&Ed&Ef'&Hd).
  rewrite Ef in Ef'. injection Ef' as <-.
  apply writes_look with d; [unfold at_; by rewrite Ed|]. apply Hb; [done|].
  by eapply Forall_lookup_1 in Hn.
Qed.

Lemma print_header_writes n descs columns fields :
  Forall3 (collected n) descs columns fields → Forall narrow fields →
  writes (print_header columns descs) () (line title fields).
Proof.
  intros Hc Hn. eapply line_writes; [done..|]. intros d c f Hd Hf.
  rewrite (collected_width _ _ _ _ Hd), <- (collected_title _ _ _ _ Hd).
  apply (emit_cell_writes title); [done|apply width_title].
Qed.

Lemma print_row_writes n descs columns fields i :
  i < n → Forall3 (collected n) descs columns fields → Forall narrow fields →
  writes (print_row columns descs i) () (line (entry i) fields).
Proof.
  intros Hi Hc Hn. unfold print_row.
  apply (line_writes n descs columns fields (entry i) (λ desc c,
    value_str ← liftM (cell_value (column c) desc i); emit_cell (max_size c) value_str)); [done..|].
  intros d c f Hd Hf. apply writes_look with (entry i f); [by apply (collected_cell _ _ _ _ Hd)|].
  rewrite (collected_width _ _ _ _ Hd).
  apply (emit_cell_writes (entry i)); [done|apply width_entry].
Qed.

(** A cell of a typed column, and its text. *)
Lemma entry_cell {A} (f : A → str) (c : Column A) t m i :
  readable c = true → i < length (data c) →
  ∃ v, IsNull c i = Ok (bit c i) ∧ data c !! i = Some v ∧
       entry i {| title := t; entries := shown f <$> cells c; least := m |}
       = if bit c i then NULL_SYMBOL else f v.
Proof.
  intros Hr%Nat.leb_le Hi. destruct (lookup_lt_is_Some_2 _ _ Hi) as [v Ev]. exists v.
  split_and!; [|done|].
  - rewrite IsNull_bit. destruct (Nat.ltb_spec i (8 * S (length (nulls_ c)))); [done|lia].
  - unfold entry, cells, cells_from. cbn [entries].
    rewrite list_lookup_fmap, list_lookup_imap, Ev. cbn. by destruct (bit c i).
Qed.

(** The field of a typed column. *)
Definition field_of {A} (f : A → str) (c : Column A) (t : str) (m : Z) : field :=
  {| title := t; entries := shown f <$> cells c; least := m |}.

Lemma collected_of {A} (f : A → str) (c : Column A) any d m n :
  readable c = true → length (data c) = n →
  any_length any = length (data c) → (∀ j, any_IsNull any j = IsNull c j) →
  (∀ j v, data c !! j = Some v → IsNull c j = Ok false → cell_value any d j = Ok (f v)) →
  let F := field_of f c (ColumnDesc.column_name d) m in
  collected n d {| column := any; max_size := width F |} F.
Proof.
  intros Hr <- Hl Hn Hv F. split; [done|done|done|]. intros j Hj. cbn [column].
  destruct (entry_cell f c (ColumnDesc.column_name d) m j Hr Hj) as (v&En&Ev&E).
  unfold F, field_of. rewrite E. destruct (bit c j); [|by apply Hv].
  unfold cell_value. by rewrite Hn, En.
Qed.

Lemma GetCol_ok {A} (T : TColumn → Column A) (rows : ColumnarRowSet) i col :
  rows !! i = Some col → GetCol T rows i = Ok (T col).
Proof. intros E. unfold GetCol. by rewrite E. Qed.

Lemma GetIntMaxSize_width nulls v t :
  readable (TypedColumn nulls v) = true → Forall printable (cells (TypedColumn nulls v)) →
  GetIntMaxSize (TypedColumn nulls v) t = Ok (width (field_of str_of_Z (TypedColumn nulls v) t 0)).
Proof.
  intros Hr Hp. unfold GetIntMaxSize.
  rewrite int_max_size_spec by (try apply readable_covered; done).
  unfold width. cbn [title least entries field_of]. by rewrite Z.max_l by apply size_nonneg.
Qed.

(** The column is looked up, its width computed, and its cells are printed by their class. *)
Ltac collects Ht width_spec :=
  eexists; split;
    [eapply writes_look; [by apply GetCol_ok|]; eapply writes_look; [width_spec|apply writes_ret]
    |apply collected_of; [done|done|done|done|];
     intros j x Ex En; unfold cell_value;
     replace (any_IsNull _ j) with (@Ok pyexn bool false) by (symmetry; exact En); rewrite Ht;
     cbn [mbind res_bind as_bool as_byte as_int16 as_int32 as_int64 as_string]; unfold at_;
     cbn [data BoolColumn ByteColumn Int16Column Int32Column Int64Column StringColumn] in Ex |- *;
     by rewrite Ex].

Lemma collect_column_writes n rows i d col f :
  shows n d col f → rows !! i = Some col →
  ∃ c, writes (collect_column rows i d) [c] [] ∧ collected n d c f.
Proof.
  intros Hs Ei. destruct Hs as [d v nulls Ht Hr Hl|d T mk v nulls Ht Hin Hr Hl Hp|d v nulls Ht Hr Hl].
  all: unfold collect_column; rewrite Ht.
  - collects Ht ltac:(apply bool_max_size_spec; [by apply readable_covered|exact (Z.le_max_r _ 4)]).
  - repeat (apply elem_of_cons in Hin as [[= -> ->]|Hin]); [..|by apply elem_of_nil in Hin].
    all: collects Ht ltac:(by apply GetIntMaxSize_width).
  - assert (width (field_of id (TypedColumn nulls v) (ColumnDesc.column_name d) 0)
      = widest (size (ColumnDesc.column_name d)) (shown id <$> cells (TypedColumn nulls v))) as Ew.
    { unfold width. cbn [title least entries field_of]. by rewrite Z.max_l by apply size_nonneg. }
    collects Ht ltac:(rewrite string_max_size_spec by (by apply readable_covered); exact (f_equal Ok (eq_sym Ew))).
Qed.

Lemma collect_columns_writes n descs cols fields :
  Forall3 (shows n) descs cols fields → ∀ before,
  ∃ columns, writes (collect_columns (before ++ cols) (length before) descs) columns [] ∧
             Forall3 (collected n) descs columns fields.
Proof.
  induction 1 as [|d col f descs cols fields Hs _ IH]; intros before.
  - exists []. split; [apply writes_ret|constructor].
  - destruct (collect_column_writes n (before ++ col :: cols) (length before) d col f Hs)
      as (c&Hc&Hd); [by apply list_lookup_middle|].
    destruct (IH (before ++ [col])) as (columns&Hw&Hall).
    rewrite <- app_assoc, length_app in Hw. cbn [length app] in Hw. rewrite Nat.add_1_r in Hw.
    exists (c :: columns). split; [|by constructor].
    apply writes_eq with ([] ++ [] ++ []); [|done].
    eapply writes_bind; [exact Hc|]. eapply writes_bind; [exact Hw|apply writes_ret].
Qed.

Lemma print_table_writes n descs rows fields :
  Forall3 (shows n) descs rows fields → fields ≠ [] → Forall narrow fields →
  writes (print_table rows descs) () (table fields n).
Proof.
  intros Hs Hne Hn. destruct (collect_columns_writes n descs rows fields Hs []) as (columns&Hw&Hc).
  unfold print_table. apply writes_eq with ([] ++ table fields n); [|done]. unfold table.
  eapply writes_bind; [exact Hw|]. eapply writes_bind; [by eapply AddTableBreak_writes|].
  eapply writes_bind; [by eapply print_header_writes|].
  eapply writes_bind; [by eapply AddTableBreak_writes|].
  destruct columns as [|c columns]; [by inversion Hc; subst|].
  apply writes_look with c; [done|].
  eapply writes_bind; [|by eapply AddTableBreak_writes].
  replace (any_length (column c)) with n.
  - apply writes_for. intros i Hi%elem_of_seq. apply print_row_writes with n; [lia|done..].
  - inversion Hc as [|? ? ? ? ? ? Hd]; subst. by destruct Hd.
Qed.

(** All lines of a table are equally long, the rules included. *)
Definition line_length (fields : list field) : Z :=
  (foldr (λ f n, width f + 3 + n) 2 fields)%Z.

Lemma size_app s t : (size (s ++ t) = size s + size t)%Z.
Proof. unfold size. rewrite length_app. lia. Qed.
Lemma size_replicate n c : size (replicate n c) = Z.of_nat n.
Proof. unfold size. by rewrite length_replicate. Qed.

Lemma rule_size fields : size (rule fields) = line_length fields.
Proof.
  unfold rule. induction fields as [|f fields IH]; [done|]. rewrite fmap_cons. cbn [concat line_length foldr].
  rewrite <- app_assoc, size_app, IH, size_app, size_replicate. pose proof (width_nonneg f).
  change (size (py "+")) with 1%Z. unfold line_length. lia.
Qed.
Lemma line_size text fields :
  (∀ f, size (text f) ≤ width f)%Z → size (line text fields) = line_length fields.
Proof.
  intros Ht. unfold line. induction fields as [|f fields IH]; [done|]. rewrite fmap_cons.
  cbn [concat line_length foldr]. rewrite <- app_assoc, size_app, IH, !size_app, size_replicate.
  specialize (Ht f). change (size (py "| ")) with 2%Z. change (size (py " ")) with 1%Z.
  unfold line_length. lia.
Qed.

(** ** All batches

    What the server answers while an operation is printed: batches that can be shown, and
    the message that ends the output, if there is one. *)
Definition metadata_rpc (op : Operation.t) := rpc_GetResultSetMetadata (Operation.rpc op) (Operation.handle op).

(** One turn: a batch, its columns, and whether there is more. *)
Definition batch_shown (op : Operation.t) (t : tstate) (fields : list field) (n : nat) (more : bool)
    (t2 : tstate) : Prop :=
  ∃ st rows t1 st' cols,
    fetch_rpc op Operation.DEFAULT_MAX_ROWS 0 t = (Ok (st, (rows, more)), t1) ∧ succeeded st = true ∧
    metadata_rpc op t1 = (Ok (st', cols), t2) ∧ succeeded st' = true ∧
    Forall3 (shows n) (of_TColumnDesc <$> cols) rows fields ∧ fields ≠ [] ∧ Forall narrow fields.

Inductive prints (op : Operation.t) : tstate → list (list field * nat) → str → tstate → Prop :=
| prints_last t fields n t1 :
    batch_shown op t fields n false t1 → prints op t [(fields, n)] [] t1
| prints_more t fields n t1 l message t2 :
    batch_shown op t fields n true t1 → prints op t1 l message t2 →
    prints op t ((fields, n) :: l) message t2
| prints_fetch_error t t1 :
    (answered (fetch_rpc op Operation.DEFAULT_MAX_ROWS 0 t).1).2 = None →
    (fetch_rpc op Operation.DEFAULT_MAX_ROWS 0 t).2 = t1 →
    prints op t [] (Status.GetMessage (answered (fetch_rpc op Operation.DEFAULT_MAX_ROWS 0 t).1).1) t1
| prints_metadata_error t st rows more t1 t2 :
    fetch_rpc op Operation.DEFAULT_MAX_ROWS 0 t = (Ok (st, (rows, more)), t1) → succeeded st = true →
    (answered (metadata_rpc op t1).1).2 = None → (metadata_rpc op t1).2 = t2 →
    prints op t [] (Status.GetMessage (answered (metadata_rpc op t1).1).1) t2
| prints_no_columns t st rows more t1 st' t2 :
    fetch_rpc op Operation.DEFAULT_MAX_ROWS 0 t = (Ok (st, (rows, more)), t1) → succeeded st = true →
    metadata_rpc op t1 = (Ok (st', []), t2) → succeeded st' = true →
    prints op t [] (py "No result set to print.\n") t2.

Lemma writes_then {A} (m : print unit) s (k : print A) w : 
  writes m () s → (m ;; k) w = k (say s w).
Proof. intros Hm. by rewrite (bind_run _ _ _ _ _ (Hm w)). Qed.

Lemma bind_server {A B} (m : tstate → A * tstate) (f : A → print B) w :
  (on_server m ≫= f) w = f (m (server w)).1 {| server := (m (server w)).2; out := out w |}.
Proof. unfold on_server, mbind, M_bind. by destruct (m (server w)). Qed.

Lemma print_step fuel op results w t fields n more t1 :
  batch_shown op t fields n more t1 → server w = t →
  ∃ results', print_loop (S fuel) op results true w
  = print_loop fuel op results' more {| server := t1; out := out w ++ table fields n |}.
Proof.
  intros (st&rows&t0&st'&cols&Ef&Hs&Em&Hs'&Hsh&Hne&Hn) <-. exists (Some rows).
  cbn [print_loop]. rewrite bind_server. unfold Operation.FetchNext. rewrite Fetch_spec. cbv zeta.
  cbn [FetchOrientationToTFetchOrientation]. rewrite Ef. cbn [fst snd answered].
  rewrite TStatusToStatus_ok, Hs. cbn [negb]. rewrite bind_server, GetResultSetMetadata_spec.
  cbv zeta. cbn [server]. unfold metadata_rpc in Em. rewrite Em. cbn [fst snd answered out].
  rewrite TStatusToStatus_ok, Hs'. cbn [negb from_option].
  destruct (length (of_TColumnDesc <$> cols) =? 0)%nat eqn:E0.
  - apply Nat.eqb_eq, nil_length_inv in E0. rewrite E0 in Hsh. by inversion Hsh; subst.
  - change (liftM _ ≫= ?f) with (f rows). cbn beta.
    rewrite (writes_then _ _ _ _ (print_table_writes n _ _ _ Hsh Hne Hn)). done.
Qed.

Lemma print_loop_prints op : ∀ t l message t', prints op t l message t' →
  ∀ fuel results w, server w = t → length l < fuel →
  print_loop fuel op results true w
  = (Ok (), {| server := t';
               out := out w ++ concat ((λ '(fields, n), table fields n) <$> l) ++ message |}).
Proof.
  induction 1 as [t fields n t1 Hb|t fields n t1 l message t2 Hb _ IH|t t1 Ef <-
                 |t st rows more t1 t2 Ef Hs Em <-|t st rows more t1 st' t2 Ef Hs Em Hs'];
    intros fuel results w Hw Hf; (destruct fuel as [|fuel]; [lia|]); cbn [length] in Hf.
  - destruct (print_step fuel op results w t fields n false t1 Hb Hw) as [r ->].
    destruct fuel; cbn; by rewrite !app_nil_r.
  - destruct (print_step fuel op results w t fields n true t1 Hb Hw) as [r ->].
    rewrite IH by (done || lia). rewrite fmap_cons. cbn [concat out]. by rewrite <- !app_assoc.
  - cbn [print_loop]. rewrite bind_server. unfold Operation.FetchNext. rewrite Fetch_spec, Hw.
    cbv zeta. cbn [FetchOrientationToTFetchOrientation fst snd]. rewrite answered_ok, Ef. done.
  - cbn [print_loop]. rewrite bind_server. unfold Operation.FetchNext. rewrite Fetch_spec, Hw.
    cbv zeta. cbn [FetchOrientationToTFetchOrientation]. rewrite Ef. cbn [fst snd answered].
    rewrite TStatusToStatus_ok, Hs. cbn [negb]. rewrite bind_server, GetResultSetMetadata_spec.
    cbv zeta. cbn [server fst snd out]. fold (metadata_rpc op). rewrite answered_ok, Em. done.
  - cbn [print_loop]. rewrite bind_server. unfold Operation.FetchNext. rewrite Fetch_spec, Hw.
    cbv zeta. cbn [FetchOrientationToTFetchOrientation]. rewrite Ef. cbn [fst snd answered].
    rewrite TStatusToStatus_ok, Hs. cbn [negb]. rewrite bind_server, GetResultSetMetadata_spec.
    cbv zeta. cbn [server fst snd out]. fold (metadata_rpc op). rewrite Em.
    cbn [fst snd answered]. rewrite TStatusToStatus_ok, Hs'. done.
Qed.

(** C13: [PrintResults] writes one table for each batch of the server, in order, and ends with
    the last batch or with the message of the first call that fails. A table has a line for
    each row, in which each column shows the text of its cell, and all lines and rules of a
    table are equally long, because the widths that are computed are those of the widest
    texts. It is so when the columns are booleans, integers and strings whose null bitmaps
    cover their values and no integer is the least one of 64 bits; more turns than batches are
    never needed. *)
Theorem print_results_spec op t l message t' :
  prints op t l message t' → ∀ fuel before, length l < fuel →
  PrintResults fuel op {| server := t; out := before |}
  = (Ok (), {| server := t';
               out := before ++ concat ((λ '(fields, n), table fields n) <$> l) ++ message |}) ∧
  Forall (λ '(fields, n), ∀ i,
    size (rule fields) = line_length fields ∧ size (line title fields) = line_length fields ∧
    size (line (entry i) fields) = line_length fields) l.
Proof.
  intros Hp fuel before Hf. split; [by eapply print_loop_prints|].
  apply Forall_true. intros [fields n] i. split_and!.
  - apply rule_size.
  - apply line_size, width_title.
  - apply line_size. intros f. apply width_entry.
Qed.

(** ** Where it fails *)

(** The types [PrintResults] has no column for. *)
Definition unrecognized (d : ColumnDesc.t) : Prop :=
  type_id (ColumnDesc.type d)
    ∉ [BOOLEAN; TINYINT; SMALLINT; INT; BIGINT; STRING_; BINARY].

Lemma collect_unrecognized rows descs : Forall unrecognized descs → ∀ i,
  ∃ s, writes (collect_columns rows i descs) [] s.
Proof.
  induction 1 as [|d descs Hd _ IH]; intros i; [exists []; apply writes_ret|].
  destruct (IH (S i)) as [s Hs].
  assert (writes (collect_column rows i d) []
    (py "Unrecognized ColumnType = " ++ ToString (ColumnDesc.type d))) as Hc.
  { unfold unrecognized, collect_column in *. revert Hd.
    generalize (ToString (ColumnDesc.type d)) as name.
    destruct (type_id (ColumnDesc.type d)); intros name Hd;
      try (exfalso; apply Hd; by repeat constructor);
      (eapply writes_eq; [eapply writes_bind; [apply writes_emit|apply writes_ret]|by rewrite app_nil_r]). }
  eexists. cbn [collect_columns].
  eapply writes_bind; [exact Hc|]. eapply writes_bind; [exact Hs|apply writes_ret].
Qed.

(** A result whose columns are all of other types, a single DOUBLE, TIMESTAMP or DECIMAL among
    them, is not printed: the first of no columns is asked for its length. *)
Theorem unrecognized_undefined rows descs w :
  Forall unrecognized descs → (print_table rows descs w).1 = Raise Undefined.
Proof.
  intros Hu. destruct (collect_unrecognized rows descs Hu 0) as [s Hs]. unfold print_table.
  rewrite (bind_run _ _ _ _ _ (Hs w)). cbn -[py]. unfold AddTableBreak, print_header.
  cbn [forM imap]. unfold mbind, M_bind. done.
Qed.
End facts.

(** The integer whose width cannot be computed, because its opposite is no 64-bit integer. *)
Lemma NumSpaces_least : NumSpaces (- 2 ^ 63) = Raise Undefined.
Proof. reflexivity. Qed.

(** Runs with the scripted server. *)
Definition desc_of (name : str) (type : Z) : TColumnDesc := {|
  columnName := name;
  typeDesc := [{| primitiveEntry := Some {| type_ := type; qualifiers := ∅ |} |}];
  tposition := 1; tcomment := [] |}.
Definition printed (replies : list reply) : res pyexn unit * str :=
  let '(r, w) := PrintResults 9 (Operation.new ()) {| server := replies; out := [] |} in (r, out w).

Definition two_columns : list TColumnDesc := [desc_of (py "id") 3; desc_of (py "name") 7].
Definition first_rows : ColumnarRowSet :=
  [i32Val [7; -12; 0]%Z [4%N]; stringVal [py "ab"; py "x"; py "hello"] [2%N]].
Definition last_rows : ColumnarRowSet := [i32Val [1]%Z [0%N]; stringVal [py "y"] [0%N]].
Definition two_batches : list reply :=
  [rows_reply first_rows true; columns_reply two_columns;
   rows_reply last_rows false; columns_reply two_columns].

(** What a user sees. *)
Example printed_tables : printed two_batches
  = (Ok (), py "+------+-------+\n| id   | name  |\n+------+-------+\n| 7    | ab    |\n| -12  | NULL  |\n| NULL | hello |\n+------+-------+\n+----+------+\n| id | name |\n+----+------+\n| 1  | y    |\n+----+------+\n").
Proof. vm_compute. reflexivity. Qed.

Definition first_fields : list field :=
  [{| title := py "id"; entries := shown str_of_Z <$> cells (TypedColumn [4%N] [7; -12; 0]%Z); least := 0 |};
   {| title := py "name"; entries := shown id <$> cells (TypedColumn [2%N] [py "ab"; py "x"; py "hello"]);
      least := 0 |}].
Definition last_fields : list field :=
  [{| title := py "id"; entries := shown str_of_Z <$> cells (TypedColumn [0%N] [1]%Z); least := 0 |};
   {| title := py "name"; entries := shown id <$> cells (TypedColumn [0%N] [py "y"]); least := 0 |}].

(** A column of another type before the others shifts them: the integers are shown under the
    title of the doubles, as an unrecognized type, *)
Example shifted_titles :
  printed [rows_reply [doubleVal [nan] [0%N]; i32Val [7]%Z [0%N]] false;
           columns_reply [desc_of (py "d") 6; desc_of (py "i") 3]]
  = (Ok (), py "Unrecognized ColumnType = DOUBLE+---+\n| d |\n+---+\n| unrecognized type |\n+---+\n").
Proof. vm_compute. reflexivity. Qed.

(** and a string is read as the integers before it. *)
Example shifted_types :
  (printed [rows_reply [doubleVal [nan] [0%N]; i32Val [7]%Z [0%N]; stringVal [py "x"] [0%N]] false;
            columns_reply [desc_of (py "d") 6; desc_of (py "i") 3; desc_of (py "s") 7]]).1
  = Raise Undefined.
Proof. vm_compute. reflexivity. Qed.

(** A BINARY column, whose values are never read, is empty; beside another one its values are
    read behind the end. *)
Example binary_beside :
  (printed [rows_reply [i32Val [7]%Z [0%N]; binaryVal [py "x"] [0%N]] false;
            columns_reply [desc_of (py "i") 3; desc_of (py "b") 9]]).1
  = Raise Undefined.
Proof. vm_compute. reflexivity. Qed.

Lemma print_results_spec_witness :
  prints (Operation.new ()) two_batches [(first_fields, 3); (last_fields, 1)] [] [] ∧
  PrintResults 3 (Operation.new ()) {| server := two_batches; out := [] |}
  = (Ok (), {| server := [];
               out := concat ((λ '(fields, n), table fields n)
                 <$> [(first_fields, 3); (last_fields, 1)]) ++ [] |}).
Proof.
  assert (prints (Operation.new ()) two_batches [(first_fields, 3); (last_fields, 1)] [] []) as Hp.
  { eapply prints_more; [|apply prints_last].
    all: eexists _, _, _, _, _; repeat (split; [first [reflexivity|done]|]).
    all: split; [|split; [done|repeat constructor]].
    all: constructor; [|constructor; [|constructor]].
    all: first [apply shows_string; done
               |apply (shows_int _ (of_TColumnDesc (desc_of (py "id") 3)) INT i32Val); [done|by repeat constructor|done|done|repeat constructor]]. }
  split; [exact Hp|].
  exact (proj1 (print_results_spec (Operation.new ()) two_batches _ [] [] Hp 3 [] ltac:(cbn; lia))).
Defined.
